(* ===== verification/_CoqProject ===== *)
-Q . S2P
Prelude.v
Errors.v
Accounts.v
MathUtils.v
OfferPricing.v
Runtime.v
World.v
Approval.v
TokenUtils.v
OfferHandlers.v
MarketInfo.v
Buffer.v
Vaults.v
Redemption.v
TakeOffer.v
PropAmmMath.v
PropAmm.v
Governance.v
Program.v
Lifecycle.v
Borsh.v
Entrypoint.v
Client.v
Harness.v
FuzzTest.v
Frames.v
Samples.v
MarketFacts.v
BufferFacts.v
AccountFacts.v
RedemptionFacts.v
RedemptionInvariant.v
ProgramFacts.v
AuthorityFacts.v
ScheduleFacts.v
GovernanceFacts.v
TypedFacts.v
StoreInvariant.v
OfferFacts.v
LegacyFacts.v
HardWallFacts.v
PropAmmFacts.v
SwapFacts.v
ApprovalFacts.v
ViewFacts.v
VaultFacts.v
VectorFacts.v
LifecycleFacts.v
ClientFacts.v
EntryFacts.v
ClientTypes.v
Panics.v
PanicFacts.v
UnitTests.v
HarnessFacts.v
FuzzFacts.v
FuzzStart.v
