(* ===== verification/Prelude.v ===== *)
(** * OnRe on-chain program: verification library

    The OnRe program ([src/programs/onreapp/src/], a Solana program written with
    Anchor) sells and redeems the token ONyc.  This library models its instructions
    as executable functions and proves what they guarantee.

    ** The program

    - Offers sell one token for another at a price that grows along pricing vectors
      ([instructions/offer/]); an offer may demand an approval message
      ([utils/approver/], [utils/ed25519_parser.rs]).
    - Redemption offers take ONyc back through a queue of requests
      ([instructions/redemption/]).
    - The prop AMM buys ONyc back at once, with a discount that deepens as the
      redemption vault empties ([instructions/prop_amm/]).
    - The BUFFER mints the spread between gross and offered yield into a reserve and
      two fee vaults ([instructions/buffer/]).
    - Market information caches price, supply and value
      ([instructions/market_info/]); governance is the boss, the admins, the
      approvers, the worker and the kill switch ([instructions/state_operations/]).

    The components meet in the ledger of tokens and in the state account: every path
    that mints or burns ONyc, but for the two legacy takes, accrues the BUFFER first,
    moves the tokens, stores the new supply as the BUFFER's baseline and refreshes the
    market stats.

    ** Files: the model

    - [Prelude] (this file): results, lists, the machine integers [u16] to [u128] with
      the checked and saturating operations of Rust, the shared tactics.
    - [Errors]: [errors.rs] and the errors of the frameworks.  [Accounts]: [state.rs],
      [constants.rs] and the other account structs, field by field.
    - [Runtime]: what the program calls but [src/] does not hold, as classes:
      program-derived addresses ([Runtime]), the token programs ([TokenLedger]),
      their laws, and a concrete instance of each.
    - [World]: all accounts an instruction can reach, the handlers' monad [M], and
      [utils/account_init.rs].
    - [MathUtils], [TokenUtils]: [utils/math_utils.rs], [utils/token_utils.rs].
    - [Approval]: [utils/ed25519_parser.rs], [utils/approver/].
    - [OfferPricing], [OfferHandlers], [TakeOffer]: [instructions/offer/].
    - [MarketInfo]: [instructions/market_info/].  [Buffer]: [instructions/buffer/].
    - [Vaults]: [instructions/configurable_vault/], [instructions/vault_operations/],
      [instructions/mint_authority/].
    - [Redemption]: [instructions/redemption/].
    - [PropAmmMath], [PropAmm]: [instructions/prop_amm/].
    - [Governance]: [instructions/state_operations/].
    - [Program]: [lib.rs]: the type [instruction], its dispatch [exec], and [step],
      the program's transition relation: an instruction that succeeds, or the
      environment changing clock and ledger in any way.
    - [Lifecycle]: [instructions/initialization/] and [close_state]: every instruction
      of the program ([operation], [run]) on a [Deployment], whose state account may
      be absent, and the bytes of that account ([StateLayout]).
    - [Borsh], [Entrypoint]: from the bytes and accounts of a request to an operation:
      the encoding of arguments, the [Accounts] structs as lists of accounts
      ([contexts]), the functions of [mod onreapp], and the choice among them by
      discriminator ([decode]).
    - [Harness], [FuzzTest], [FuzzStart]: the fuzzer ([src/trident-tests/fuzz_0/]): what
      its oracles assert ([invariants.rs], [utility.rs]), and the drivers, flows and
      initializer of [test_fuzz.rs], as computations that may panic.  [Client],
      [ClientTypes]: its generated client ([types.rs]), the requests it builds and
      the account types it reads.
    - [UnitTests]: the program's own [#[test]] functions on the model.

    A handler [f] of the source is [f : accounts -> arguments -> M L unit]: first the
    constraints of its [Accounts] struct in order, then its body, call by call.  A
    failed instruction returns an error and no world, as the runtime rolls it back.
    Accounts that arrive as raw data and are deserialized by hand are
    [PdaAccount] values with the states the source tells apart (owned by the system
    program, foreign, malformed, loaded).

    ** Files: the theorems

    - Arithmetic: [MathUtils] (the power loop returns while the power fits, its
      relative error is at most half a unit of the scale per factor), [OfferPricing]
      (prices never fall over whole days and never below the base price; adding or
      deleting a vector leaves the price in force; slots stay well formed),
      [VectorFacts] (which vectors are accepted, and the error of each refusal),
      [HardWallFacts] (the log2/exp2 series are total and monotone).
    - [Approval]: the check of an approval passes if the preceding instruction is an
      Ed25519 check of this very message, signed by one of the two approvers, and only
      then; the layout round-trips.  [ApprovalFacts]: whichever instruction buys at an
      offer, that check has passed or the offer allows permissionless purchases.
    - [BufferFacts], [AccountFacts]: what the BUFFER is due, exactly
      ([accrual_amounts], [accrued_now]), and the bracket of accrual, movement, baseline
      and refresh; settlement, fee split and burns.
    - [OfferFacts], [SwapFacts], [RedemptionFacts], [RedemptionInvariant]: for every
      taking, swap and redemption instruction the change of every balance and supply
      on success, with the addresses of the accounts that take part; the invariant that a redemption offer's counter is the sum of what
      its open requests still want, and that cancelling is never stuck.
    - [PropAmmFacts]: larger sells get no better price, nor does a sell after another
      one (the pricing is not split-proof all the same, as [split_pays_more] shows);
      previews agree with updates.
    - [LegacyFacts], [VaultFacts]: the legacy takes, deposits and withdrawals, balance
      by balance.
    - [MarketFacts], [ViewFacts]: the queries agree with the stored stats, quotes are
      what the swaps pay, the next price change is announced rightly.
    - [AuthorityFacts]: over all instructions, tokens leave an account only by the
      signature of somebody with a right over it, or of the program.
    - [ScheduleFacts]: along every history, an offer's ten slots answer like a schedule
      of price vectors that never forgets.
    - [ProgramFacts], [GovernanceFacts], [TypedFacts]: over all instructions, by
      [Frames]: who may change the state account and the offers, what the kill switch
      stops, the admin slots as a finite set, the ranges of the stored
      fields the other theorems assume.  [StoreInvariant]: what is stored at which
      address.
    - [LifecycleFacts]: the whole history from the deployment on: who creates and
      closes the state account, the invariants of the other files along every
      history ([life_step], [deployment_invariant]), the round trip of the account's
      bytes.
    - [EntryFacts]: the other files start from operations, a transaction from requests:
      whatever [decode] does not refuse is a step of that history, its signer has
      signed, its arguments are in range, and tokens move by the signatures the
      request carries.  [ClientFacts], [ClientTypes]: which of the client's
      requests the program understands, and that it reads accounts rightly.
    - [Panics], [PanicFacts]: along every history no instruction panics, but on a mint
      without authority (the four that unwrap it) or with too many decimals
      ([panic_causes]).
    - [UnitTests]: the tests pass on the model.  [FuzzStart]: the fuzzer's initializer
      panics, whatever Trident and the token programs do.
    - [HarnessFacts], [FuzzFacts]: the model passes the oracles, under stated
      conditions where the oracle asks for more than the program promises; which
      governance flows of the fuzzer panic.
    - [Samples] holds a small deployment in which the witnesses evaluate instructions.

    ** Bounds and fuel

    Integers are [Z] with the width's bounds in the checked operations; casts are
    written out ([timestamp_u64]).  The only fuel is that of [pow_fixed_loop]: the
    exponent is a [u64] and halves each turn, so the 64 turns [pow_fixed] allows are
    enough ([pow_fixed_loop_fuel]).

    ** Not modelled

    - Lamports, rent and account sizes (except where [close_state] returns lamports),
      log messages, the reserved bytes of accounts.  Bumps are canonical.
    - An account whose type Anchor checks at a derived address is an entry of a map:
      it exists or not, and is never foreign-owned data.
    - The creation of accounts by the system program, and the loader's account of the
      program: [create_account_succeeds] and the class [Platform].
    - The signature check of the Ed25519 program, the token programs' internals: laws
      in [Runtime].
    - Of the entry point: which error Anchor reports for a request it refuses, its
      refusal of one account passed twice as [mut], and the instructions Anchor adds
      for interface descriptions.
    - Of the fuzz harness: airdrops, the storage of addresses ([fuzz_accounts.rs]),
      and the event types of [types.rs], which nothing uses.  [FuzzTest] sends operations;
      by [ClientFacts] they are what the client's requests decode to.
    - The test of [configurable_vault/init.rs], on a vault's discriminator.
    - The integration tests and the command-line scripts, which only call the program.

    ** What is left

    Error behaviour is proved where it matters for progress (cancelling, approvals, the
    kill switch, pricing vectors), not branch by branch for every handler. *)

From stdpp Require Export base numbers option list.
From Stdlib Require Export Lia ZArith.

#[export] Set Default Proof Using "Type".

(** ** Notation scope of the library *)

Declare Scope onre_scope.
Delimit Scope onre_scope with onre.
#[global] Open Scope Z_scope.
#[global] Open Scope onre_scope.

(** ** Results

    [Result<T>] of the source: a value or an error.  [mbind]/[mret] are the
    [?] operator and [Ok], so that [x ← e; k] reads as [let x = e?; k]. *)

Inductive result (E A : Type) : Type :=
| Ok (a : A)
| Err (e : E).

Arguments Ok {E A} a.
Arguments Err {E A} e.

#[export] Instance result_ret (E : Type) : MRet (result E) := fun A a => Ok a.
#[export] Instance result_bind (E : Type) : MBind (result E) := fun A B f m =>
  match m with
  | Ok a => f a
  | Err e => Err e
  end.
#[export] Instance result_fmap (E : Type) : FMap (result E) := fun A B f m =>
  match m with
  | Ok a => Ok (f a)
  | Err e => Err e
  end.

Definition is_ok {E A : Type} (r : result E A) : bool :=
  match r with Ok _ => true | Err _ => false end.

(** [Option::ok_or]. *)
Definition ok_or {E A : Type} (o : option A) (e : E) : result E A :=
  match o with Some a => Ok a | None => Err e end.

(** [Result::unwrap_or]. *)
Definition unwrap_or {E A : Type} (r : result E A) (d : A) : A :=
  match r with Ok a => a | Err _ => d end.

(** [require!(cond, err)]. *)
Definition require {E : Type} (c : bool) (e : E) : result E unit :=
  if c then Ok tt else Err e.

Section result_lemmas.
Context {E : Type}.

Lemma bind_Ok_inv {A B} (m : result E A) (f : A -> result E B) b :
  m ≫= f = Ok b -> exists a, m = Ok a /\ f a = Ok b.
Proof. destruct m; cbn; [eauto | discriminate]. Qed.

Lemma bind_Err_inv {A B} (m : result E A) (f : A -> result E B) e :
  m ≫= f = Err e -> m = Err e \/ exists a, m = Ok a /\ f a = Err e.
Proof. destruct m; cbn; intros H; [right; eauto | left; congruence]. Qed.

Lemma require_Ok_inv (c : bool) (e : E) u :
  require c e = Ok u -> c = true.
Proof. destruct c; cbn; [done | discriminate]. Qed.

Lemma require_true (c : bool) (e : E) : c = true -> require c e = Ok tt.
Proof. by intros ->. Qed.

Lemma require_false (c : bool) (e : E) : c = false -> require c e = Err e.
Proof. by intros ->. Qed.

Lemma ok_or_Ok_inv {A} (o : option A) (e : E) a :
  ok_or o e = Ok a -> o = Some a.
Proof. destruct o; cbn; congruence. Qed.

Lemma fmap_Ok_inv {A B} (f : A -> B) (m : result E A) b :
  f <$> m = Ok b -> exists a, m = Ok a /\ b = f a.
Proof. destruct m; cbn; intros [= <-]; eauto. Qed.
End result_lemmas.

(** Decompose a successful computation into the successes of its parts. *)
Ltac inv_ok_step :=
  match goal with
  | H : Ok _ = Ok _ |- _ => injection H; clear H; intros; subst
  | H : Err _ = Ok _ |- _ => discriminate H
  | H : Ok _ = Err _ |- _ => discriminate H
  | H : Some _ = Some _ |- _ => injection H; clear H; intros; subst
  | H : None = Some _ |- _ => discriminate H
  | H : Some _ = None |- _ => discriminate H
  | H : mret _ = Ok _ |- _ => unfold mret, result_ret in H
  | H : mbind _ _ = Ok _ |- _ =>
      let x := fresh "v" in let Hx := fresh "Hv" in
      apply bind_Ok_inv in H as (x & Hx & H); cbn beta in H
  | H : require _ _ = Ok _ |- _ => apply require_Ok_inv in H
  | H : ok_or _ _ = Ok _ |- _ => apply ok_or_Ok_inv in H
  | H : mbind _ _ = Some _ |- _ =>
      let x := fresh "v" in let Hx := fresh "Hv" in
      apply bind_Some in H as (x & Hx & H); cbn beta in H
  | H : andb _ _ = true |- _ => apply andb_true_iff in H as [? ?]
  | H : negb _ = true |- _ => apply negb_true_iff in H
  | H : (_ <=? _) = true |- _ => apply Z.leb_le in H
  | H : (_ <? _) = true |- _ => apply Z.ltb_lt in H
  | H : (_ =? _) = true |- _ => apply Z.eqb_eq in H
  | H : (_ <=? _) = false |- _ => apply Z.leb_gt in H
  | H : (_ <? _) = false |- _ => apply Z.ltb_ge in H
  | H : (_ =? _) = false |- _ => apply Z.eqb_neq in H
  | u : unit |- _ => destruct u
  end.
Ltac inv_ok := repeat inv_ok_step.

(** ** Machine integers

    A machine integer is the [Z] it denotes.  [checked lo hi] is the outcome of
    an operation of the type with range [lo..=hi]: the exact value or, when it
    does not fit, nothing.  The release profile sets [overflow-checks = true],
    so that the plain operators of the source panic where the checked ones
    return [None]. *)

Definition fits (lo hi z : Z) : bool := (lo <=? z) && (z <=? hi).
Definition checked (lo hi z : Z) : option Z := if fits lo hi z then Some z else None.
Definition clamp (lo hi z : Z) : Z := Z.max lo (Z.min hi z).

(** [a as uN] for a value of any integer type. *)
Definition wrap_u (bits z : Z) : Z := z mod 2 ^ bits.

Module u8.
Definition MAX : Z := 255.
Definition checked_add (a b : Z) : option Z := checked 0 MAX (a + b).
End u8.

Module u16.
Definition MAX : Z := 65535.
End u16.

Module u32.
Definition MAX : Z := 4294967295.
Definition checked_add (a b : Z) : option Z := checked 0 MAX (a + b).
Definition saturating_mul (a b : Z) : Z := clamp 0 MAX (a * b).
End u32.

Module u64.
Definition MAX : Z := 18446744073709551615.
Definition checked_add (a b : Z) : option Z := checked 0 MAX (a + b).
Definition checked_sub (a b : Z) : option Z := checked 0 MAX (a - b).
Definition checked_mul (a b : Z) : option Z := checked 0 MAX (a * b).
Definition saturating_sub (a b : Z) : Z := clamp 0 MAX (a - b).
(** [u64::try_from]. *)
Definition try_from (z : Z) : option Z := checked 0 MAX z.
(** [as u64]. *)
Definition cast (z : Z) : Z := wrap_u 64 z.
End u64.

Module u128.
Definition MAX : Z := 340282366920938463463374607431768211455.
Definition BITS : Z := 128.
Definition checked_add (a b : Z) : option Z := checked 0 MAX (a + b).
Definition checked_sub (a b : Z) : option Z := checked 0 MAX (a - b).
Definition checked_mul (a b : Z) : option Z := checked 0 MAX (a * b).
Definition checked_div (a b : Z) : option Z := if b =? 0 then None else Some (a / b).
Definition checked_pow (a b : Z) : option Z := checked 0 MAX (a ^ b).
Definition saturating_add (a b : Z) : Z := clamp 0 MAX (a + b).
Definition saturating_sub (a b : Z) : Z := clamp 0 MAX (a - b).
Definition saturating_mul (a b : Z) : Z := clamp 0 MAX (a * b).
Definition saturating_div (a b : Z) : Z := a / b.
End u128.

Module i64.
Definition MIN : Z := -9223372036854775808.
Definition MAX : Z := 9223372036854775807.
Definition checked_sub (a b : Z) : option Z := checked MIN MAX (a - b).
Definition saturating_mul (a b : Z) : Z := clamp MIN MAX (a * b).
Definition try_from (z : Z) : option Z := checked MIN MAX z.
End i64.

Module i128.
Definition MIN : Z := -170141183460469231731687303715884105728.
Definition MAX : Z := 170141183460469231731687303715884105727.
Definition checked_sub (a b : Z) : option Z := checked MIN MAX (a - b).
Definition checked_mul (a b : Z) : option Z := checked MIN MAX (a * b).
Definition checked_div (a b : Z) : option Z :=
  if b =? 0 then None else checked MIN MAX (Z.quot a b).
Definition saturating_add (a b : Z) : Z := clamp MIN MAX (a + b).
Definition saturating_mul (a b : Z) : Z := clamp MIN MAX (a * b).
End i128.

Lemma checked_Some lo hi z r : checked lo hi z = Some r <-> r = z /\ lo <= z <= hi.
Proof.
  unfold checked, fits.
  destruct (Z.leb_spec lo z), (Z.leb_spec z hi); cbn; split;
    intros; destruct_and?; simplify_eq; try done; try lia; auto.
Qed.

Lemma checked_None lo hi z : checked lo hi z = None <-> z < lo \/ hi < z.
Proof.
  unfold checked, fits.
  destruct (Z.leb_spec lo z), (Z.leb_spec z hi); cbn; split; intros; try done; lia.
Qed.

Lemma checked_ok lo hi z : lo <= z <= hi -> checked lo hi z = Some z.
Proof. intros. by apply checked_Some. Qed.

(** Unfold the machine-integer operations down to [checked] and [clamp]. *)
Ltac unfold_ints :=
  unfold u8.checked_add, u32.checked_add, u32.saturating_mul,
    u64.checked_add, u64.checked_sub, u64.checked_mul, u64.saturating_sub, u64.try_from, u64.cast,
    u128.checked_add, u128.checked_sub, u128.checked_mul, u128.checked_pow,
    u128.saturating_add, u128.saturating_sub, u128.saturating_mul, u128.saturating_div,
    i64.checked_sub, i64.saturating_mul, i64.try_from,
    i128.checked_sub, i128.checked_mul, i128.saturating_add, i128.saturating_mul,
    wrap_u in *.
Ltac unfold_bounds :=
  unfold u8.MAX, u16.MAX, u32.MAX, u64.MAX, u128.MAX, u128.BITS, i64.MIN, i64.MAX,
    i128.MIN, i128.MAX in *.

Lemma u128_checked_div_Some a b q : u128.checked_div a b = Some q <-> b <> 0 /\ q = a / b.
Proof.
  unfold u128.checked_div. destruct (Z.eqb_spec b 0); split; intros; destruct_and?; simplify_eq; auto.
Qed.

(** Turn successful checked operations into their equation and range. *)
Ltac inv_checked :=
  unfold_ints;
  repeat match goal with
  | H : checked _ _ _ = Some _ |- _ =>
      let E := fresh "E" in apply checked_Some in H as [E ?]; subst
  | H : u128.checked_div _ _ = Some _ |- _ =>
      let E := fresh "E" in apply u128_checked_div_Some in H as [? E]; subst
  end.

(** Arithmetic with the bounds of the machine types in scope. *)
Ltac zlia := unfold clamp in *; unfold_bounds; lia.

(** ** Division *)

Section division.
Lemma div_le_mul a b q : 0 < b -> q <= a / b <-> q * b <= a.
Proof.
  intros. split; intros H0.
  - etransitivity; [|apply (Z.mul_div_le a b); lia]. nia.
  - apply Z.div_le_lower_bound; lia.
Qed.

Lemma div_lt_mul a b q : 0 < b -> a / b < q <-> a < q * b.
Proof. intros. pose proof (div_le_mul a b q H). lia. Qed.

Lemma div_mul_le a b : 0 < b -> a / b * b <= a.
Proof. intros. rewrite Z.mul_comm. apply Z.mul_div_le. lia. Qed.

Lemma lt_div_mul a b : 0 < b -> a < (a / b + 1) * b.
Proof. intros. apply div_lt_mul; lia. Qed.

Lemma div_nonneg a b : 0 <= a -> 0 < b -> 0 <= a / b.
Proof. intros. apply Z.div_pos; lia. Qed.

Lemma div_le_self a b : 0 <= a -> 0 < b -> a / b <= a.
Proof. intros. apply Z.div_le_upper_bound; nia. Qed.
End division.

Create HintDb onre discriminated.
#[export] Hint Resolve div_nonneg div_mul_le lt_div_mul div_le_self : onre.
