(* ===== verification/Errors.v ===== *)
(** * Error values

    [OnreError] of [src/errors.rs], the failures of the frameworks the program
    runs on, and the [Result] type the whole development uses. *)

From S2P Require Import Prelude.

(** [errors.rs], [pub enum OnreError]. *)
Module OnreError.
Inductive t : Type :=
| MathOverflow
| MaxSupplyExceeded
| MaxMintAmountExceeded
| TransferFeeNotSupported
| ZeroPriceNotAllowed
| DecimalsExceedMax
| ResultOverflow
| Expired
| WrongProgram
| WrongUser
| MissingEd25519Ix
| WrongIxProgram
| BadEd25519Accounts
| MalformedEd25519Ix
| MultipleSigs
| WrongAuthority
| MsgMismatch
| MsgDeserialize
| InvalidFee
| InvalidTokenInMint
| InvalidTokenOutMint
| VectorNotFound
| StartTimeInPast
| InvalidBoss
| KillSwitchActivated
| PermissionlessNotAllowed
| InvalidMarketStatsPda
| MarketStatsNotWritable
| InvalidInstructionsSysvar
| InvalidPermissionlessTokenOutAccount
| InvalidUserTokenOutAccount
| InvalidBossTokenInAccount
| InvalidTimeRange
| ZeroValue
| DuplicateStartTime
| TooManyVectors
| InvalidAPR
| InvalidPriceFixDuration
| InvalidVaultAuthority
| InvalidMintAuthority
| OfferNotFound
| NoActiveVector
| OverflowError
| ApprovalRequired
| AccountFull
| InvalidTokenProgram
| InvalidOnycMint
| InvalidMarketStatsOwner
| InvalidMarketStatsData
| InvalidCirculatingSupplyExcludedAccounts
| InvalidCirculatingSupplyExcludedAccountsOwner
| InvalidCirculatingSupplyExcludedAccountsData
| InvalidCirculatingSupplyExcludedBalance
| InvalidCirculatingSupplyExcludedBalanceOwner
| InvalidCirculatingSupplyExcludedBalanceData
| MissingExcludedTokenAccount
| TooManyExcludedTokenAccounts
| InvalidExcludedTokenAccount
| DuplicateExcludedAccountOwner
| Overflow
| InvalidMainOffer
| DivByZero
| InvalidVaultAccount
| BossAlreadySet
| WrongBoss
| WrongOwner
| ImmutableProgram
| WrongProgramData
| MissingProgramData
| DeserializeProgramDataFailed
| NotProgramData
| InvalidPermissionlessAccountName
| BothApproversFilled
| InvalidApprover
| ApproverAlreadyExists
| OnlyBossCanDisable
| UnauthorizedToEnable
| NotAnApprover
| InvalidStateOwner
| InvalidStatePda
| InvalidStateData
| UnauthorizedSigner
| LamportOverflow
| NoBossProposal
| NotProposedBoss
| InvalidBossAddress
| NoChange
| AdminAlreadyExists
| MaxAdminsReached
| AdminNotFound
| ProgramNotMintAuthority
| NoMintAuthority
| BossNotMintAuthority
| Unauthorized
| ZeroBalance
| InsufficientBalance
| ArithmeticOverflow
| InvalidMint
| InvalidRedemptionOffer
| ArithmeticUnderflow
| InvalidRedeemer
| InvalidWorker
| InvalidRedeemerTokenAccount
| OfferMismatch
| OfferMintMismatch
| InvalidRedemptionOfferOwner
| InvalidRedemptionOfferData
| InvalidFeeDestinationTokenInAccount
| InvalidOfferVaultOnycAccount
| InvalidVaultTokenInAccount
| InvalidVaultTokenOutAccount
| InvalidAmount
| OfferDisabled
| RedemptionOfferDisabled
| UnauthorizedToDisableOffer
| OnlyBossCanEnableOffer
| AmountExceedsRemaining
| InvalidFeeDestination
| InvalidConfigurableVault
| InvalidConfigurableVaultOwner
| InvalidConfigurableVaultData
| InvalidConfigurableVaultKind
| MissingConfigurableVaultDestination
| InvalidConfigurableVaultTokenAccount
| InvalidBufferStateAccount
| InvalidTimestamp
| MinimumOutNotMet
| InvalidSwapPair
| InvalidPropAmmPairState
| PropAmmPairDisabled
| InvalidTargetNav
| InvalidAssetAdjustmentAmount
| NoBurnNeeded
| InsufficientCacheBalance
| InsufficientFeeBalance
| InvalidFeeRecipient
| InvalidBurnTarget.

(** The number an error has on the wire: [#[error_code]] counts from 6000. *)
Definition code (e : t) : Z :=
  match e with
  | MathOverflow => 6000
  | MaxSupplyExceeded => 6001
  | MaxMintAmountExceeded => 6002
  | TransferFeeNotSupported => 6003
  | ZeroPriceNotAllowed => 6004
  | DecimalsExceedMax => 6005
  | ResultOverflow => 6006
  | Expired => 6007
  | WrongProgram => 6008
  | WrongUser => 6009
  | MissingEd25519Ix => 6010
  | WrongIxProgram => 6011
  | BadEd25519Accounts => 6012
  | MalformedEd25519Ix => 6013
  | MultipleSigs => 6014
  | WrongAuthority => 6015
  | MsgMismatch => 6016
  | MsgDeserialize => 6017
  | InvalidFee => 6018
  | InvalidTokenInMint => 6019
  | InvalidTokenOutMint => 6020
  | VectorNotFound => 6021
  | StartTimeInPast => 6022
  | InvalidBoss => 6023
  | KillSwitchActivated => 6024
  | PermissionlessNotAllowed => 6025
  | InvalidMarketStatsPda => 6026
  | MarketStatsNotWritable => 6027
  | InvalidInstructionsSysvar => 6028
  | InvalidPermissionlessTokenOutAccount => 6029
  | InvalidUserTokenOutAccount => 6030
  | InvalidBossTokenInAccount => 6031
  | InvalidTimeRange => 6032
  | ZeroValue => 6033
  | DuplicateStartTime => 6034
  | TooManyVectors => 6035
  | InvalidAPR => 6036
  | InvalidPriceFixDuration => 6037
  | InvalidVaultAuthority => 6038
  | InvalidMintAuthority => 6039
  | OfferNotFound => 6040
  | NoActiveVector => 6041
  | OverflowError => 6042
  | ApprovalRequired => 6043
  | AccountFull => 6044
  | InvalidTokenProgram => 6045
  | InvalidOnycMint => 6046
  | InvalidMarketStatsOwner => 6047
  | InvalidMarketStatsData => 6048
  | InvalidCirculatingSupplyExcludedAccounts => 6049
  | InvalidCirculatingSupplyExcludedAccountsOwner => 6050
  | InvalidCirculatingSupplyExcludedAccountsData => 6051
  | InvalidCirculatingSupplyExcludedBalance => 6052
  | InvalidCirculatingSupplyExcludedBalanceOwner => 6053
  | InvalidCirculatingSupplyExcludedBalanceData => 6054
  | MissingExcludedTokenAccount => 6055
  | TooManyExcludedTokenAccounts => 6056
  | InvalidExcludedTokenAccount => 6057
  | DuplicateExcludedAccountOwner => 6058
  | Overflow => 6059
  | InvalidMainOffer => 6060
  | DivByZero => 6061
  | InvalidVaultAccount => 6062
  | BossAlreadySet => 6063
  | WrongBoss => 6064
  | WrongOwner => 6065
  | ImmutableProgram => 6066
  | WrongProgramData => 6067
  | MissingProgramData => 6068
  | DeserializeProgramDataFailed => 6069
  | NotProgramData => 6070
  | InvalidPermissionlessAccountName => 6071
  | BothApproversFilled => 6072
  | InvalidApprover => 6073
  | ApproverAlreadyExists => 6074
  | OnlyBossCanDisable => 6075
  | UnauthorizedToEnable => 6076
  | NotAnApprover => 6077
  | InvalidStateOwner => 6078
  | InvalidStatePda => 6079
  | InvalidStateData => 6080
  | UnauthorizedSigner => 6081
  | LamportOverflow => 6082
  | NoBossProposal => 6083
  | NotProposedBoss => 6084
  | InvalidBossAddress => 6085
  | NoChange => 6086
  | AdminAlreadyExists => 6087
  | MaxAdminsReached => 6088
  | AdminNotFound => 6089
  | ProgramNotMintAuthority => 6090
  | NoMintAuthority => 6091
  | BossNotMintAuthority => 6092
  | Unauthorized => 6093
  | ZeroBalance => 6094
  | InsufficientBalance => 6095
  | ArithmeticOverflow => 6096
  | InvalidMint => 6097
  | InvalidRedemptionOffer => 6098
  | ArithmeticUnderflow => 6099
  | InvalidRedeemer => 6100
  | InvalidWorker => 6101
  | InvalidRedeemerTokenAccount => 6102
  | OfferMismatch => 6103
  | OfferMintMismatch => 6104
  | InvalidRedemptionOfferOwner => 6105
  | InvalidRedemptionOfferData => 6106
  | InvalidFeeDestinationTokenInAccount => 6107
  | InvalidOfferVaultOnycAccount => 6108
  | InvalidVaultTokenInAccount => 6109
  | InvalidVaultTokenOutAccount => 6110
  | InvalidAmount => 6111
  | OfferDisabled => 6112
  | RedemptionOfferDisabled => 6113
  | UnauthorizedToDisableOffer => 6114
  | OnlyBossCanEnableOffer => 6115
  | AmountExceedsRemaining => 6116
  | InvalidFeeDestination => 6117
  | InvalidConfigurableVault => 6118
  | InvalidConfigurableVaultOwner => 6119
  | InvalidConfigurableVaultData => 6120
  | InvalidConfigurableVaultKind => 6121
  | MissingConfigurableVaultDestination => 6122
  | InvalidConfigurableVaultTokenAccount => 6123
  | InvalidBufferStateAccount => 6124
  | InvalidTimestamp => 6125
  | MinimumOutNotMet => 6126
  | InvalidSwapPair => 6127
  | InvalidPropAmmPairState => 6128
  | PropAmmPairDisabled => 6129
  | InvalidTargetNav => 6130
  | InvalidAssetAdjustmentAmount => 6131
  | NoBurnNeeded => 6132
  | InsufficientCacheBalance => 6133
  | InsufficientFeeBalance => 6134
  | InvalidFeeRecipient => 6135
  | InvalidBurnTarget => 6136
  end%Z.
End OnreError.

(** Failures raised by Anchor before or around a handler. *)
Inductive AnchorError : Type :=
| ConstraintHasOne
| ConstraintSeeds
| ConstraintRaw
| ConstraintAddress
| ConstraintAssociated
| ConstraintTokenMint
| ConstraintTokenOwner
| AccountNotInitialized
| AccountOwnedByWrongProgram
| AccountDiscriminatorMismatch
| AccountDidNotDeserialize
| AccountDidNotSerialize
| RequireKeysEqViolated.

(** Everything an instruction can fail with: the program's own errors, Anchor's,
    a failed call into the token or system program, and a panic (checked
    arithmetic operators, [unwrap], out-of-bounds indexing). *)
Inductive Error : Type :=
| Onre (e : OnreError.t)
| Anchor (e : AnchorError)
| CpiError
| Panicked.

Abbreviation Result := (result Error).

(** [require!(c, OnreError::e)] and [.ok_or(OnreError::e)]. *)
Definition require_onre (c : bool) (e : OnreError.t) : Result unit := require c (Onre e).
Definition ok_or_onre {A} (o : option A) (e : OnreError.t) : Result A := ok_or o (Onre e).

(** [Result::map_err]: a panic is no value, it passes. *)
Definition map_err {A} (r : Result A) (f : Error -> Error) : Result A :=
  match r with
  | Ok a => Ok a
  | Err Panicked => Err Panicked
  | Err e => Err (f e)
  end.

(** An operator that panics when it overflows. *)
Definition panicking {A} (o : option A) : Result A := ok_or o Panicked.

Lemma require_onre_Ok_inv c e u : require_onre c e = Ok u -> c = true.
Proof. apply require_Ok_inv. Qed.

Lemma ok_or_onre_Ok_inv {A} (o : option A) e a : ok_or_onre o e = Ok a -> o = Some a.
Proof. apply ok_or_Ok_inv. Qed.

Lemma map_err_Ok_inv {A} (r : Result A) f a : map_err r f = Ok a -> r = Ok a.
Proof. destruct r as [|[]]; cbn; congruence. Qed.

Lemma panicking_Ok_inv {A} (o : option A) a : panicking o = Ok a -> o = Some a.
Proof. apply ok_or_Ok_inv. Qed.

Ltac inv_res :=
  repeat first
    [ inv_ok_step
    | match goal with
      | H : require_onre _ _ = Ok _ |- _ => apply require_onre_Ok_inv in H
      | H : ok_or_onre _ _ = Ok _ |- _ => apply ok_or_onre_Ok_inv in H
      | H : panicking _ = Ok _ |- _ => apply panicking_Ok_inv in H
      | H : map_err _ _ = Ok _ |- _ => apply map_err_Ok_inv in H
      end ].

(** Run the binds of a computation whose parts are values. *)
Ltac run_res :=
  cbn [mbind result_bind mret result_ret ok_or_onre ok_or require_onre require panicking
       map_err unwrap_or].

(** The same, using the outcomes of operations in the context. *)
Ltac run_known :=
  run_res;
  repeat match goal with
  | H : ?e = Some _ |- context [?e] => rewrite H; run_res
  | H : ?e = Ok _ |- context [?e] => rewrite H; run_res
  end.

(** ** Absence of panics *)

Section no_panic.
Lemma bind_no_panic {A B} (m : Result A) (f : A -> Result B) :
  m <> Err Panicked -> (forall a, m = Ok a -> f a <> Err Panicked) -> m ≫= f <> Err Panicked.
Proof. destruct m; cbn; intros Hm Hf; [by apply Hf | congruence]. Qed.

Lemma require_onre_no_panic c e : require_onre c e <> Err Panicked.
Proof. by destruct c. Qed.

Lemma ok_or_onre_no_panic {A} (o : option A) e : ok_or_onre o e <> Err Panicked.
Proof. by destruct o. Qed.

Lemma Ok_no_panic {A} (a : A) : Ok a <> Err Panicked.
Proof. done. Qed.

Lemma Onre_no_panic {A} e : @Err Error A (Onre e) <> Err Panicked.
Proof. done. Qed.
End no_panic.

#[export] Hint Resolve require_onre_no_panic ok_or_onre_no_panic Ok_no_panic Onre_no_panic : onre.

(** Split a computation at its binds and conditionals. *)
Ltac no_panic :=
  repeat first
    [ solve [auto with onre]
    | apply bind_no_panic; [|intros]
    | match goal with |- context [if ?b then _ else _] => destruct b eqn:? end ].
