(* ===== verification/Accounts.v ===== *)
(** * Account data

    The program's account structs, field by field with the source's names
    ([src/state.rs], [offer_state.rs], [redemption_offer_state.rs],
    [buffer/state.rs], [prop_amm/config.rs]).  A field [f] of struct [S] is
    [S.f]; [S.with_f v r] is the struct update [r.f = v].  The [reserved] byte
    arrays, which no instruction reads or writes, are left out. *)

From S2P Require Import Prelude Errors.

(** A public key is the number its 32 bytes encode; [Pubkey::default()] is the
    all-zero key. *)
Abbreviation Pubkey := N (only parsing).
Definition Pubkey_default : Pubkey := 0%N.

(** Key comparison ([==] and [require_keys_eq!]). *)
Definition key_eqb (a b : Pubkey) : bool := N.eqb a b.
Definition require_keys_eq (a b : Pubkey) (e : OnreError.t) : Result unit :=
  require_onre (key_eqb a b) e.

Lemma key_eqb_eq a b : key_eqb a b = true <-> a = b.
Proof. apply N.eqb_eq. Qed.
Lemma key_eqb_neq a b : key_eqb a b = false <-> a <> b.
Proof. apply N.eqb_neq. Qed.
Lemma key_eqb_refl a : key_eqb a a = true.
Proof. by apply key_eqb_eq. Qed.

(** ** Constants ([src/constants.rs]) *)

Definition MAX_VECTORS : nat := 10.
Definition MAX_ADMINS : nat := 20.
Definition MAX_CIRCULATING_SUPPLY_EXCLUDED_ACCOUNTS : nat := 20.
Definition PRICE_DECIMALS : Z := 9.
Definition MAX_BASIS_POINTS : Z := 10000.
Definition MAX_ALLOWED_FEE_BPS : Z := 1000.
Definition MAX_QUOTE_LIFETIME_SECONDS : Z := 60.

(** ** Program state ([src/state.rs]) *)

(** [State]: governance and configuration. *)
Module State.
Record t : Type := mk {
  boss : Pubkey;
  proposed_boss : Pubkey;
  is_killed : bool;
  onyc_mint : Pubkey;
  admins : list Pubkey;
  approver1 : Pubkey;
  approver2 : Pubkey;
  bump : Z;
  max_supply : Z;
  worker : Pubkey;
  max_mint_amount : Z;
  main_offer : Pubkey
}.

Definition with_boss (v : Pubkey) (r : t) : t :=
  mk v (proposed_boss r) (is_killed r) (onyc_mint r) (admins r) (approver1 r) (approver2 r) (bump r) (max_supply r) (worker r) (max_mint_amount r) (main_offer r).
Definition with_proposed_boss (v : Pubkey) (r : t) : t :=
  mk (boss r) v (is_killed r) (onyc_mint r) (admins r) (approver1 r) (approver2 r) (bump r) (max_supply r) (worker r) (max_mint_amount r) (main_offer r).
Definition with_is_killed (v : bool) (r : t) : t :=
  mk (boss r) (proposed_boss r) v (onyc_mint r) (admins r) (approver1 r) (approver2 r) (bump r) (max_supply r) (worker r) (max_mint_amount r) (main_offer r).
Definition with_onyc_mint (v : Pubkey) (r : t) : t :=
  mk (boss r) (proposed_boss r) (is_killed r) v (admins r) (approver1 r) (approver2 r) (bump r) (max_supply r) (worker r) (max_mint_amount r) (main_offer r).
Definition with_admins (v : list Pubkey) (r : t) : t :=
  mk (boss r) (proposed_boss r) (is_killed r) (onyc_mint r) v (approver1 r) (approver2 r) (bump r) (max_supply r) (worker r) (max_mint_amount r) (main_offer r).
Definition with_approver1 (v : Pubkey) (r : t) : t :=
  mk (boss r) (proposed_boss r) (is_killed r) (onyc_mint r) (admins r) v (approver2 r) (bump r) (max_supply r) (worker r) (max_mint_amount r) (main_offer r).
Definition with_approver2 (v : Pubkey) (r : t) : t :=
  mk (boss r) (proposed_boss r) (is_killed r) (onyc_mint r) (admins r) (approver1 r) v (bump r) (max_supply r) (worker r) (max_mint_amount r) (main_offer r).
Definition with_bump (v : Z) (r : t) : t :=
  mk (boss r) (proposed_boss r) (is_killed r) (onyc_mint r) (admins r) (approver1 r) (approver2 r) v (max_supply r) (worker r) (max_mint_amount r) (main_offer r).
Definition with_max_supply (v : Z) (r : t) : t :=
  mk (boss r) (proposed_boss r) (is_killed r) (onyc_mint r) (admins r) (approver1 r) (approver2 r) (bump r) v (worker r) (max_mint_amount r) (main_offer r).
Definition with_worker (v : Pubkey) (r : t) : t :=
  mk (boss r) (proposed_boss r) (is_killed r) (onyc_mint r) (admins r) (approver1 r) (approver2 r) (bump r) (max_supply r) v (max_mint_amount r) (main_offer r).
Definition with_max_mint_amount (v : Z) (r : t) : t :=
  mk (boss r) (proposed_boss r) (is_killed r) (onyc_mint r) (admins r) (approver1 r) (approver2 r) (bump r) (max_supply r) (worker r) v (main_offer r).
Definition with_main_offer (v : Pubkey) (r : t) : t :=
  mk (boss r) (proposed_boss r) (is_killed r) (onyc_mint r) (admins r) (approver1 r) (approver2 r) (bump r) (max_supply r) (worker r) (max_mint_amount r) v.
End State.

(** [MarketStats]: the canonical protocol-wide metrics. *)
Module MarketStats.
Record t : Type := mk {
  apy : Z;
  circulating_supply : Z;
  nav : Z;
  nav_adjustment : Z;
  tvl : Z;
  last_updated_at : Z;
  last_updated_slot : Z;
  bump : Z
}.

Definition with_apy (v : Z) (r : t) : t :=
  mk v (circulating_supply r) (nav r) (nav_adjustment r) (tvl r) (last_updated_at r) (last_updated_slot r) (bump r).
Definition with_circulating_supply (v : Z) (r : t) : t :=
  mk (apy r) v (nav r) (nav_adjustment r) (tvl r) (last_updated_at r) (last_updated_slot r) (bump r).
Definition with_nav (v : Z) (r : t) : t :=
  mk (apy r) (circulating_supply r) v (nav_adjustment r) (tvl r) (last_updated_at r) (last_updated_slot r) (bump r).
Definition with_nav_adjustment (v : Z) (r : t) : t :=
  mk (apy r) (circulating_supply r) (nav r) v (tvl r) (last_updated_at r) (last_updated_slot r) (bump r).
Definition with_tvl (v : Z) (r : t) : t :=
  mk (apy r) (circulating_supply r) (nav r) (nav_adjustment r) v (last_updated_at r) (last_updated_slot r) (bump r).
Definition with_last_updated_at (v : Z) (r : t) : t :=
  mk (apy r) (circulating_supply r) (nav r) (nav_adjustment r) (tvl r) v (last_updated_slot r) (bump r).
Definition with_last_updated_slot (v : Z) (r : t) : t :=
  mk (apy r) (circulating_supply r) (nav r) (nav_adjustment r) (tvl r) (last_updated_at r) v (bump r).
Definition with_bump (v : Z) (r : t) : t :=
  mk (apy r) (circulating_supply r) (nav r) (nav_adjustment r) (tvl r) (last_updated_at r) (last_updated_slot r) v.
End MarketStats.

(** [CirculatingSupplyExcludedAccounts]: owners excluded from circulating supply. *)
Module CirculatingSupplyExcludedAccounts.
Record t : Type := mk {
  owners : list Pubkey;
  bump : Z
}.

Definition with_owners (v : list Pubkey) (r : t) : t :=
  mk v (bump r).
Definition with_bump (v : Z) (r : t) : t :=
  mk (owners r) v.
End CirculatingSupplyExcludedAccounts.

(** [CirculatingSupplyExcludedBalance]: the cached excluded balance. *)
Module CirculatingSupplyExcludedBalance.
Record t : Type := mk {
  amount : Z;
  last_updated_at : Z;
  last_updated_slot : Z;
  bump : Z
}.

Definition with_amount (v : Z) (r : t) : t :=
  mk v (last_updated_at r) (last_updated_slot r) (bump r).
Definition with_last_updated_at (v : Z) (r : t) : t :=
  mk (amount r) v (last_updated_slot r) (bump r).
Definition with_last_updated_slot (v : Z) (r : t) : t :=
  mk (amount r) (last_updated_at r) v (bump r).
Definition with_bump (v : Z) (r : t) : t :=
  mk (amount r) (last_updated_at r) (last_updated_slot r) v.
End CirculatingSupplyExcludedBalance.

(** [ConfigurableVaultKind] and its [as_u8]. *)
Module ConfigurableVaultKind.
Inductive t : Type :=
| OfferFee
| ManagementFee
| PerformanceFee
| PropAmmBuyFee
| OfferProceeds
| PropAmmProceeds
| PermissionlessOfferFee
| RedemptionFee
| PropAmmSellFee.

Definition as_u8 (k : t) : Z :=
  match k with
  | OfferFee => 0
  | ManagementFee => 1
  | PerformanceFee => 2
  | PropAmmBuyFee => 3
  | OfferProceeds => 4
  | PropAmmProceeds => 5
  | PermissionlessOfferFee => 6
  | RedemptionFee => 7
  | PropAmmSellFee => 8
  end.
End ConfigurableVaultKind.

(** [ConfigurableVault]: a program-owned accounting vault authority. *)
Module ConfigurableVault.
Record t : Type := mk {
  kind : Z;
  withdrawal_destination : Pubkey;
  bump : Z
}.

Definition with_kind (v : Z) (r : t) : t :=
  mk v (withdrawal_destination r) (bump r).
Definition with_withdrawal_destination (v : Pubkey) (r : t) : t :=
  mk (kind r) v (bump r).
Definition with_bump (v : Z) (r : t) : t :=
  mk (kind r) (withdrawal_destination r) v.
End ConfigurableVault.

(** ** Offers ([instructions/offer/offer_state.rs]) *)

(** [OfferVector]: a pricing vector; all zero is an empty slot. *)
Module OfferVector.
Record t : Type := mk {
  start_time : Z;
  base_time : Z;
  base_price : Z;
  apr : Z;
  price_fix_duration : Z
}.

Definition with_start_time (v : Z) (r : t) : t :=
  mk v (base_time r) (base_price r) (apr r) (price_fix_duration r).
Definition with_base_time (v : Z) (r : t) : t :=
  mk (start_time r) v (base_price r) (apr r) (price_fix_duration r).
Definition with_base_price (v : Z) (r : t) : t :=
  mk (start_time r) (base_time r) v (apr r) (price_fix_duration r).
Definition with_apr (v : Z) (r : t) : t :=
  mk (start_time r) (base_time r) (base_price r) v (price_fix_duration r).
Definition with_price_fix_duration (v : Z) (r : t) : t :=
  mk (start_time r) (base_time r) (base_price r) (apr r) v.

(** [OfferVector::default()]. *)
Definition default : t := mk 0 0 0 0 0.
End OfferVector.

(** [Offer]: a token pair with its pricing vectors. *)
Module Offer.
Record t : Type := mk {
  token_in_mint : Pubkey;
  token_out_mint : Pubkey;
  vectors : list OfferVector.t;
  fee_basis_points : Z;
  bump : Z;
  needs_approval_flag : Z;
  allow_permissionless_flag : Z;
  disabled : Z;
  fee_basis_points_permissionless : Z
}.

Definition with_token_in_mint (v : Pubkey) (r : t) : t :=
  mk v (token_out_mint r) (vectors r) (fee_basis_points r) (bump r) (needs_approval_flag r) (allow_permissionless_flag r) (disabled r) (fee_basis_points_permissionless r).
Definition with_token_out_mint (v : Pubkey) (r : t) : t :=
  mk (token_in_mint r) v (vectors r) (fee_basis_points r) (bump r) (needs_approval_flag r) (allow_permissionless_flag r) (disabled r) (fee_basis_points_permissionless r).
Definition with_vectors (v : list OfferVector.t) (r : t) : t :=
  mk (token_in_mint r) (token_out_mint r) v (fee_basis_points r) (bump r) (needs_approval_flag r) (allow_permissionless_flag r) (disabled r) (fee_basis_points_permissionless r).
Definition with_fee_basis_points (v : Z) (r : t) : t :=
  mk (token_in_mint r) (token_out_mint r) (vectors r) v (bump r) (needs_approval_flag r) (allow_permissionless_flag r) (disabled r) (fee_basis_points_permissionless r).
Definition with_bump (v : Z) (r : t) : t :=
  mk (token_in_mint r) (token_out_mint r) (vectors r) (fee_basis_points r) v (needs_approval_flag r) (allow_permissionless_flag r) (disabled r) (fee_basis_points_permissionless r).
Definition with_needs_approval_flag (v : Z) (r : t) : t :=
  mk (token_in_mint r) (token_out_mint r) (vectors r) (fee_basis_points r) (bump r) v (allow_permissionless_flag r) (disabled r) (fee_basis_points_permissionless r).
Definition with_allow_permissionless_flag (v : Z) (r : t) : t :=
  mk (token_in_mint r) (token_out_mint r) (vectors r) (fee_basis_points r) (bump r) (needs_approval_flag r) v (disabled r) (fee_basis_points_permissionless r).
Definition with_disabled (v : Z) (r : t) : t :=
  mk (token_in_mint r) (token_out_mint r) (vectors r) (fee_basis_points r) (bump r) (needs_approval_flag r) (allow_permissionless_flag r) v (fee_basis_points_permissionless r).
Definition with_fee_basis_points_permissionless (v : Z) (r : t) : t :=
  mk (token_in_mint r) (token_out_mint r) (vectors r) (fee_basis_points r) (bump r) (needs_approval_flag r) (allow_permissionless_flag r) (disabled r) v.

(** [Offer::needs_approval], [set_approval]. *)
Definition needs_approval (self : t) : bool := negb (needs_approval_flag self =? 0).
Definition set_approval (v : bool) (self : t) : t :=
  with_needs_approval_flag (if v then 1 else 0) self.
(** [Offer::allow_permissionless], [set_permissionless]. *)
Definition allow_permissionless (self : t) : bool := negb (allow_permissionless_flag self =? 0).
Definition set_permissionless (v : bool) (self : t) : t :=
  with_allow_permissionless_flag (if v then 1 else 0) self.
(** [Offer::is_disabled], [set_disabled]. *)
Definition is_disabled (self : t) : bool := negb (disabled self =? 0).
Definition set_disabled (v : bool) (self : t) : t :=
  with_disabled (if v then 1 else 0) self.
(** [Offer::permissionless_fee_basis_points] and its setter. *)
Definition permissionless_fee_basis_points (self : t) : Z :=
  fee_basis_points_permissionless self.
Definition set_permissionless_fee_basis_points (bps : Z) (self : t) : t :=
  with_fee_basis_points_permissionless bps self.
(** [Offer::require_enabled]. *)
Definition require_enabled (self : t) : Result unit :=
  require_onre (negb (is_disabled self)) OnreError.OfferDisabled.
(** [Offer::require_mints]. *)
Definition require_mints (self : t) (in_mint out_mint : Pubkey) : Result unit :=
  require_keys_eq (token_in_mint self) in_mint OnreError.InvalidTokenInMint;;
  require_keys_eq (token_out_mint self) out_mint OnreError.InvalidTokenOutMint.
End Offer.

(** ** Redemptions ([instructions/redemption/redemption_offer_state.rs]) *)

(** [RedemptionOffer]: the inverse of an offer, with its request counters. *)
Module RedemptionOffer.
Record t : Type := mk {
  offer : Pubkey;
  token_in_mint : Pubkey;
  token_out_mint : Pubkey;
  executed_redemptions : Z;
  requested_redemptions : Z;
  fee_basis_points : Z;
  request_counter : Z;
  bump : Z;
  vault_target_bps : Z;
  disabled : Z;
  fee_basis_points_prop_amm_sell : Z
}.

Definition with_offer (v : Pubkey) (r : t) : t :=
  mk v (token_in_mint r) (token_out_mint r) (executed_redemptions r) (requested_redemptions r) (fee_basis_points r) (request_counter r) (bump r) (vault_target_bps r) (disabled r) (fee_basis_points_prop_amm_sell r).
Definition with_token_in_mint (v : Pubkey) (r : t) : t :=
  mk (offer r) v (token_out_mint r) (executed_redemptions r) (requested_redemptions r) (fee_basis_points r) (request_counter r) (bump r) (vault_target_bps r) (disabled r) (fee_basis_points_prop_amm_sell r).
Definition with_token_out_mint (v : Pubkey) (r : t) : t :=
  mk (offer r) (token_in_mint r) v (executed_redemptions r) (requested_redemptions r) (fee_basis_points r) (request_counter r) (bump r) (vault_target_bps r) (disabled r) (fee_basis_points_prop_amm_sell r).
Definition with_executed_redemptions (v : Z) (r : t) : t :=
  mk (offer r) (token_in_mint r) (token_out_mint r) v (requested_redemptions r) (fee_basis_points r) (request_counter r) (bump r) (vault_target_bps r) (disabled r) (fee_basis_points_prop_amm_sell r).
Definition with_requested_redemptions (v : Z) (r : t) : t :=
  mk (offer r) (token_in_mint r) (token_out_mint r) (executed_redemptions r) v (fee_basis_points r) (request_counter r) (bump r) (vault_target_bps r) (disabled r) (fee_basis_points_prop_amm_sell r).
Definition with_fee_basis_points (v : Z) (r : t) : t :=
  mk (offer r) (token_in_mint r) (token_out_mint r) (executed_redemptions r) (requested_redemptions r) v (request_counter r) (bump r) (vault_target_bps r) (disabled r) (fee_basis_points_prop_amm_sell r).
Definition with_request_counter (v : Z) (r : t) : t :=
  mk (offer r) (token_in_mint r) (token_out_mint r) (executed_redemptions r) (requested_redemptions r) (fee_basis_points r) v (bump r) (vault_target_bps r) (disabled r) (fee_basis_points_prop_amm_sell r).
Definition with_bump (v : Z) (r : t) : t :=
  mk (offer r) (token_in_mint r) (token_out_mint r) (executed_redemptions r) (requested_redemptions r) (fee_basis_points r) (request_counter r) v (vault_target_bps r) (disabled r) (fee_basis_points_prop_amm_sell r).
Definition with_vault_target_bps (v : Z) (r : t) : t :=
  mk (offer r) (token_in_mint r) (token_out_mint r) (executed_redemptions r) (requested_redemptions r) (fee_basis_points r) (request_counter r) (bump r) v (disabled r) (fee_basis_points_prop_amm_sell r).
Definition with_disabled (v : Z) (r : t) : t :=
  mk (offer r) (token_in_mint r) (token_out_mint r) (executed_redemptions r) (requested_redemptions r) (fee_basis_points r) (request_counter r) (bump r) (vault_target_bps r) v (fee_basis_points_prop_amm_sell r).
Definition with_fee_basis_points_prop_amm_sell (v : Z) (r : t) : t :=
  mk (offer r) (token_in_mint r) (token_out_mint r) (executed_redemptions r) (requested_redemptions r) (fee_basis_points r) (request_counter r) (bump r) (vault_target_bps r) (disabled r) v.

(** [RedemptionOffer::is_disabled], [set_disabled], [require_enabled]. *)
Definition is_disabled (self : t) : bool := negb (disabled self =? 0).
Definition set_disabled (v : bool) (self : t) : t :=
  with_disabled (if v then 1 else 0) self.
Definition require_enabled (self : t) : Result unit :=
  require_onre (negb (is_disabled self)) OnreError.RedemptionOfferDisabled.
End RedemptionOffer.

(** [RedemptionRequest]: a pending, possibly partially fulfilled request. *)
Module RedemptionRequest.
Record t : Type := mk {
  offer : Pubkey;
  request_id : Z;
  redeemer : Pubkey;
  amount : Z;
  bump : Z;
  fulfilled_amount : Z
}.

Definition with_offer (v : Pubkey) (r : t) : t :=
  mk v (request_id r) (redeemer r) (amount r) (bump r) (fulfilled_amount r).
Definition with_request_id (v : Z) (r : t) : t :=
  mk (offer r) v (redeemer r) (amount r) (bump r) (fulfilled_amount r).
Definition with_redeemer (v : Pubkey) (r : t) : t :=
  mk (offer r) (request_id r) v (amount r) (bump r) (fulfilled_amount r).
Definition with_amount (v : Z) (r : t) : t :=
  mk (offer r) (request_id r) (redeemer r) v (bump r) (fulfilled_amount r).
Definition with_bump (v : Z) (r : t) : t :=
  mk (offer r) (request_id r) (redeemer r) (amount r) v (fulfilled_amount r).
Definition with_fulfilled_amount (v : Z) (r : t) : t :=
  mk (offer r) (request_id r) (redeemer r) (amount r) (bump r) v.
End RedemptionRequest.

(** ** BUFFER ([instructions/buffer/state.rs]) *)

Definition SECONDS_PER_YEAR : Z := 31536000.
Definition YIELD_SCALE : Z := 1000000.
Definition MAX_BUFFER_GROSS_APR : Z := 1000000.
Definition BASIS_POINTS_SCALE : Z := MAX_BASIS_POINTS.
Definition BASIS_POINT_TO_YIELD_SCALE : Z := YIELD_SCALE / BASIS_POINTS_SCALE.

(** [BufferState]: accrual baseline, fee configuration and high-water mark. *)
Module BufferState.
Record t : Type := mk {
  onyc_mint : Pubkey;
  gross_apr : Z;
  previous_supply : Z;
  management_fee_basis_points : Z;
  performance_fee_basis_points : Z;
  performance_fee_high_watermark : Z;
  performance_fee_high_watermark_enabled : bool;
  last_accrual_timestamp : Z;
  bump : Z
}.

Definition with_onyc_mint (v : Pubkey) (r : t) : t :=
  mk v (gross_apr r) (previous_supply r) (management_fee_basis_points r) (performance_fee_basis_points r) (performance_fee_high_watermark r) (performance_fee_high_watermark_enabled r) (last_accrual_timestamp r) (bump r).
Definition with_gross_apr (v : Z) (r : t) : t :=
  mk (onyc_mint r) v (previous_supply r) (management_fee_basis_points r) (performance_fee_basis_points r) (performance_fee_high_watermark r) (performance_fee_high_watermark_enabled r) (last_accrual_timestamp r) (bump r).
Definition with_previous_supply (v : Z) (r : t) : t :=
  mk (onyc_mint r) (gross_apr r) v (management_fee_basis_points r) (performance_fee_basis_points r) (performance_fee_high_watermark r) (performance_fee_high_watermark_enabled r) (last_accrual_timestamp r) (bump r).
Definition with_management_fee_basis_points (v : Z) (r : t) : t :=
  mk (onyc_mint r) (gross_apr r) (previous_supply r) v (performance_fee_basis_points r) (performance_fee_high_watermark r) (performance_fee_high_watermark_enabled r) (last_accrual_timestamp r) (bump r).
Definition with_performance_fee_basis_points (v : Z) (r : t) : t :=
  mk (onyc_mint r) (gross_apr r) (previous_supply r) (management_fee_basis_points r) v (performance_fee_high_watermark r) (performance_fee_high_watermark_enabled r) (last_accrual_timestamp r) (bump r).
Definition with_performance_fee_high_watermark (v : Z) (r : t) : t :=
  mk (onyc_mint r) (gross_apr r) (previous_supply r) (management_fee_basis_points r) (performance_fee_basis_points r) v (performance_fee_high_watermark_enabled r) (last_accrual_timestamp r) (bump r).
Definition with_performance_fee_high_watermark_enabled (v : bool) (r : t) : t :=
  mk (onyc_mint r) (gross_apr r) (previous_supply r) (management_fee_basis_points r) (performance_fee_basis_points r) (performance_fee_high_watermark r) v (last_accrual_timestamp r) (bump r).
Definition with_last_accrual_timestamp (v : Z) (r : t) : t :=
  mk (onyc_mint r) (gross_apr r) (previous_supply r) (management_fee_basis_points r) (performance_fee_basis_points r) (performance_fee_high_watermark r) (performance_fee_high_watermark_enabled r) v (bump r).
Definition with_bump (v : Z) (r : t) : t :=
  mk (onyc_mint r) (gross_apr r) (previous_supply r) (management_fee_basis_points r) (performance_fee_basis_points r) (performance_fee_high_watermark r) (performance_fee_high_watermark_enabled r) (last_accrual_timestamp r) v.
End BufferState.

(** ** Prop AMM ([instructions/prop_amm/config.rs]) *)

Definition DEFAULT_CURVE_PEG_HAIRCUT_BPS : Z := 700.
Definition CURVE_EXPONENT_SCALE : Z := 10000.
Definition CURVE_EXPONENT_STEP : Z := 1000.
Definition DEFAULT_CURVE_EXPONENT_SCALED : Z := 25000.
Definition DEFAULT_CADENCE_THRESHOLD : Z := 20.
Definition CADENCE_WAVE_SCALE : Z := 10000.
Definition CADENCE_WAVE_STEP : Z := 1000.
Definition MAX_CADENCE_WAVE_SCALED : Z := 50000.
Definition DEFAULT_CADENCE_WAVE_SCALED : Z := 10000.
Definition CADENCE_WAVE_EASE : Z := 8.
Definition CADENCE_WAVE_CAP_DIVISOR : Z := 3.
Definition DEFAULT_EPOCH_DURATION_SECONDS : Z := 86400.
Definition WALL_SENSITIVITY_SCALE : Z := 10000.
Definition DEFAULT_WALL_SENSITIVITY_SCALED : Z := 20000.
Definition DEFAULT_MINIMUM_SELL_HAIRCUT_ONYC : Z := 5000000000.

(** [PropAmmPairState]: the curve configuration and the volume tracker of a pair. *)
Module PropAmmPairState.
Record t : Type := mk {
  offer : Pubkey;
  asset_mint : Pubkey;
  onyc_mint : Pubkey;
  enabled : bool;
  curve_peg_haircut_bps : Z;
  curve_exponent_scaled : Z;
  cadence_threshold : Z;
  cadence_wave_scaled : Z;
  epoch_duration_seconds : Z;
  wall_sensitivity_scaled : Z;
  minimum_sell_haircut_onyc : Z;
  curr_sell_value_stable : Z;
  curr_buy_value_stable : Z;
  prev_net_sell_value_stable : Z;
  curr_sell_trade_count : Z;
  epoch_start : Z;
  bump : Z
}.

Definition with_offer (v : Pubkey) (r : t) : t :=
  mk v (asset_mint r) (onyc_mint r) (enabled r) (curve_peg_haircut_bps r) (curve_exponent_scaled r) (cadence_threshold r) (cadence_wave_scaled r) (epoch_duration_seconds r) (wall_sensitivity_scaled r) (minimum_sell_haircut_onyc r) (curr_sell_value_stable r) (curr_buy_value_stable r) (prev_net_sell_value_stable r) (curr_sell_trade_count r) (epoch_start r) (bump r).
Definition with_asset_mint (v : Pubkey) (r : t) : t :=
  mk (offer r) v (onyc_mint r) (enabled r) (curve_peg_haircut_bps r) (curve_exponent_scaled r) (cadence_threshold r) (cadence_wave_scaled r) (epoch_duration_seconds r) (wall_sensitivity_scaled r) (minimum_sell_haircut_onyc r) (curr_sell_value_stable r) (curr_buy_value_stable r) (prev_net_sell_value_stable r) (curr_sell_trade_count r) (epoch_start r) (bump r).
Definition with_onyc_mint (v : Pubkey) (r : t) : t :=
  mk (offer r) (asset_mint r) v (enabled r) (curve_peg_haircut_bps r) (curve_exponent_scaled r) (cadence_threshold r) (cadence_wave_scaled r) (epoch_duration_seconds r) (wall_sensitivity_scaled r) (minimum_sell_haircut_onyc r) (curr_sell_value_stable r) (curr_buy_value_stable r) (prev_net_sell_value_stable r) (curr_sell_trade_count r) (epoch_start r) (bump r).
Definition with_enabled (v : bool) (r : t) : t :=
  mk (offer r) (asset_mint r) (onyc_mint r) v (curve_peg_haircut_bps r) (curve_exponent_scaled r) (cadence_threshold r) (cadence_wave_scaled r) (epoch_duration_seconds r) (wall_sensitivity_scaled r) (minimum_sell_haircut_onyc r) (curr_sell_value_stable r) (curr_buy_value_stable r) (prev_net_sell_value_stable r) (curr_sell_trade_count r) (epoch_start r) (bump r).
Definition with_curve_peg_haircut_bps (v : Z) (r : t) : t :=
  mk (offer r) (asset_mint r) (onyc_mint r) (enabled r) v (curve_exponent_scaled r) (cadence_threshold r) (cadence_wave_scaled r) (epoch_duration_seconds r) (wall_sensitivity_scaled r) (minimum_sell_haircut_onyc r) (curr_sell_value_stable r) (curr_buy_value_stable r) (prev_net_sell_value_stable r) (curr_sell_trade_count r) (epoch_start r) (bump r).
Definition with_curve_exponent_scaled (v : Z) (r : t) : t :=
  mk (offer r) (asset_mint r) (onyc_mint r) (enabled r) (curve_peg_haircut_bps r) v (cadence_threshold r) (cadence_wave_scaled r) (epoch_duration_seconds r) (wall_sensitivity_scaled r) (minimum_sell_haircut_onyc r) (curr_sell_value_stable r) (curr_buy_value_stable r) (prev_net_sell_value_stable r) (curr_sell_trade_count r) (epoch_start r) (bump r).
Definition with_cadence_threshold (v : Z) (r : t) : t :=
  mk (offer r) (asset_mint r) (onyc_mint r) (enabled r) (curve_peg_haircut_bps r) (curve_exponent_scaled r) v (cadence_wave_scaled r) (epoch_duration_seconds r) (wall_sensitivity_scaled r) (minimum_sell_haircut_onyc r) (curr_sell_value_stable r) (curr_buy_value_stable r) (prev_net_sell_value_stable r) (curr_sell_trade_count r) (epoch_start r) (bump r).
Definition with_cadence_wave_scaled (v : Z) (r : t) : t :=
  mk (offer r) (asset_mint r) (onyc_mint r) (enabled r) (curve_peg_haircut_bps r) (curve_exponent_scaled r) (cadence_threshold r) v (epoch_duration_seconds r) (wall_sensitivity_scaled r) (minimum_sell_haircut_onyc r) (curr_sell_value_stable r) (curr_buy_value_stable r) (prev_net_sell_value_stable r) (curr_sell_trade_count r) (epoch_start r) (bump r).
Definition with_epoch_duration_seconds (v : Z) (r : t) : t :=
  mk (offer r) (asset_mint r) (onyc_mint r) (enabled r) (curve_peg_haircut_bps r) (curve_exponent_scaled r) (cadence_threshold r) (cadence_wave_scaled r) v (wall_sensitivity_scaled r) (minimum_sell_haircut_onyc r) (curr_sell_value_stable r) (curr_buy_value_stable r) (prev_net_sell_value_stable r) (curr_sell_trade_count r) (epoch_start r) (bump r).
Definition with_wall_sensitivity_scaled (v : Z) (r : t) : t :=
  mk (offer r) (asset_mint r) (onyc_mint r) (enabled r) (curve_peg_haircut_bps r) (curve_exponent_scaled r) (cadence_threshold r) (cadence_wave_scaled r) (epoch_duration_seconds r) v (minimum_sell_haircut_onyc r) (curr_sell_value_stable r) (curr_buy_value_stable r) (prev_net_sell_value_stable r) (curr_sell_trade_count r) (epoch_start r) (bump r).
Definition with_minimum_sell_haircut_onyc (v : Z) (r : t) : t :=
  mk (offer r) (asset_mint r) (onyc_mint r) (enabled r) (curve_peg_haircut_bps r) (curve_exponent_scaled r) (cadence_threshold r) (cadence_wave_scaled r) (epoch_duration_seconds r) (wall_sensitivity_scaled r) v (curr_sell_value_stable r) (curr_buy_value_stable r) (prev_net_sell_value_stable r) (curr_sell_trade_count r) (epoch_start r) (bump r).
Definition with_curr_sell_value_stable (v : Z) (r : t) : t :=
  mk (offer r) (asset_mint r) (onyc_mint r) (enabled r) (curve_peg_haircut_bps r) (curve_exponent_scaled r) (cadence_threshold r) (cadence_wave_scaled r) (epoch_duration_seconds r) (wall_sensitivity_scaled r) (minimum_sell_haircut_onyc r) v (curr_buy_value_stable r) (prev_net_sell_value_stable r) (curr_sell_trade_count r) (epoch_start r) (bump r).
Definition with_curr_buy_value_stable (v : Z) (r : t) : t :=
  mk (offer r) (asset_mint r) (onyc_mint r) (enabled r) (curve_peg_haircut_bps r) (curve_exponent_scaled r) (cadence_threshold r) (cadence_wave_scaled r) (epoch_duration_seconds r) (wall_sensitivity_scaled r) (minimum_sell_haircut_onyc r) (curr_sell_value_stable r) v (prev_net_sell_value_stable r) (curr_sell_trade_count r) (epoch_start r) (bump r).
Definition with_prev_net_sell_value_stable (v : Z) (r : t) : t :=
  mk (offer r) (asset_mint r) (onyc_mint r) (enabled r) (curve_peg_haircut_bps r) (curve_exponent_scaled r) (cadence_threshold r) (cadence_wave_scaled r) (epoch_duration_seconds r) (wall_sensitivity_scaled r) (minimum_sell_haircut_onyc r) (curr_sell_value_stable r) (curr_buy_value_stable r) v (curr_sell_trade_count r) (epoch_start r) (bump r).
Definition with_curr_sell_trade_count (v : Z) (r : t) : t :=
  mk (offer r) (asset_mint r) (onyc_mint r) (enabled r) (curve_peg_haircut_bps r) (curve_exponent_scaled r) (cadence_threshold r) (cadence_wave_scaled r) (epoch_duration_seconds r) (wall_sensitivity_scaled r) (minimum_sell_haircut_onyc r) (curr_sell_value_stable r) (curr_buy_value_stable r) (prev_net_sell_value_stable r) v (epoch_start r) (bump r).
Definition with_epoch_start (v : Z) (r : t) : t :=
  mk (offer r) (asset_mint r) (onyc_mint r) (enabled r) (curve_peg_haircut_bps r) (curve_exponent_scaled r) (cadence_threshold r) (cadence_wave_scaled r) (epoch_duration_seconds r) (wall_sensitivity_scaled r) (minimum_sell_haircut_onyc r) (curr_sell_value_stable r) (curr_buy_value_stable r) (prev_net_sell_value_stable r) (curr_sell_trade_count r) v (bump r).
Definition with_bump (v : Z) (r : t) : t :=
  mk (offer r) (asset_mint r) (onyc_mint r) (enabled r) (curve_peg_haircut_bps r) (curve_exponent_scaled r) (cadence_threshold r) (cadence_wave_scaled r) (epoch_duration_seconds r) (wall_sensitivity_scaled r) (minimum_sell_haircut_onyc r) (curr_sell_value_stable r) (curr_buy_value_stable r) (prev_net_sell_value_stable r) (curr_sell_trade_count r) (epoch_start r) v.

(** [impl Default for PropAmmPairState]. *)
Definition default : t :=
  mk Pubkey_default Pubkey_default Pubkey_default false
    DEFAULT_CURVE_PEG_HAIRCUT_BPS DEFAULT_CURVE_EXPONENT_SCALED
    DEFAULT_CADENCE_THRESHOLD DEFAULT_CADENCE_WAVE_SCALED
    DEFAULT_EPOCH_DURATION_SECONDS DEFAULT_WALL_SENSITIVITY_SCALED
    DEFAULT_MINIMUM_SELL_HAIRCUT_ONYC 0 0 0 0 0 0.
End PropAmmPairState.
