(* ===== verification/MathUtils.v ===== *)
(** * Fixed-point arithmetic

    [src/utils/math_utils.rs]: ceiling division, basis points, rounded
    multiplication and fixed-point exponentiation, with the accuracy and
    monotonicity facts the pricing theorems rest on. *)

From S2P Require Import Prelude Errors.

(** ** Definitions *)

(** [ceil_div_u128]. *)
Definition ceil_div_u128 (numerator denominator : Z) : option Z :=
  if denominator =? 0 then None
  else
    d ← u128.checked_sub denominator 1;
    adjusted ← u128.checked_add numerator d;
    u128.checked_div adjusted denominator.

(** [mul_basis_points_floor]. *)
Definition mul_basis_points_floor (amount basis_points : Z) : option Z :=
  p ← u128.checked_mul amount basis_points;
  amount_u128 ← u128.checked_div p 10000;
  u64.try_from amount_u128.

(** [mul_div_round_u128]. *)
Definition mul_div_round_u128 (a b denom : Z) : option Z :=
  prod ← u128.checked_mul a b;
  adj ← u128.checked_add prod (denom / 2);
  u128.checked_div adj denom.

(** The loop of [pow_fixed]; [fuel] bounds its iterations, and the loop body is
    the source's: multiply on an odd exponent, shift, square when bits remain. *)
Fixpoint pow_fixed_loop (fuel : nat) (acc base exp scale : Z) : option Z :=
  match fuel with
  | O => if 0 <? exp then None else Some acc
  | S fuel =>
      if 0 <? exp then
        acc ← (if Z.land exp 1 =? 1 then mul_div_round_u128 acc base scale else Some acc);
        let exp := Z.shiftr exp 1 in
        base ← (if 0 <? exp then mul_div_round_u128 base base scale else Some base);
        pow_fixed_loop fuel acc base exp scale
      else Some acc
  end.

(** [pow_fixed]: 64 iterations consume every [u64] exponent. *)
Definition pow_fixed (base exp scale : Z) : option Z :=
  pow_fixed_loop 64 scale base exp scale.

(** ** Ceiling division *)

Lemma ceil_div_u128_spec n d q :
  0 <= n -> 0 < d ->
  ceil_div_u128 n d = Some q -> (q - 1) * d < n /\ n <= q * d /\ 0 <= q.
Proof.
  intros Hn Hd H. unfold ceil_div_u128 in H.
  destruct (Z.eqb_spec d 0); [lia|].
  inv_ok. inv_checked.
  pose proof (div_mul_le (n + (d - 1)) d ltac:(lia)).
  pose proof (lt_div_mul (n + (d - 1)) d ltac:(lia)).
  pose proof (div_nonneg (n + (d - 1)) d ltac:(lia) ltac:(lia)).
  nia.
Qed.

Lemma ceil_div_u128_total n d :
  0 <= n -> 0 < d -> n + d <= u128.MAX -> exists q, ceil_div_u128 n d = Some q.
Proof.
  intros. unfold ceil_div_u128.
  destruct (Z.eqb_spec d 0); [lia|]. unfold_ints.
  rewrite checked_ok by zlia. cbn. rewrite checked_ok by zlia. cbn.
  eexists. apply u128_checked_div_Some. split; [lia|done].
Qed.

(** ** Rounded multiplication *)

Lemma mul_div_round_spec a b d r :
  0 < d -> mul_div_round_u128 a b d = Some r ->
  2 * (a * b) - d <= 2 * (r * d) <= 2 * (a * b) + d /\ 0 <= a * b <= u128.MAX.
Proof.
  intros Hd H. unfold mul_div_round_u128 in H. inv_ok. inv_checked.
  pose proof (div_mul_le (a * b + d / 2) d Hd).
  pose proof (lt_div_mul (a * b + d / 2) d Hd).
  pose proof (Z.div_mod d 2 ltac:(lia)). pose proof (Z.mod_pos_bound d 2 ltac:(lia)).
  nia.
Qed.

Lemma mul_div_round_eq a b d r :
  mul_div_round_u128 a b d = Some r ->
  r = (a * b + d / 2) / d /\ d <> 0 /\ 0 <= a * b <= u128.MAX /\ a * b + d / 2 <= u128.MAX.
Proof. unfold mul_div_round_u128. intros H. inv_ok. inv_checked. auto with lia. Qed.

Lemma mul_div_round_total a b d :
  0 < d -> 0 <= a * b -> a * b + d / 2 <= u128.MAX ->
  mul_div_round_u128 a b d = Some ((a * b + d / 2) / d).
Proof.
  intros. pose proof (div_nonneg d 2 ltac:(lia) ltac:(lia)).
  unfold mul_div_round_u128. unfold_ints.
  rewrite checked_ok by zlia. cbn. rewrite checked_ok by zlia. cbn.
  apply u128_checked_div_Some. split; [lia|done].
Qed.

Lemma mul_div_round_mono a b a' b' d r r' :
  0 < d -> 0 <= a <= a' -> 0 <= b <= b' ->
  mul_div_round_u128 a b d = Some r ->
  mul_div_round_u128 a' b' d = Some r' -> r <= r'.
Proof.
  intros Hd Ha Hb H H'.
  apply mul_div_round_eq in H as [-> _]. apply mul_div_round_eq in H' as [-> _].
  apply Z.div_le_mono; nia.
Qed.

Lemma mul_div_round_nonneg a b d r :
  0 < d -> mul_div_round_u128 a b d = Some r -> 0 <= r.
Proof.
  intros Hd H. apply mul_div_round_eq in H as (-> & _ & ? & _).
  pose proof (div_nonneg d 2 ltac:(lia) ltac:(lia)).
  apply div_nonneg; lia.
Qed.

Lemma mul_div_round_ge_scale a b s r :
  0 < s -> s <= a -> s <= b -> mul_div_round_u128 a b s = Some r -> s <= r.
Proof.
  intros Hs Ha Hb H. apply mul_div_round_eq in H as (-> & _).
  apply div_le_mul; [lia|].
  pose proof (div_nonneg s 2 ltac:(lia) ltac:(lia)). nia.
Qed.

(** Relative error of one rounded multiplication: at most [1 / (2 s)] when both
    factors are at least one. *)
Lemma mul_div_round_rel a b s r :
  0 < s -> s <= a -> s <= b -> mul_div_round_u128 a b s = Some r ->
  a * b * (2 * s - 1) <= r * (s * (2 * s)) <= a * b * (2 * s + 1).
Proof.
  intros Hs Ha Hb H.
  pose proof (mul_div_round_spec a b s r Hs H) as [? _].
  assert (s * s <= a * b) by nia. nia.
Qed.

(** ** Exponentiation *)

Lemma b2z_nonneg b : 0 <= Z.b2z b.
Proof. destruct b; cbn; lia. Qed.

Lemma exp_step exp :
  0 < exp ->
  exp = Z.b2z (Z.land exp 1 =? 1) + 2 * Z.shiftr exp 1 /\ 0 <= Z.shiftr exp 1 < exp.
Proof.
  intros He. rewrite Z.shiftr_div_pow2 by lia. change (2 ^ 1) with 2.
  change 1 with (Z.ones 1). rewrite Z.land_ones by lia. change (2 ^ 1) with 2.
  change (Z.ones 1) with 1.
  pose proof (Z.div_mod exp 2 ltac:(lia)). pose proof (Z.mod_pos_bound exp 2 ltac:(lia)).
  destruct (Z.eqb_spec (exp mod 2) 1); cbn; lia.
Qed.

(** A predicate on [acc], [base] and the exponent that every multiplication and
    squaring step respects holds of the result. *)
Lemma pow_fixed_loop_ind (P : Z -> Z -> Z -> Z -> Prop) scale :
  (forall acc base, P acc base 0 acc) ->
  (forall acc base exp r acc' base',
      0 < exp ->
      (if Z.land exp 1 =? 1 then mul_div_round_u128 acc base scale else Some acc) = Some acc' ->
      (if 0 <? Z.shiftr exp 1 then mul_div_round_u128 base base scale else Some base) = Some base' ->
      P acc' base' (Z.shiftr exp 1) r -> P acc base exp r) ->
  forall fuel acc base exp r,
    0 <= exp -> pow_fixed_loop fuel acc base exp scale = Some r -> P acc base exp r.
Proof.
  intros H0 HS. induction fuel as [|fuel IH]; intros acc base exp r He H; cbn in H.
  - destruct (Z.ltb_spec 0 exp); [done|]. inv_ok. replace exp with 0 by lia. apply H0.
  - destruct (Z.ltb_spec 0 exp) as [Hpos|].
    + inv_ok. eapply HS; eauto. apply IH; [|done]. by apply exp_step.
    + inv_ok. replace exp with 0 by lia. apply H0.
Qed.

(** Enough fuel: with [exp < 2 ^ fuel] the loop never stops for lack of it. *)
Lemma pow_fixed_loop_fuel fuel k acc base exp scale :
  0 <= exp < 2 ^ Z.of_nat fuel ->
  pow_fixed_loop (fuel + k) acc base exp scale = pow_fixed_loop fuel acc base exp scale.
Proof.
  revert acc base exp. induction fuel as [|fuel IH]; intros acc base exp He.
  - replace exp with 0 by lia. destruct k; reflexivity.
  - cbn [pow_fixed_loop Nat.add]. destruct (Z.ltb_spec 0 exp) as [Hpos|]; [|done].
    destruct (if Z.land exp 1 =? 1 then _ else _); cbn; [|done].
    destruct (if 0 <? Z.shiftr exp 1 then _ else _); cbn; [|done].
    apply IH. pose proof (exp_step exp Hpos).
    rewrite Nat2Z.inj_succ, Z.pow_succ_r in He by lia.
    destruct (Z.land exp 1 =? 1); cbn in *; lia.
Qed.

(** One iteration multiplies the bounds: [u / Q] is the worst relative error of a
    step, [b] the low bit and [h] the remaining exponent. *)
Lemma pow_step_le r acc acc' base base' Q u b h :
  0 <= r -> 0 <= acc -> 0 <= acc' -> 0 <= base -> 0 <= base' -> 0 <= Q -> 0 <= u ->
  0 <= b -> 0 <= h ->
  r * Q ^ h <= acc' * base' ^ h * u ^ h ->
  acc' * Q ^ b <= acc * base ^ b * u ^ b ->
  (base' * Q) ^ h <= (base * base * u) ^ h ->
  r * Q ^ (b + 2 * h) <= acc * base ^ (b + 2 * h) * u ^ (b + 2 * h).
Proof.
  intros Hr Ha Ha' Hb Hb' HQ Hu Hbb Hh IH Hacc Hbase.
  replace (b + 2 * h) with (b + h + h) by lia.
  rewrite !Z.pow_add_r by lia. rewrite !Z.pow_mul_l in Hbase.
  pose proof (Z.pow_nonneg Q h HQ). pose proof (Z.pow_nonneg Q b HQ).
  pose proof (Z.pow_nonneg u h Hu). pose proof (Z.pow_nonneg u b Hu).
  pose proof (Z.pow_nonneg base h Hb). pose proof (Z.pow_nonneg base b Hb).
  pose proof (Z.pow_nonneg base' h Hb').
  set (Qh := Q ^ h) in *. set (Qb := Q ^ b) in *. set (uh := u ^ h) in *. set (ub := u ^ b) in *.
  set (Bh := base ^ h) in *. set (Bb := base ^ b) in *. set (B'h := base' ^ h) in *.
  assert (r * Qh * (Qb * Qh) <= acc' * B'h * uh * (Qb * Qh)) by (apply Z.mul_le_mono_nonneg_r; nia).
  assert (acc' * Qb * (B'h * Qh * uh) <= acc * Bb * ub * (B'h * Qh * uh))
    by (apply Z.mul_le_mono_nonneg_r; [repeat apply Z.mul_nonneg_nonneg|]; done).
  assert (B'h * Qh * (acc * Bb * ub * uh) <= Bh * Bh * uh * (acc * Bb * ub * uh))
    by (apply Z.mul_le_mono_nonneg_r; [repeat apply Z.mul_nonneg_nonneg|]; lia).
  lia.
Qed.

Lemma pow_step_ge r acc acc' base base' Q u b h :
  0 <= r -> 0 <= acc -> 0 <= acc' -> 0 <= base -> 0 <= base' -> 0 <= Q -> 0 <= u ->
  0 <= b -> 0 <= h ->
  acc' * base' ^ h * u ^ h <= r * Q ^ h ->
  acc * base ^ b * u ^ b <= acc' * Q ^ b ->
  (base * base * u) ^ h <= (base' * Q) ^ h ->
  acc * base ^ (b + 2 * h) * u ^ (b + 2 * h) <= r * Q ^ (b + 2 * h).
Proof.
  intros Hr Ha Ha' Hb Hb' HQ Hu Hbb Hh IH Hacc Hbase.
  replace (b + 2 * h) with (b + h + h) by lia.
  rewrite !Z.pow_add_r by lia. rewrite !Z.pow_mul_l in Hbase.
  pose proof (Z.pow_nonneg Q h HQ). pose proof (Z.pow_nonneg Q b HQ).
  pose proof (Z.pow_nonneg u h Hu). pose proof (Z.pow_nonneg u b Hu).
  pose proof (Z.pow_nonneg base h Hb). pose proof (Z.pow_nonneg base b Hb).
  pose proof (Z.pow_nonneg base' h Hb').
  set (Qh := Q ^ h) in *. set (Qb := Q ^ b) in *. set (uh := u ^ h) in *. set (ub := u ^ b) in *.
  set (Bh := base ^ h) in *. set (Bb := base ^ b) in *. set (B'h := base' ^ h) in *.
  assert (acc' * B'h * uh * (Qb * Qh) <= r * Qh * (Qb * Qh)) by (apply Z.mul_le_mono_nonneg_r; nia).
  assert (acc * Bb * ub * (B'h * Qh * uh) <= acc' * Qb * (B'h * Qh * uh))
    by (apply Z.mul_le_mono_nonneg_r; [repeat apply Z.mul_nonneg_nonneg|]; done).
  assert (Bh * Bh * uh * (acc * Bb * ub * uh) <= B'h * Qh * (acc * Bb * ub * uh))
    by (apply Z.mul_le_mono_nonneg_r; [repeat apply Z.mul_nonneg_nonneg|]; lia).
  lia.
Qed.

(** The multiplications of one iteration, as bounds on powers. *)
Lemma pow_acc_step s acc base exp acc' :
  0 < s -> s <= acc -> s <= base ->
  (if Z.land exp 1 =? 1 then mul_div_round_u128 acc base s else Some acc) = Some acc' ->
  let b := Z.b2z (Z.land exp 1 =? 1) in
  s <= acc' /\
  acc * base ^ b * (2 * s - 1) ^ b <= acc' * (s * (2 * s)) ^ b <= acc * base ^ b * (2 * s + 1) ^ b.
Proof.
  intros Hs Ha Hb H. destruct (Z.land exp 1 =? 1); cbn.
  - rewrite !Z.pow_1_r. split; [by apply (mul_div_round_ge_scale acc base)|].
    by apply mul_div_round_rel.
  - inv_ok. rewrite !Z.pow_0_r. lia.
Qed.

Lemma pow_base_step s base h base' :
  0 < s -> s <= base -> 0 <= h ->
  (if 0 <? h then mul_div_round_u128 base base s else Some base) = Some base' ->
  s <= base' /\
  (base * base * (2 * s - 1)) ^ h <= (base' * (s * (2 * s))) ^ h <= (base * base * (2 * s + 1)) ^ h.
Proof.
  intros Hs Hb Hh H. destruct (Z.ltb_spec 0 h).
  - split; [by apply (mul_div_round_ge_scale base base)|].
    pose proof (mul_div_round_rel _ _ _ _ Hs Hb Hb H).
    assert (0 <= base * base * (2 * s - 1)) by nia.
    split; apply Z.pow_le_mono_l; lia.
  - inv_ok. replace h with 0 by lia. rewrite !Z.pow_0_r. lia.
Qed.

(** Accuracy: on factors of at least one, every unit of the exponent costs at
    most one rounding of relative error [1 / (2 scale)]. *)
Lemma pow_fixed_loop_accurate s fuel acc base exp r :
  0 < s -> s <= acc -> s <= base -> 0 <= exp ->
  pow_fixed_loop fuel acc base exp s = Some r ->
  s <= r /\
  acc * base ^ exp * (2 * s - 1) ^ exp <= r * (s * (2 * s)) ^ exp <= acc * base ^ exp * (2 * s + 1) ^ exp.
Proof.
  intros Hs Ha Hb He H. revert Ha Hb.
  refine (pow_fixed_loop_ind
    (fun acc base exp r => s <= acc -> s <= base -> s <= r /\
       acc * base ^ exp * (2 * s - 1) ^ exp <= r * (s * (2 * s)) ^ exp
         <= acc * base ^ exp * (2 * s + 1) ^ exp)
    s _ _ fuel acc base exp r He H); clear - Hs.
  - intros acc base Ha _. rewrite !Z.pow_0_r. lia.
  - intros acc base exp r acc' base' He Hacc Hbase IH Ha Hb.
    destruct (exp_step exp He) as [Hdec Hh].
    assert (0 <= s * (2 * s)) by (apply Z.mul_nonneg_nonneg; lia).
    assert (0 <= Z.b2z (Z.land exp 1 =? 1)) by apply b2z_nonneg.
    destruct (pow_acc_step s acc base exp acc' Hs Ha Hb Hacc) as (Ha' & Hl & Hu).
    destruct (pow_base_step s base (Z.shiftr exp 1) base' Hs Hb (proj1 Hh) Hbase) as (Hb' & Hl' & Hu').
    destruct (IH Ha' Hb') as (Hr & IHl & IHu).
    rewrite Hdec. split; [done|]. split.
    + apply (pow_step_ge r acc acc' base base'); first [assumption | clear - Hs Ha Hb Ha' Hb' Hr Hh; lia].
    + apply (pow_step_le r acc acc' base base'); first [assumption | clear - Hs Ha Hb Ha' Hb' Hr Hh; lia].
Qed.

(** Totality: while the power (with its error bound) stays below [K], every product
    of the loop fits. *)
Lemma pow_split_le c base Q u m n K :
  0 <= c -> 0 < Q -> 0 <= base -> 0 <= u -> 0 <= K -> 0 <= m -> 0 <= n -> Q <= base * u ->
  c * base ^ (m + n) * u ^ (m + n) <= K * Q ^ (m + n) ->
  c * (base * u) ^ m <= K * Q ^ m.
Proof.
  intros Hc HQ Hb Hu HK Hm Hn Hle H. rewrite !Z.pow_add_r in H by lia.
  assert (0 < Q ^ n) by (by apply Z.pow_pos_nonneg).
  assert (Q ^ n <= (base * u) ^ n) by (apply Z.pow_le_mono_l; lia).
  assert (0 <= c * (base * u) ^ m) by (apply Z.mul_nonneg_nonneg; [done|apply Z.pow_nonneg; nia]).
  rewrite !Z.pow_mul_l in *. set (x := base ^ m) in *. set (y := base ^ n) in *. set (p := u ^ m) in *.
  set (q := u ^ n) in *. apply (Z.mul_le_mono_pos_r _ _ (Q ^ n)); [done|].
  assert (c * (x * p) * Q ^ n <= c * (x * p) * (y * q)) by (by apply Z.mul_le_mono_nonneg_l). lia.
Qed.

Lemma pow_step_room acc acc' base base' Q u b h K :
  0 <= acc -> 0 <= acc' -> 0 <= base -> 0 <= base' -> 0 < Q -> 0 <= u -> 0 <= b -> 0 <= h ->
  acc * base ^ (b + 2 * h) * u ^ (b + 2 * h) <= K * Q ^ (b + 2 * h) ->
  acc' * Q ^ b <= acc * base ^ b * u ^ b ->
  (base' * Q) ^ h <= (base * base * u) ^ h ->
  acc' * base' ^ h * u ^ h <= K * Q ^ h.
Proof.
  intros Ha Ha' Hb Hb' HQ Hu Hbb Hh HK Hacc Hbase.
  replace (b + 2 * h) with (b + h + h) in HK by lia.
  rewrite !Z.pow_add_r in HK by lia. rewrite !Z.pow_mul_l in Hbase.
  pose proof (Z.pow_pos_nonneg Q h HQ Hh). pose proof (Z.pow_pos_nonneg Q b HQ Hbb).
  pose proof (Z.pow_nonneg u h Hu). pose proof (Z.pow_nonneg u b Hu).
  pose proof (Z.pow_nonneg base h Hb). pose proof (Z.pow_nonneg base b Hb).
  pose proof (Z.pow_nonneg base' h Hb').
  set (Qh := Q ^ h) in *. set (Qb := Q ^ b) in *. set (uh := u ^ h) in *. set (ub := u ^ b) in *.
  set (Bh := base ^ h) in *. set (Bb := base ^ b) in *. set (B'h := base' ^ h) in *.
  assert (acc' * Qb * (B'h * Qh * uh) <= acc * Bb * ub * (B'h * Qh * uh))
    by (apply Z.mul_le_mono_nonneg_r; [repeat apply Z.mul_nonneg_nonneg|]; lia).
  assert (B'h * Qh * (acc * Bb * ub * uh) <= Bh * Bh * uh * (acc * Bb * ub * uh))
    by (apply Z.mul_le_mono_nonneg_r; [repeat apply Z.mul_nonneg_nonneg|]; lia).
  apply (Z.mul_le_mono_pos_r _ _ (Qb * Qh)); [nia|]. lia.
Qed.

Lemma square_room s K acc base :
  0 < s -> s <= acc -> s <= base ->
  acc * (base * (2 * s + 1) * (base * (2 * s + 1))) <= K * (s * (2 * s) * (s * (2 * s))) ->
  base * base <= K * s.
Proof.
  intros Hs Ha Hb H. set (w := base * (2 * s + 1)) in *.
  assert (0 <= base * (2 * s) <= w) by nia.
  assert (base * (2 * s) * (base * (2 * s)) <= w * w) by (apply Z.mul_le_mono_nonneg; lia).
  assert (s * (base * (2 * s) * (base * (2 * s))) <= acc * (w * w))
    by (apply Z.mul_le_mono_nonneg; [lia|lia|nia|done]).
  apply (Z.mul_le_mono_pos_r _ _ (4 * (s * s * s))); [nia|]. lia.
Qed.

Lemma pow_fixed_loop_total s K fuel acc base exp :
  0 < s -> s <= acc -> s <= base -> 0 <= exp < 2 ^ Z.of_nat fuel -> 0 <= K ->
  K * s + s / 2 <= u128.MAX ->
  acc * base ^ exp * (2 * s + 1) ^ exp <= K * (s * (2 * s)) ^ exp ->
  exists r, pow_fixed_loop fuel acc base exp s = Some r.
Proof.
  intros Hs Ha Hb He HK Hmax. revert acc base exp Ha Hb He.
  assert (0 < s * (2 * s)) by nia.
  induction fuel as [|fuel IH]; intros acc base exp Ha Hb He Hroom; cbn [pow_fixed_loop].
  { replace exp with 0 by (cbn in He; lia). by eexists. }
  destruct (Z.ltb_spec 0 exp) as [Hpos|]; [|by eexists].
  destruct (exp_step exp Hpos) as [Hdec Hh]. set (h := Z.shiftr exp 1) in *.
  assert (Hbu : s * (2 * s) <= base * (2 * s + 1)) by nia.
  assert (exists acc', (if Z.land exp 1 =? 1 then mul_div_round_u128 acc base s else Some acc) = Some acc')
    as [acc' Eacc].
  { destruct (Z.land exp 1 =? 1) eqn:E; [|by eexists]. eexists. apply mul_div_round_total; [done|nia|].
    pose proof (pow_split_le acc base (s * (2 * s)) (2 * s + 1) 1 (exp - 1) K) as Hone.
    rewrite !Z.pow_1_r in Hone. replace (1 + (exp - 1)) with exp in Hone by lia.
    specialize (Hone ltac:(lia) ltac:(done) ltac:(lia) ltac:(lia) ltac:(lia) ltac:(lia) ltac:(lia)
      ltac:(done) ltac:(done)). assert (acc * base <= K * s) by nia. lia. }
  assert (exists base', (if 0 <? h then mul_div_round_u128 base base s else Some base) = Some base')
    as [base' Ebase].
  { destruct (Z.ltb_spec 0 h); [|by eexists]. eexists. apply mul_div_round_total; [done|nia|].
    pose proof (b2z_nonneg (Z.land exp 1 =? 1)).
    assert (0 <= exp - 2) by (clear - H0 Hdec H1; lia).
    pose proof (pow_split_le acc base (s * (2 * s)) (2 * s + 1) 2 (exp - 2) K) as Htwo.
    replace (2 + (exp - 2)) with exp in Htwo by (clear; lia).
    specialize (Htwo ltac:(clear - Hs Ha; lia) H ltac:(clear - Hs Hb; lia) ltac:(clear - Hs; lia) HK
      ltac:(clear; lia) ltac:(assumption) Hbu Hroom). rewrite !Z.pow_2_r in Htwo.
    pose proof (square_room s K acc base Hs Ha Hb Htwo). lia. }
  rewrite Eacc. cbn. rewrite Ebase. cbn.
  destruct (pow_acc_step s acc base exp acc' Hs Ha Hb Eacc) as (Ha' & _ & Hu).
  destruct (pow_base_step s base h base' Hs Hb (proj1 Hh) Ebase) as (Hb' & _ & Hu').
  apply IH; [done|done| |].
  - rewrite Nat2Z.inj_succ, Z.pow_succ_r in He by lia. pose proof (b2z_nonneg (Z.land exp 1 =? 1)) as Hbit.
    clear - He Hdec Hh Hbit. lia.
  - rewrite Hdec in Hroom. pose proof (b2z_nonneg (Z.land exp 1 =? 1)).
    apply (pow_step_room acc acc' base base' _ _ (Z.b2z (Z.land exp 1 =? 1)) h K);
      first [assumption | clear - Hs Ha Hb Ha' Hb' Hh; lia].
Qed.

(** C40: [pow_fixed] returns, and computes the power with a proved error bound.  Its
    64 turns are enough for every [u64] exponent (more fuel changes nothing).
    Writing [x = base / scale] for the fixed-point base (at least one) and
    [e = 1 / (2 scale)], a result [r] satisfies
    [x ^ exp * (1 - e) ^ exp <= r / scale <= x ^ exp * (1 + e) ^ exp], and there is a
    result whenever the power is at most a [growth] whose product with
    [scale ^ 2] fits 128 bits; the statement is these inequalities multiplied out. *)
Theorem pow_fixed_accurate base exp scale :
  0 < scale -> scale <= base -> 0 <= exp <= u64.MAX ->
  (forall more, pow_fixed_loop (64 + more) scale base exp scale = pow_fixed base exp scale) /\
  (forall r, pow_fixed base exp scale = Some r ->
     scale <= r /\
     scale * base ^ exp * (2 * scale - 1) ^ exp
       <= r * (scale * (2 * scale)) ^ exp
       <= scale * base ^ exp * (2 * scale + 1) ^ exp) /\
  (forall growth, 0 <= growth -> growth * scale * scale + scale / 2 <= u128.MAX ->
     base ^ exp * (2 * scale + 1) ^ exp <= growth * (scale * (2 * scale)) ^ exp ->
     exists r, pow_fixed base exp scale = Some r).
Proof.
  intros Hs Hb He. assert (0 <= exp < 2 ^ Z.of_nat 64) by (change (2 ^ Z.of_nat 64) with (u64.MAX + 1); lia).
  split; [intros more; by apply pow_fixed_loop_fuel|]. split.
  - intros r H1. apply (pow_fixed_loop_accurate scale 64 scale base exp r); auto; lia.
  - intros g Hg Hmax Hgrow. apply (pow_fixed_loop_total scale (g * scale)); try done; [nia|nia].
Qed.

Lemma pow_fixed_accurate_witness : exists r,
  pow_fixed 1500000000 3 1000000000 = Some r /\
  1000000000 <= r /\
  1000000000 * 1500000000 ^ 3 * (2 * 1000000000 - 1) ^ 3
    <= r * (1000000000 * (2 * 1000000000)) ^ 3
    <= 1000000000 * 1500000000 ^ 3 * (2 * 1000000000 + 1) ^ 3.
Proof.
  destruct (pow_fixed_accurate 1500000000 3 1000000000) as (_ & Hacc & Htot);
    [lia | lia | unfold u64.MAX; lia |].
  destruct (Htot 4) as [r Hr]; [lia | vm_compute; discriminate | vm_compute; discriminate |].
  exists r. exact (conj Hr (Hacc r Hr)).
Defined.

(** ** Monotonicity of the power *)

(** In the base. *)
Lemma pow_fixed_loop_mono_base s : 0 < s ->
  forall fuel acc base exp r acc2 base2 r2,
    0 <= acc <= acc2 -> 0 <= base <= base2 -> 0 <= exp ->
    pow_fixed_loop fuel acc base exp s = Some r ->
    pow_fixed_loop fuel acc2 base2 exp s = Some r2 -> r <= r2.
Proof.
  intros Hs. induction fuel as [|fuel IH]; intros acc base exp r acc2 base2 r2 Ha Hb He H H2;
    cbn in H, H2; destruct (Z.ltb_spec 0 exp); inv_ok; try lia.
  destruct (exp_step exp ltac:(lia)) as [_ Hsh].
  eapply IH in H2; eauto; try lia.
  - destruct (Z.land exp 1 =? 1); inv_ok; [|done].
    split; [by apply (mul_div_round_nonneg acc base s)|]. by apply (mul_div_round_mono acc base acc2 base2 s).
  - destruct (0 <? Z.shiftr exp 1); inv_ok; [|done].
    split; [by apply (mul_div_round_nonneg base base s)|]. by apply (mul_div_round_mono base base base2 base2 s).
Qed.

(** Bernoulli: [(1 - 2 / (2 s + 1)) ^ n >= 1 - 2 n / (2 s + 1)]. *)
Lemma bernoulli_ratio s n :
  0 < s -> 0 <= n ->
  (2 * s + 1) ^ n * (2 * s + 1 - 2 * n) <= (2 * s - 1) ^ n * (2 * s + 1).
Proof.
  intros Hs Hn. pattern n. apply natlike_ind; [|clear n Hn|done].
  - rewrite !Z.pow_0_r. lia.
  - intros n Hn IH. rewrite !Z.pow_succ_r by lia.
    pose proof (Z.pow_nonneg (2 * s + 1) n ltac:(lia)).
    pose proof (Z.pow_nonneg (2 * s - 1) n ltac:(lia)).
    assert ((2 * s + 1) ^ n * (2 * s + 1 - 2 * n) * (2 * s - 1)
              <= (2 * s - 1) ^ n * (2 * s + 1) * (2 * s - 1)) by (apply Z.mul_le_mono_nonneg_r; lia).
    assert ((2 * s + 1) ^ n * ((2 * s + 1) * (2 * s + 1 - 2 * Z.succ n))
              <= (2 * s + 1) ^ n * ((2 * s + 1 - 2 * n) * (2 * s - 1))); [|nia].
    apply Z.mul_le_mono_nonneg_l; [done|]. nia.
Qed.

Lemma mono_exp_cancel s base w v Q Qn B U D r r' :
  0 <= s -> 0 <= base * w -> 0 < v -> 0 < Q -> 0 < Qn -> 0 <= B -> 0 <= U -> 0 <= D ->
  r * Qn <= s * B * U ->
  s * (B * base) * (D * w) <= r' * (Qn * Q) ->
  forall k, 0 <= k -> U * k <= D * v -> Q * v <= base * w * k -> r <= r'.
Proof.
  intros Hs Hbw Hv HQ HQn HB HU HD Hr Hr' k Hk Hbern Hgap.
  assert (HUD : Q * U <= base * w * D).
  { apply (Z.mul_le_mono_pos_r _ _ v); [done|].
    transitivity (U * (base * w * k)).
    - replace (Q * U * v) with (U * (Q * v)) by ring. by apply Z.mul_le_mono_nonneg_l.
    - replace (U * (base * w * k)) with (base * w * (U * k)) by ring.
      replace (base * w * D * v) with (base * w * (D * v)) by ring.
      by apply Z.mul_le_mono_nonneg_l. }
  apply (Z.mul_le_mono_pos_r _ _ (Qn * Q)); [by apply Z.mul_pos_pos|].
  transitivity (s * B * (Q * U)).
  - replace (r * (Qn * Q)) with (r * Qn * Q) by ring.
    replace (s * B * (Q * U)) with (s * B * U * Q) by ring.
    apply Z.mul_le_mono_nonneg_r; lia.
  - etransitivity; [|exact Hr'].
    replace (s * (B * base) * (D * w)) with (s * B * (base * w * D)) by ring.
    apply Z.mul_le_mono_nonneg_l; [by apply Z.mul_nonneg_nonneg|done].
Qed.

(** A larger power of a factor above one only strengthens the lower bound. *)
Lemma pow_lower_bound_weaken s base w Q r n m :
  0 <= s -> 0 < Q -> 0 <= n <= m -> Q <= base * w -> 0 <= base -> 0 <= w ->
  s * base ^ m * w ^ m <= r * Q ^ m -> s * base ^ n * w ^ n <= r * Q ^ n.
Proof.
  intros Hs HQ Hnm Hbw Hb Hw H.
  replace m with (n + (m - n)) in H by lia. rewrite !Z.pow_add_r in H by lia.
  apply (Z.mul_le_mono_pos_r _ _ (Q ^ (m - n))); [apply Z.pow_pos_nonneg; lia|].
  replace (r * Q ^ n * Q ^ (m - n)) with (r * (Q ^ n * Q ^ (m - n))) by ring.
  etransitivity; [|exact H].
  replace (s * (base ^ n * base ^ (m - n)) * (w ^ n * w ^ (m - n)))
    with (s * base ^ n * w ^ n * (base ^ (m - n) * w ^ (m - n))) by ring.
  rewrite <- Z.pow_mul_l. apply Z.mul_le_mono_nonneg_l.
  - repeat apply Z.mul_nonneg_nonneg; try apply Z.pow_nonneg; done.
  - apply Z.pow_le_mono_l. lia.
Qed.

(** In the exponent: multiplying further by a factor that exceeds one by more
    than the accumulated rounding never lowers the result. *)
Lemma pow_fixed_mono_exp base n m s r r' :
  0 < s -> s <= base -> 0 <= n < m -> m <= u64.MAX -> n <= s ->
  s * (2 * s) * (2 * s + 1) <= base * (2 * s - 1) * (2 * s + 1 - 2 * n) ->
  pow_fixed base n s = Some r -> pow_fixed base m s = Some r' -> r <= r'.
Proof.
  intros Hs Hb [Hn Hnm] Hm Hns Hgap H H'.
  assert (0 <= s) by lia. assert (0 <= base) by lia. assert (0 <= m) by lia.
  assert (0 < 2 * s + 1) by lia. assert (0 <= 2 * s + 1) by lia. assert (0 <= 2 * s - 1) by lia.
  assert (0 <= 2 * s + 1 - 2 * n) by lia. assert (0 <= n + 1 <= m) by lia. assert (0 <= 1) by lia.
  assert (HQ : 0 < s * (2 * s)) by (apply Z.mul_pos_pos; lia).
  assert (HQ' : 0 <= s * (2 * s)) by lia.
  assert (Hbw : 0 <= base * (2 * s - 1)) by (apply Z.mul_nonneg_nonneg; lia).
  assert (HQb : s * (2 * s) <= base * (2 * s - 1)).
  { apply (Z.mul_le_mono_pos_r _ _ (2 * s + 1)); [done|].
    etransitivity; [exact Hgap|]. apply Z.mul_le_mono_nonneg_l; [done|lia]. }
  pose proof (bernoulli_ratio s n Hs Hn) as Hbern.
  destruct (pow_fixed_loop_accurate s 64 s base n r Hs (Z.le_refl s) Hb Hn H) as (_ & _ & Hu).
  destruct (pow_fixed_loop_accurate s 64 s base m r' Hs (Z.le_refl s) Hb ltac:(done) H')
    as (_ & Hl & _).
  apply (pow_lower_bound_weaken s base (2 * s - 1) (s * (2 * s)) r' (n + 1) m) in Hl; try done.
  rewrite !Z.pow_add_r, !Z.pow_1_r in Hl by done.
  apply (mono_exp_cancel s base (2 * s - 1) (2 * s + 1) (s * (2 * s)) ((s * (2 * s)) ^ n)
           (base ^ n) ((2 * s + 1) ^ n) ((2 * s - 1) ^ n) r r') with (k := 2 * s + 1 - 2 * n);
    try apply Z.pow_nonneg; try apply Z.pow_pos_nonneg; done.
Qed.
