(* ===== verification/OfferPricing.v ===== *)
(** * Offer pricing and pricing vectors

    [src/instructions/offer/offer_utils.rs] (price calculation and vector
    lookup) and the vector bookkeeping of [add_offer_vector.rs],
    [delete_offer_vector.rs] and [delete_all_offer_vectors.rs]. *)

From stdpp Require Import relations.
From S2P Require Import Prelude Errors MathUtils Accounts.

Definition INT_SCALE : Z := 1000000000000000000.
Definition SECONDS_IN_DAY : Z := 86400.
Definition APR_SCALE : Z := 1000000.

(** ** Iterator adaptors *)

(** [Iterator::max_by_key]: the last maximal element. *)
Fixpoint max_by_key {A} (key : A -> Z) (l : list A) : option A :=
  match l with
  | [] => None
  | x :: l =>
      match max_by_key key l with
      | None => Some x
      | Some y => Some (if key x <=? key y then y else x)
      end
  end.

(** [Iterator::min_by_key]: the first minimal element. *)
Fixpoint min_by_key {A} (key : A -> Z) (l : list A) : option A :=
  match l with
  | [] => None
  | x :: l =>
      match min_by_key key l with
      | None => Some x
      | Some y => Some (if key x <=? key y then x else y)
      end
  end.

(** [Iterator::position]. *)
Fixpoint position {A} (p : A -> bool) (l : list A) : option nat :=
  match l with
  | [] => None
  | x :: l => if p x then Some 0%nat else S <$> position p l
  end.

(** ** Vector lookup *)

Definition vector_live_at (time : Z) (v : OfferVector.t) : bool :=
  negb (OfferVector.start_time v =? 0) && (OfferVector.start_time v <=? time).

(** [find_active_vector_at]. *)
Definition find_active_vector_at (offer : Offer.t) (time : Z) : Result OfferVector.t :=
  ok_or_onre
    (max_by_key OfferVector.start_time
       (List.filter (vector_live_at time) (Offer.vectors offer)))
    OnreError.NoActiveVector.

(** [find_vector_index_by_start_time]. *)
Definition find_vector_index_by_start_time (offer : Offer.t) (start_time : Z) : option nat :=
  position (fun v => OfferVector.start_time v =? start_time) (Offer.vectors offer).

(** ** Price calculation *)

Definition overflow {A} (o : option A) : Result A := ok_or_onre o OnreError.OverflowError.

(** The daily growth factor at scale [INT_SCALE], as [calculate_vector_price]
    computes it. *)
Definition daily_factor (apr : Z) : Result Z :=
  p ← overflow (u128.checked_mul INT_SCALE apr);
  s ← overflow (u128.checked_add p (APR_SCALE * 365 / 2));
  daily_increment ← overflow (u128.checked_div s (APR_SCALE * 365));
  overflow (u128.checked_add INT_SCALE daily_increment).

(** [calculate_vector_price]. *)
Definition calculate_vector_price (apr base_price elapsed_time : Z) : Result Z :=
  if (apr =? 0) || (elapsed_time =? 0) then Ok base_price
  else
    factor ← daily_factor apr;
    let full_days := elapsed_time / SECONDS_IN_DAY in
    let remaining_seconds := elapsed_time mod SECONDS_IN_DAY in
    full_day_factor ← overflow (pow_fixed factor full_days INT_SCALE);
    full_day_price ← overflow (mul_div_round_u128 base_price full_day_factor INT_SCALE);
    if remaining_seconds =? 0 then
      if u64.MAX <? full_day_price then Err (Onre OnreError.OverflowError)
      else Ok full_day_price
    else
      next_day_price ← overflow (mul_div_round_u128 full_day_price factor INT_SCALE);
      daily_delta ← overflow (u128.checked_sub next_day_price full_day_price);
      partial_day_delta ←
        overflow (mul_div_round_u128 daily_delta remaining_seconds SECONDS_IN_DAY);
      price ← overflow (u128.checked_add full_day_price partial_day_delta);
      if u64.MAX <? price then Err (Onre OnreError.OverflowError) else Ok price.

(** [calculate_step_price_at]; the division panics on a zero duration. *)
Definition calculate_step_price_at (apr base_price base_time price_fix_duration time : Z)
  : Result Z :=
  require_onre (base_time <=? time) OnreError.NoActiveVector;;
  let elapsed_since_start := u64.saturating_sub time base_time in
  current_step ← panicking (u128.checked_div elapsed_since_start price_fix_duration);
  s ← overflow (u64.checked_add current_step 1);
  step_end_time ← overflow (u64.checked_mul s price_fix_duration);
  calculate_vector_price apr base_price step_end_time.

(** ** Vector bookkeeping *)

Definition existing_start_times (offer : Offer.t) : list Z :=
  map OfferVector.start_time
    (List.filter (fun v => negb (OfferVector.start_time v =? 0)) (Offer.vectors offer)).

(** [validate_inputs] of [add_offer_vector.rs]. *)
Definition validate_inputs
  (start_time base_time base_price price_fix_duration current_time : Z) (offer : Offer.t)
  : Result unit :=
  require_onre (current_time <=? start_time) OnreError.StartTimeInPast;;
  require_onre (0 <? base_time) OnreError.ZeroValue;;
  require_onre (0 <? base_price) OnreError.ZeroValue;;
  require_onre (0 <? price_fix_duration) OnreError.ZeroValue;;
  let existing := existing_start_times offer in
  require_onre (negb (existsb (Z.eqb start_time) existing)) OnreError.DuplicateStartTime;;
  match max_by_key id existing with
  | Some latest_start_time =>
      require_onre (latest_start_time <? start_time) OnreError.InvalidTimeRange
  | None => Ok tt
  end.

(** The slots [clean_old_vectors] clears. *)
Definition evictable (active_start prev_start : Z) (v : OfferVector.t) : bool :=
  negb (OfferVector.start_time v =? 0)
  && negb (OfferVector.start_time v =? active_start)
  && negb (OfferVector.start_time v =? prev_start)
  && (OfferVector.start_time v <? active_start).

(** [clean_old_vectors]: the cleaned offer and the start times of the evicted
    vectors (one [OfferVectorEvictedEvent] each). *)
Definition clean_old_vectors (offer : Offer.t) (new_vector : OfferVector.t) (current_time : Z)
  : Result (Offer.t * list Z) :=
  let active_vector :=
    if OfferVector.start_time new_vector =? current_time then Ok new_vector
    else find_active_vector_at offer current_time in
  match active_vector with
  | Err _ => Ok (offer, [])
  | Ok active =>
      let active_start := OfferVector.start_time active in
      before ← panicking (u64.checked_sub active_start 1);
      let prev_start :=
        match find_active_vector_at offer before with
        | Ok v => OfferVector.start_time v
        | Err _ => 0
        end in
      let evict := evictable active_start prev_start in
      Ok (Offer.with_vectors
            (map (fun v => if evict v then OfferVector.default else v) (Offer.vectors offer))
            offer,
          map OfferVector.start_time (List.filter evict (Offer.vectors offer)))
  end.

(** The vector [add_offer_vector] builds from its arguments. *)
Definition new_offer_vector (start_time_opt : option Z)
  (base_time base_price apr price_fix_duration current_time : Z) : OfferVector.t :=
  let start_time :=
    match start_time_opt with Some t => t | None => Z.max current_time base_time end in
  OfferVector.mk start_time base_time base_price apr price_fix_duration.

(** The body of [add_offer_vector] on the loaded offer. *)
Definition add_vector (offer : Offer.t) (current_time : Z) (new_vector : OfferVector.t)
  : Result (Offer.t * list Z) :=
  validate_inputs (OfferVector.start_time new_vector) (OfferVector.base_time new_vector)
    (OfferVector.base_price new_vector) (OfferVector.price_fix_duration new_vector)
    current_time offer;;
  '(offer, evicted) ← clean_old_vectors offer new_vector current_time;
  empty_slot_index ←
    ok_or_onre (find_vector_index_by_start_time offer 0) OnreError.TooManyVectors;
  Ok (Offer.with_vectors (<[empty_slot_index := new_vector]> (Offer.vectors offer)) offer, evicted).

(** The body of [delete_offer_vector] on the loaded offer. *)
Definition delete_vector (offer : Offer.t) (now vector_start_time : Z) : Result Offer.t :=
  require_onre (now <? vector_start_time) OnreError.StartTimeInPast;;
  vector_index ←
    ok_or_onre (find_vector_index_by_start_time offer vector_start_time)
      OnreError.VectorNotFound;
  Ok (Offer.with_vectors (<[vector_index := OfferVector.default]> (Offer.vectors offer)) offer).

(** The body of [delete_all_offer_vectors]: the cleared offer and the number of
    vectors deleted. *)
Definition delete_all_vectors (offer : Offer.t) : Offer.t * Z :=
  (Offer.with_vectors
     (map (fun v => if OfferVector.start_time v =? 0 then v else OfferVector.default)
        (Offer.vectors offer)) offer,
   Z.of_nat (length (existing_start_times offer))).

(** ** The unit tests of the source, evaluated *)

Example vector_price_one_day :
  calculate_vector_price 97600 1000000000 SECONDS_IN_DAY = Ok 1000267397.
Proof. vm_compute. reflexivity. Qed.

Example vector_price_three_days_six_hours :
  calculate_vector_price 97600 1000000000 (SECONDS_IN_DAY * 3 + 21600) = Ok 1000869309.
Proof. vm_compute. reflexivity. Qed.

Example vector_price_overflow :
  is_ok (calculate_vector_price u64.MAX u64.MAX SECONDS_IN_DAY) = false.
Proof. vm_compute. reflexivity. Qed.

(** ** Price theorems *)

Lemma overflow_Ok_inv {A} (o : option A) a : overflow o = Ok a -> o = Some a.
Proof. apply ok_or_onre_Ok_inv. Qed.

Ltac inv_price := repeat (inv_res; match goal with
  | H : overflow _ = Ok _ |- _ => apply overflow_Ok_inv in H
  end); inv_res.

Lemma daily_factor_spec apr f :
  0 <= apr -> daily_factor apr = Ok f ->
  f = INT_SCALE + (INT_SCALE * apr + 182500000) / 365000000 /\
  INT_SCALE <= f /\ (1 <= apr -> INT_SCALE + 2739726027 <= f).
Proof.
  intros Ha H. unfold daily_factor in H. inv_price. inv_checked.
  change (APR_SCALE * 365 / 2) with 182500000 in *. change (APR_SCALE * 365) with 365000000 in *.
  split; [done|].
  unfold INT_SCALE in *.
  pose proof (div_nonneg (1000000000000000000 * apr + 182500000) 365000000 ltac:(lia) ltac:(lia)).
  split; [lia|]. intros Hapr.
  assert (2739726027 <= (1000000000000000000 * apr + 182500000) / 365000000); [|lia].
  apply div_le_mul; lia.
Qed.

(** The growth factor of any nonzero APR outweighs the rounding of a billion
    days of compounding. *)
Lemma daily_factor_gap apr f n :
  1 <= apr -> daily_factor apr = Ok f -> 0 <= n <= 1000000000 ->
  INT_SCALE * (2 * INT_SCALE) * (2 * INT_SCALE + 1)
    <= f * (2 * INT_SCALE - 1) * (2 * INT_SCALE + 1 - 2 * n).
Proof.
  intros Ha H Hn. apply daily_factor_spec in H as (_ & _ & Hf); [|lia].
  specialize (Hf Ha). unfold INT_SCALE in *.
  transitivity ((1000000000000000000 + 2739726027) * (2 * 1000000000000000000 - 1)
                * (2 * 1000000000000000000 + 1 - 2 * 1000000000)).
  - vm_compute. discriminate.
  - apply Z.mul_le_mono_nonneg; [lia | | lia | lia].
    apply Z.mul_le_mono_nonneg_r; lia.
Qed.

Lemma pow_days_mono apr f n m r r' :
  1 <= apr -> daily_factor apr = Ok f ->
  0 <= n <= m -> n <= 1000000000 -> m <= u64.MAX ->
  pow_fixed f n INT_SCALE = Some r -> pow_fixed f m INT_SCALE = Some r' -> r <= r'.
Proof.
  intros Ha Hf Hnm Hn Hm H H'. destruct (decide (n = m)) as [->|]; [simplify_eq; lia|].
  pose proof (daily_factor_spec apr f ltac:(lia) Hf) as (_ & ? & _).
  apply (pow_fixed_mono_exp f n m INT_SCALE); auto; [done | lia | unfold INT_SCALE; lia |].
  eapply daily_factor_gap; eauto. lia.
Qed.

(** The price after [n] full days, as the code computes it. *)
Definition day_price (f base_price n : Z) : option Z :=
  r ← pow_fixed f n INT_SCALE; mul_div_round_u128 base_price r INT_SCALE.

Lemma day_price_mono apr f bp n m p q :
  1 <= apr -> daily_factor apr = Ok f -> 0 <= bp ->
  0 <= n <= m -> n <= 1000000000 -> m <= u64.MAX ->
  day_price f bp n = Some p -> day_price f bp m = Some q -> p <= q.
Proof.
  intros Ha Hf Hbp Hnm Hn Hm H H'. unfold day_price in *. inv_ok.
  apply (mul_div_round_mono bp v0 bp v INT_SCALE); auto; [done | lia |].
  split; [|by eapply (pow_days_mono apr f n m)].
  pose proof (daily_factor_spec apr f ltac:(lia) Hf) as (_ & ? & _).
  apply (pow_fixed_loop_accurate INT_SCALE 64 INT_SCALE f) in Hv0 as [? _];
    unfold INT_SCALE in *; lia.
Qed.

(** On a whole number of days the code returns the day price. *)
Lemma vector_price_on_days apr bp n p :
  apr <> 0 -> 0 < n -> calculate_vector_price apr bp (n * SECONDS_IN_DAY) = Ok p ->
  exists f, daily_factor apr = Ok f /\ day_price f bp n = Some p /\ p <= u64.MAX.
Proof.
  intros Hapr Hn H. unfold calculate_vector_price in H.
  assert (Hd : n * SECONDS_IN_DAY <> 0) by (unfold SECONDS_IN_DAY; lia).
  rewrite (proj2 (Z.eqb_neq _ _) Hapr), (proj2 (Z.eqb_neq _ _) Hd) in H. cbn [orb] in H.
  rewrite Z.mod_mul, Z.div_mul in H by (unfold SECONDS_IN_DAY; lia).
  inv_price. cbn in H. destruct (Z.ltb_spec u64.MAX v1); inv_price.
  exists v. unfold day_price. rewrite Hv0. cbn. auto.
Qed.

Lemma step_end_spec bp apr base_time d time p :
  0 <= base_time -> time <= u64.MAX -> 0 < d ->
  calculate_step_price_at apr bp base_time d time = Ok p ->
  base_time <= time /\
  calculate_vector_price apr bp (((time - base_time) / d + 1) * d) = Ok p /\
  ((time - base_time) / d + 1) * d <= u64.MAX.
Proof.
  intros Hb Ht Hd H. unfold calculate_step_price_at in H. inv_price.
  assert (E : u64.saturating_sub time base_time = time - base_time).
  { unfold u64.saturating_sub, clamp. unfold_bounds. lia. }
  rewrite E in *. inv_checked. split; [done|]. split; [done|]. zlia.
Qed.

(** Prices never fall.  With a price window that is a whole number of days
    (and APRs and times within a billion days), the step price of a vector at a
    later time is never below its price at an earlier time. *)
Theorem step_price_monotone apr bp base_time k t1 t2 p1 p2 :
  0 <= apr -> 0 <= bp -> 0 <= base_time -> 0 < k ->
  t1 <= t2 -> t2 <= u64.MAX ->
  t1 - base_time + k * SECONDS_IN_DAY <= 1000000000 * SECONDS_IN_DAY ->
  calculate_step_price_at apr bp base_time (k * SECONDS_IN_DAY) t1 = Ok p1 ->
  calculate_step_price_at apr bp base_time (k * SECONDS_IN_DAY) t2 = Ok p2 ->
  p1 <= p2.
Proof.
  intros Ha Hbp Hb Hk Ht Ht2 Hlim H1 H2. set (D := k * SECONDS_IN_DAY) in *.
  assert (HD : 0 < D) by (unfold D, SECONDS_IN_DAY; lia).
  apply step_end_spec in H1 as (Hb1 & H1 & _); [|done|lia|done].
  apply step_end_spec in H2 as (Hb2 & H2 & Hmax); [|done|done|done].
  set (n1 := (t1 - base_time) / D) in *. set (n2 := (t2 - base_time) / D) in *.
  assert (0 <= n1 <= n2).
  { split; [apply div_nonneg; lia|]. apply Z.div_le_mono; lia. }
  assert (n1 * D <= t1 - base_time) by (apply div_mul_le; lia).
  destruct (decide (apr = 0)) as [->|Hapr].
  - unfold calculate_vector_price in H1, H2. cbn in H1, H2. inv_res. lia.
  - unfold D in H1, H2. rewrite Z.mul_assoc in H1, H2.
    apply vector_price_on_days in H1 as (f & Hf & H1 & _); [|done|apply Z.mul_pos_pos; lia].
    apply vector_price_on_days in H2 as (f' & Hf' & H2 & _); [|done|apply Z.mul_pos_pos; lia].
    rewrite Hf in Hf'. inv_res.
    unfold D, SECONDS_IN_DAY in *.
    assert (0 <= n1 * k <= n2 * k)
      by (split; [apply Z.mul_nonneg_nonneg|apply Z.mul_le_mono_nonneg_r]; lia).
    eapply (day_price_mono apr _ bp ((n1 + 1) * k) ((n2 + 1) * k)); eauto; lia.
Qed.

Lemma step_price_monotone_witness :
  calculate_step_price_at 97600 1000000000 0 86400 0 = Ok 1000267397 /\
  calculate_step_price_at 97600 1000000000 0 86400 172800 = Ok 1000802406 /\
  1000267397 <= 1000802406.
Proof.
  split; [vm_compute; reflexivity|]. split; [vm_compute; reflexivity|].
  apply (step_price_monotone 97600 1000000000 0 1 0 172800);
    unfold SECONDS_IN_DAY, u64.MAX; try lia; vm_compute; reflexivity.
Defined.

(** The whole-day window is needed: with one-second windows the interpolated
    price of the last second of a day can exceed the price the next day starts
    at, because the two are rounded along different paths. *)
Theorem step_price_can_fall :
  calculate_step_price_at 10000 1000000000 0 1 (8 * SECONDS_IN_DAY - 2) = Ok 1000219200 /\
  calculate_step_price_at 10000 1000000000 0 1 (8 * SECONDS_IN_DAY - 1) = Ok 1000219199.
Proof. split; vm_compute; reflexivity. Qed.

(** A price is never below the base price. *)
Lemma mul_div_round_ge_left b r s p :
  0 < s -> 0 <= b -> s <= r -> mul_div_round_u128 b r s = Some p -> b <= p.
Proof.
  intros Hs Hb Hr H. apply mul_div_round_eq in H as (-> & _).
  apply div_le_mul; [done|]. pose proof (div_nonneg s 2 ltac:(lia) ltac:(lia)).
  assert (b * s <= b * r) by (apply Z.mul_le_mono_nonneg_l; lia). lia.
Qed.

Lemma pow_factor_ge apr f n r :
  0 <= apr -> 0 <= n -> daily_factor apr = Ok f -> pow_fixed f n INT_SCALE = Some r ->
  INT_SCALE <= r.
Proof.
  intros Ha Hn Hf H. pose proof (daily_factor_spec apr f Ha Hf) as (_ & ? & _).
  eapply (pow_fixed_loop_accurate INT_SCALE 64 INT_SCALE f n r); [done | lia | done | done | done].
Qed.

(** Growth only: whatever the elapsed time, a computed price is at least
    the base price of the vector and fits the machine type. *)
Theorem vector_price_ge_base apr bp elapsed p :
  0 <= apr -> 0 <= bp <= u64.MAX -> 0 <= elapsed ->
  calculate_vector_price apr bp elapsed = Ok p -> bp <= p <= u64.MAX.
Proof.
  intros Ha Hbp He H. unfold calculate_vector_price in H.
  destruct ((apr =? 0) || (elapsed =? 0)); [inv_res; lia|].
  inv_price.
  assert (0 <= elapsed / SECONDS_IN_DAY) by (apply div_nonneg; unfold SECONDS_IN_DAY; lia).
  assert (INT_SCALE <= v0) by (apply (pow_factor_ge apr v (elapsed / SECONDS_IN_DAY)); done).
  assert (bp <= v1) by (apply (mul_div_round_ge_left bp v0 INT_SCALE); [done | lia | done | done]).
  destruct (elapsed mod SECONDS_IN_DAY =? 0).
  - destruct (Z.ltb_spec u64.MAX v1); inv_res. lia.
  - inv_price. destruct (Z.ltb_spec u64.MAX v5); inv_res.
    apply mul_div_round_nonneg in Hv4; [|done].
    inv_checked. lia.
Qed.

Lemma vector_price_ge_base_witness :
  calculate_vector_price 97600 1000000000 3600 = Ok 1000011142 /\
  1000000000 <= 1000011142 <= u64.MAX.
Proof.
  split; [vm_compute; reflexivity|].
  apply (vector_price_ge_base 97600 1000000000 3600); try (unfold u64.MAX; lia).
  vm_compute. reflexivity.
Defined.

(** ** Vector lookup theorems *)

Section by_key.
Context {A : Type} (key : A -> Z).

Lemma max_by_key_Some l x :
  max_by_key key l = Some x -> In x l /\ forall y, In y l -> key y <= key x.
Proof.
  revert x. induction l as [|a l IH]; intros x H; cbn in H; [done|].
  destruct (max_by_key key l) as [y|] eqn:E.
  - destruct (IH y eq_refl) as [Hin Hmax].
    destruct (Z.leb_spec (key a) (key y)); inv_ok; split; cbn; eauto.
    + intros z [<-|Hz]; auto.
    + intros z [<-|Hz]; [lia|]. specialize (Hmax z Hz). lia.
  - inv_ok. split; [by left|]. intros y [<-|Hy]; [lia|].
    exfalso. clear - E Hy. induction l as [|b l IH]; cbn in *; [done|].
    destruct (max_by_key key l); done.
Qed.

Lemma max_by_key_None l : max_by_key key l = None <-> l = [].
Proof.
  split; [|by intros ->]. destruct l; cbn; [done|]. by destruct (max_by_key key l).
Qed.

Lemma min_by_key_None l : min_by_key key l = None <-> l = [].
Proof.
  split; [|by intros ->]. destruct l; cbn; [done|]. by destruct (min_by_key key l).
Qed.

Lemma min_by_key_Some l x :
  min_by_key key l = Some x -> In x l /\ forall y, In y l -> key x <= key y.
Proof.
  revert x. induction l as [|a l IH]; intros x H; cbn in H; [done|].
  destruct (min_by_key key l) as [y|] eqn:E.
  - destruct (IH y eq_refl) as [Hin Hmin].
    destruct (Z.leb_spec (key a) (key y)); inv_ok; split; cbn; eauto.
    + intros z [<-|Hz]; [lia|]. specialize (Hmin z Hz). lia.
    + intros z [<-|Hz]; [lia|auto].
  - inv_ok. apply min_by_key_None in E as ->.
    split; [by left|]. by intros y [<-|[]].
Qed.

Lemma position_Some (p : A -> bool) l i :
  position p l = Some i -> exists x, l !! i = Some x /\ p x = true.
Proof.
  revert i. induction l as [|a l IH]; intros i H; cbn in H; [done|].
  destruct (p a) eqn:E; [inv_ok; eauto|].
  destruct (position p l) as [j|]; cbn in H; inv_ok. cbn. by apply IH.
Qed.

Lemma position_None (p : A -> bool) l :
  position p l = None <-> forall x, In x l -> p x = false.
Proof.
  induction l as [|a l IH]; cbn; [firstorder|].
  destruct (p a) eqn:E.
  - split; [done|]. intros H. specialize (H a (or_introl eq_refl)). congruence.
  - destruct (position p l); cbn; split; intros H; try done.
    + exfalso. enough (Some n = None) by done. apply IH. auto.
    + intros x [<-|Hx]; [done|]. by apply IH.
Qed.
End by_key.

(** A vector that occupies a slot. *)
Definition live (vs : list OfferVector.t) (v : OfferVector.t) : Prop :=
  In v vs /\ OfferVector.start_time v <> 0.

(** What it means to be the vector in force at [t]. *)
Definition active_at (vs : list OfferVector.t) (t : Z) (v : OfferVector.t) : Prop :=
  live vs v /\ OfferVector.start_time v <= t /\
  forall w, live vs w -> OfferVector.start_time w <= t ->
    OfferVector.start_time w <= OfferVector.start_time v.

Lemma vector_live_at_spec t v :
  vector_live_at t v = true <-> OfferVector.start_time v <> 0 /\ OfferVector.start_time v <= t.
Proof.
  unfold vector_live_at. rewrite andb_true_iff, negb_true_iff, Z.eqb_neq, Z.leb_le. done.
Qed.

Lemma find_active_Ok o t v :
  find_active_vector_at o t = Ok v -> active_at (Offer.vectors o) t v.
Proof.
  unfold find_active_vector_at. intros H. inv_res.
  apply max_by_key_Some in H as [Hin Hmax].
  apply filter_In in Hin as [Hin Hlive]. apply vector_live_at_spec in Hlive as [Hne Hle].
  split; [done|]. split; [done|]. intros w [Hw Hwne] Hwt.
  apply Hmax. apply filter_In. split; [done|]. by apply vector_live_at_spec.
Qed.

Lemma find_active_Err o t e :
  find_active_vector_at o t = Err e ->
  e = Onre OnreError.NoActiveVector /\
  forall w, live (Offer.vectors o) w -> t < OfferVector.start_time w.
Proof.
  unfold find_active_vector_at, ok_or_onre, ok_or. intros H.
  destruct (max_by_key _ _) eqn:E; [done|]. injection H as <-. split; [done|].
  apply max_by_key_None in E. intros w [Hin Hne].
  destruct (decide (OfferVector.start_time w <= t)); [|lia]. exfalso.
  enough (In w []) by done. rewrite <- E. apply filter_In. split; [done|].
  by apply vector_live_at_spec.
Qed.

(** Live vectors have pairwise different start times, slot by slot. *)
Definition starts_unique (vs : list OfferVector.t) : Prop :=
  forall i j v w, vs !! i = Some v -> vs !! j = Some w ->
    OfferVector.start_time v = OfferVector.start_time w ->
    OfferVector.start_time v <> 0 -> i = j.

Lemma In_lookup {A} (l : list A) x : In x l <-> exists i, l !! i = Some x.
Proof. rewrite <- list_elem_of_In. apply list_elem_of_lookup. Qed.

Lemma starts_unique_live vs v w :
  starts_unique vs -> live vs v -> live vs w ->
  OfferVector.start_time v = OfferVector.start_time w -> v = w.
Proof.
  intros Hu [Hv Hvne] [Hw _] E.
  apply In_lookup in Hv as [i Hi]. apply In_lookup in Hw as [j Hj].
  assert (i = j) as -> by (eapply Hu; eauto). congruence.
Qed.

Lemma find_active_iff o t v :
  starts_unique (Offer.vectors o) ->
  find_active_vector_at o t = Ok v <-> active_at (Offer.vectors o) t v.
Proof.
  intros Hu. split; [apply find_active_Ok|]. intros (Hl & Ht & Hmax).
  destruct (find_active_vector_at o t) as [w|e] eqn:E.
  - f_equal. apply find_active_Ok in E as (Hwl & Hwt & Hwmax).
    eapply starts_unique_live; eauto. specialize (Hmax w Hwl Hwt). specialize (Hwmax v Hl Ht). lia.
  - apply find_active_Err in E as [_ E]. specialize (E v Hl). lia.
Qed.

(** Two offers whose live vectors up to [t] agree in the maximum price alike. *)
Lemma find_active_same o o' t :
  starts_unique (Offer.vectors o) -> starts_unique (Offer.vectors o') ->
  (forall v, active_at (Offer.vectors o) t v <-> active_at (Offer.vectors o') t v) ->
  find_active_vector_at o t = find_active_vector_at o' t.
Proof.
  intros Hu Hu' H.
  destruct (find_active_vector_at o t) as [v|e] eqn:E.
  - symmetry. apply find_active_iff; [done|]. apply H. by apply find_active_iff.
  - destruct (find_active_vector_at o' t) as [v|e'] eqn:E'.
    + apply find_active_iff in E'; [|done]. apply H in E'. apply find_active_iff in E'; [|done].
      congruence.
    + apply find_active_Err in E as [-> _]. by apply find_active_Err in E' as [-> _].
Qed.

(** ** The slot array

    Well-formedness: ten slots, each empty (all zero) or holding a vector that
    passed the source's validation, no start time twice. *)

Definition slot_wf (v : OfferVector.t) : Prop :=
  v = OfferVector.default \/
  (0 < OfferVector.start_time v /\ 0 < OfferVector.base_time v /\
   0 < OfferVector.base_price v /\ 0 < OfferVector.price_fix_duration v).

Record vectors_wf (vs : list OfferVector.t) : Prop := {
  wf_length : length vs = MAX_VECTORS;
  wf_unique : starts_unique vs;
  wf_slots : Forall slot_wf vs
}.

Lemma live_insert vs i v0 new w :
  vs !! i = Some v0 -> OfferVector.start_time v0 = 0 -> OfferVector.start_time new <> 0 ->
  live (<[i := new]> vs) w <-> w = new \/ live vs w.
Proof.
  intros Hi H0 Hnew. pose proof (lookup_lt_Some _ _ _ Hi) as Hlt. unfold live.
  rewrite !In_lookup. split.
  - intros [[j Hj] Hne]. rewrite list_lookup_insert in Hj.
    case_decide; [left; congruence | right; eauto].
  - intros [->|[[j Hj] Hne]].
    + split; [|done]. exists i. by apply list_lookup_insert_eq.
    + split; [|done]. exists j. rewrite list_lookup_insert_ne; [done|]. intros ->. congruence.
Qed.

Lemma live_evict (e : OfferVector.t -> bool) vs w :
  live (map (fun v => if e v then OfferVector.default else v) vs) w
    <-> live vs w /\ e w = false.
Proof.
  unfold live. rewrite in_map_iff. split.
  - intros [(v & E & Hv) Hne]. destruct (e v) eqn:Ev; subst; [done|]. auto.
  - intros [[Hin Hne] Ew]. split; [|done]. exists w. by rewrite Ew.
Qed.

Lemma starts_unique_evict (e : OfferVector.t -> bool) vs :
  starts_unique vs ->
  starts_unique (map (fun v => if e v then OfferVector.default else v) vs).
Proof.
  intros Hu i j v w Hi Hj E Hne.
  rewrite list_lookup_fmap_Some in Hi. rewrite list_lookup_fmap_Some in Hj.
  destruct Hi as (v' & -> & Hi), Hj as (w' & -> & Hj).
  destruct (e v'), (e w'); cbn in *; try lia. by apply (Hu i j v' w').
Qed.

Lemma starts_unique_insert vs i new :
  starts_unique vs ->
  (forall w, live vs w -> OfferVector.start_time w <> OfferVector.start_time new) ->
  starts_unique (<[i := new]> vs).
Proof.
  intros Hu Hfresh a b v w Ha Hb E Hne. rewrite list_lookup_insert in Ha, Hb.
  repeat case_decide; destruct_and?; simplify_eq; try done.
  - exfalso. apply (Hfresh v); [split; [apply In_lookup; eauto | done] | done].
  - exfalso. apply (Hfresh w); [split; [apply In_lookup; eauto | congruence] | done].
  - by apply (Hu a b v w).
Qed.

Lemma slots_evict (e : OfferVector.t -> bool) vs :
  Forall slot_wf vs ->
  Forall slot_wf (map (fun v => if e v then OfferVector.default else v) vs).
Proof.
  intros H. apply Forall_fmap. eapply Forall_impl; [exact H|]. intros v Hv. cbn.
  destruct (e v); [by left|done].
Qed.

Lemma vectors_wf_evict (e : OfferVector.t -> bool) vs :
  vectors_wf vs -> vectors_wf (map (fun v => if e v then OfferVector.default else v) vs).
Proof.
  intros [Hl Hu Hs]. split.
  - by rewrite length_map.
  - by apply starts_unique_evict.
  - by apply slots_evict.
Qed.

Lemma vectors_wf_insert vs i new :
  vectors_wf vs -> slot_wf new ->
  (forall w, live vs w -> OfferVector.start_time w <> OfferVector.start_time new) ->
  vectors_wf (<[i := new]> vs).
Proof.
  intros [Hl Hu Hs] Hnew Hfresh. split.
  - by rewrite length_insert.
  - by apply starts_unique_insert.
  - by apply Forall_insert.
Qed.

(** What the input validation of [add_offer_vector] guarantees. *)
Lemma validate_inputs_Ok st bt bp d now o u :
  validate_inputs st bt bp d now o = Ok u ->
  now <= st /\ 0 < bt /\ 0 < bp /\ 0 < d /\
  forall w, live (Offer.vectors o) w -> OfferVector.start_time w < st.
Proof.
  unfold validate_inputs. intros H. inv_res. do 4 (split; [done|]).
  intros w [Hin Hne].
  assert (Hw : In (OfferVector.start_time w) (existing_start_times o)).
  { apply in_map, filter_In. split; [done|]. apply negb_true_iff. by apply Z.eqb_neq. }
  destruct (max_by_key id (existing_start_times o)) as [m|] eqn:E.
  - inv_res. apply max_by_key_Some in E as [_ E]. specialize (E _ Hw). cbn in E. lia.
  - apply max_by_key_None in E. rewrite E in Hw. done.
Qed.

(** The offer [clean_old_vectors] returns, and what it spares. *)
Lemma clean_old_vectors_Ok o new now o' ev :
  clean_old_vectors o new now = Ok (o', ev) ->
  exists e : OfferVector.t -> bool,
     Offer.vectors o' = map (fun v => if e v then OfferVector.default else v) (Offer.vectors o) /\
    (forall v, e v = true ->
       (OfferVector.start_time new = now \/
        exists a, find_active_vector_at o now = Ok a /\
                  OfferVector.start_time v < OfferVector.start_time a)).
Proof.
  unfold clean_old_vectors. intros H.
  destruct (Z.eqb_spec (OfferVector.start_time new) now) as [E|E].
  - inv_res. eexists. split; [reflexivity|]. auto.
  - destruct (find_active_vector_at o now) as [a|] eqn:Ha.
    + inv_res. eexists. split; [reflexivity|]. intros w Hw. right. exists a. split; [done|].
      unfold evictable in Hw. inv_res. done.
    + inv_res. exists (fun _ : OfferVector.t => false). split; [symmetry; apply map_id|done].
Qed.

(** The live vectors after an insertion: the new one and the spared old ones. *)
Lemma add_vector_live o now new o' ev :
  0 < now -> add_vector o now new = Ok (o', ev) ->
  (forall w, live (Offer.vectors o) w -> OfferVector.start_time w < OfferVector.start_time new) /\
  now <= OfferVector.start_time new /\
  exists e : OfferVector.t -> bool,
    (forall w, live (Offer.vectors o') w <->
       w = new \/ (live (Offer.vectors o) w /\ e w = false)) /\
    (forall v, e v = true ->
       (OfferVector.start_time new = now \/
        exists a, find_active_vector_at o now = Ok a /\
                  OfferVector.start_time v < OfferVector.start_time a)).
Proof.
  intros Hnow H. unfold add_vector in H. inv_res.
  apply validate_inputs_Ok in Hv as (Hst & _ & _ & _ & Hlt).
  destruct v0 as [o1 ev1]. inv_res.
  apply clean_old_vectors_Ok in Hv0 as (e & Hvs & Hev).
  split; [done|]. split; [done|]. exists e. split; [|done].
  apply position_Some in Hv as (v0 & Hi & H0). apply Z.eqb_eq in H0.
  intros w. cbn. rewrite (live_insert _ _ v0); [|done|done|lia].
  by rewrite Hvs, live_evict.
Qed.

Lemma add_vector_wf o now new o' ev :
  0 < now -> vectors_wf (Offer.vectors o) ->
  add_vector o now new = Ok (o', ev) -> vectors_wf (Offer.vectors o').
Proof.
  intros Hnow Hwf H. unfold add_vector in H. inv_res.
  apply validate_inputs_Ok in Hv as (Hst & ? & ? & ? & Hlt).
  destruct v0 as [o1 ev1]. inv_res.
  apply clean_old_vectors_Ok in Hv0 as (e & Hvs & _). cbn. rewrite Hvs.
  apply vectors_wf_insert.
  - by apply vectors_wf_evict.
  - right. lia.
  - intros w [Hw _]%live_evict. specialize (Hlt w Hw). lia.
Qed.

(** The vector in force after an insertion. *)
Lemma add_vector_in_force o now new o' ev t :
  0 < now -> now <= t -> vectors_wf (Offer.vectors o) ->
  add_vector o now new = Ok (o', ev) ->
  find_active_vector_at o' t =
    (if OfferVector.start_time new <=? t then Ok new else find_active_vector_at o t).
Proof.
  intros Hnow Ht Hwf H.
  pose proof (wf_unique _ (add_vector_wf _ _ _ _ _ Hnow Hwf H)) as Hu'.
  destruct (add_vector_live _ _ _ _ _ Hnow H) as (Hlt & Hst & e & Hlive & Hev).
  destruct (Z.leb_spec (OfferVector.start_time new) t) as [Hs|Hs].
  - apply find_active_iff; [done|]. split; [split|split; [done|]].
    + by destruct (proj2 (Hlive new) (or_introl eq_refl)).
    + lia.
    + intros w Hw Hwt. apply Hlive in Hw as [->|[Hw _]]; [lia|]. specialize (Hlt w Hw). lia.
  - apply find_active_same; [done|by apply wf_unique|].
    assert (Hspare : forall w, live (Offer.vectors o) w -> e w = true ->
              exists a, active_at (Offer.vectors o) now a /\
                OfferVector.start_time w < OfferVector.start_time a).
    { intros w _ He. destruct (Hev w He) as [?|(a & Ha & ?)]; [lia|].
      exists a. split; [by apply find_active_Ok|done]. }
    intros v. split; intros (Hv & Hvt & Hmax).
    + apply Hlive in Hv as [->|[Hv He]]; [lia|]. split; [done|]. split; [done|].
      intros w Hw Hwt. destruct (e w) eqn:Ew.
      * destruct (Hspare w Hw Ew) as (a & (Ha & Hat & Hamax) & Hwa).
        enough (OfferVector.start_time a <= OfferVector.start_time v) by lia.
        apply Hmax; [|lia]. apply Hlive. right. split; [done|].
        destruct (e a) eqn:Ea; [|done].
        destruct (Hspare a Ha Ea) as (b & (Hb & Hbt & _) & Hab).
        specialize (Hamax b Hb Hbt). lia.
      * apply Hmax; [|done]. apply Hlive. by right.
    + split; [|split; [done|]].
      * apply Hlive. right. split; [done|]. destruct (e v) eqn:Ev; [|done].
        destruct (Hspare v Hv Ev) as (a & (Ha & Hat & _) & Hva).
        specialize (Hmax a Ha ltac:(lia)). lia.
      * intros w Hw Hwt. apply Hlive in Hw as [->|[Hw _]]; [lia|]. auto.
Qed.

(** Adding a vector changes the price only from its own start on.  For
    every time from now on, the vector in force after the insertion is the new
    one once it has started and, until then, exactly the vector that was in
    force before, whatever the eviction of old vectors cleared. *)
Theorem add_vector_active o now new o' ev t :
  0 < now -> now <= t -> vectors_wf (Offer.vectors o) ->
  add_vector o now new = Ok (o', ev) ->
  find_active_vector_at o' t =
    (if OfferVector.start_time new <=? t then Ok new else find_active_vector_at o t).
Proof. apply add_vector_in_force. Qed.

Definition vec_a : OfferVector.t := OfferVector.mk 100 100 1000000000 0 86400.
Definition vec_b : OfferVector.t := OfferVector.mk 200 200 1100000000 36500 86400.
Definition vec_c : OfferVector.t := OfferVector.mk 300 300 1200000000 36500 86400.
Definition vec_d : OfferVector.t := OfferVector.mk 500 500 1300000000 36500 86400.

Definition empty_vectors : list OfferVector.t := replicate MAX_VECTORS OfferVector.default.

Definition sample_offer : Offer.t :=
  Offer.mk 1 2 ([vec_a; vec_b; vec_c] ++ replicate 7 OfferVector.default) 0 255 0 1 0 0.

Lemma empty_vectors_wf : vectors_wf empty_vectors.
Proof.
  split; [done| |].
  - intros i j v w Hi Hj E Hne. apply list_elem_of_lookup_2, elem_of_replicate in Hi as [-> _].
    done.
  - apply Forall_replicate. by left.
Qed.

Lemma sample_offer_slots i v :
  Offer.vectors sample_offer !! i = Some v -> OfferVector.start_time v <> 0 ->
  (i = 0%nat /\ v = vec_a) \/ (i = 1%nat /\ v = vec_b) \/ (i = 2%nat /\ v = vec_c).
Proof.
  intros Hi Hne. destruct i as [|[|[|i]]]; cbn -[replicate] in Hi; inv_ok; auto.
  apply list_elem_of_lookup_2, elem_of_replicate in Hi as [-> _]. done.
Qed.

Lemma sample_offer_wf : vectors_wf (Offer.vectors sample_offer).
Proof.
  split; [done| |].
  - intros i j v w Hi Hj E Hne.
    pose proof (sample_offer_slots i v Hi Hne). pose proof (sample_offer_slots j w Hj ltac:(lia)).
    destruct_or?; destruct_and?; simplify_eq; done.
  - repeat constructor; try (by left); right; cbn; lia.
Qed.

Lemma add_vector_active_witness :
  is_ok (add_vector sample_offer 350 vec_d) = true /\
  exists o' ev, add_vector sample_offer 350 vec_d = Ok (o', ev) /\
    find_active_vector_at o' 400 = find_active_vector_at sample_offer 400.
Proof.
  split; [vm_compute; reflexivity|].
  destruct (add_vector sample_offer 350 vec_d) as [[o' ev]|e] eqn:H; [|vm_compute in H; discriminate H].
  exists o', ev. split; [reflexivity|].
  exact (add_vector_active sample_offer 350 vec_d o' ev 400 ltac:(lia) ltac:(lia) sample_offer_wf H).
Defined.

(** Deleting a vector: slot [i], where it was found, becomes empty. *)
Lemma delete_vector_Ok o now st o' :
  delete_vector o now st = Ok o' ->
  now < st /\ exists i v, Offer.vectors o !! i = Some v /\ OfferVector.start_time v = st /\
    Offer.vectors o' = <[i := OfferVector.default]> (Offer.vectors o).
Proof.
  unfold delete_vector. intros H. inv_res. split; [done|].
  apply position_Some in Hv0 as (w & Hi & Hw). apply Z.eqb_eq in Hw. eauto 6.
Qed.

Lemma live_delete vs i v w :
  starts_unique vs -> vs !! i = Some v -> OfferVector.start_time v <> 0 ->
  live (<[i := OfferVector.default]> vs) w
    <-> live vs w /\ OfferVector.start_time w <> OfferVector.start_time v.
Proof.
  intros Hu Hi Hne. unfold live. rewrite !In_lookup. split.
  - intros [[j Hj] Hw]. rewrite list_lookup_insert in Hj.
    case_decide as Hd; [by destruct_and?; simplify_eq|]. split; [eauto|].
    intros E. assert (j = i) as -> by (apply (Hu j i w v); auto).
    pose proof (lookup_lt_Some _ _ _ Hi). tauto.
  - intros [[[j Hj] Hw] Hneq]. split; [|done]. exists j.
    rewrite list_lookup_insert_ne; [done|]. intros ->. congruence.
Qed.

Lemma delete_vector_wf o now st o' :
  0 < now -> vectors_wf (Offer.vectors o) -> delete_vector o now st = Ok o' ->
  vectors_wf (Offer.vectors o').
Proof.
  intros Hnow [Hl Hu Hs] H. apply delete_vector_Ok in H as (Hst & i & v & Hi & Hv & ->). split.
  - by rewrite length_insert.
  - intros a b x y Ha Hb E Hne. rewrite list_lookup_insert in Ha, Hb.
    repeat case_decide; destruct_and?; simplify_eq; cbn in *;
      first [done | congruence | by apply (Hu a b x y)].
  - apply Forall_insert; [done|by left].
Qed.

(** Deleting a vector never touches the present.  Only a vector that starts
    in the future can be deleted; afterwards no live vector has that start
    time, and at every time before it the vector in force is unchanged. *)
Theorem delete_vector_active o now st o' :
  0 < now -> vectors_wf (Offer.vectors o) -> delete_vector o now st = Ok o' ->
  now < st /\
  (forall w, live (Offer.vectors o') w <->
     live (Offer.vectors o) w /\ OfferVector.start_time w <> st) /\
  (forall t, t < st -> find_active_vector_at o' t = find_active_vector_at o t).
Proof.
  intros Hnow Hwf H. pose proof (delete_vector_wf _ _ _ _ Hnow Hwf H) as Hwf'.
  apply delete_vector_Ok in H as (Hst & i & v & Hi & Hv & Hvs). split; [done|].
  assert (Hlive : forall w, live (Offer.vectors o') w <->
            live (Offer.vectors o) w /\ OfferVector.start_time w <> st).
  { intros w. rewrite Hvs, <- Hv. apply live_delete; [by apply wf_unique|done|lia]. }
  split; [done|]. intros t Ht.
  apply find_active_same; [by apply wf_unique|by apply wf_unique|].
  intros w. split; intros (Hw & Hwt & Hmax).
  - split; [by apply Hlive|]. split; [done|]. intros x Hx Hxt. apply Hmax; [|done].
    apply Hlive. split; [done|lia].
  - split; [apply Hlive; split; [done|lia]|]. split; [done|].
    intros x [Hx _]%Hlive Hxt. auto.
Qed.

Lemma delete_vector_active_witness :
  exists o', delete_vector sample_offer 250 300 = Ok o' /\ 250 < 300 /\
    find_active_vector_at o' 299 = find_active_vector_at sample_offer 299.
Proof.
  destruct (delete_vector sample_offer 250 300) as [o'|e] eqn:H; [|vm_compute in H; discriminate H].
  exists o'. split; [reflexivity|].
  destruct (delete_vector_active sample_offer 250 300 o' ltac:(lia) sample_offer_wf H)
    as (Hst & _ & Hact).
  split; [exact Hst|]. apply (Hact 299). lia.
Defined.

(** ** The life of an offer's vectors *)

Inductive vector_op : Type :=
| AddVector (start_time_opt : option Z) (base_time base_price apr price_fix_duration : Z)
| DeleteVector (vector_start_time : Z)
| DeleteAllVectors.

Definition apply_vector_op (now : Z) (op : vector_op) (o : Offer.t) : Result Offer.t :=
  match op with
  | AddVector st bt bp apr d => fst <$> add_vector o now (new_offer_vector st bt bp apr d now)
  | DeleteVector st => delete_vector o now st
  | DeleteAllVectors => Ok (fst (delete_all_vectors o))
  end.

(** One successful vector instruction at some time after the epoch. *)
Definition vector_step (o o' : Offer.t) : Prop :=
  exists now op, 0 < now /\ apply_vector_op now op o = Ok o'.

Lemma delete_all_vectors_wf o :
  vectors_wf (Offer.vectors o) -> vectors_wf (Offer.vectors (fst (delete_all_vectors o))).
Proof.
  intros Hwf. cbn.
  replace (map _ _) with
    (map (fun v => if negb (OfferVector.start_time v =? 0) then OfferVector.default else v)
       (Offer.vectors o)); [by apply vectors_wf_evict|].
  apply map_ext. intros v. by destruct (OfferVector.start_time v =? 0).
Qed.

Lemma apply_vector_op_wf now op o o' :
  0 < now -> vectors_wf (Offer.vectors o) -> apply_vector_op now op o = Ok o' ->
  vectors_wf (Offer.vectors o').
Proof.
  intros Hnow Hwf H. destruct op; cbn [apply_vector_op] in H.
  - apply fmap_Ok_inv in H as ([o1 ev] & H & ->). by eapply add_vector_wf.
  - by eapply delete_vector_wf.
  - inv_res. by apply delete_all_vectors_wf.
Qed.

(** The only way pricing can fail on a vector of a well-formed offer is with
    one of the program's errors: the division by the window length is safe. *)
Lemma calculate_vector_price_no_panic apr bp e : calculate_vector_price apr bp e <> Err Panicked.
Proof.
  unfold calculate_vector_price, daily_factor, overflow. no_panic.
Qed.

(** Whatever sequence of vector instructions an offer goes through from its
    creation, its ten slots stay well formed, and computing the price of any of
    its live vectors never panics (no division by zero, no unchecked overflow). *)
Theorem reachable_vectors_wf o0 o :
  Offer.vectors o0 = empty_vectors -> rtc vector_step o0 o ->
  vectors_wf (Offer.vectors o) /\
  forall v t, live (Offer.vectors o) v ->
    calculate_step_price_at (OfferVector.apr v) (OfferVector.base_price v)
      (OfferVector.base_time v) (OfferVector.price_fix_duration v) t <> Err Panicked.
Proof.
  intros H0 Hrtc.
  assert (Hwf : vectors_wf (Offer.vectors o)).
  { assert (Hwf0 : vectors_wf (Offer.vectors o0)) by (rewrite H0; apply empty_vectors_wf).
    clear H0. induction Hrtc as [o|o1 o2 o3 (now & op & Hnow & Hop) _ IH]; [done|].
    apply IH. by eapply apply_vector_op_wf. }
  split; [done|]. intros v t [Hin Hne].
  destruct (proj1 (List.Forall_forall slot_wf _) (wf_slots _ Hwf) v Hin) as [->|(_ & _ & _ & Hd)];
    [done|].
  unfold calculate_step_price_at, overflow. no_panic.
  - unfold panicking, u128.checked_div. rewrite (proj2 (Z.eqb_neq _ 0)) by lia. done.
  - apply calculate_vector_price_no_panic.
Qed.

Lemma reachable_vectors_wf_witness :
  let o0 := Offer.mk 1 2 empty_vectors 0 255 0 1 0 0 in
  exists o, rtc vector_step o0 o /\ live (Offer.vectors o) vec_a /\
    calculate_step_price_at 0 1000000000 100 86400 150 <> Err Panicked.
Proof.
  intros o0.
  destruct (apply_vector_op 50 (AddVector None 100 1000000000 0 86400) o0) as [o|e] eqn:H;
    [|vm_compute in H; discriminate H].
  assert (Hr : rtc vector_step o0 o).
  { apply rtc_once. exists 50, (AddVector None 100 1000000000 0 86400). split; [lia|exact H]. }
  assert (Hl : live (Offer.vectors o) vec_a).
  { vm_compute in H. injection H as <-. split; [by left|done]. }
  exists o. split; [exact Hr|]. split; [exact Hl|].
  destruct (reachable_vectors_wf o0 o eq_refl Hr) as [_ Hp].
  exact (Hp vec_a 150 Hl).
Defined.

(** A vector may be given an explicit start before its base time: the source
    validates each against zero and the current time, never against each other.
    From its start until its base time such a vector is the one in force and
    every price computation on the offer fails. *)
Theorem start_before_base_unpriced o now st bt bp apr d o' ev t :
  0 < now -> vectors_wf (Offer.vectors o) ->
  add_vector o now (new_offer_vector (Some st) bt bp apr d now) = Ok (o', ev) ->
  now <= t -> st <= t -> t < bt ->
  exists v, find_active_vector_at o' t = Ok v /\
    calculate_step_price_at (OfferVector.apr v) (OfferVector.base_price v)
      (OfferVector.base_time v) (OfferVector.price_fix_duration v) t
    = Err (Onre OnreError.NoActiveVector).
Proof.
  intros Hnow Hwf H Ht Hst Hbt. eexists. split.
  - rewrite (add_vector_in_force _ _ _ _ _ t Hnow Ht Hwf H). cbn.
    rewrite (proj2 (Z.leb_le _ _) Hst). reflexivity.
  - unfold calculate_step_price_at, require_onre, new_offer_vector.
    cbn [OfferVector.base_time]. by rewrite require_false by (by apply Z.leb_gt).
Qed.
