(* ===== verification/Runtime.v ===== *)
(** * The runtime the program relies on

    Code outside [src/] as an interface: program-derived addresses, associated
    token addresses and the SPL token programs.  The operations are parameters
    (classes [Runtime] and [TokenLedger]); what the program relies on is stated
    as laws ([RuntimeLaws], [TokenLedgerLaws]), and a concrete instance of each
    shows that the laws can hold.  *)

From stdpp Require Export strings gmap.
From S2P Require Import Prelude Errors Accounts.

(** ** Addresses *)

(** The seeds of a program-derived address: literal bytes, keys and integers. *)
Inductive Seed : Type :=
| SeedBytes (s : string)
| SeedKey (k : Pubkey)
| SeedU64 (n : Z).

#[export] Instance Seed_eq_dec : EqDecision Seed.
Proof. solve_decision. Defined.

#[export] Instance Seed_countable : Countable Seed.
Proof.
  refine (inj_countable'
    (fun s => match s with
              | SeedBytes x => inl x
              | SeedKey k => inr (inl k)
              | SeedU64 n => inr (inr n)
              end)
    (fun e => match e with
              | inl x => SeedBytes x
              | inr (inl k) => SeedKey k
              | inr (inr n) => SeedU64 n
              end) _).
  by intros [].
Defined.

Class Runtime : Type := {
  (** [crate::ID], [anchor_spl::token::ID], the system program. *)
  program_id : Pubkey;
  spl_token_id : Pubkey;
  token_2022_id : Pubkey;
  system_program_id : Pubkey;
  instructions_sysvar_id : Pubkey;
  ed25519_program_id : Pubkey;
  (** [Pubkey::find_program_address(seeds, program_id)]: address and bump. *)
  find_program_address : list Seed -> Pubkey * Z;
  (** [get_associated_token_address_with_program_id]. *)
  associated_token_address (authority mint token_program : Pubkey) : Pubkey;
  (** Whether the system program creates an account for this payer. *)
  create_account_succeeds (payer account : Pubkey) : bool
}.

(** Derived addresses do not collide, and are never the default key. *)
Class RuntimeLaws (R : Runtime) : Prop := {
  pda_inj s1 s2 :
    fst (find_program_address s1) = fst (find_program_address s2) -> s1 = s2;
  ata_inj a1 m1 p1 a2 m2 p2 :
    associated_token_address a1 m1 p1 = associated_token_address a2 m2 p2 ->
    a1 = a2 /\ m1 = m2 /\ p1 = p2;
  pda_not_default s : fst (find_program_address s) <> Pubkey_default
}.

Definition pda `{Runtime} (seeds : list Seed) : Pubkey := fst (find_program_address seeds).
Definition pda_bump `{Runtime} (seeds : list Seed) : Z := snd (find_program_address seeds).

(** [src/constants.rs], [mod seeds]. *)
Module seeds.
Open Scope string_scope.
Definition STATE := SeedBytes "state".
Definition OFFER := SeedBytes "offer".
Definition OFFER_VAULT_AUTHORITY := SeedBytes "offer_vault_authority".
Definition PERMISSIONLESS_AUTHORITY := SeedBytes "permissionless-1".
Definition MINT_AUTHORITY := SeedBytes "mint_authority".
Definition MARKET_STATS := SeedBytes "market_stats".
Definition CIRCULATING_SUPPLY_EXCLUDED_ACCOUNTS := SeedBytes "circ_supply_excl_accounts".
Definition CIRCULATING_SUPPLY_EXCLUDED_BALANCE := SeedBytes "circ_supply_excl_balance".
Definition REDEMPTION_OFFER := SeedBytes "redemption_offer".
Definition REDEMPTION_OFFER_VAULT_AUTHORITY := SeedBytes "redemption_offer_vault_authority".
Definition REDEMPTION_REQUEST := SeedBytes "redemption_request".
Definition BUFFER_STATE := SeedBytes "buffer_state".
Definition RESERVE_VAULT_AUTHORITY := SeedBytes "reserve_vault_authority".
Definition CONFIGURABLE_VAULT := SeedBytes "configurable_vault".
Definition PROP_AMM_PAIR_STATE := SeedBytes "prop_amm_pair".
(** [ConfigurableVaultKind::seed] ([src/state.rs]). *)
Definition vault_seed (k : ConfigurableVaultKind.t) : Seed :=
  SeedBytes
    match k with
    | ConfigurableVaultKind.OfferFee => "offer_fee"
    | ConfigurableVaultKind.ManagementFee => "management_fee"
    | ConfigurableVaultKind.PerformanceFee => "performance_fee"
    | ConfigurableVaultKind.PropAmmBuyFee => "prop_amm_buy_fee"
    | ConfigurableVaultKind.OfferProceeds => "offer_proceeds"
    | ConfigurableVaultKind.PropAmmProceeds => "prop_amm_proceeds"
    | ConfigurableVaultKind.PermissionlessOfferFee => "permissionless_offer_fee"
    | ConfigurableVaultKind.RedemptionFee => "redemption_fee"
    | ConfigurableVaultKind.PropAmmSellFee => "prop_amm_sell_fee"
    end.
Close Scope string_scope.
End seeds.

(** ** Clock *)

Module Clock.
Record t : Type := mk { unix_timestamp : Z; slot : Z; epoch : Z }.
End Clock.

(** [clock.unix_timestamp as u64]. *)
Definition timestamp_u64 (c : Clock.t) : Z := u64.cast (Clock.unix_timestamp c).

(** ** Token accounts *)

(** The view of a mint the program reads: base fields, the owning token program
    and, if the mint has the Token-2022 transfer-fee extension, the fee (basis
    points, maximum) of the current epoch. *)
Module Mint.
Record t : Type := mk {
  supply : Z;
  decimals : Z;
  mint_authority : option Pubkey;
  token_program : Pubkey;
  transfer_fee_config : option (Z * Z)
}.
Definition with_mint_authority (v : option Pubkey) (m : t) : t :=
  mk (supply m) (decimals m) v (token_program m) (transfer_fee_config m).
Definition with_supply (v : Z) (m : t) : t :=
  mk v (decimals m) (mint_authority m) (token_program m) (transfer_fee_config m).
End Mint.

Module TokenAccount.
Record t : Type := mk { mint : Pubkey; owner : Pubkey; amount : Z; token_program : Pubkey }.
Definition with_amount (v : Z) (a : t) : t := mk (mint a) (owner a) v (token_program a).
End TokenAccount.

(** The token programs, as a ledger [L] with the calls the program makes. *)
Class TokenLedger (L : Type) : Type := {
  ledger_mint : L -> Pubkey -> option Mint.t;
  ledger_account : L -> Pubkey -> option TokenAccount.t;
  transfer_checked (program mint from to authority : Pubkey) (amount decimals : Z) : L -> option L;
  mint_to_checked (program mint to authority : Pubkey) (amount decimals : Z) : L -> option L;
  burn_checked (program mint from authority : Pubkey) (amount decimals : Z) : L -> option L;
  create_associated_account (authority mint token_program : Pubkey) : L -> option L;
  (** [set_authority] with [AuthorityType::MintTokens]. *)
  set_mint_authority (program mint current new : Pubkey) : L -> option L
}.

(** Apply [f] to the account at [k]. *)
Definition at_account (k : Pubkey) (f : Z -> Z) (accounts : Pubkey -> option TokenAccount.t)
  : Pubkey -> option TokenAccount.t :=
  fun j => if key_eqb j k
           then (fun a => TokenAccount.with_amount (f (TokenAccount.amount a)) a) <$> accounts j
           else accounts j.

(** What the program relies on: amounts are [u64]s and
    decimals [u8]s; a successful transfer moves
    exactly [amount] between two accounts of the mint and nothing else; minting
    raises the supply and one balance; burning lowers both. *)
Class TokenLedgerLaws (L : Type) `{TokenLedger L} : Prop := {
  ledger_amount_u64 l k a :
    ledger_account l k = Some a -> 0 <= TokenAccount.amount a <= u64.MAX;
  ledger_supply_u64 l k m : ledger_mint l k = Some m -> 0 <= Mint.supply m <= u64.MAX;
  ledger_decimals_u8 l k m : ledger_mint l k = Some m -> 0 <= Mint.decimals m <= 255;
  transfer_effect l l' pr m from to auth x d :
    transfer_checked pr m from to auth x d l = Some l' ->
    (exists a b, ledger_account l from = Some a /\ ledger_account l to = Some b /\
       TokenAccount.mint a = m /\ TokenAccount.mint b = m /\ x <= TokenAccount.amount a) /\
    (forall k, ledger_mint l' k = ledger_mint l k) /\
    (forall k, ledger_account l' k =
       at_account to (fun v => v + x) (at_account from (fun v => v - x) (ledger_account l)) k);
  mint_to_effect l l' pr m to auth x d :
    mint_to_checked pr m to auth x d l = Some l' ->
    (exists b, ledger_account l to = Some b /\ TokenAccount.mint b = m) /\
    (exists i, ledger_mint l m = Some i /\ Mint.mint_authority i = Some auth /\
       Mint.supply i + x <= u64.MAX /\
       ledger_mint l' m = Some (Mint.with_supply (Mint.supply i + x) i)) /\
    (forall k, k <> m -> ledger_mint l' k = ledger_mint l k) /\
    (forall k, ledger_account l' k = at_account to (fun v => v + x) (ledger_account l) k);
  burn_effect l l' pr m from auth x d :
    burn_checked pr m from auth x d l = Some l' ->
    (exists a, ledger_account l from = Some a /\ TokenAccount.mint a = m /\
       x <= TokenAccount.amount a) /\
    (exists i, ledger_mint l m = Some i /\
       ledger_mint l' m = Some (Mint.with_supply (Mint.supply i - x) i)) /\
    (forall k, k <> m -> ledger_mint l' k = ledger_mint l k) /\
    (forall k, ledger_account l' k = at_account from (fun v => v - x) (ledger_account l) k);
  create_effect l l' auth m p :
    create_associated_account auth m p l = Some l' ->
    (forall k, ledger_mint l' k = ledger_mint l k) /\
    (forall k a, ledger_account l k = Some a -> ledger_account l' k = Some a) /\
    (forall k a, ledger_account l' k = Some a ->
       ledger_account l k = Some a \/ TokenAccount.amount a = 0);
  set_authority_effect l l' pr m current new :
    set_mint_authority pr m current new l = Some l' ->
    (exists i, ledger_mint l m = Some i /\ Mint.mint_authority i = Some current /\
       ledger_mint l' m = Some (Mint.with_mint_authority (Some new) i)) /\
    (forall k, k <> m -> ledger_mint l' k = ledger_mint l k) /\
    (forall k, ledger_account l' k = ledger_account l k)
}.

(** Balance of an account; an account that does not exist holds nothing. *)
Definition balance `{TokenLedger L} (l : L) (k : Pubkey) : Z :=
  match ledger_account l k with Some a => TokenAccount.amount a | None => 0 end.

Definition supply_of `{TokenLedger L} (l : L) (k : Pubkey) : Z :=
  match ledger_mint l k with Some m => Mint.supply m | None => 0 end.

(** ** Effects on balances *)

Section effects.
Context {L : Type} `{TokenLedgerLaws L}.

Definition delta (b : bool) (x : Z) : Z := if b then x else 0.

Lemma transfer_balance l l' pr m from to auth x d :
  transfer_checked pr m from to auth x d l = Some l' ->
  (forall k, balance l' k =
     balance l k - delta (key_eqb k from) x + delta (key_eqb k to) x) /\
  (forall k, supply_of l' k = supply_of l k) /\ x <= balance l from.
Proof using All.
  intros T. apply transfer_effect in T as ((a & b & Ha & Hb & _ & _ & Hx) & Hm & Hacc).
  split; [|split].
  - intros k. unfold balance. rewrite Hacc. unfold at_account.
    destruct (key_eqb k to) eqn:Ek1, (key_eqb k from) eqn:Ek2; cbn;
      repeat match goal with
      | E : key_eqb _ _ = true |- _ => apply key_eqb_eq in E; subst
      end; rewrite ?Ha, ?Hb; cbn; try lia;
      destruct (ledger_account l k); cbn; lia.
  - intros k. unfold supply_of. by rewrite Hm.
  - unfold balance. by rewrite Ha.
Qed.

Lemma mint_to_balance l l' pr m to auth x d :
  mint_to_checked pr m to auth x d l = Some l' ->
  (forall k, balance l' k = balance l k + delta (key_eqb k to) x) /\
  (forall k, supply_of l' k = supply_of l k + delta (key_eqb k m) x) /\
  supply_of l m + x <= u64.MAX.
Proof using All.
  intros T. apply mint_to_effect in T as ((b & Hb & _) & (i & Hi & _ & Hle & Hi') & Hm & Hacc).
  split; [|split].
  - intros k. unfold balance. rewrite Hacc. unfold at_account.
    destruct (key_eqb k to) eqn:Ek; cbn; [|destruct (ledger_account l k); lia].
    apply key_eqb_eq in Ek as ->. by rewrite Hb.
  - intros k. unfold supply_of. destruct (key_eqb k m) eqn:Ek; cbn.
    + apply key_eqb_eq in Ek as ->. by rewrite Hi, Hi'.
    + apply key_eqb_neq in Ek. rewrite Hm by done. destruct (ledger_mint l k); lia.
  - unfold supply_of. by rewrite Hi.
Qed.

Lemma burn_balance l l' pr m from auth x d :
  burn_checked pr m from auth x d l = Some l' ->
  (forall k, balance l' k = balance l k - delta (key_eqb k from) x) /\
  (forall k, supply_of l' k = supply_of l k - delta (key_eqb k m) x) /\
  x <= balance l from.
Proof using All.
  intros T. apply burn_effect in T as ((a & Ha & _ & Hx) & (i & Hi & Hi') & Hm & Hacc).
  split; [|split].
  - intros k. unfold balance. rewrite Hacc. unfold at_account.
    destruct (key_eqb k from) eqn:Ek; cbn; [|destruct (ledger_account l k); lia].
    apply key_eqb_eq in Ek as ->. by rewrite Ha.
  - intros k. unfold supply_of. destruct (key_eqb k m) eqn:Ek; cbn.
    + apply key_eqb_eq in Ek as ->. by rewrite Hi, Hi'.
    + apply key_eqb_neq in Ek. rewrite Hm by done. destruct (ledger_mint l k); lia.
  - unfold balance. by rewrite Ha.
Qed.

Lemma create_balance l l' auth m p :
  create_associated_account auth m p l = Some l' ->
  (forall k, balance l' k = balance l k) /\ (forall k, supply_of l' k = supply_of l k).
Proof using All.
  intros T. apply create_effect in T as (Hm & Hold & Hnew). split.
  - intros k. unfold balance. destruct (ledger_account l k) as [a|] eqn:E.
    + by rewrite (Hold k a E).
    + destruct (ledger_account l' k) as [a|] eqn:E'; [|done].
      destruct (Hnew k a E'); congruence.
  - intros k. unfold supply_of. by rewrite Hm.
Qed.
End effects.

(** ** Instances

    A runtime whose addresses are encodings of their seeds, and a ledger of two
    finite maps that follows the token programs' checks.  *)

#[export] Instance SampleRuntime : Runtime := {
  program_id := 1%N;
  spl_token_id := 3%N;
  token_2022_id := 5%N;
  system_program_id := 0%N;
  instructions_sysvar_id := 7%N;
  ed25519_program_id := 9%N;
  find_program_address seeds := (Npos (xO (encode seeds)), 255);
  associated_token_address a m p := Npos (xI (encode (a, m, p)));
  create_account_succeeds _ _ := true
}.

#[export] Instance SampleRuntimeLaws : RuntimeLaws SampleRuntime.
Proof.
  split; cbn.
  - intros s1 s2 [= E]. by apply encode_inj in E.
  - intros a1 m1 p1 a2 m2 p2 [= E]. apply encode_inj in E. by simplify_eq.
  - done.
Qed.

Module SampleLedger.
Record t : Type := mk {
  mints : gmap Pubkey Mint.t;
  accounts : gmap Pubkey TokenAccount.t
}.

Definition mint (l : t) (k : Pubkey) : option Mint.t :=
  i ← mints l !! k;
  if fits 0 u64.MAX (Mint.supply i) && fits 0 255 (Mint.decimals i) then Some i else None.

Definition account (l : t) (k : Pubkey) : option TokenAccount.t :=
  a ← accounts l !! k; if fits 0 u64.MAX (TokenAccount.amount a) then Some a else None.

Definition credit (l : t) (k : Pubkey) (x : Z) : t :=
  mk (mints l)
     (alter (fun a => TokenAccount.with_amount (TokenAccount.amount a + x) a) k (accounts l)).

Definition set_supply (l : t) (k : Pubkey) (s : Z) : t :=
  mk (alter (Mint.with_supply s) k (mints l)) (accounts l).

Definition ok (b : bool) (l : t) : option t := if b then Some l else None.

Definition transfer (program m from to authority : Pubkey) (x d : Z) (l : t) : option t :=
  i ← mint l m; a ← account l from; b ← account l to;
  ok (key_eqb (TokenAccount.mint a) m && key_eqb (TokenAccount.mint b) m
      && key_eqb (TokenAccount.owner a) authority && key_eqb (Mint.token_program i) program
      && (Mint.decimals i =? d)
      && (0 <=? x) && (x <=? TokenAccount.amount a)
      && (key_eqb from to || (TokenAccount.amount b + x <=? u64.MAX)))
     (credit (credit l from (- x)) to x).

Definition mint_to (program m to authority : Pubkey) (x d : Z) (l : t) : option t :=
  i ← mint l m; b ← account l to;
  ok (key_eqb (TokenAccount.mint b) m
      && match Mint.mint_authority i with Some k => key_eqb k authority | None => false end
      && key_eqb (Mint.token_program i) program && (Mint.decimals i =? d)
      && (0 <=? x) && (TokenAccount.amount b + x <=? u64.MAX)
      && (Mint.supply i + x <=? u64.MAX))
     (set_supply (credit l to x) m (Mint.supply i + x)).

Definition burn (program m from authority : Pubkey) (x d : Z) (l : t) : option t :=
  i ← mint l m; a ← account l from;
  ok (key_eqb (TokenAccount.mint a) m && key_eqb (TokenAccount.owner a) authority
      && key_eqb (Mint.token_program i) program && (Mint.decimals i =? d)
      && (0 <=? x) && (x <=? TokenAccount.amount a) && (x <=? Mint.supply i))
     (set_supply (credit l from (- x)) m (Mint.supply i - x)).

Definition create (authority m program : Pubkey) (l : t) : option t :=
  let k := associated_token_address authority m program in
  Some match accounts l !! k with
       | Some _ => l
       | None => mk (mints l) (<[k := TokenAccount.mk m authority 0 program]> (accounts l))
       end.

Definition set_authority (program m current new : Pubkey) (l : t) : option t :=
  i ← mint l m;
  ok (match Mint.mint_authority i with Some k => key_eqb k current | None => false end
      && key_eqb (Mint.token_program i) program)
     (mk (alter (Mint.with_mint_authority (Some new)) m (mints l)) (accounts l)).
End SampleLedger.

#[export] Instance SampleTokenLedger : TokenLedger SampleLedger.t := {
  ledger_mint := SampleLedger.mint;
  ledger_account := SampleLedger.account;
  transfer_checked := SampleLedger.transfer;
  mint_to_checked := SampleLedger.mint_to;
  burn_checked := SampleLedger.burn;
  create_associated_account := SampleLedger.create;
  set_mint_authority := SampleLedger.set_authority
}.

Section sample_ledger.
Import SampleLedger.

Lemma sample_mint_Some l k i :
  mint l k = Some i <->
  mints l !! k = Some i /\ 0 <= Mint.supply i <= u64.MAX /\ 0 <= Mint.decimals i <= 255.
Proof.
  unfold mint, fits. destruct (mints l !! k) as [j|]; cbn; [|naive_solver].
  destruct (Z.leb_spec 0 (Mint.supply j)), (Z.leb_spec (Mint.supply j) u64.MAX),
    (Z.leb_spec 0 (Mint.decimals j)), (Z.leb_spec (Mint.decimals j) 255); cbn;
    split; intros; destruct_and?; simplify_eq; try done; lia.
Qed.

Lemma sample_account_Some l k a :
  account l k = Some a <-> accounts l !! k = Some a /\ 0 <= TokenAccount.amount a <= u64.MAX.
Proof.
  unfold account, fits. destruct (accounts l !! k) as [j|]; cbn; [|naive_solver].
  destruct (Z.leb_spec 0 (TokenAccount.amount j)),
    (Z.leb_spec (TokenAccount.amount j) u64.MAX); cbn;
    split; intros; destruct_and?; simplify_eq; try done; lia.
Qed.

Lemma sample_account_credit l k a x j :
  account l k = Some a -> 0 <= TokenAccount.amount a + x <= u64.MAX ->
  account (credit l k x) j = at_account k (fun v => v + x) (account l) j.
Proof.
  intros Ha Hx. unfold at_account. destruct (key_eqb j k) eqn:E.
  - apply key_eqb_eq in E as ->. rewrite Ha. cbn. apply sample_account_Some.
    apply sample_account_Some in Ha as [Ha _]. cbn. by rewrite lookup_alter_eq, Ha.
  - apply key_eqb_neq in E. unfold account. cbn. by rewrite lookup_alter_ne.
Qed.

Lemma sample_mint_set l k i s j :
  mint l k = Some i -> 0 <= s <= u64.MAX ->
  mint (set_supply l k s) j = if key_eqb j k then Some (Mint.with_supply s i) else mint l j.
Proof.
  intros Hi Hs. destruct (key_eqb j k) eqn:E.
  - apply key_eqb_eq in E as ->. apply sample_mint_Some.
    apply sample_mint_Some in Hi as [Hi [_ ?]]. cbn. by rewrite lookup_alter_eq, Hi.
  - apply key_eqb_neq in E. unfold mint. cbn. by rewrite lookup_alter_ne.
Qed.

Lemma sample_ok b l l' : ok b l = Some l' -> b = true /\ l' = l.
Proof. destruct b; cbn; intros; simplify_eq; auto. Qed.
End sample_ledger.

Ltac inv_sample T :=
  cbn in T; inv_ok; apply sample_ok in T as [T ->]; inv_ok;
  repeat match goal with H : key_eqb _ _ = true |- _ => apply key_eqb_eq in H; subst end.

Lemma sample_transfer_effect l l' pr m from to auth x d :
  SampleLedger.transfer pr m from to auth x d l = Some l' ->
  (exists a b, SampleLedger.account l from = Some a /\ SampleLedger.account l to = Some b /\
     TokenAccount.mint a = m /\ TokenAccount.mint b = m /\ x <= TokenAccount.amount a) /\
  (forall k, SampleLedger.mint l' k = SampleLedger.mint l k) /\
  (forall k, SampleLedger.account l' k =
     at_account to (fun v => v + x)
       (at_account from (fun v => v - x) (SampleLedger.account l)) k).
Proof.
  intros T. unfold SampleLedger.transfer in T. inv_sample T.
  rename v0 into a, v1 into b, Hv0 into Ha, Hv1 into Hb.
  pose proof (proj1 (sample_account_Some _ _ _) Ha) as [_ ?].
  pose proof (proj1 (sample_account_Some _ _ _) Hb) as [_ ?].
  split; [by eauto 10|]. split; [done|]. intros k.
  assert (Hc : forall j, SampleLedger.account (SampleLedger.credit l from (- x)) j
                = at_account from (fun v => v - x) (SampleLedger.account l) j)
    by (intros j; apply (sample_account_credit l from a); [done|lia]).
  assert (exists c, SampleLedger.account (SampleLedger.credit l from (- x)) to = Some c /\
            0 <= TokenAccount.amount c + x <= u64.MAX) as (c & Hc1 & Hc2).
  { rewrite Hc. unfold at_account. destruct (key_eqb to from) eqn:E.
    - apply key_eqb_eq in E as ->. rewrite Ha. eexists. split; [done|]. cbn. lia.
    - rewrite Hb. eexists. split; [done|].
      assert (key_eqb from to = false) as F by (apply key_eqb_neq; apply key_eqb_neq in E; congruence).
      match goal with H : _ || _ = true |- _ => rewrite F in H; cbn in H; apply Z.leb_le in H end.
      lia. }
  rewrite (sample_account_credit _ _ _ _ _ Hc1 Hc2). unfold at_account.
  by rewrite !Hc.
Qed.

#[export] Instance SampleTokenLedgerLaws : TokenLedgerLaws SampleLedger.t.
Proof.
  split; cbn.
  - intros l k a Ha. apply sample_account_Some in Ha. lia.
  - intros l k m Hm. apply sample_mint_Some in Hm. lia.
  - intros l k m Hm. apply sample_mint_Some in Hm. lia.
  - apply sample_transfer_effect.
  - intros l l' pr m to auth x d T. unfold SampleLedger.mint_to in T. inv_sample T.
    rename v into i, v0 into b. destruct (Mint.mint_authority i) as [k|] eqn:Ek; [|done].
    repeat match goal with H : key_eqb _ _ = true |- _ => apply key_eqb_eq in H; subst end.
    pose proof (proj1 (sample_account_Some _ _ _) Hv0) as [_ ?].
    pose proof (proj1 (sample_mint_Some _ _ _) Hv) as [_ ?].
    split; [by eauto|]. split; [|split].
    + exists i. split; [done|]. split; [done|]. split; [lia|].
      rewrite (sample_mint_set _ _ i) by (done || lia). by rewrite key_eqb_refl.
    + intros k' Hk'. rewrite (sample_mint_set _ _ i) by (done || lia).
      by apply key_eqb_neq in Hk' as ->.
    + intros k'. apply (sample_account_credit l to b); [done|lia].
  - intros l l' pr m from auth x d T. unfold SampleLedger.burn in T. inv_sample T.
    rename v into i, v0 into a.
    pose proof (proj1 (sample_account_Some _ _ _) Hv0) as [_ ?].
    pose proof (proj1 (sample_mint_Some _ _ _) Hv) as [_ ?].
    split; [by eauto|]. split; [|split].
    + exists i. split; [done|].
      rewrite (sample_mint_set _ _ i) by (done || lia). by rewrite key_eqb_refl.
    + intros k' Hk'. rewrite (sample_mint_set _ _ i) by (done || lia).
      by apply key_eqb_neq in Hk' as ->.
    + intros k'. apply (sample_account_credit l from a); [done|lia].
  - intros l l' auth m p [= <-]. unfold SampleLedger.create.
    destruct (SampleLedger.accounts l !! _) as [b|] eqn:E; cbn; [by eauto|].
    split; [done|]. unfold SampleLedger.account. cbn. split; intros k a Ha.
    + rewrite lookup_insert_ne; [done|]. intros <-. by rewrite E in Ha.
    + destruct (decide (associated_token_address auth m p = k)) as [<-|].
      * rewrite lookup_insert_eq in Ha. cbn in Ha. simplify_eq. by right.
      * rewrite lookup_insert_ne in Ha by done. by left.
  - intros l l' pr m current new T. unfold SampleLedger.set_authority in T. inv_sample T.
    rename v into i. destruct (Mint.mint_authority i) as [k|] eqn:Ek; [|done].
    repeat match goal with H : key_eqb _ _ = true |- _ => apply key_eqb_eq in H; subst end.
    pose proof (proj1 (sample_mint_Some _ _ _) Hv) as [Hm ?]. split; [|split; [|done]].
    + exists i. split; [done|]. split; [done|]. apply sample_mint_Some. cbn.
      by rewrite lookup_alter_eq, Hm.
    + intros k' Hk'. unfold SampleLedger.mint. cbn. by rewrite lookup_alter_ne.
Qed.
