(* ===== verification/World.v ===== *)
(** * The program's accounts and the instruction monad

    [World] is everything an instruction can read or change: the program's
    accounts, the token ledger, the clock and the emitted events.  [M A] is a
    handler's body: it threads the world and fails with an [Error]; a failed
    instruction has no successor world, as the runtime rolls it back.  The second
    half is [src/utils/account_init.rs].

    Lamports and rent, program logs and account sizes are not modelled. *)

From S2P Require Export Prelude Errors Accounts Runtime.
#[global] Open Scope Z_scope.
#[global] Open Scope onre_scope.

(** ** Events *)

Inductive EventField : Type :=
| FKey (k : Pubkey)
| FNum (n : Z)
| FBool (b : bool)
| FKeys (ks : list Pubkey)
| FOpt (n : option Z)
| FStr (s : string).

(** [emit!(Name { field: value, .. })]. *)
Record Event : Type := mkEvent { event_name : string; event_fields : list (string * EventField) }.

(** ** Program-derived accounts

    The states in which the runtime can hand the program the account at a fixed
    program-derived address. *)
Inductive PdaAccount (T : Type) : Type :=
| SystemOwned (data_is_empty : bool)
| ForeignOwned
| Undeserializable (data_is_empty : bool)
| Loaded (v : T).
Arguments SystemOwned {T} data_is_empty.
Arguments ForeignOwned {T}.
Arguments Undeserializable {T} data_is_empty.
Arguments Loaded {T} v.

(** ** The world

    [vaults] maps a configurable vault's address to its data; [None] is an account
    of the program whose data is still all zero. *)

Record World (L : Type) : Type := mkWorld {
  clock : Clock.t;
  state : State.t;
  offers : gmap Pubkey Offer.t;
  redemption_offers : gmap Pubkey RedemptionOffer.t;
  redemption_requests : gmap Pubkey RedemptionRequest.t;
  vaults : gmap Pubkey (option ConfigurableVault.t);
  prop_amm_pairs : gmap Pubkey PropAmmPairState.t;
  buffer_state : PdaAccount BufferState.t;
  market_stats : PdaAccount MarketStats.t;
  excluded_accounts : PdaAccount CirculatingSupplyExcludedAccounts.t;
  excluded_balance : PdaAccount CirculatingSupplyExcludedBalance.t;
  ledger : L;
  events : list Event
}.
Arguments mkWorld {L}.
Arguments clock {L}. Arguments state {L}. Arguments offers {L}.
Arguments redemption_offers {L}. Arguments redemption_requests {L}. Arguments vaults {L}.
Arguments prop_amm_pairs {L}. Arguments buffer_state {L}. Arguments market_stats {L}.
Arguments excluded_accounts {L}. Arguments excluded_balance {L}.
Arguments ledger {L}. Arguments events {L}.

Section setters.
Context {L : Type}.
Implicit Types w : World L.

Definition set_state (v : State.t) w : World L :=
  mkWorld (clock w) v (offers w) (redemption_offers w) (redemption_requests w) (vaults w)
    (prop_amm_pairs w) (buffer_state w) (market_stats w) (excluded_accounts w)
    (excluded_balance w) (ledger w) (events w).
Definition set_offers v w : World L :=
  mkWorld (clock w) (state w) v (redemption_offers w) (redemption_requests w) (vaults w)
    (prop_amm_pairs w) (buffer_state w) (market_stats w) (excluded_accounts w)
    (excluded_balance w) (ledger w) (events w).
Definition set_redemption_offers v w : World L :=
  mkWorld (clock w) (state w) (offers w) v (redemption_requests w) (vaults w)
    (prop_amm_pairs w) (buffer_state w) (market_stats w) (excluded_accounts w)
    (excluded_balance w) (ledger w) (events w).
Definition set_redemption_requests v w : World L :=
  mkWorld (clock w) (state w) (offers w) (redemption_offers w) v (vaults w)
    (prop_amm_pairs w) (buffer_state w) (market_stats w) (excluded_accounts w)
    (excluded_balance w) (ledger w) (events w).
Definition set_vaults v w : World L :=
  mkWorld (clock w) (state w) (offers w) (redemption_offers w) (redemption_requests w) v
    (prop_amm_pairs w) (buffer_state w) (market_stats w) (excluded_accounts w)
    (excluded_balance w) (ledger w) (events w).
Definition set_prop_amm_pairs v w : World L :=
  mkWorld (clock w) (state w) (offers w) (redemption_offers w) (redemption_requests w)
    (vaults w) v (buffer_state w) (market_stats w) (excluded_accounts w)
    (excluded_balance w) (ledger w) (events w).
Definition set_buffer_state v w : World L :=
  mkWorld (clock w) (state w) (offers w) (redemption_offers w) (redemption_requests w)
    (vaults w) (prop_amm_pairs w) v (market_stats w) (excluded_accounts w)
    (excluded_balance w) (ledger w) (events w).
Definition set_market_stats v w : World L :=
  mkWorld (clock w) (state w) (offers w) (redemption_offers w) (redemption_requests w)
    (vaults w) (prop_amm_pairs w) (buffer_state w) v (excluded_accounts w)
    (excluded_balance w) (ledger w) (events w).
Definition set_excluded_accounts v w : World L :=
  mkWorld (clock w) (state w) (offers w) (redemption_offers w) (redemption_requests w)
    (vaults w) (prop_amm_pairs w) (buffer_state w) (market_stats w) v
    (excluded_balance w) (ledger w) (events w).
Definition set_excluded_balance v w : World L :=
  mkWorld (clock w) (state w) (offers w) (redemption_offers w) (redemption_requests w)
    (vaults w) (prop_amm_pairs w) (buffer_state w) (market_stats w) (excluded_accounts w)
    v (ledger w) (events w).
Definition set_ledger (v : L) w : World L :=
  mkWorld (clock w) (state w) (offers w) (redemption_offers w) (redemption_requests w)
    (vaults w) (prop_amm_pairs w) (buffer_state w) (market_stats w) (excluded_accounts w)
    (excluded_balance w) v (events w).
Definition set_events v w : World L :=
  mkWorld (clock w) (state w) (offers w) (redemption_offers w) (redemption_requests w)
    (vaults w) (prop_amm_pairs w) (buffer_state w) (market_stats w) (excluded_accounts w)
    (excluded_balance w) (ledger w) v.
End setters.

(** ** The instruction monad *)

Definition M (L A : Type) : Type := World L -> Result (A * World L).

#[export] Instance M_ret (L : Type) : MRet (M L) := fun A a w => Ok (a, w).
#[export] Instance M_bind (L : Type) : MBind (M L) := fun A B f m w =>
  match m w with
  | Ok (a, w') => f a w'
  | Err e => Err e
  end.

Section monad.
Context {L : Type}.

(** A computation that does not touch the world. *)
Definition lift {A} (r : Result A) : M L A := fun w =>
  match r with Ok a => Ok (a, w) | Err e => Err e end.
Definition fail {A} (e : Error) : M L A := fun _ => Err e.
Definition gets {A} (f : World L -> A) : M L A := fun w => Ok (f w, w).
Definition modify (f : World L -> World L) : M L unit := fun w => Ok (tt, f w).
Definition guard (c : bool) (e : OnreError.t) : M L unit := lift (require_onre c e).
(** A constraint of an [Accounts] struct. *)
Definition constraint (c : bool) (e : AnchorError) : M L unit := lift (require c (Anchor e)).
Definition when (c : bool) (m : M L unit) : M L unit := if c then m else mret tt.
(** A call into another program: it fails or yields the new ledger. *)
Definition invoke (f : L -> option L) : M L unit := fun w =>
  match f (ledger w) with Some l => Ok (tt, set_ledger l w) | None => Err CpiError end.
Definition emit (name : string) (fields : list (string * EventField)) : M L unit :=
  modify (fun w => set_events (events w ++ [mkEvent name fields]) w).
(** An account of the program at key [k] in the map [f] of the world. *)
Definition load_account {A} (f : World L -> gmap Pubkey A) (k : Pubkey) : M L A := fun w =>
  match f w !! k with Some a => Ok (a, w) | None => Err (Anchor AccountNotInitialized) end.
End monad.

(** [for x in xs { f(x)?; }]. *)
Fixpoint for_each {L A} (xs : list A) (f : A -> M L unit) : M L unit :=
  match xs with
  | [] => mret tt
  | x :: xs => _ ← f x; for_each xs f
  end.

Notation "m ;; k" := (mbind (fun _ : unit => k) m)
  (at level 100, k at level 200, right associativity) : onre_scope.

Section monad_lemmas.
Context {L : Type}.
Implicit Types w : World L.

Lemma M_bind_Ok_inv {A B} (m : M L A) (f : A -> M L B) w b w' :
  (m ≫= f) w = Ok (b, w') -> exists a w1, m w = Ok (a, w1) /\ f a w1 = Ok (b, w').
Proof. unfold mbind, M_bind. destruct (m w) as [[a w1]|]; [eauto|discriminate]. Qed.

Lemma M_bind_Ok {A B} (m : M L A) (f : A -> M L B) w a w1 :
  m w = Ok (a, w1) -> (m ≫= f) w = f a w1.
Proof. unfold mbind, M_bind. by intros ->. Qed.

Lemma M_bind_Err {A B} (m : M L A) (f : A -> M L B) w e :
  m w = Err e -> (m ≫= f) w = Err e.
Proof. unfold mbind, M_bind. by intros ->. Qed.

Lemma M_ret_Ok_inv {A} (a b : A) w w' : (mret a : M L A) w = Ok (b, w') -> a = b /\ w' = w.
Proof. by intros [= -> ->]. Qed.

Lemma lift_Ok_inv {A} (r : Result A) a w w' : lift r w = Ok (a, w') -> r = Ok a /\ w' = w.
Proof. unfold lift. destruct r; intros; by simplify_eq. Qed.

Lemma gets_Ok_inv {A} (f : World L -> A) a w w' :
  gets f w = Ok (a, w') -> a = f w /\ w' = w.
Proof. by intros [= -> ->]. Qed.

Lemma modify_Ok_inv f u w w' : modify f w = Ok (u, w') -> w' = f w.
Proof. by intros [= _ ->]. Qed.

Lemma guard_Ok_inv c e u w w' : guard (L:=L) c e w = Ok (u, w') -> c = true /\ w' = w.
Proof. intros H. apply lift_Ok_inv in H as [H ->]. by apply require_onre_Ok_inv in H. Qed.

Lemma constraint_Ok_inv c e u w w' :
  constraint (L:=L) c e w = Ok (u, w') -> c = true /\ w' = w.
Proof. intros H. apply lift_Ok_inv in H as [H ->]. by apply require_Ok_inv in H. Qed.

Lemma when_Ok_inv (c : bool) m u w w' :
  when (L:=L) c m w = Ok (u, w') -> (c = true /\ m w = Ok (u, w')) \/ (c = false /\ w' = w).
Proof. destruct c; cbn; [by left|]. intros [= _ ->]. by right. Qed.

Lemma when_guard_Ok_inv (c b : bool) e u w w' :
  when (L:=L) c (guard b e) w = Ok (u, w') -> (c = true -> b = true) /\ w' = w.
Proof.
  intros H. apply when_Ok_inv in H as [[-> H] | [-> ->]]; [|by split].
  apply guard_Ok_inv in H as [-> ->]. by split.
Qed.

Lemma invoke_Ok_inv f u w w' :
  invoke f w = Ok (u, w') -> exists l, f (ledger w) = Some l /\ w' = set_ledger l w.
Proof. unfold invoke. destruct (f (ledger w)); intros; simplify_eq; eauto. Qed.

Lemma emit_Ok_inv n fs u w w' :
  emit (L:=L) n fs w = Ok (u, w') -> w' = set_events (events w ++ [mkEvent n fs]) w.
Proof. by intros [= _ ->]. Qed.

Lemma load_account_Ok_inv {A} (f : World L -> gmap Pubkey A) k a w w' :
  load_account f k w = Ok (a, w') -> f w !! k = Some a /\ w' = w.
Proof. unfold load_account. destruct (f w !! k); intros; by simplify_eq. Qed.

Lemma fail_Ok_inv {A} e (a : A) w w' : fail (L:=L) e w = Ok (a, w') -> False.
Proof. discriminate. Qed.

Lemma for_each_inv {A} (xs : list A) f u w w' (I : World L -> World L -> Prop) :
  (forall v, I v v) -> (forall a b c, I a b -> I b c -> I a c) ->
  (forall x v v' u, f x v = Ok (u, v') -> I v v') ->
  for_each (L:=L) xs f w = Ok (u, w') -> I w w'.
Proof.
  intros Hr Ht Hf. revert w. induction xs as [|x xs IH]; cbn; intros w H.
  - apply M_ret_Ok_inv in H as [_ ->]. apply Hr.
  - apply M_bind_Ok_inv in H as (u' & w1 & H1 & H2). eauto.
Qed.
End monad_lemmas.

(** Decompose a successful handler into the successes of its statements. *)
Ltac inv_m_step :=
  match goal with
  | H : mbind _ _ _ = Ok (_, _) |- _ =>
      let x := fresh "x" in let w := fresh "w" in let Hx := fresh "Hx" in
      apply M_bind_Ok_inv in H as (x & w & Hx & H); cbn beta in H
  | H : mret _ _ = Ok (_, _) |- _ =>
      let E := fresh in apply M_ret_Ok_inv in H as [E ->]; simplify_eq
  | H : lift _ _ = Ok (_, _) |- _ => apply lift_Ok_inv in H as [H ->]
  | H : gets _ _ = Ok (_, _) |- _ => apply gets_Ok_inv in H as [-> ->]; cbn beta in *
  | H : modify _ _ = Ok (_, _) |- _ => apply modify_Ok_inv in H as ->
  | H : guard _ _ _ = Ok (_, _) |- _ => apply guard_Ok_inv in H as [H ->]
  | H : constraint _ _ _ = Ok (_, _) |- _ => apply constraint_Ok_inv in H as [H ->]
  | H : when _ (guard _ _) _ = Ok (_, _) |- _ => apply when_guard_Ok_inv in H as [H ->]
  | H : emit _ _ _ = Ok (_, _) |- _ => apply emit_Ok_inv in H as ->
  | H : load_account _ _ _ = Ok (_, _) |- _ => apply load_account_Ok_inv in H as [H ->]
  | H : fail _ _ = Ok (_, _) |- _ => by apply fail_Ok_inv in H
  | H : invoke _ _ = Ok (_, _) |- _ =>
      let l := fresh "l" in apply invoke_Ok_inv in H as (l & H & ->)
  | H : (match ?x with pair _ _ => _ end) _ = Ok (_, _) |- _ => is_var x; destruct x
  | u : unit |- _ => destruct u
  end.
Ltac inv_m := repeat inv_m_step.

(** ** Accounts at fixed addresses ([utils/account_init.rs]) *)

(** [trait PdaAccountInit]. *)
Class PdaAccountInit (T : Type) : Type := {
  pda_seed_prefixes : list Seed;
  init_value (bump : Z) : T;
  invalid_owner_error : OnreError.t;
  invalid_data_error : OnreError.t
}.

(** Where the world keeps the account of type [T]. *)
Class PdaSlot (L T : Type) : Type := {
  slot_get : World L -> PdaAccount T;
  slot_set : PdaAccount T -> World L -> World L
}.

Class PdaSlotLaws (L T : Type) `{PdaSlot L T} : Prop := {
  slot_get_set a w : slot_get (slot_set a w) = a;
  slot_set_set a b w : slot_set a (slot_set b w) = slot_set a w
}.

#[export] Instance market_stats_slot L : PdaSlot L MarketStats.t :=
  { slot_get := market_stats; slot_set := set_market_stats }.
#[export] Instance buffer_state_slot L : PdaSlot L BufferState.t :=
  { slot_get := buffer_state; slot_set := set_buffer_state }.
#[export] Instance excluded_accounts_slot L : PdaSlot L CirculatingSupplyExcludedAccounts.t :=
  { slot_get := excluded_accounts; slot_set := set_excluded_accounts }.
#[export] Instance excluded_balance_slot L : PdaSlot L CirculatingSupplyExcludedBalance.t :=
  { slot_get := excluded_balance; slot_set := set_excluded_balance }.

#[export] Instance market_stats_slot_laws L : PdaSlotLaws L MarketStats.t.
Proof. by split. Qed.
#[export] Instance buffer_state_slot_laws L : PdaSlotLaws L BufferState.t.
Proof. by split. Qed.

Section account_init.
Context {L : Type} {R : Runtime} {T : Type} {PS : PdaSlot L T}.

(** [deserialize_pda_account] behind the owner check of [load_pda_account]. *)
Definition load_pda_account (invalid_owner invalid_data : OnreError.t) : M L T :=
  account ← gets slot_get;
  match account with
  | SystemOwned _ | ForeignOwned => fail (Onre invalid_owner)
  | Undeserializable _ => fail (Onre invalid_data)
  | Loaded v => mret v
  end.

Definition load_optional_pda_account (invalid_owner invalid_data : OnreError.t)
  : M L (option T) :=
  account ← gets slot_get;
  match account with
  | SystemOwned true => mret None
  | SystemOwned false => fail (Onre invalid_data)
  | _ => v ← load_pda_account invalid_owner invalid_data; mret (Some v)
  end.

(** A freshly created account holds zero bytes, which do not deserialize, until
    [store_pda_account] writes it. *)
Definition load_or_init_pda_account `{!PdaAccountInit T} (payer : Pubkey) (bump : Z) : M L T :=
  account ← gets slot_get;
  match account with
  | SystemOwned true =>
      if create_account_succeeds payer (pda pda_seed_prefixes)
      then _ ← modify (slot_set (Undeserializable false)); mret (init_value bump)
      else fail CpiError
  | SystemOwned false => fail (Onre invalid_owner_error)
  | _ => load_pda_account invalid_owner_error invalid_data_error
  end.

Definition store_pda_account (v : T) : M L unit := modify (slot_set (Loaded v)).

(** Anchor's [init_if_needed] on the account at a fixed address: an account it
    creates starts zeroed ([zero]); its own errors differ from the program's. *)
Definition anchor_init_if_needed (payer : Pubkey) (seeds : list Seed) (zero : T) : M L T :=
  account ← gets slot_get;
  match account with
  | SystemOwned true =>
      if create_account_succeeds payer (pda seeds)
      then _ ← modify (slot_set (Loaded zero)); mret zero
      else fail CpiError
  | SystemOwned false => fail CpiError
  | ForeignOwned => fail (Anchor AccountOwnedByWrongProgram)
  | Undeserializable _ => fail (Anchor AccountDiscriminatorMismatch)
  | Loaded v => mret v
  end.

(** [Account<'info, T>]: the account must exist and deserialize. *)
Definition anchor_account : M L T :=
  account ← gets slot_get;
  match account with
  | SystemOwned _ => fail (Anchor AccountNotInitialized)
  | ForeignOwned => fail (Anchor AccountOwnedByWrongProgram)
  | Undeserializable _ => fail (Anchor AccountDiscriminatorMismatch)
  | Loaded v => mret v
  end.

Lemma anchor_init_Ok_inv payer seeds zero v w w' :
  anchor_init_if_needed payer seeds zero w = Ok (v, w') ->
  (slot_get w = Loaded v /\ w' = w) \/
  (slot_get w = SystemOwned true /\ v = zero /\ w' = slot_set (Loaded zero) w).
Proof.
  unfold anchor_init_if_needed. intros H. inv_m.
  destruct (slot_get w) as [[]| | |] eqn:E; inv_m; eauto.
  destruct (create_account_succeeds _ _); inv_m. by right.
Qed.

Lemma anchor_account_Ok_inv v w w' :
  anchor_account w = Ok (v, w') -> slot_get w = Loaded v /\ w' = w.
Proof.
  unfold anchor_account. intros H. inv_m. destruct (slot_get w); inv_m; by simplify_eq.
Qed.

Lemma load_pda_account_Ok_inv eo ed v w w' :
  load_pda_account eo ed w = Ok (v, w') -> slot_get w = Loaded v /\ w' = w.
Proof.
  unfold load_pda_account. intros H. inv_m.
  destruct (slot_get w); inv_m; by simplify_eq.
Qed.

Lemma load_pda_account_Loaded eo ed v w :
  slot_get w = Loaded v -> load_pda_account eo ed w = Ok (v, w).
Proof. intros H. unfold load_pda_account, gets, mbind, M_bind. by rewrite H. Qed.

Lemma load_optional_Ok_inv eo ed o w w' :
  load_optional_pda_account eo ed w = Ok (o, w') ->
  w' = w /\ match o with Some v => slot_get w = Loaded v | None => slot_get w = SystemOwned true end.
Proof.
  unfold load_optional_pda_account. intros H. inv_m.
  destruct (slot_get w) as [[]| | |] eqn:E; inv_m; cbn; auto;
    repeat match goal with
    | H : load_pda_account _ _ _ = Ok _ |- _ => apply load_pda_account_Ok_inv in H as [? ->]
    end; inv_m; split; congruence.
Qed.

Lemma load_or_init_Ok_inv `{!PdaAccountInit T} payer bump v w w' :
  load_or_init_pda_account payer bump w = Ok (v, w') ->
  (slot_get w = Loaded v /\ w' = w) \/
  (slot_get w = SystemOwned true /\ v = init_value bump /\
   w' = slot_set (Undeserializable false) w).
Proof.
  unfold load_or_init_pda_account. intros H. inv_m.
  destruct (slot_get w) as [[]| | |] eqn:E;
    try (apply load_pda_account_Ok_inv in H as [H ->]; left; split; congruence).
  - destruct (create_account_succeeds _ _); inv_m. by right.
  - inv_m.
Qed.
End account_init.

(** ** Token accounts and mints in a handler

    [InterfaceAccount<Mint>] and [InterfaceAccount<TokenAccount>] are snapshots
    taken when the account is loaded; calls into the token program do not change
    them until [reload]. *)
Record MintAccount : Type := mkMintAccount { mint_key : Pubkey; mint_data : Mint.t }.
Record TokenAccountInfo : Type :=
  mkTokenAccountInfo { ta_key : Pubkey; ta_data : TokenAccount.t }.

Section token_loads.
Context {L : Type} {TL : TokenLedger L}.

Definition load_mint (k : Pubkey) : M L MintAccount := fun w =>
  match ledger_mint (ledger w) k with
  | Some m => Ok (mkMintAccount k m, w)
  | None => Err (Anchor AccountOwnedByWrongProgram)
  end.
(** [mint.reload()]. *)
Definition reload (m : MintAccount) : M L MintAccount := load_mint (mint_key m).

Definition load_token_account (k : Pubkey) : M L TokenAccountInfo := fun w =>
  match ledger_account (ledger w) k with
  | Some a => Ok (mkTokenAccountInfo k a, w)
  | None => Err (Anchor AccountOwnedByWrongProgram)
  end.

Definition supply (m : MintAccount) : Z := Mint.supply (mint_data m).
Definition decimals (m : MintAccount) : Z := Mint.decimals (mint_data m).

(** [Clock::get()?]. *)
Definition Clock_get : M L Clock.t := gets clock.

Lemma load_mint_Ok_inv k m w w' :
  load_mint k w = Ok (m, w') ->
  mint_key m = k /\ ledger_mint (ledger w) k = Some (mint_data m) /\ w' = w.
Proof. unfold load_mint. destruct (ledger_mint _ _); intros; by simplify_eq. Qed.

Lemma load_token_account_Ok_inv k a w w' :
  load_token_account k w = Ok (a, w') ->
  ta_key a = k /\ ledger_account (ledger w) k = Some (ta_data a) /\ w' = w.
Proof. unfold load_token_account. destruct (ledger_account _ _); intros; by simplify_eq. Qed.

Lemma load_mint_supply k m w w' :
  load_mint k w = Ok (m, w') -> supply m = supply_of (ledger w) k.
Proof. intros E. apply load_mint_Ok_inv in E as (_ & E & _). unfold supply_of. by rewrite E. Qed.
End token_loads.
