(* ===== verification/Approval.v ===== *)
(** * Approvals

    [src/utils/ed25519_parser.rs] and [src/utils/approver/]: an offer may demand
    an approval message signed by one of two approvers.  The signature is
    verified by the Ed25519 program in the instruction that precedes the current
    one; the program parses that instruction's data and compares.  *)

From Stdlib Require Import Strings.Byte.
From S2P Require Import World.
Open Scope Z_scope.

(** ** Bytes *)

#[export] Instance byte_eq_dec : EqDecision byte := Byte.byte_eq_dec.

Definition byte_val (b : byte) : Z := Z.of_N (Byte.to_N b).

(** The little-endian value of a byte string. *)
Fixpoint from_le_bytes (bs : list byte) : Z :=
  match bs with
  | [] => 0
  | b :: bs => byte_val b + 256 * from_le_bytes bs
  end.

Definition byte_of (z : Z) : byte := default x00 (Byte.of_N (Z.to_N (z mod 256))).

(** The [n] low bytes of [z], little-endian. *)
Fixpoint to_le_bytes (n : nat) (z : Z) : list byte :=
  match n with
  | O => []
  | S n => byte_of z :: to_le_bytes n (z / 256)
  end.

(** The key 32 bytes encode, and its bytes. *)
Definition key_of_bytes (bs : list byte) : Pubkey := Z.to_N (from_le_bytes bs).
Definition key_to_bytes (k : Pubkey) : list byte := to_le_bytes 32 (Z.of_N k).

(** [&data[offset..offset + len]], for a range checked before. *)
Definition slice (data : list byte) (offset len : Z) : list byte :=
  take (Z.to_nat len) (drop (Z.to_nat offset) data).

(** [u16::from_le_bytes([data[i], data[i + 1]])]. *)
Definition u16_at (data : list byte) (i : Z) : Z := from_le_bytes (slice data i 2).

Definition blen (data : list byte) : Z := Z.of_nat (length data).

(** ** The Ed25519 instruction ([ed25519_parser.rs]) *)

(** [ParsedEd25519]. *)
Record ParsedEd25519 : Type := mkParsedEd25519 {
  sig_count : Z;
  pubkey : list byte;
  message : list byte
}.

(** [parse_ed25519_ix]; the signature bytes are read and dropped. *)
Definition parse_ed25519_ix (data : list byte) : option ParsedEd25519 :=
  if blen data <? 16 then None
  else
    let sig_count := from_le_bytes (slice data 0 1) in
    if negb (sig_count =? 1) then None
    else
      let sig_ix_index := u16_at data 4 in
      let pubkey_ix_index := u16_at data 8 in
      let msg_ix_index := u16_at data 14 in
      if negb (sig_ix_index =? u16.MAX) || negb (pubkey_ix_index =? u16.MAX)
         || negb (msg_ix_index =? u16.MAX) then None
      else
        let sig_offset := u16_at data 2 in
        let pubkey_offset := u16_at data 6 in
        let msg_offset := u16_at data 10 in
        let msg_size := u16_at data 12 in
        if blen data <? sig_offset + 64 then None
        else if blen data <? pubkey_offset + 32 then None
        else if blen data <? msg_offset + msg_size then None
        else Some (mkParsedEd25519 sig_count (slice data pubkey_offset 32)
                     (slice data msg_offset msg_size)).

(** ** The approval message ([approver/message.rs]) *)

Module ApprovalMessage.
Record t : Type := mk { program_id : Pubkey; user_pubkey : Pubkey; expiry_unix : Z }.

#[global] Instance t_eq_dec : EqDecision t.
Proof. solve_decision. Defined.

(** The derived Borsh layout: the fields in order, integers little-endian. *)
Definition serialize (m : t) : list byte :=
  key_to_bytes (program_id m) ++ key_to_bytes (user_pubkey m) ++ to_le_bytes 8 (expiry_unix m).

(** [try_from_slice]: all bytes must be consumed. *)
Definition try_from_slice (bs : list byte) : option t :=
  if blen bs =? 72
  then Some (mk (key_of_bytes (slice bs 0 32)) (key_of_bytes (slice bs 32 32))
               (from_le_bytes (slice bs 64 8)))
  else None.
End ApprovalMessage.

(** ** Verification ([approver/approver_utils.rs]) *)

(** The transaction as the instructions sysvar shows it. *)
Record Instruction : Type := mkInstruction {
  ix_program_id : Pubkey;
  ix_accounts : list Pubkey;
  ix_data : list byte
}.
Record InstructionsSysvar : Type := mkInstructionsSysvar {
  current_index : Z;
  instructions : list Instruction
}.

Section approval.
Context {R : Runtime} {L : Type}.

(** [load_current_index_checked], [load_instruction_at_checked]: they fail on
    any account but the sysvar. *)
Definition load_current_index_checked (tx : InstructionsSysvar) (sysvar : Pubkey) : option Z :=
  if key_eqb sysvar instructions_sysvar_id then Some (current_index tx) else None.
Definition load_instruction_at_checked (tx : InstructionsSysvar) (sysvar : Pubkey) (i : Z)
  : option Instruction :=
  if key_eqb sysvar instructions_sysvar_id then instructions tx !! Z.to_nat i else None.

(** [verify_approval_message_generic] for the program [program], at time [now]. *)
Definition verify_approval_message_generic (tx : InstructionsSysvar)
    (program user_pubkey approver1 approver2 instructions_sysvar : Pubkey)
    (msg : ApprovalMessage.t) (now : Z) : Result unit :=
  _ ← require_onre (now <=? ApprovalMessage.expiry_unix msg) OnreError.Expired;
  _ ← require_onre (key_eqb (ApprovalMessage.program_id msg) program) OnreError.WrongProgram;
  _ ← require_onre (key_eqb (ApprovalMessage.user_pubkey msg) user_pubkey) OnreError.WrongUser;
  cur_idx ← ok_or_onre (load_current_index_checked tx instructions_sysvar)
    OnreError.MissingEd25519Ix;
  _ ← require_onre (0 <? cur_idx) OnreError.MissingEd25519Ix;
  ix ← ok_or_onre (load_instruction_at_checked tx instructions_sysvar (cur_idx - 1))
    OnreError.MissingEd25519Ix;
  _ ← require_onre (key_eqb (ix_program_id ix) ed25519_program_id) OnreError.WrongIxProgram;
  _ ← require_onre (bool_decide (ix_accounts ix = [])) OnreError.BadEd25519Accounts;
  parsed ← ok_or_onre (parse_ed25519_ix (ix_data ix)) OnreError.MalformedEd25519Ix;
  _ ← require_onre (sig_count parsed =? 1) OnreError.MultipleSigs;
  let is_approver a :=
    negb (key_eqb a Pubkey_default) && bool_decide (pubkey parsed = key_to_bytes a) in
  _ ← require_onre (is_approver approver1 || is_approver approver2) OnreError.WrongAuthority;
  signed_msg ← ok_or_onre (ApprovalMessage.try_from_slice (message parsed))
    OnreError.MsgDeserialize;
  _ ← require_onre (key_eqb (ApprovalMessage.program_id signed_msg) program)
    OnreError.WrongProgram;
  _ ← require_onre (key_eqb (ApprovalMessage.user_pubkey signed_msg) user_pubkey)
    OnreError.WrongUser;
  _ ← require_onre (now <=? ApprovalMessage.expiry_unix signed_msg) OnreError.Expired;
  require_onre (bool_decide (signed_msg = msg)) OnreError.MsgMismatch.

(** [verify_offer_approval] of [offer_utils.rs]. *)
Definition verify_offer_approval (tx : InstructionsSysvar) (offer : Offer.t)
    (approval_message : option ApprovalMessage.t)
    (program user_pubkey approver1 approver2 instructions_sysvar : Pubkey) : M L unit :=
  if Offer.needs_approval offer then
    match approval_message with
    | Some msg =>
        clock ← Clock_get;
        lift (verify_approval_message_generic tx program user_pubkey approver1 approver2
                instructions_sysvar msg (timestamp_u64 clock))
    | None => fail (Onre OnreError.ApprovalRequired)
    end
  else mret tt.
End approval.

(** ** Byte strings: lengths and round trips *)

Lemma to_le_bytes_length n z : length (to_le_bytes n z) = n.
Proof. revert z. induction n; intros; cbn; auto. Qed.

Lemma byte_val_of z : byte_val (byte_of z) = z mod 256.
Proof.
  unfold byte_val, byte_of. pose proof (Z.mod_pos_bound z 256 ltac:(lia)) as Hb.
  destruct (Byte.of_N (Z.to_N (z mod 256))) as [b|] eqn:E.
  - apply Byte.to_of_N in E. cbn. rewrite E. lia.
  - apply Byte.of_N_None_iff in E. lia.
Qed.

Lemma from_to_le_bytes n z : 0 <= z < 256 ^ Z.of_nat n -> from_le_bytes (to_le_bytes n z) = z.
Proof.
  revert z. induction n as [|n IH]; intros z Hz; cbn [to_le_bytes from_le_bytes].
  - change (256 ^ Z.of_nat 0) with 1 in Hz. lia.
  - rewrite Nat2Z.inj_succ, Z.pow_succ_r in Hz by lia. rewrite byte_val_of, IH.
    + pose proof (Z.div_mod z 256). lia.
    + split; [apply Z.div_pos; lia|]. apply Z.div_lt_upper_bound; lia.
Qed.

Lemma byte_val_range b : 0 <= byte_val b < 256.
Proof. unfold byte_val. pose proof (Byte.to_N_bounded b). lia. Qed.

Lemma from_le_bytes_range bs : 0 <= from_le_bytes bs < 256 ^ Z.of_nat (length bs).
Proof.
  induction bs as [|b bs IH]; cbn [from_le_bytes length]; [done|].
  rewrite Nat2Z.inj_succ, Z.pow_succ_r by lia. pose proof (byte_val_range b). lia.
Qed.

Lemma byte_of_val b : byte_of (byte_val b) = b.
Proof.
  unfold byte_of, byte_val. pose proof (Byte.to_N_bounded b).
  rewrite Z.mod_small by lia. by rewrite N2Z.id, Byte.of_to_N.
Qed.

Lemma to_from_le_bytes bs : to_le_bytes (length bs) (from_le_bytes bs) = bs.
Proof.
  induction bs as [|b bs IH]; cbn; [done|]. pose proof (byte_val_range b). f_equal.
  - rewrite <-(byte_of_val b) at 2. unfold byte_of. by rewrite (Z.mul_comm 256), Z.mod_add by lia.
  - rewrite (Z.mul_comm 256), Z.div_add, Z.div_small by lia. exact IH.
Qed.

Lemma key_bytes_length k : length (key_to_bytes k) = 32%nat.
Proof. apply to_le_bytes_length. Qed.

(** A key of 32 bytes. *)
Definition key32 (k : Pubkey) : Prop := Z.of_N k < 256 ^ 32.

Lemma key_of_to_bytes k : key32 k -> key_of_bytes (key_to_bytes k) = k.
Proof.
  unfold key32, key_of_bytes, key_to_bytes. intros Hk. rewrite from_to_le_bytes by lia. lia.
Qed.

Lemma slice_app_l (a b : list byte) n :
  n = Z.of_nat (length a) -> slice (a ++ b) 0 n = a.
Proof. intros ->. unfold slice. rewrite drop_0, Nat2Z.id. apply take_app_length. Qed.

Lemma slice_app_r (a b : list byte) o n :
  Z.of_nat (length a) <= o -> slice (a ++ b) o n = slice b (o - Z.of_nat (length a)) n.
Proof.
  intros Ho. unfold slice. rewrite drop_app_ge by lia. do 2 f_equal. lia.
Qed.

Lemma slice_all (a : list byte) n : n = Z.of_nat (length a) -> slice a 0 n = a.
Proof. intros ->. unfold slice. rewrite drop_0, Nat2Z.id. apply firstn_all. Qed.

Lemma slice_length (a : list byte) o n :
  0 <= o -> 0 <= n -> o + n <= blen a -> Z.of_nat (length (slice a o n)) = n.
Proof. unfold slice, blen. intros. rewrite length_take, length_drop. lia. Qed.

(** ** The approval message *)

(** The message's fields fit their Rust types. *)
Definition message_ok (m : ApprovalMessage.t) : Prop :=
  key32 (ApprovalMessage.program_id m) /\ key32 (ApprovalMessage.user_pubkey m) /\
  0 <= ApprovalMessage.expiry_unix m <= u64.MAX.

Lemma serialize_length m : blen (ApprovalMessage.serialize m) = 72.
Proof.
  unfold blen, ApprovalMessage.serialize.
  by rewrite !length_app, !key_bytes_length, to_le_bytes_length.
Qed.

Lemma try_from_slice_serialize m :
  message_ok m -> ApprovalMessage.try_from_slice (ApprovalMessage.serialize m) = Some m.
Proof.
  intros (Hp & Hu & He). unfold ApprovalMessage.try_from_slice. rewrite serialize_length. cbn [Z.eqb Pos.eqb].
  unfold ApprovalMessage.serialize.
  set (p := key_to_bytes (ApprovalMessage.program_id m)).
  set (u := key_to_bytes (ApprovalMessage.user_pubkey m)).
  set (e := to_le_bytes 8 (ApprovalMessage.expiry_unix m)).
  assert (length p = 32%nat /\ length u = 32%nat /\ length e = 8%nat) as (Lp & Lu & Le)
    by (split_and!; [apply key_bytes_length|apply key_bytes_length|apply to_le_bytes_length]).
  rewrite (slice_app_l p) by (by rewrite Lp).
  rewrite (slice_app_r p _ 32), (slice_app_r p _ 64) by (rewrite Lp; lia). rewrite Lp.
  change (32 - Z.of_nat 32) with 0. change (64 - Z.of_nat 32) with 32.
  rewrite (slice_app_l u), (slice_app_r u), Lu by (rewrite Lu; lia).
  change (32 - Z.of_nat 32) with 0. rewrite slice_all by (by rewrite Le).
  subst p u e. rewrite !key_of_to_bytes by done. rewrite from_to_le_bytes; [by destruct m|].
  change (256 ^ Z.of_nat 8) with 18446744073709551616. zlia.
Qed.

Lemma try_from_slice_Some bs m :
  ApprovalMessage.try_from_slice bs = Some m -> ApprovalMessage.serialize m = bs.
Proof.
  unfold ApprovalMessage.try_from_slice. destruct (Z.eqb_spec (blen bs) 72) as [Hl|]; [|done].
  intros [= <-]. unfold ApprovalMessage.serialize, key_of_bytes, key_to_bytes. cbn [ApprovalMessage.program_id ApprovalMessage.user_pubkey ApprovalMessage.expiry_unix].
  assert (forall o n, 0 <= o -> 0 <= n -> o + n <= 72 ->
    to_le_bytes (Z.to_nat n) (from_le_bytes (slice bs o n)) = slice bs o n) as Hs.
  { intros o n Ho Hn Hon. pose proof (slice_length bs o n Ho Hn ltac:(lia)) as Hsl.
    rewrite <-(to_from_le_bytes (slice bs o n)) at 2. f_equal. lia. }
  rewrite !Z2N.id by (apply from_le_bytes_range).
  pose proof (Hs 0 32) as H1. pose proof (Hs 32 32) as H2. pose proof (Hs 64 8) as H3.
  change (Z.to_nat 32) with 32%nat in H1, H2. change (Z.to_nat 8) with 8%nat in H3.
  rewrite H1, H2, H3 by lia.
  unfold slice. unfold blen in Hl.
  change (Z.to_nat 0) with 0%nat. change (Z.to_nat 32) with 32%nat.
  change (Z.to_nat 64) with 64%nat. change (Z.to_nat 8) with 8%nat.
  rewrite drop_0, (take_ge (drop 64 bs)) by (rewrite length_drop; lia).
  rewrite <-(take_drop 32 bs) at 4. f_equal.
  rewrite <-(take_drop 32 (drop 32 bs)) at 2. f_equal. by rewrite drop_drop.
Qed.

(** The Borsh layout of the approval message is unambiguous: parsing the bytes
    of a message gives the message back, and bytes that parse are exactly the
    bytes of the message they parse to. *)
Theorem approval_message_roundtrip m bs :
  (message_ok m -> ApprovalMessage.try_from_slice (ApprovalMessage.serialize m) = Some m) /\
  (ApprovalMessage.try_from_slice bs = Some m -> ApprovalMessage.serialize m = bs).
Proof. split; [apply try_from_slice_serialize|apply try_from_slice_Some]. Qed.

(** ** The instruction an approver's signature comes in *)

(** The data the Ed25519 SDK builds for one signature: header, key, signature,
    message. *)
Definition ed25519_ix_data (pk sig msg : list byte) : list byte :=
  [x01; x00] ++ to_le_bytes 2 48 ++ to_le_bytes 2 u16.MAX
    ++ to_le_bytes 2 16 ++ to_le_bytes 2 u16.MAX
    ++ to_le_bytes 2 112 ++ to_le_bytes 2 (blen msg) ++ to_le_bytes 2 u16.MAX
    ++ pk ++ sig ++ msg.

Lemma ed25519_header pk sig msg :
  ed25519_ix_data pk sig msg =
  [x01; x00; byte_of 48; byte_of (48 / 256); byte_of u16.MAX; byte_of (u16.MAX / 256);
   byte_of 16; byte_of (16 / 256); byte_of u16.MAX; byte_of (u16.MAX / 256);
   byte_of 112; byte_of (112 / 256); byte_of (blen msg); byte_of (blen msg / 256);
   byte_of u16.MAX; byte_of (u16.MAX / 256)] ++ pk ++ sig ++ msg.
Proof. done. Qed.

Lemma parse_ed25519_ix_data pk sig msg :
  length pk = 32%nat -> length sig = 64%nat -> blen msg <= u16.MAX ->
  parse_ed25519_ix (ed25519_ix_data pk sig msg) = Some (mkParsedEd25519 1 pk msg).
Proof.
  intros Hpk Hsig Hmsg. unfold parse_ed25519_ix, u16_at. rewrite ed25519_header.
  set (h := [x01; _; _; _; _; _; _; _; _; _; _; _; _; _; _; _]).
  assert (blen (h ++ pk ++ sig ++ msg) = 112 + blen msg) as ->.
  { unfold blen. rewrite !length_app, Hpk, Hsig. cbn [h length]. lia. }
  assert (forall i n, 0 <= i -> 0 <= n -> i + n <= 16 ->
            slice (h ++ pk ++ sig ++ msg) i n = slice h i n) as Hh.
  { intros i n Hi Hn Hin. unfold slice. rewrite drop_app_le by (cbn [h length]; lia).
    rewrite take_app_le; [done|]. rewrite length_drop. cbn [h length]. lia. }
  rewrite !Hh by lia.
  assert (from_le_bytes (slice h 12 2) = blen msg) as ->.
  { change (slice h 12 2) with (to_le_bytes 2 (blen msg)). apply from_to_le_bytes.
    unfold blen in *. change (256 ^ Z.of_nat 2) with 65536. zlia. }
  replace (from_le_bytes (slice h 0 1)) with 1 by (vm_compute; reflexivity).
  replace (from_le_bytes (slice h 2 2)) with 48 by (vm_compute; reflexivity).
  replace (from_le_bytes (slice h 4 2)) with u16.MAX by (vm_compute; reflexivity).
  replace (from_le_bytes (slice h 6 2)) with 16 by (vm_compute; reflexivity).
  replace (from_le_bytes (slice h 8 2)) with u16.MAX by (vm_compute; reflexivity).
  replace (from_le_bytes (slice h 10 2)) with 112 by (vm_compute; reflexivity).
  replace (from_le_bytes (slice h 14 2)) with u16.MAX by (vm_compute; reflexivity).
  assert (0 <= blen msg) by (unfold blen; lia). cbn [negb orb Z.eqb Pos.eqb].
  destruct (Z.ltb_spec (112 + blen msg) 16); [lia|]. rewrite Z.eqb_refl. cbn [negb orb].
  destruct (Z.ltb_spec (112 + blen msg) (48 + 64)); [lia|].
  destruct (Z.ltb_spec (112 + blen msg) (16 + 32)); [lia|].
  destruct (Z.ltb_spec (112 + blen msg) (112 + blen msg)); [lia|]. f_equal. f_equal.
  - rewrite slice_app_r by (cbn [h length]; lia). apply slice_app_l. rewrite Hpk. done.
  - rewrite app_assoc, app_assoc, slice_app_r
      by (rewrite !length_app, Hpk, Hsig; cbn [h length]; lia).
    rewrite !length_app, Hpk, Hsig. apply slice_all. done.
Qed.

(** ** Soundness and completeness of approvals *)

(** The instruction before the current one carries the signature of [approver]
    on [m]. *)
Definition signed_by `{Runtime} (tx : InstructionsSysvar) (approver : Pubkey)
    (m : ApprovalMessage.t) : Prop :=
  exists ix p, 0 < current_index tx /\
    instructions tx !! Z.to_nat (current_index tx - 1) = Some ix /\
    ix_program_id ix = ed25519_program_id /\ ix_accounts ix = [] /\
    parse_ed25519_ix (ix_data ix) = Some p /\
    pubkey p = key_to_bytes approver /\ message p = ApprovalMessage.serialize m.

Section approval_facts.
Context {R : Runtime} {L : Type}.

(** The check of an offer that needs approval only passes with a valid one: the signed
    message is for this program and this user, has not expired, and one of the two
    approvers (never the default key) signed exactly its bytes in the Ed25519
    instruction immediately before the current one. *)
Lemma approval_sound tx offer m program user a1 a2 sysvar (w w' : World L) :
  Offer.needs_approval offer = true ->
  verify_offer_approval tx offer m program user a1 a2 sysvar w = Ok (tt, w') ->
  w' = w /\ exists msg approver, m = Some msg /\
    ApprovalMessage.program_id msg = program /\ ApprovalMessage.user_pubkey msg = user /\
    timestamp_u64 (clock w) <= ApprovalMessage.expiry_unix msg /\
    (approver = a1 \/ approver = a2) /\ approver <> Pubkey_default /\
    signed_by tx approver msg.
Proof.
  unfold verify_offer_approval. intros -> H. destruct m as [msg|]; [|by inv_m].
  unfold Clock_get in H. inv_m. split; [done|]. unfold verify_approval_message_generic in H. inv_res.
  repeat match goal with
  | H : load_current_index_checked _ _ = Some _ |- _ =>
      unfold load_current_index_checked in H; destruct (key_eqb sysvar instructions_sysvar_id) eqn:Esys; [|done]
  | H : load_instruction_at_checked _ _ _ = Some _ |- _ =>
      unfold load_instruction_at_checked in H; rewrite Esys in H
  | H : key_eqb _ _ = true |- _ => apply key_eqb_eq in H
  | H : bool_decide _ = true |- _ => apply bool_decide_eq_true in H
  end. simplify_eq.
  match goal with H : ApprovalMessage.try_from_slice _ = Some _ |- _ =>
    apply try_from_slice_Some in H end.
  match goal with H : _ || _ = true |- _ => apply orb_true_iff in H as [Ha | Ha] end;
    apply andb_true_iff in Ha as [Hd Hk]; apply negb_true_iff in Hd; apply bool_decide_eq_true in Hk;
    [exists msg, a1|exists msg, a2]; apply key_eqb_neq in Hd; unfold signed_by; eauto 20.
Qed.

(** Conversely an honest approval is accepted: if the instruction before the
    current one is the standard Ed25519 instruction with an approver's signature
    on an unexpired message for this program and user, verification succeeds
    and changes nothing. *)
Theorem approval_complete tx offer msg sig approver program user a1 a2 (w : World L) :
  message_ok msg -> ApprovalMessage.program_id msg = program ->
  ApprovalMessage.user_pubkey msg = user ->
  timestamp_u64 (clock w) <= ApprovalMessage.expiry_unix msg ->
  approver <> Pubkey_default -> approver = a1 \/ approver = a2 ->
  length sig = 64%nat -> 0 < current_index tx ->
  instructions tx !! Z.to_nat (current_index tx - 1) =
    Some (mkInstruction ed25519_program_id []
            (ed25519_ix_data (key_to_bytes approver) sig (ApprovalMessage.serialize msg))) ->
  verify_offer_approval tx offer (Some msg) program user a1 a2 instructions_sysvar_id w = Ok (tt, w).
Proof.
  intros Hm Hp Hu He Hd Ha Hs Hc Hix. unfold verify_offer_approval.
  destruct (Offer.needs_approval offer); [|done].
  rewrite (M_bind_Ok _ _ w (clock w) w) by done. unfold lift.
  cut (verify_approval_message_generic tx program user a1 a2 instructions_sysvar_id msg
         (timestamp_u64 (clock w)) = Ok tt); [by intros ->|].
  unfold verify_approval_message_generic, load_current_index_checked, load_instruction_at_checked.
  rewrite (key_eqb_refl instructions_sysvar_id), Hp, Hu, !key_eqb_refl.
  rewrite (proj2 (Z.leb_le _ _) He). run_res.
  rewrite (proj2 (Z.ltb_lt _ _) Hc), Hix. run_res. cbn [ix_program_id ix_accounts ix_data].
  rewrite key_eqb_refl, bool_decide_eq_true_2 by done. run_res.
  rewrite parse_ed25519_ix_data; [|apply key_bytes_length|done|rewrite serialize_length; done].
  run_res. cbn [sig_count pubkey message]. rewrite Z.eqb_refl. run_res.
  assert ((negb (key_eqb a1 Pubkey_default)
           && bool_decide (key_to_bytes approver = key_to_bytes a1)
           || negb (key_eqb a2 Pubkey_default)
              && bool_decide (key_to_bytes approver = key_to_bytes a2)) = true) as ->.
  { apply key_eqb_neq in Hd. destruct Ha as [<- | <-]; rewrite Hd;
      rewrite (bool_decide_eq_true_2 (key_to_bytes approver = key_to_bytes approver)) by done;
      [done|by rewrite orb_true_r]. }
  run_res. rewrite (try_from_slice_serialize msg Hm). run_res.
  rewrite Hp, Hu, !key_eqb_refl, (proj2 (Z.leb_le _ _) He). run_res.
  by rewrite bool_decide_eq_true_2.
Qed.
End approval_facts.

(** ** Witnesses *)

Module SampleApproval.
Definition user : Pubkey := 103%N.
Definition approver : Pubkey := 105%N.
Definition msg : ApprovalMessage.t := ApprovalMessage.mk program_id user 2000000.
Definition sig : list byte := replicate 64 x00.
Definition offer : Offer.t :=
  Offer.mk 201%N 203%N (replicate 10 OfferVector.default) 0 255 1 0 0 0.
Definition tx : InstructionsSysvar :=
  mkInstructionsSysvar 1
    [mkInstruction ed25519_program_id []
       (ed25519_ix_data (key_to_bytes approver) sig (ApprovalMessage.serialize msg));
     mkInstruction program_id [] []].
Definition world : World unit :=
  mkWorld (Clock.mk 1000000 77 5)
    (State.mk 101%N Pubkey_default false 203%N [] approver Pubkey_default 255 0 102%N 0 Pubkey_default)
    ∅ ∅ ∅ ∅ ∅ (SystemOwned true) (SystemOwned true) (SystemOwned true) (SystemOwned true) tt [].
End SampleApproval.

Lemma sample_message_ok : message_ok SampleApproval.msg.
Proof. vm_compute. repeat split; discriminate. Qed.

Lemma approval_message_roundtrip_witness :
  ApprovalMessage.try_from_slice (ApprovalMessage.serialize SampleApproval.msg)
    = Some SampleApproval.msg.
Proof. exact (proj1 (approval_message_roundtrip SampleApproval.msg []) sample_message_ok). Defined.

Lemma approval_sound_witness :
  exists msg approver, Some SampleApproval.msg = Some msg /\
    ApprovalMessage.program_id msg = program_id /\
    ApprovalMessage.user_pubkey msg = SampleApproval.user /\
    1000000 <= ApprovalMessage.expiry_unix msg /\
    (approver = SampleApproval.approver \/ approver = Pubkey_default) /\
    approver <> Pubkey_default /\ signed_by SampleApproval.tx approver msg.
Proof.
  exact (proj2 (approval_sound SampleApproval.tx SampleApproval.offer (Some SampleApproval.msg)
    program_id SampleApproval.user SampleApproval.approver Pubkey_default instructions_sysvar_id
    SampleApproval.world SampleApproval.world ltac:(reflexivity) ltac:(vm_compute; reflexivity))).
Defined.

Lemma approval_complete_witness :
  verify_offer_approval SampleApproval.tx SampleApproval.offer (Some SampleApproval.msg)
    program_id SampleApproval.user SampleApproval.approver Pubkey_default instructions_sysvar_id
    SampleApproval.world = Ok (tt, SampleApproval.world).
Proof.
  apply (approval_complete SampleApproval.tx SampleApproval.offer SampleApproval.msg
           SampleApproval.sig SampleApproval.approver);
    first [exact sample_message_ok | reflexivity | vm_compute; discriminate | left; reflexivity].
Defined.
