(* ===== verification/TokenUtils.v ===== *)
(** * Token utilities

    [src/utils/token_utils.rs]: amounts and fees, the calls into the token
    programs, and the exchange of one token for another. *)

From S2P Require Import World MathUtils.

Definition MAX_TOKEN_DECIMALS : Z := 18.

(** ** Amounts *)

(** [calculate_token_out_amount].  The exponents are at most 27, so the [u128]
    powers of the source do not overflow. *)
Definition calculate_token_out_amount
    (token_in_amount price token_in_decimals token_out_decimals : Z) : Result Z :=
  _ ← require_onre (0 <? price) OnreError.ZeroPriceNotAllowed;
  _ ← require_onre (token_in_decimals <=? MAX_TOKEN_DECIMALS) OnreError.DecimalsExceedMax;
  _ ← require_onre (token_out_decimals <=? MAX_TOKEN_DECIMALS) OnreError.DecimalsExceedMax;
  numerator ← ok_or_onre
    (u128.checked_mul token_in_amount (10 ^ (token_out_decimals + PRICE_DECIMALS)))
    OnreError.MathOverflow;
  denominator ← ok_or_onre (u128.checked_mul price (10 ^ token_in_decimals))
    OnreError.MathOverflow;
  let result := numerator / denominator in
  _ ← require_onre (result <=? u64.MAX) OnreError.ResultOverflow;
  _ ← require_onre (0 <? result) OnreError.InvalidAmount;
  Ok result.

(** [CalculateFeeResult]. *)
Record CalculateFeeResult : Type := mkCalculateFeeResult {
  token_in_fee_amount : Z;
  token_in_net_amount : Z
}.

(** [calculate_fees]. *)
Definition calculate_fees (token_in_amount fee_basis_points : Z) : Result CalculateFeeResult :=
  fee_numerator ← ok_or_onre (u128.checked_mul token_in_amount fee_basis_points)
    OnreError.MathOverflow;
  fee ← ok_or_onre (ceil_div_u128 fee_numerator MAX_BASIS_POINTS) OnreError.MathOverflow;
  let token_fee_amount := u64.cast fee in
  token_net_amount ← ok_or_onre (u64.checked_sub token_in_amount token_fee_amount)
    OnreError.MathOverflow;
  Ok (mkCalculateFeeResult token_fee_amount token_net_amount).

(** [validate_max_supply]: a cap of 0 is no cap. *)
Definition validate_max_supply (current_supply amount max_supply : Z) : Result unit :=
  if 0 <? max_supply then
    new_supply ← ok_or_onre (u64.checked_add current_supply amount) OnreError.MathOverflow;
    require_onre (new_supply <=? max_supply) OnreError.MaxSupplyExceeded
  else Ok tt.

(** [program_controls_mint]. *)
Definition program_controls_mint (mint : MintAccount) (mint_authority_pda : Pubkey) : bool :=
  match Mint.mint_authority (mint_data mint) with
  | Some pk => key_eqb pk mint_authority_pda
  | None => false
  end.

(** [has_transfer_fee]. *)
Definition has_transfer_fee (mint : MintAccount) : bool :=
  match Mint.transfer_fee_config (mint_data mint) with
  | Some (transfer_fee_basis_points, maximum_fee) =>
      (0 <? transfer_fee_basis_points) || (0 <? maximum_fee)
  | None => false
  end.

Section token_utils.
Context {R : Runtime} {L : Type} {TL : TokenLedger L}.

(** [validate_associated_token_address]. *)
Definition validate_associated_token_address
    (ata_account authority mint token_program_id : Pubkey) (invalid_account_error : OnreError.t)
    : M L unit :=
  guard (key_eqb ata_account (associated_token_address authority mint token_program_id))
    invalid_account_error.

(** [get_associated_token_account]. *)
Definition get_associated_token_account
    (ata_account authority mint token_program_id : Pubkey) (invalid_account_error : OnreError.t)
    : M L TokenAccountInfo :=
  validate_associated_token_address ata_account authority mint token_program_id
    invalid_account_error;;
  load_token_account ata_account.

(** [get_or_create_associated_token_account]: an account the ledger does not know
    is owned by the system program. *)
Definition get_or_create_associated_token_account
    (ata_account authority mint token_program_id : Pubkey) (invalid_account_error : OnreError.t)
    : M L TokenAccountInfo :=
  validate_associated_token_address ata_account authority mint token_program_id
    invalid_account_error;;
  l ← gets ledger;
  when (negb (bool_decide (is_Some (ledger_account l ata_account))))
    (invoke (create_associated_account authority mint token_program_id));;
  load_token_account ata_account.

(** [transfer_tokens]. *)
Definition transfer_tokens (mint : MintAccount) (token_program from to authority : Pubkey)
    (amount : Z) : M L unit :=
  invoke (transfer_checked token_program (mint_key mint) from to authority amount (decimals mint)).

(** [mint_tokens]: the supply it validates is the snapshot's. *)
Definition mint_tokens (token_program : Pubkey) (mint : MintAccount) (to authority : Pubkey)
    (amount max_supply max_mint_amount : Z) : M L unit :=
  when (0 <? max_mint_amount)
    (guard (amount <=? max_mint_amount) OnreError.MaxMintAmountExceeded);;
  lift (validate_max_supply (supply mint) amount max_supply);;
  invoke (mint_to_checked token_program (mint_key mint) to authority amount (decimals mint)).

(** [burn_tokens]. *)
Definition burn_tokens (token_program : Pubkey) (mint : MintAccount) (from authority : Pubkey)
    (amount : Z) : M L unit :=
  invoke (burn_checked token_program (mint_key mint) from authority amount (decimals mint)).

(** [read_optional_token_account_amount]. *)
Definition read_optional_token_account_amount (token_account token_program : Pubkey) : M L Z :=
  l ← gets ledger;
  mret match ledger_account l token_account with
       | Some a => if key_eqb (TokenAccount.token_program a) token_program
                   then TokenAccount.amount a else 0
       | None => 0
       end.
End token_utils.

(** [ExecTokenOpsParams].  Signer seeds are the runtime's business, except that
    the code unwraps [vault_authority_signer_seeds] on the burn path. *)
Module ExecTokenOpsParams.
Record t : Type := mk {
  token_in_program : Pubkey;
  token_out_program : Pubkey;
  token_in_mint : MintAccount;
  token_in_net_amount : Z;
  token_in_fee_amount : Z;
  token_in_authority : Pubkey;
  vault_authority_signer_seeds : option (list Seed);
  token_in_source_account : Pubkey;
  token_in_destination_account : Pubkey;
  token_in_refill_destination_account : option Pubkey;
  token_in_refill_amount : Z;
  token_in_fee_destination_account : Pubkey;
  token_in_burn_account : Pubkey;
  token_in_burn_authority : Pubkey;
  token_out_mint : MintAccount;
  token_out_amount : Z;
  token_out_authority : Pubkey;
  token_out_source_account : Pubkey;
  token_out_destination_account : Pubkey;
  mint_authority_pda : Pubkey;
  token_out_max_supply : Z;
  token_out_max_mint_amount : Z
}.
End ExecTokenOpsParams.

Section execute.
Import ExecTokenOpsParams.
Context {R : Runtime} {L : Type} {TL : TokenLedger L}.

(** Step 1 of [execute_token_operations]: the user pays token_in. *)
Definition pay_token_in (params : ExecTokenOpsParams.t) : M L unit :=
  if program_controls_mint (token_in_mint params) (mint_authority_pda params) then
    guard (token_in_refill_amount params =? 0) OnreError.InvalidAmount;;
    transfer_tokens (token_in_mint params) (token_in_program params)
      (token_in_source_account params) (token_in_burn_account params)
      (token_in_authority params) (token_in_net_amount params);;
    _ ← lift (panicking (vault_authority_signer_seeds params));
    burn_tokens (token_in_program params) (token_in_mint params)
      (token_in_burn_account params) (token_in_burn_authority params)
      (token_in_net_amount params);;
    when (0 <? token_in_fee_amount params)
      (transfer_tokens (token_in_mint params) (token_in_program params)
         (token_in_source_account params) (token_in_fee_destination_account params)
         (token_in_authority params) (token_in_fee_amount params))
  else
    guard (token_in_refill_amount params <=? token_in_net_amount params)
      OnreError.InvalidAmount;;
    proceeds_amount ← lift (ok_or_onre
      (u64.checked_sub (token_in_net_amount params) (token_in_refill_amount params))
      OnreError.ArithmeticUnderflow);
    when (0 <? token_in_refill_amount params)
      (refill_destination ← lift (ok_or_onre (token_in_refill_destination_account params)
         OnreError.InvalidVaultTokenInAccount);
       transfer_tokens (token_in_mint params) (token_in_program params)
         (token_in_source_account params) refill_destination
         (token_in_authority params) (token_in_refill_amount params));;
    when (0 <? proceeds_amount)
      (transfer_tokens (token_in_mint params) (token_in_program params)
         (token_in_source_account params) (token_in_destination_account params)
         (token_in_authority params) proceeds_amount);;
    when (0 <? token_in_fee_amount params)
      (transfer_tokens (token_in_mint params) (token_in_program params)
         (token_in_source_account params) (token_in_fee_destination_account params)
         (token_in_authority params) (token_in_fee_amount params)).

(** Step 2: the program distributes token_out. *)
Definition distribute_token_out (params : ExecTokenOpsParams.t) : M L unit :=
  if program_controls_mint (token_out_mint params) (mint_authority_pda params) then
    mint_tokens (token_out_program params) (token_out_mint params)
      (token_out_destination_account params) (mint_authority_pda params)
      (token_out_amount params) (token_out_max_supply params) (token_out_max_mint_amount params)
  else
    transfer_tokens (token_out_mint params) (token_out_program params)
      (token_out_source_account params) (token_out_destination_account params)
      (token_out_authority params) (token_out_amount params).

(** [execute_token_operations]. *)
Definition execute_token_operations (params : ExecTokenOpsParams.t) : M L unit :=
  guard (negb (has_transfer_fee (token_in_mint params))) OnreError.TransferFeeNotSupported;;
  guard (negb (has_transfer_fee (token_out_mint params))) OnreError.TransferFeeNotSupported;;
  pay_token_in params;;
  distribute_token_out params.
End execute.

(** ** Amounts and fees *)

Lemma calculate_fees_exact amount bps :
  0 <= amount <= u64.MAX -> 0 <= bps <= MAX_BASIS_POINTS ->
  exists fee, calculate_fees amount bps = Ok (mkCalculateFeeResult fee (amount - fee)) /\
    (fee - 1) * MAX_BASIS_POINTS < amount * bps <= fee * MAX_BASIS_POINTS /\
    0 <= fee <= amount.
Proof.
  intros Ha Hb. unfold calculate_fees.
  assert (0 <= amount * bps <= u64.MAX * MAX_BASIS_POINTS) as Hp.
  { split; [apply Z.mul_nonneg_nonneg; lia|]. apply Z.mul_le_mono_nonneg; lia. }
  unfold u128.checked_mul. rewrite checked_ok by (unfold MAX_BASIS_POINTS in *; zlia). run_res.
  destruct (ceil_div_u128_total (amount * bps) MAX_BASIS_POINTS) as [fee Hf];
    [lia|unfold MAX_BASIS_POINTS; lia|unfold MAX_BASIS_POINTS in *; zlia|].
  rewrite Hf. run_res.
  apply ceil_div_u128_spec in Hf as (H1 & H2 & H3); [|lia|unfold MAX_BASIS_POINTS; lia].
  unfold MAX_BASIS_POINTS in *.
  assert (amount * bps <= amount * 10000) by (apply Z.mul_le_mono_nonneg_l; lia).
  assert (0 <= fee <= amount) by lia.
  assert (u64.cast fee = fee) as ->.
  { unfold u64.cast, wrap_u. apply Z.mod_small. change (2 ^ 64) with 18446744073709551616. zlia. }
  unfold u64.checked_sub. rewrite checked_ok by zlia. cbn. eexists. split; [done|]. lia.
Qed.

Lemma calculate_fees_Ok amount bps r :
  0 <= amount <= u64.MAX -> 0 <= bps <= MAX_BASIS_POINTS ->
  calculate_fees amount bps = Ok r ->
  token_in_fee_amount r + token_in_net_amount r = amount /\
  0 <= token_in_fee_amount r <= amount /\ 0 <= token_in_net_amount r <= amount.
Proof.
  intros Ha Hb H. destruct (calculate_fees_exact amount bps Ha Hb) as (f & E & _ & ?).
  rewrite H in E. injection E as ->. cbn. lia.
Qed.

Lemma calculate_token_out_amount_Ok amount price din dout r :
  0 <= din -> 0 <= dout ->
  calculate_token_out_amount amount price din dout = Ok r ->
  r = amount * 10 ^ (dout + 9) / (price * 10 ^ din) /\
  0 < price /\ din <= 18 /\ dout <= 18 /\ 0 < r <= u64.MAX.
Proof.
  intros Hdi Hdo H. unfold calculate_token_out_amount, PRICE_DECIMALS, MAX_TOKEN_DECIMALS in H.
  inv_res. inv_checked. auto with lia.
Qed.

(** The products of the computation fit the 128 bits it is done in. *)
Lemma calculate_token_out_amount_fits amount price din dout r :
  calculate_token_out_amount amount price din dout = Ok r ->
  amount * 10 ^ (dout + 9) <= u128.MAX /\ price * 10 ^ din <= u128.MAX.
Proof.
  intros H. unfold calculate_token_out_amount, PRICE_DECIMALS in H. inv_res. inv_checked. split; [apply H0|apply H].
Qed.

Lemma calculate_token_out_amount_bounds amount price din dout r :
  0 <= din -> 0 <= dout ->
  calculate_token_out_amount amount price din dout = Ok r ->
  r * (price * 10 ^ din) <= amount * 10 ^ (dout + 9) < (r + 1) * (price * 10 ^ din).
Proof.
  intros Hdi Hdo H. apply calculate_token_out_amount_Ok in H as (-> & Hp & _); [|done|done].
  assert (0 < price * 10 ^ din) by (apply Z.mul_pos_pos; [done|apply Z.pow_pos_nonneg; lia]).
  split; [apply div_mul_le; lia|apply lt_div_mul; lia].
Qed.

(** Dividing twice through the price loses nothing to the pool. *)
Lemma div_chain x y z q p : 0 < y -> 0 < z -> q = x / y -> p * z <= q * y -> p * z <= x.
Proof. intros Hy Hz -> H. pose proof (div_mul_le x y Hy). lia. Qed.

Lemma validate_max_supply_Ok s x cap u :
  validate_max_supply s x cap = Ok u -> 0 < cap -> s + x <= cap.
Proof.
  unfold validate_max_supply. intros H Hc. apply Z.ltb_lt in Hc. rewrite Hc in H.
  inv_res. inv_checked. lia.
Qed.

(** ** Effects of the token calls *)

Section effects.
Context {R : Runtime} {L : Type} {TL : TokenLedger L} {TLL : TokenLedgerLaws L}.
Implicit Types w : World L.

(** [w'] is [w] but for its ledger and its events. *)
Definition effects_only w w' : Prop := exists l es, w' = set_events es (set_ledger l w).

Lemma effects_only_refl w : effects_only w w.
Proof. exists (ledger w), (events w). by destruct w. Qed.

Lemma effects_only_trans w1 w2 w3 :
  effects_only w1 w2 -> effects_only w2 w3 -> effects_only w1 w3.
Proof. intros (l & es & ->) (l' & es' & ->). by exists l', es'. Qed.

Lemma effects_only_ledger w l : effects_only w (set_ledger l w).
Proof. exists l, (events w). by destruct w. Qed.

Lemma effects_only_events w es : effects_only w (set_events es w).
Proof. exists (ledger w), es. by destruct w. Qed.

(** The ledger of [w'] is that of [w] with every balance changed by [db] and
    every supply by [ds]. *)
Record moves w w' (db ds : Pubkey -> Z) : Prop := {
  moves_world : effects_only w w';
  moves_balance k : balance (ledger w') k = balance (ledger w) k + db k;
  moves_supply k : supply_of (ledger w') k = supply_of (ledger w) k + ds k
}.

Lemma moves_refl w : moves w w (fun _ => 0) (fun _ => 0).
Proof. split; intros; [apply effects_only_refl|lia|lia]. Qed.

Lemma moves_trans w1 w2 w3 db ds db' ds' :
  moves w1 w2 db ds -> moves w2 w3 db' ds' ->
  moves w1 w3 (fun k => db k + db' k) (fun k => ds k + ds' k).
Proof.
  intros [] []. split; intros.
  - by eapply effects_only_trans.
  - rewrite moves_balance1, moves_balance0. lia.
  - rewrite moves_supply1, moves_supply0. lia.
Qed.

Lemma moves_ext w w' db ds db' ds' :
  moves w w' db ds -> (forall k, db k = db' k) -> (forall k, ds k = ds' k) -> moves w w' db' ds'.
Proof. intros [] E1 E2. split; intros; rewrite <-?E1, <-?E2; auto. Qed.

Lemma transfer_tokens_moves m p from to auth x u w w' :
  transfer_tokens m p from to auth x w = Ok (u, w') ->
  moves w w' (fun k => - delta (key_eqb k from) x + delta (key_eqb k to) x) (fun _ => 0) /\
  x <= balance (ledger w) from.
Proof using All.
  unfold transfer_tokens. intros H. inv_m.
  apply transfer_balance in H as (Hb & Hs & Hx). split; [|done].
  split; cbn; intros; [apply effects_only_ledger|rewrite Hb; lia|rewrite Hs; lia].
Qed.

Lemma mint_tokens_moves p m to auth x cap maxm u w w' :
  mint_tokens p m to auth x cap maxm w = Ok (u, w') ->
  moves w w' (fun k => delta (key_eqb k to) x) (fun k => delta (key_eqb k (mint_key m)) x) /\
  supply_of (ledger w) (mint_key m) + x <= u64.MAX /\
  (0 < maxm -> x <= maxm) /\ (0 < cap -> supply m + x <= cap).
Proof using All.
  unfold mint_tokens. intros H. inv_m.
  apply mint_to_balance in H as (Hb & Hs & Hle).
  split; [split; cbn; intros; [apply effects_only_ledger|by rewrite Hb|by rewrite Hs]|].
  split; [done|]. split; [|intros; by eapply validate_max_supply_Ok].
  intros Hm. apply Z.leb_le, Hx, Z.ltb_lt, Hm.
Qed.

Lemma burn_tokens_moves p m from auth x u w w' :
  burn_tokens p m from auth x w = Ok (u, w') ->
  moves w w' (fun k => - delta (key_eqb k from) x) (fun k => - delta (key_eqb k (mint_key m)) x).
Proof using All.
  unfold burn_tokens. intros H. inv_m.
  apply burn_balance in H as (Hb & Hs & Hx).
  split; cbn; intros; [apply effects_only_ledger|rewrite Hb; lia|rewrite Hs; lia].
Qed.

Lemma emit_moves n fs u w w' :
  emit n fs w = Ok (u, w') -> moves w w' (fun _ => 0) (fun _ => 0).
Proof. intros H. inv_m. split; intros; [apply effects_only_events|cbn; lia|cbn; lia]. Qed.

Lemma when_moves (c : bool) (m : M L unit) u w w' db ds :
  when c m w = Ok (u, w') ->
  (c = true -> m w = Ok (u, w') -> moves w w' db ds) ->
  moves w w' (fun k => if c then db k else 0) (fun k => if c then ds k else 0).
Proof.
  intros H Hm. apply when_Ok_inv in H as [[-> H] | [-> ->]]; [by apply Hm|apply moves_refl].
Qed.
End effects.

(** ** The exchange *)

Section execute_effect.
Import ExecTokenOpsParams.
Context {R : Runtime} {L : Type} {TL : TokenLedger L} {TLL : TokenLedgerLaws L}.
Implicit Types (w : World L) (p : ExecTokenOpsParams.t).

Definition controls_in p : bool :=
  program_controls_mint (token_in_mint p) (mint_authority_pda p).
Definition controls_out p : bool :=
  program_controls_mint (token_out_mint p) (mint_authority_pda p).

(** Who pays and who receives token_in, by account. *)
Definition in_balance_change p (k : Pubkey) : Z :=
  - delta (key_eqb k (token_in_source_account p)) (token_in_net_amount p + token_in_fee_amount p)
  + delta (key_eqb k (token_in_fee_destination_account p)) (token_in_fee_amount p)
  + (if controls_in p then 0
     else delta (key_eqb k (token_in_destination_account p))
            (token_in_net_amount p - token_in_refill_amount p)
          + match token_in_refill_destination_account p with
            | Some r => delta (key_eqb k r) (token_in_refill_amount p)
            | None => 0
            end).

Definition in_supply_change p (k : Pubkey) : Z :=
  if controls_in p
  then - delta (key_eqb k (mint_key (token_in_mint p))) (token_in_net_amount p) else 0.

Definition out_balance_change p (k : Pubkey) : Z :=
  delta (key_eqb k (token_out_destination_account p)) (token_out_amount p)
  - (if controls_out p then 0
     else delta (key_eqb k (token_out_source_account p)) (token_out_amount p)).

Definition out_supply_change p (k : Pubkey) : Z :=
  if controls_out p
  then delta (key_eqb k (mint_key (token_out_mint p))) (token_out_amount p) else 0.

Lemma delta_plus b x y : delta b x + delta b y = delta b (x + y).
Proof. destruct b; cbn; lia. Qed.

Lemma transfer_when_moves m pr from to auth x u w w' :
  0 <= x ->
  when (0 <? x) (transfer_tokens m pr from to auth x) w = Ok (u, w') ->
  moves w w' (fun k => - delta (key_eqb k from) x + delta (key_eqb k to) x) (fun _ => 0).
Proof using All.
  intros Hx H. eapply when_moves in H; [|intros _ H'; by apply transfer_tokens_moves in H' as [H' _]].
  eapply moves_ext; [exact H| |]; intros k; cbn; [|by destruct (0 <? x)].
  destruct (Z.ltb_spec 0 x); [done|]. assert (x = 0) as -> by lia.
  by destruct (key_eqb k from), (key_eqb k to).
Qed.

Lemma pay_token_in_moves p u w w' :
  0 <= token_in_net_amount p -> 0 <= token_in_fee_amount p -> 0 <= token_in_refill_amount p ->
  pay_token_in p w = Ok (u, w') ->
  moves w w' (in_balance_change p) (in_supply_change p) /\
  (if controls_in p then token_in_refill_amount p = 0
   else token_in_refill_amount p <= token_in_net_amount p).
Proof using All.
  intros Hn Hf Hr H. unfold pay_token_in, in_balance_change, in_supply_change in *.
  fold (controls_in p) in H. destruct (controls_in p).
  - inv_m. apply Z.eqb_eq in Hx.
    apply transfer_tokens_moves in Hx0 as [H0 _]. apply burn_tokens_moves in Hx2.
    apply transfer_when_moves in H; [|done].
    pose proof (moves_trans _ _ _ _ _ _ _ (moves_trans _ _ _ _ _ _ _ H0 Hx2) H) as Hm.
    split; [|done]. eapply moves_ext; [exact Hm| |]; intros k; cbn; [|lia].
    rewrite <-(delta_plus (key_eqb k (token_in_source_account p))). lia.
  - inv_m. apply Z.leb_le in Hx. inv_res. inv_checked.
    apply transfer_when_moves in H, Hx2; [|lia..].
    assert (moves w w2
      (fun k => - delta (key_eqb k (token_in_source_account p)) (token_in_refill_amount p)
          + match token_in_refill_destination_account p with
            | Some r => delta (key_eqb k r) (token_in_refill_amount p) | None => 0 end)
      (fun _ => 0)) as H1.
    { apply when_Ok_inv in Hx1 as [[Hc Ht] | [Hc ->]].
      - inv_m. inv_res. rewrite Hx0. by apply transfer_tokens_moves in Ht as [Ht _].
      - apply Z.ltb_ge in Hc. assert (token_in_refill_amount p = 0) as -> by lia.
        eapply moves_ext; [apply moves_refl| |]; intros k; cbn; [|done].
        destruct (key_eqb k _), (token_in_refill_destination_account p) as [r|]; try done;
          by destruct (key_eqb k r). }
    pose proof (moves_trans _ _ _ _ _ _ _ (moves_trans _ _ _ _ _ _ _ H1 Hx2) H) as Hm.
    split; [|done]. eapply moves_ext; [exact Hm| |]; intros k; cbn; [|lia].
    destruct (key_eqb k (token_in_source_account p)); cbn; lia.
Qed.

Lemma distribute_token_out_moves p u w w' :
  distribute_token_out p w = Ok (u, w') ->
  moves w w' (out_balance_change p) (out_supply_change p) /\
  (controls_out p = true ->
     (0 < token_out_max_mint_amount p -> token_out_amount p <= token_out_max_mint_amount p) /\
     (0 < token_out_max_supply p ->
        supply (token_out_mint p) + token_out_amount p <= token_out_max_supply p)).
Proof using All.
  unfold distribute_token_out, out_balance_change, out_supply_change.
  fold (controls_out p). destruct (controls_out p); intros H.
  - apply mint_tokens_moves in H as (H & _ & Hm & Hs). split; [|auto].
    eapply moves_ext; [exact H| |]; intros k; cbn; lia.
  - apply transfer_tokens_moves in H as [H _]. split; [|done].
    eapply moves_ext; [exact H| |]; intros k; cbn; lia.
Qed.

Lemma execute_token_operations_moves p u w w' :
  0 <= token_in_net_amount p -> 0 <= token_in_fee_amount p -> 0 <= token_in_refill_amount p ->
  execute_token_operations p w = Ok (u, w') ->
  moves w w' (fun k => in_balance_change p k + out_balance_change p k)
             (fun k => in_supply_change p k + out_supply_change p k) /\
  has_transfer_fee (token_in_mint p) = false /\ has_transfer_fee (token_out_mint p) = false /\
  (if controls_in p then token_in_refill_amount p = 0
   else token_in_refill_amount p <= token_in_net_amount p) /\
  (controls_out p = true ->
     (0 < token_out_max_mint_amount p -> token_out_amount p <= token_out_max_mint_amount p) /\
     (0 < token_out_max_supply p ->
        supply (token_out_mint p) + token_out_amount p <= token_out_max_supply p)).
Proof using All.
  intros Hn Hf Hr H. unfold execute_token_operations in H. inv_m. inv_ok.
  apply pay_token_in_moves in Hx1 as [H1 ?]; [|done..].
  apply distribute_token_out_moves in H as [H2 ?].
  split; [by apply (moves_trans _ _ _ _ _ _ _ H1 H2)|]. auto.
Qed.
End execute_effect.
