(* ===== verification/OfferHandlers.v ===== *)
(** * Offer administration

    The instructions that create and configure offers: [make_offer.rs],
    [add_offer_vector.rs], [delete_offer_vector.rs],
    [delete_all_offer_vectors.rs], [update_offer_fee.rs],
    [update_offer_permissionless_fee.rs], [set_offer_disabled.rs] and
    [targeted_disable.rs].  The pricing logic they call is in [OfferPricing].

    An instruction is [accounts ;; handler]: the constraints of its [Accounts]
    struct, then the handler's body.  *)

From S2P Require Import World MathUtils OfferPricing TokenUtils.
Open Scope string_scope.
Open Scope Z_scope.

Section offer_handlers.
Context {R : Runtime} {L : Type} {TL : TokenLedger L}.

(** The PDA of the offer for a pair of mints. *)
Definition offer_pda (token_in_mint token_out_mint : Pubkey) : Pubkey :=
  pda [seeds.OFFER; SeedKey token_in_mint; SeedKey token_out_mint].

(** The accounts shared by the instructions that modify one offer. *)
Record OfferAdmin : Type := mkOfferAdmin {
  oa_offer : Pubkey;
  oa_token_in_mint : Pubkey;
  oa_token_out_mint : Pubkey;
  oa_boss : Pubkey
}.

(** [has_one = boss] on the state account. *)
Definition has_one_boss (boss : Pubkey) : M L unit :=
  s ← gets state; constraint (key_eqb (State.boss s) boss) ConstraintHasOne.

(** [offer], [token_in_mint], [token_out_mint] as every offer instruction
    constrains them: the PDA of the pair, and the mints the offer stores. *)
Definition offer_accounts (offer_key token_in_mint token_out_mint : Pubkey) : M L Offer.t :=
  offer ← load_account offers offer_key;
  constraint (key_eqb offer_key (offer_pda token_in_mint token_out_mint)) ConstraintSeeds;;
  guard (key_eqb token_in_mint (Offer.token_in_mint offer)) OnreError.InvalidTokenInMint;;
  guard (key_eqb token_out_mint (Offer.token_out_mint offer)) OnreError.InvalidTokenOutMint;;
  mret offer.

(** [AddOfferVector], [DeleteOfferVector], [DeleteAllOfferVectors],
    [UpdateOfferFee], [UpdateOfferPermissionlessFee]. *)
Definition offer_admin_accounts (ctx : OfferAdmin) : M L Offer.t :=
  offer ← offer_accounts (oa_offer ctx) (oa_token_in_mint ctx) (oa_token_out_mint ctx);
  _ ← load_mint (oa_token_in_mint ctx);
  _ ← load_mint (oa_token_out_mint ctx);
  has_one_boss (oa_boss ctx);;
  mret offer.

Definition AddOfferVector_accounts := offer_admin_accounts.
Definition DeleteOfferVector_accounts := offer_admin_accounts.
Definition DeleteAllOfferVectors_accounts := offer_admin_accounts.
Definition UpdateOfferFee_accounts := offer_admin_accounts.
Definition UpdateOfferPermissionlessFee_accounts := offer_admin_accounts.

Definition store_offer (k : Pubkey) (o : Offer.t) : M L unit :=
  modify (fun w => set_offers (<[k := o]> (offers w)) w).

(** [add_offer_vector]. *)
Definition add_offer_vector (ctx : OfferAdmin) (start_time_opt : option Z)
    (base_time base_price apr price_fix_duration : Z) : M L unit :=
  offer ← AddOfferVector_accounts ctx;
  clock ← Clock_get;
  let current_time := timestamp_u64 clock in
  let new_vector :=
    new_offer_vector start_time_opt base_time base_price apr price_fix_duration current_time in
  '(offer', evicted) ← lift (add_vector offer current_time new_vector);
  for_each evicted (fun start_time =>
    emit "OfferVectorEvictedEvent"
      [("offer_token_in_mint", FKey (Offer.token_in_mint offer));
       ("offer_token_out_mint", FKey (Offer.token_out_mint offer));
       ("vector_start_time", FNum start_time)]);;
  store_offer (oa_offer ctx) offer';;
  emit "OfferVectorAddedEvent"
    [("offer_pda", FKey (oa_offer ctx));
     ("start_time", FNum (OfferVector.start_time new_vector)); ("base_time", FNum base_time);
     ("base_price", FNum base_price); ("apr", FNum apr);
     ("price_fix_duration", FNum price_fix_duration)].

(** [delete_offer_vector]. *)
Definition delete_offer_vector (ctx : OfferAdmin) (vector_start_time : Z) : M L unit :=
  offer ← DeleteOfferVector_accounts ctx;
  clock ← Clock_get;
  offer' ← lift (delete_vector offer (timestamp_u64 clock) vector_start_time);
  store_offer (oa_offer ctx) offer';;
  emit "OfferVectorDeletedEvent"
    [("offer_pda", FKey (oa_offer ctx)); ("vector_start_time", FNum vector_start_time)].

(** [delete_all_offer_vectors]. *)
Definition delete_all_offer_vectors (ctx : OfferAdmin) : M L unit :=
  offer ← DeleteAllOfferVectors_accounts ctx;
  let '(offer', deleted_count) := delete_all_vectors offer in
  store_offer (oa_offer ctx) offer';;
  emit "AllOfferVectorsDeletedEvent"
    [("offer_pda", FKey (oa_offer ctx)); ("vectors_deleted_count", FNum deleted_count)].

(** [update_offer_fee]. *)
Definition update_offer_fee (ctx : OfferAdmin) (new_fee_basis_points : Z) : M L unit :=
  offer ← UpdateOfferFee_accounts ctx;
  guard (new_fee_basis_points <=? MAX_ALLOWED_FEE_BPS) OnreError.InvalidFee;;
  store_offer (oa_offer ctx) (Offer.with_fee_basis_points new_fee_basis_points offer);;
  emit "OfferFeeUpdatedEvent"
    [("offer_pda", FKey (oa_offer ctx));
     ("old_fee_basis_points", FNum (Offer.fee_basis_points offer));
     ("new_fee_basis_points", FNum new_fee_basis_points);
     ("boss", FKey (oa_boss ctx))].

(** [update_offer_permissionless_fee]. *)
Definition update_offer_permissionless_fee (ctx : OfferAdmin) (new_fee : Z) : M L unit :=
  offer ← UpdateOfferPermissionlessFee_accounts ctx;
  guard (new_fee <=? MAX_ALLOWED_FEE_BPS) OnreError.InvalidFee;;
  store_offer (oa_offer ctx) (Offer.set_permissionless_fee_basis_points new_fee offer);;
  emit "OfferPermissionlessFeeUpdatedEvent"
    [("offer_pda", FKey (oa_offer ctx));
     ("old_fee_basis_points_permissionless", FNum (Offer.fee_basis_points_permissionless offer));
     ("new_fee_basis_points_permissionless", FNum new_fee);
     ("boss", FKey (oa_boss ctx))].

(** [MakeOffer]. *)
Record MakeOffer : Type := mkMakeOffer {
  mo_token_in_mint : Pubkey;
  mo_token_in_program : Pubkey;
  mo_vault_token_in_account : Pubkey;
  mo_token_out_mint : Pubkey;
  mo_offer : Pubkey;
  mo_boss : Pubkey
}.

(** [init_if_needed] of an associated token account. *)
Definition init_if_needed_ata (key authority mint token_program : Pubkey) : M L unit :=
  constraint (key_eqb key (associated_token_address authority mint token_program))
    ConstraintAssociated;;
  l ← gets ledger;
  when (negb (bool_decide (is_Some (ledger_account l key))))
    (invoke (create_associated_account authority mint token_program)).

(** [init] of an account of the program: it must not exist yet. *)
Definition init_account {A} (accounts : World L -> gmap Pubkey A) (k : Pubkey)
    (seeds : list Seed) (payer : Pubkey) : M L unit :=
  m ← gets accounts;
  constraint (key_eqb k (pda seeds)) ConstraintSeeds;;
  when (bool_decide (is_Some (m !! k)) || negb (create_account_succeeds payer k)) (fail CpiError).

Definition MakeOffer_accounts (ctx : MakeOffer) : M L unit :=
  _ ← load_mint (mo_token_in_mint ctx);
  init_if_needed_ata (mo_vault_token_in_account ctx) (pda [seeds.OFFER_VAULT_AUTHORITY])
    (mo_token_in_mint ctx) (mo_token_in_program ctx);;
  _ ← load_mint (mo_token_out_mint ctx);
  init_account offers (mo_offer ctx)
    [seeds.OFFER; SeedKey (mo_token_in_mint ctx); SeedKey (mo_token_out_mint ctx)] (mo_boss ctx);;
  has_one_boss (mo_boss ctx).

(** [make_offer]: the account starts zeroed, with empty vectors and flags. *)
Definition make_offer (ctx : MakeOffer) (fee_basis_points : Z)
    (needs_approval allow_permissionless : bool) : M L unit :=
  MakeOffer_accounts ctx;;
  guard (fee_basis_points <=? MAX_ALLOWED_FEE_BPS) OnreError.InvalidFee;;
  let zeroed := Offer.mk Pubkey_default Pubkey_default
    (replicate MAX_VECTORS OfferVector.default) 0 0 0 0 0 0 in
  let offer :=
    Offer.with_bump (pda_bump [seeds.OFFER; SeedKey (mo_token_in_mint ctx);
                               SeedKey (mo_token_out_mint ctx)])
      (Offer.set_disabled false
        (Offer.set_permissionless allow_permissionless
          (Offer.set_approval needs_approval
            (Offer.with_fee_basis_points fee_basis_points
              (Offer.with_token_out_mint (mo_token_out_mint ctx)
                (Offer.with_token_in_mint (mo_token_in_mint ctx) zeroed)))))) in
  store_offer (mo_offer ctx) offer;;
  emit "OfferMadeEvent"
    [("offer_pda", FKey (mo_offer ctx)); ("token_in_mint", FKey (mo_token_in_mint ctx));
     ("token_out_mint", FKey (mo_token_out_mint ctx));
     ("fee_basis_points", FNum fee_basis_points); ("boss", FKey (mo_boss ctx));
     ("needs_approval", FBool needs_approval);
     ("allow_permissionless", FBool allow_permissionless)].

(** ** Targeted disable *)

Definition mem_key (k : Pubkey) (ks : list Pubkey) : bool := existsb (key_eqb k) ks.

(** [authorize_targeted_disable]; the [Signer] type guarantees [is_signer]. *)
Definition authorize_targeted_disable (st : State.t) (signer : Pubkey) (disabled : bool)
  : Result unit :=
  let boss_signed := key_eqb (State.boss st) signer in
  let admin_signed := mem_key signer (State.admins st) in
  if disabled
  then require_onre (boss_signed || admin_signed) OnreError.UnauthorizedToDisableOffer
  else require_onre boss_signed OnreError.OnlyBossCanEnableOffer.

(** [set_offer_disabled]. *)
Definition set_offer_disabled (offer_key signer : Pubkey) (disabled : bool) : M L unit :=
  offer ← load_account offers offer_key;
  s ← gets state;
  lift (authorize_targeted_disable s signer disabled);;
  store_offer offer_key (Offer.set_disabled disabled offer);;
  emit "OfferDisabledSetEvent"
    [("offer_pda", FKey offer_key); ("disabled", FBool disabled); ("signer", FKey signer)].

End offer_handlers.
