(* ===== verification/MarketInfo.v ===== *)
(** * Market information

    [src/instructions/market_info/]: valuation of offers, circulating supply and
    its exclusions, the market-stats account and the read-only queries. *)

From S2P Require Import World MathUtils OfferPricing TokenUtils OfferHandlers.
Open Scope string_scope.
Open Scope Z_scope.

(** ** Valuation ([offer_valuation_utils.rs]) *)

Record OfferValuationSnapshot : Type := mkOfferValuationSnapshot {
  ovs_active_vector : OfferVector.t;
  ovs_current_price : Z;
  ovs_next_price_change_timestamp : Z
}.

Record NavAdjustmentSnapshot : Type := mkNavAdjustmentSnapshot {
  nas_current_price : Z;
  nas_previous_price : option Z;
  nas_adjustment : Z
}.

(** [compute_vector_price_at_time]. *)
Definition compute_vector_price_at_time (vector : OfferVector.t) (at_time : Z) : Result Z :=
  calculate_step_price_at (OfferVector.apr vector) (OfferVector.base_price vector)
    (OfferVector.base_time vector) (OfferVector.price_fix_duration vector) at_time.

(** [get_active_vector_and_current_price]. *)
Definition get_active_vector_and_current_price (offer : Offer.t) (current_time : Z)
  : Result (OfferVector.t * Z) :=
  active_vector ← find_active_vector_at offer current_time;
  current_price ← calculate_step_price_at (OfferVector.apr active_vector)
    (OfferVector.base_price active_vector) (OfferVector.base_time active_vector)
    (OfferVector.price_fix_duration active_vector) current_time;
  Ok (active_vector, current_price).

(** [compute_offer_current_price]. *)
Definition compute_offer_current_price (offer : Offer.t) (current_time : Z) : Result Z :=
  '(_, current_price) ← get_active_vector_and_current_price offer current_time;
  Ok current_price.

(** [find_next_vector_after]. *)
Definition find_next_vector_after (offer : Offer.t) (current_time : Z) : option OfferVector.t :=
  min_by_key OfferVector.start_time
    (List.filter (fun v => current_time <? OfferVector.start_time v) (Offer.vectors offer)).

(** [find_previous_vector]. *)
Definition find_previous_vector (offer : Offer.t) (current_vector_start_time : Z)
  : option OfferVector.t :=
  max_by_key OfferVector.start_time
    (List.filter (fun v => negb (OfferVector.start_time v =? 0)
                           && (OfferVector.start_time v <? current_vector_start_time))
       (Offer.vectors offer)).

(** [compute_next_price_change_timestamp]; the division and the plain [+ 1]
    panic instead of failing. *)
Definition compute_next_price_change_timestamp
    (offer : Offer.t) (active_vector : OfferVector.t) (current_time : Z) : Result Z :=
  let elapsed_since_base := u64.saturating_sub current_time (OfferVector.base_time active_vector) in
  current_step ← panicking
    (u128.checked_div elapsed_since_base (OfferVector.price_fix_duration active_vector));
  next_step ← panicking (u64.checked_add current_step 1);
  p ← overflow (u64.checked_mul next_step (OfferVector.price_fix_duration active_vector));
  next_interval_timestamp ← overflow (u64.checked_add (OfferVector.base_time active_vector) p);
  Ok match find_next_vector_after offer current_time with
     | Some vector => Z.min next_interval_timestamp (OfferVector.start_time vector)
     | None => next_interval_timestamp
     end.

(** [get_offer_valuation_snapshot]. *)
Definition get_offer_valuation_snapshot (offer : Offer.t) (current_time : Z)
  : Result OfferValuationSnapshot :=
  '(active_vector, current_price) ← get_active_vector_and_current_price offer current_time;
  next ← compute_next_price_change_timestamp offer active_vector current_time;
  Ok (mkOfferValuationSnapshot active_vector current_price next).

(** [compute_signed_price_delta]. *)
Definition compute_signed_price_delta (current_price previous_price : Z) : Result Z :=
  delta ← overflow (i128.checked_sub current_price previous_price);
  overflow (i64.try_from delta).

(** [get_nav_adjustment_snapshot]. *)
Definition get_nav_adjustment_snapshot (offer : Offer.t) (active_vector : OfferVector.t)
  : Result NavAdjustmentSnapshot :=
  current_price ← compute_vector_price_at_time active_vector (OfferVector.start_time active_vector);
  match find_previous_vector offer (OfferVector.start_time active_vector) with
  | Some previous_vector =>
      previous_price ←
        compute_vector_price_at_time previous_vector (OfferVector.start_time active_vector);
      adjustment ← compute_signed_price_delta current_price previous_price;
      Ok (mkNavAdjustmentSnapshot current_price (Some previous_price) adjustment)
  | None =>
      adjustment ← overflow (i64.try_from current_price);
      Ok (mkNavAdjustmentSnapshot current_price None adjustment)
  end.

(** ** Yields ([get_apy.rs]) *)

Definition EXT_SCALE : Z := 1000000.
Definition COMPOUNDING_PERIODS : Z := 365.

Definition overflow' {A} (o : option A) : Result A := ok_or_onre o OnreError.Overflow.

(** [calculate_apy_from_apr]. *)
Definition calculate_apy_from_apr (apr : Z) : Result Z :=
  num ← overflow' (u128.checked_mul INT_SCALE apr);
  den ← overflow' (u128.checked_mul EXT_SCALE COMPOUNDING_PERIODS);
  s ← overflow' (u128.checked_add num (den / 2));
  incr ← ok_or_onre (u128.checked_div s den) OnreError.DivByZero;
  base ← overflow' (u128.checked_add INT_SCALE incr);
  pow ← overflow' (pow_fixed base COMPOUNDING_PERIODS INT_SCALE);
  apy_int ← overflow' (u128.checked_sub pow INT_SCALE);
  apy_scaled ← overflow' (mul_div_round_u128 apy_int EXT_SCALE INT_SCALE);
  if u64.MAX <? apy_scaled then Err (Onre OnreError.Overflow) else Ok apy_scaled.

(** ** Supply and value ([market_stats.rs]) *)

(** [calculate_nav_adjustment]: every failure becomes [Overflow]. *)
Definition calculate_nav_adjustment (offer : Offer.t) (active_vector : OfferVector.t) : Result Z :=
  snapshot ← map_err (get_nav_adjustment_snapshot offer active_vector)
    (fun _ => Onre OnreError.Overflow);
  Ok (nas_adjustment snapshot).

(** [calculate_tvl]. *)
Definition calculate_tvl (circulating_supply nav : Z) : Result Z :=
  overflow' (p ← u128.checked_mul circulating_supply nav;
             q ← u128.checked_div p (10 ^ PRICE_DECIMALS);
             u64.try_from q).

(** [calculate_circulating_supply]. *)
Definition calculate_circulating_supply (total_supply excluded_supply : Z) : Result Z :=
  ok_or_onre (u64.checked_sub total_supply excluded_supply) OnreError.ArithmeticUnderflow.

(** [MarketStatsSnapshot]. *)
Record MarketStatsSnapshot : Type := mkMarketStatsSnapshot {
  mss_apy : Z;
  mss_circulating_supply : Z;
  mss_nav : Z;
  mss_nav_adjustment : Z;
  mss_tvl : Z
}.

(** [apply_market_stats_snapshot]. *)
Definition apply_market_stats_snapshot (market_stats : MarketStats.t)
    (snapshot : MarketStatsSnapshot) (clock : Clock.t) : MarketStats.t :=
  MarketStats.with_last_updated_slot (Clock.slot clock)
    (MarketStats.with_last_updated_at (Clock.unix_timestamp clock)
      (MarketStats.with_tvl (mss_tvl snapshot)
        (MarketStats.with_nav_adjustment (mss_nav_adjustment snapshot)
          (MarketStats.with_nav (mss_nav snapshot)
            (MarketStats.with_circulating_supply (mss_circulating_supply snapshot)
              (MarketStats.with_apy (mss_apy snapshot) market_stats)))))).

(** [impl PdaAccountInit for ...]. *)
#[export] Instance MarketStats_init : PdaAccountInit MarketStats.t := {
  pda_seed_prefixes := [seeds.MARKET_STATS];
  init_value bump := MarketStats.mk 0 0 0 0 0 0 0 bump;
  invalid_owner_error := OnreError.InvalidMarketStatsOwner;
  invalid_data_error := OnreError.InvalidMarketStatsData
}.

#[export] Instance ExcludedAccounts_init : PdaAccountInit CirculatingSupplyExcludedAccounts.t := {
  pda_seed_prefixes := [seeds.CIRCULATING_SUPPLY_EXCLUDED_ACCOUNTS];
  init_value bump := CirculatingSupplyExcludedAccounts.mk
    (replicate MAX_CIRCULATING_SUPPLY_EXCLUDED_ACCOUNTS Pubkey_default) bump;
  invalid_owner_error := OnreError.InvalidCirculatingSupplyExcludedAccountsOwner;
  invalid_data_error := OnreError.InvalidCirculatingSupplyExcludedAccountsData
}.

#[export] Instance ExcludedBalance_init : PdaAccountInit CirculatingSupplyExcludedBalance.t := {
  pda_seed_prefixes := [seeds.CIRCULATING_SUPPLY_EXCLUDED_BALANCE];
  init_value bump := CirculatingSupplyExcludedBalance.mk 0 0 0 bump;
  invalid_owner_error := OnreError.InvalidCirculatingSupplyExcludedBalanceOwner;
  invalid_data_error := OnreError.InvalidCirculatingSupplyExcludedBalanceData
}.

(** [validate_unique_non_default_owners]: each non-default owner is absent from
    the owners before it. *)
Fixpoint validate_unique_from (previous owners : list Pubkey) : Result unit :=
  match owners with
  | [] => Ok tt
  | owner :: rest =>
      _ ← (if key_eqb owner Pubkey_default then Ok tt
           else require_onre (negb (mem_key owner previous))
                  OnreError.DuplicateExcludedAccountOwner);
      validate_unique_from (previous ++ [owner]) rest
  end.
Definition validate_unique_non_default_owners (owners : list Pubkey) : Result unit :=
  validate_unique_from [] owners.

Section market_info.
Context {R : Runtime} {L : Type} {TL : TokenLedger L}.

(** [recompute_market_stats]; the timestamp is the clock's. *)
Definition recompute_market_stats (offer : Offer.t) (onyc_mint : MintAccount)
    (excluded_balance_amount : Z) : M L MarketStatsSnapshot :=
  lift (require_keys_eq (Mint.token_program (mint_data onyc_mint)) spl_token_id
          OnreError.InvalidTokenProgram);;
  lift (require_keys_eq (Offer.token_out_mint offer) (mint_key onyc_mint)
          OnreError.InvalidOnycMint);;
  clock ← Clock_get;
  '(active_vector, nav) ←
    lift (get_active_vector_and_current_price offer (timestamp_u64 clock));
  apy ← lift (calculate_apy_from_apr (OfferVector.apr active_vector));
  nav_adjustment ← lift (calculate_nav_adjustment offer active_vector);
  circulating_supply ←
    lift (calculate_circulating_supply (supply onyc_mint) excluded_balance_amount);
  tvl ← lift (calculate_tvl circulating_supply nav);
  mret (mkMarketStatsSnapshot apy circulating_supply nav nav_adjustment tvl).

(** [update_market_stats_account]. *)
Definition update_market_stats_account (market_stats : MarketStats.t)
    (snapshot : MarketStatsSnapshot) : M L MarketStats.t :=
  clock ← Clock_get;
  mret (apply_market_stats_snapshot market_stats snapshot clock).

(** [load_circulating_supply_excluded_balance_amount]. *)
Definition load_circulating_supply_excluded_balance_amount (excluded_balance_account : Pubkey)
  : M L Z :=
  lift (require_keys_eq excluded_balance_account (pda [seeds.CIRCULATING_SUPPLY_EXCLUDED_BALANCE])
          OnreError.InvalidCirculatingSupplyExcludedBalance);;
  excluded_balance ← load_optional_pda_account (T := CirculatingSupplyExcludedBalance.t)
    OnreError.InvalidCirculatingSupplyExcludedBalanceOwner
    OnreError.InvalidCirculatingSupplyExcludedBalanceData;
  mret match excluded_balance with
       | Some b => CirculatingSupplyExcludedBalance.amount b
       | None => 0
       end.

(** [refresh_market_stats_typed]. *)
Definition refresh_market_stats_typed (offer : Offer.t) (onyc_mint : MintAccount)
    (excluded_balance_amount : Z) (market_stats : MarketStats.t) (bump : Z) : M L MarketStats.t :=
  snapshot ← recompute_market_stats offer onyc_mint excluded_balance_amount;
  update_market_stats_account (MarketStats.with_bump bump market_stats) snapshot.

(** [refresh_market_stats_pda]. *)
Definition refresh_market_stats_pda (offer : Offer.t) (onyc_mint : MintAccount)
    (excluded_balance_account market_stats_account payer : Pubkey) : M L unit :=
  excluded_balance_amount ←
    load_circulating_supply_excluded_balance_amount excluded_balance_account;
  snapshot ← recompute_market_stats offer onyc_mint excluded_balance_amount;
  lift (require_keys_eq market_stats_account (pda [seeds.MARKET_STATS])
          OnreError.InvalidMarketStatsOwner);;
  let market_stats_bump := pda_bump [seeds.MARKET_STATS] in
  market_stats ← load_or_init_pda_account (T := MarketStats.t) payer market_stats_bump;
  market_stats ←
    update_market_stats_account (MarketStats.with_bump market_stats_bump market_stats) snapshot;
  store_pda_account market_stats.

(** [load_main_offer]. *)
Definition load_main_offer (market_offer_account : Pubkey) (st : State.t) : M L Offer.t :=
  lift (require_keys_eq market_offer_account (State.main_offer st) OnreError.InvalidMainOffer);;
  os ← gets offers;
  lift (ok_or_onre (os !! market_offer_account) OnreError.InvalidMainOffer).

(** [read_market_stats_account]: the address is not checked; no other account
    holds data of this type. *)
Definition read_market_stats_account (market_stats_account : Pubkey) : M L MarketStats.t :=
  if key_eqb market_stats_account (pda [seeds.MARKET_STATS])
  then load_pda_account OnreError.InvalidMarketStatsOwner OnreError.InvalidMarketStatsData
  else fail (Onre OnreError.InvalidMarketStatsOwner).

(** ** Instructions *)

Definition has_one_onyc_mint (onyc_mint : Pubkey) : M L unit :=
  s ← gets state; constraint (key_eqb (State.onyc_mint s) onyc_mint) ConstraintHasOne.

(** [RefreshMarketStats]. *)
Record RefreshMarketStats : Type := mkRefreshMarketStats {
  rms_main_offer : Pubkey;
  rms_token_in_mint : Pubkey;
  rms_onyc_mint : Pubkey;
  rms_circulating_supply_excluded_balance : Pubkey;
  rms_market_stats : Pubkey;
  rms_signer : Pubkey
}.

(** [refresh_market_stats]. *)
Definition refresh_market_stats (ctx : RefreshMarketStats) : M L unit :=
  _ ← load_mint (rms_token_in_mint ctx);
  has_one_onyc_mint (rms_onyc_mint ctx);;
  onyc_mint ← load_mint (rms_onyc_mint ctx);
  constraint (key_eqb (rms_market_stats ctx) (pda [seeds.MARKET_STATS])) ConstraintSeeds;;
  market_stats ← anchor_init_if_needed (rms_signer ctx) [seeds.MARKET_STATS]
    (MarketStats.mk 0 0 0 0 0 0 0 0);
  s ← gets state;
  main_offer ← load_main_offer (rms_main_offer ctx) s;
  lift (require_keys_eq (rms_token_in_mint ctx) (Offer.token_in_mint main_offer)
          OnreError.InvalidTokenInMint);;
  lift (require_keys_eq (rms_onyc_mint ctx) (Offer.token_out_mint main_offer)
          OnreError.InvalidTokenOutMint);;
  excluded_amount ← load_circulating_supply_excluded_balance_amount
    (rms_circulating_supply_excluded_balance ctx);
  snapshot ← recompute_market_stats main_offer onyc_mint excluded_amount;
  market_stats ← update_market_stats_account
    (MarketStats.with_bump (pda_bump [seeds.MARKET_STATS]) market_stats) snapshot;
  store_pda_account market_stats;;
  clock ← Clock_get;
  emit "MarketStatsRefreshedEvent"
    [("market_stats_pda", FKey (rms_market_stats ctx)); ("offer_pda", FKey (rms_main_offer ctx));
     ("timestamp", FNum (Clock.unix_timestamp clock)); ("slot", FNum (Clock.slot clock))].

(** [SetCirculatingSupplyExcludedAccounts]: only the boss. *)
Definition set_circulating_supply_excluded_accounts (boss : Pubkey) (owners : list Pubkey)
  : M L unit :=
  s ← gets state;
  guard (key_eqb (State.boss s) boss) OnreError.InvalidBoss;;
  excluded_accounts ← anchor_init_if_needed boss [seeds.CIRCULATING_SUPPLY_EXCLUDED_ACCOUNTS]
    (CirculatingSupplyExcludedAccounts.mk
       (replicate MAX_CIRCULATING_SUPPLY_EXCLUDED_ACCOUNTS Pubkey_default) 0);
  lift (validate_unique_non_default_owners owners);;
  store_pda_account
    (CirculatingSupplyExcludedAccounts.with_bump
       (pda_bump [seeds.CIRCULATING_SUPPLY_EXCLUDED_ACCOUNTS])
       (CirculatingSupplyExcludedAccounts.with_owners owners excluded_accounts));;
  emit "CirculatingSupplyExcludedAccountsSetEvent"
    [("owners", FKeys owners); ("boss", FKey boss)].

(** The loop of [update_circulating_supply_excluded_balance]. *)
Fixpoint sum_excluded (onyc_mint token_program : Pubkey) (accounts : list (Pubkey * Pubkey))
    (amount : Z) : M L Z :=
  match accounts with
  | [] => mret amount
  | (owner, token_account_key) :: rest =>
      lift (require_keys_eq token_account_key
              (associated_token_address owner onyc_mint token_program)
              OnreError.InvalidExcludedTokenAccount);;
      token_account ← load_token_account token_account_key;
      lift (require_keys_eq (TokenAccount.mint (ta_data token_account)) onyc_mint
              OnreError.InvalidExcludedTokenAccount);;
      lift (require_keys_eq (TokenAccount.owner (ta_data token_account)) owner
              OnreError.InvalidExcludedTokenAccount);;
      amount ← lift (ok_or_onre
        (u64.checked_add amount (TokenAccount.amount (ta_data token_account)))
        OnreError.MathOverflow);
      sum_excluded onyc_mint token_program rest amount
  end.

Definition active_owners (e : CirculatingSupplyExcludedAccounts.t) : list Pubkey :=
  List.filter (fun owner => negb (key_eqb owner Pubkey_default))
    (CirculatingSupplyExcludedAccounts.owners e).

(** [update_circulating_supply_excluded_balance]. *)
Definition update_circulating_supply_excluded_balance
    (onyc_mint token_program signer : Pubkey) (remaining_accounts : list Pubkey) : M L unit :=
  has_one_onyc_mint onyc_mint;;
  _ ← load_mint onyc_mint;
  excluded_accounts ← anchor_account (T := CirculatingSupplyExcludedAccounts.t);
  excluded_balance ← anchor_init_if_needed signer [seeds.CIRCULATING_SUPPLY_EXCLUDED_BALANCE]
    (CirculatingSupplyExcludedBalance.mk 0 0 0 0);
  let active := active_owners excluded_accounts in
  guard (length remaining_accounts <=? length active)%nat OnreError.TooManyExcludedTokenAccounts;;
  guard (length remaining_accounts =? length active)%nat OnreError.MissingExcludedTokenAccount;;
  amount ← sum_excluded onyc_mint token_program (zip active remaining_accounts) 0;
  clock ← Clock_get;
  store_pda_account
    (CirculatingSupplyExcludedBalance.mk amount (Clock.unix_timestamp clock) (Clock.slot clock)
       (pda_bump [seeds.CIRCULATING_SUPPLY_EXCLUDED_BALANCE]));;
  emit "CirculatingSupplyExcludedBalanceUpdatedEvent"
    [("amount", FNum amount); ("updater", FKey signer);
     ("timestamp", FNum (Clock.unix_timestamp clock)); ("slot", FNum (Clock.slot clock))].

(** The accounts of the read-only queries about one offer. *)
Definition query_accounts (offer_key token_in_mint token_out_mint : Pubkey)
  : M L (Offer.t * MintAccount) :=
  offer ← offer_accounts offer_key token_in_mint token_out_mint;
  _ ← load_mint token_in_mint;
  out ← load_mint token_out_mint;
  mret (offer, out).

(** [get_nav]. *)
Definition get_nav (offer_key token_in_mint token_out_mint : Pubkey) : M L Z :=
  '(offer, _) ← query_accounts offer_key token_in_mint token_out_mint;
  clock ← Clock_get;
  let current_time := timestamp_u64 clock in
  valuation ← lift (get_offer_valuation_snapshot offer current_time);
  emit "GetNAVEvent"
    [("offer_pda", FKey offer_key); ("current_price", FNum (ovs_current_price valuation));
     ("timestamp", FNum current_time);
     ("next_price_change_timestamp", FNum (ovs_next_price_change_timestamp valuation))];;
  mret (ovs_current_price valuation).

(** [get_apy]. *)
Definition get_apy (offer_key token_in_mint token_out_mint : Pubkey) : M L Z :=
  '(offer, _) ← query_accounts offer_key token_in_mint token_out_mint;
  clock ← Clock_get;
  let current_time := timestamp_u64 clock in
  active_vector ← lift (find_active_vector_at offer current_time);
  apy ← lift (calculate_apy_from_apr (OfferVector.apr active_vector));
  emit "GetAPYEvent"
    [("offer_pda", FKey offer_key); ("apy", FNum apy); ("apr", FNum (OfferVector.apr active_vector));
     ("timestamp", FNum current_time)];;
  mret apy.

(** [get_nav_adjustment]. *)
Definition get_nav_adjustment (offer_key token_in_mint token_out_mint : Pubkey) : M L Z :=
  '(offer, _) ← query_accounts offer_key token_in_mint token_out_mint;
  clock ← Clock_get;
  let current_time := timestamp_u64 clock in
  active_vector ← lift (find_active_vector_at offer current_time);
  snapshot ← lift (get_nav_adjustment_snapshot offer active_vector);
  emit "GetNavAdjustmentEvent"
    [("offer_pda", FKey offer_key); ("current_price", FNum (nas_current_price snapshot));
     ("previous_price", FOpt (nas_previous_price snapshot));
     ("adjustment", FNum (nas_adjustment snapshot)); ("timestamp", FNum current_time)];;
  mret (nas_adjustment snapshot).

(** The common tail of [get_tvl] and [get_tvl_v2]. *)
Definition tvl_of (offer_key : Pubkey) (offer : Offer.t) (total_supply excluded : Z) : M L Z :=
  clock ← Clock_get;
  let current_time := timestamp_u64 clock in
  '(_, current_price) ← lift (get_active_vector_and_current_price offer current_time);
  token_supply ← lift (calculate_circulating_supply total_supply excluded);
  tvl ← lift (map_err (calculate_tvl token_supply current_price)
                (fun _ => Onre OnreError.Overflow));
  emit "GetTVLEvent"
    [("offer_pda", FKey offer_key); ("tvl", FNum tvl); ("current_price", FNum current_price);
     ("token_supply", FNum token_supply); ("timestamp", FNum current_time)];;
  mret tvl.

(** The accounts of [GetTVL]. *)
Definition GetTVL_accounts (offer_key token_in_mint token_out_mint vault_token_out_account
    token_out_program : Pubkey) : M L (Offer.t * MintAccount) :=
  '(offer, out) ← query_accounts offer_key token_in_mint token_out_mint;
  guard (key_eqb vault_token_out_account
           (associated_token_address (pda [seeds.OFFER_VAULT_AUTHORITY]) token_out_mint
              token_out_program)) OnreError.InvalidVaultAccount;;
  mret (offer, out).

(** [get_tvl]. *)
Definition get_tvl (offer_key token_in_mint token_out_mint vault_token_out_account
    token_out_program : Pubkey) : M L Z :=
  '(offer, out) ← GetTVL_accounts offer_key token_in_mint token_out_mint vault_token_out_account
    token_out_program;
  vault_amount ← read_optional_token_account_amount vault_token_out_account token_out_program;
  tvl_of offer_key offer (supply out) vault_amount.

(** The accounts of [GetTVLV2]. *)
Definition GetTVLV2_accounts (offer_key token_in_mint token_out_mint : Pubkey)
  : M L (Offer.t * MintAccount) :=
  '(offer, out) ← query_accounts offer_key token_in_mint token_out_mint;
  s ← gets state;
  guard (key_eqb token_out_mint (State.onyc_mint s)) OnreError.InvalidOnycMint;;
  mret (offer, out).

(** [get_tvl_v2]. *)
Definition get_tvl_v2 (offer_key token_in_mint token_out_mint excluded_balance_key : Pubkey)
  : M L Z :=
  '(offer, out) ← GetTVLV2_accounts offer_key token_in_mint token_out_mint;
  excluded_amount ← load_circulating_supply_excluded_balance_amount excluded_balance_key;
  tvl_of offer_key offer (supply out) excluded_amount.

(** The accounts of [GetCirculatingSupply]. *)
Definition GetCirculatingSupply_accounts (onyc_mint_key onyc_vault_account token_program : Pubkey)
  : M L MintAccount :=
  onyc_mint ← load_mint onyc_mint_key;
  has_one_onyc_mint onyc_mint_key;;
  s ← gets state;
  guard (key_eqb onyc_vault_account
           (associated_token_address (pda [seeds.OFFER_VAULT_AUTHORITY]) (State.onyc_mint s)
              token_program)) OnreError.InvalidVaultAccount;;
  mret onyc_mint.

(** [get_circulating_supply]. *)
Definition get_circulating_supply (onyc_mint_key onyc_vault_account token_program : Pubkey)
  : M L Z :=
  onyc_mint ← GetCirculatingSupply_accounts onyc_mint_key onyc_vault_account token_program;
  clock ← Clock_get;
  vault_amount ← read_optional_token_account_amount onyc_vault_account token_program;
  circulating_supply ← lift (calculate_circulating_supply (supply onyc_mint) vault_amount);
  emit "GetCirculatingSupplyEvent"
    [("circulating_supply", FNum circulating_supply); ("total_supply", FNum (supply onyc_mint));
     ("vault_amount", FNum vault_amount); ("timestamp", FNum (timestamp_u64 clock))];;
  mret circulating_supply.

(** [get_circulating_supply_v2]. *)
Definition get_circulating_supply_v2 (onyc_mint_key excluded_balance_key : Pubkey) : M L Z :=
  onyc_mint ← load_mint onyc_mint_key;
  has_one_onyc_mint onyc_mint_key;;
  clock ← Clock_get;
  excluded_amount ← load_circulating_supply_excluded_balance_amount excluded_balance_key;
  circulating_supply ← lift (calculate_circulating_supply (supply onyc_mint) excluded_amount);
  emit "GetCirculatingSupplyV2Event"
    [("circulating_supply", FNum circulating_supply); ("total_supply", FNum (supply onyc_mint));
     ("excluded_amount", FNum excluded_amount); ("timestamp", FNum (timestamp_u64 clock))];;
  mret circulating_supply.

End market_info.
