(* ===== verification/Buffer.v ===== *)
(** * The BUFFER

    [src/instructions/buffer/]: accrual of the gross-yield spread into reserve
    and fee vaults, the supply baseline, burns that raise the NAV, and the
    instructions around them. *)

From S2P Require Import World MathUtils OfferPricing TokenUtils OfferHandlers MarketInfo.
Open Scope string_scope.
Open Scope Z_scope.

(** ** Accrual arithmetic ([accrual_utils.rs]) *)

Record BufferAccrualBreakdown : Type := mkBufferAccrualBreakdown {
  bab_buffer_mint_amount : Z;
  bab_reserve_mint_amount : Z;
  bab_management_fee_mint_amount : Z;
  bab_performance_fee_mint_amount : Z;
  bab_new_performance_fee_high_watermark : Z
}.

Definition math_overflow {A} (o : option A) : Result A := ok_or_onre o OnreError.MathOverflow.

(** [calculate_accrual_from_apr_delta]. *)
Definition calculate_accrual_from_apr_delta
    (previous_supply apr_delta current_yield seconds_elapsed : Z) : Result Z :=
  if (apr_delta =? 0) || (previous_supply =? 0) || (seconds_elapsed =? 0) then Ok 0
  else
    target_nav_growth_denominator ← math_overflow
      (v ← u128.checked_mul SECONDS_PER_YEAR YIELD_SCALE;
       g ← u128.checked_mul current_yield seconds_elapsed;
       u128.checked_add v g);
    numerator ← math_overflow
      (v ← u128.checked_mul previous_supply apr_delta; u128.checked_mul v seconds_elapsed);
    mint_amount ← math_overflow (u128.checked_div numerator target_nav_growth_denominator);
    _ ← require_onre (mint_amount <=? u64.MAX) OnreError.ResultOverflow;
    Ok mint_amount.

(** [calculate_gross_buffer_accrual]. *)
Definition calculate_gross_buffer_accrual
    (previous_supply gross_yield current_yield seconds_elapsed : Z) : Result Z :=
  let apr_delta := u64.saturating_sub gross_yield current_yield in
  calculate_accrual_from_apr_delta previous_supply apr_delta current_yield seconds_elapsed.

(** The management fee of [calculate_buffer_fee_split]. *)
Definition management_fee (buffer_mint_amount apr_delta management_fee_basis_points : Z)
  : Result Z :=
  if (apr_delta =? 0) || (buffer_mint_amount =? 0) then Ok 0
  else
    fee_apr ← math_overflow
      (u64.checked_mul management_fee_basis_points BASIS_POINT_TO_YIELD_SCALE);
    let management_fee_apr := Z.min fee_apr apr_delta in
    p ← math_overflow (u128.checked_mul buffer_mint_amount management_fee_apr);
    fee ← math_overflow (u128.checked_div p apr_delta);
    _ ← require_onre (fee <=? u64.MAX) OnreError.ResultOverflow;
    Ok fee.

(** The performance fee of [calculate_buffer_fee_split]. *)
Definition performance_fee (after_management performance_fee_basis_points current_nav hwm : Z)
    (hwm_enabled : bool) : Result Z :=
  if negb hwm_enabled || (negb (hwm =? 0) && (hwm <=? current_nav)) then
    p ← math_overflow (u128.checked_mul after_management performance_fee_basis_points);
    fee ← math_overflow (u128.checked_div p BASIS_POINTS_SCALE);
    _ ← require_onre (fee <=? u64.MAX) OnreError.ResultOverflow;
    Ok fee
  else Ok 0.

(** [calculate_buffer_fee_split]. *)
Definition calculate_buffer_fee_split
    (buffer_mint_amount apr_delta management_fee_basis_points performance_fee_basis_points
     current_nav performance_fee_high_watermark : Z)
    (performance_fee_high_watermark_enabled : bool) : Result BufferAccrualBreakdown :=
  management ← management_fee buffer_mint_amount apr_delta management_fee_basis_points;
  after_management ← math_overflow (u64.checked_sub buffer_mint_amount management);
  performance ← performance_fee after_management performance_fee_basis_points current_nav
    performance_fee_high_watermark performance_fee_high_watermark_enabled;
  reserve ← math_overflow (u64.checked_sub after_management performance);
  Ok (mkBufferAccrualBreakdown buffer_mint_amount reserve management performance
        (Z.max performance_fee_high_watermark current_nav)).

(** ** Burns ([burn_for_nav_increase.rs]) *)

(** [calculate_burn_amount]. *)
Definition calculate_burn_amount
    (circulating_supply asset_adjustment_amount nav_before_adjustment nav_after_adjustment : Z)
  : Result Z :=
  total_assets_before_burn ← map_err (calculate_tvl circulating_supply nav_before_adjustment)
    (fun _ => Onre OnreError.MathOverflow);
  _ ← require_onre (asset_adjustment_amount <=? total_assets_before_burn)
    OnreError.InvalidAssetAdjustmentAmount;
  nav_scale ← math_overflow (u128.checked_pow 10 PRICE_DECIMALS);
  let assets_after_adjustment := total_assets_before_burn - asset_adjustment_amount in
  scaled ← math_overflow (u128.checked_mul assets_after_adjustment nav_scale);
  required_supply_after ← math_overflow (ceil_div_u128 scaled nav_after_adjustment);
  _ ← require_onre (required_supply_after <=? circulating_supply) OnreError.InvalidBurnTarget;
  burn_amount ← math_overflow (u128.checked_sub circulating_supply required_supply_after);
  _ ← require_onre (0 <? burn_amount) OnreError.NoBurnNeeded;
  _ ← require_onre (burn_amount <=? u64.MAX) OnreError.ResultOverflow;
  Ok burn_amount.

(** ** Baseline *)

(** [set_buffer_baseline_after_supply_change]. *)
Definition set_buffer_baseline_after_supply_change
    (post_change_supply now : Z) (b : BufferState.t) : BufferState.t :=
  BufferState.with_last_accrual_timestamp now (BufferState.with_previous_supply post_change_supply b).

(** [BufferAccrualAccounts]. *)
Record BufferAccrualAccounts : Type := mkBufferAccrualAccounts {
  baa_buffer_state : Pubkey;
  baa_reserve_vault_onyc_account : Pubkey;
  baa_management_fee_vault_onyc_account : Pubkey;
  baa_performance_fee_vault_onyc_account : Pubkey
}.

(** [BufferAccrualResult]. *)
Record BufferAccrualResult : Type := mkBufferAccrualResult {
  bar_seconds_elapsed : Z;
  bar_apr_delta : Z;
  bar_buffer_mint_amount : Z;
  bar_reserve_mint_amount : Z;
  bar_management_fee_mint_amount : Z;
  bar_performance_fee_mint_amount : Z;
  bar_old_previous_supply : Z;
  bar_new_previous_supply : Z;
  bar_old_previous_performance_fee_high_watermark : Z;
  bar_new_performance_fee_high_watermark : Z;
  bar_timestamp : Z;
  bar_current_nav : Z;
  bar_post_accrual_supply : Z;
  bar_reserve_vault_balance_after_accrual : Z
}.

Section buffer.
Context {R : Runtime} {L : Type} {TL : TokenLedger L}.

Definition mint_authority_key : Pubkey := pda [seeds.MINT_AUTHORITY].
Definition reserve_vault_authority_key : Pubkey := pda [seeds.RESERVE_VAULT_AUTHORITY].
Definition vault_key (k : ConfigurableVaultKind.t) : Pubkey :=
  pda [seeds.CONFIGURABLE_VAULT; seeds.vault_seed k].

(** [BufferAccrualAccounts::load_buffer_state]. *)
Definition load_buffer_state : M L BufferState.t :=
  load_pda_account OnreError.InvalidOnycMint OnreError.InvalidOnycMint.

(** [BufferAccrualAccounts::store_buffer_state]. *)
Definition store_buffer_state (b : BufferState.t) : M L unit := store_pda_account b.

(** The [seeds] constraint of [BufferAccrualAccounts]. *)
Definition buffer_accrual_accounts (a : BufferAccrualAccounts) : M L unit :=
  constraint (key_eqb (baa_buffer_state a) (pda [seeds.BUFFER_STATE])) ConstraintSeeds.

(** [BufferAccrualAccounts::check_is_initialized]. *)
Definition check_is_initialized (a : BufferAccrualAccounts) : M L bool :=
  lift (require_keys_eq (baa_buffer_state a) (pda [seeds.BUFFER_STATE])
          OnreError.InvalidBufferStateAccount);;
  account ← gets buffer_state;
  match account with
  | SystemOwned _ | ForeignOwned | Undeserializable true => mret false
  | _ => _ ← load_buffer_state; mret true
  end.

(** [validate_buffer_onyc_vault_accounts]. *)
Definition validate_buffer_onyc_vault_accounts (b : BufferState.t)
    (reserve management performance : Pubkey) (onyc_mint : MintAccount) (token_program : Pubkey)
  : Result unit :=
  let ata authority := associated_token_address authority (mint_key onyc_mint) token_program in
  _ ← require_keys_eq (BufferState.onyc_mint b) (mint_key onyc_mint) OnreError.InvalidOnycMint;
  _ ← require_keys_eq reserve (ata reserve_vault_authority_key) OnreError.InvalidOnycMint;
  _ ← require_keys_eq management (ata (vault_key ConfigurableVaultKind.ManagementFee))
        OnreError.InvalidOnycMint;
  require_keys_eq performance (ata (vault_key ConfigurableVaultKind.PerformanceFee))
    OnreError.InvalidOnycMint.

(** [emit_buffer_accrued_event]. *)
Definition emit_buffer_accrued_event (offer : Offer.t) (onyc_mint : MintAccount)
    (r : BufferAccrualResult) : M L unit :=
  emit "BufferAccruedEvent"
    [("token_in_mint", FKey (Offer.token_in_mint offer));
     ("onyc_mint", FKey (mint_key onyc_mint));
     ("seconds_elapsed", FNum (bar_seconds_elapsed r));
     ("apr_delta", FNum (bar_apr_delta r));
     ("buffer_mint_amount", FNum (bar_buffer_mint_amount r));
     ("reserve_mint_amount", FNum (bar_reserve_mint_amount r));
     ("management_fee_mint_amount", FNum (bar_management_fee_mint_amount r));
     ("performance_fee_mint_amount", FNum (bar_performance_fee_mint_amount r));
     ("old_previous_supply", FNum (bar_old_previous_supply r));
     ("new_previous_supply", FNum (bar_new_previous_supply r));
     ("old_previous_performance_fee_high_watermark",
      FNum (bar_old_previous_performance_fee_high_watermark r));
     ("new_performance_fee_high_watermark", FNum (bar_new_performance_fee_high_watermark r));
     ("current_nav", FNum (bar_current_nav r));
     ("post_accrual_supply", FNum (bar_post_accrual_supply r));
     ("timestamp", FNum (bar_timestamp r))].

(** The mint loop of [accrue_buffer]. *)
Definition mint_split (st : State.t) (onyc_mint : MintAccount) (mint_authority token_program : Pubkey)
    (split : list (Pubkey * Z)) : M L unit :=
  for_each split (fun '(destination, amount) =>
    when (0 <? amount)
      (mint_tokens token_program onyc_mint destination mint_authority amount
         (State.max_supply st) (State.max_mint_amount st))).

(** [accrue_buffer]: the updated buffer state and the result. *)
Definition accrue_buffer (st : State.t) (b : BufferState.t) (offer : Offer.t)
    (onyc_mint : MintAccount) (reserve management performance mint_authority token_program : Pubkey)
    (now : Z) : M L (BufferState.t * BufferAccrualResult) :=
  guard (BufferState.last_accrual_timestamp b <=? now) OnreError.InvalidTimestamp;;
  '(active_vector, current_nav) ←
    lift (get_active_vector_and_current_price offer (u64.cast now));
  elapsed ← lift (panicking (i64.checked_sub now (BufferState.last_accrual_timestamp b)));
  let seconds_elapsed := u64.cast elapsed in
  let apr_delta := u64.saturating_sub (BufferState.gross_apr b) (OfferVector.apr active_vector) in
  let old_previous_supply := BufferState.previous_supply b in
  let current_supply_before_mint := supply onyc_mint in
  reserve_balance_before ← read_optional_token_account_amount reserve token_program;
  let old_hwm := BufferState.performance_fee_high_watermark b in
  if old_previous_supply =? 0 then
    let b' := set_buffer_baseline_after_supply_change current_supply_before_mint now
                (BufferState.with_performance_fee_high_watermark current_nav b) in
    let result := mkBufferAccrualResult seconds_elapsed apr_delta 0 0 0 0
      old_previous_supply (BufferState.previous_supply b') old_hwm
      (BufferState.performance_fee_high_watermark b') now current_nav
      (BufferState.previous_supply b') reserve_balance_before in
    emit_buffer_accrued_event offer onyc_mint result;;
    mret (b', result)
  else
    buffer_mint_amount ← lift (calculate_gross_buffer_accrual old_previous_supply
      (BufferState.gross_apr b) (OfferVector.apr active_vector) seconds_elapsed);
    split ← lift (calculate_buffer_fee_split buffer_mint_amount apr_delta
      (BufferState.management_fee_basis_points b) (BufferState.performance_fee_basis_points b)
      current_nav old_hwm (BufferState.performance_fee_high_watermark_enabled b));
    when (0 <? buffer_mint_amount)
      (lift (validate_max_supply current_supply_before_mint buffer_mint_amount
               (State.max_supply st));;
       when (0 <? State.max_mint_amount st)
         (guard (buffer_mint_amount <=? State.max_mint_amount st)
            OnreError.MaxMintAmountExceeded);;
       mint_split st onyc_mint mint_authority token_program
         [(reserve, bab_reserve_mint_amount split);
          (management, bab_management_fee_mint_amount split);
          (performance, bab_performance_fee_mint_amount split)]);;
    post_accrual_supply ←
      lift (math_overflow (u64.checked_add current_supply_before_mint buffer_mint_amount));
    reserve_balance_after ←
      lift (math_overflow (u64.checked_add reserve_balance_before (bab_reserve_mint_amount split)));
    let b' := set_buffer_baseline_after_supply_change post_accrual_supply now
                (BufferState.with_performance_fee_high_watermark
                   (bab_new_performance_fee_high_watermark split) b) in
    let result := mkBufferAccrualResult seconds_elapsed apr_delta
      (bab_buffer_mint_amount split) (bab_reserve_mint_amount split)
      (bab_management_fee_mint_amount split) (bab_performance_fee_mint_amount split)
      old_previous_supply (BufferState.previous_supply b') old_hwm
      (BufferState.performance_fee_high_watermark b') now current_nav
      post_accrual_supply reserve_balance_after in
    emit_buffer_accrued_event offer onyc_mint result;;
    mret (b', result).

(** [accrue_buffer_from_accounts]. *)
Definition accrue_buffer_from_accounts (st : State.t) (a : BufferAccrualAccounts)
    (offer : Offer.t) (onyc_mint : MintAccount) (mint_authority token_program : Pubkey)
  : M L BufferAccrualResult :=
  clock ← Clock_get;
  let now := Clock.unix_timestamp clock in
  b ← load_buffer_state;
  lift (validate_buffer_onyc_vault_accounts b (baa_reserve_vault_onyc_account a)
          (baa_management_fee_vault_onyc_account a) (baa_performance_fee_vault_onyc_account a)
          onyc_mint token_program);;
  '(b', result) ← accrue_buffer st b offer onyc_mint (baa_reserve_vault_onyc_account a)
    (baa_management_fee_vault_onyc_account a) (baa_performance_fee_vault_onyc_account a)
    mint_authority token_program now;
  store_buffer_state b';;
  mret result.

(** [store_buffer_post_supply]. *)
Definition store_buffer_post_supply (post_change_supply now : Z) : M L unit :=
  b ← load_buffer_state;
  store_buffer_state (set_buffer_baseline_after_supply_change post_change_supply now b).

(** ** Instructions *)

Definition not_killed (st : State.t) : M L unit :=
  guard (negb (State.is_killed st)) OnreError.KillSwitchActivated.

(** The accounts of the instructions that settle the buffer. *)
Record BufferCtx : Type := mkBufferCtx {
  bc_signer : Pubkey;
  bc_main_offer : Pubkey;
  bc_onyc_mint : Pubkey;
  bc_token_program : Pubkey;
  bc_buffer_accounts : BufferAccrualAccounts;
  bc_market_stats : Pubkey;
  bc_circulating_supply_excluded_balance : Pubkey
}.

(** [SettleBuffer]: a live program, its worker, the ONyc mint, the mint
    authority.  The constraint unwraps the mint's authority. *)
Definition SettleBuffer_accounts (ctx : BufferCtx) : M L MintAccount :=
  s ← gets state;
  guard (key_eqb (State.worker s) (bc_signer ctx)) OnreError.InvalidWorker;;
  has_one_onyc_mint (bc_onyc_mint ctx);;
  not_killed s;;
  guard (negb (key_eqb (State.main_offer s) Pubkey_default)) OnreError.InvalidMainOffer;;
  onyc_mint ← load_mint (bc_onyc_mint ctx);
  authority ← lift (panicking (Mint.mint_authority (mint_data onyc_mint)));
  guard (key_eqb authority mint_authority_key) OnreError.NoMintAuthority;;
  buffer_accrual_accounts (bc_buffer_accounts ctx);;
  mret onyc_mint.

(** Accrue, reload the mint and refresh the market stats: the sequence every
    buffer instruction performs. *)
Definition settle (ctx : BufferCtx) (st : State.t) (offer : Offer.t) (onyc_mint : MintAccount)
  : M L unit :=
  _ ← accrue_buffer_from_accounts st (bc_buffer_accounts ctx) offer onyc_mint
        mint_authority_key (bc_token_program ctx);
  onyc_mint ← reload onyc_mint;
  refresh_market_stats_pda offer onyc_mint (bc_circulating_supply_excluded_balance ctx)
    (bc_market_stats ctx) (bc_signer ctx).

(** [settle_buffer]. *)
Definition settle_buffer (ctx : BufferCtx) : M L unit :=
  onyc_mint ← SettleBuffer_accounts ctx;
  st ← gets state;
  offer ← load_main_offer (bc_main_offer ctx) st;
  settle ctx st offer onyc_mint.

(** [SetBufferGrossYield] and [SetBufferFeeConfig]: the boss, a live program. *)
Definition SetBuffer_accounts (ctx : BufferCtx) : M L (Offer.t * MintAccount) :=
  s ← gets state;
  has_one_boss (bc_signer ctx);;
  has_one_onyc_mint (bc_onyc_mint ctx);;
  not_killed s;;
  guard (key_eqb (bc_main_offer ctx) (State.main_offer s)) OnreError.InvalidMainOffer;;
  offer ← load_account offers (bc_main_offer ctx);
  onyc_mint ← load_mint (bc_onyc_mint ctx);
  guard (program_controls_mint onyc_mint mint_authority_key) OnreError.NoMintAuthority;;
  buffer_accrual_accounts (bc_buffer_accounts ctx);;
  constraint (key_eqb (bc_market_stats ctx) (pda [seeds.MARKET_STATS])) ConstraintSeeds;;
  mret (offer, onyc_mint).
Definition SetBufferGrossYield_accounts := SetBuffer_accounts.
Definition SetBufferFeeConfig_accounts := SetBuffer_accounts.

(** [set_buffer_gross_apr]. *)
Definition set_buffer_gross_apr (ctx : BufferCtx) (gross_yield : Z) : M L unit :=
  '(offer, onyc_mint) ← SetBufferGrossYield_accounts ctx;
  st ← gets state;
  guard (gross_yield <=? MAX_BUFFER_GROSS_APR) OnreError.InvalidAPR;;
  b ← load_buffer_state;
  guard (negb (BufferState.gross_apr b =? gross_yield)) OnreError.NoChange;;
  lift (require_keys_eq (mint_key onyc_mint) (Offer.token_out_mint offer)
          OnreError.InvalidTokenOutMint);;
  settle ctx st offer onyc_mint;;
  b ← load_buffer_state;
  store_buffer_state (BufferState.with_gross_apr gross_yield b);;
  emit "BufferGrossYieldUpdatedEvent" [("gross_yield", FNum gross_yield)].

(** [set_buffer_fee_config]. *)
Definition set_buffer_fee_config (ctx : BufferCtx)
    (management_bps performance_bps : Z) (hwm_enabled : bool) : M L unit :=
  '(offer, onyc_mint) ← SetBufferFeeConfig_accounts ctx;
  st ← gets state;
  guard (management_bps <=? MAX_BASIS_POINTS) OnreError.InvalidFee;;
  guard (performance_bps <=? MAX_BASIS_POINTS) OnreError.InvalidFee;;
  b ← load_buffer_state;
  let old_management := BufferState.management_fee_basis_points b in
  let old_performance := BufferState.performance_fee_basis_points b in
  let old_enabled := BufferState.performance_fee_high_watermark_enabled b in
  guard (negb (old_management =? management_bps) || negb (old_performance =? performance_bps)
         || negb (Bool.eqb old_enabled hwm_enabled)) OnreError.NoChange;;
  lift (require_keys_eq (mint_key onyc_mint) (Offer.token_out_mint offer)
          OnreError.InvalidTokenOutMint);;
  settle ctx st offer onyc_mint;;
  b ← load_buffer_state;
  store_buffer_state
    (BufferState.with_performance_fee_high_watermark_enabled hwm_enabled
      (BufferState.with_performance_fee_basis_points performance_bps
        (BufferState.with_management_fee_basis_points management_bps b)));;
  emit "BufferFeeConfigUpdatedEvent"
    [("old_management_fee_basis_points", FNum old_management);
     ("new_management_fee_basis_points", FNum management_bps);
     ("old_performance_fee_basis_points", FNum old_performance);
     ("new_performance_fee_basis_points", FNum performance_bps);
     ("old_performance_fee_high_watermark_enabled", FBool old_enabled);
     ("new_performance_fee_high_watermark_enabled", FBool hwm_enabled)].

(** [associated_token::mint/authority/token_program] on an existing account. *)
Definition ata_account (key authority mint token_program : Pubkey) : M L TokenAccountInfo :=
  constraint (key_eqb key (associated_token_address authority mint token_program))
    ConstraintAssociated;;
  load_token_account key.

(** [Account<'info, ConfigurableVault>] at the address of kind [k]. *)
Definition load_vault (k : ConfigurableVaultKind.t) : M L ConfigurableVault.t :=
  v ← load_account vaults (vault_key k);
  lift (ok_or v (Anchor AccountDiscriminatorMismatch)).

(** A configurable vault of the given kind. *)
Definition vault_account (k : ConfigurableVaultKind.t) : M L ConfigurableVault.t :=
  v ← load_vault k;
  guard (ConfigurableVault.kind v =? ConfigurableVaultKind.as_u8 k)
    OnreError.InvalidConfigurableVaultKind;;
  mret v.

(** [BurnForNavIncrease]. *)
Definition BurnForNavIncrease_accounts (ctx : BufferCtx)
  : M L (BufferState.t * Offer.t * MintAccount) :=
  let a := bc_buffer_accounts ctx in
  s ← gets state;
  has_one_boss (bc_signer ctx);;
  has_one_onyc_mint (bc_onyc_mint ctx);;
  not_killed s;;
  buffer_accrual_accounts a;;
  b ← anchor_account (T := BufferState.t);
  main_offer ← load_account offers (bc_main_offer ctx);
  onyc_mint ← load_mint (bc_onyc_mint ctx);
  _ ← load_token_account (baa_reserve_vault_onyc_account a);
  _ ← vault_account ConfigurableVaultKind.ManagementFee;
  _ ← ata_account (baa_management_fee_vault_onyc_account a)
        (vault_key ConfigurableVaultKind.ManagementFee) (bc_onyc_mint ctx) (bc_token_program ctx);
  _ ← vault_account ConfigurableVaultKind.PerformanceFee;
  _ ← ata_account (baa_performance_fee_vault_onyc_account a)
        (vault_key ConfigurableVaultKind.PerformanceFee) (bc_onyc_mint ctx) (bc_token_program ctx);
  guard (program_controls_mint onyc_mint mint_authority_key) OnreError.NoMintAuthority;;
  constraint (key_eqb (bc_market_stats ctx) (pda [seeds.MARKET_STATS])) ConstraintSeeds;;
  mret (b, main_offer, onyc_mint).

(** [burn_for_nav_increase]; the buffer account is written back when the
    instruction ends. *)
Definition burn_for_nav_increase (ctx : BufferCtx) (asset_adjustment_amount : Z) : M L unit :=
  let a := bc_buffer_accounts ctx in
  '(b, main_offer, onyc_mint) ← BurnForNavIncrease_accounts ctx;
  st ← gets state;
  clock ← Clock_get;
  let now := Clock.unix_timestamp clock in
  lift (require_keys_eq (bc_main_offer ctx) (State.main_offer st) OnreError.InvalidMainOffer);;
  lift (require_keys_eq (mint_key onyc_mint) (Offer.token_out_mint main_offer)
          OnreError.InvalidTokenOutMint);;
  quoted_nav ← lift (compute_offer_current_price main_offer (u64.cast now));
  guard (0 <? quoted_nav) OnreError.InvalidTargetNav;;
  lift (require_keys_eq (baa_reserve_vault_onyc_account a)
          (associated_token_address reserve_vault_authority_key (mint_key onyc_mint)
             (bc_token_program ctx)) OnreError.InvalidOnycMint);;
  '(b', accrual) ← accrue_buffer st b main_offer onyc_mint (baa_reserve_vault_onyc_account a)
    (baa_management_fee_vault_onyc_account a) (baa_performance_fee_vault_onyc_account a)
    mint_authority_key (bc_token_program ctx) now;
  let current_nav := bar_current_nav accrual in
  let post_accrual_supply := bar_post_accrual_supply accrual in
  excluded_amount ← load_circulating_supply_excluded_balance_amount
    (bc_circulating_supply_excluded_balance ctx);
  circulating_supply ← lift (calculate_circulating_supply post_accrual_supply excluded_amount);
  total_assets_before_burn ← lift (map_err (calculate_tvl circulating_supply current_nav)
    (fun _ => Onre OnreError.MathOverflow));
  burn_amount ← lift (calculate_burn_amount circulating_supply asset_adjustment_amount
    current_nav quoted_nav);
  guard (burn_amount <=? bar_reserve_vault_balance_after_accrual accrual)
    OnreError.InsufficientCacheBalance;;
  burn_tokens (bc_token_program ctx) onyc_mint (baa_reserve_vault_onyc_account a)
    reserve_vault_authority_key burn_amount;;
  post_burn_supply ← lift (math_overflow (u64.checked_sub post_accrual_supply burn_amount));
  let b'' := set_buffer_baseline_after_supply_change post_burn_supply now b' in
  onyc_mint ← reload onyc_mint;
  refresh_market_stats_pda main_offer onyc_mint (bc_circulating_supply_excluded_balance ctx)
    (bc_market_stats ctx) (bc_signer ctx);;
  store_buffer_state b'';;
  emit "BufferBurnedForNavEvent"
    [("burn_amount", FNum burn_amount);
     ("asset_adjustment_amount", FNum asset_adjustment_amount);
     ("total_assets", FNum total_assets_before_burn); ("target_nav", FNum quoted_nav)].

(** ** Setup and the reserve vault *)

(** [init_fee_vault]. *)
Definition init_fee_vault (kind : ConfigurableVaultKind.t) (bump : Z) (v : ConfigurableVault.t)
  : Result ConfigurableVault.t :=
  let v :=
    if (ConfigurableVault.kind v =? 0)
       && key_eqb (ConfigurableVault.withdrawal_destination v) Pubkey_default
       && (ConfigurableVault.bump v =? 0)
    then ConfigurableVault.with_bump bump
           (ConfigurableVault.with_kind (ConfigurableVaultKind.as_u8 kind) v)
    else v in
  _ ← require_onre (ConfigurableVault.kind v =? ConfigurableVaultKind.as_u8 kind)
    OnreError.InvalidConfigurableVaultKind;
  Ok v.

(** [init_if_needed] of a configurable vault: a new account is zeroed. *)
Definition init_if_needed_vault (k : ConfigurableVaultKind.t) (payer : Pubkey)
  : M L ConfigurableVault.t :=
  vs ← gets vaults;
  match vs !! vault_key k with
  | Some (Some v) => mret v
  | Some None => fail (Anchor AccountDiscriminatorMismatch)
  | None =>
      if create_account_succeeds payer (vault_key k)
      then mret (ConfigurableVault.mk 0 Pubkey_default 0)
      else fail CpiError
  end.

Definition store_vault (k : ConfigurableVaultKind.t) (v : ConfigurableVault.t) : M L unit :=
  modify (fun w => set_vaults (<[vault_key k := Some v]> (vaults w)) w).

(** [initialize_buffer]: [init] needs a buffer PDA that does not exist yet. *)
Definition initialize_buffer (boss onyc_mint_key main_offer reserve management performance
    token_program : Pubkey) : M L unit :=
  has_one_boss boss;;
  has_one_onyc_mint onyc_mint_key;;
  st ← gets state;
  account ← gets buffer_state;
  match account with SystemOwned true => mret tt | _ => fail CpiError end;;
  when (negb (create_account_succeeds boss (pda [seeds.BUFFER_STATE]))) (fail CpiError);;
  let b := BufferState.mk Pubkey_default 0 0 0 0 0 false 0 0 in
  management_vault ← init_if_needed_vault ConfigurableVaultKind.ManagementFee boss;
  performance_vault ← init_if_needed_vault ConfigurableVaultKind.PerformanceFee boss;
  onyc_mint ← load_mint onyc_mint_key;
  guard (key_eqb main_offer (State.main_offer st)) OnreError.InvalidMainOffer;;
  offer ← load_account offers main_offer;
  init_if_needed_ata reserve reserve_vault_authority_key onyc_mint_key token_program;;
  init_if_needed_ata management (vault_key ConfigurableVaultKind.ManagementFee) onyc_mint_key
    token_program;;
  init_if_needed_ata performance (vault_key ConfigurableVaultKind.PerformanceFee) onyc_mint_key
    token_program;;
  clock ← Clock_get;
  let now := Clock.unix_timestamp clock in
  lift (require_keys_eq onyc_mint_key (Offer.token_out_mint offer) OnreError.InvalidTokenOutMint);;
  store_buffer_state
    (BufferState.with_bump (pda_bump [seeds.BUFFER_STATE])
      (BufferState.with_last_accrual_timestamp now
        (BufferState.with_performance_fee_high_watermark_enabled true
          (BufferState.with_onyc_mint onyc_mint_key b))));;
  management_vault ← lift (init_fee_vault ConfigurableVaultKind.ManagementFee
    (pda_bump [seeds.CONFIGURABLE_VAULT; seeds.vault_seed ConfigurableVaultKind.ManagementFee])
    management_vault);
  store_vault ConfigurableVaultKind.ManagementFee management_vault;;
  performance_vault ← lift (init_fee_vault ConfigurableVaultKind.PerformanceFee
    (pda_bump [seeds.CONFIGURABLE_VAULT; seeds.vault_seed ConfigurableVaultKind.PerformanceFee])
    performance_vault);
  store_vault ConfigurableVaultKind.PerformanceFee performance_vault;;
  emit "BufferInitializedEvent"
    [("buffer_state", FKey (pda [seeds.BUFFER_STATE])); ("onyc_mint", FKey onyc_mint_key);
     ("main_offer", FKey main_offer); ("timestamp", FNum now)].

(** [deposit_reserve_vault]. *)
Definition deposit_reserve_vault (depositor onyc_mint_key depositor_account reserve token_program
    : Pubkey) (amount : Z) : M L unit :=
  has_one_onyc_mint onyc_mint_key;;
  st ← gets state;
  not_killed st;;
  b ← anchor_account (T := BufferState.t);
  constraint (key_eqb (BufferState.onyc_mint b) onyc_mint_key) ConstraintHasOne;;
  onyc_mint ← load_mint onyc_mint_key;
  _ ← ata_account depositor_account depositor onyc_mint_key token_program;
  init_if_needed_ata reserve reserve_vault_authority_key onyc_mint_key token_program;;
  guard (negb (has_transfer_fee onyc_mint)) OnreError.TransferFeeNotSupported;;
  transfer_tokens onyc_mint token_program depositor_account reserve depositor amount;;
  emit "ReserveVaultDepositedEvent"
    [("amount", FNum amount); ("mint", FKey onyc_mint_key); ("depositor", FKey depositor)].

(** [withdraw_reserve_vault]: only the boss, to the boss's own account. *)
Definition withdraw_reserve_vault (boss onyc_mint_key boss_account reserve token_program : Pubkey)
    (amount : Z) : M L unit :=
  has_one_boss boss;;
  has_one_onyc_mint onyc_mint_key;;
  st ← gets state;
  not_killed st;;
  b ← anchor_account (T := BufferState.t);
  constraint (key_eqb (BufferState.onyc_mint b) onyc_mint_key) ConstraintHasOne;;
  onyc_mint ← load_mint onyc_mint_key;
  init_if_needed_ata boss_account boss onyc_mint_key token_program;;
  _ ← ata_account reserve reserve_vault_authority_key onyc_mint_key token_program;
  guard (negb (has_transfer_fee onyc_mint)) OnreError.TransferFeeNotSupported;;
  transfer_tokens onyc_mint token_program reserve boss_account reserve_vault_authority_key amount;;
  emit "ReserveVaultWithdrawnEvent"
    [("amount", FNum amount); ("mint", FKey onyc_mint_key); ("boss", FKey boss)].

End buffer.
