(* ===== verification/Vaults.v ===== *)
(** * Vaults

    [src/instructions/configurable_vault/] (fee and proceeds vaults with a
    boss-chosen destination) and [src/instructions/vault_operations/] (deposits
    into and withdrawals from the offer and redemption vaults). *)

From S2P Require Import World TokenUtils OfferHandlers MarketInfo Buffer.
Open Scope string_scope.
Open Scope Z_scope.

Section vaults.
Context {R : Runtime} {L : Type} {TL : TokenLedger L}.

(** [ConfigurableVaultInit::<KIND>::init_value] as serialized. *)
Definition ConfigurableVaultInit_value (k : ConfigurableVaultKind.t) (bump : Z)
  : ConfigurableVault.t :=
  ConfigurableVault.mk (ConfigurableVaultKind.as_u8 k) Pubkey_default bump.

(** [ConfigurableVaultInit::<KIND>::try_deserialize]; [load_or_init_pda_account]
    turns its failure into [InvalidConfigurableVaultData]. *)
Definition ConfigurableVaultInit_deserialize (k : ConfigurableVaultKind.t)
    (v : ConfigurableVault.t) : Result ConfigurableVault.t :=
  if ConfigurableVault.kind v =? ConfigurableVaultKind.as_u8 k then Ok v
  else Err (Onre OnreError.InvalidConfigurableVaultData).

(** [get_or_create_configurable_vault_token_account::<KIND>]: a missing or zeroed
    vault is initialized and stored, an existing one must be of the kind. *)
Definition get_or_create_configurable_vault_token_account (k : ConfigurableVaultKind.t)
    (vault token_account payer mint token_program : Pubkey) : M L TokenAccountInfo :=
  lift (require_keys_eq (vault_key k) vault OnreError.InvalidConfigurableVault);;
  let vault_bump := pda_bump [seeds.CONFIGURABLE_VAULT; seeds.vault_seed k] in
  vs ← gets vaults;
  match vs !! vault with
  | Some None => store_vault k (ConfigurableVaultInit_value k vault_bump)
  | None =>
      if create_account_succeeds payer vault
      then store_vault k (ConfigurableVaultInit_value k vault_bump)
      else fail CpiError
  | Some (Some v) => _ ← lift (ConfigurableVaultInit_deserialize k v); mret tt
  end;;
  get_or_create_associated_token_account token_account vault mint token_program
    OnreError.InvalidConfigurableVaultTokenAccount.

(** [get_or_create_configurable_vault_token_account_pair]. *)
Definition get_or_create_configurable_vault_token_account_pair
    (k1 k2 : ConfigurableVaultKind.t) (vault1 account1 vault2 account2 : Pubkey)
    (payer mint token_program : Pubkey) : M L (TokenAccountInfo * TokenAccountInfo) :=
  first ← get_or_create_configurable_vault_token_account k1 vault1 account1 payer mint
    token_program;
  second ← get_or_create_configurable_vault_token_account k2 vault2 account2 payer mint
    token_program;
  mret (first, second).

(** [set_configurable_vault_destination]. *)
Definition set_configurable_vault_destination (boss : Pubkey) (k : ConfigurableVaultKind.t)
    (withdrawal_destination : Pubkey) : M L unit :=
  s ← gets state;
  guard (key_eqb (State.boss s) boss) OnreError.Unauthorized;;
  v ← init_if_needed_vault k boss;
  v ← lift (init_fee_vault k (pda_bump [seeds.CONFIGURABLE_VAULT; seeds.vault_seed k]) v);
  let old_destination := ConfigurableVault.withdrawal_destination v in
  guard (negb (key_eqb old_destination withdrawal_destination)) OnreError.NoChange;;
  store_vault k (ConfigurableVault.with_withdrawal_destination withdrawal_destination v);;
  emit "ConfigurableVaultDestinationUpdatedEvent"
    [("kind", FNum (ConfigurableVaultKind.as_u8 k)); ("old_destination", FKey old_destination);
     ("new_destination", FKey withdrawal_destination)].

(** [withdraw_configurable_vault]: anyone may trigger it, the tokens go to the
    configured destination; 0 withdraws everything. *)
Definition withdraw_configurable_vault (k : ConfigurableVaultKind.t)
    (vault_token_account destination destination_token_account mint_k token_program : Pubkey)
    (amount : Z) : M L unit :=
  s ← gets state;
  not_killed s;;
  v ← vault_account k;
  vault_account ← ata_account vault_token_account (vault_key k) mint_k token_program;
  guard (key_eqb destination (ConfigurableVault.withdrawal_destination v))
    OnreError.InvalidFeeRecipient;;
  init_if_needed_ata destination_token_account destination mint_k token_program;;
  mint ← load_mint mint_k;
  guard (negb (has_transfer_fee mint)) OnreError.TransferFeeNotSupported;;
  guard (negb (key_eqb (ConfigurableVault.withdrawal_destination v) Pubkey_default))
    OnreError.MissingConfigurableVaultDestination;;
  let vault_balance := TokenAccount.amount (ta_data vault_account) in
  let effective_amount := if amount =? 0 then vault_balance else amount in
  guard (0 <? effective_amount) OnreError.ZeroBalance;;
  guard (effective_amount <=? vault_balance) OnreError.InsufficientBalance;;
  transfer_tokens mint token_program vault_token_account destination_token_account (vault_key k)
    effective_amount;;
  emit "ConfigurableVaultWithdrawnEvent"
    [("kind", FNum (ConfigurableVaultKind.as_u8 k)); ("mint", FKey mint_k);
     ("destination", FKey (ConfigurableVault.withdrawal_destination v));
     ("amount", FNum effective_amount)].

(** ** Offer and redemption vaults *)

Record VaultTransfer : Type := mkVaultTransfer {
  vt_signer : Pubkey;
  vt_mint : Pubkey;
  vt_signer_account : Pubkey;
  vt_vault_account : Pubkey;
  vt_token_program : Pubkey
}.

(** The deposit into the vault of [authority], common to both vaults. *)
Definition vault_deposit (event : string) (authority : Pubkey) (ctx : VaultTransfer) (amount : Z)
  : M L unit :=
  s ← gets state;
  not_killed s;;
  mint ← load_mint (vt_mint ctx);
  _ ← ata_account (vt_signer_account ctx) (vt_signer ctx) (vt_mint ctx) (vt_token_program ctx);
  init_if_needed_ata (vt_vault_account ctx) authority (vt_mint ctx) (vt_token_program ctx);;
  guard (negb (has_transfer_fee mint)) OnreError.TransferFeeNotSupported;;
  transfer_tokens mint (vt_token_program ctx) (vt_signer_account ctx) (vt_vault_account ctx)
    (vt_signer ctx) amount;;
  emit event [("mint", FKey (vt_mint ctx)); ("amount", FNum amount);
              ("depositor", FKey (vt_signer ctx))].

(** The withdrawal from the vault of [authority] to the boss. *)
Definition vault_withdraw (event : string) (authority : Pubkey) (ctx : VaultTransfer) (amount : Z)
  : M L unit :=
  s ← gets state;
  mint ← load_mint (vt_mint ctx);
  init_if_needed_ata (vt_signer_account ctx) (vt_signer ctx) (vt_mint ctx) (vt_token_program ctx);;
  _ ← ata_account (vt_vault_account ctx) authority (vt_mint ctx) (vt_token_program ctx);
  has_one_boss (vt_signer ctx);;
  not_killed s;;
  guard (negb (has_transfer_fee mint)) OnreError.TransferFeeNotSupported;;
  transfer_tokens mint (vt_token_program ctx) (vt_vault_account ctx) (vt_signer_account ctx)
    authority amount;;
  emit event [("mint", FKey (vt_mint ctx)); ("amount", FNum amount);
              ("boss", FKey (vt_signer ctx))].

(** [offer_vault_deposit], [offer_vault_withdraw]. *)
Definition offer_vault_deposit : VaultTransfer -> Z -> M L unit :=
  vault_deposit "OfferVaultDepositEvent" (pda [seeds.OFFER_VAULT_AUTHORITY]).
Definition offer_vault_withdraw : VaultTransfer -> Z -> M L unit :=
  vault_withdraw "OfferVaultWithdrawEvent" (pda [seeds.OFFER_VAULT_AUTHORITY]).

(** [redemption_vault_deposit], [redemption_vault_withdraw]. *)
Definition redemption_vault_deposit : VaultTransfer -> Z -> M L unit :=
  vault_deposit "RedemptionVaultDepositEvent" (pda [seeds.REDEMPTION_OFFER_VAULT_AUTHORITY]).
Definition redemption_vault_withdraw : VaultTransfer -> Z -> M L unit :=
  vault_withdraw "RedemptionVaultWithdrawEvent" (pda [seeds.REDEMPTION_OFFER_VAULT_AUTHORITY]).

(** ** Mint authority ([src/instructions/mint_authority/]) *)

(** [transfer_mint_authority_to_program]. *)
Definition transfer_mint_authority_to_program (boss mint_k token_program : Pubkey) : M L unit :=
  has_one_boss boss;;
  mint ← load_mint mint_k;
  authority ← lift (panicking (Mint.mint_authority (mint_data mint)));
  guard (key_eqb authority boss) OnreError.BossNotMintAuthority;;
  invoke (set_mint_authority token_program mint_k boss mint_authority_key);;
  emit "MintAuthorityTransferredToProgramEvent"
    [("mint", FKey mint_k); ("old_authority", FKey boss);
     ("new_authority", FKey mint_authority_key)].

(** [transfer_mint_authority_to_boss]. *)
Definition transfer_mint_authority_to_boss (boss mint_k token_program : Pubkey) : M L unit :=
  has_one_boss boss;;
  mint ← load_mint mint_k;
  authority ← lift (panicking (Mint.mint_authority (mint_data mint)));
  guard (key_eqb authority mint_authority_key) OnreError.ProgramNotMintAuthority;;
  invoke (set_mint_authority token_program mint_k mint_authority_key boss);;
  emit "MintAuthorityTransferredToBossEvent"
    [("mint", FKey mint_k); ("old_authority", FKey mint_authority_key);
     ("new_authority", FKey boss)].

(** [is_onyc_token_out_mint] and [should_accrue_onyc_mint] of [offer_utils.rs]. *)
Definition is_onyc_token_out_mint (st : State.t) (token_out_mint : MintAccount) : bool :=
  key_eqb (mint_key token_out_mint) (State.onyc_mint st).
Definition should_accrue_onyc_mint (st : State.t) (token_out_mint : MintAccount)
    (buffer_is_initialized : bool) (mint_authority : Pubkey) : bool :=
  is_onyc_token_out_mint st token_out_mint && buffer_is_initialized
  && program_controls_mint token_out_mint mint_authority.

(** [MintTo]. *)
Definition MintTo_accounts (ctx : BufferCtx) (boss_onyc_account : Pubkey) : M L MintAccount :=
  s ← gets state;
  has_one_boss (bc_signer ctx);;
  has_one_onyc_mint (bc_onyc_mint ctx);;
  not_killed s;;
  guard (negb (key_eqb (State.main_offer s) Pubkey_default)) OnreError.InvalidMainOffer;;
  onyc_mint ← load_mint (bc_onyc_mint ctx);
  init_if_needed_ata boss_onyc_account (bc_signer ctx) (bc_onyc_mint ctx) (bc_token_program ctx);;
  authority ← lift (panicking (Mint.mint_authority (mint_data onyc_mint)));
  guard (key_eqb authority mint_authority_key) OnreError.NoMintAuthority;;
  buffer_accrual_accounts (bc_buffer_accounts ctx);;
  mret onyc_mint.

(** [mint_to]. *)
Definition mint_to (ctx : BufferCtx) (boss_onyc_account : Pubkey) (amount : Z) : M L unit :=
  onyc_mint ← MintTo_accounts ctx boss_onyc_account;
  st ← gets state;
  offer ← load_main_offer (bc_main_offer ctx) st;
  buffer_is_initialized ← check_is_initialized (bc_buffer_accounts ctx);
  accrual ←
    (if should_accrue_onyc_mint st onyc_mint buffer_is_initialized mint_authority_key
     then r ← accrue_buffer_from_accounts st (bc_buffer_accounts ctx) offer onyc_mint
                mint_authority_key (bc_token_program ctx);
          mret (Some r)
     else mret None);
  onyc_mint ← (match accrual with Some _ => reload onyc_mint | None => mret onyc_mint end);
  mint_tokens (bc_token_program ctx) onyc_mint boss_onyc_account mint_authority_key amount
    (State.max_supply st) (State.max_mint_amount st);;
  match accrual with
  | Some r =>
      post_mint_supply ← lift (math_overflow (u64.checked_add (bar_post_accrual_supply r) amount));
      store_buffer_post_supply post_mint_supply (bar_timestamp r)
  | None => mret tt
  end;;
  onyc_mint ← reload onyc_mint;
  refresh_market_stats_pda offer onyc_mint (bc_circulating_supply_excluded_balance ctx)
    (bc_market_stats ctx) (bc_signer ctx);;
  emit "OnycTokensMintedEvent"
    [("onyc_mint", FKey (bc_onyc_mint ctx)); ("boss", FKey (bc_signer ctx));
     ("amount", FNum amount)].

End vaults.
