(* ===== verification/Redemption.v ===== *)
(** * Redemptions

    [src/instructions/redemption/]: redemption offers, the queue of redemption
    requests (created by users, cancelled by the redeemer, the worker or the
    boss, fulfilled in full or in part by the worker) and the payout they share
    with the prop AMM. *)

From S2P Require Import World MathUtils OfferPricing TokenUtils OfferHandlers MarketInfo Buffer Vaults.
Open Scope string_scope.
Open Scope Z_scope.

(** ** Payout ([redemption_utils.rs]) *)

(** [RedemptionProcessResult]. *)
Record RedemptionProcessResult : Type := mkRedemptionProcessResult {
  rpr_price : Z;
  rpr_token_in_net_amount : Z;
  rpr_token_in_fee_amount : Z;
  rpr_token_out_amount : Z
}.

(** The fee of [process_redemption_core]: the proportional fee, or the minimum
    when that is larger. *)
Definition redemption_fees (token_in_amount fee_basis_points minimum_fee : Z)
  : Result CalculateFeeResult :=
  fee_amounts ← calculate_fees token_in_amount fee_basis_points;
  if token_in_fee_amount fee_amounts <? minimum_fee then
    _ ← require_onre (minimum_fee <=? token_in_amount) OnreError.InvalidAmount;
    net ← ok_or_onre (u64.checked_sub token_in_amount minimum_fee) OnreError.MathOverflow;
    Ok (mkCalculateFeeResult minimum_fee net)
  else Ok fee_amounts.

(** The payout of [process_redemption_core] for a net amount at a price. *)
Definition redemption_payout (net price token_in_decimals token_out_decimals : Z) : Result Z :=
  value ← overflow (u128.checked_mul net price);
  out_scale ← panicking (u128.checked_pow 10 token_out_decimals);
  numerator ← overflow (u128.checked_mul value out_scale);
  in_scale ← panicking (u128.checked_pow 10 token_in_decimals);
  price_scale ← panicking (u128.checked_pow 10 PRICE_DECIMALS);
  denominator ← overflow (u128.checked_mul in_scale price_scale);
  result ← panicking (u128.checked_div numerator denominator);
  _ ← require_onre (result <=? u64.MAX) OnreError.OverflowError;
  _ ← require_onre (0 <? result) OnreError.InvalidAmount;
  Ok result.

(** [process_redemption_core]. *)
Definition process_redemption_core (offer : Offer.t) (current_time token_in_amount : Z)
    (token_in_mint token_out_mint : MintAccount) (redemption_fee_basis_points minimum_fee : Z)
  : Result RedemptionProcessResult :=
  current_price ← compute_offer_current_price offer current_time;
  fee_amounts ← redemption_fees token_in_amount redemption_fee_basis_points minimum_fee;
  token_out_amount ← redemption_payout (token_in_net_amount fee_amounts) current_price
    (decimals token_in_mint) (decimals token_out_mint);
  Ok (mkRedemptionProcessResult current_price (token_in_net_amount fee_amounts)
        (token_in_fee_amount fee_amounts) token_out_amount).

(** [ExecuteRedemptionOpsParams]. *)
Module ExecuteRedemptionOpsParams.
Record t : Type := mk {
  token_in_program : Pubkey;
  token_out_program : Pubkey;
  token_in_mint : MintAccount;
  token_in_net_amount : Z;
  token_in_fee_amount : Z;
  vault_token_in_account : Pubkey;
  token_in_destination_account : Pubkey;
  fee_destination_token_in_account : Pubkey;
  redemption_vault_authority : Pubkey;
  token_out_mint : MintAccount;
  token_out_amount : Z;
  vault_token_out_account : Pubkey;
  user_token_out_account : Pubkey;
  mint_authority_pda : Pubkey
}.
End ExecuteRedemptionOpsParams.

Section redemption.
Context {R : Runtime} {L : Type} {TL : TokenLedger L}.

Section ops.
Import ExecuteRedemptionOpsParams.

(** [execute_redemption_operations]. *)
Definition execute_redemption_operations (params : ExecuteRedemptionOpsParams.t) : M L unit :=
  guard (negb (has_transfer_fee (token_in_mint params))) OnreError.TransferFeeNotSupported;;
  guard (negb (has_transfer_fee (token_out_mint params))) OnreError.TransferFeeNotSupported;;
  (if program_controls_mint (token_in_mint params) (mint_authority_pda params)
   then burn_tokens (token_in_program params) (token_in_mint params)
          (vault_token_in_account params) (redemption_vault_authority params)
          (token_in_net_amount params)
   else transfer_tokens (token_in_mint params) (token_in_program params)
          (vault_token_in_account params) (token_in_destination_account params)
          (redemption_vault_authority params) (token_in_net_amount params));;
  when (0 <? token_in_fee_amount params)
    (transfer_tokens (token_in_mint params) (token_in_program params)
       (vault_token_in_account params) (fee_destination_token_in_account params)
       (redemption_vault_authority params) (token_in_fee_amount params));;
  transfer_tokens (token_out_mint params) (token_out_program params)
    (vault_token_out_account params) (user_token_out_account params)
    (redemption_vault_authority params) (token_out_amount params).
End ops.

(** ** Addresses and accounts *)

Definition redemption_offer_seeds (token_in_mint token_out_mint : Pubkey) : list Seed :=
  [seeds.REDEMPTION_OFFER; SeedKey token_in_mint; SeedKey token_out_mint].
Definition redemption_offer_pda (token_in_mint token_out_mint : Pubkey) : Pubkey :=
  pda (redemption_offer_seeds token_in_mint token_out_mint).
Definition redemption_request_seeds (redemption_offer : Pubkey) (id : Z) : list Seed :=
  [seeds.REDEMPTION_REQUEST; SeedKey redemption_offer; SeedU64 id].
Definition redemption_request_pda (redemption_offer : Pubkey) (id : Z) : Pubkey :=
  pda (redemption_request_seeds redemption_offer id).
Definition redemption_vault_authority_key : Pubkey := pda [seeds.REDEMPTION_OFFER_VAULT_AUTHORITY].

Definition store_redemption_offer (k : Pubkey) (o : RedemptionOffer.t) : M L unit :=
  modify (fun w => set_redemption_offers (<[k := o]> (redemption_offers w)) w).
Definition store_redemption_request (k : Pubkey) (r : RedemptionRequest.t) : M L unit :=
  modify (fun w => set_redemption_requests (<[k := r]> (redemption_requests w)) w).
(** [redemption_request.close(destination)]. *)
Definition close_redemption_request (k : Pubkey) : M L unit :=
  modify (fun w => set_redemption_requests (delete k (redemption_requests w)) w).

(** [Account<RedemptionOffer>] with the [seeds] constraint over the stored mints. *)
Definition redemption_offer_account (k : Pubkey) : M L RedemptionOffer.t :=
  o ← load_account redemption_offers k;
  constraint (key_eqb k (redemption_offer_pda (RedemptionOffer.token_in_mint o)
                           (RedemptionOffer.token_out_mint o))) ConstraintSeeds;;
  mret o.

(** [load_optional_checked_redemption_offer]: the account at the PDA may be absent. *)
Definition load_optional_checked_redemption_offer
    (redemption_offer_account offer_key token_in_mint token_out_mint : Pubkey)
  : M L (option RedemptionOffer.t) :=
  lift (require_keys_eq redemption_offer_account
          (redemption_offer_pda token_in_mint token_out_mint) OnreError.InvalidRedemptionOffer);;
  os ← gets redemption_offers;
  match os !! redemption_offer_account with
  | None => mret None
  | Some o =>
      lift (require_keys_eq (RedemptionOffer.offer o) offer_key OnreError.InvalidRedemptionOffer);;
      lift (require_keys_eq (RedemptionOffer.token_in_mint o) token_in_mint
              OnreError.InvalidRedemptionOffer);;
      lift (require_keys_eq (RedemptionOffer.token_out_mint o) token_out_mint
              OnreError.InvalidRedemptionOffer);;
      mret (Some o)
  end.

(** ** Administration *)

(** [MakeRedemptionOffer]. *)
Record MakeRedemptionOffer : Type := mkMakeRedemptionOffer {
  mro_offer : Pubkey;
  mro_token_in_mint : Pubkey;
  mro_token_in_program : Pubkey;
  mro_vault_token_in_account : Pubkey;
  mro_token_out_mint : Pubkey;
  mro_token_out_program : Pubkey;
  mro_vault_token_out_account : Pubkey;
  mro_redemption_offer : Pubkey;
  mro_boss : Pubkey
}.

(** A mint of the SPL token program proper. *)
Definition spl_token_mint (mint : MintAccount) (token_program : Pubkey) : M L unit :=
  guard (key_eqb (Mint.token_program (mint_data mint)) spl_token_id) OnreError.InvalidTokenProgram;;
  guard (key_eqb token_program spl_token_id) OnreError.InvalidTokenProgram.

Definition MakeRedemptionOffer_accounts (ctx : MakeRedemptionOffer) : M L unit :=
  _ ← load_account offers (mro_offer ctx);
  token_in ← load_mint (mro_token_in_mint ctx);
  init_if_needed_ata (mro_vault_token_in_account ctx) redemption_vault_authority_key
    (mro_token_in_mint ctx) (mro_token_in_program ctx);;
  _ ← load_mint (mro_token_out_mint ctx);
  init_if_needed_ata (mro_vault_token_out_account ctx) redemption_vault_authority_key
    (mro_token_out_mint ctx) (mro_token_out_program ctx);;
  init_account redemption_offers (mro_redemption_offer ctx)
    (redemption_offer_seeds (mro_token_in_mint ctx) (mro_token_out_mint ctx)) (mro_boss ctx);;
  has_one_boss (mro_boss ctx);;
  constraint (key_eqb (mro_offer ctx) (offer_pda (mro_token_out_mint ctx) (mro_token_in_mint ctx)))
    ConstraintSeeds;;
  s ← gets state;
  guard (key_eqb (mro_token_in_mint ctx) (State.onyc_mint s)) OnreError.InvalidOnycMint;;
  spl_token_mint token_in (mro_token_in_program ctx).

(** [make_redemption_offer]. *)
Definition make_redemption_offer (ctx : MakeRedemptionOffer)
    (fee_basis_points fee_basis_points_prop_amm_sell : Z) : M L unit :=
  MakeRedemptionOffer_accounts ctx;;
  guard (fee_basis_points <=? MAX_ALLOWED_FEE_BPS) OnreError.InvalidFee;;
  guard (fee_basis_points_prop_amm_sell <=? MAX_ALLOWED_FEE_BPS) OnreError.InvalidFee;;
  store_redemption_offer (mro_redemption_offer ctx)
    (RedemptionOffer.mk (mro_offer ctx) (mro_token_in_mint ctx) (mro_token_out_mint ctx) 0 0
       fee_basis_points 0
       (pda_bump (redemption_offer_seeds (mro_token_in_mint ctx) (mro_token_out_mint ctx)))
       0 0 fee_basis_points_prop_amm_sell);;
  emit "RedemptionOfferCreatedEvent"
    [("redemption_offer_pda", FKey (mro_redemption_offer ctx)); ("offer", FKey (mro_offer ctx));
     ("token_in_mint", FKey (mro_token_in_mint ctx));
     ("token_out_mint", FKey (mro_token_out_mint ctx));
     ("fee_basis_points", FNum fee_basis_points);
     ("fee_basis_points_prop_amm_sell", FNum fee_basis_points_prop_amm_sell);
     ("vault_target_bps", FNum 0)].

(** [UpdateRedemptionOfferFee]. *)
Definition UpdateRedemptionOfferFee_accounts (redemption_offer boss : Pubkey)
  : M L RedemptionOffer.t :=
  o ← redemption_offer_account redemption_offer;
  s ← gets state;
  guard (key_eqb (State.boss s) boss) OnreError.Unauthorized;;
  mret o.

(** [update_redemption_offer_fee]. *)
Definition update_redemption_offer_fee (redemption_offer boss : Pubkey) (new_fee : Z) : M L unit :=
  o ← UpdateRedemptionOfferFee_accounts redemption_offer boss;
  guard (new_fee <=? MAX_ALLOWED_FEE_BPS) OnreError.InvalidFee;;
  guard (negb (new_fee =? RedemptionOffer.fee_basis_points o)) OnreError.NoChange;;
  store_redemption_offer redemption_offer (RedemptionOffer.with_fee_basis_points new_fee o);;
  emit "RedemptionOfferFeeUpdatedEvent"
    [("redemption_offer_pda", FKey redemption_offer);
     ("old_fee_basis_points", FNum (RedemptionOffer.fee_basis_points o));
     ("new_fee_basis_points", FNum new_fee); ("boss", FKey boss)].

(** [update_redemption_offer_prop_amm_sell_fee]. *)
Definition update_redemption_offer_prop_amm_sell_fee (redemption_offer boss : Pubkey)
    (new_fee : Z) : M L unit :=
  o ← UpdateRedemptionOfferFee_accounts redemption_offer boss;
  guard (new_fee <=? MAX_ALLOWED_FEE_BPS) OnreError.InvalidFee;;
  guard (negb (new_fee =? RedemptionOffer.fee_basis_points_prop_amm_sell o)) OnreError.NoChange;;
  store_redemption_offer redemption_offer
    (RedemptionOffer.with_fee_basis_points_prop_amm_sell new_fee o);;
  emit "RedemptionOfferPropAmmSellFeeUpdatedEvent"
    [("redemption_offer_pda", FKey redemption_offer);
     ("old_fee_basis_points_prop_amm_sell",
      FNum (RedemptionOffer.fee_basis_points_prop_amm_sell o));
     ("new_fee_basis_points_prop_amm_sell", FNum new_fee); ("boss", FKey boss)].

(** [update_redemption_offer_vault_target]. *)
Definition update_redemption_offer_vault_target (redemption_offer boss : Pubkey)
    (new_target : Z) : M L unit :=
  o ← UpdateRedemptionOfferFee_accounts redemption_offer boss;
  guard (new_target <=? MAX_BASIS_POINTS) OnreError.InvalidAmount;;
  guard (negb (new_target =? RedemptionOffer.vault_target_bps o)) OnreError.NoChange;;
  store_redemption_offer redemption_offer (RedemptionOffer.with_vault_target_bps new_target o);;
  emit "RedemptionOfferVaultTargetUpdatedEvent"
    [("redemption_offer_pda", FKey redemption_offer);
     ("old_vault_target_bps", FNum (RedemptionOffer.vault_target_bps o));
     ("new_vault_target_bps", FNum new_target); ("boss", FKey boss)].

(** [set_redemption_offer_disabled]. *)
Definition set_redemption_offer_disabled (redemption_offer signer : Pubkey) (disabled : bool)
  : M L unit :=
  o ← redemption_offer_account redemption_offer;
  s ← gets state;
  lift (authorize_targeted_disable s signer disabled);;
  store_redemption_offer redemption_offer (RedemptionOffer.set_disabled disabled o);;
  emit "RedemptionOfferDisabledSetEvent"
    [("redemption_offer_pda", FKey redemption_offer); ("disabled", FBool disabled);
     ("signer", FKey signer)].

(** ** Requests *)

(** [CreateRedemptionRequest]. *)
Record CreateRedemptionRequest : Type := mkCreateRedemptionRequest {
  crr_redemption_offer : Pubkey;
  crr_offer : Pubkey;
  crr_redemption_request : Pubkey;
  crr_redeemer : Pubkey;
  crr_token_in_mint : Pubkey;
  crr_redeemer_token_account : Pubkey;
  crr_vault_token_account : Pubkey;
  crr_token_program : Pubkey
}.

Definition CreateRedemptionRequest_accounts (ctx : CreateRedemptionRequest)
  : M L (RedemptionOffer.t * Offer.t * MintAccount) :=
  redemption_offer ← redemption_offer_account (crr_redemption_offer ctx);
  offer ← load_account offers (crr_offer ctx);
  init_account redemption_requests (crr_redemption_request ctx)
    (redemption_request_seeds (crr_redemption_offer ctx)
       (RedemptionOffer.request_counter redemption_offer)) (crr_redeemer ctx);;
  s ← gets state;
  not_killed s;;
  token_in_mint ← load_mint (crr_token_in_mint ctx);
  guard (key_eqb (crr_token_in_mint ctx) (RedemptionOffer.token_in_mint redemption_offer))
    OnreError.InvalidMint;;
  spl_token_mint token_in_mint (crr_token_program ctx);;
  _ ← ata_account (crr_redeemer_token_account ctx) (crr_redeemer ctx) (crr_token_in_mint ctx)
        (crr_token_program ctx);
  _ ← ata_account (crr_vault_token_account ctx) redemption_vault_authority_key
        (crr_token_in_mint ctx) (crr_token_program ctx);
  mret (redemption_offer, offer, token_in_mint).

(** [create_redemption_request]; [fulfilled_amount] keeps the zero of the fresh
    account. *)
Definition create_redemption_request (ctx : CreateRedemptionRequest) (amount : Z) : M L unit :=
  '(ro, offer, token_in_mint) ← CreateRedemptionRequest_accounts ctx;
  guard (0 <? amount) OnreError.InvalidAmount;;
  guard (negb (key_eqb (RedemptionOffer.offer ro) Pubkey_default))
    OnreError.InvalidRedemptionOffer;;
  guard (negb (key_eqb (RedemptionOffer.token_out_mint ro) Pubkey_default))
    OnreError.InvalidRedemptionOffer;;
  lift (require_keys_eq (RedemptionOffer.offer ro) (crr_offer ctx) OnreError.OfferMismatch);;
  lift (RedemptionOffer.require_enabled ro);;
  lift (Offer.require_enabled offer);;
  let request_id := RedemptionOffer.request_counter ro in
  transfer_tokens token_in_mint (crr_token_program ctx) (crr_redeemer_token_account ctx)
    (crr_vault_token_account ctx) (crr_redeemer ctx) amount;;
  store_redemption_request (crr_redemption_request ctx)
    (RedemptionRequest.mk (crr_redemption_offer ctx) request_id (crr_redeemer ctx) amount
       (pda_bump (redemption_request_seeds (crr_redemption_offer ctx) request_id)) 0);;
  requested ← lift (ok_or_onre
    (u128.checked_add (RedemptionOffer.requested_redemptions ro) amount)
    OnreError.ArithmeticOverflow);
  counter ← lift (ok_or_onre (u64.checked_add request_id 1) OnreError.ArithmeticOverflow);
  store_redemption_offer (crr_redemption_offer ctx)
    (RedemptionOffer.with_request_counter counter
       (RedemptionOffer.with_requested_redemptions requested ro));;
  emit "RedemptionRequestCreatedEvent"
    [("redemption_request_pda", FKey (crr_redemption_request ctx));
     ("redemption_offer_pda", FKey (crr_redemption_offer ctx));
     ("redeemer", FKey (crr_redeemer ctx)); ("amount", FNum amount); ("id", FNum request_id)].

(** [CancelRedemptionRequest]. *)
Record CancelRedemptionRequest : Type := mkCancelRedemptionRequest {
  cxr_redemption_offer : Pubkey;
  cxr_redemption_request : Pubkey;
  cxr_signer : Pubkey;
  cxr_redeemer : Pubkey;
  cxr_worker : Pubkey;
  cxr_token_in_mint : Pubkey;
  cxr_vault_token_account : Pubkey;
  cxr_redeemer_token_account : Pubkey;
  cxr_token_program : Pubkey
}.

(** The [seeds] constraint of a request over its own fields. *)
Definition request_seeds_ok (k : Pubkey) (r : RedemptionRequest.t) : bool :=
  key_eqb k (redemption_request_pda (RedemptionRequest.offer r) (RedemptionRequest.request_id r)).

Definition CancelRedemptionRequest_accounts (ctx : CancelRedemptionRequest)
  : M L (RedemptionOffer.t * RedemptionRequest.t * MintAccount) :=
  s ← gets state;
  not_killed s;;
  redemption_offer ← redemption_offer_account (cxr_redemption_offer ctx);
  request ← load_account redemption_requests (cxr_redemption_request ctx);
  constraint (request_seeds_ok (cxr_redemption_request ctx) request) ConstraintSeeds;;
  guard (key_eqb (RedemptionRequest.offer request) (cxr_redemption_offer ctx))
    OnreError.OfferMismatch;;
  guard (key_eqb (cxr_signer ctx) (State.boss s) || key_eqb (cxr_signer ctx) (State.worker s)
         || key_eqb (cxr_signer ctx) (RedemptionRequest.redeemer request)) OnreError.Unauthorized;;
  guard (key_eqb (cxr_redeemer ctx) (RedemptionRequest.redeemer request))
    OnreError.InvalidRedeemer;;
  guard (key_eqb (cxr_worker ctx) (State.worker s)) OnreError.InvalidWorker;;
  token_in_mint ← load_mint (cxr_token_in_mint ctx);
  guard (key_eqb (cxr_token_in_mint ctx) (RedemptionOffer.token_in_mint redemption_offer))
    OnreError.InvalidMint;;
  _ ← ata_account (cxr_vault_token_account ctx) redemption_vault_authority_key
        (cxr_token_in_mint ctx) (cxr_token_program ctx);
  mret (redemption_offer, request, token_in_mint).

(** [cancel_redemption_request]. *)
Definition cancel_redemption_request (ctx : CancelRedemptionRequest) : M L unit :=
  '(ro, request, token_in_mint) ← CancelRedemptionRequest_accounts ctx;
  redeemer_token_account ← get_or_create_associated_token_account
    (cxr_redeemer_token_account ctx) (cxr_redeemer ctx) (cxr_token_in_mint ctx)
    (cxr_token_program ctx) OnreError.InvalidRedeemerTokenAccount;
  let original_amount := RedemptionRequest.amount request in
  returned_amount ← lift (ok_or_onre
    (u64.checked_sub original_amount (RedemptionRequest.fulfilled_amount request))
    OnreError.ArithmeticUnderflow);
  transfer_tokens token_in_mint (cxr_token_program ctx) (cxr_vault_token_account ctx)
    (ta_key redeemer_token_account) redemption_vault_authority_key returned_amount;;
  requested ← lift (ok_or_onre
    (u128.checked_sub (RedemptionOffer.requested_redemptions ro) returned_amount)
    OnreError.ArithmeticUnderflow);
  store_redemption_offer (cxr_redemption_offer ctx)
    (RedemptionOffer.with_requested_redemptions requested ro);;
  emit "RedemptionRequestCancelledEvent"
    [("redemption_request_pda", FKey (cxr_redemption_request ctx));
     ("redemption_offer", FKey (cxr_redemption_offer ctx));
     ("redeemer", FKey (RedemptionRequest.redeemer request));
     ("original_amount", FNum original_amount); ("returned_amount", FNum returned_amount);
     ("cancelled_by", FKey (cxr_signer ctx))];;
  close_redemption_request (cxr_redemption_request ctx).

(** ** Fulfilment ([fulfill_redemption_request.rs]) *)

(** [FulfillRedemptionRequest]. *)
Record FulfillRedemptionRequest : Type := mkFulfillRedemptionRequest {
  frr_offer : Pubkey;
  frr_redemption_offer : Pubkey;
  frr_redemption_request : Pubkey;
  frr_vault_token_in_account : Pubkey;
  frr_vault_token_out_account : Pubkey;
  frr_token_in_mint : Pubkey;
  frr_token_in_program : Pubkey;
  frr_token_out_mint : Pubkey;
  frr_token_out_program : Pubkey;
  frr_user_token_out_account : Pubkey;
  frr_offer_proceeds_vault : Pubkey;
  frr_offer_proceeds_token_in_account : Pubkey;
  frr_redemption_fee_vault : Pubkey;
  frr_redemption_fee_token_in_account : Pubkey;
  frr_redeemer : Pubkey;
  frr_worker : Pubkey;
  frr_buffer_accounts : BufferAccrualAccounts;
  frr_offer_vault_onyc_account : Pubkey;
  frr_market_stats : Pubkey;
  frr_circulating_supply_excluded_balance : Pubkey;
  frr_main_offer : Pubkey
}.

(** [load_redemption_offer]. *)
Definition load_redemption_offer (offer_key redemption_offer_key : Pubkey)
    (token_in_mint token_out_mint : MintAccount) : M L RedemptionOffer.t :=
  os ← gets redemption_offers;
  redemption_offer ← lift (ok_or_onre (os !! redemption_offer_key)
    OnreError.InvalidRedemptionOfferOwner);
  lift (require_keys_eq redemption_offer_key
          (redemption_offer_pda (mint_key token_in_mint) (mint_key token_out_mint))
          OnreError.OfferMismatch);;
  lift (require_keys_eq (RedemptionOffer.offer redemption_offer) offer_key
          OnreError.OfferMismatch);;
  lift (require_keys_eq (mint_key token_in_mint) (RedemptionOffer.token_in_mint redemption_offer)
          OnreError.InvalidTokenInMint);;
  lift (require_keys_eq (mint_key token_out_mint) (RedemptionOffer.token_out_mint redemption_offer)
          OnreError.InvalidTokenOutMint);;
  lift (RedemptionOffer.require_enabled redemption_offer);;
  mret redemption_offer.

(** The accrual a redemption makes before its burn: only for ONyc the program
    mints, and only with an initialized buffer. *)
Definition accrue_before_burn (st : State.t) (should_refresh : bool)
    (buffer_accounts : BufferAccrualAccounts) (main_offer : option Offer.t)
    (token_in_mint : MintAccount) (token_in_program : Pubkey) : M L (option BufferAccrualResult) :=
  buffer_is_initialized ← check_is_initialized buffer_accounts;
  if should_refresh && buffer_is_initialized then
    canonical_offer ← lift (ok_or_onre main_offer OnreError.InvalidMainOffer);
    r ← accrue_buffer_from_accounts st buffer_accounts canonical_offer token_in_mint
      mint_authority_key token_in_program;
    mret (Some r)
  else mret None.

(** The buffer baseline after the burn. *)
Definition store_post_burn_supply (accrual : option BufferAccrualResult) (burned : Z) : M L unit :=
  match accrual with
  | Some accrual =>
      post_burn_supply ←
        lift (math_overflow (u64.checked_sub (bar_post_accrual_supply accrual) burned));
      store_buffer_post_supply post_burn_supply (bar_timestamp accrual)
  | None => mret tt
  end.

(** Its end: the progress of the request and of its redemption offer. *)
Definition record_fulfillment (ctx : FulfillRedemptionRequest)
    (redemption_offer : RedemptionOffer.t) (request : RedemptionRequest.t)
    (result : RedemptionProcessResult) (amount : Z) : M L unit :=
  new_fulfilled_amount ← lift (ok_or_onre
    (u64.checked_add (RedemptionRequest.fulfilled_amount request) amount)
    OnreError.ArithmeticOverflow);
  let is_fully_fulfilled := new_fulfilled_amount =? RedemptionRequest.amount request in
  executed ← lift (ok_or_onre
    (u128.checked_add (RedemptionOffer.executed_redemptions redemption_offer) amount)
    OnreError.ArithmeticOverflow);
  requested ← lift (ok_or_onre
    (u128.checked_sub (RedemptionOffer.requested_redemptions redemption_offer) amount)
    OnreError.ArithmeticUnderflow);
  emit "RedemptionRequestFulfilledEvent"
    [("redemption_request_pda", FKey (frr_redemption_request ctx));
     ("redemption_offer_pda", FKey (frr_redemption_offer ctx));
     ("redeemer", FKey (frr_redeemer ctx)); ("token_in_net_amount", FNum (rpr_token_in_net_amount result));
     ("token_in_fee_amount", FNum (rpr_token_in_fee_amount result));
     ("token_out_amount", FNum (rpr_token_out_amount result));
     ("current_price", FNum (rpr_price result)); ("fulfilled_amount", FNum amount);
     ("total_fulfilled_amount", FNum new_fulfilled_amount);
     ("is_fully_fulfilled", FBool is_fully_fulfilled)];;
  store_redemption_offer (frr_redemption_offer ctx)
    (RedemptionOffer.with_requested_redemptions requested
       (RedemptionOffer.with_executed_redemptions executed redemption_offer));;
  if is_fully_fulfilled then close_redemption_request (frr_redemption_request ctx)
  else store_redemption_request (frr_redemption_request ctx)
         (RedemptionRequest.with_fulfilled_amount new_fulfilled_amount request).

(** [execute_fulfill_redemption_request]. *)
Definition execute_fulfill_redemption_request (ctx : FulfillRedemptionRequest) (st : State.t)
    (offer : Offer.t) (redemption_offer : RedemptionOffer.t) (request : RedemptionRequest.t)
    (token_in_mint token_out_mint : MintAccount) (amount : Z) : M L unit :=
  guard (0 <? amount) OnreError.InvalidAmount;;
  remaining ← lift (ok_or_onre
    (u64.checked_sub (RedemptionRequest.amount request)
       (RedemptionRequest.fulfilled_amount request)) OnreError.ArithmeticUnderflow);
  guard (amount <=? remaining) OnreError.AmountExceedsRemaining;;
  lift (Offer.require_enabled offer);;
  clock ← Clock_get;
  result ← lift (process_redemption_core offer (timestamp_u64 clock) amount token_in_mint
    token_out_mint (RedemptionOffer.fee_basis_points redemption_offer) 0);
  let net := rpr_token_in_net_amount result in
  let should_refresh_market_stats :=
    key_eqb (mint_key token_in_mint) (State.onyc_mint st)
    && program_controls_mint token_in_mint mint_authority_key in
  main_offer ←
    (if should_refresh_market_stats
     then o ← load_main_offer (frr_main_offer ctx) st; mret (Some o)
     else mret None);
  accrual ← accrue_before_burn st should_refresh_market_stats (frr_buffer_accounts ctx)
    main_offer token_in_mint (frr_token_in_program ctx);
  execute_redemption_operations
    (ExecuteRedemptionOpsParams.mk (frr_token_in_program ctx) (frr_token_out_program ctx)
       token_in_mint net (rpr_token_in_fee_amount result) (frr_vault_token_in_account ctx)
       (frr_offer_proceeds_token_in_account ctx) (frr_redemption_fee_token_in_account ctx)
       redemption_vault_authority_key token_out_mint (rpr_token_out_amount result)
       (frr_vault_token_out_account ctx) (frr_user_token_out_account ctx) mint_authority_key);;
  store_post_burn_supply accrual net;;
  when should_refresh_market_stats
    (main_offer ← lift (ok_or_onre main_offer OnreError.InvalidMainOffer);
     token_in_mint ← reload token_in_mint;
     refresh_market_stats_pda main_offer token_in_mint
       (frr_circulating_supply_excluded_balance ctx) (frr_market_stats ctx) (frr_worker ctx));;
  record_fulfillment ctx redemption_offer request result amount.

(** [fulfill_redemption_request]. *)
Definition fulfill_redemption_request (ctx : FulfillRedemptionRequest) (amount : Z) : M L unit :=
  st ← gets state;
  buffer_accrual_accounts (frr_buffer_accounts ctx);;
  not_killed st;;
  constraint (key_eqb (frr_offer_proceeds_vault ctx)
                (vault_key ConfigurableVaultKind.OfferProceeds)) ConstraintSeeds;;
  constraint (key_eqb (frr_redemption_fee_vault ctx)
                (vault_key ConfigurableVaultKind.RedemptionFee)) ConstraintSeeds;;
  constraint (key_eqb (frr_market_stats ctx) (pda [seeds.MARKET_STATS])) ConstraintSeeds;;
  constraint (key_eqb (frr_circulating_supply_excluded_balance ctx)
                (pda [seeds.CIRCULATING_SUPPLY_EXCLUDED_BALANCE])) ConstraintSeeds;;
  offer ← load_account offers (frr_offer ctx);
  request ← load_account redemption_requests (frr_redemption_request ctx);
  token_in_mint ← load_mint (frr_token_in_mint ctx);
  token_out_mint ← load_mint (frr_token_out_mint ctx);
  guard (request_seeds_ok (frr_redemption_request ctx) request) OnreError.OfferMismatch;;
  lift (require_keys_eq (RedemptionRequest.offer request) (frr_redemption_offer ctx)
          OnreError.OfferMismatch);;
  lift (require_keys_eq (frr_redeemer ctx) (RedemptionRequest.redeemer request)
          OnreError.InvalidRedeemer);;
  lift (require_keys_eq (frr_worker ctx) (State.worker st) OnreError.Unauthorized);;
  validate_associated_token_address (frr_offer_vault_onyc_account ctx)
    (pda [seeds.OFFER_VAULT_AUTHORITY]) (frr_token_in_mint ctx) (frr_token_in_program ctx)
    OnreError.InvalidOfferVaultOnycAccount;;
  _ ← get_associated_token_account (frr_vault_token_in_account ctx) redemption_vault_authority_key
        (frr_token_in_mint ctx) (frr_token_in_program ctx) OnreError.InvalidVaultTokenInAccount;
  _ ← get_associated_token_account (frr_vault_token_out_account ctx)
        redemption_vault_authority_key (frr_token_out_mint ctx) (frr_token_out_program ctx)
        OnreError.InvalidVaultTokenOutAccount;
  _ ← get_or_create_associated_token_account (frr_user_token_out_account ctx) (frr_redeemer ctx)
        (frr_token_out_mint ctx) (frr_token_out_program ctx) OnreError.InvalidUserTokenOutAccount;
  _ ← get_or_create_configurable_vault_token_account ConfigurableVaultKind.OfferProceeds
        (frr_offer_proceeds_vault ctx) (frr_offer_proceeds_token_in_account ctx) (frr_worker ctx)
        (frr_token_in_mint ctx) (frr_token_in_program ctx);
  redemption_offer ← load_redemption_offer (frr_offer ctx) (frr_redemption_offer ctx)
    token_in_mint token_out_mint;
  _ ← get_or_create_configurable_vault_token_account ConfigurableVaultKind.RedemptionFee
        (frr_redemption_fee_vault ctx) (frr_redemption_fee_token_in_account ctx) (frr_worker ctx)
        (frr_token_in_mint ctx) (frr_token_in_program ctx);
  execute_fulfill_redemption_request ctx st offer redemption_offer request token_in_mint
    token_out_mint amount.

End redemption.
