(* ===== verification/TakeOffer.v ===== *)
(** * Taking offers

    [process_offer_core], the redemption-vault refill and the accrual checks of
    [offer_utils.rs], and the four instructions that sell token_out at an offer's
    price: [take_offer.rs] and [take_offer_permissionless.rs], each with its
    legacy and v2 form.  *)

From S2P Require Import World Approval MathUtils OfferPricing TokenUtils OfferHandlers MarketInfo Buffer Vaults Redemption.
Open Scope string_scope.
Open Scope Z_scope.

(** [OfferProcessResult]. *)
Record OfferProcessResult : Type := mkOfferProcessResult {
  opr_current_price : Z;
  opr_token_in_net_amount : Z;
  opr_token_in_fee_amount : Z;
  opr_token_out_amount : Z
}.

(** [process_offer_core_at]; its [calculate_current_step_price] reads the same
    clock. *)
Definition process_offer_core_at (offer : Offer.t) (token_in_amount : Z)
    (token_in_mint_key : Pubkey) (token_in_decimals : Z)
    (token_out_mint_key : Pubkey) (token_out_decimals : Z)
    (current_time fee_basis_points : Z) : Result OfferProcessResult :=
  _ ← require_onre (0 <? token_in_amount) OnreError.InvalidAmount;
  _ ← Offer.require_mints offer token_in_mint_key token_out_mint_key;
  active_vector ← find_active_vector_at offer current_time;
  current_price ← calculate_step_price_at (OfferVector.apr active_vector)
    (OfferVector.base_price active_vector) (OfferVector.base_time active_vector)
    (OfferVector.price_fix_duration active_vector) current_time;
  fee_amounts ← calculate_fees token_in_amount fee_basis_points;
  token_out_amount ← calculate_token_out_amount (token_in_net_amount fee_amounts) current_price
    token_in_decimals token_out_decimals;
  Ok (mkOfferProcessResult current_price (token_in_net_amount fee_amounts)
        (token_in_fee_amount fee_amounts) token_out_amount).

(** The refill of [calculate_redemption_vault_refill_amount] from the stats it
    could read, if any. *)
Definition refill_amount (stats : option MarketStats.t)
    (vault_target_bps token_in_decimals token_out_decimals current_balance net : Z) : Result Z :=
  target_liquidity ←
    match stats with
    | Some market_stats =>
        let target_in_onyc_decimals :=
          u128.saturating_div (u128.saturating_mul (MarketStats.tvl market_stats) vault_target_bps)
            MAX_BASIS_POINTS in
        in_scale ← panicking (u128.checked_pow 10 token_in_decimals);
        out_scale ← panicking (u128.checked_pow 10 token_out_decimals);
        Ok (u128.saturating_div (u128.saturating_mul target_in_onyc_decimals in_scale) out_scale)
    | None => Ok 0
    end;
  if current_balance <? target_liquidity
  then Ok (u64.cast (Z.min (target_liquidity - current_balance) net))
  else Ok 0.

Section take_offer.
Context {R : Runtime} {L : Type} {TL : TokenLedger L}.

(** [process_offer_core]. *)
Definition process_offer_core (offer : Offer.t) (token_in_amount : Z)
    (token_in_mint token_out_mint : MintAccount) (fee_basis_points : Z)
  : M L OfferProcessResult :=
  clock ← Clock_get;
  lift (process_offer_core_at offer token_in_amount (mint_key token_in_mint)
          (decimals token_in_mint) (mint_key token_out_mint) (decimals token_out_mint)
          (timestamp_u64 clock) fee_basis_points).

(** [load_redemption_offer_vault_target_bps_for_offer]: the redemption offer goes
    the other way; a missing or disabled one has no target. *)
Definition load_redemption_offer_vault_target_bps_for_offer
    (redemption_offer_account offer_key token_in_mint token_out_mint : Pubkey)
  : M L (option Z) :=
  ro ← load_optional_checked_redemption_offer redemption_offer_account offer_key
    token_out_mint token_in_mint;
  mret match ro with
       | Some o => if RedemptionOffer.is_disabled o then None
                   else Some (RedemptionOffer.vault_target_bps o)
       | None => None
       end.

(** [Result::ok] of a read; a panic is no error. *)
Definition attempt {A} (m : M L A) : M L (option A) := fun w =>
  match m w with
  | Ok (a, w') => Ok (Some a, w')
  | Err Panicked => Err Panicked
  | Err _ => Ok (None, w)
  end.

(** [calculate_redemption_vault_refill_amount]. *)
Definition calculate_redemption_vault_refill_amount (market_stats_account : Pubkey)
    (vault_target_bps : Z) (token_in_mint token_out_mint : MintAccount)
    (current_redemption_vault_balance net : Z) : M L Z :=
  if vault_target_bps =? 0 then mret 0
  else
    stats ← attempt (read_market_stats_account market_stats_account);
    lift (refill_amount stats vault_target_bps (decimals token_in_mint) (decimals token_out_mint)
            current_redemption_vault_balance net).

(** [validate_take_offer_authorities]. *)
Definition validate_take_offer_authorities
    (vault_authority mint_authority instructions_sysvar : Pubkey) : M L unit :=
  lift (require_keys_eq (pda [seeds.OFFER_VAULT_AUTHORITY]) vault_authority
          OnreError.InvalidVaultAuthority);;
  lift (require_keys_eq mint_authority_key mint_authority OnreError.InvalidMintAuthority);;
  lift (require_keys_eq instructions_sysvar_id instructions_sysvar
          OnreError.InvalidInstructionsSysvar).

(** The accounts all four instructions share. *)
Record TakeOfferBase : Type := mkTakeOfferBase {
  to_offer : Pubkey;
  to_vault_authority : Pubkey;
  to_vault_token_in_account : Pubkey;
  to_vault_token_out_account : Pubkey;
  to_token_in_mint : Pubkey;
  to_token_in_program : Pubkey;
  to_token_out_mint : Pubkey;
  to_token_out_program : Pubkey;
  to_user_token_in_account : Pubkey;
  to_user_token_out_account : Pubkey;
  to_mint_authority : Pubkey;
  to_user : Pubkey
}.

(** The accounts of the v2 instructions that carry the supply change. *)
Record SupplyAccounts : Type := mkSupplyAccounts {
  sa_buffer_accounts : BufferAccrualAccounts;
  sa_market_stats : Pubkey;
  sa_circulating_supply_excluded_balance : Pubkey;
  sa_main_offer : Pubkey
}.

(** The accounts of the v2 instructions that refill the redemption vault. *)
Record RefillAccounts : Type := mkRefillAccounts {
  ra_redemption_offer : Pubkey;
  ra_redemption_vault_authority : Pubkey;
  ra_redemption_vault_token_in_account : Pubkey
}.

Definition live_state : M L State.t := s ← gets state; not_killed s;; mret s.

(** The vault and user token accounts that Anchor validates up front. *)
Definition take_offer_token_accounts (ctx : TakeOfferBase) : M L (MintAccount * MintAccount) :=
  _ ← ata_account (to_vault_token_in_account ctx) (to_vault_authority ctx) (to_token_in_mint ctx)
        (to_token_in_program ctx);
  _ ← ata_account (to_vault_token_out_account ctx) (to_vault_authority ctx)
        (to_token_out_mint ctx) (to_token_out_program ctx);
  token_in_mint ← load_mint (to_token_in_mint ctx);
  token_out_mint ← load_mint (to_token_out_mint ctx);
  _ ← ata_account (to_user_token_in_account ctx) (to_user ctx) (to_token_in_mint ctx)
        (to_token_in_program ctx);
  mret (token_in_mint, token_out_mint).

(** [seeds = [OFFER, token_in_mint, token_out_mint]] on the offer account. *)
Definition offer_account (k token_in_mint token_out_mint : Pubkey) : M L Offer.t :=
  offer ← load_account offers k;
  constraint (key_eqb k (offer_pda token_in_mint token_out_mint)) ConstraintSeeds;;
  mret offer.

(** The exchange of all four instructions: the parameters that differ are where
    token_in comes from, where it goes, and who first receives token_out. *)
Definition exchange_params (ctx : TakeOfferBase) (st : State.t)
    (token_in_mint token_out_mint : MintAccount) (result : OfferProcessResult)
    (token_in_authority token_in_source token_in_destination : Pubkey)
    (refill_destination : option Pubkey) (refill : Z)
    (fee_destination token_out_destination : Pubkey) : ExecTokenOpsParams.t :=
  ExecTokenOpsParams.mk (to_token_in_program ctx) (to_token_out_program ctx)
    token_in_mint (opr_token_in_net_amount result) (opr_token_in_fee_amount result)
    token_in_authority (Some [seeds.OFFER_VAULT_AUTHORITY]) token_in_source token_in_destination
    refill_destination refill fee_destination (to_vault_token_in_account ctx)
    (to_vault_authority ctx) token_out_mint (opr_token_out_amount result)
    (to_vault_authority ctx) (to_vault_token_out_account ctx) token_out_destination
    (to_mint_authority ctx) (State.max_supply st) (State.max_mint_amount st).

Definition emit_taken (name : string) (ctx : TakeOfferBase) (result : OfferProcessResult)
  : M L unit :=
  emit name
    [("offer_pda", FKey (to_offer ctx)); ("token_in_amount", FNum (opr_token_in_net_amount result));
     ("token_out_amount", FNum (opr_token_out_amount result));
     ("fee_amount", FNum (opr_token_in_fee_amount result)); ("user", FKey (to_user ctx))].

(** ** [take_offer] (legacy) *)

(** [TakeOffer]. *)
Definition TakeOffer_accounts (ctx : TakeOfferBase) (boss boss_token_in_account : Pubkey)
  : M L (State.t * Offer.t * MintAccount * MintAccount) :=
  offer ← offer_accounts (to_offer ctx) (to_token_in_mint ctx) (to_token_out_mint ctx);
  st ← gets state;
  guard (key_eqb (State.boss st) boss) OnreError.InvalidBoss;;
  not_killed st;;
  '(token_in_mint, token_out_mint) ← take_offer_token_accounts ctx;
  init_if_needed_ata (to_user_token_out_account ctx) (to_user ctx) (to_token_out_mint ctx)
    (to_token_out_program ctx);;
  _ ← ata_account boss_token_in_account boss (to_token_in_mint ctx) (to_token_in_program ctx);
  mret (st, offer, token_in_mint, token_out_mint).

(** [take_offer]: token_in and its fee go to the boss; the buffer and the market
    stats are left alone. *)
Definition take_offer (tx : InstructionsSysvar) (ctx : TakeOfferBase)
    (boss boss_token_in_account instructions_sysvar : Pubkey) (token_in_amount : Z)
    (approval_message : option ApprovalMessage.t) : M L unit :=
  '(st, offer, token_in_mint, token_out_mint) ← TakeOffer_accounts ctx boss boss_token_in_account;
  validate_take_offer_authorities (to_vault_authority ctx) (to_mint_authority ctx)
    instructions_sysvar;;
  lift (Offer.require_enabled offer);;
  verify_offer_approval tx offer approval_message program_id (to_user ctx)
    (State.approver1 st) (State.approver2 st) instructions_sysvar;;
  result ← process_offer_core offer token_in_amount token_in_mint token_out_mint
    (Offer.fee_basis_points offer);
  execute_token_operations
    (exchange_params ctx st token_in_mint token_out_mint result (to_user ctx)
       (to_user_token_in_account ctx) boss_token_in_account None 0 boss_token_in_account
       (to_user_token_out_account ctx));;
  emit_taken "OfferTakenEvent" ctx result.

(** ** Parts of the v2 flow *)

(** The accrual before ONyc is minted. *)
Definition accrue_before_mint (st : State.t) (should_accrue : bool)
    (buffer_accounts : BufferAccrualAccounts) (main_offer : option Offer.t)
    (token_out_mint : MintAccount) (token_out_program : Pubkey)
  : M L (option BufferAccrualResult) :=
  if should_accrue then
    canonical_offer ← lift (ok_or_onre main_offer OnreError.InvalidMainOffer);
    r ← accrue_buffer_from_accounts st buffer_accounts canonical_offer token_out_mint
      mint_authority_key token_out_program;
    mret (Some r)
  else mret None.

(** The buffer baseline after the mint. *)
Definition store_post_offer_supply (accrual : option BufferAccrualResult) (minted : Z)
    (overflow_error : OnreError.t) : M L unit :=
  match accrual with
  | Some accrual =>
      post_offer_supply ←
        lift (ok_or_onre (u64.checked_add (bar_post_accrual_supply accrual) minted)
                overflow_error);
      store_buffer_post_supply post_offer_supply (bar_timestamp accrual)
  | None => mret tt
  end.

(** The refresh of the market stats after the exchange; [#[account(mut)]] makes
    the account writable. *)
Definition refresh_after_exchange (accounts : SupplyAccounts) (main_offer : option Offer.t)
    (token_out_mint : MintAccount) (payer : Pubkey) : M L unit :=
  main_offer ← lift (ok_or_onre main_offer OnreError.InvalidMainOffer);
  token_out_mint ← reload token_out_mint;
  lift (require_keys_eq (pda [seeds.MARKET_STATS]) (sa_market_stats accounts)
          OnreError.InvalidMarketStatsPda);;
  refresh_market_stats_pda main_offer token_out_mint
    (sa_circulating_supply_excluded_balance accounts) (sa_market_stats accounts) payer.

(** The redemption vault's token_in account and the refill it gets, when the
    redemption offer has a target and token_in is not burned. *)
Definition redemption_refill (ctx : TakeOfferBase) (refill : RefillAccounts)
    (market_stats : Pubkey) (target_bps : Z) (token_in_mint token_out_mint : MintAccount) (net : Z)
  : M L (option Pubkey * Z) :=
  if (0 <? target_bps) && negb (program_controls_mint token_in_mint (to_mint_authority ctx)) then
    account ← get_or_create_associated_token_account (ra_redemption_vault_token_in_account refill)
      (ra_redemption_vault_authority refill) (to_token_in_mint ctx) (to_token_in_program ctx)
      OnreError.InvalidVaultTokenInAccount;
    amount ← calculate_redemption_vault_refill_amount market_stats target_bps token_in_mint
      token_out_mint (TokenAccount.amount (ta_data account)) net;
    mret (Some (ta_key account), amount)
  else mret (None, 0).

(** ** [take_offer_v2] *)

Record TakeOfferV2 : Type := mkTakeOfferV2 {
  tv_base : TakeOfferBase;
  tv_refill : RefillAccounts;
  tv_offer_proceeds_vault : Pubkey;
  tv_offer_proceeds_token_in_account : Pubkey;
  tv_offer_fee_vault : Pubkey;
  tv_offer_fee_token_in_account : Pubkey;
  tv_supply : SupplyAccounts;
  tv_instructions_sysvar : Pubkey
}.

Definition TakeOfferV2_accounts (ctx : TakeOfferV2)
  : M L (State.t * Offer.t * MintAccount * MintAccount) :=
  let base := tv_base ctx in
  offer ← offer_accounts (to_offer base) (to_token_in_mint base) (to_token_out_mint base);
  st ← live_state;
  '(token_in_mint, token_out_mint) ← take_offer_token_accounts base;
  constraint (key_eqb (ra_redemption_vault_authority (tv_refill ctx))
                redemption_vault_authority_key) ConstraintSeeds;;
  buffer_accrual_accounts (sa_buffer_accounts (tv_supply ctx));;
  mret (st, offer, token_in_mint, token_out_mint).

(** [execute_take_offer_v2], the body of [take_offer_v2]. *)
Definition take_offer_v2 (tx : InstructionsSysvar) (ctx : TakeOfferV2) (token_in_amount : Z)
    (approval_message : option ApprovalMessage.t) : M L unit :=
  let base := tv_base ctx in
  let supply_accounts := tv_supply ctx in
  '(st, offer, token_in_mint, token_out_mint) ← TakeOfferV2_accounts ctx;
  validate_take_offer_authorities (to_vault_authority base) (to_mint_authority base)
    (tv_instructions_sysvar ctx);;
  lift (Offer.require_enabled offer);;
  buffer_is_initialized ← check_is_initialized (sa_buffer_accounts supply_accounts);
  let should_accrue := should_accrue_onyc_mint st token_out_mint buffer_is_initialized
                         (to_mint_authority base) in
  main_offer ←
    (if is_onyc_token_out_mint st token_out_mint
     then o ← load_main_offer (sa_main_offer supply_accounts) st; mret (Some o)
     else mret None);
  verify_offer_approval tx offer approval_message program_id (to_user base)
    (State.approver1 st) (State.approver2 st) (tv_instructions_sysvar ctx);;
  result ← process_offer_core offer token_in_amount token_in_mint token_out_mint
    (Offer.fee_basis_points offer);
  target ← load_redemption_offer_vault_target_bps_for_offer (ra_redemption_offer (tv_refill ctx))
    (to_offer base) (to_token_in_mint base) (to_token_out_mint base);
  '(proceeds, fee_account) ← get_or_create_configurable_vault_token_account_pair
    ConfigurableVaultKind.OfferProceeds ConfigurableVaultKind.OfferFee
    (tv_offer_proceeds_vault ctx) (tv_offer_proceeds_token_in_account ctx)
    (tv_offer_fee_vault ctx) (tv_offer_fee_token_in_account ctx)
    (to_user base) (to_token_in_mint base) (to_token_in_program base);
  '(refill_destination, refill) ← redemption_refill base (tv_refill ctx)
    (sa_market_stats supply_accounts) (default 0 target) token_in_mint token_out_mint
    (opr_token_in_net_amount result);
  user_token_out ← get_or_create_associated_token_account (to_user_token_out_account base)
    (to_user base) (to_token_out_mint base) (to_token_out_program base)
    OnreError.InvalidUserTokenOutAccount;
  accrual ← accrue_before_mint st should_accrue (sa_buffer_accounts supply_accounts) main_offer
    token_out_mint (to_token_out_program base);
  token_out_mint ← (match accrual with Some _ => reload token_out_mint | None => mret token_out_mint end);
  execute_token_operations
    (exchange_params base st token_in_mint token_out_mint result (to_user base)
       (to_user_token_in_account base) (ta_key proceeds) refill_destination refill
       (ta_key fee_account) (ta_key user_token_out));;
  store_post_offer_supply accrual (opr_token_out_amount result) OnreError.MathOverflow;;
  when (is_onyc_token_out_mint st token_out_mint)
    (refresh_after_exchange supply_accounts main_offer token_out_mint (to_user base));;
  emit_taken "OfferTakenEvent" base result.

(** ** Permissionless *)

(** The end of [execute_take_offer_permissionless]: the tokens pass through the
    intermediary, the supply is recorded. *)
Definition permissionless_settle (ctx : TakeOfferBase) (st : State.t)
    (token_in_mint token_out_mint : MintAccount) (token_in_amount : Z)
    (permissionless_authority permissionless_token_in permissionless_token_out : Pubkey)
    (token_in_destination fee_destination user_token_out : Pubkey)
    (supply_accounts : option SupplyAccounts) (main_offer : option Offer.t)
    (accrual : option BufferAccrualResult) (refill_destination : option Pubkey) (refill : Z)
    (result : OfferProcessResult) : M L unit :=
  transfer_tokens token_in_mint (to_token_in_program ctx) (to_user_token_in_account ctx)
    permissionless_token_in (to_user ctx) token_in_amount;;
  execute_token_operations
    (exchange_params ctx st token_in_mint token_out_mint result permissionless_authority
       permissionless_token_in token_in_destination refill_destination refill fee_destination
       permissionless_token_out);;
  transfer_tokens token_out_mint (to_token_out_program ctx) permissionless_token_out
    user_token_out permissionless_authority (opr_token_out_amount result);;
  store_post_offer_supply accrual (opr_token_out_amount result) OnreError.OverflowError;;
  (match supply_accounts with
   | Some a => when (is_onyc_token_out_mint st token_out_mint)
                 (refresh_after_exchange a main_offer token_out_mint (to_user ctx))
   | None => mret tt
   end);;
  emit_taken "OfferTakenPermissionlessEvent" ctx result.

(** [execute_take_offer_permissionless]; the fee override, the buffer,
    market-stats and refill accounts are absent in the legacy form. *)
Definition execute_take_offer_permissionless (ctx : TakeOfferBase) (st : State.t) (offer : Offer.t)
    (token_in_mint token_out_mint : MintAccount) (token_in_amount : Z)
    (permissionless_authority permissionless_token_in permissionless_token_out : Pubkey)
    (token_in_destination fee_destination user_token_out : Pubkey)
    (fee_basis_points_override : option Z)
    (v2_accounts : option (SupplyAccounts * RefillAccounts)) : M L unit :=
  let supply_accounts := fst <$> v2_accounts in
  lift (require (key_eqb (pda [seeds.OFFER_VAULT_AUTHORITY]) (to_vault_authority ctx))
          (Anchor RequireKeysEqViolated));;
  lift (require (key_eqb (pda [seeds.PERMISSIONLESS_AUTHORITY]) permissionless_authority)
          (Anchor RequireKeysEqViolated));;
  lift (require (key_eqb mint_authority_key (to_mint_authority ctx))
          (Anchor RequireKeysEqViolated));;
  lift (Offer.require_enabled offer);;
  lift (Offer.require_mints offer (mint_key token_in_mint) (mint_key token_out_mint));;
  guard (Offer.allow_permissionless offer) OnreError.PermissionlessNotAllowed;;
  result ← process_offer_core offer token_in_amount token_in_mint token_out_mint
    (default (Offer.fee_basis_points offer) fee_basis_points_override);
  buffer_is_initialized ←
    (match supply_accounts with
     | Some a => check_is_initialized (sa_buffer_accounts a)
     | None => mret false
     end);
  let should_accrue := should_accrue_onyc_mint st token_out_mint buffer_is_initialized
                         (to_mint_authority ctx) in
  main_offer ←
    (match supply_accounts with
     | Some a =>
         if is_onyc_token_out_mint st token_out_mint
         then o ← load_main_offer (sa_main_offer a) st; mret (Some o) else mret None
     | None => mret None
     end);
  accrual ←
    (match supply_accounts with
     | Some a => accrue_before_mint st should_accrue (sa_buffer_accounts a) main_offer
                   token_out_mint (to_token_out_program ctx)
     | None => mret None
     end);
  token_out_mint ← (match accrual with Some _ => reload token_out_mint | None => mret token_out_mint end);
  '(refill_destination, refill) ←
    (match v2_accounts with
     | Some (a, refill) =>
         target ← load_redemption_offer_vault_target_bps_for_offer (ra_redemption_offer refill)
           (to_offer ctx) (mint_key token_in_mint) (mint_key token_out_mint);
         redemption_refill ctx refill (sa_market_stats a) (default 0 target) token_in_mint
           token_out_mint (opr_token_in_net_amount result)
     | None => mret (None, 0)
     end);
  permissionless_settle ctx st token_in_mint token_out_mint token_in_amount
    permissionless_authority permissionless_token_in permissionless_token_out
    token_in_destination fee_destination user_token_out supply_accounts main_offer accrual
    refill_destination refill result.

(** [take_offer_permissionless] (legacy): the approval argument is ignored. *)
Definition take_offer_permissionless (ctx : TakeOfferBase)
    (boss boss_token_in_account permissionless_authority permissionless_token_in_account
     permissionless_token_out_account instructions_sysvar : Pubkey)
    (token_in_amount : Z) : M L unit :=
  offer ← offer_account (to_offer ctx) (to_token_in_mint ctx) (to_token_out_mint ctx);
  st ← live_state;
  guard (key_eqb (State.boss st) boss) OnreError.InvalidBoss;;
  constraint (key_eqb (to_vault_authority ctx) (pda [seeds.OFFER_VAULT_AUTHORITY]))
    ConstraintSeeds;;
  '(token_in_mint, token_out_mint) ← take_offer_token_accounts ctx;
  constraint (key_eqb permissionless_authority (pda [seeds.PERMISSIONLESS_AUTHORITY]))
    ConstraintSeeds;;
  _ ← ata_account permissionless_token_in_account permissionless_authority (to_token_in_mint ctx)
        (to_token_in_program ctx);
  lift (require_keys_eq instructions_sysvar_id instructions_sysvar
          OnreError.InvalidInstructionsSysvar);;
  boss_token_in ← get_associated_token_account boss_token_in_account boss (to_token_in_mint ctx)
    (to_token_in_program ctx) OnreError.InvalidBossTokenInAccount;
  permissionless_token_out ← get_associated_token_account permissionless_token_out_account
    permissionless_authority (to_token_out_mint ctx) (to_token_out_program ctx)
    OnreError.InvalidPermissionlessTokenOutAccount;
  user_token_out ← get_or_create_associated_token_account (to_user_token_out_account ctx)
    (to_user ctx) (to_token_out_mint ctx) (to_token_out_program ctx)
    OnreError.InvalidUserTokenOutAccount;
  execute_take_offer_permissionless ctx st offer token_in_mint token_out_mint token_in_amount
    permissionless_authority permissionless_token_in_account (ta_key permissionless_token_out)
    (ta_key boss_token_in) (ta_key boss_token_in) (ta_key user_token_out) None None.

Record TakeOfferPermissionlessV2 : Type := mkTakeOfferPermissionlessV2 {
  tp_base : TakeOfferBase;
  tp_permissionless_authority : Pubkey;
  tp_permissionless_token_in_account : Pubkey;
  tp_permissionless_token_out_account : Pubkey;
  tp_refill : RefillAccounts;
  tp_offer_proceeds_vault : Pubkey;
  tp_offer_proceeds_token_in_account : Pubkey;
  tp_permissionless_offer_fee_vault : Pubkey;
  tp_permissionless_offer_fee_token_in_account : Pubkey;
  tp_supply : SupplyAccounts
}.

(** [take_offer_permissionless_v2]. *)
Definition take_offer_permissionless_v2 (ctx : TakeOfferPermissionlessV2) (token_in_amount : Z)
  : M L unit :=
  let base := tp_base ctx in
  offer ← offer_account (to_offer base) (to_token_in_mint base) (to_token_out_mint base);
  st ← live_state;
  '(token_in_mint, token_out_mint) ← take_offer_token_accounts base;
  constraint (key_eqb (ra_redemption_vault_authority (tp_refill ctx))
                redemption_vault_authority_key) ConstraintSeeds;;
  buffer_accrual_accounts (sa_buffer_accounts (tp_supply ctx));;
  proceeds ← get_or_create_configurable_vault_token_account ConfigurableVaultKind.OfferProceeds
    (tp_offer_proceeds_vault ctx) (tp_offer_proceeds_token_in_account ctx) (to_user base)
    (to_token_in_mint base) (to_token_in_program base);
  permissionless_token_out ← get_associated_token_account
    (tp_permissionless_token_out_account ctx) (tp_permissionless_authority ctx)
    (to_token_out_mint base) (to_token_out_program base)
    OnreError.InvalidPermissionlessTokenOutAccount;
  permissionless_token_in ← get_associated_token_account
    (tp_permissionless_token_in_account ctx) (tp_permissionless_authority ctx)
    (to_token_in_mint base) (to_token_in_program base) OnreError.InvalidVaultTokenInAccount;
  user_token_out ← get_or_create_associated_token_account (to_user_token_out_account base)
    (to_user base) (to_token_out_mint base) (to_token_out_program base)
    OnreError.InvalidUserTokenOutAccount;
  fee_account ← get_or_create_configurable_vault_token_account
    ConfigurableVaultKind.PermissionlessOfferFee
    (tp_permissionless_offer_fee_vault ctx) (tp_permissionless_offer_fee_token_in_account ctx)
    (to_user base) (to_token_in_mint base) (to_token_in_program base);
  execute_take_offer_permissionless base st offer token_in_mint token_out_mint token_in_amount
    (tp_permissionless_authority ctx) (ta_key permissionless_token_in)
    (ta_key permissionless_token_out) (ta_key proceeds) (ta_key fee_account)
    (ta_key user_token_out) (Some (Offer.permissionless_fee_basis_points offer))
    (Some (tp_supply ctx, tp_refill ctx)).

End take_offer.
