(* ===== verification/PropAmmMath.v ===== *)
(** * Prop AMM arithmetic

    [src/instructions/prop_amm/hard_wall_math.rs] (fixed-point powers) and the
    pure part of [pricing.rs]: the sell-pressure tracker, the dynamic wall, the
    cadence wave and the dampened output of a sell.  *)

From S2P Require Import Prelude Errors Accounts MathUtils OfferPricing.
Open Scope Z_scope.

Definition mul_overflow {A} (o : option A) : Result A := ok_or_onre o OnreError.MathOverflow.
Definition div_by_zero {A} (o : option A) : Result A := ok_or_onre o OnreError.DivByZero.

(** [n.is_multiple_of(d)] for [d] not zero. *)
Definition is_multiple_of (n d : Z) : bool := n mod d =? 0.

(** ** Fixed-point powers ([hard_wall_math.rs]) *)

Definition HARD_WALL_SCALE : Z := 1000000000000.
Definition POW_APPROX_Q_SHIFT : Z := 40.
Definition POW_APPROX_Q : Z := Z.shiftl 1 POW_APPROX_Q_SHIFT.
Definition POW_APPROX_LN2_Q : Z := 762123384786.
Definition POW_APPROX_LOG2_E_Q : Z := 1586259972792.
Definition LOG2_HARD_WALL_SCALE_Q : Z := 43829982801540.

(** [bps_to_hard_wall_scale]. *)
Definition bps_to_hard_wall_scale (bps : Z) : Result Z :=
  p ← mul_overflow (u128.checked_mul HARD_WALL_SCALE bps);
  div_by_zero (u128.checked_div p MAX_BASIS_POINTS).

(** [mul_scaled_saturating]. *)
Definition mul_scaled_saturating (lhs rhs : Z) : Z :=
  default u128.MAX (u128.checked_div (u128.saturating_mul lhs rhs) HARD_WALL_SCALE).

(** [integer_utilization_power_scaled]. *)
Definition integer_utilization_power_scaled (u exponent : Z) : Z :=
  Nat.iter (Z.to_nat exponent) (fun value => mul_scaled_saturating value u) HARD_WALL_SCALE.

(** The loop of [log2_integer_q] over the odd divisors. *)
Fixpoint log_terms (divisors : list Z) (z2 term sum : Z) : Z :=
  match divisors with
  | [] => sum
  | divisor :: rest =>
      let term := Z.shiftr (u128.saturating_mul term z2) POW_APPROX_Q_SHIFT in
      log_terms rest z2 term (u128.saturating_add sum (term / divisor))
  end.

(** [log2_integer_q], for a positive value. *)
Definition log2_integer_q (value : Z) : Z :=
  let msb := Z.log2 value in
  let shift := msb - POW_APPROX_Q_SHIFT in
  let mantissa_q :=
    if 0 <=? shift then Z.shiftr value shift else wrap_u 128 (Z.shiftl value (- shift)) in
  let z := u128.saturating_mul (u128.saturating_sub mantissa_q POW_APPROX_Q) POW_APPROX_Q
           / u128.saturating_add mantissa_q POW_APPROX_Q in
  let z2 := Z.shiftr (u128.saturating_mul z z) POW_APPROX_Q_SHIFT in
  let sum := log_terms [3; 5; 7; 9; 11; 13] z2 z z in
  let ln_mantissa_q := u128.saturating_mul sum 2 in
  let fractional_q :=
    Z.shiftr (u128.saturating_mul ln_mantissa_q POW_APPROX_LOG2_E_Q) POW_APPROX_Q_SHIFT in
  i128.saturating_add (i128.saturating_mul msb POW_APPROX_Q) fractional_q.

(** [log2_hard_wall_scaled_q]. *)
Definition log2_hard_wall_scaled_q (value : Z) : Result Z :=
  panicking (i128.checked_sub (log2_integer_q value) LOG2_HARD_WALL_SCALE_Q).

(** The Taylor loop of [exp2_hard_wall_scaled_q]. *)
Fixpoint exp_terms (divisors : list Z) (x_q term sum : Z) : Z :=
  match divisors with
  | [] => sum
  | divisor :: rest =>
      let term := Z.shiftr (u128.saturating_mul term x_q) POW_APPROX_Q_SHIFT / divisor in
      exp_terms rest x_q term (u128.saturating_add sum term)
  end.

(** [exp2_hard_wall_scaled_q]; [i128] division truncates towards zero. *)
Definition exp2_hard_wall_scaled_q (log2_value_q : Z) : Z :=
  let q := POW_APPROX_Q in
  let integer_part := Z.quot log2_value_q q in
  let fractional_part := Z.rem log2_value_q q in
  let '(integer_part, fractional_part) :=
    if fractional_part <? 0 then (integer_part - 1, fractional_part + q)
    else (integer_part, fractional_part) in
  let x_q := Z.shiftr (u128.saturating_mul fractional_part POW_APPROX_LN2_Q) POW_APPROX_Q_SHIFT in
  let exp_fraction_q :=
    exp_terms [1; 2; 3; 4; 5; 6; 7; 8; 9; 10] x_q POW_APPROX_Q POW_APPROX_Q in
  let scaled := Z.shiftr (u128.saturating_mul exp_fraction_q HARD_WALL_SCALE) POW_APPROX_Q_SHIFT in
  if 0 <=? integer_part then
    let shift := wrap_u 32 integer_part in
    if u128.BITS <=? shift then u128.MAX
    else if Z.shiftr u128.MAX shift <? scaled then u128.MAX
    else Z.shiftl scaled shift
  else
    let shift := wrap_u 32 (- integer_part) in
    if u128.BITS <=? shift then 0 else Z.shiftr scaled shift.

(** [validate_curve_exponent_scaled]. *)
Definition validate_curve_exponent_scaled (exponent_scaled : Z) : Result unit :=
  _ ← require_onre (exponent_scaled <=? u32.saturating_mul CURVE_EXPONENT_SCALE 10)
    OnreError.InvalidAmount;
  require_onre (is_multiple_of exponent_scaled CURVE_EXPONENT_STEP) OnreError.InvalidAmount.

(** [utilization_power_scaled]. *)
Definition utilization_power_scaled (u exponent_scaled : Z) : Result Z :=
  _ ← validate_curve_exponent_scaled exponent_scaled;
  if exponent_scaled =? 0 then Ok HARD_WALL_SCALE
  else if u =? 0 then Ok 0
  else if u =? HARD_WALL_SCALE then Ok HARD_WALL_SCALE
  else if is_multiple_of exponent_scaled CURVE_EXPONENT_SCALE
  then Ok (integer_utilization_power_scaled u (exponent_scaled / CURVE_EXPONENT_SCALE))
  else
    log2_u_q ← log2_hard_wall_scaled_q u;
    p ← mul_overflow (i128.checked_mul log2_u_q exponent_scaled);
    exponentiated_log_q ← div_by_zero (i128.checked_div p CURVE_EXPONENT_SCALE);
    Ok (exp2_hard_wall_scaled_q exponentiated_log_q).

(** ** The volume tracker ([pricing.rs]) *)

Section tracker.
Import PropAmmPairState.
Implicit Types s : PropAmmPairState.t.

(** A tracker restarted at [now] with the given previous net volume. *)
Definition restart_epoch (now prev : Z) s : PropAmmPairState.t :=
  with_epoch_start now
    (with_curr_sell_trade_count 0
      (with_curr_buy_value_stable 0
        (with_curr_sell_value_stable 0 (with_prev_net_sell_value_stable prev s)))).

(** [roll_prop_amm_volume_tracker]. *)
Definition roll_prop_amm_volume_tracker s (now : Z) : Result PropAmmPairState.t :=
  let epoch_duration := epoch_duration_seconds s in
  _ ← require_onre (0 <? epoch_duration) OnreError.InvalidAmount;
  if (epoch_start s =? 0) || (now <? epoch_start s) then Ok (restart_epoch now 0 s)
  else
    elapsed ← ok_or_onre (i64.checked_sub now (epoch_start s)) OnreError.ArithmeticUnderflow;
    if i64.saturating_mul epoch_duration 2 <=? elapsed then Ok (restart_epoch now 0 s)
    else if epoch_duration <=? elapsed then
      Ok (restart_epoch now
            (u64.saturating_sub (curr_sell_value_stable s) (curr_buy_value_stable s)) s)
    else Ok s.

(** [record_prop_amm_sell]. *)
Definition record_prop_amm_sell s (sell_value_stable now : Z) : Result PropAmmPairState.t :=
  s ← roll_prop_amm_volume_tracker s now;
  v ← mul_overflow (u64.checked_add (curr_sell_value_stable s) sell_value_stable);
  c ← mul_overflow (u32.checked_add (curr_sell_trade_count s) 1);
  Ok (with_curr_sell_trade_count c (with_curr_sell_value_stable v s)).

(** [record_prop_amm_buy]. *)
Definition record_prop_amm_buy s (buy_value_stable now : Z) : Result PropAmmPairState.t :=
  s ← roll_prop_amm_volume_tracker s now;
  v ← mul_overflow (u64.checked_add (curr_buy_value_stable s) buy_value_stable);
  Ok (with_curr_buy_value_stable v s).

(** What [preview_effective_sell_volume] reads of the tracker: the previous net
    volume, the current one, and the time since the epoch began. *)
Definition preview_window s (now : Z) : Result (Z * Z * Z) :=
  let epoch_duration := epoch_duration_seconds s in
  let current_net :=
    u64.saturating_sub (curr_sell_value_stable s) (curr_buy_value_stable s) in
  if (epoch_start s =? 0) || (now <? epoch_start s) then Ok (0, 0, 0)
  else
    elapsed ← ok_or_onre (i64.checked_sub now (epoch_start s)) OnreError.ArithmeticUnderflow;
    if i64.saturating_mul epoch_duration 2 <=? elapsed then Ok (0, 0, 0)
    else if epoch_duration <=? elapsed then Ok (current_net, 0, 0)
    else Ok (prev_net_sell_value_stable s, current_net, elapsed).

(** [preview_effective_sell_volume]. *)
Definition preview_effective_sell_volume s (current_sell_value_stable now : Z) : Result Z :=
  let epoch_duration := epoch_duration_seconds s in
  _ ← require_onre (0 <? epoch_duration) OnreError.InvalidAmount;
  '(prev_net, curr_net, elapsed) ← preview_window s now;
  remaining ← ok_or_onre (i64.checked_sub epoch_duration elapsed) OnreError.ArithmeticUnderflow;
  weighted ← mul_overflow (u128.checked_mul prev_net (wrap_u 128 remaining));
  decayed_prev ← div_by_zero (u128.checked_div weighted (wrap_u 128 epoch_duration));
  effective ← mul_overflow
    (v ← u128.checked_add decayed_prev curr_net; u128.checked_add v current_sell_value_stable);
  _ ← require_onre (effective <=? u64.MAX) OnreError.MathOverflow;
  Ok effective.

(** [preview_current_sell_trade_count]. *)
Definition preview_current_sell_trade_count s (now : Z) : Result Z :=
  let epoch_duration := epoch_duration_seconds s in
  _ ← require_onre (0 <? epoch_duration) OnreError.InvalidAmount;
  if (epoch_start s =? 0) || (now <? epoch_start s) then Ok 0
  else
    elapsed ← ok_or_onre (i64.checked_sub now (epoch_start s)) OnreError.ArithmeticUnderflow;
    if epoch_duration <=? elapsed then Ok 0 else Ok (curr_sell_trade_count s).

(** ** The wall *)

(** [dynamic_wall_position]. *)
Definition dynamic_wall_position (actual_liquidity effective_sell_volume wall_sensitivity_scaled : Z)
  : Result Z :=
  _ ← require_onre (0 <? actual_liquidity) OnreError.InsufficientBalance;
  if effective_sell_volume =? 0 then Ok actual_liquidity
  else
    p ← mul_overflow (u128.checked_mul wall_sensitivity_scaled effective_sell_volume);
    sensitivity_component ← div_by_zero (u128.checked_div p actual_liquidity);
    denominator ← mul_overflow (u128.checked_add WALL_SENSITIVITY_SCALE sensitivity_component);
    n ← mul_overflow (u128.checked_mul actual_liquidity WALL_SENSITIVITY_SCALE);
    wall ← div_by_zero (u128.checked_div n denominator);
    _ ← require_onre (wall <=? u64.MAX) OnreError.MathOverflow;
    Ok (Z.max wall 1).

(** [dynamic_wall_liquidity_at_time]. *)
Definition dynamic_wall_liquidity_at_time
    (current_sell_value_stable actual_liquidity hard_wall_reserve : Z) s (now : Z) : Result Z :=
  if wall_sensitivity_scaled s =? 0 then Ok (Z.min actual_liquidity hard_wall_reserve)
  else
    effective_sell_volume ← preview_effective_sell_volume s current_sell_value_stable now;
    if effective_sell_volume =? 0 then
      _ ← require_onre (0 <? actual_liquidity) OnreError.InsufficientBalance;
      Ok (Z.min actual_liquidity hard_wall_reserve)
    else
      wall_position ← dynamic_wall_position actual_liquidity effective_sell_volume
        (wall_sensitivity_scaled s);
      Ok (Z.min wall_position hard_wall_reserve).

(** [hard_wall_reserve_from_tvl]. *)
Definition hard_wall_reserve_from_tvl
    (tvl vault_target_bps token_out_decimals onyc_decimals : Z) : Result Z :=
  p ← mul_overflow (u128.checked_mul tvl vault_target_bps);
  target_in_onyc_decimals ← div_by_zero (u128.checked_div p MAX_BASIS_POINTS);
  token_out_scale ← mul_overflow (u128.checked_pow 10 token_out_decimals);
  onyc_scale ← mul_overflow (u128.checked_pow 10 onyc_decimals);
  v ← mul_overflow (u128.checked_mul target_in_onyc_decimals token_out_scale);
  target ← div_by_zero (u128.checked_div v onyc_scale);
  _ ← require_onre (0 <? target) OnreError.InsufficientBalance;
  _ ← require_onre (target <=? u64.MAX) OnreError.MathOverflow;
  Ok target.

(** ** Haircuts *)

(** [redemption_haircut_scaled]. *)
Definition redemption_haircut_scaled (u curve_peg_haircut_bps curve_exponent_scaled : Z)
  : Result Z :=
  peg_haircut ← bps_to_hard_wall_scale curve_peg_haircut_bps;
  if peg_haircut =? 0 then
    _ ← validate_curve_exponent_scaled curve_exponent_scaled; Ok 0
  else
    utilization_power ← utilization_power_scaled u curve_exponent_scaled;
    div_by_zero (u128.checked_div (u128.saturating_mul peg_haircut utilization_power)
                   HARD_WALL_SCALE).

(** [cadence_wave_y_for_quote_scaled]. *)
Definition cadence_wave_y_for_quote_scaled s (now : Z) : Result Z :=
  let threshold := cadence_threshold s in
  _ ← require_onre (0 <? threshold) OnreError.InvalidAmount;
  _ ← require_onre (cadence_wave_scaled s <=? MAX_CADENCE_WAVE_SCALED) OnreError.InvalidAmount;
  _ ← require_onre (is_multiple_of (cadence_wave_scaled s) CADENCE_WAVE_STEP)
    OnreError.InvalidAmount;
  let max_wave_y := cadence_wave_scaled s in
  if max_wave_y =? 0 then Ok 0
  else
    quote_trade_count ← preview_current_sell_trade_count s now;
    if quote_trade_count =? 0 then Ok 0
    else
      ramp ←
        (if threshold <=? quote_trade_count then Ok CADENCE_WAVE_SCALE
         else p ← mul_overflow (u128.checked_mul quote_trade_count CADENCE_WAVE_SCALE);
              div_by_zero (u128.checked_div p threshold));
      p ← mul_overflow (u128.checked_mul max_wave_y ramp);
      div_by_zero (u128.checked_div p CADENCE_WAVE_SCALE).

(** [cadence_wave_target_haircut_scaled]. *)
Definition cadence_wave_target_haircut_scaled (u wave_y_scaled : Z) : Result Z :=
  if wave_y_scaled =? 0 then Ok 0
  else
    let normalized := Z.min u HARD_WALL_SCALE in
    if normalized =? 0 then Ok 0
    else
      let remaining := u128.saturating_sub HARD_WALL_SCALE normalized in
      let eased_numerator := u128.saturating_mul normalized CADENCE_WAVE_EASE in
      eased_denominator ← mul_overflow (u128.checked_add eased_numerator remaining);
      eased_rise ← div_by_zero
        (u128.checked_div (u128.saturating_mul eased_numerator HARD_WALL_SCALE) eased_denominator);
      cap ← mul_overflow (u128.checked_mul CADENCE_WAVE_SCALE CADENCE_WAVE_CAP_DIVISOR);
      target_haircut ← div_by_zero
        (u128.checked_div (u128.saturating_mul eased_rise wave_y_scaled) cap);
      Ok (Z.min target_haircut HARD_WALL_SCALE).

(** ** The output of a sell *)

(** The utilization of [apply_hard_wall_liquidity_factor_at_time]. *)
Definition utilization_scaled (token_out_amount effective_liquidity : Z) : Result Z :=
  if token_out_amount =? 0 then Ok 0
  else if token_out_amount =? effective_liquidity then Ok HARD_WALL_SCALE
  else
    p ← mul_overflow (u128.checked_mul token_out_amount HARD_WALL_SCALE);
    div_by_zero (u128.checked_div p effective_liquidity).

(** [apply_hard_wall_liquidity_factor_at_time]. *)
Definition apply_hard_wall_liquidity_factor_at_time
    (token_out_amount actual_liquidity hard_wall_reserve : Z) s (now : Z) : Result Z :=
  _ ← require_onre (0 <? actual_liquidity) OnreError.InsufficientBalance;
  _ ← require_onre (0 <? hard_wall_reserve) OnreError.InsufficientBalance;
  _ ← require_onre (token_out_amount <=? actual_liquidity) OnreError.InsufficientBalance;
  effective_liquidity ← dynamic_wall_liquidity_at_time token_out_amount actual_liquidity
    hard_wall_reserve s now;
  u ← utilization_scaled token_out_amount effective_liquidity;
  base_haircut ← redemption_haircut_scaled u (curve_peg_haircut_bps s) (curve_exponent_scaled s);
  cadence_wave_y ← cadence_wave_y_for_quote_scaled s now;
  cadence_target_haircut ← cadence_wave_target_haircut_scaled u cadence_wave_y;
  let haircut := Z.max base_haircut cadence_target_haircut in
  let liquidity_factor := u128.saturating_sub HARD_WALL_SCALE haircut in
  p ← mul_overflow (u128.checked_mul token_out_amount liquidity_factor);
  dampened_amount ← div_by_zero (u128.checked_div p HARD_WALL_SCALE);
  _ ← require_onre (dampened_amount <=? u64.MAX) OnreError.MathOverflow;
  Ok dampened_amount.

(** [apply_hard_wall_reserve_curve_with_params] at clock [now]. *)
Definition apply_hard_wall_reserve_curve_with_params
    (token_out_amount actual_liquidity hard_wall_reserve
     curve_peg_haircut_bps curve_exponent_scaled now : Z) : Result Z :=
  let s := PropAmmPairState.mk Pubkey_default Pubkey_default Pubkey_default false
    curve_peg_haircut_bps curve_exponent_scaled DEFAULT_CADENCE_THRESHOLD 0
    DEFAULT_EPOCH_DURATION_SECONDS 0 DEFAULT_MINIMUM_SELL_HAIRCUT_ONYC 0 0 0 0 now 0 in
  apply_hard_wall_liquidity_factor_at_time token_out_amount actual_liquidity hard_wall_reserve s
    now.
End tracker.
