(* ===== verification/PropAmm.v ===== *)
(** * Prop AMM

    [src/instructions/prop_amm/]: pair configuration, pair validation, quotes and
    the two swaps.  The pricing arithmetic is in [PropAmmMath].  *)

From S2P Require Import World MathUtils OfferPricing TokenUtils OfferHandlers MarketInfo Buffer Vaults Redemption TakeOffer PropAmmMath.
Open Scope string_scope.
Open Scope Z_scope.

(** [SwapSide]. *)
Module SwapSide.
Inductive t : Type := Buy | Sell.
Definition eqb (a b : t) : bool :=
  match a, b with Buy, Buy | Sell, Sell => true | _, _ => false end.
End SwapSide.

(** [SwapQuote]. *)
Record SwapQuote : Type := mkSwapQuote {
  sq_offer : Pubkey;
  sq_token_in_mint : Pubkey;
  sq_token_out_mint : Pubkey;
  sq_token_in_amount : Z;
  sq_token_in_net_amount : Z;
  sq_token_in_fee_amount : Z;
  sq_token_out_amount : Z;
  sq_minimum_out : Z;
  sq_current_price : Z;
  sq_quoted_at : Z
}.

(** [RedemptionOfferConfig] and [SellQuoteLiquidityContext]. *)
Record RedemptionOfferConfig : Type := mkRedemptionOfferConfig {
  roc_fee_basis_points_prop_amm_sell : Z;
  roc_vault_target_bps : Z
}.
Record SellQuoteLiquidityContext : Type := mkSellQuoteLiquidityContext {
  slc_fee_basis_points_prop_amm_sell : Z;
  slc_actual_liquidity : Z;
  slc_hard_wall_reserve : Z
}.

Section prop_amm.
Context {R : Runtime} {L : Type} {TL : TokenLedger L}.

(** ** Validation ([validation.rs]) *)

(** [resolve_swap_side]. *)
Definition resolve_swap_side (st : State.t) (token_in_mint token_out_mint : Pubkey)
  : Result (SwapSide.t * Pubkey) :=
  _ ← require_onre (negb (key_eqb token_in_mint token_out_mint)) OnreError.InvalidSwapPair;
  if key_eqb token_out_mint (State.onyc_mint st) && negb (key_eqb token_in_mint (State.onyc_mint st))
  then Ok (SwapSide.Buy, token_in_mint)
  else if key_eqb token_in_mint (State.onyc_mint st)
          && negb (key_eqb token_out_mint (State.onyc_mint st))
  then Ok (SwapSide.Sell, token_out_mint)
  else Err (Onre OnreError.InvalidSwapPair).

(** [validate_canonical_offer]. *)
Definition validate_canonical_offer (st : State.t) (offer_key token_in_mint token_out_mint : Pubkey)
  : Result SwapSide.t :=
  '(side, asset_mint) ← resolve_swap_side st token_in_mint token_out_mint;
  _ ← require_keys_eq offer_key (offer_pda asset_mint (State.onyc_mint st)) OnreError.OfferMismatch;
  Ok side.

(** [validate_prop_amm_pair_state]. *)
Definition validate_prop_amm_pair_state (st : State.t) (s : PropAmmPairState.t)
    (offer_key token_in_mint token_out_mint : Pubkey) : Result SwapSide.t :=
  '(side, asset_mint) ← resolve_swap_side st token_in_mint token_out_mint;
  _ ← require_keys_eq (PropAmmPairState.offer s) offer_key OnreError.InvalidPropAmmPairState;
  _ ← require_keys_eq (PropAmmPairState.asset_mint s) asset_mint OnreError.InvalidPropAmmPairState;
  _ ← require_keys_eq (PropAmmPairState.onyc_mint s) (State.onyc_mint st)
    OnreError.InvalidPropAmmPairState;
  _ ← require_onre (PropAmmPairState.enabled s) OnreError.PropAmmPairDisabled;
  Ok side.

(** [validate_prop_amm_pair_for_side]. *)
Definition validate_prop_amm_pair_for_side (st : State.t) (s : PropAmmPairState.t)
    (offer_key token_in_mint token_out_mint : Pubkey) (expected_side : SwapSide.t) : Result unit :=
  side ← validate_canonical_offer st offer_key token_in_mint token_out_mint;
  _ ← require_onre (SwapSide.eqb side expected_side) OnreError.InvalidSwapPair;
  pair_side ← validate_prop_amm_pair_state st s offer_key token_in_mint token_out_mint;
  require_onre (SwapSide.eqb pair_side expected_side) OnreError.InvalidSwapPair.

(** ** Configuration ([config.rs]) *)

Definition pair_seeds (offer : Pubkey) : list Seed := [seeds.PROP_AMM_PAIR_STATE; SeedKey offer].

(** [Account<PropAmmPairState>] at the pair's address. *)
Definition pair_account (k offer : Pubkey) : M L PropAmmPairState.t :=
  s ← load_account prop_amm_pairs k;
  constraint (key_eqb k (pda (pair_seeds offer))) ConstraintSeeds;;
  mret s.

Definition store_pair (k : Pubkey) (s : PropAmmPairState.t) : M L unit :=
  modify (fun w => set_prop_amm_pairs (<[k := s]> (prop_amm_pairs w)) w).

(** The arguments of [configure_prop_amm]. *)
Record PropAmmConfig : Type := mkPropAmmConfig {
  pc_enabled : bool;
  pc_curve_peg_haircut_bps : Z;
  pc_curve_exponent_scaled : Z;
  pc_cadence_threshold : Z;
  pc_cadence_wave_scaled : Z;
  pc_epoch_duration_seconds : Z;
  pc_wall_sensitivity_scaled : Z;
  pc_minimum_sell_haircut_onyc : Z
}.

(** The range checks of [configure_prop_amm]. *)
Definition validate_config (c : PropAmmConfig) : Result unit :=
  _ ← require_onre (pc_curve_peg_haircut_bps c <=? MAX_BASIS_POINTS) OnreError.InvalidAmount;
  _ ← require_onre ((CURVE_EXPONENT_STEP <=? pc_curve_exponent_scaled c)
                    && (pc_curve_exponent_scaled c <=? u32.saturating_mul CURVE_EXPONENT_SCALE 10))
        OnreError.InvalidAmount;
  _ ← require_onre (is_multiple_of (pc_curve_exponent_scaled c) CURVE_EXPONENT_STEP)
        OnreError.InvalidAmount;
  _ ← require_onre (0 <? pc_cadence_threshold c) OnreError.InvalidAmount;
  _ ← require_onre (pc_cadence_wave_scaled c <=? MAX_CADENCE_WAVE_SCALED) OnreError.InvalidAmount;
  _ ← require_onre (is_multiple_of (pc_cadence_wave_scaled c) CADENCE_WAVE_STEP)
        OnreError.InvalidAmount;
  _ ← require_onre (0 <? pc_epoch_duration_seconds c) OnreError.InvalidAmount;
  require_onre (0 <? pc_wall_sensitivity_scaled c) OnreError.InvalidAmount.

(** A pair account as [init_if_needed] creates it. *)
Definition zeroed_pair : PropAmmPairState.t :=
  PropAmmPairState.mk Pubkey_default Pubkey_default Pubkey_default false 0 0 0 0 0 0 0 0 0 0 0 0 0.

(** The update of [configure_prop_amm]: the volume tracker is kept. *)
Definition configured_pair (offer asset_mint onyc_mint : Pubkey) (c : PropAmmConfig)
    (now bump : Z) (s : PropAmmPairState.t) : PropAmmPairState.t :=
  PropAmmPairState.mk offer asset_mint onyc_mint (pc_enabled c) (pc_curve_peg_haircut_bps c)
    (pc_curve_exponent_scaled c) (pc_cadence_threshold c) (pc_cadence_wave_scaled c)
    (pc_epoch_duration_seconds c) (pc_wall_sensitivity_scaled c) (pc_minimum_sell_haircut_onyc c)
    (PropAmmPairState.curr_sell_value_stable s) (PropAmmPairState.curr_buy_value_stable s)
    (PropAmmPairState.prev_net_sell_value_stable s) (PropAmmPairState.curr_sell_trade_count s)
    (if PropAmmPairState.epoch_start s =? 0 then now else PropAmmPairState.epoch_start s) bump.

(** [ConfigurePropAmm]. *)
Definition ConfigurePropAmm_accounts (offer_key asset_mint pair boss : Pubkey)
  : M L (State.t * Offer.t * PropAmmPairState.t) :=
  st ← gets state;
  offer ← load_account offers offer_key;
  _ ← load_mint asset_mint;
  constraint (key_eqb pair (pda (pair_seeds offer_key))) ConstraintSeeds;;
  pairs ← gets prop_amm_pairs;
  s ← match pairs !! pair with
      | Some s => mret s
      | None => if create_account_succeeds boss pair then mret zeroed_pair else fail CpiError
      end;
  guard (key_eqb (State.boss st) boss) OnreError.InvalidBoss;;
  constraint (key_eqb offer_key (offer_pda asset_mint (State.onyc_mint st))) ConstraintSeeds;;
  mret (st, offer, s).

(** [configure_prop_amm]. *)
Definition configure_prop_amm (offer_key asset_mint pair boss : Pubkey) (c : PropAmmConfig)
  : M L unit :=
  '(st, offer, s) ← ConfigurePropAmm_accounts offer_key asset_mint pair boss;
  lift (validate_config c);;
  lift (Offer.require_mints offer asset_mint (State.onyc_mint st));;
  clock ← Clock_get;
  store_pair pair
    (configured_pair offer_key asset_mint (State.onyc_mint st) c (Clock.unix_timestamp clock)
       (pda_bump (pair_seeds offer_key)) s);;
  emit "PropAmmConfiguredEvent"
    [("offer", FKey offer_key); ("asset_mint", FKey asset_mint);
     ("onyc_mint", FKey (State.onyc_mint st));
     ("old_enabled", FBool (PropAmmPairState.enabled s)); ("new_enabled", FBool (pc_enabled c));
     ("old_curve_peg_haircut_bps", FNum (PropAmmPairState.curve_peg_haircut_bps s));
     ("new_curve_peg_haircut_bps", FNum (pc_curve_peg_haircut_bps c));
     ("old_curve_exponent_scaled", FNum (PropAmmPairState.curve_exponent_scaled s));
     ("new_curve_exponent_scaled", FNum (pc_curve_exponent_scaled c));
     ("old_cadence_threshold", FNum (PropAmmPairState.cadence_threshold s));
     ("new_cadence_threshold", FNum (pc_cadence_threshold c));
     ("old_cadence_wave_scaled", FNum (PropAmmPairState.cadence_wave_scaled s));
     ("new_cadence_wave_scaled", FNum (pc_cadence_wave_scaled c));
     ("old_epoch_duration_seconds", FNum (PropAmmPairState.epoch_duration_seconds s));
     ("new_epoch_duration_seconds", FNum (pc_epoch_duration_seconds c));
     ("old_wall_sensitivity_scaled", FNum (PropAmmPairState.wall_sensitivity_scaled s));
     ("new_wall_sensitivity_scaled", FNum (pc_wall_sensitivity_scaled c));
     ("old_minimum_sell_haircut_onyc", FNum (PropAmmPairState.minimum_sell_haircut_onyc s));
     ("new_minimum_sell_haircut_onyc", FNum (pc_minimum_sell_haircut_onyc c))].

(** ** Liquidity ([pricing.rs]) *)

(** [redemption_offer_config]: a missing redemption offer has no fee and no
    target, a disabled one stops the sell. *)
Definition redemption_offer_config
    (redemption_offer_account offer_key token_in_mint token_out_mint : Pubkey)
  : M L RedemptionOfferConfig :=
  ro ← load_optional_checked_redemption_offer redemption_offer_account offer_key token_in_mint
    token_out_mint;
  match ro with
  | None => mret (mkRedemptionOfferConfig 0 0)
  | Some o =>
      lift (RedemptionOffer.require_enabled o);;
      mret (mkRedemptionOfferConfig (RedemptionOffer.fee_basis_points_prop_amm_sell o)
              (RedemptionOffer.vault_target_bps o))
  end.

(** [validate_market_stats_pda]. *)
Definition validate_market_stats_pda (market_stats_account : Pubkey) : M L unit :=
  lift (require_keys_eq (pda [seeds.MARKET_STATS]) market_stats_account
          OnreError.InvalidMarketStatsPda).

(** [resolve_hard_wall_reserve]. *)
Definition resolve_hard_wall_reserve (market_stats_account : Pubkey)
    (actual_liquidity vault_target_bps token_out_decimals onyc_decimals : Z) : M L Z :=
  if vault_target_bps =? 0 then mret actual_liquidity
  else
    market_stats ← read_market_stats_account market_stats_account;
    target_reserve ← lift (hard_wall_reserve_from_tvl (MarketStats.tvl market_stats)
      vault_target_bps token_out_decimals onyc_decimals);
    mret (Z.min actual_liquidity target_reserve).

(** [sell_quote_liquidity_context]. *)
Definition sell_quote_liquidity_context
    (redemption_offer_account offer_key : Pubkey) (token_in_mint token_out_mint : MintAccount)
    (market_stats_account : Pubkey) (actual_liquidity : Z) : M L SellQuoteLiquidityContext :=
  config ← redemption_offer_config redemption_offer_account offer_key (mint_key token_in_mint)
    (mint_key token_out_mint);
  hard_wall_reserve ← resolve_hard_wall_reserve market_stats_account actual_liquidity
    (roc_vault_target_bps config) (decimals token_out_mint) (decimals token_in_mint);
  mret (mkSellQuoteLiquidityContext (roc_fee_basis_points_prop_amm_sell config) actual_liquidity
          hard_wall_reserve).

(** [apply_hard_wall_liquidity_factor] and [dynamic_wall_liquidity]: the same at
    the current clock. *)
Definition apply_hard_wall_liquidity_factor
    (token_out_amount actual_liquidity hard_wall_reserve : Z) (s : PropAmmPairState.t) : M L Z :=
  clock ← Clock_get;
  lift (apply_hard_wall_liquidity_factor_at_time token_out_amount actual_liquidity
          hard_wall_reserve s (Clock.unix_timestamp clock)).
Definition dynamic_wall_liquidity
    (current_sell_value_stable actual_liquidity hard_wall_reserve : Z) (s : PropAmmPairState.t)
  : M L Z :=
  clock ← Clock_get;
  lift (dynamic_wall_liquidity_at_time current_sell_value_stable actual_liquidity
          hard_wall_reserve s (Clock.unix_timestamp clock)).

(** The payout of a sell: the raw redemption value and its dampened output. *)
Definition sell_payout (offer : Offer.t) (s : PropAmmPairState.t)
    (token_in_amount actual_liquidity hard_wall_reserve fee_basis_points : Z)
    (token_in_mint token_out_mint : MintAccount) : M L (RedemptionProcessResult * Z) :=
  clock ← Clock_get;
  result ← lift (process_redemption_core offer (timestamp_u64 clock) token_in_amount token_in_mint
    token_out_mint fee_basis_points (PropAmmPairState.minimum_sell_haircut_onyc s));
  out ← apply_hard_wall_liquidity_factor (rpr_token_out_amount result) actual_liquidity
    hard_wall_reserve s;
  mret (result, out).

(** ** Quotes ([quote.rs]) *)

(** [build_swap_buy_quote]. *)
Definition build_swap_buy_quote (st : State.t) (offer_key : Pubkey) (offer : Offer.t)
    (s : PropAmmPairState.t) (token_in_amount : Z) (token_in_mint token_out_mint : MintAccount)
  : M L SwapQuote :=
  clock ← Clock_get;
  lift (Offer.require_enabled offer);;
  lift (validate_prop_amm_pair_for_side st s offer_key (mint_key token_in_mint)
          (mint_key token_out_mint) SwapSide.Buy);;
  result ← process_offer_core offer token_in_amount token_in_mint token_out_mint
    (Offer.permissionless_fee_basis_points offer);
  mret (mkSwapQuote offer_key (mint_key token_in_mint) (mint_key token_out_mint) token_in_amount
          (opr_token_in_net_amount result) (opr_token_in_fee_amount result)
          (opr_token_out_amount result) (opr_token_out_amount result)
          (opr_current_price result) (Clock.unix_timestamp clock)).

(** [build_swap_sell_quote]. *)
Definition build_swap_sell_quote (st : State.t) (offer_key : Pubkey) (offer : Offer.t)
    (s : PropAmmPairState.t) (actual_liquidity hard_wall_reserve fee_basis_points : Z)
    (token_in_amount : Z) (token_in_mint token_out_mint : MintAccount) : M L SwapQuote :=
  clock ← Clock_get;
  lift (Offer.require_enabled offer);;
  lift (validate_prop_amm_pair_for_side st s offer_key (mint_key token_in_mint)
          (mint_key token_out_mint) SwapSide.Sell);;
  '(result, out) ← sell_payout offer s token_in_amount actual_liquidity hard_wall_reserve
    fee_basis_points token_in_mint token_out_mint;
  mret (mkSwapQuote offer_key (mint_key token_in_mint) (mint_key token_out_mint) token_in_amount
          (rpr_token_in_net_amount result) (rpr_token_in_fee_amount result) out out
          (rpr_price result) (Clock.unix_timestamp clock)).

(** [require_quote_mints_without_transfer_fees]. *)
Definition require_quote_mints_without_transfer_fees (token_in_mint token_out_mint : MintAccount)
  : M L unit :=
  guard (negb (has_transfer_fee token_in_mint)) OnreError.TransferFeeNotSupported;;
  guard (negb (has_transfer_fee token_out_mint)) OnreError.TransferFeeNotSupported.

(** The accounts of [QuoteSwapBuy]. *)
Definition QuoteSwapBuy_accounts (offer_key pair token_in_mint_key token_out_mint_key : Pubkey)
  : M L (Offer.t * PropAmmPairState.t * State.t * MintAccount * MintAccount) :=
  offer ← load_account offers offer_key;
  s ← pair_account pair offer_key;
  st ← live_state;
  token_in_mint ← load_mint token_in_mint_key;
  token_out_mint ← load_mint token_out_mint_key;
  mret (offer, s, st, token_in_mint, token_out_mint).

(** [quote_swap_buy]: the quote is the return data. *)
Definition quote_swap_buy (offer_key pair token_in_mint_key token_out_mint_key : Pubkey)
    (token_in_amount : Z) : M L SwapQuote :=
  '(offer, s, st, token_in_mint, token_out_mint) ←
    QuoteSwapBuy_accounts offer_key pair token_in_mint_key token_out_mint_key;
  require_quote_mints_without_transfer_fees token_in_mint token_out_mint;;
  build_swap_buy_quote st offer_key offer s token_in_amount token_in_mint token_out_mint.

(** The accounts of [QuoteSwapSell]. *)
Definition QuoteSwapSell_accounts
    (offer_key pair redemption_offer redemption_vault_token_out_account token_in_mint_key
     token_out_mint_key token_out_program : Pubkey)
  : M L (Offer.t * PropAmmPairState.t * State.t * TokenAccountInfo * MintAccount * MintAccount) :=
  offer ← load_account offers offer_key;
  s ← pair_account pair offer_key;
  constraint (key_eqb redemption_offer (redemption_offer_pda token_in_mint_key token_out_mint_key))
    ConstraintSeeds;;
  st ← live_state;
  vault ← ata_account redemption_vault_token_out_account redemption_vault_authority_key
    token_out_mint_key token_out_program;
  token_in_mint ← load_mint token_in_mint_key;
  token_out_mint ← load_mint token_out_mint_key;
  mret (offer, s, st, vault, token_in_mint, token_out_mint).

(** [quote_swap_sell]. *)
Definition quote_swap_sell
    (offer_key pair redemption_offer redemption_vault_token_out_account token_in_mint_key
     token_out_mint_key token_out_program market_stats : Pubkey)
    (token_in_amount : Z) : M L SwapQuote :=
  '(offer, s, st, vault, token_in_mint, token_out_mint) ←
    QuoteSwapSell_accounts offer_key pair redemption_offer redemption_vault_token_out_account
      token_in_mint_key token_out_mint_key token_out_program;
  require_quote_mints_without_transfer_fees token_in_mint token_out_mint;;
  validate_market_stats_pda market_stats;;
  liquidity ← sell_quote_liquidity_context redemption_offer offer_key token_in_mint token_out_mint
    market_stats (TokenAccount.amount (ta_data vault));
  build_swap_sell_quote st offer_key offer s (slc_actual_liquidity liquidity)
    (slc_hard_wall_reserve liquidity) (slc_fee_basis_points_prop_amm_sell liquidity)
    token_in_amount token_in_mint token_out_mint.

(** ** Buying ([buy.rs]) *)

(** [OpenSwapBuy]. *)
Record OpenSwapBuy : Type := mkOpenSwapBuy {
  sb_offer : Pubkey;
  sb_prop_amm_pair_state : Pubkey;
  sb_redemption_offer : Pubkey;
  sb_offer_vault_token_in_account : Pubkey;
  sb_offer_vault_token_out_account : Pubkey;
  sb_redemption_vault_token_in_account : Pubkey;
  sb_token_in_mint : Pubkey;
  sb_token_in_program : Pubkey;
  sb_token_out_mint : Pubkey;
  sb_token_out_program : Pubkey;
  sb_user_token_in_account : Pubkey;
  sb_user_token_out_account : Pubkey;
  sb_prop_amm_proceeds_vault : Pubkey;
  sb_prop_amm_proceeds_token_in_account : Pubkey;
  sb_prop_amm_buy_fee_vault : Pubkey;
  sb_prop_amm_buy_fee_token_in_account : Pubkey;
  sb_permissionless_token_in_account : Pubkey;
  sb_permissionless_token_out_account : Pubkey;
  sb_supply : SupplyAccounts;
  sb_user : Pubkey
}.

Definition permissionless_authority_key : Pubkey := pda [seeds.PERMISSIONLESS_AUTHORITY].
Definition offer_vault_authority_key : Pubkey := pda [seeds.OFFER_VAULT_AUTHORITY].

Definition OpenSwapBuy_accounts (ctx : OpenSwapBuy)
  : M L (State.t * Offer.t * PropAmmPairState.t * MintAccount * MintAccount) :=
  offer ← load_account offers (sb_offer ctx);
  s ← pair_account (sb_prop_amm_pair_state ctx) (sb_offer ctx);
  constraint (key_eqb (sb_redemption_offer ctx)
                (redemption_offer_pda (sb_token_out_mint ctx) (sb_token_in_mint ctx)))
    ConstraintSeeds;;
  st ← live_state;
  token_in_mint ← load_mint (sb_token_in_mint ctx);
  token_out_mint ← load_mint (sb_token_out_mint ctx);
  constraint (key_eqb (sb_prop_amm_proceeds_vault ctx)
                (vault_key ConfigurableVaultKind.PropAmmProceeds)) ConstraintSeeds;;
  constraint (key_eqb (sb_prop_amm_buy_fee_vault ctx)
                (vault_key ConfigurableVaultKind.PropAmmBuyFee)) ConstraintSeeds;;
  buffer_accrual_accounts (sa_buffer_accounts (sb_supply ctx));;
  constraint (key_eqb (sa_market_stats (sb_supply ctx)) (pda [seeds.MARKET_STATS]))
    ConstraintSeeds;;
  constraint (key_eqb (sa_circulating_supply_excluded_balance (sb_supply ctx))
                (pda [seeds.CIRCULATING_SUPPLY_EXCLUDED_BALANCE])) ConstraintSeeds;;
  mret (st, offer, s, token_in_mint, token_out_mint).

(** The split of token_in a buy makes out of the intermediary account. *)
Definition buy_distribute_token_in (ctx : OpenSwapBuy) (token_in_mint : MintAccount)
    (refill_amount boss_net_amount fee : Z) : M L unit :=
  when (0 <? refill_amount)
    (transfer_tokens token_in_mint (sb_token_in_program ctx)
       (sb_permissionless_token_in_account ctx) (sb_redemption_vault_token_in_account ctx)
       permissionless_authority_key refill_amount);;
  when (0 <? boss_net_amount)
    (transfer_tokens token_in_mint (sb_token_in_program ctx)
       (sb_permissionless_token_in_account ctx) (sb_prop_amm_proceeds_token_in_account ctx)
       permissionless_authority_key boss_net_amount);;
  when (0 <? fee)
    (transfer_tokens token_in_mint (sb_token_in_program ctx)
       (sb_permissionless_token_in_account ctx) (sb_prop_amm_buy_fee_token_in_account ctx)
       permissionless_authority_key fee).

(** The delivery of token_out. *)
Definition buy_deliver_token_out (ctx : OpenSwapBuy) (st : State.t) (token_out_mint : MintAccount)
    (amount : Z) : M L unit :=
  if program_controls_mint token_out_mint mint_authority_key then
    mint_tokens (sb_token_out_program ctx) token_out_mint (sb_user_token_out_account ctx)
      mint_authority_key amount (State.max_supply st) (State.max_mint_amount st)
  else
    transfer_tokens token_out_mint (sb_token_out_program ctx)
      (sb_offer_vault_token_out_account ctx) (sb_permissionless_token_out_account ctx)
      offer_vault_authority_key amount;;
    transfer_tokens token_out_mint (sb_token_out_program ctx)
      (sb_permissionless_token_out_account ctx) (sb_user_token_out_account ctx)
      permissionless_authority_key amount.

(** The token accounts [execute_open_swap_buy] loads or creates; the result is the
    redemption vault's token_in account. *)
Definition open_swap_buy_token_accounts (ctx : OpenSwapBuy) : M L TokenAccountInfo :=
  let token_in := sb_token_in_mint ctx in
  let token_out := sb_token_out_mint ctx in
  let in_program := sb_token_in_program ctx in
  let out_program := sb_token_out_program ctx in
  _ ← get_associated_token_account (sb_user_token_in_account ctx) (sb_user ctx) token_in in_program
        OnreError.InvalidAmount;
  _ ← get_or_create_associated_token_account (sb_user_token_out_account ctx) (sb_user ctx)
        token_out out_program OnreError.InvalidUserTokenOutAccount;
  _ ← get_or_create_configurable_vault_token_account_pair
        ConfigurableVaultKind.PropAmmProceeds ConfigurableVaultKind.PropAmmBuyFee
        (sb_prop_amm_proceeds_vault ctx) (sb_prop_amm_proceeds_token_in_account ctx)
        (sb_prop_amm_buy_fee_vault ctx) (sb_prop_amm_buy_fee_token_in_account ctx)
        (sb_user ctx) token_in in_program;
  _ ← get_associated_token_account (sb_offer_vault_token_in_account ctx) offer_vault_authority_key
        token_in in_program OnreError.InvalidVaultTokenInAccount;
  _ ← get_associated_token_account (sb_offer_vault_token_out_account ctx)
        offer_vault_authority_key token_out out_program OnreError.InvalidVaultTokenOutAccount;
  _ ← get_associated_token_account (sb_permissionless_token_in_account ctx)
        permissionless_authority_key token_in in_program OnreError.InvalidAmount;
  _ ← get_associated_token_account (sb_permissionless_token_out_account ctx)
        permissionless_authority_key token_out out_program
        OnreError.InvalidPermissionlessTokenOutAccount;
  get_or_create_associated_token_account (sb_redemption_vault_token_in_account ctx)
    redemption_vault_authority_key token_in in_program OnreError.InvalidVaultTokenInAccount.

(** The end of [execute_open_swap_buy]: the tokens move, the supply is recorded. *)
Definition buy_settle (ctx : OpenSwapBuy) (st : State.t) (s : PropAmmPairState.t)
    (main_offer : option Offer.t) (accrual : option BufferAccrualResult)
    (token_in_mint token_out_mint : MintAccount) (redemption_vault_token_in : TokenAccountInfo)
    (result : OfferProcessResult) (token_in_amount : Z) : M L unit :=
  transfer_tokens token_in_mint (sb_token_in_program ctx) (sb_user_token_in_account ctx)
    (sb_permissionless_token_in_account ctx) (sb_user ctx) token_in_amount;;
  target ← load_redemption_offer_vault_target_bps_for_offer (sb_redemption_offer ctx)
    (sb_offer ctx) (sb_token_in_mint ctx) (sb_token_out_mint ctx);
  refill_amount ← calculate_redemption_vault_refill_amount (sa_market_stats (sb_supply ctx))
    (default 0 target) token_in_mint token_out_mint
    (TokenAccount.amount (ta_data redemption_vault_token_in)) (opr_token_in_net_amount result);
  boss_net_amount ← lift (ok_or_onre
    (u64.checked_sub (opr_token_in_net_amount result) refill_amount)
    OnreError.ArithmeticUnderflow);
  buy_distribute_token_in ctx token_in_mint refill_amount boss_net_amount
    (opr_token_in_fee_amount result);;
  clock ← Clock_get;
  s' ← lift (record_prop_amm_buy s (opr_token_in_net_amount result) (Clock.unix_timestamp clock));
  store_pair (sb_prop_amm_pair_state ctx) s';;
  buy_deliver_token_out ctx st token_out_mint (opr_token_out_amount result);;
  store_post_offer_supply accrual (opr_token_out_amount result) OnreError.OverflowError;;
  when (is_onyc_token_out_mint st token_out_mint)
    (main_offer ← lift (ok_or_onre main_offer OnreError.InvalidMainOffer);
     token_out_mint ← reload token_out_mint;
     refresh_market_stats_pda main_offer token_out_mint
       (sa_circulating_supply_excluded_balance (sb_supply ctx)) (sa_market_stats (sb_supply ctx))
       (sb_user ctx)).

(** [open_swap_buy] and [execute_open_swap_buy]. *)
Definition open_swap_buy (ctx : OpenSwapBuy) (token_in_amount minimum_out : Z) : M L unit :=
  '(st, offer, s, token_in_mint, token_out_mint) ← OpenSwapBuy_accounts ctx;
  lift (validate_prop_amm_pair_for_side st s (sb_offer ctx) (sb_token_in_mint ctx)
          (sb_token_out_mint ctx) SwapSide.Buy);;
  lift (Offer.require_enabled offer);;
  guard (Offer.allow_permissionless offer) OnreError.PermissionlessNotAllowed;;
  result ← process_offer_core offer token_in_amount token_in_mint token_out_mint
    (Offer.permissionless_fee_basis_points offer);
  require_quote_mints_without_transfer_fees token_in_mint token_out_mint;;
  guard (minimum_out <=? opr_token_out_amount result) OnreError.MinimumOutNotMet;;
  redemption_vault_token_in ← open_swap_buy_token_accounts ctx;
  buffer_is_initialized ← check_is_initialized (sa_buffer_accounts (sb_supply ctx));
  let should_accrue := should_accrue_onyc_mint st token_out_mint buffer_is_initialized
                         mint_authority_key in
  main_offer ←
    (if is_onyc_token_out_mint st token_out_mint
     then o ← load_main_offer (sa_main_offer (sb_supply ctx)) st; mret (Some o)
     else mret None);
  accrual ← accrue_before_mint st should_accrue (sa_buffer_accounts (sb_supply ctx)) main_offer
    token_out_mint (sb_token_out_program ctx);
  token_out_mint ← (match accrual with Some _ => reload token_out_mint | None => mret token_out_mint end);
  buy_settle ctx st s main_offer accrual token_in_mint token_out_mint redemption_vault_token_in
    result token_in_amount.

(** ** Selling ([sell.rs]) *)

(** [OpenSwapSell]. *)
Record OpenSwapSell : Type := mkOpenSwapSell {
  ss_offer : Pubkey;
  ss_prop_amm_pair_state : Pubkey;
  ss_redemption_offer : Pubkey;
  ss_redemption_vault_token_in_account : Pubkey;
  ss_redemption_vault_token_out_account : Pubkey;
  ss_token_in_mint : Pubkey;
  ss_token_in_program : Pubkey;
  ss_token_out_mint : Pubkey;
  ss_token_out_program : Pubkey;
  ss_user_token_in_account : Pubkey;
  ss_user_token_out_account : Pubkey;
  ss_prop_amm_proceeds_vault : Pubkey;
  ss_prop_amm_proceeds_token_in_account : Pubkey;
  ss_prop_amm_sell_fee_vault : Pubkey;
  ss_prop_amm_sell_fee_token_in_account : Pubkey;
  ss_supply : SupplyAccounts;
  ss_instructions_sysvar : Pubkey;
  ss_user : Pubkey;
  ss_offer_vault_onyc_account : Pubkey
}.

Definition OpenSwapSell_accounts (ctx : OpenSwapSell)
  : M L (State.t * Offer.t * PropAmmPairState.t * MintAccount * MintAccount) :=
  offer ← offer_account (ss_offer ctx) (ss_token_out_mint ctx) (ss_token_in_mint ctx);
  s ← pair_account (ss_prop_amm_pair_state ctx) (ss_offer ctx);
  constraint (key_eqb (ss_redemption_offer ctx)
                (redemption_offer_pda (ss_token_in_mint ctx) (ss_token_out_mint ctx)))
    ConstraintSeeds;;
  st ← live_state;
  token_in_mint ← load_mint (ss_token_in_mint ctx);
  token_out_mint ← load_mint (ss_token_out_mint ctx);
  constraint (key_eqb (ss_prop_amm_proceeds_vault ctx)
                (vault_key ConfigurableVaultKind.PropAmmProceeds)) ConstraintSeeds;;
  constraint (key_eqb (ss_prop_amm_sell_fee_vault ctx)
                (vault_key ConfigurableVaultKind.PropAmmSellFee)) ConstraintSeeds;;
  buffer_accrual_accounts (sa_buffer_accounts (ss_supply ctx));;
  constraint (key_eqb (sa_market_stats (ss_supply ctx)) (pda [seeds.MARKET_STATS]))
    ConstraintSeeds;;
  constraint (key_eqb (sa_circulating_supply_excluded_balance (ss_supply ctx))
                (pda [seeds.CIRCULATING_SUPPLY_EXCLUDED_BALANCE])) ConstraintSeeds;;
  mret (st, offer, s, token_in_mint, token_out_mint).

(** The remaining token accounts of [execute_open_swap_sell]. *)
Definition open_swap_sell_token_accounts (ctx : OpenSwapSell) (st : State.t) : M L unit :=
  let token_in := ss_token_in_mint ctx in
  let in_program := ss_token_in_program ctx in
  _ ← get_associated_token_account (ss_user_token_in_account ctx) (ss_user ctx) token_in in_program
        OnreError.InvalidAmount;
  _ ← get_or_create_associated_token_account (ss_user_token_out_account ctx) (ss_user ctx)
        (ss_token_out_mint ctx) (ss_token_out_program ctx) OnreError.InvalidUserTokenOutAccount;
  _ ← get_or_create_configurable_vault_token_account_pair
        ConfigurableVaultKind.PropAmmProceeds ConfigurableVaultKind.PropAmmSellFee
        (ss_prop_amm_proceeds_vault ctx) (ss_prop_amm_proceeds_token_in_account ctx)
        (ss_prop_amm_sell_fee_vault ctx) (ss_prop_amm_sell_fee_token_in_account ctx)
        (ss_user ctx) token_in in_program;
  _ ← get_or_create_associated_token_account (ss_redemption_vault_token_in_account ctx)
        redemption_vault_authority_key token_in in_program OnreError.InvalidVaultTokenInAccount;
  _ ← get_associated_token_account (ss_offer_vault_onyc_account ctx) offer_vault_authority_key
        (State.onyc_mint st) in_program OnreError.InvalidOfferVaultOnycAccount;
  mret tt.

(** The end of [execute_open_swap_sell]: the tokens move, the supply is recorded. *)
Definition sell_settle (ctx : OpenSwapSell) (main_offer : Offer.t) (should_refresh_market_stats : bool)
    (accrual : option BufferAccrualResult) (token_in_mint token_out_mint : MintAccount)
    (result : RedemptionProcessResult) (token_in_amount out : Z) : M L unit :=
  let supply_accounts := ss_supply ctx in
  transfer_tokens token_in_mint (ss_token_in_program ctx) (ss_user_token_in_account ctx)
    (ss_redemption_vault_token_in_account ctx) (ss_user ctx) token_in_amount;;
  execute_redemption_operations
    (ExecuteRedemptionOpsParams.mk (ss_token_in_program ctx) (ss_token_out_program ctx)
       token_in_mint (rpr_token_in_net_amount result) (rpr_token_in_fee_amount result)
       (ss_redemption_vault_token_in_account ctx) (ss_prop_amm_proceeds_token_in_account ctx)
       (ss_prop_amm_sell_fee_token_in_account ctx) redemption_vault_authority_key token_out_mint
       out (ss_redemption_vault_token_out_account ctx) (ss_user_token_out_account ctx)
       mint_authority_key);;
  store_post_burn_supply accrual (rpr_token_in_net_amount result);;
  when should_refresh_market_stats
    (token_in_mint ← reload token_in_mint;
     refresh_market_stats_pda main_offer token_in_mint
       (sa_circulating_supply_excluded_balance supply_accounts) (sa_market_stats supply_accounts)
       (ss_user ctx));;
  emit "OfferTakenEvent"
    [("offer_pda", FKey (ss_offer ctx)); ("token_in_amount", FNum (rpr_token_in_net_amount result));
     ("token_out_amount", FNum out); ("fee_amount", FNum (rpr_token_in_fee_amount result));
     ("user", FKey (ss_user ctx))].

(** [open_swap_sell] and [execute_open_swap_sell]; the seeds constraints fix the
    authorities [validate_take_offer_authorities] checks. *)
Definition open_swap_sell (ctx : OpenSwapSell) (token_in_amount minimum_out : Z) : M L unit :=
  let supply_accounts := ss_supply ctx in
  '(st, offer, s, token_in_mint, token_out_mint) ← OpenSwapSell_accounts ctx;
  lift (validate_prop_amm_pair_for_side st s (ss_offer ctx) (ss_token_in_mint ctx)
          (ss_token_out_mint ctx) SwapSide.Sell);;
  validate_take_offer_authorities offer_vault_authority_key mint_authority_key
    (ss_instructions_sysvar ctx);;
  lift (Offer.require_enabled offer);;
  validate_market_stats_pda (sa_market_stats supply_accounts);;
  main_offer ← load_main_offer (sa_main_offer supply_accounts) st;
  refresh_market_stats_pda main_offer token_in_mint
    (sa_circulating_supply_excluded_balance supply_accounts) (sa_market_stats supply_accounts)
    (ss_user ctx);;
  vault_token_out ← get_associated_token_account (ss_redemption_vault_token_out_account ctx)
    redemption_vault_authority_key (ss_token_out_mint ctx) (ss_token_out_program ctx)
    OnreError.InvalidVaultTokenOutAccount;
  liquidity ← sell_quote_liquidity_context (ss_redemption_offer ctx) (ss_offer ctx) token_in_mint
    token_out_mint (sa_market_stats supply_accounts)
    (TokenAccount.amount (ta_data vault_token_out));
  open_swap_sell_token_accounts ctx st;;
  let should_refresh_market_stats :=
    key_eqb (ss_token_in_mint ctx) (State.onyc_mint st)
    && program_controls_mint token_in_mint mint_authority_key in
  accrual ← accrue_before_burn st should_refresh_market_stats (sa_buffer_accounts supply_accounts)
    (Some main_offer) token_in_mint (ss_token_in_program ctx);
  token_in_mint ← (match accrual with Some _ => reload token_in_mint | None => mret token_in_mint end);
  '(result, out) ← sell_payout offer s token_in_amount (slc_actual_liquidity liquidity)
    (slc_hard_wall_reserve liquidity) (slc_fee_basis_points_prop_amm_sell liquidity)
    token_in_mint token_out_mint;
  guard (minimum_out <=? out) OnreError.MinimumOutNotMet;;
  clock ← Clock_get;
  s' ← lift (record_prop_amm_sell s (rpr_token_out_amount result) (Clock.unix_timestamp clock));
  store_pair (ss_prop_amm_pair_state ctx) s';;
  sell_settle ctx main_offer should_refresh_market_stats accrual token_in_mint token_out_mint
    result token_in_amount out.

End prop_amm.
