(* ===== verification/Governance.v ===== *)
(** * Governance

    [src/instructions/state_operations/] but for [close_state] (see [Lifecycle]):
    the boss and its two-step transfer, the kill switch, admins, approvers, the
    worker, the supply caps, the ONyc mint and the main offer.  *)

From S2P Require Import World Approval OfferPricing TokenUtils OfferHandlers.
Open Scope string_scope.
Open Scope Z_scope.

(** ** The state transitions

    Each handler below is its [Accounts] constraint followed by one of these
    updates of the state account. *)

(** [propose_boss]. *)
Definition propose_boss_state (new_boss : Pubkey) (s : State.t) : Result State.t :=
  _ ← require_onre (negb (key_eqb new_boss Pubkey_default)) OnreError.InvalidBossAddress;
  Ok (State.with_proposed_boss new_boss s).

(** [accept_boss]. *)
Definition accept_boss_state (new_boss : Pubkey) (s : State.t) : Result State.t :=
  _ ← require_onre (negb (key_eqb (State.proposed_boss s) Pubkey_default)) OnreError.NoBossProposal;
  _ ← require_onre (key_eqb new_boss (State.proposed_boss s)) OnreError.NotProposedBoss;
  Ok (State.with_proposed_boss Pubkey_default (State.with_boss (State.proposed_boss s) s)).

(** The scan of [add_admin] and [remove_admin]: overwrite the first slot that
    holds [k]. *)
Definition replace_admin (k new : Pubkey) (admins : list Pubkey) : option (list Pubkey) :=
  i ← position (key_eqb k) admins; Some (<[i := new]> admins).

(** [add_admin]. *)
Definition add_admin_state (new_admin : Pubkey) (s : State.t) : Result State.t :=
  _ ← require_onre (negb (mem_key new_admin (State.admins s))) OnreError.AdminAlreadyExists;
  admins ← ok_or_onre (replace_admin Pubkey_default new_admin (State.admins s))
    OnreError.MaxAdminsReached;
  Ok (State.with_admins admins s).

(** [remove_admin]. *)
Definition remove_admin_state (admin_to_remove : Pubkey) (s : State.t) : Result State.t :=
  admins ← ok_or_onre (replace_admin admin_to_remove Pubkey_default (State.admins s))
    OnreError.AdminNotFound;
  Ok (State.with_admins admins s).

(** [clear_admins]. *)
Definition clear_admins_state (s : State.t) : State.t :=
  State.with_admins (replicate MAX_ADMINS Pubkey_default) s.

(** [set_kill_switch]: admins may only turn it on. *)
Definition set_kill_switch_state (signer : Pubkey) (enable : bool) (s : State.t) : Result State.t :=
  let boss_signed := key_eqb (State.boss s) signer in
  let admin_signed := mem_key signer (State.admins s) in
  if enable then
    _ ← require_onre (boss_signed || admin_signed) OnreError.UnauthorizedToEnable;
    Ok (State.with_is_killed true s)
  else
    _ ← require_onre boss_signed OnreError.OnlyBossCanDisable;
    Ok (State.with_is_killed false s).

(** [add_approver]. *)
Definition add_approver_state (approver : Pubkey) (s : State.t) : Result State.t :=
  if key_eqb approver Pubkey_default then Err (Onre OnreError.InvalidApprover)
  else if key_eqb (State.approver1 s) approver || key_eqb (State.approver2 s) approver
  then Err (Onre OnreError.ApproverAlreadyExists)
  else if key_eqb (State.approver1 s) Pubkey_default then Ok (State.with_approver1 approver s)
  else if key_eqb (State.approver2 s) Pubkey_default then Ok (State.with_approver2 approver s)
  else Err (Onre OnreError.BothApproversFilled).

(** [remove_approver]. *)
Definition remove_approver_state (approver : Pubkey) (s : State.t) : Result State.t :=
  if key_eqb approver Pubkey_default then Err (Onre OnreError.InvalidApprover)
  else if key_eqb (State.approver1 s) approver then Ok (State.with_approver1 Pubkey_default s)
  else if key_eqb (State.approver2 s) approver then Ok (State.with_approver2 Pubkey_default s)
  else Err (Onre OnreError.NotAnApprover).

(** [set_worker]. *)
Definition set_worker_state (new_worker : Pubkey) (s : State.t) : Result State.t :=
  _ ← require_onre (negb (key_eqb new_worker (State.worker s))) OnreError.NoChange;
  Ok (State.with_worker new_worker s).

(** [set_main_offer] for the offer account [k]. *)
Definition set_main_offer_state (k : Pubkey) (offer : Offer.t) (s : State.t) : Result State.t :=
  _ ← require_keys_eq (Offer.token_out_mint offer) (State.onyc_mint s)
        OnreError.InvalidTokenOutMint;
  _ ← require_onre (negb (key_eqb k (State.main_offer s))) OnreError.NoChange;
  Ok (State.with_main_offer k s).

Section handlers.
Context {R : Runtime} {L : Type} {TL : TokenLedger L}.

(** Run an update of the state account. *)
Definition update_state (f : State.t -> Result State.t) : M L State.t :=
  s ← gets state;
  s' ← lift (f s);
  modify (set_state s');;
  mret s'.

(** [propose_boss]. *)
Definition propose_boss (boss new_boss : Pubkey) : M L unit :=
  has_one_boss boss;;
  _ ← update_state (propose_boss_state new_boss);
  emit "BossProposedEvent" [("current_boss", FKey boss); ("proposed_boss", FKey new_boss)].

(** [accept_boss]. *)
Definition accept_boss (new_boss : Pubkey) : M L unit :=
  s ← gets state;
  s' ← update_state (accept_boss_state new_boss);
  emit "BossAcceptedEvent" [("old_boss", FKey (State.boss s)); ("new_boss", FKey (State.boss s'))].

(** [add_admin]. *)
Definition add_admin (boss new_admin : Pubkey) : M L unit :=
  has_one_boss boss;;
  _ ← update_state (add_admin_state new_admin);
  emit "AdminAddedEvent" [("admin", FKey new_admin); ("boss", FKey boss)].

(** [remove_admin]. *)
Definition remove_admin (boss admin_to_remove : Pubkey) : M L unit :=
  has_one_boss boss;;
  _ ← update_state (remove_admin_state admin_to_remove);
  emit "AdminRemovedEvent" [("admin", FKey admin_to_remove); ("boss", FKey boss)].

(** [clear_admins]. *)
Definition clear_admins (boss : Pubkey) : M L unit :=
  has_one_boss boss;;
  _ ← update_state (fun s => Ok (clear_admins_state s));
  emit "AdminsClearedEvent" [("boss", FKey boss)].

(** [set_kill_switch]. *)
Definition set_kill_switch (signer : Pubkey) (enable : bool) : M L unit :=
  _ ← update_state (set_kill_switch_state signer enable);
  emit "KillSwitchToggledEvent" [("enabled", FBool enable); ("signer", FKey signer)].

(** [add_approver]. *)
Definition add_approver (boss approver : Pubkey) : M L unit :=
  has_one_boss boss;;
  _ ← update_state (add_approver_state approver);
  emit "ApproverAddedEvent" [("approver", FKey approver); ("boss", FKey boss)].

(** [remove_approver]. *)
Definition remove_approver (boss approver : Pubkey) : M L unit :=
  has_one_boss boss;;
  _ ← update_state (remove_approver_state approver);
  emit "ApproverRemovedEvent" [("approver", FKey approver); ("boss", FKey boss)].

(** [set_worker]. *)
Definition set_worker (boss new_worker : Pubkey) : M L unit :=
  has_one_boss boss;;
  s ← gets state;
  s' ← update_state (set_worker_state new_worker);
  emit "WorkerUpdatedEvent"
    [("old_worker", FKey (State.worker s)); ("new_worker", FKey (State.worker s'))].

(** [set_main_offer]. *)
Definition set_main_offer (boss offer_key : Pubkey) : M L unit :=
  has_one_boss boss;;
  offer ← load_account offers offer_key;
  s ← gets state;
  _ ← update_state (set_main_offer_state offer_key offer);
  emit "MainOfferUpdatedEvent"
    [("old_main_offer", FKey (State.main_offer s)); ("new_main_offer", FKey offer_key)].

(** [set_onyc_mint]. *)
Definition set_onyc_mint (boss onyc_mint : Pubkey) : M L unit :=
  has_one_boss boss;;
  _ ← load_mint onyc_mint;
  s ← gets state;
  _ ← update_state (fun s => Ok (State.with_onyc_mint onyc_mint s));
  emit "ONycMintUpdatedEvent"
    [("old_onyc_mint", FKey (State.onyc_mint s)); ("new_onyc_mint", FKey onyc_mint)].

(** [configure_max_supply]. *)
Definition configure_max_supply (boss : Pubkey) (max_supply : Z) : M L unit :=
  has_one_boss boss;;
  s ← gets state;
  _ ← update_state (fun s => Ok (State.with_max_supply max_supply s));
  emit "MaxSupplyConfiguredEvent"
    [("old_max_supply", FNum (State.max_supply s)); ("new_max_supply", FNum max_supply)].

(** [configure_max_mint_amount]. *)
Definition configure_max_mint_amount (boss : Pubkey) (max_mint_amount : Z) : M L unit :=
  has_one_boss boss;;
  s ← gets state;
  _ ← update_state (fun s => Ok (State.with_max_mint_amount max_mint_amount s));
  emit "MaxMintAmountConfiguredEvent"
    [("old_max_mint_amount", FNum (State.max_mint_amount s));
     ("new_max_mint_amount", FNum max_mint_amount)].
End handlers.
