(* ===== verification/Program.v ===== *)
(** * The program

    [src/lib.rs]: the instruction set and its dispatch, over the handlers of the
    component files.  [initialize], [initialize_permissionless_authority] and
    [close_state] bracket the life of the state account: see [Lifecycle].  *)

From S2P Require Import World OfferPricing OfferHandlers MarketInfo Buffer Vaults Redemption TakeOffer PropAmm Governance Approval.
Open Scope Z_scope.

(** The instructions with their accounts and arguments. *)
Inductive instruction : Type :=
(* vaults *)
| OfferVaultDeposit (ctx : VaultTransfer) (amount : Z)
| OfferVaultWithdraw (ctx : VaultTransfer) (amount : Z)
| RedemptionVaultDeposit (ctx : VaultTransfer) (amount : Z)
| RedemptionVaultWithdraw (ctx : VaultTransfer) (amount : Z)
| SetConfigurableVaultDestination (boss : Pubkey) (kind : ConfigurableVaultKind.t) (dest : Pubkey)
| WithdrawConfigurableVault (kind : ConfigurableVaultKind.t)
    (vault_account dest dest_account mint program : Pubkey) (amount : Z)
(* offers *)
| MakeOfferIx (ctx : MakeOffer) (fee : Z) (needs_approval allow_permissionless : bool)
| AddOfferVector (ctx : OfferAdmin) (start_time : option Z)
    (base_time base_price apr price_fix_duration : Z)
| DeleteOfferVector (ctx : OfferAdmin) (start_time : Z)
| DeleteAllOfferVectors (ctx : OfferAdmin)
| UpdateOfferFee (ctx : OfferAdmin) (fee : Z)
| UpdateOfferPermissionlessFee (ctx : OfferAdmin) (fee : Z)
| SetOfferDisabled (offer signer : Pubkey) (disabled : bool)
| TakeOffer (ctx : TakeOfferBase) (boss boss_token_in_account instructions_sysvar : Pubkey)
    (amount : Z) (approval : option ApprovalMessage.t)
| TakeOfferV2Ix (ctx : TakeOfferV2) (amount : Z) (approval : option ApprovalMessage.t)
| TakeOfferPermissionless (ctx : TakeOfferBase)
    (boss boss_token_in_account permissionless_authority permissionless_token_in_account
     permissionless_token_out_account instructions_sysvar : Pubkey) (amount : Z)
| TakeOfferPermissionlessV2Ix (ctx : TakeOfferPermissionlessV2) (amount : Z)
(* prop AMM *)
| QuoteSwapBuy (offer pair token_in_mint token_out_mint : Pubkey) (amount : Z)
| QuoteSwapSell (offer pair redemption_offer vault_token_out token_in_mint token_out_mint
    token_out_program market_stats : Pubkey) (amount : Z)
| OpenSwapBuyIx (ctx : OpenSwapBuy) (amount minimum_out : Z)
| OpenSwapSellIx (ctx : OpenSwapSell) (amount minimum_out : Z)
| ConfigurePropAmm (offer asset_mint pair boss : Pubkey) (config : PropAmmConfig)
(* governance *)
| ProposeBoss (boss new_boss : Pubkey)
| AcceptBoss (new_boss : Pubkey)
| AddAdmin (boss new_admin : Pubkey)
| RemoveAdmin (boss admin : Pubkey)
| ClearAdmins (boss : Pubkey)
| SetKillSwitch (signer : Pubkey) (enable : bool)
| SetOnycMint (boss onyc_mint : Pubkey)
| SetWorker (boss worker : Pubkey)
| SetMainOffer (boss offer : Pubkey)
| AddApprover (boss approver : Pubkey)
| RemoveApprover (boss approver : Pubkey)
| ConfigureMaxSupply (boss : Pubkey) (max_supply : Z)
| ConfigureMaxMintAmount (boss : Pubkey) (max_mint_amount : Z)
(* mint authority and supply *)
| TransferMintAuthorityToProgram (boss mint program : Pubkey)
| TransferMintAuthorityToBoss (boss mint program : Pubkey)
| MintTo (ctx : BufferCtx) (boss_onyc_account : Pubkey) (amount : Z)
(* BUFFER *)
| InitializeBuffer (boss onyc_mint main_offer reserve management performance program : Pubkey)
| SettleBuffer (ctx : BufferCtx)
| SetBufferGrossApr (ctx : BufferCtx) (gross_yield : Z)
| SetBufferFeeConfig (ctx : BufferCtx) (management performance : Z) (watermark : bool)
| BurnForNavIncrease (ctx : BufferCtx) (adjustment : Z)
| DepositReserveVault (depositor onyc_mint depositor_account reserve program : Pubkey) (amount : Z)
| WithdrawReserveVault (boss onyc_mint boss_account reserve program : Pubkey) (amount : Z)
(* market information *)
| GetNav (offer token_in_mint token_out_mint : Pubkey)
| GetApy (offer token_in_mint token_out_mint : Pubkey)
| GetNavAdjustment (offer token_in_mint token_out_mint : Pubkey)
| GetTvl (offer token_in_mint token_out_mint vault_account program : Pubkey)
| GetTvlV2 (offer token_in_mint token_out_mint excluded_balance : Pubkey)
| GetCirculatingSupply (onyc_mint vault_account program : Pubkey)
| GetCirculatingSupplyV2 (onyc_mint excluded_balance : Pubkey)
| RefreshMarketStatsIx (ctx : RefreshMarketStats)
| SetExcludedAccounts (boss : Pubkey) (owners : list Pubkey)
| UpdateExcludedBalance (onyc_mint program signer : Pubkey) (accounts : list Pubkey)
(* redemptions *)
| MakeRedemptionOfferIx (ctx : MakeRedemptionOffer) (fee sell_fee : Z)
| SetRedemptionOfferDisabled (redemption_offer signer : Pubkey) (disabled : bool)
| UpdateRedemptionOfferFee (redemption_offer boss : Pubkey) (fee : Z)
| UpdateRedemptionOfferPropAmmSellFee (redemption_offer boss : Pubkey) (fee : Z)
| UpdateRedemptionOfferVaultTarget (redemption_offer boss : Pubkey) (target : Z)
| CreateRedemptionRequestIx (ctx : CreateRedemptionRequest) (amount : Z)
| CancelRedemptionRequestIx (ctx : CancelRedemptionRequest)
| FulfillRedemptionRequestIx (ctx : FulfillRedemptionRequest) (amount : Z).

Section program.
Context {R : Runtime} {L : Type} {TL : TokenLedger L}.

(** A query's answer is its return data; it leaves the accounts alone. *)
Definition returning {A} (m : M L A) : M L unit := _ ← m; mret tt.

(** [mod onreapp]: one instruction of a transaction [tx]. *)
Definition exec (tx : InstructionsSysvar) (i : instruction) : M L unit :=
  match i with
  | OfferVaultDeposit ctx amount => offer_vault_deposit ctx amount
  | OfferVaultWithdraw ctx amount => offer_vault_withdraw ctx amount
  | RedemptionVaultDeposit ctx amount => redemption_vault_deposit ctx amount
  | RedemptionVaultWithdraw ctx amount => redemption_vault_withdraw ctx amount
  | SetConfigurableVaultDestination boss kind dest =>
      set_configurable_vault_destination boss kind dest
  | WithdrawConfigurableVault kind va dest da mint program amount =>
      withdraw_configurable_vault kind va dest da mint program amount
  | MakeOfferIx ctx fee approval permissionless => make_offer ctx fee approval permissionless
  | AddOfferVector ctx start base_time base_price apr duration =>
      add_offer_vector ctx start base_time base_price apr duration
  | DeleteOfferVector ctx start => delete_offer_vector ctx start
  | DeleteAllOfferVectors ctx => delete_all_offer_vectors ctx
  | UpdateOfferFee ctx fee => update_offer_fee ctx fee
  | UpdateOfferPermissionlessFee ctx fee => update_offer_permissionless_fee ctx fee
  | SetOfferDisabled offer signer disabled => set_offer_disabled offer signer disabled
  | TakeOffer ctx boss ba sysvar amount approval => take_offer tx ctx boss ba sysvar amount approval
  | TakeOfferV2Ix ctx amount approval => take_offer_v2 tx ctx amount approval
  | TakeOfferPermissionless ctx boss ba pa pin pout sysvar amount =>
      take_offer_permissionless ctx boss ba pa pin pout sysvar amount
  | TakeOfferPermissionlessV2Ix ctx amount => take_offer_permissionless_v2 ctx amount
  | QuoteSwapBuy offer pk tin tout amount =>
      returning (quote_swap_buy offer pk tin tout amount)
  | QuoteSwapSell offer pk ro vault tin tout program ms amount =>
      returning (quote_swap_sell offer pk ro vault tin tout program ms amount)
  | OpenSwapBuyIx ctx amount minimum_out => open_swap_buy ctx amount minimum_out
  | OpenSwapSellIx ctx amount minimum_out => open_swap_sell ctx amount minimum_out
  | ConfigurePropAmm offer asset_mint pk boss config =>
      configure_prop_amm offer asset_mint pk boss config
  | ProposeBoss boss new_boss => propose_boss boss new_boss
  | AcceptBoss new_boss => accept_boss new_boss
  | AddAdmin boss new_admin => add_admin boss new_admin
  | RemoveAdmin boss admin => remove_admin boss admin
  | ClearAdmins boss => clear_admins boss
  | SetKillSwitch signer enable => set_kill_switch signer enable
  | SetOnycMint boss onyc_mint => set_onyc_mint boss onyc_mint
  | SetWorker boss worker => set_worker boss worker
  | SetMainOffer boss offer => set_main_offer boss offer
  | AddApprover boss approver => add_approver boss approver
  | RemoveApprover boss approver => remove_approver boss approver
  | ConfigureMaxSupply boss cap => configure_max_supply boss cap
  | ConfigureMaxMintAmount boss cap => configure_max_mint_amount boss cap
  | TransferMintAuthorityToProgram boss mint program =>
      transfer_mint_authority_to_program boss mint program
  | TransferMintAuthorityToBoss boss mint program =>
      transfer_mint_authority_to_boss boss mint program
  | MintTo ctx account amount => mint_to ctx account amount
  | InitializeBuffer boss onyc_mint main_offer reserve management performance program =>
      initialize_buffer boss onyc_mint main_offer reserve management performance program
  | SettleBuffer ctx => settle_buffer ctx
  | SetBufferGrossApr ctx gross_yield => set_buffer_gross_apr ctx gross_yield
  | SetBufferFeeConfig ctx management performance watermark =>
      set_buffer_fee_config ctx management performance watermark
  | BurnForNavIncrease ctx adjustment => burn_for_nav_increase ctx adjustment
  | DepositReserveVault depositor mint account reserve program amount =>
      deposit_reserve_vault depositor mint account reserve program amount
  | WithdrawReserveVault boss mint account reserve program amount =>
      withdraw_reserve_vault boss mint account reserve program amount
  | GetNav offer tin tout => returning (get_nav offer tin tout)
  | GetApy offer tin tout => returning (get_apy offer tin tout)
  | GetNavAdjustment offer tin tout => returning (get_nav_adjustment offer tin tout)
  | GetTvl offer tin tout vault program => returning (get_tvl offer tin tout vault program)
  | GetTvlV2 offer tin tout balance => returning (get_tvl_v2 offer tin tout balance)
  | GetCirculatingSupply mint vault program => returning (get_circulating_supply mint vault program)
  | GetCirculatingSupplyV2 mint balance => returning (get_circulating_supply_v2 mint balance)
  | RefreshMarketStatsIx ctx => refresh_market_stats ctx
  | SetExcludedAccounts boss owners => set_circulating_supply_excluded_accounts boss owners
  | UpdateExcludedBalance mint program signer accounts =>
      update_circulating_supply_excluded_balance mint program signer accounts
  | MakeRedemptionOfferIx ctx fee sell_fee => make_redemption_offer ctx fee sell_fee
  | SetRedemptionOfferDisabled ro signer disabled => set_redemption_offer_disabled ro signer disabled
  | UpdateRedemptionOfferFee ro boss fee => update_redemption_offer_fee ro boss fee
  | UpdateRedemptionOfferPropAmmSellFee ro boss fee =>
      update_redemption_offer_prop_amm_sell_fee ro boss fee
  | UpdateRedemptionOfferVaultTarget ro boss target =>
      update_redemption_offer_vault_target ro boss target
  | CreateRedemptionRequestIx ctx amount => create_redemption_request ctx amount
  | CancelRedemptionRequestIx ctx => cancel_redemption_request ctx
  | FulfillRedemptionRequestIx ctx amount => fulfill_redemption_request ctx amount
  end.

(** The program's executions: instructions that succeed, in between which time
    passes and anybody uses the token programs. *)
Definition environment (c : Clock.t) (l : L) (w : World L) : World L :=
  mkWorld c (state w) (offers w) (redemption_offers w) (redemption_requests w) (vaults w)
    (prop_amm_pairs w) (buffer_state w) (market_stats w) (excluded_accounts w)
    (excluded_balance w) l (events w).

Inductive step (w : World L) : World L -> Prop :=
| step_exec tx i w' : exec tx i w = Ok (tt, w') -> step w w'
| step_environment c l : step w (environment c l w).
End program.
