(* ===== verification/Lifecycle.v ===== *)
(** * The life of the program's accounts

    [src/instructions/initialization/] and [state_operations/close_state.rs]: the
    instructions that create and close the state account, and the program from its
    deployment on.  A [Deployment] is the account store with a state account that
    may be absent; [run] executes any instruction of the program on it, [life_step]
    is one step of its history.  [StateLayout] is the account's data as bytes,
    which [close_state] reads without deserializing it.  *)

From Stdlib Require Import Strings.Byte.
From S2P Require Import World Approval OfferPricing OfferHandlers TokenUtils MarketInfo Governance Program.
Open Scope string_scope.
Open Scope Z_scope.

(** ** Accounts as bytes *)

(** An account as the runtime stores it. *)
Record RawAccount : Type := mkRawAccount {
  ra_key : Pubkey;
  ra_owner : Pubkey;
  ra_lamports : Z;
  ra_data : list byte
}.

(** The platform: the upgradeable loader (its id, the address of a program's data
    account, and the upgrade authority stored in such an account's data -
    [None]: the data is malformed; [Some None]: not a ProgramData account;
    [Some (Some a)]: ProgramData with upgrade authority [a]) and the eight bytes
    Anchor's [#[account]] puts in front of a [State]. *)
Class Platform : Type := {
  loader_id : Pubkey;
  get_program_data_address : Pubkey -> Pubkey;
  deserialize_loader_state : list byte -> option (option (option Pubkey));
  state_discriminator : list byte
}.

(** ** The layout of the state account ([state.rs], [struct State])

    Borsh: the fields in order, keys as 32 bytes, integers little-endian, flags as
    one byte, and 56 reserved bytes. *)
Module StateLayout.

Definition bool_byte (b : bool) : byte := if b then x01 else x00.
Definition reserved : list byte := replicate 56 x00.

Definition serialize (s : State.t) : list byte :=
  key_to_bytes (State.boss s) ++ key_to_bytes (State.proposed_boss s)
  ++ [bool_byte (State.is_killed s)] ++ key_to_bytes (State.onyc_mint s)
  ++ concat (map key_to_bytes (State.admins s))
  ++ key_to_bytes (State.approver1 s) ++ key_to_bytes (State.approver2 s)
  ++ to_le_bytes 1 (State.bump s) ++ to_le_bytes 8 (State.max_supply s)
  ++ key_to_bytes (State.worker s) ++ to_le_bytes 8 (State.max_mint_amount s)
  ++ key_to_bytes (State.main_offer s) ++ reserved.

(** A deserializer consumes a prefix of its input. *)
Definition Reader (A : Type) : Type := list byte -> option (A * list byte).

Definition read_bytes (n : nat) : Reader (list byte) := fun bs =>
  if decide (n <= length bs)%nat then Some (take n bs, drop n bs) else None.
Definition read_key : Reader Pubkey := fun bs =>
  '(k, bs) ← read_bytes 32 bs; Some (key_of_bytes k, bs).
Definition read_int (n : nat) : Reader Z := fun bs =>
  '(z, bs) ← read_bytes n bs; Some (from_le_bytes z, bs).
Definition read_bool : Reader bool := fun bs =>
  match bs with
  | x00 :: bs => Some (false, bs)
  | x01 :: bs => Some (true, bs)
  | _ => None
  end.
Fixpoint read_keys (n : nat) : Reader (list Pubkey) := fun bs =>
  match n with
  | O => Some ([], bs)
  | S n => '(k, bs) ← read_key bs; '(ks, bs) ← read_keys n bs; Some (k :: ks, bs)
  end.

Definition deserialize (bs : list byte) : option State.t :=
  '(boss, bs) ← read_key bs;
  '(proposed_boss, bs) ← read_key bs;
  '(is_killed, bs) ← read_bool bs;
  '(onyc_mint, bs) ← read_key bs;
  '(admins, bs) ← read_keys MAX_ADMINS bs;
  '(approver1, bs) ← read_key bs;
  '(approver2, bs) ← read_key bs;
  '(bump, bs) ← read_int 1 bs;
  '(max_supply, bs) ← read_int 8 bs;
  '(worker, bs) ← read_key bs;
  '(max_mint_amount, bs) ← read_int 8 bs;
  '(main_offer, bs) ← read_key bs;
  '(_, _) ← read_bytes 56 bs;
  Some (State.mk boss proposed_boss is_killed onyc_mint admins approver1 approver2 bump
          max_supply worker max_mint_amount main_offer).
End StateLayout.

(** The bytes of a state account, and the state an account holds, if any:
    [Account<State>::try_from]. *)
Definition state_data `{Platform} (s : State.t) : list byte :=
  state_discriminator ++ StateLayout.serialize s.

Definition state_of_account `{Runtime} `{Platform} (a : RawAccount) : option State.t :=
  if key_eqb (ra_owner a) program_id
     && bool_decide (take (length state_discriminator) (ra_data a) = state_discriminator)
  then StateLayout.deserialize (drop (length state_discriminator) (ra_data a))
  else None.

(** ** A deployed program *)

Module Deployment.
(** The state account; the three authority accounts, which nothing but
    [Initialize] and [InitializePermissionlessAuthority] creates (the last one
    holds a name); everything else.  While the state account exists, [others]
    repeats it. *)
Record t (L : Type) : Type := mk {
  state_account : option State.t;
  mint_authority_exists : bool;
  offer_vault_authority_exists : bool;
  permissionless_authority : option (list Z);
  others : World L
}.
Arguments mk {L}.
Arguments state_account {L}. Arguments mint_authority_exists {L}.
Arguments offer_vault_authority_exists {L}. Arguments permissionless_authority {L}.
Arguments others {L}.

Definition with_state_account {L} (v : option State.t) (d : t L) : t L :=
  mk v (mint_authority_exists d) (offer_vault_authority_exists d)
    (permissionless_authority d) (others d).
Definition with_permissionless_authority {L} (v : option (list Z)) (d : t L) : t L :=
  mk (state_account d) (mint_authority_exists d) (offer_vault_authority_exists d) v (others d).
Definition with_others {L} (v : World L) (d : t L) : t L :=
  mk (state_account d) (mint_authority_exists d) (offer_vault_authority_exists d)
    (permissionless_authority d) v.
End Deployment.

Section lifecycle.
Context {R : Runtime} {P : Platform} {L : Type} {TL : TokenLedger L}.

(** [get_upgrade_authority]; [ProgramError::InvalidAccountData] is rendered as
    Anchor's [AccountDidNotDeserialize]. *)
Definition get_upgrade_authority (program : RawAccount) (program_data : option RawAccount)
  : Result (option Pubkey) :=
  if key_eqb (ra_owner program) loader_id then
    program_data ← ok_or_onre program_data OnreError.MissingProgramData;
    _ ← require_onre (key_eqb (ra_owner program_data) loader_id) OnreError.WrongOwner;
    _ ← require_keys_eq (get_program_data_address (ra_key program)) (ra_key program_data)
          OnreError.WrongProgramData;
    st ← ok_or (deserialize_loader_state (ra_data program_data)) (Anchor AccountDidNotDeserialize);
    ok_or_onre st OnreError.NotProgramData
  else Err (Onre OnreError.WrongOwner).

(** What [init] leaves in a new state account. *)
Definition zeroed_state : State.t :=
  State.mk Pubkey_default Pubkey_default false Pubkey_default
    (replicate MAX_ADMINS Pubkey_default) Pubkey_default Pubkey_default 0 0 Pubkey_default 0
    Pubkey_default.

(** The handler of [initialize] on the new account. *)
Definition initialize_state (boss : Pubkey) (upgrade_authority : option Pubkey)
    (onyc_mint : Pubkey) (state : State.t) : Result State.t :=
  _ ← match upgrade_authority with
      | Some upgrade_authority => require_keys_eq boss upgrade_authority OnreError.WrongOwner
      | None => Ok tt
      end;
  _ ← require_onre (key_eqb (State.boss state) Pubkey_default) OnreError.BossAlreadySet;
  Ok (State.mk boss Pubkey_default false onyc_mint (replicate MAX_ADMINS Pubkey_default)
        Pubkey_default Pubkey_default (pda_bump [seeds.STATE]) 0 Pubkey_default 0
        (State.main_offer state)).

(** [init_if_needed] on an authority account of eight bytes. *)
Definition init_authority (payer : Pubkey) (seed : Seed) (exists_ : bool) : Result unit :=
  require (exists_ || create_account_succeeds payer (pda [seed])) CpiError.

(** [initialize]: [init] demands that the state account does not exist. *)
Definition initialize (boss : Pubkey) (program : RawAccount) (program_data : option RawAccount)
    (onyc_mint : Pubkey) (d : Deployment.t L) : Result (Deployment.t L) :=
  _ ← require (match Deployment.state_account d with None => true | Some _ => false end
               && create_account_succeeds boss (pda [seeds.STATE])) CpiError;
  _ ← init_authority boss seeds.MINT_AUTHORITY (Deployment.mint_authority_exists d);
  _ ← init_authority boss seeds.OFFER_VAULT_AUTHORITY (Deployment.offer_vault_authority_exists d);
  _ ← require (key_eqb (ra_key program) program_id) (Anchor ConstraintAddress);
  _ ← load_mint onyc_mint (Deployment.others d);
  upgrade_authority ← get_upgrade_authority program program_data;
  state ← initialize_state boss upgrade_authority onyc_mint zeroed_state;
  Ok (Deployment.mk (Some state) true true (Deployment.permissionless_authority d)
        (set_state state (Deployment.others d))).

(** [close_state]: the boss is read from the raw bytes; the account's lamports go
    to the boss, its data is dropped and it returns to the system program. *)
Definition close_state (state boss : RawAccount) : Result (RawAccount * RawAccount * Event) :=
  _ ← require_keys_eq (ra_owner state) program_id OnreError.InvalidStateOwner;
  _ ← require_keys_eq (ra_key state) (pda [seeds.STATE]) OnreError.InvalidStatePda;
  _ ← require_onre (40 <=? blen (ra_data state)) OnreError.InvalidStateData;
  let stored_boss := key_of_bytes (slice (ra_data state) 8 32) in
  _ ← require_keys_eq (ra_key boss) stored_boss OnreError.UnauthorizedSigner;
  boss_lamports ← ok_or_onre (u64.checked_add (ra_lamports boss) (ra_lamports state))
    OnreError.LamportOverflow;
  Ok (mkRawAccount (ra_key state) system_program_id 0 [],
      mkRawAccount (ra_key boss) (ra_owner boss) boss_lamports (ra_data boss),
      mkEvent "StateClosedEvent" [("state_pda", FKey (ra_key state)); ("boss", FKey (ra_key boss))]).

(** [char::is_whitespace] on code points. *)
Definition is_whitespace (c : Z) : bool :=
  ((9 <=? c) && (c <=? 13)) || ((8192 <=? c) && (c <=? 8202))
  || existsb (Z.eqb c) [32; 133; 160; 5760; 8232; 8233; 8239; 8287; 12288].

Fixpoint trim_start (s : list Z) : list Z :=
  match s with
  | c :: rest => if is_whitespace c then trim_start rest else s
  | [] => []
  end.
(** [str::trim]. *)
Definition trim (s : list Z) : list Z := rev (trim_start (rev (trim_start s))).

(** The UTF-8 length of a code point; [name] has [#[max_len(50)]]. *)
Definition utf8_len (c : Z) : Z :=
  if c <? 128 then 1 else if c <? 2048 then 2 else if c <? 65536 then 3 else 4.
Definition utf8_length (s : list Z) : Z := foldr (fun c n => utf8_len c + n) 0 s.

(** [initialize_permissionless_authority]: the stored name, which must fit the
    account's space. *)
Definition initialize_permissionless_authority (boss : Pubkey) (name : list Z)
    (d : Deployment.t L) : Result (Deployment.t L) :=
  st ← ok_or (Deployment.state_account d) (Anchor AccountNotInitialized);
  _ ← require (match Deployment.permissionless_authority d with None => true | Some _ => false end
               && create_account_succeeds boss (pda [seeds.PERMISSIONLESS_AUTHORITY])) CpiError;
  _ ← require (key_eqb (State.boss st) boss) (Anchor ConstraintHasOne);
  let name_cleaned := trim name in
  _ ← require_onre (negb (bool_decide (name_cleaned = [])))
    OnreError.InvalidPermissionlessAccountName;
  _ ← require (utf8_length name_cleaned <=? 50) (Anchor AccountDidNotSerialize);
  Ok (Deployment.with_permissionless_authority (Some name_cleaned) d).

(** ** Every instruction of the program ([lib.rs]) *)

Inductive operation : Type :=
| Initialize (boss program : Pubkey) (program_data : option Pubkey) (onyc_mint : Pubkey)
| InitializePermissionlessAuthority (boss : Pubkey) (name : list Z)
| CloseState (state boss : Pubkey)
| Handler (i : instruction).

(** The instructions whose [Accounts] struct has no state account. *)
Definition reads_state (i : instruction) : bool :=
  match i with
  | GetNav _ _ _ | GetApy _ _ _ | GetNavAdjustment _ _ _ | GetTvl _ _ _ _ _ => false
  | _ => true
  end.

(** The account at a key, given the accounts of other programs ([chain], which also
    has the lamports of the state account). *)
Definition raw_account (chain : Pubkey -> RawAccount) (d : Deployment.t L) (k : Pubkey)
  : RawAccount :=
  if key_eqb k (pda [seeds.STATE]) then
    match Deployment.state_account d with
    | Some s => mkRawAccount k program_id (ra_lamports (chain k)) (state_data s)
    | None => mkRawAccount k system_program_id (ra_lamports (chain k)) []
    end
  else let a := chain k in mkRawAccount k (ra_owner a) (ra_lamports a) (ra_data a).

(** One instruction of a transaction [tx]. *)
Definition run (chain : Pubkey -> RawAccount) (tx : InstructionsSysvar) (op : operation)
    (d : Deployment.t L) : Result (Deployment.t L) :=
  match op with
  | Initialize boss program program_data onyc_mint =>
      initialize boss (raw_account chain d program) (raw_account chain d <$> program_data) onyc_mint d
  | InitializePermissionlessAuthority boss name => initialize_permissionless_authority boss name d
  | CloseState state boss =>
      '(state', _, e) ← close_state (raw_account chain d state) (raw_account chain d boss);
      let w := Deployment.others d in
      Ok (Deployment.with_others (set_events (events w ++ [e]) w)
            (Deployment.with_state_account (state_of_account state') d))
  | Handler i =>
      match Deployment.state_account d with
      | Some s =>
          '(_, w) ← exec tx i (set_state s (Deployment.others d));
          Ok (Deployment.with_others w (Deployment.with_state_account (Some (state w)) d))
      | None =>
          _ ← require (negb (reads_state i)) (Anchor AccountNotInitialized);
          '(_, w) ← exec tx i (Deployment.others d);
          Ok (Deployment.with_others w d)
      end
  end.
End lifecycle.
