(* ===== verification/Borsh.v ===== *)
(** * Borsh

    The encoding of instruction arguments: what the program's generated entry point
    reads ([Reader]s) and what the fuzzer's generated builders write, for the
    argument types of [src/programs/onreapp/src/lib.rs]; and that reading what was
    written gives it back.  The integers, keys and booleans are those of
    [StateLayout].  *)

From Stdlib Require Import Strings.Byte.
From S2P Require Import World Approval Lifecycle.
Open Scope Z_scope.
Open Scope list_scope.
Export StateLayout.

(** ** UTF-8, as [String::from_utf8] accepts it *)

Definition in_range (lo hi b : Z) : bool := (lo <=? b) && (b <=? hi).
Definition continuation (b : byte) : bool := in_range 128 191 (byte_val b).
Definition low_bits (b : byte) : Z := byte_val b - 128.

(** The bytes that may follow the first of a three- and of a four-byte sequence. *)
Definition second_of_three (b0 : Z) (b1 : byte) : bool :=
  let b1 := byte_val b1 in
  ((b0 =? 224) && in_range 160 191 b1) || (in_range 225 236 b0 && in_range 128 191 b1)
  || ((b0 =? 237) && in_range 128 159 b1) || (in_range 238 239 b0 && in_range 128 191 b1).
Definition second_of_four (b0 : Z) (b1 : byte) : bool :=
  let b1 := byte_val b1 in
  ((b0 =? 240) && in_range 144 191 b1) || (in_range 241 243 b0 && in_range 128 191 b1)
  || ((b0 =? 244) && in_range 128 143 b1).

Fixpoint utf8_decode (bs : list byte) : option (list Z) :=
  match bs with
  | [] => Some []
  | b :: r0 =>
      let b0 := byte_val b in
      if b0 <? 128 then cons b0 <$> utf8_decode r0
      else match r0 with
      | [] => None
      | b1 :: r1 =>
          if in_range 194 223 b0 then
            if continuation b1 then cons ((b0 - 192) * 64 + low_bits b1) <$> utf8_decode r1
            else None
          else match r1 with
          | [] => None
          | b2 :: r2 =>
              if second_of_three b0 b1 then
                if continuation b2
                then cons ((b0 - 224) * 4096 + low_bits b1 * 64 + low_bits b2) <$> utf8_decode r2
                else None
              else match r2 with
              | [] => None
              | b3 :: r3 =>
                  if second_of_four b0 b1 && continuation b2 && continuation b3
                  then cons ((b0 - 240) * 262144 + low_bits b1 * 4096 + low_bits b2 * 64
                             + low_bits b3) <$> utf8_decode r3
                  else None
              end
          end
      end
  end.

(** The bytes of a [char]. *)
Definition utf8_bytes (c : Z) : list byte :=
  map byte_of
    (if c <? 128 then [c]
     else if c <? 2048 then [192 + c / 64; 128 + c mod 64]
     else if c <? 65536 then [224 + c / 4096; 128 + c / 64 mod 64; 128 + c mod 64]
     else [240 + c / 262144; 128 + c / 4096 mod 64; 128 + c / 64 mod 64; 128 + c mod 64]).
Definition utf8_encode (s : list Z) : list byte := concat (map utf8_bytes s).

(** A Unicode scalar value, and a [String] that fits Borsh's length prefix. *)
Definition is_char (c : Z) : Prop := 0 <= c < 55296 \/ 57344 <= c < 1114112.
Definition is_string (s : list Z) : Prop :=
  Forall is_char s /\ Z.of_nat (length (utf8_encode s)) < 2 ^ 32.

(** ** Readers *)

Definition read_option {A} (r : Reader A) : Reader (option A) := fun bs =>
  match bs with
  | x00 :: bs => Some (None, bs)
  | x01 :: bs => '(a, bs) ← r bs; Some (Some a, bs)
  | _ => None
  end.
(** Two's complement. *)
Definition read_i64 : Reader Z := fun bs =>
  '(z, bs) ← read_int 8 bs;
  Some (if z <=? i64.MAX then z else z - 2 ^ 64, bs).
Definition read_string : Reader (list Z) := fun bs =>
  '(n, bs) ← read_int 4 bs;
  '(s, bs) ← read_bytes (Z.to_nat n) bs;
  s ← utf8_decode s;
  Some (s, bs).
Definition read_approval_message : Reader ApprovalMessage.t := fun bs =>
  '(program_id, bs) ← read_key bs;
  '(user_pubkey, bs) ← read_key bs;
  '(expiry_unix, bs) ← read_int 8 bs;
  Some (ApprovalMessage.mk program_id user_pubkey expiry_unix, bs).
(** The derived deserializer of an enum without fields: the index of the variant. *)
Definition read_kind : Reader ConfigurableVaultKind.t := fun bs =>
  '(z, bs) ← read_int 1 bs;
  kind ← nth_error
    [ConfigurableVaultKind.OfferFee; ConfigurableVaultKind.ManagementFee;
     ConfigurableVaultKind.PerformanceFee; ConfigurableVaultKind.PropAmmBuyFee;
     ConfigurableVaultKind.OfferProceeds; ConfigurableVaultKind.PropAmmProceeds;
     ConfigurableVaultKind.PermissionlessOfferFee; ConfigurableVaultKind.RedemptionFee;
     ConfigurableVaultKind.PropAmmSellFee] (Z.to_nat z);
  Some (kind, bs).

(** ** Writers *)

Definition write_option {A} (write : A -> list byte) (o : option A) : list byte :=
  match o with None => [x00] | Some a => x01 :: write a end.
Definition write_string (s : list Z) : list byte :=
  to_le_bytes 4 (Z.of_nat (length (utf8_encode s))) ++ utf8_encode s.

(** ** Reading back *)

Lemma val_of_byte z : 0 <= z < 256 -> byte_val (byte_of z) = z.
Proof. intros H. generalize (from_to_le_bytes 1 z). cbn. lia. Qed.

(** The decoder's branches. *)
Lemma decode_one b rest :
  byte_val b < 128 -> utf8_decode (b :: rest) = cons (byte_val b) <$> utf8_decode rest.
Proof. intros H. cbn [utf8_decode]. by rewrite (proj2 (Z.ltb_lt _ _) H). Qed.

Lemma decode_two b0 b1 rest :
  194 <= byte_val b0 <= 223 -> continuation b1 = true ->
  utf8_decode (b0 :: b1 :: rest)
  = cons ((byte_val b0 - 192) * 64 + low_bits b1) <$> utf8_decode rest.
Proof.
  intros H Hc. cbn [utf8_decode].
  replace (byte_val b0 <? 128) with false by lia.
  replace (in_range 194 223 (byte_val b0)) with true by (unfold in_range; lia). by rewrite Hc.
Qed.

Lemma decode_three b0 b1 b2 rest :
  224 <= byte_val b0 -> second_of_three (byte_val b0) b1 = true -> continuation b2 = true ->
  utf8_decode (b0 :: b1 :: b2 :: rest)
  = cons ((byte_val b0 - 224) * 4096 + low_bits b1 * 64 + low_bits b2) <$> utf8_decode rest.
Proof.
  intros H H1 H2. cbn [utf8_decode].
  replace (byte_val b0 <? 128) with false by lia.
  replace (in_range 194 223 (byte_val b0)) with false by (unfold in_range; lia). by rewrite H1, H2.
Qed.

Lemma decode_four b0 b1 b2 b3 rest :
  240 <= byte_val b0 -> second_of_four (byte_val b0) b1 = true ->
  continuation b2 = true -> continuation b3 = true ->
  utf8_decode (b0 :: b1 :: b2 :: b3 :: rest)
  = cons ((byte_val b0 - 240) * 262144 + low_bits b1 * 4096 + low_bits b2 * 64 + low_bits b3)
      <$> utf8_decode rest.
Proof.
  intros H H1 H2 H3. cbn [utf8_decode].
  replace (byte_val b0 <? 128) with false by lia.
  replace (in_range 194 223 (byte_val b0)) with false by (unfold in_range; lia).
  replace (second_of_three (byte_val b0) b1) with false
    by (symmetry; unfold second_of_three, in_range; lia).
  by rewrite H1, H2, H3.
Qed.

(** The bytes of a character are bytes. *)
Ltac quotients := Z.to_euclidean_division_equations; lia.
Ltac bytes :=
  unfold second_of_three, second_of_four, continuation, low_bits, in_range;
  rewrite !val_of_byte by quotients.

Lemma utf8_bytes_read c rest :
  is_char c -> utf8_decode (utf8_bytes c ++ rest) = cons c <$> utf8_decode rest.
Proof.
  unfold utf8_bytes, is_char. intros Hc.
  destruct (Z.ltb_spec c 128); [|destruct (Z.ltb_spec c 2048); [|destruct (Z.ltb_spec c 65536)]];
    cbn [map app].
  - rewrite decode_one; bytes; [done|lia].
  - rewrite decode_two; bytes; [f_equal; f_equal; quotients | quotients..].
  - rewrite decode_three; bytes; [f_equal; f_equal; quotients | quotients..].
  - rewrite decode_four; bytes; [f_equal; f_equal; quotients | quotients..].
Qed.

Lemma utf8_decode_encode s : Forall is_char s -> utf8_decode (utf8_encode s) = Some s.
Proof.
  induction 1 as [|c s Hc _ IH]; [done|].
  change (utf8_encode (c :: s)) with (utf8_bytes c ++ utf8_encode s)%list.
  by rewrite utf8_bytes_read, IH.
Qed.

Lemma read_bytes_app a rest n :
  length a = n -> read_bytes n (a ++ rest) = Some (a, rest).
Proof.
  intros <-. unfold read_bytes. rewrite decide_True by (rewrite length_app; lia).
  by rewrite take_app_length, drop_app_length.
Qed.

Lemma read_int_app n z rest :
  0 <= z < 256 ^ Z.of_nat n -> read_int n (to_le_bytes n z ++ rest) = Some (z, rest).
Proof.
  intros Hz. unfold read_int. rewrite read_bytes_app by apply to_le_bytes_length. cbn.
  by rewrite from_to_le_bytes.
Qed.

Lemma read_u16_app z rest :
  0 <= z <= u16.MAX -> read_int 2 (to_le_bytes 2 z ++ rest) = Some (z, rest).
Proof. intros Hz. apply read_int_app. change (256 ^ Z.of_nat 2) with (u16.MAX + 1). lia. Qed.
Lemma read_u64_app z rest :
  0 <= z <= u64.MAX -> read_int 8 (to_le_bytes 8 z ++ rest) = Some (z, rest).
Proof. intros Hz. apply read_int_app. change (256 ^ Z.of_nat 8) with (u64.MAX + 1). lia. Qed.

Lemma read_key_app k rest : key32 k -> read_key (key_to_bytes k ++ rest) = Some (k, rest).
Proof.
  intros Hk. unfold read_key. rewrite read_bytes_app by apply key_bytes_length. cbn -[key_of_bytes key_to_bytes].
  by rewrite key_of_to_bytes.
Qed.

Lemma read_bool_app b rest : read_bool ([bool_byte b] ++ rest) = Some (b, rest).
Proof. by destruct b. Qed.

Lemma read_keys_app n ks rest :
  length ks = n -> Forall key32 ks ->
  read_keys n (concat (map key_to_bytes ks) ++ rest) = Some (ks, rest).
Proof.
  intros <- H. induction H as [|k ks Hk _ IH]; cbn [read_keys length map concat]; [done|].
  rewrite <- app_assoc, read_key_app by done. cbn [mbind option_bind]. by rewrite IH.
Qed.

Lemma read_option_app {A} (r : Reader A) write o rest :
  (forall a, o = Some a -> r (write a ++ rest) = Some (a, rest)) ->
  read_option r (write_option write o ++ rest) = Some (o, rest).
Proof. intros H. destruct o as [a|]; [|done]. cbn. by rewrite (H a). Qed.

Lemma read_approval_message_app m rest :
  message_ok m ->
  read_approval_message (ApprovalMessage.serialize m ++ rest) = Some (m, rest).
Proof.
  intros (Hp & Hu & He). unfold read_approval_message, ApprovalMessage.serialize.
  rewrite <-!app_assoc, read_key_app by done. cbn -[key_to_bytes to_le_bytes].
  rewrite read_key_app by done. cbn -[to_le_bytes].
  rewrite read_u64_app by done. by destruct m.
Qed.

Lemma read_string_app s rest : is_string s -> read_string (write_string s ++ rest) = Some (s, rest).
Proof.
  intros [Hs Hn]. unfold read_string, write_string. 
  rewrite <-app_assoc, read_int_app by (split; [lia|exact Hn]). cbn -[utf8_encode].
  rewrite read_bytes_app by lia. cbn -[utf8_encode]. by rewrite utf8_decode_encode.
Qed.
