(* ===== verification/Entrypoint.v ===== *)
(** * The entry point

    How the program turns the bytes and the account list of a request into one of its
    operations: what Anchor's [#[program]] attribute makes of [mod onreapp] in
    [src/programs/onreapp/src/lib.rs] and of the [Accounts] structs it names.

    - [contexts] has one decoder per [Accounts] struct: the accounts in the order of
      its fields, with what the field's type and attributes demand of the request
      itself: a signature ([Signer]), writability ([mut], [init]), the one address a
      [seeds] constraint of constants or a [Program] admits.  An account that a
      handler's model names is passed on; the constraints that read the accounts'
      data, or relate the accounts, are those of the handler ([*_accounts] in the
      component files).
    - [onreapp] has one decoder per function of [mod onreapp]: its context, then its
      arguments, and the operation that stands for the handler it calls.
    - [decode] picks the function by the eight bytes that lead the data.

    A decoder fails where the request is refused; which error Anchor reports is not
    modelled, nor its refusal of one account passed for two [mut] fields.  *)

From Stdlib Require Import Strings.Byte.
From S2P Require Import World Approval OfferPricing OfferHandlers TokenUtils MarketInfo Buffer Vaults Redemption TakeOffer PropAmm Governance Program Lifecycle Borsh.
Open Scope Z_scope.
Open Scope list_scope.

(** ** Requests *)

Module AccountMeta.
Record t : Type := mk { pubkey : Pubkey; is_signer : bool; is_writable : bool }.
(** [AccountMeta::new], [AccountMeta::new_readonly]. *)
Definition new (pubkey : Pubkey) (is_signer : bool) : t := mk pubkey is_signer true.
Definition new_readonly (pubkey : Pubkey) (is_signer : bool) : t := mk pubkey is_signer false.
End AccountMeta.

(** [solana_program::instruction::Instruction]. *)
Record Request : Type := mkRequest {
  rq_program_id : Pubkey;
  rq_accounts : list AccountMeta.t;
  rq_data : list byte
}.

(** [anchor_spl::associated_token::ID]. *)
Class Interface : Type := { associated_token_program_id : Pubkey }.

Definition bytes (l : list Z) : list byte := map byte_of l.

(** ** Decoders *)

(** A decoder consumes accounts and argument bytes. *)
Definition Decoder (A : Type) : Type :=
  list AccountMeta.t -> list byte -> option (A * list AccountMeta.t * list byte).

#[export] Instance Decoder_bind : MBind Decoder := fun A B f m accounts data =>
  '(a, accounts, data) ← m accounts data; f a accounts data.
Definition dret {A} (a : A) : Decoder A := fun accounts data => Some (a, accounts, data).

(** The next account, if it passes the test. *)
Definition next_account (ok : AccountMeta.t -> bool) : Decoder Pubkey := fun accounts data =>
  match accounts with
  | a :: accounts => if ok a then Some (AccountMeta.pubkey a, accounts, data) else None
  | [] => None
  end.
Definition account : Decoder Pubkey := next_account (fun _ => true).
Definition mut_account : Decoder Pubkey := next_account AccountMeta.is_writable.
Definition signer : Decoder Pubkey := next_account AccountMeta.is_signer.
Definition mut_signer : Decoder Pubkey :=
  next_account (fun a => AccountMeta.is_signer a && AccountMeta.is_writable a).
(** An account whose address is fixed. *)
Definition only (k : Pubkey) : Decoder unit :=
  _ ← next_account (fun a => key_eqb (AccountMeta.pubkey a) k); dret tt.
Definition mut_only (k : Pubkey) : Decoder unit :=
  _ ← next_account (fun a => key_eqb (AccountMeta.pubkey a) k && AccountMeta.is_writable a); dret tt.
(** The accounts past those of the struct. *)
Definition remaining : Decoder (list Pubkey) := fun accounts data =>
  Some (map AccountMeta.pubkey accounts, [], data).

Definition arg {A} (r : Reader A) : Decoder A := fun accounts data =>
  '(a, data) ← r data; Some (a, accounts, data).
Definition u16_arg : Decoder Z := arg (read_int 2).
Definition u32_arg : Decoder Z := arg (read_int 4).
Definition u64_arg : Decoder Z := arg (read_int 8).
Definition i64_arg : Decoder Z := arg read_i64.
Definition bool_arg : Decoder bool := arg read_bool.
Definition pubkey_arg : Decoder Pubkey := arg read_key.
Definition string_arg : Decoder (list Z) := arg read_string.
Definition kind_arg : Decoder ConfigurableVaultKind.t := arg read_kind.
Definition option_arg {A} (r : Reader A) : Decoder (option A) := arg (read_option r).

Section accounts.
Context {R : Runtime}.

Definition state_key : Pubkey := pda [seeds.STATE].

(** [Interface<TokenInterface>]: one of the two token programs. *)
Definition token_interface : Decoder Pubkey := next_account (fun a =>
  key_eqb (AccountMeta.pubkey a) spl_token_id || key_eqb (AccountMeta.pubkey a) token_2022_id).
(** [Option<_>]: the program's own address stands for [None]. *)
Definition optional_account : Decoder (option Pubkey) :=
  k ← account; dret (if key_eqb k program_id then None else Some k).
End accounts.

(** ** The [Accounts] structs *)

Module contexts.
Section contexts.
Context {R : Runtime} {I : Interface}.

Definition BufferAccrualAccounts :=
  buffer_state ← mut_account; reserve_vault_onyc_account ← mut_account;
  management_fee_vault_onyc_account ← mut_account;
  performance_fee_vault_onyc_account ← mut_account;
  dret (mkBufferAccrualAccounts buffer_state reserve_vault_onyc_account
    management_fee_vault_onyc_account performance_fee_vault_onyc_account).

Definition Initialize :=
  mut_only state_key;; mut_only mint_authority_key;; mut_only offer_vault_authority_key;;
  boss ← mut_signer; program ← account; program_data ← optional_account; onyc_mint ← account;
  only system_program_id;;
  dret (boss, program, program_data, onyc_mint).

Definition InitializePermissionlessAuthority :=
  mut_only (pda [seeds.PERMISSIONLESS_AUTHORITY]);; only state_key;; boss ← mut_signer;
  only system_program_id;;
  dret boss.

Definition OfferVaultDeposit :=
  only state_key;; only offer_vault_authority_key;; token_mint ← account;
  depositor_token_account ← mut_account; vault_token_account ← mut_account;
  depositor ← mut_signer; token_program ← token_interface; only associated_token_program_id;;
  only system_program_id;;
  dret (mkVaultTransfer depositor token_mint depositor_token_account vault_token_account token_program).

Definition OfferVaultWithdraw :=
  only offer_vault_authority_key;; token_mint ← account; boss_token_account ← mut_account;
  vault_token_account ← mut_account; boss ← mut_signer; only state_key;;
  token_program ← token_interface; only associated_token_program_id;; only system_program_id;;
  dret (mkVaultTransfer boss token_mint boss_token_account vault_token_account token_program).

Definition RedemptionVaultDeposit :=
  only redemption_vault_authority_key;; token_mint ← account;
  depositor_token_account ← mut_account; vault_token_account ← mut_account;
  depositor ← mut_signer; only state_key;; token_program ← token_interface;
  only associated_token_program_id;; only system_program_id;;
  dret (mkVaultTransfer depositor token_mint depositor_token_account vault_token_account token_program).

Definition RedemptionVaultWithdraw :=
  only redemption_vault_authority_key;; token_mint ← account; boss_token_account ← mut_account;
  vault_token_account ← mut_account; boss ← mut_signer; only state_key;;
  token_program ← token_interface; only associated_token_program_id;; only system_program_id;;
  dret (mkVaultTransfer boss token_mint boss_token_account vault_token_account token_program).

Definition SetConfigurableVaultDestination (kind : ConfigurableVaultKind.t) :=
  only state_key;; boss ← mut_signer; mut_only (vault_key kind);; only system_program_id;;
  dret boss.

Definition WithdrawConfigurableVault (kind : ConfigurableVaultKind.t) :=
  only state_key;; _ ← mut_signer; only (vault_key kind);; vault_token_account ← mut_account;
  destination ← account; destination_token_account ← mut_account; mint ← account;
  token_program ← token_interface; only associated_token_program_id;; only system_program_id;;
  dret (vault_token_account, destination, destination_token_account, mint, token_program).

Definition MakeOffer :=
  only offer_vault_authority_key;; token_in_mint ← account; token_in_program ← token_interface;
  vault_token_in_account ← mut_account; token_out_mint ← account; offer ← mut_account;
  only state_key;; boss ← mut_signer; only associated_token_program_id;;
  only system_program_id;;
  dret (mkMakeOffer token_in_mint token_in_program vault_token_in_account token_out_mint offer boss).

Definition AddOfferVector :=
  offer ← mut_account; token_in_mint ← account; token_out_mint ← account; only state_key;;
  boss ← signer;
  dret (mkOfferAdmin offer token_in_mint token_out_mint boss).

Definition DeleteOfferVector :=
  offer ← mut_account; token_in_mint ← account; token_out_mint ← account; only state_key;;
  boss ← signer;
  dret (mkOfferAdmin offer token_in_mint token_out_mint boss).

Definition DeleteAllOfferVectors :=
  offer ← mut_account; token_in_mint ← account; token_out_mint ← account; only state_key;;
  boss ← signer;
  dret (mkOfferAdmin offer token_in_mint token_out_mint boss).

Definition UpdateOfferFee :=
  offer ← mut_account; token_in_mint ← account; token_out_mint ← account; only state_key;;
  boss ← signer;
  dret (mkOfferAdmin offer token_in_mint token_out_mint boss).

Definition UpdateOfferPermissionlessFee :=
  offer ← mut_account; token_in_mint ← account; token_out_mint ← account; only state_key;;
  boss ← signer;
  dret (mkOfferAdmin offer token_in_mint token_out_mint boss).

Definition UpdateRedemptionOfferFee :=
  redemption_offer ← mut_account; only state_key;; boss ← signer;
  dret (redemption_offer, boss).

Definition SetOfferDisabled :=
  offer ← mut_account; only state_key;; signer ← signer;
  dret (offer, signer).

Definition TakeOffer :=
  offer ← mut_account; only state_key;; boss ← account; vault_authority ← account;
  vault_token_in_account ← mut_account; vault_token_out_account ← mut_account;
  token_in_mint ← mut_account; token_in_program ← token_interface;
  token_out_mint ← mut_account; token_out_program ← token_interface;
  user_token_in_account ← mut_account; user_token_out_account ← mut_account;
  boss_token_in_account ← mut_account; mint_authority ← account; instructions_sysvar ← account;
  user ← mut_signer; only associated_token_program_id;; only system_program_id;;
  dret (mkTakeOfferBase offer vault_authority vault_token_in_account vault_token_out_account
    token_in_mint token_in_program token_out_mint token_out_program user_token_in_account
    user_token_out_account mint_authority user,
   boss, boss_token_in_account, instructions_sysvar).

Definition TakeOfferV2 :=
  offer ← mut_account; only state_key;; vault_authority ← account;
  vault_token_in_account ← mut_account; vault_token_out_account ← mut_account;
  token_in_mint ← mut_account; token_in_program ← token_interface;
  token_out_mint ← mut_account; token_out_program ← token_interface;
  user_token_in_account ← mut_account; user_token_out_account ← mut_account;
  redemption_offer ← account; redemption_vault_authority ← account;
  redemption_vault_token_in_account ← mut_account; offer_proceeds_vault ← mut_account;
  offer_proceeds_token_in_account ← mut_account; offer_fee_vault ← mut_account;
  offer_fee_token_in_account ← mut_account; mint_authority ← account;
  buffer_accounts ← BufferAccrualAccounts; market_stats ← mut_account;
  circulating_supply_excluded_balance ← account; instructions_sysvar ← account;
  user ← mut_signer; only associated_token_program_id;; only system_program_id;;
  main_offer ← account;
  dret (mkTakeOfferV2
    (mkTakeOfferBase offer vault_authority vault_token_in_account vault_token_out_account
    token_in_mint token_in_program token_out_mint token_out_program user_token_in_account
    user_token_out_account mint_authority user)
    (mkRefillAccounts redemption_offer redemption_vault_authority redemption_vault_token_in_account)
    offer_proceeds_vault offer_proceeds_token_in_account offer_fee_vault offer_fee_token_in_account
    (mkSupplyAccounts buffer_accounts market_stats circulating_supply_excluded_balance main_offer)
    instructions_sysvar).

Definition QuoteSwapBuy :=
  offer ← account; prop_amm_pair_state ← account; only state_key;; token_in_mint ← account;
  token_out_mint ← account;
  dret (offer, prop_amm_pair_state, token_in_mint, token_out_mint).

Definition QuoteSwapSell :=
  offer ← account; prop_amm_pair_state ← account; redemption_offer ← account; only state_key;;
  only redemption_vault_authority_key;; redemption_vault_token_out_account ← account;
  token_in_mint ← account; token_out_mint ← account; token_out_program ← token_interface;
  market_stats ← account;
  dret (offer, prop_amm_pair_state, redemption_offer, redemption_vault_token_out_account,
        token_in_mint, token_out_mint, token_out_program, market_stats).

Definition OpenSwapBuy :=
  offer ← account; prop_amm_pair_state ← mut_account; redemption_offer ← account;
  only state_key;; only offer_vault_authority_key;; only redemption_vault_authority_key;;
  offer_vault_token_in_account ← mut_account; offer_vault_token_out_account ← mut_account;
  redemption_vault_token_in_account ← mut_account; token_in_mint ← mut_account;
  token_in_program ← token_interface; token_out_mint ← mut_account;
  token_out_program ← token_interface; user_token_in_account ← mut_account;
  user_token_out_account ← mut_account; prop_amm_proceeds_vault ← mut_account;
  prop_amm_proceeds_token_in_account ← mut_account; prop_amm_buy_fee_vault ← mut_account;
  prop_amm_buy_fee_token_in_account ← mut_account;
  only (pda [seeds.PERMISSIONLESS_AUTHORITY]);; permissionless_token_in_account ← mut_account;
  permissionless_token_out_account ← mut_account; only mint_authority_key;;
  buffer_accounts ← BufferAccrualAccounts; market_stats ← mut_account;
  circulating_supply_excluded_balance ← account; _ ← account; user ← mut_signer;
  only associated_token_program_id;; only system_program_id;; main_offer ← account;
  dret (mkOpenSwapBuy offer prop_amm_pair_state redemption_offer offer_vault_token_in_account
    offer_vault_token_out_account redemption_vault_token_in_account token_in_mint token_in_program
    token_out_mint token_out_program user_token_in_account user_token_out_account
    prop_amm_proceeds_vault prop_amm_proceeds_token_in_account prop_amm_buy_fee_vault
    prop_amm_buy_fee_token_in_account permissionless_token_in_account
    permissionless_token_out_account
    (mkSupplyAccounts buffer_accounts market_stats circulating_supply_excluded_balance main_offer) user).

Definition OpenSwapSell :=
  offer ← account; prop_amm_pair_state ← mut_account; redemption_offer ← account;
  only state_key;; only offer_vault_authority_key;; only redemption_vault_authority_key;;
  redemption_vault_token_in_account ← mut_account;
  redemption_vault_token_out_account ← mut_account; token_in_mint ← mut_account;
  token_in_program ← token_interface; token_out_mint ← mut_account;
  token_out_program ← token_interface; user_token_in_account ← mut_account;
  user_token_out_account ← mut_account; prop_amm_proceeds_vault ← mut_account;
  prop_amm_proceeds_token_in_account ← mut_account; prop_amm_sell_fee_vault ← mut_account;
  prop_amm_sell_fee_token_in_account ← mut_account; only mint_authority_key;;
  buffer_accounts ← BufferAccrualAccounts; market_stats ← mut_account;
  circulating_supply_excluded_balance ← account; instructions_sysvar ← account;
  user ← mut_signer; only associated_token_program_id;; only system_program_id;;
  main_offer ← account; offer_vault_onyc_account ← account;
  dret (mkOpenSwapSell offer prop_amm_pair_state redemption_offer redemption_vault_token_in_account
    redemption_vault_token_out_account token_in_mint token_in_program token_out_mint
    token_out_program user_token_in_account user_token_out_account prop_amm_proceeds_vault
    prop_amm_proceeds_token_in_account prop_amm_sell_fee_vault prop_amm_sell_fee_token_in_account
    (mkSupplyAccounts buffer_accounts market_stats circulating_supply_excluded_balance main_offer)
    instructions_sysvar user offer_vault_onyc_account).

Definition TakeOfferPermissionless :=
  offer ← mut_account; only state_key;; boss ← account; vault_authority ← account;
  vault_token_in_account ← mut_account; vault_token_out_account ← mut_account;
  permissionless_authority ← account; permissionless_token_in_account ← mut_account;
  permissionless_token_out_account ← mut_account; token_in_mint ← mut_account;
  token_in_program ← token_interface; token_out_mint ← mut_account;
  token_out_program ← token_interface; user_token_in_account ← mut_account;
  user_token_out_account ← mut_account; boss_token_in_account ← mut_account;
  mint_authority ← account; instructions_sysvar ← account; user ← mut_signer;
  only associated_token_program_id;; only system_program_id;;
  dret (mkTakeOfferBase offer vault_authority vault_token_in_account vault_token_out_account
    token_in_mint token_in_program token_out_mint token_out_program user_token_in_account
    user_token_out_account mint_authority user,
   boss, boss_token_in_account, permissionless_authority, permissionless_token_in_account,
   permissionless_token_out_account, instructions_sysvar).

Definition TakeOfferPermissionlessV2 :=
  offer ← mut_account; only state_key;; vault_authority ← account;
  vault_token_in_account ← mut_account; vault_token_out_account ← mut_account;
  permissionless_authority ← account; permissionless_token_in_account ← mut_account;
  permissionless_token_out_account ← mut_account; token_in_mint ← mut_account;
  token_in_program ← token_interface; token_out_mint ← mut_account;
  token_out_program ← token_interface; user_token_in_account ← mut_account;
  user_token_out_account ← mut_account; redemption_offer ← account;
  redemption_vault_authority ← account; redemption_vault_token_in_account ← mut_account;
  offer_proceeds_vault ← mut_account; offer_proceeds_token_in_account ← mut_account;
  permissionless_offer_fee_vault ← mut_account;
  permissionless_offer_fee_token_in_account ← mut_account; mint_authority ← account;
  buffer_accounts ← BufferAccrualAccounts; market_stats ← mut_account;
  circulating_supply_excluded_balance ← account; user ← mut_signer;
  only associated_token_program_id;; only system_program_id;; main_offer ← account;
  dret (mkTakeOfferPermissionlessV2
    (mkTakeOfferBase offer vault_authority vault_token_in_account vault_token_out_account
    token_in_mint token_in_program token_out_mint token_out_program user_token_in_account
    user_token_out_account mint_authority user)
    permissionless_authority permissionless_token_in_account permissionless_token_out_account
    (mkRefillAccounts redemption_offer redemption_vault_authority redemption_vault_token_in_account)
    offer_proceeds_vault offer_proceeds_token_in_account permissionless_offer_fee_vault
    permissionless_offer_fee_token_in_account
    (mkSupplyAccounts buffer_accounts market_stats circulating_supply_excluded_balance main_offer)).

Definition ProposeBoss :=
  mut_only state_key;; boss ← signer;
  dret boss.

Definition AcceptBoss :=
  mut_only state_key;; new_boss ← signer;
  dret new_boss.

Definition AddAdmin :=
  mut_only state_key;; boss ← signer;
  dret boss.

Definition RemoveAdmin :=
  mut_only state_key;; boss ← signer;
  dret boss.

Definition ClearAdmins :=
  mut_only state_key;; boss ← signer;
  dret boss.

Definition TransferMintAuthorityToProgram :=
  boss ← signer; only state_key;; mint ← mut_account; only mint_authority_key;;
  token_program ← token_interface;
  dret (boss, mint, token_program).

Definition TransferMintAuthorityToBoss :=
  boss ← signer; only state_key;; mint ← mut_account; only mint_authority_key;;
  token_program ← token_interface;
  dret (boss, mint, token_program).

Definition SetKillSwitch :=
  mut_only state_key;; signer ← signer;
  dret signer.

Definition SetOnycMint :=
  mut_only state_key;; boss ← signer; onyc_mint ← account;
  dret (boss, onyc_mint).

Definition SetWorker :=
  mut_only state_key;; boss ← signer;
  dret boss.

Definition InitializeBuffer :=
  only state_key;; mut_only (pda [seeds.BUFFER_STATE]);; mut_only reserve_vault_authority_key;;
  mut_only (vault_key ConfigurableVaultKind.ManagementFee);;
  mut_only (vault_key ConfigurableVaultKind.PerformanceFee);; boss ← mut_signer;
  onyc_mint ← account; offer ← account; reserve_vault_onyc_account ← mut_account;
  management_fee_vault_onyc_account ← mut_account;
  performance_fee_vault_onyc_account ← mut_account; token_program ← token_interface;
  only associated_token_program_id;; only system_program_id;;
  dret (boss, onyc_mint, offer, reserve_vault_onyc_account, management_fee_vault_onyc_account,
        performance_fee_vault_onyc_account, token_program).

Definition SettleBuffer :=
  only state_key;; worker ← mut_signer; onyc_mint ← mut_account; only mint_authority_key;;
  token_program ← token_interface; only system_program_id;; main_offer ← account;
  buffer_accounts ← BufferAccrualAccounts; market_stats ← mut_account;
  circulating_supply_excluded_balance ← account;
  dret (mkBufferCtx worker main_offer onyc_mint token_program buffer_accounts market_stats
    circulating_supply_excluded_balance).

Definition SetMainOffer :=
  mut_only state_key;; boss ← signer; offer ← account;
  dret (boss, offer).

Definition ConfigurePropAmm :=
  only state_key;; offer ← account; asset_mint ← account; prop_amm_pair_state ← mut_account;
  boss ← mut_signer; only system_program_id;;
  dret (offer, asset_mint, prop_amm_pair_state, boss).

Definition SetBufferGrossYield :=
  only state_key;; boss ← mut_signer; main_offer ← account; onyc_mint ← mut_account;
  only offer_vault_authority_key;; only mint_authority_key;;
  buffer_accounts ← BufferAccrualAccounts; token_program ← token_interface;
  only system_program_id;; market_stats ← mut_account;
  circulating_supply_excluded_balance ← account;
  dret (mkBufferCtx boss main_offer onyc_mint token_program buffer_accounts market_stats
    circulating_supply_excluded_balance).

Definition SetBufferFeeConfig :=
  only state_key;; boss ← mut_signer; main_offer ← account; onyc_mint ← mut_account;
  only offer_vault_authority_key;; only mint_authority_key;;
  buffer_accounts ← BufferAccrualAccounts; token_program ← token_interface;
  only system_program_id;; market_stats ← mut_account;
  circulating_supply_excluded_balance ← account;
  dret (mkBufferCtx boss main_offer onyc_mint token_program buffer_accounts market_stats
    circulating_supply_excluded_balance).

Definition BurnForNavIncrease :=
  only state_key;; buffer_state ← mut_account; boss ← mut_signer; main_offer ← account;
  onyc_mint ← mut_account; only offer_vault_authority_key;; only reserve_vault_authority_key;;
  reserve_vault_onyc_account ← mut_account;
  only (vault_key ConfigurableVaultKind.ManagementFee);;
  management_fee_vault_onyc_account ← mut_account;
  only (vault_key ConfigurableVaultKind.PerformanceFee);;
  performance_fee_vault_onyc_account ← mut_account; only mint_authority_key;;
  token_program ← token_interface; only system_program_id;; market_stats ← mut_account;
  circulating_supply_excluded_balance ← account;
  dret (mkBufferCtx boss main_offer onyc_mint token_program
    (mkBufferAccrualAccounts buffer_state reserve_vault_onyc_account
       management_fee_vault_onyc_account performance_fee_vault_onyc_account)
    market_stats circulating_supply_excluded_balance).

Definition DepositReserveVault :=
  only state_key;; only (pda [seeds.BUFFER_STATE]);; only reserve_vault_authority_key;;
  onyc_mint ← account; depositor_onyc_account ← mut_account;
  reserve_vault_onyc_account ← mut_account; depositor ← mut_signer;
  token_program ← token_interface; only associated_token_program_id;; only system_program_id;;
  dret (depositor, onyc_mint, depositor_onyc_account, reserve_vault_onyc_account, token_program).

Definition WithdrawReserveVault :=
  only state_key;; only (pda [seeds.BUFFER_STATE]);; only reserve_vault_authority_key;;
  onyc_mint ← account; boss_onyc_account ← mut_account;
  reserve_vault_onyc_account ← mut_account; boss ← mut_signer; token_program ← token_interface;
  only associated_token_program_id;; only system_program_id;;
  dret (boss, onyc_mint, boss_onyc_account, reserve_vault_onyc_account, token_program).

Definition MintTo :=
  only state_key;; boss ← mut_signer; onyc_mint ← mut_account; boss_onyc_account ← mut_account;
  only mint_authority_key;; token_program ← token_interface; only associated_token_program_id;;
  only system_program_id;; main_offer ← account; buffer_accounts ← BufferAccrualAccounts;
  market_stats ← mut_account; circulating_supply_excluded_balance ← account;
  dret (mkBufferCtx boss main_offer onyc_mint token_program buffer_accounts market_stats
     circulating_supply_excluded_balance, boss_onyc_account).

Definition GetNAV :=
  offer ← account; token_in_mint ← account; token_out_mint ← account;
  dret (offer, token_in_mint, token_out_mint).

Definition GetAPY :=
  offer ← account; token_in_mint ← account; token_out_mint ← account;
  dret (offer, token_in_mint, token_out_mint).

Definition GetNavAdjustment :=
  offer ← account; token_in_mint ← account; token_out_mint ← account;
  dret (offer, token_in_mint, token_out_mint).

Definition GetTVL :=
  offer ← account; token_in_mint ← account; token_out_mint ← account;
  only offer_vault_authority_key;; vault_token_out_account ← account;
  token_out_program ← token_interface;
  dret (offer, token_in_mint, token_out_mint, vault_token_out_account, token_out_program).

Definition GetCirculatingSupply :=
  onyc_mint ← account; only state_key;; only offer_vault_authority_key;;
  onyc_vault_account ← account; token_program ← token_interface;
  dret (onyc_mint, onyc_vault_account, token_program).

Definition GetCirculatingSupplyV2 :=
  onyc_mint ← account; only state_key;; circulating_supply_excluded_balance ← account;
  dret (onyc_mint, circulating_supply_excluded_balance).

Definition RefreshMarketStats :=
  main_offer ← account; token_in_mint ← account; only state_key;; onyc_mint ← account;
  circulating_supply_excluded_balance ← account; market_stats ← mut_account;
  signer ← mut_signer; only system_program_id;;
  dret (mkRefreshMarketStats main_offer token_in_mint onyc_mint circulating_supply_excluded_balance
    market_stats signer).

Definition GetTVLV2 :=
  offer ← account; token_in_mint ← account; token_out_mint ← account; only state_key;;
  circulating_supply_excluded_balance ← account;
  dret (offer, token_in_mint, token_out_mint, circulating_supply_excluded_balance).

Definition SetCirculatingSupplyExcludedAccounts :=
  only state_key;; boss ← mut_signer;
  mut_only (pda [seeds.CIRCULATING_SUPPLY_EXCLUDED_ACCOUNTS]);; only system_program_id;;
  dret boss.

Definition UpdateCirculatingSupplyExcludedBalance :=
  only state_key;; onyc_mint ← account;
  only (pda [seeds.CIRCULATING_SUPPLY_EXCLUDED_ACCOUNTS]);;
  mut_only (pda [seeds.CIRCULATING_SUPPLY_EXCLUDED_BALANCE]);; token_program ← token_interface;
  signer ← mut_signer; only system_program_id;;
  dret (onyc_mint, token_program, signer).

Definition AddApprover :=
  mut_only state_key;; boss ← signer;
  dret boss.

Definition RemoveApprover :=
  mut_only state_key;; boss ← signer;
  dret boss.

Definition ConfigureMaxSupply :=
  mut_only state_key;; boss ← signer;
  dret boss.

Definition ConfigureMaxMintAmount :=
  mut_only state_key;; boss ← signer;
  dret boss.

Definition CloseState :=
  state ← mut_account; boss ← mut_signer; only system_program_id;;
  dret (state, boss).

Definition MakeRedemptionOffer :=
  only state_key;; offer ← account; only redemption_vault_authority_key;;
  token_in_mint ← account; token_in_program ← token_interface;
  vault_token_in_account ← mut_account; token_out_mint ← account;
  token_out_program ← token_interface; vault_token_out_account ← mut_account;
  redemption_offer ← mut_account; boss ← mut_signer; only associated_token_program_id;;
  only system_program_id;;
  dret (mkMakeRedemptionOffer offer token_in_mint token_in_program vault_token_in_account
    token_out_mint token_out_program vault_token_out_account redemption_offer boss).

Definition SetRedemptionOfferDisabled :=
  redemption_offer ← mut_account; only state_key;; signer ← signer;
  dret (redemption_offer, signer).

Definition CreateRedemptionRequest :=
  only state_key;; redemption_offer ← mut_account; offer ← account;
  redemption_request ← mut_account; redeemer ← mut_signer;
  only redemption_vault_authority_key;; token_in_mint ← account;
  redeemer_token_account ← mut_account; vault_token_account ← mut_account;
  token_program ← token_interface; only associated_token_program_id;; only system_program_id;;
  dret (mkCreateRedemptionRequest redemption_offer offer redemption_request redeemer token_in_mint
    redeemer_token_account vault_token_account token_program).

Definition FulfillRedemptionRequest :=
  only state_key;; offer ← account; redemption_offer ← mut_account;
  redemption_request ← mut_account; only redemption_vault_authority_key;;
  vault_token_in_account ← mut_account; vault_token_out_account ← mut_account;
  token_in_mint ← mut_account; token_in_program ← token_interface;
  token_out_mint ← mut_account; token_out_program ← token_interface;
  user_token_out_account ← mut_account; offer_proceeds_vault ← mut_account;
  offer_proceeds_token_in_account ← mut_account; redemption_fee_vault ← mut_account;
  redemption_fee_token_in_account ← mut_account; only mint_authority_key;; redeemer ← account;
  worker ← mut_signer; buffer_accounts ← BufferAccrualAccounts;
  only associated_token_program_id;; only system_program_id;; only offer_vault_authority_key;;
  offer_vault_onyc_account ← account; market_stats ← mut_account;
  circulating_supply_excluded_balance ← account; main_offer ← account;
  dret (mkFulfillRedemptionRequest offer redemption_offer redemption_request vault_token_in_account
    vault_token_out_account token_in_mint token_in_program token_out_mint token_out_program
    user_token_out_account offer_proceeds_vault offer_proceeds_token_in_account
    redemption_fee_vault redemption_fee_token_in_account redeemer worker buffer_accounts
    offer_vault_onyc_account market_stats circulating_supply_excluded_balance main_offer).

Definition CancelRedemptionRequest :=
  only state_key;; redemption_offer ← mut_account; redemption_request ← mut_account;
  signer ← mut_signer; redeemer ← account; worker ← mut_account;
  only redemption_vault_authority_key;; token_in_mint ← account;
  vault_token_account ← mut_account; redeemer_token_account ← mut_account;
  token_program ← token_interface; only system_program_id;; only associated_token_program_id;;
  dret (mkCancelRedemptionRequest redemption_offer redemption_request signer redeemer worker
    token_in_mint vault_token_account redeemer_token_account token_program).
End contexts.
End contexts.

(** ** The functions of [mod onreapp] *)

Module onreapp.
Section onreapp.
Context {R : Runtime} {I : Interface}.

Definition initialize : Decoder operation :=
  '(boss, program, program_data, onyc_mint) ← contexts.Initialize;
  dret (Initialize boss program program_data onyc_mint).

Definition initialize_permissionless_authority : Decoder operation :=
  boss ← contexts.InitializePermissionlessAuthority; name ← string_arg;
  dret (InitializePermissionlessAuthority boss name).

Definition offer_vault_deposit : Decoder operation :=
  ctx ← contexts.OfferVaultDeposit; amount ← u64_arg;
  dret (Handler (OfferVaultDeposit ctx amount)).

Definition offer_vault_withdraw : Decoder operation :=
  ctx ← contexts.OfferVaultWithdraw; amount ← u64_arg;
  dret (Handler (OfferVaultWithdraw ctx amount)).

Definition redemption_vault_deposit : Decoder operation :=
  ctx ← contexts.RedemptionVaultDeposit; amount ← u64_arg;
  dret (Handler (RedemptionVaultDeposit ctx amount)).

Definition redemption_vault_withdraw : Decoder operation :=
  ctx ← contexts.RedemptionVaultWithdraw; amount ← u64_arg;
  dret (Handler (RedemptionVaultWithdraw ctx amount)).

Definition set_configurable_vault_destination : Decoder operation :=
  kind ← kind_arg; boss ← contexts.SetConfigurableVaultDestination kind;
  withdrawal_destination ← pubkey_arg;
  dret (Handler (SetConfigurableVaultDestination boss kind withdrawal_destination)).

Definition withdraw_configurable_vault : Decoder operation :=
  kind ← kind_arg;
  '(vault_token_account, destination, destination_token_account, mint, token_program)
    ← contexts.WithdrawConfigurableVault kind;
  amount ← u64_arg;
  dret (Handler (WithdrawConfigurableVault kind vault_token_account destination
    destination_token_account mint token_program amount)).

Definition make_offer : Decoder operation :=
  ctx ← contexts.MakeOffer; fee_basis_points ← u16_arg; needs_approval ← bool_arg;
  allow_permissionless ← bool_arg;
  dret (Handler (MakeOfferIx ctx fee_basis_points needs_approval allow_permissionless)).

Definition add_offer_vector : Decoder operation :=
  ctx ← contexts.AddOfferVector; start_time ← (option_arg (read_int 8)); base_time ← u64_arg;
  base_price ← u64_arg; apr ← u64_arg; price_fix_duration ← u64_arg;
  dret (Handler (AddOfferVector ctx start_time base_time base_price apr price_fix_duration)).

Definition delete_offer_vector : Decoder operation :=
  ctx ← contexts.DeleteOfferVector; vector_start_time ← u64_arg;
  dret (Handler (DeleteOfferVector ctx vector_start_time)).

Definition delete_all_offer_vectors : Decoder operation :=
  ctx ← contexts.DeleteAllOfferVectors;
  dret (Handler (DeleteAllOfferVectors ctx)).

Definition update_offer_fee : Decoder operation :=
  ctx ← contexts.UpdateOfferFee; new_fee_basis_points ← u16_arg;
  dret (Handler (UpdateOfferFee ctx new_fee_basis_points)).

Definition update_offer_permissionless_fee : Decoder operation :=
  ctx ← contexts.UpdateOfferPermissionlessFee; new_fee_basis_points_permissionless ← u16_arg;
  dret (Handler (UpdateOfferPermissionlessFee ctx new_fee_basis_points_permissionless)).

Definition update_redemption_offer_prop_amm_sell_fee : Decoder operation :=
  '(redemption_offer, boss) ← contexts.UpdateRedemptionOfferFee;
  new_fee_basis_points_prop_amm_sell ← u16_arg;
  dret (Handler (UpdateRedemptionOfferPropAmmSellFee redemption_offer boss
    new_fee_basis_points_prop_amm_sell)).

Definition set_offer_disabled : Decoder operation :=
  '(offer, signer) ← contexts.SetOfferDisabled; disabled ← bool_arg;
  dret (Handler (SetOfferDisabled offer signer disabled)).

Definition take_offer : Decoder operation :=
  '(ctx, boss, boss_token_in_account, instructions_sysvar) ← contexts.TakeOffer;
  token_in_amount ← u64_arg; approval_message ← (option_arg read_approval_message);
  dret (Handler (TakeOffer ctx boss boss_token_in_account instructions_sysvar token_in_amount
    approval_message)).

Definition take_offer_v2 : Decoder operation :=
  ctx ← contexts.TakeOfferV2; token_in_amount ← u64_arg;
  approval_message ← (option_arg read_approval_message);
  dret (Handler (TakeOfferV2Ix ctx token_in_amount approval_message)).

Definition quote_swap_buy : Decoder operation :=
  '(offer, prop_amm_pair_state, token_in_mint, token_out_mint) ← contexts.QuoteSwapBuy;
  token_in_amount ← u64_arg;
  dret (Handler (QuoteSwapBuy offer prop_amm_pair_state token_in_mint token_out_mint token_in_amount)).

Definition quote_swap_sell : Decoder operation :=
  '(offer, prop_amm_pair_state, redemption_offer, redemption_vault_token_out_account, token_in_mint, token_out_mint, token_out_program, market_stats)
    ← contexts.QuoteSwapSell;
  token_in_amount ← u64_arg;
  dret (Handler (QuoteSwapSell offer prop_amm_pair_state redemption_offer
    redemption_vault_token_out_account token_in_mint token_out_mint token_out_program market_stats
    token_in_amount)).

Definition open_swap_buy : Decoder operation :=
  ctx ← contexts.OpenSwapBuy; token_in_amount ← u64_arg; minimum_out ← u64_arg;
  dret (Handler (OpenSwapBuyIx ctx token_in_amount minimum_out)).

Definition open_swap_sell : Decoder operation :=
  ctx ← contexts.OpenSwapSell; token_in_amount ← u64_arg; minimum_out ← u64_arg;
  dret (Handler (OpenSwapSellIx ctx token_in_amount minimum_out)).

Definition take_offer_permissionless : Decoder operation :=
  '(ctx, boss, boss_token_in_account, permissionless_authority, permissionless_token_in_account, permissionless_token_out_account, instructions_sysvar)
    ← contexts.TakeOfferPermissionless;
  token_in_amount ← u64_arg; _ ← (option_arg read_approval_message);
  dret (Handler (TakeOfferPermissionless ctx boss boss_token_in_account
    permissionless_authority permissionless_token_in_account permissionless_token_out_account
    instructions_sysvar token_in_amount)).

Definition take_offer_permissionless_v2 : Decoder operation :=
  ctx ← contexts.TakeOfferPermissionlessV2; token_in_amount ← u64_arg;
  dret (Handler (TakeOfferPermissionlessV2Ix ctx token_in_amount)).

Definition propose_boss : Decoder operation :=
  boss ← contexts.ProposeBoss; new_boss ← pubkey_arg;
  dret (Handler (ProposeBoss boss new_boss)).

Definition accept_boss : Decoder operation :=
  new_boss ← contexts.AcceptBoss;
  dret (Handler (AcceptBoss new_boss)).

Definition add_admin : Decoder operation :=
  boss ← contexts.AddAdmin; new_admin ← pubkey_arg;
  dret (Handler (AddAdmin boss new_admin)).

Definition remove_admin : Decoder operation :=
  boss ← contexts.RemoveAdmin; admin_to_remove ← pubkey_arg;
  dret (Handler (RemoveAdmin boss admin_to_remove)).

Definition clear_admins : Decoder operation :=
  boss ← contexts.ClearAdmins;
  dret (Handler (ClearAdmins boss)).

Definition transfer_mint_authority_to_program : Decoder operation :=
  '(boss, mint, token_program) ← contexts.TransferMintAuthorityToProgram;
  dret (Handler (TransferMintAuthorityToProgram boss mint token_program)).

Definition transfer_mint_authority_to_boss : Decoder operation :=
  '(boss, mint, token_program) ← contexts.TransferMintAuthorityToBoss;
  dret (Handler (TransferMintAuthorityToBoss boss mint token_program)).

Definition set_kill_switch : Decoder operation :=
  signer ← contexts.SetKillSwitch; enable ← bool_arg;
  dret (Handler (SetKillSwitch signer enable)).

Definition set_onyc_mint : Decoder operation :=
  '(boss, onyc_mint) ← contexts.SetOnycMint;
  dret (Handler (SetOnycMint boss onyc_mint)).

Definition set_worker : Decoder operation :=
  boss ← contexts.SetWorker; new_worker ← pubkey_arg;
  dret (Handler (SetWorker boss new_worker)).

Definition initialize_buffer : Decoder operation :=
  '(boss, onyc_mint, offer, reserve_vault_onyc_account, management_fee_vault_onyc_account, performance_fee_vault_onyc_account, token_program)
    ← contexts.InitializeBuffer;
  dret (Handler (InitializeBuffer boss onyc_mint offer reserve_vault_onyc_account
    management_fee_vault_onyc_account performance_fee_vault_onyc_account token_program)).

Definition settle_buffer : Decoder operation :=
  ctx ← contexts.SettleBuffer;
  dret (Handler (SettleBuffer ctx)).

Definition set_main_offer : Decoder operation :=
  '(boss, offer) ← contexts.SetMainOffer;
  dret (Handler (SetMainOffer boss offer)).

Definition configure_prop_amm : Decoder operation :=
  '(offer, asset_mint, prop_amm_pair_state, boss) ← contexts.ConfigurePropAmm;
  enabled ← bool_arg; curve_peg_haircut_bps ← u16_arg; curve_exponent_scaled ← u32_arg;
  cadence_threshold ← u32_arg; cadence_wave_scaled ← u32_arg; epoch_duration_seconds ← i64_arg;
  wall_sensitivity_scaled ← u32_arg; minimum_sell_haircut_onyc ← u64_arg;
  dret (Handler (ConfigurePropAmm offer asset_mint prop_amm_pair_state boss
    (mkPropAmmConfig enabled curve_peg_haircut_bps curve_exponent_scaled cadence_threshold
       cadence_wave_scaled epoch_duration_seconds wall_sensitivity_scaled
       minimum_sell_haircut_onyc))).

Definition set_buffer_gross_apr : Decoder operation :=
  ctx ← contexts.SetBufferGrossYield; gross_yield ← u64_arg;
  dret (Handler (SetBufferGrossApr ctx gross_yield)).

Definition set_buffer_fee_config : Decoder operation :=
  ctx ← contexts.SetBufferFeeConfig; management_fee_basis_points ← u16_arg;
  performance_fee_basis_points ← u16_arg; performance_fee_high_watermark_enabled ← bool_arg;
  dret (Handler (SetBufferFeeConfig ctx management_fee_basis_points performance_fee_basis_points
    performance_fee_high_watermark_enabled)).

Definition burn_for_nav_increase : Decoder operation :=
  ctx ← contexts.BurnForNavIncrease; asset_adjustment_amount ← u64_arg;
  dret (Handler (BurnForNavIncrease ctx asset_adjustment_amount)).

Definition deposit_reserve_vault : Decoder operation :=
  '(depositor, onyc_mint, depositor_onyc_account, reserve_vault_onyc_account, token_program)
    ← contexts.DepositReserveVault;
  amount ← u64_arg;
  dret (Handler (DepositReserveVault depositor onyc_mint depositor_onyc_account
    reserve_vault_onyc_account token_program amount)).

Definition withdraw_reserve_vault : Decoder operation :=
  '(boss, onyc_mint, boss_onyc_account, reserve_vault_onyc_account, token_program)
    ← contexts.WithdrawReserveVault;
  amount ← u64_arg;
  dret (Handler (WithdrawReserveVault boss onyc_mint boss_onyc_account
    reserve_vault_onyc_account token_program amount)).

Definition mint_to : Decoder operation :=
  '(ctx, boss_onyc_account) ← contexts.MintTo; amount ← u64_arg;
  dret (Handler (MintTo ctx boss_onyc_account amount)).

Definition get_nav : Decoder operation :=
  '(offer, token_in_mint, token_out_mint) ← contexts.GetNAV;
  dret (Handler (GetNav offer token_in_mint token_out_mint)).

Definition get_apy : Decoder operation :=
  '(offer, token_in_mint, token_out_mint) ← contexts.GetAPY;
  dret (Handler (GetApy offer token_in_mint token_out_mint)).

Definition get_nav_adjustment : Decoder operation :=
  '(offer, token_in_mint, token_out_mint) ← contexts.GetNavAdjustment;
  dret (Handler (GetNavAdjustment offer token_in_mint token_out_mint)).

Definition get_tvl : Decoder operation :=
  '(offer, token_in_mint, token_out_mint, vault_token_out_account, token_out_program)
    ← contexts.GetTVL;
  dret (Handler (GetTvl offer token_in_mint token_out_mint vault_token_out_account token_out_program)).

Definition get_circulating_supply : Decoder operation :=
  '(onyc_mint, onyc_vault_account, token_program) ← contexts.GetCirculatingSupply;
  dret (Handler (GetCirculatingSupply onyc_mint onyc_vault_account token_program)).

Definition get_circulating_supply_v2 : Decoder operation :=
  '(onyc_mint, circulating_supply_excluded_balance) ← contexts.GetCirculatingSupplyV2;
  dret (Handler (GetCirculatingSupplyV2 onyc_mint circulating_supply_excluded_balance)).

Definition refresh_market_stats : Decoder operation :=
  ctx ← contexts.RefreshMarketStats;
  dret (Handler (RefreshMarketStatsIx ctx)).

Definition get_tvl_v2 : Decoder operation :=
  '(offer, token_in_mint, token_out_mint, circulating_supply_excluded_balance) ← contexts.GetTVLV2;
  dret (Handler (GetTvlV2 offer token_in_mint token_out_mint circulating_supply_excluded_balance)).

Definition set_circulating_supply_excluded_accounts : Decoder operation :=
  boss ← contexts.SetCirculatingSupplyExcludedAccounts;
  owners ← (arg (read_keys MAX_CIRCULATING_SUPPLY_EXCLUDED_ACCOUNTS));
  dret (Handler (SetExcludedAccounts boss owners)).

Definition update_circulating_supply_excluded_balance : Decoder operation :=
  '(onyc_mint, token_program, signer) ← contexts.UpdateCirculatingSupplyExcludedBalance;
  remaining_accounts ← remaining;
  dret (Handler (UpdateExcludedBalance onyc_mint token_program signer remaining_accounts)).

Definition add_approver : Decoder operation :=
  boss ← contexts.AddApprover; approver ← pubkey_arg;
  dret (Handler (AddApprover boss approver)).

Definition remove_approver : Decoder operation :=
  boss ← contexts.RemoveApprover; approver ← pubkey_arg;
  dret (Handler (RemoveApprover boss approver)).

Definition configure_max_supply : Decoder operation :=
  boss ← contexts.ConfigureMaxSupply; max_supply ← u64_arg;
  dret (Handler (ConfigureMaxSupply boss max_supply)).

Definition configure_max_mint_amount : Decoder operation :=
  boss ← contexts.ConfigureMaxMintAmount; max_mint_amount ← u64_arg;
  dret (Handler (ConfigureMaxMintAmount boss max_mint_amount)).

Definition close_state : Decoder operation :=
  '(state, boss) ← contexts.CloseState;
  dret (CloseState state boss).

Definition make_redemption_offer : Decoder operation :=
  ctx ← contexts.MakeRedemptionOffer; fee_basis_points ← u16_arg;
  fee_basis_points_prop_amm_sell ← u16_arg;
  dret (Handler (MakeRedemptionOfferIx ctx fee_basis_points fee_basis_points_prop_amm_sell)).

Definition set_redemption_offer_disabled : Decoder operation :=
  '(redemption_offer, signer) ← contexts.SetRedemptionOfferDisabled; disabled ← bool_arg;
  dret (Handler (SetRedemptionOfferDisabled redemption_offer signer disabled)).

Definition create_redemption_request : Decoder operation :=
  ctx ← contexts.CreateRedemptionRequest; amount ← u64_arg;
  dret (Handler (CreateRedemptionRequestIx ctx amount)).

Definition fulfill_redemption_request : Decoder operation :=
  ctx ← contexts.FulfillRedemptionRequest; amount ← u64_arg;
  dret (Handler (FulfillRedemptionRequestIx ctx amount)).

Definition cancel_redemption_request : Decoder operation :=
  ctx ← contexts.CancelRedemptionRequest;
  dret (Handler (CancelRedemptionRequestIx ctx)).

Definition update_redemption_offer_fee : Decoder operation :=
  '(redemption_offer, boss) ← contexts.UpdateRedemptionOfferFee;
  new_fee_basis_points ← u16_arg;
  dret (Handler (UpdateRedemptionOfferFee redemption_offer boss new_fee_basis_points)).

Definition update_redemption_offer_vault_target : Decoder operation :=
  '(redemption_offer, boss) ← contexts.UpdateRedemptionOfferFee;
  new_vault_target_bps ← u16_arg;
  dret (Handler (UpdateRedemptionOfferVaultTarget redemption_offer boss new_vault_target_bps)).
End onreapp.
End onreapp.

Section entry.
Context {R : Runtime} {I : Interface}.

(** Each function under its discriminator, the first eight bytes of the SHA-256 hash
    of ["global:"] and its name, which the build records in
    [src/target/idl/onreapp.json]. *)
Definition functions : list (list byte * Decoder operation) :=
  [ (bytes [175; 175; 109; 31; 13; 152; 155; 237], onreapp.initialize);
    (bytes [89; 93; 43; 180; 148; 16; 238; 24], onreapp.initialize_permissionless_authority);
    (bytes [69; 131; 100; 85; 82; 151; 72; 74], onreapp.offer_vault_deposit);
    (bytes [230; 135; 129; 48; 138; 202; 20; 72], onreapp.offer_vault_withdraw);
    (bytes [67; 104; 107; 131; 141; 2; 140; 122], onreapp.redemption_vault_deposit);
    (bytes [48; 214; 145; 15; 168; 122; 39; 48], onreapp.redemption_vault_withdraw);
    (bytes [133; 244; 254; 4; 120; 3; 31; 123], onreapp.set_configurable_vault_destination);
    (bytes [255; 81; 28; 61; 192; 180; 29; 13], onreapp.withdraw_configurable_vault);
    (bytes [214; 98; 97; 35; 59; 12; 44; 178], onreapp.make_offer);
    (bytes [198; 139; 180; 6; 156; 171; 188; 61], onreapp.add_offer_vector);
    (bytes [87; 40; 79; 151; 78; 121; 46; 159], onreapp.delete_offer_vector);
    (bytes [26; 201; 38; 207; 76; 51; 79; 15], onreapp.delete_all_offer_vectors);
    (bytes [254; 162; 70; 248; 117; 70; 197; 118], onreapp.update_offer_fee);
    (bytes [211; 4; 141; 85; 85; 236; 195; 34], onreapp.update_offer_permissionless_fee);
    (bytes [160; 118; 162; 32; 102; 148; 239; 5], onreapp.update_redemption_offer_prop_amm_sell_fee);
    (bytes [250; 160; 113; 13; 46; 252; 4; 86], onreapp.set_offer_disabled);
    (bytes [128; 156; 242; 207; 237; 192; 103; 240], onreapp.take_offer);
    (bytes [203; 29; 22; 81; 189; 205; 210; 60], onreapp.take_offer_v2);
    (bytes [229; 148; 9; 48; 34; 165; 115; 166], onreapp.quote_swap_buy);
    (bytes [198; 1; 48; 226; 172; 136; 51; 251], onreapp.quote_swap_sell);
    (bytes [143; 202; 194; 184; 129; 189; 219; 139], onreapp.open_swap_buy);
    (bytes [93; 206; 188; 72; 45; 138; 181; 71], onreapp.open_swap_sell);
    (bytes [37; 190; 224; 77; 197; 39; 203; 230], onreapp.take_offer_permissionless);
    (bytes [250; 180; 68; 89; 124; 124; 31; 250], onreapp.take_offer_permissionless_v2);
    (bytes [163; 199; 158; 47; 155; 78; 174; 173], onreapp.propose_boss);
    (bytes [152; 63; 117; 209; 67; 11; 250; 242], onreapp.accept_boss);
    (bytes [177; 236; 33; 205; 124; 152; 55; 186], onreapp.add_admin);
    (bytes [74; 202; 71; 106; 252; 31; 72; 183], onreapp.remove_admin);
    (bytes [39; 200; 132; 30; 196; 160; 73; 55], onreapp.clear_admins);
    (bytes [98; 112; 50; 135; 53; 6; 149; 232], onreapp.transfer_mint_authority_to_program);
    (bytes [197; 61; 42; 52; 70; 93; 30; 125], onreapp.transfer_mint_authority_to_boss);
    (bytes [228; 119; 172; 135; 209; 250; 172; 216], onreapp.set_kill_switch);
    (bytes [177; 83; 119; 179; 44; 141; 201; 24], onreapp.set_onyc_mint);
    (bytes [36; 210; 154; 242; 201; 126; 112; 33], onreapp.set_worker);
    (bytes [43; 127; 69; 196; 129; 6; 159; 210], onreapp.initialize_buffer);
    (bytes [196; 144; 145; 221; 54; 210; 224; 9], onreapp.settle_buffer);
    (bytes [129; 95; 103; 81; 225; 142; 102; 227], onreapp.set_main_offer);
    (bytes [235; 104; 216; 250; 252; 160; 107; 181], onreapp.configure_prop_amm);
    (bytes [245; 49; 142; 190; 30; 123; 184; 11], onreapp.set_buffer_gross_apr);
    (bytes [68; 233; 51; 70; 228; 167; 74; 147], onreapp.set_buffer_fee_config);
    (bytes [8; 13; 69; 178; 183; 45; 102; 205], onreapp.burn_for_nav_increase);
    (bytes [159; 91; 174; 234; 207; 12; 167; 9], onreapp.deposit_reserve_vault);
    (bytes [224; 37; 127; 12; 213; 154; 179; 98], onreapp.withdraw_reserve_vault);
    (bytes [241; 34; 48; 186; 37; 179; 123; 192], onreapp.mint_to);
    (bytes [200; 89; 76; 53; 215; 218; 63; 21], onreapp.get_nav);
    (bytes [194; 123; 183; 54; 181; 74; 194; 97], onreapp.get_apy);
    (bytes [70; 198; 229; 129; 238; 233; 143; 94], onreapp.get_nav_adjustment);
    (bytes [88; 225; 219; 204; 86; 91; 184; 51], onreapp.get_tvl);
    (bytes [132; 168; 96; 104; 217; 255; 111; 152], onreapp.get_circulating_supply);
    (bytes [57; 115; 7; 115; 9; 100; 135; 111], onreapp.get_circulating_supply_v2);
    (bytes [51; 221; 140; 112; 205; 53; 22; 233], onreapp.refresh_market_stats);
    (bytes [64; 43; 63; 112; 186; 8; 1; 165], onreapp.get_tvl_v2);
    (bytes [109; 247; 233; 248; 196; 107; 17; 66], onreapp.set_circulating_supply_excluded_accounts);
    (bytes [3; 26; 180; 255; 32; 146; 247; 85], onreapp.update_circulating_supply_excluded_balance);
    (bytes [213; 245; 135; 79; 129; 129; 22; 80], onreapp.add_approver);
    (bytes [214; 72; 133; 48; 50; 58; 227; 224], onreapp.remove_approver);
    (bytes [145; 100; 133; 229; 142; 59; 96; 62], onreapp.configure_max_supply);
    (bytes [7; 197; 225; 52; 209; 53; 89; 172], onreapp.configure_max_mint_amount);
    (bytes [25; 1; 184; 101; 200; 245; 210; 246], onreapp.close_state);
    (bytes [6; 130; 180; 160; 163; 166; 51; 41], onreapp.make_redemption_offer);
    (bytes [44; 130; 57; 167; 162; 117; 37; 107], onreapp.set_redemption_offer_disabled);
    (bytes [201; 53; 181; 254; 115; 137; 70; 151], onreapp.create_redemption_request);
    (bytes [140; 124; 139; 242; 179; 153; 208; 66], onreapp.fulfill_redemption_request);
    (bytes [77; 155; 4; 179; 114; 233; 162; 45], onreapp.cancel_redemption_request);
    (bytes [73; 11; 35; 194; 219; 147; 159; 3], onreapp.update_redemption_offer_fee);
    (bytes [182; 79; 179; 178; 68; 172; 197; 1], onreapp.update_redemption_offer_vault_target) ].

Definition function_of (discriminator : list byte) : option (Decoder operation) :=
  snd <$> List.find (fun f => bool_decide (fst f = discriminator)) functions.

(** The operation a request asks for, if it is not refused: data and accounts left
    over are ignored. *)
Definition decode (rq : Request) : option operation :=
  if key_eqb (rq_program_id rq) program_id then
    f ← function_of (take 8 (rq_data rq));
    '(op, _, _) ← f (rq_accounts rq) (drop 8 (rq_data rq));
    Some op
  else None.
End entry.
