(* ===== verification/Client.v ===== *)
(** * The request builders

    [src/trident-tests/fuzz_0/types.rs], [mod onreapp]: the client Trident generated
    from an interface description of the program, one struct per instruction with its
    accounts, its data and the [Instruction] built of them.  A request is made by
    [XInstruction::data(..).accounts(..)], perhaps [.remaining_accounts(..)], then
    [.instruction()]: here [XInstruction.instruction], one module per struct.  A
    builder whose [accounts] is never called, with its default metas, is left out.

    The program has moved on since the client was generated: [EntryFacts] says
    which of the builders it still understands.  *)

From Stdlib Require Import Strings.Byte.
From S2P Require Import World Approval Lifecycle Borsh Entrypoint.
Open Scope Z_scope.
Open Scope list_scope.

Module AcceptBossInstruction.
Record Accounts : Type := mkAccounts {
  state : Pubkey; new_boss : Pubkey
}.
Record Data : Type := mkData { }.
Definition discriminator : list byte := bytes [152; 63; 117; 209; 67; 11; 250; 242].
Section instruction.
Context {R : Runtime} {I : Interface}.
Definition to_account_metas (accounts : Accounts) (remaining_accounts : list AccountMeta.t)
    : list AccountMeta.t :=
  [AccountMeta.new (state accounts) false; AccountMeta.new_readonly (new_boss accounts) true] ++ remaining_accounts.
Definition serialize (data : Data) : list byte := [].
Definition instruction (accounts : Accounts) (data : Data) (remaining_accounts : list AccountMeta.t)
    : Request :=
  mkRequest program_id (to_account_metas accounts remaining_accounts) (discriminator ++ serialize data).
End instruction.
End AcceptBossInstruction.

Module AddAdminInstruction.
Record Accounts : Type := mkAccounts {
  state : Pubkey; boss : Pubkey
}.
Record Data : Type := mkData {
  new_admin : Pubkey
}.
Definition discriminator : list byte := bytes [177; 236; 33; 205; 124; 152; 55; 186].
Section instruction.
Context {R : Runtime} {I : Interface}.
Definition to_account_metas (accounts : Accounts) (remaining_accounts : list AccountMeta.t)
    : list AccountMeta.t :=
  [AccountMeta.new (state accounts) false; AccountMeta.new_readonly (boss accounts) true] ++ remaining_accounts.
Definition serialize (data : Data) : list byte :=
  concat [key_to_bytes (new_admin data)].
Definition instruction (accounts : Accounts) (data : Data) (remaining_accounts : list AccountMeta.t)
    : Request :=
  mkRequest program_id (to_account_metas accounts remaining_accounts) (discriminator ++ serialize data).
End instruction.
End AddAdminInstruction.

Module AddApproverInstruction.
Record Accounts : Type := mkAccounts {
  state : Pubkey; boss : Pubkey
}.
Record Data : Type := mkData {
  approver : Pubkey
}.
Definition discriminator : list byte := bytes [213; 245; 135; 79; 129; 129; 22; 80].
Section instruction.
Context {R : Runtime} {I : Interface}.
Definition to_account_metas (accounts : Accounts) (remaining_accounts : list AccountMeta.t)
    : list AccountMeta.t :=
  [AccountMeta.new (state accounts) false; AccountMeta.new_readonly (boss accounts) true] ++ remaining_accounts.
Definition serialize (data : Data) : list byte :=
  concat [key_to_bytes (approver data)].
Definition instruction (accounts : Accounts) (data : Data) (remaining_accounts : list AccountMeta.t)
    : Request :=
  mkRequest program_id (to_account_metas accounts remaining_accounts) (discriminator ++ serialize data).
End instruction.
End AddApproverInstruction.

Module AddOfferVectorInstruction.
Record Accounts : Type := mkAccounts {
  offer : Pubkey; token_in_mint : Pubkey; token_out_mint : Pubkey; state : Pubkey; boss : Pubkey
}.
Record Data : Type := mkData {
  start_time : option Z; base_time : Z; base_price : Z; apr : Z; price_fix_duration : Z
}.
Definition discriminator : list byte := bytes [198; 139; 180; 6; 156; 171; 188; 61].
Section instruction.
Context {R : Runtime} {I : Interface}.
Definition to_account_metas (accounts : Accounts) (remaining_accounts : list AccountMeta.t)
    : list AccountMeta.t :=
  [AccountMeta.new (offer accounts) false;
   AccountMeta.new_readonly (token_in_mint accounts) false;
   AccountMeta.new_readonly (token_out_mint accounts) false;
   AccountMeta.new_readonly (state accounts) false;
   AccountMeta.new_readonly (boss accounts) true] ++ remaining_accounts.
Definition serialize (data : Data) : list byte :=
  concat [write_option (to_le_bytes 8) (start_time data); to_le_bytes 8 (base_time data);
          to_le_bytes 8 (base_price data); to_le_bytes 8 (apr data);
          to_le_bytes 8 (price_fix_duration data)].
Definition instruction (accounts : Accounts) (data : Data) (remaining_accounts : list AccountMeta.t)
    : Request :=
  mkRequest program_id (to_account_metas accounts remaining_accounts) (discriminator ++ serialize data).
End instruction.
End AddOfferVectorInstruction.

Module ClearAdminsInstruction.
Record Accounts : Type := mkAccounts {
  state : Pubkey; boss : Pubkey
}.
Record Data : Type := mkData { }.
Definition discriminator : list byte := bytes [39; 200; 132; 30; 196; 160; 73; 55].
Section instruction.
Context {R : Runtime} {I : Interface}.
Definition to_account_metas (accounts : Accounts) (remaining_accounts : list AccountMeta.t)
    : list AccountMeta.t :=
  [AccountMeta.new (state accounts) false; AccountMeta.new_readonly (boss accounts) true] ++ remaining_accounts.
Definition serialize (data : Data) : list byte := [].
Definition instruction (accounts : Accounts) (data : Data) (remaining_accounts : list AccountMeta.t)
    : Request :=
  mkRequest program_id (to_account_metas accounts remaining_accounts) (discriminator ++ serialize data).
End instruction.
End ClearAdminsInstruction.

Module CloseOfferInstruction.
Record Accounts : Type := mkAccounts {
  offer : Pubkey; token_in_mint : Pubkey; token_out_mint : Pubkey; boss : Pubkey; state : Pubkey
}.
Record Data : Type := mkData { }.
Definition discriminator : list byte := bytes [191; 72; 67; 35; 239; 209; 97; 132].
Section instruction.
Context {R : Runtime} {I : Interface}.
Definition to_account_metas (accounts : Accounts) (remaining_accounts : list AccountMeta.t)
    : list AccountMeta.t :=
  [AccountMeta.new (offer accounts) false;
   AccountMeta.new_readonly (token_in_mint accounts) false;
   AccountMeta.new_readonly (token_out_mint accounts) false;
   AccountMeta.new_readonly (boss accounts) true;
   AccountMeta.new_readonly (state accounts) false;
   AccountMeta.new_readonly system_program_id false] ++ remaining_accounts.
Definition serialize (data : Data) : list byte := [].
Definition instruction (accounts : Accounts) (data : Data) (remaining_accounts : list AccountMeta.t)
    : Request :=
  mkRequest program_id (to_account_metas accounts remaining_accounts) (discriminator ++ serialize data).
End instruction.
End CloseOfferInstruction.

Module CloseStateInstruction.
Record Accounts : Type := mkAccounts {
  state : Pubkey; boss : Pubkey
}.
Record Data : Type := mkData { }.
Definition discriminator : list byte := bytes [25; 1; 184; 101; 200; 245; 210; 246].
Section instruction.
Context {R : Runtime} {I : Interface}.
Definition to_account_metas (accounts : Accounts) (remaining_accounts : list AccountMeta.t)
    : list AccountMeta.t :=
  [AccountMeta.new (state accounts) false; AccountMeta.new (boss accounts) true;
   AccountMeta.new_readonly system_program_id false] ++ remaining_accounts.
Definition serialize (data : Data) : list byte := [].
Definition instruction (accounts : Accounts) (data : Data) (remaining_accounts : list AccountMeta.t)
    : Request :=
  mkRequest program_id (to_account_metas accounts remaining_accounts) (discriminator ++ serialize data).
End instruction.
End CloseStateInstruction.

Module ConfigureMaxSupplyInstruction.
Record Accounts : Type := mkAccounts {
  state : Pubkey; boss : Pubkey
}.
Record Data : Type := mkData {
  max_supply : Z
}.
Definition discriminator : list byte := bytes [145; 100; 133; 229; 142; 59; 96; 62].
Section instruction.
Context {R : Runtime} {I : Interface}.
Definition to_account_metas (accounts : Accounts) (remaining_accounts : list AccountMeta.t)
    : list AccountMeta.t :=
  [AccountMeta.new (state accounts) false; AccountMeta.new_readonly (boss accounts) true] ++ remaining_accounts.
Definition serialize (data : Data) : list byte :=
  concat [to_le_bytes 8 (max_supply data)].
Definition instruction (accounts : Accounts) (data : Data) (remaining_accounts : list AccountMeta.t)
    : Request :=
  mkRequest program_id (to_account_metas accounts remaining_accounts) (discriminator ++ serialize data).
End instruction.
End ConfigureMaxSupplyInstruction.

Module DeleteOfferVectorInstruction.
Record Accounts : Type := mkAccounts {
  offer : Pubkey; token_in_mint : Pubkey; token_out_mint : Pubkey; state : Pubkey; boss : Pubkey
}.
Record Data : Type := mkData {
  vector_start_time : Z
}.
Definition discriminator : list byte := bytes [87; 40; 79; 151; 78; 121; 46; 159].
Section instruction.
Context {R : Runtime} {I : Interface}.
Definition to_account_metas (accounts : Accounts) (remaining_accounts : list AccountMeta.t)
    : list AccountMeta.t :=
  [AccountMeta.new (offer accounts) false;
   AccountMeta.new_readonly (token_in_mint accounts) false;
   AccountMeta.new_readonly (token_out_mint accounts) false;
   AccountMeta.new_readonly (state accounts) false;
   AccountMeta.new_readonly (boss accounts) true] ++ remaining_accounts.
Definition serialize (data : Data) : list byte :=
  concat [to_le_bytes 8 (vector_start_time data)].
Definition instruction (accounts : Accounts) (data : Data) (remaining_accounts : list AccountMeta.t)
    : Request :=
  mkRequest program_id (to_account_metas accounts remaining_accounts) (discriminator ++ serialize data).
End instruction.
End DeleteOfferVectorInstruction.

Module GetApyInstruction.
Record Accounts : Type := mkAccounts {
  offer : Pubkey; token_in_mint : Pubkey; token_out_mint : Pubkey
}.
Record Data : Type := mkData { }.
Definition discriminator : list byte := bytes [194; 123; 183; 54; 181; 74; 194; 97].
Section instruction.
Context {R : Runtime} {I : Interface}.
Definition to_account_metas (accounts : Accounts) (remaining_accounts : list AccountMeta.t)
    : list AccountMeta.t :=
  [AccountMeta.new_readonly (offer accounts) false;
   AccountMeta.new_readonly (token_in_mint accounts) false;
   AccountMeta.new_readonly (token_out_mint accounts) false] ++ remaining_accounts.
Definition serialize (data : Data) : list byte := [].
Definition instruction (accounts : Accounts) (data : Data) (remaining_accounts : list AccountMeta.t)
    : Request :=
  mkRequest program_id (to_account_metas accounts remaining_accounts) (discriminator ++ serialize data).
End instruction.
End GetApyInstruction.

Module GetCirculatingSupplyInstruction.
Record Accounts : Type := mkAccounts {
  onyc_mint : Pubkey; state : Pubkey; vault_authority : Pubkey; onyc_vault_account : Pubkey;
  token_program : Pubkey
}.
Record Data : Type := mkData { }.
Definition discriminator : list byte := bytes [132; 168; 96; 104; 217; 255; 111; 152].
Section instruction.
Context {R : Runtime} {I : Interface}.
Definition to_account_metas (accounts : Accounts) (remaining_accounts : list AccountMeta.t)
    : list AccountMeta.t :=
  [AccountMeta.new_readonly (onyc_mint accounts) false;
   AccountMeta.new_readonly (state accounts) false;
   AccountMeta.new_readonly (vault_authority accounts) false;
   AccountMeta.new_readonly (onyc_vault_account accounts) false;
   AccountMeta.new_readonly (token_program accounts) false] ++ remaining_accounts.
Definition serialize (data : Data) : list byte := [].
Definition instruction (accounts : Accounts) (data : Data) (remaining_accounts : list AccountMeta.t)
    : Request :=
  mkRequest program_id (to_account_metas accounts remaining_accounts) (discriminator ++ serialize data).
End instruction.
End GetCirculatingSupplyInstruction.

Module GetNavInstruction.
Record Accounts : Type := mkAccounts {
  offer : Pubkey; token_in_mint : Pubkey; token_out_mint : Pubkey
}.
Record Data : Type := mkData { }.
Definition discriminator : list byte := bytes [200; 89; 76; 53; 215; 218; 63; 21].
Section instruction.
Context {R : Runtime} {I : Interface}.
Definition to_account_metas (accounts : Accounts) (remaining_accounts : list AccountMeta.t)
    : list AccountMeta.t :=
  [AccountMeta.new_readonly (offer accounts) false;
   AccountMeta.new_readonly (token_in_mint accounts) false;
   AccountMeta.new_readonly (token_out_mint accounts) false] ++ remaining_accounts.
Definition serialize (data : Data) : list byte := [].
Definition instruction (accounts : Accounts) (data : Data) (remaining_accounts : list AccountMeta.t)
    : Request :=
  mkRequest program_id (to_account_metas accounts remaining_accounts) (discriminator ++ serialize data).
End instruction.
End GetNavInstruction.

Module GetNavAdjustmentInstruction.
Record Accounts : Type := mkAccounts {
  offer : Pubkey; token_in_mint : Pubkey; token_out_mint : Pubkey
}.
Record Data : Type := mkData { }.
Definition discriminator : list byte := bytes [70; 198; 229; 129; 238; 233; 143; 94].
Section instruction.
Context {R : Runtime} {I : Interface}.
Definition to_account_metas (accounts : Accounts) (remaining_accounts : list AccountMeta.t)
    : list AccountMeta.t :=
  [AccountMeta.new_readonly (offer accounts) false;
   AccountMeta.new_readonly (token_in_mint accounts) false;
   AccountMeta.new_readonly (token_out_mint accounts) false] ++ remaining_accounts.
Definition serialize (data : Data) : list byte := [].
Definition instruction (accounts : Accounts) (data : Data) (remaining_accounts : list AccountMeta.t)
    : Request :=
  mkRequest program_id (to_account_metas accounts remaining_accounts) (discriminator ++ serialize data).
End instruction.
End GetNavAdjustmentInstruction.

Module GetTvlInstruction.
Record Accounts : Type := mkAccounts {
  offer : Pubkey; token_in_mint : Pubkey; token_out_mint : Pubkey; vault_authority : Pubkey;
  vault_token_out_account : Pubkey; token_out_program : Pubkey
}.
Record Data : Type := mkData { }.
Definition discriminator : list byte := bytes [88; 225; 219; 204; 86; 91; 184; 51].
Section instruction.
Context {R : Runtime} {I : Interface}.
Definition to_account_metas (accounts : Accounts) (remaining_accounts : list AccountMeta.t)
    : list AccountMeta.t :=
  [AccountMeta.new_readonly (offer accounts) false;
   AccountMeta.new_readonly (token_in_mint accounts) false;
   AccountMeta.new_readonly (token_out_mint accounts) false;
   AccountMeta.new_readonly (vault_authority accounts) false;
   AccountMeta.new_readonly (vault_token_out_account accounts) false;
   AccountMeta.new_readonly (token_out_program accounts) false] ++ remaining_accounts.
Definition serialize (data : Data) : list byte := [].
Definition instruction (accounts : Accounts) (data : Data) (remaining_accounts : list AccountMeta.t)
    : Request :=
  mkRequest program_id (to_account_metas accounts remaining_accounts) (discriminator ++ serialize data).
End instruction.
End GetTvlInstruction.

Module InitializeInstruction.
Record Accounts : Type := mkAccounts {
  state : Pubkey; mint_authority : Pubkey; offer_vault_authority : Pubkey; boss : Pubkey;
  program_data : Pubkey; onyc_mint : Pubkey
}.
Record Data : Type := mkData { }.
Definition discriminator : list byte := bytes [175; 175; 109; 31; 13; 152; 155; 237].
Section instruction.
Context {R : Runtime} {I : Interface}.
Definition to_account_metas (accounts : Accounts) (remaining_accounts : list AccountMeta.t)
    : list AccountMeta.t :=
  [AccountMeta.new (state accounts) false; AccountMeta.new (mint_authority accounts) false;
   AccountMeta.new (offer_vault_authority accounts) false;
   AccountMeta.new (boss accounts) true; AccountMeta.new_readonly program_id false;
   AccountMeta.new_readonly (program_data accounts) false;
   AccountMeta.new_readonly (onyc_mint accounts) false;
   AccountMeta.new_readonly system_program_id false] ++ remaining_accounts.
Definition serialize (data : Data) : list byte := [].
Definition instruction (accounts : Accounts) (data : Data) (remaining_accounts : list AccountMeta.t)
    : Request :=
  mkRequest program_id (to_account_metas accounts remaining_accounts) (discriminator ++ serialize data).
End instruction.
End InitializeInstruction.

Module InitializePermissionlessAuthorityInstruction.
Record Accounts : Type := mkAccounts {
  permissionless_authority : Pubkey; state : Pubkey; boss : Pubkey
}.
Record Data : Type := mkData {
  name : list Z
}.
Definition discriminator : list byte := bytes [89; 93; 43; 180; 148; 16; 238; 24].
Section instruction.
Context {R : Runtime} {I : Interface}.
Definition to_account_metas (accounts : Accounts) (remaining_accounts : list AccountMeta.t)
    : list AccountMeta.t :=
  [AccountMeta.new (permissionless_authority accounts) false;
   AccountMeta.new_readonly (state accounts) false; AccountMeta.new (boss accounts) true;
   AccountMeta.new_readonly system_program_id false] ++ remaining_accounts.
Definition serialize (data : Data) : list byte :=
  concat [write_string (name data)].
Definition instruction (accounts : Accounts) (data : Data) (remaining_accounts : list AccountMeta.t)
    : Request :=
  mkRequest program_id (to_account_metas accounts remaining_accounts) (discriminator ++ serialize data).
End instruction.
End InitializePermissionlessAuthorityInstruction.

Module MakeOfferInstruction.
Record Accounts : Type := mkAccounts {
  vault_authority : Pubkey; token_in_mint : Pubkey; token_in_program : Pubkey;
  vault_token_in_account : Pubkey; token_out_mint : Pubkey; offer : Pubkey; state : Pubkey;
  boss : Pubkey
}.
Record Data : Type := mkData {
  fee_basis_points : Z; needs_approval : bool; allow_permissionless : bool
}.
Definition discriminator : list byte := bytes [214; 98; 97; 35; 59; 12; 44; 178].
Section instruction.
Context {R : Runtime} {I : Interface}.
Definition to_account_metas (accounts : Accounts) (remaining_accounts : list AccountMeta.t)
    : list AccountMeta.t :=
  [AccountMeta.new_readonly (vault_authority accounts) false;
   AccountMeta.new_readonly (token_in_mint accounts) false;
   AccountMeta.new_readonly (token_in_program accounts) false;
   AccountMeta.new (vault_token_in_account accounts) false;
   AccountMeta.new_readonly (token_out_mint accounts) false;
   AccountMeta.new (offer accounts) false; AccountMeta.new_readonly (state accounts) false;
   AccountMeta.new (boss accounts) true;
   AccountMeta.new_readonly associated_token_program_id false;
   AccountMeta.new_readonly system_program_id false] ++ remaining_accounts.
Definition serialize (data : Data) : list byte :=
  concat [to_le_bytes 2 (fee_basis_points data); [bool_byte (needs_approval data)];
          [bool_byte (allow_permissionless data)]].
Definition instruction (accounts : Accounts) (data : Data) (remaining_accounts : list AccountMeta.t)
    : Request :=
  mkRequest program_id (to_account_metas accounts remaining_accounts) (discriminator ++ serialize data).
End instruction.
End MakeOfferInstruction.

Module MintToInstruction.
Record Accounts : Type := mkAccounts {
  state : Pubkey; boss : Pubkey; onyc_mint : Pubkey; boss_onyc_account : Pubkey;
  mint_authority : Pubkey; token_program : Pubkey
}.
Record Data : Type := mkData {
  amount : Z
}.
Definition discriminator : list byte := bytes [241; 34; 48; 186; 37; 179; 123; 192].
Section instruction.
Context {R : Runtime} {I : Interface}.
Definition to_account_metas (accounts : Accounts) (remaining_accounts : list AccountMeta.t)
    : list AccountMeta.t :=
  [AccountMeta.new_readonly (state accounts) false; AccountMeta.new (boss accounts) true;
   AccountMeta.new (onyc_mint accounts) false;
   AccountMeta.new (boss_onyc_account accounts) false;
   AccountMeta.new_readonly (mint_authority accounts) false;
   AccountMeta.new_readonly (token_program accounts) false;
   AccountMeta.new_readonly associated_token_program_id false;
   AccountMeta.new_readonly system_program_id false] ++ remaining_accounts.
Definition serialize (data : Data) : list byte :=
  concat [to_le_bytes 8 (amount data)].
Definition instruction (accounts : Accounts) (data : Data) (remaining_accounts : list AccountMeta.t)
    : Request :=
  mkRequest program_id (to_account_metas accounts remaining_accounts) (discriminator ++ serialize data).
End instruction.
End MintToInstruction.

Module OfferVaultDepositInstruction.
Record Accounts : Type := mkAccounts {
  vault_authority : Pubkey; token_mint : Pubkey; boss_token_account : Pubkey;
  vault_token_account : Pubkey; boss : Pubkey; state : Pubkey; token_program : Pubkey
}.
Record Data : Type := mkData {
  amount : Z
}.
Definition discriminator : list byte := bytes [69; 131; 100; 85; 82; 151; 72; 74].
Section instruction.
Context {R : Runtime} {I : Interface}.
Definition to_account_metas (accounts : Accounts) (remaining_accounts : list AccountMeta.t)
    : list AccountMeta.t :=
  [AccountMeta.new_readonly (vault_authority accounts) false;
   AccountMeta.new_readonly (token_mint accounts) false;
   AccountMeta.new (boss_token_account accounts) false;
   AccountMeta.new (vault_token_account accounts) false; AccountMeta.new (boss accounts) true;
   AccountMeta.new_readonly (state accounts) false;
   AccountMeta.new_readonly (token_program accounts) false;
   AccountMeta.new_readonly associated_token_program_id false;
   AccountMeta.new_readonly system_program_id false] ++ remaining_accounts.
Definition serialize (data : Data) : list byte :=
  concat [to_le_bytes 8 (amount data)].
Definition instruction (accounts : Accounts) (data : Data) (remaining_accounts : list AccountMeta.t)
    : Request :=
  mkRequest program_id (to_account_metas accounts remaining_accounts) (discriminator ++ serialize data).
End instruction.
End OfferVaultDepositInstruction.

Module OfferVaultWithdrawInstruction.
Record Accounts : Type := mkAccounts {
  vault_authority : Pubkey; token_mint : Pubkey; boss_token_account : Pubkey;
  vault_token_account : Pubkey; boss : Pubkey; state : Pubkey; token_program : Pubkey
}.
Record Data : Type := mkData {
  amount : Z
}.
Definition discriminator : list byte := bytes [230; 135; 129; 48; 138; 202; 20; 72].
Section instruction.
Context {R : Runtime} {I : Interface}.
Definition to_account_metas (accounts : Accounts) (remaining_accounts : list AccountMeta.t)
    : list AccountMeta.t :=
  [AccountMeta.new_readonly (vault_authority accounts) false;
   AccountMeta.new_readonly (token_mint accounts) false;
   AccountMeta.new (boss_token_account accounts) false;
   AccountMeta.new (vault_token_account accounts) false; AccountMeta.new (boss accounts) true;
   AccountMeta.new_readonly (state accounts) false;
   AccountMeta.new_readonly (token_program accounts) false;
   AccountMeta.new_readonly associated_token_program_id false;
   AccountMeta.new_readonly system_program_id false] ++ remaining_accounts.
Definition serialize (data : Data) : list byte :=
  concat [to_le_bytes 8 (amount data)].
Definition instruction (accounts : Accounts) (data : Data) (remaining_accounts : list AccountMeta.t)
    : Request :=
  mkRequest program_id (to_account_metas accounts remaining_accounts) (discriminator ++ serialize data).
End instruction.
End OfferVaultWithdrawInstruction.

Module ProposeBossInstruction.
Record Accounts : Type := mkAccounts {
  state : Pubkey; boss : Pubkey
}.
Record Data : Type := mkData {
  new_boss : Pubkey
}.
Definition discriminator : list byte := bytes [163; 199; 158; 47; 155; 78; 174; 173].
Section instruction.
Context {R : Runtime} {I : Interface}.
Definition to_account_metas (accounts : Accounts) (remaining_accounts : list AccountMeta.t)
    : list AccountMeta.t :=
  [AccountMeta.new (state accounts) false; AccountMeta.new_readonly (boss accounts) true] ++ remaining_accounts.
Definition serialize (data : Data) : list byte :=
  concat [key_to_bytes (new_boss data)].
Definition instruction (accounts : Accounts) (data : Data) (remaining_accounts : list AccountMeta.t)
    : Request :=
  mkRequest program_id (to_account_metas accounts remaining_accounts) (discriminator ++ serialize data).
End instruction.
End ProposeBossInstruction.

Module RemoveAdminInstruction.
Record Accounts : Type := mkAccounts {
  state : Pubkey; boss : Pubkey
}.
Record Data : Type := mkData {
  admin_to_remove : Pubkey
}.
Definition discriminator : list byte := bytes [74; 202; 71; 106; 252; 31; 72; 183].
Section instruction.
Context {R : Runtime} {I : Interface}.
Definition to_account_metas (accounts : Accounts) (remaining_accounts : list AccountMeta.t)
    : list AccountMeta.t :=
  [AccountMeta.new (state accounts) false; AccountMeta.new_readonly (boss accounts) true] ++ remaining_accounts.
Definition serialize (data : Data) : list byte :=
  concat [key_to_bytes (admin_to_remove data)].
Definition instruction (accounts : Accounts) (data : Data) (remaining_accounts : list AccountMeta.t)
    : Request :=
  mkRequest program_id (to_account_metas accounts remaining_accounts) (discriminator ++ serialize data).
End instruction.
End RemoveAdminInstruction.

Module RemoveApproverInstruction.
Record Accounts : Type := mkAccounts {
  state : Pubkey; boss : Pubkey
}.
Record Data : Type := mkData {
  approver : Pubkey
}.
Definition discriminator : list byte := bytes [214; 72; 133; 48; 50; 58; 227; 224].
Section instruction.
Context {R : Runtime} {I : Interface}.
Definition to_account_metas (accounts : Accounts) (remaining_accounts : list AccountMeta.t)
    : list AccountMeta.t :=
  [AccountMeta.new (state accounts) false; AccountMeta.new_readonly (boss accounts) true] ++ remaining_accounts.
Definition serialize (data : Data) : list byte :=
  concat [key_to_bytes (approver data)].
Definition instruction (accounts : Accounts) (data : Data) (remaining_accounts : list AccountMeta.t)
    : Request :=
  mkRequest program_id (to_account_metas accounts remaining_accounts) (discriminator ++ serialize data).
End instruction.
End RemoveApproverInstruction.

Module SetKillSwitchInstruction.
Record Accounts : Type := mkAccounts {
  state : Pubkey; signer : Pubkey
}.
Record Data : Type := mkData {
  enable : bool
}.
Definition discriminator : list byte := bytes [228; 119; 172; 135; 209; 250; 172; 216].
Section instruction.
Context {R : Runtime} {I : Interface}.
Definition to_account_metas (accounts : Accounts) (remaining_accounts : list AccountMeta.t)
    : list AccountMeta.t :=
  [AccountMeta.new (state accounts) false; AccountMeta.new_readonly (signer accounts) true] ++ remaining_accounts.
Definition serialize (data : Data) : list byte :=
  concat [[bool_byte (enable data)]].
Definition instruction (accounts : Accounts) (data : Data) (remaining_accounts : list AccountMeta.t)
    : Request :=
  mkRequest program_id (to_account_metas accounts remaining_accounts) (discriminator ++ serialize data).
End instruction.
End SetKillSwitchInstruction.

Module SetOnycMintInstruction.
Record Accounts : Type := mkAccounts {
  state : Pubkey; boss : Pubkey; onyc_mint : Pubkey
}.
Record Data : Type := mkData { }.
Definition discriminator : list byte := bytes [177; 83; 119; 179; 44; 141; 201; 24].
Section instruction.
Context {R : Runtime} {I : Interface}.
Definition to_account_metas (accounts : Accounts) (remaining_accounts : list AccountMeta.t)
    : list AccountMeta.t :=
  [AccountMeta.new (state accounts) false; AccountMeta.new_readonly (boss accounts) true;
   AccountMeta.new_readonly (onyc_mint accounts) false] ++ remaining_accounts.
Definition serialize (data : Data) : list byte := [].
Definition instruction (accounts : Accounts) (data : Data) (remaining_accounts : list AccountMeta.t)
    : Request :=
  mkRequest program_id (to_account_metas accounts remaining_accounts) (discriminator ++ serialize data).
End instruction.
End SetOnycMintInstruction.

Module TakeOfferInstruction.
Record Accounts : Type := mkAccounts {
  offer : Pubkey; state : Pubkey; boss : Pubkey; vault_authority : Pubkey;
  vault_token_in_account : Pubkey; vault_token_out_account : Pubkey; token_in_mint : Pubkey;
  token_in_program : Pubkey; token_out_mint : Pubkey; token_out_program : Pubkey;
  user_token_in_account : Pubkey; user_token_out_account : Pubkey;
  boss_token_in_account : Pubkey; mint_authority : Pubkey; user : Pubkey
}.
Record Data : Type := mkData {
  token_in_amount : Z; approval_message : option ApprovalMessage.t
}.
Definition discriminator : list byte := bytes [128; 156; 242; 207; 237; 192; 103; 240].
Section instruction.
Context {R : Runtime} {I : Interface}.
Definition to_account_metas (accounts : Accounts) (remaining_accounts : list AccountMeta.t)
    : list AccountMeta.t :=
  [AccountMeta.new (offer accounts) false; AccountMeta.new_readonly (state accounts) false;
   AccountMeta.new_readonly (boss accounts) false;
   AccountMeta.new_readonly (vault_authority accounts) false;
   AccountMeta.new (vault_token_in_account accounts) false;
   AccountMeta.new (vault_token_out_account accounts) false;
   AccountMeta.new (token_in_mint accounts) false;
   AccountMeta.new_readonly (token_in_program accounts) false;
   AccountMeta.new (token_out_mint accounts) false;
   AccountMeta.new_readonly (token_out_program accounts) false;
   AccountMeta.new (user_token_in_account accounts) false;
   AccountMeta.new (user_token_out_account accounts) false;
   AccountMeta.new (boss_token_in_account accounts) false;
   AccountMeta.new_readonly (mint_authority accounts) false;
   AccountMeta.new_readonly instructions_sysvar_id false; AccountMeta.new (user accounts) true;
   AccountMeta.new_readonly associated_token_program_id false;
   AccountMeta.new_readonly system_program_id false] ++ remaining_accounts.
Definition serialize (data : Data) : list byte :=
  concat [to_le_bytes 8 (token_in_amount data);
          write_option ApprovalMessage.serialize (approval_message data)].
Definition instruction (accounts : Accounts) (data : Data) (remaining_accounts : list AccountMeta.t)
    : Request :=
  mkRequest program_id (to_account_metas accounts remaining_accounts) (discriminator ++ serialize data).
End instruction.
End TakeOfferInstruction.

Module TakeOfferPermissionlessInstruction.
Record Accounts : Type := mkAccounts {
  offer : Pubkey; state : Pubkey; boss : Pubkey; vault_authority : Pubkey;
  vault_token_in_account : Pubkey; vault_token_out_account : Pubkey;
  permissionless_authority : Pubkey; permissionless_token_in_account : Pubkey;
  permissionless_token_out_account : Pubkey; token_in_mint : Pubkey; token_in_program : Pubkey;
  token_out_mint : Pubkey; token_out_program : Pubkey; user_token_in_account : Pubkey;
  user_token_out_account : Pubkey; boss_token_in_account : Pubkey; mint_authority : Pubkey;
  user : Pubkey
}.
Record Data : Type := mkData {
  token_in_amount : Z; approval_message : option ApprovalMessage.t
}.
Definition discriminator : list byte := bytes [37; 190; 224; 77; 197; 39; 203; 230].
Section instruction.
Context {R : Runtime} {I : Interface}.
Definition to_account_metas (accounts : Accounts) (remaining_accounts : list AccountMeta.t)
    : list AccountMeta.t :=
  [AccountMeta.new (offer accounts) false; AccountMeta.new_readonly (state accounts) false;
   AccountMeta.new_readonly (boss accounts) false;
   AccountMeta.new_readonly (vault_authority accounts) false;
   AccountMeta.new (vault_token_in_account accounts) false;
   AccountMeta.new (vault_token_out_account accounts) false;
   AccountMeta.new_readonly (permissionless_authority accounts) false;
   AccountMeta.new (permissionless_token_in_account accounts) false;
   AccountMeta.new (permissionless_token_out_account accounts) false;
   AccountMeta.new (token_in_mint accounts) false;
   AccountMeta.new_readonly (token_in_program accounts) false;
   AccountMeta.new (token_out_mint accounts) false;
   AccountMeta.new_readonly (token_out_program accounts) false;
   AccountMeta.new (user_token_in_account accounts) false;
   AccountMeta.new (user_token_out_account accounts) false;
   AccountMeta.new (boss_token_in_account accounts) false;
   AccountMeta.new_readonly (mint_authority accounts) false;
   AccountMeta.new_readonly instructions_sysvar_id false; AccountMeta.new (user accounts) true;
   AccountMeta.new_readonly associated_token_program_id false;
   AccountMeta.new_readonly system_program_id false] ++ remaining_accounts.
Definition serialize (data : Data) : list byte :=
  concat [to_le_bytes 8 (token_in_amount data);
          write_option ApprovalMessage.serialize (approval_message data)].
Definition instruction (accounts : Accounts) (data : Data) (remaining_accounts : list AccountMeta.t)
    : Request :=
  mkRequest program_id (to_account_metas accounts remaining_accounts) (discriminator ++ serialize data).
End instruction.
End TakeOfferPermissionlessInstruction.

Module TransferMintAuthorityToBossInstruction.
Record Accounts : Type := mkAccounts {
  boss : Pubkey; state : Pubkey; mint : Pubkey; mint_authority : Pubkey; token_program : Pubkey
}.
Record Data : Type := mkData { }.
Definition discriminator : list byte := bytes [197; 61; 42; 52; 70; 93; 30; 125].
Section instruction.
Context {R : Runtime} {I : Interface}.
Definition to_account_metas (accounts : Accounts) (remaining_accounts : list AccountMeta.t)
    : list AccountMeta.t :=
  [AccountMeta.new_readonly (boss accounts) true;
   AccountMeta.new_readonly (state accounts) false; AccountMeta.new (mint accounts) false;
   AccountMeta.new_readonly (mint_authority accounts) false;
   AccountMeta.new_readonly (token_program accounts) false] ++ remaining_accounts.
Definition serialize (data : Data) : list byte := [].
Definition instruction (accounts : Accounts) (data : Data) (remaining_accounts : list AccountMeta.t)
    : Request :=
  mkRequest program_id (to_account_metas accounts remaining_accounts) (discriminator ++ serialize data).
End instruction.
End TransferMintAuthorityToBossInstruction.

Module TransferMintAuthorityToProgramInstruction.
Record Accounts : Type := mkAccounts {
  boss : Pubkey; state : Pubkey; mint : Pubkey; mint_authority : Pubkey; token_program : Pubkey
}.
Record Data : Type := mkData { }.
Definition discriminator : list byte := bytes [98; 112; 50; 135; 53; 6; 149; 232].
Section instruction.
Context {R : Runtime} {I : Interface}.
Definition to_account_metas (accounts : Accounts) (remaining_accounts : list AccountMeta.t)
    : list AccountMeta.t :=
  [AccountMeta.new_readonly (boss accounts) true;
   AccountMeta.new_readonly (state accounts) false; AccountMeta.new (mint accounts) false;
   AccountMeta.new_readonly (mint_authority accounts) false;
   AccountMeta.new_readonly (token_program accounts) false] ++ remaining_accounts.
Definition serialize (data : Data) : list byte := [].
Definition instruction (accounts : Accounts) (data : Data) (remaining_accounts : list AccountMeta.t)
    : Request :=
  mkRequest program_id (to_account_metas accounts remaining_accounts) (discriminator ++ serialize data).
End instruction.
End TransferMintAuthorityToProgramInstruction.

Module UpdateOfferFeeInstruction.
Record Accounts : Type := mkAccounts {
  offer : Pubkey; token_in_mint : Pubkey; token_out_mint : Pubkey; state : Pubkey; boss : Pubkey
}.
Record Data : Type := mkData {
  new_fee_basis_points : Z
}.
Definition discriminator : list byte := bytes [254; 162; 70; 248; 117; 70; 197; 118].
Section instruction.
Context {R : Runtime} {I : Interface}.
Definition to_account_metas (accounts : Accounts) (remaining_accounts : list AccountMeta.t)
    : list AccountMeta.t :=
  [AccountMeta.new (offer accounts) false;
   AccountMeta.new_readonly (token_in_mint accounts) false;
   AccountMeta.new_readonly (token_out_mint accounts) false;
   AccountMeta.new_readonly (state accounts) false;
   AccountMeta.new_readonly (boss accounts) true] ++ remaining_accounts.
Definition serialize (data : Data) : list byte :=
  concat [to_le_bytes 2 (new_fee_basis_points data)].
Definition instruction (accounts : Accounts) (data : Data) (remaining_accounts : list AccountMeta.t)
    : Request :=
  mkRequest program_id (to_account_metas accounts remaining_accounts) (discriminator ++ serialize data).
End instruction.
End UpdateOfferFeeInstruction.
