(* ===== verification/Harness.v ===== *)
(** * The oracles of the fuzz harness

    [src/trident-tests/fuzz_0/invariants.rs] and [utility.rs]: what the fuzzer
    asserts after an instruction, as computations that succeed ([Ok tt]) or panic;
    and the assertions [test_fuzz.rs] makes on failed governance instructions.  An
    oracle takes what it reads: accounts before and after, mints, the time.  The
    mirror of the program's account types ([types.rs]) is in [ClientTypes]; the
    oracles read fields it shares with the program's [State] and [Offer].  *)

From S2P Require Import World MathUtils OfferPricing Lifecycle.
Open Scope Z_scope.

(** [assert!] and [assert_eq!]. *)
Definition assert_ (b : bool) : Result unit := require b Panicked.

(** [array[i]] on a list of the array's elements. *)
Definition index {A} (l : list A) (i : nat) : Result A := panicking (l !! i).

(** ** Governance *)

(** [remove_admin_invariant]: the first slot of the removed key is cleared. *)
Definition remove_admin_invariant (state_after state_before : State.t) (removed_admin : Pubkey)
  : Result unit :=
  i ← panicking (position (key_eqb removed_admin) (State.admins state_before));
  a ← index (State.admins state_after) i;
  assert_ (key_eqb a Pubkey_default).

(** [set_admin_invariant]: the first free slot holds the new key. *)
Definition set_admin_invariant (state_after state_before : State.t) (new_admin : Pubkey)
  : Result unit :=
  i ← panicking (position (key_eqb Pubkey_default) (State.admins state_before));
  a ← index (State.admins state_after) i;
  assert_ (key_eqb a new_admin).

Definition propose_boss_invariant (state_after state_before : State.t) (new_boss old_boss : Pubkey)
  : Result unit :=
  assert_ (key_eqb (State.proposed_boss state_after) new_boss);;
  assert_ (key_eqb (State.boss state_before) old_boss).

Definition accept_boss_invariant (state_after state_before : State.t) (new_boss : Pubkey)
  : Result unit :=
  assert_ (key_eqb (State.proposed_boss state_before) new_boss);;
  assert_ (key_eqb (State.proposed_boss state_after) Pubkey_default);;
  assert_ (key_eqb (State.boss state_after) new_boss).

(** The number of Anchor's own errors. *)
Definition anchor_error_code (e : AnchorError) : Z :=
  match e with
  | ConstraintHasOne => 2001
  | ConstraintRaw => 2003
  | ConstraintSeeds => 2006
  | ConstraintAssociated => 2009
  | ConstraintAddress => 2012
  | ConstraintTokenMint => 2014
  | ConstraintTokenOwner => 2015
  | RequireKeysEqViolated => 2502
  | AccountDiscriminatorMismatch => 3002
  | AccountDidNotDeserialize => 3003
  | AccountDidNotSerialize => 3004
  | AccountOwnedByWrongProgram => 3007
  | AccountNotInitialized => 3012
  end.

(** [is_custom_error_with_code]; the codes of the token and system programs are
    small numbers the harness does not ask for. *)
Definition is_custom_error_with_code (e : Error) (code : Z) : bool :=
  match e with
  | Onre e => OnreError.code e =? code
  | Anchor e => anchor_error_code e =? code
  | CpiError | Panicked => false
  end.

(** [FuzzTest::remove_admin], [propose_boss], [accept_boss] on an error. *)
Definition remove_admin_error (state : State.t) (removed_admin : Pubkey) (e : Error) : Result unit :=
  assert_ (eqb (negb (existsb (key_eqb removed_admin) (State.admins state))) (is_custom_error_with_code e 6000)).
Definition propose_boss_error (state_before : State.t) (old_boss : Pubkey) (e : Error) : Result unit :=
  assert_ (eqb (negb (key_eqb (State.boss state_before) old_boss)) (is_custom_error_with_code e 2001)).
Definition accept_boss_error (state_before : State.t) (new_boss : Pubkey) (e : Error) : Result unit :=
  assert_ (eqb (negb (key_eqb (State.proposed_boss state_before) new_boss)) (is_custom_error_with_code e 6000)).

(** ** Initialization *)

Definition initialize_invariant (state : option State.t) (boss onyc_mint : Pubkey) : Result unit :=
  state_account ← panicking state;
  assert_ (key_eqb (State.boss state_account) boss);;
  assert_ (key_eqb (State.proposed_boss state_account) Pubkey_default);;
  assert_ (negb (State.is_killed state_account));;
  assert_ (key_eqb (State.onyc_mint state_account) onyc_mint);;
  assert_ (bool_decide (State.admins state_account = replicate MAX_ADMINS Pubkey_default));;
  assert_ (key_eqb (State.approver1 state_account) Pubkey_default);;
  assert_ (key_eqb (State.approver2 state_account) Pubkey_default);;
  assert_ (State.max_supply state_account =? 0).

Definition initialize_permissionless_authority_invariant (authority : option (list Z))
    (name : list Z) : Result unit :=
  stored ← panicking authority;
  assert_ (bool_decide (stored = trim name)).

(** ** Vaults *)

Definition offer_vault_deposit_invariant (boss_before_deposit boss_after_deposit : TokenAccount.t)
    (vault_before_deposit : option TokenAccount.t) (vault_after_deposit : TokenAccount.t)
    (amount : Z) : Result unit :=
  left_ ← panicking (u64.checked_sub (TokenAccount.amount boss_before_deposit) amount);
  assert_ (left_ =? TokenAccount.amount boss_after_deposit);;
  match vault_before_deposit with
  | Some vault_before_deposit =>
      sum ← panicking (u64.checked_add (TokenAccount.amount vault_before_deposit) amount);
      assert_ (sum =? TokenAccount.amount vault_after_deposit)
  | None => assert_ (TokenAccount.amount vault_after_deposit =? amount)
  end.

Definition offer_vault_withdraw_invariant (boss_before_withdraw boss_after_withdraw : TokenAccount.t)
    (vault_before_withdraw vault_after_withdraw : TokenAccount.t) (amount : Z) : Result unit :=
  sum ← panicking (u64.checked_add (TokenAccount.amount boss_before_withdraw) amount);
  assert_ (sum =? TokenAccount.amount boss_after_withdraw);;
  left_ ← panicking (u64.checked_sub (TokenAccount.amount vault_before_withdraw) amount);
  assert_ (left_ =? TokenAccount.amount vault_after_withdraw).

(** ** Offers *)

(** [make_offer_invariant]; the source computes whether all vectors are empty and
    drops the answer. *)
Definition make_offer_invariant (offer : option Offer.t) (fee_basis_points : Z)
    (token_in_mint token_out_mint : Pubkey) (needs_approval allow_permissionless : bool)
  : Result unit :=
  offer ← panicking offer;
  assert_ (key_eqb (Offer.token_in_mint offer) token_in_mint);;
  assert_ (key_eqb (Offer.token_out_mint offer) token_out_mint);;
  assert_ (Offer.fee_basis_points offer =? fee_basis_points);;
  assert_ (Offer.needs_approval_flag offer =? Z.b2z needs_approval);;
  assert_ (Offer.allow_permissionless_flag offer =? Z.b2z allow_permissionless).

(** [utility.rs], [find_active_vector_at]. *)
Definition find_active_vector_at (offer : Offer.t) (time : Z) : option OfferVector.t :=
  max_by_key OfferVector.start_time
    (List.filter (fun v => negb (OfferVector.start_time v =? 0)
                           && (OfferVector.start_time v <=? time)) (Offer.vectors offer)).

(** [utility.rs], [clean_old_vectors]. *)
Definition clean_old_vectors (offer : Offer.t) (new_vector : OfferVector.t) (current_time : Z)
  : Result Offer.t :=
  let active_vector :=
    if OfferVector.start_time new_vector =? current_time then Some new_vector
    else find_active_vector_at offer current_time in
  match active_vector with
  | None => Ok offer
  | Some active =>
      let active_start := OfferVector.start_time active in
      before ← panicking (u64.checked_sub active_start 1);
      let prev_start :=
        match find_active_vector_at offer before with
        | Some v => OfferVector.start_time v
        | None => 0
        end in
      Ok (Offer.with_vectors
            (map (fun v =>
               if negb (OfferVector.start_time v =? 0)
                  && negb (OfferVector.start_time v =? active_start)
                  && negb (OfferVector.start_time v =? prev_start)
                  && (OfferVector.start_time v <? active_start)
               then OfferVector.default else v) (Offer.vectors offer)) offer)
  end.

Definition add_offer_vector_invariant (offer_after offer_before : Offer.t)
    (start_time_opt : option Z) (base_time base_price apr price_fix_duration current_time : Z)
  : Result unit :=
  let start_time :=
    match start_time_opt with Some t => t | None => Z.max (u64.cast current_time) base_time end in
  let new_vector := OfferVector.mk start_time base_time base_price apr price_fix_duration in
  offer_before ← clean_old_vectors offer_before new_vector (u64.cast current_time);
  empty_index ← panicking (position (fun v => OfferVector.start_time v =? 0) (Offer.vectors offer_before));
  assert_ (Nat.eqb (length (Offer.vectors offer_after)) 10);;
  v ← index (Offer.vectors offer_after) empty_index;
  assert_ (OfferVector.start_time v =? base_time);;
  assert_ (OfferVector.base_time v =? base_time);;
  assert_ (OfferVector.base_price v =? base_price);;
  assert_ (OfferVector.apr v =? apr);;
  assert_ (OfferVector.price_fix_duration v =? price_fix_duration).

(** ** Taking an offer *)

Definition find_active_pricing_vector (vectors : list OfferVector.t) (time : Z)
  : option OfferVector.t :=
  max_by_key OfferVector.start_time
    (List.filter (fun v => negb (OfferVector.start_time v =? 0)
                           && (OfferVector.start_time v <=? time)) vectors).

(** [calculate_price]: a linear price. *)
Definition calculate_price (apr base_price base_time price_fix_duration current_time : Z)
  : Result Z :=
  let SECONDS_IN_YEAR := 31536000 in
  let APR_SCALE := 1000000 in
  if current_time <? base_time then Ok base_price
  else
    let elapsed_since_start := u64.saturating_sub current_time base_time in
    current_step ← panicking (u128.checked_div elapsed_since_start price_fix_duration);
    steps ← panicking (u64.checked_add current_step 1);
    step_end_time ← panicking (u64.checked_mul steps price_fix_duration);
    factor_den ← panicking (u128.checked_mul APR_SCALE SECONDS_IN_YEAR);
    y_part ← panicking (u128.checked_mul apr step_end_time);
    factor_num ← panicking (u128.checked_add factor_den y_part);
    product ← panicking (u128.checked_mul base_price factor_num);
    price ← panicking (u128.checked_div product factor_den);
    assert_ (price <=? u64.MAX);;
    Ok price.

Definition calculate_token_out (token_in_amount price token_in_decimals token_out_decimals : Z)
  : Result Z :=
  scale ← panicking (u128.checked_pow 10 9);
  scaled ← panicking (u128.checked_mul token_in_amount scale);
  out_unit ← panicking (u128.checked_pow 10 token_out_decimals);
  numerator ← panicking (u128.checked_mul scaled out_unit);
  in_unit ← panicking (u128.checked_pow 10 token_in_decimals);
  denominator ← panicking (u128.checked_mul price in_unit);
  token_out ← panicking (u128.checked_div numerator denominator);
  assert_ (token_out <=? u64.MAX);;
  Ok token_out.

(** What [take_offer_invariant] expects the user to receive. *)
Definition expected_token_out (offer_before : Offer.t) (token_in_decimals token_out_decimals : Z)
    (token_in_amount current_time : Z) : Result Z :=
  active_vector ← panicking (find_active_pricing_vector (Offer.vectors offer_before) current_time);
  price ← calculate_price (OfferVector.apr active_vector) (OfferVector.base_price active_vector)
    (OfferVector.base_time active_vector) (OfferVector.price_fix_duration active_vector) current_time;
  fee_numerator ← panicking (u128.checked_mul token_in_amount (Offer.fee_basis_points offer_before));
  let fee := u64.cast (fee_numerator / 10000) in
  remaining ← panicking (u64.checked_sub token_in_amount fee);
  calculate_token_out remaining price token_in_decimals token_out_decimals.

Definition take_offer_invariant (offer_before : Offer.t)
    (user_token_in_before user_token_in_after : TokenAccount.t)
    (user_token_out_before : option TokenAccount.t) (user_token_out_after : TokenAccount.t)
    (boss_token_in_before boss_token_in_after : TokenAccount.t)
    (token_in_mint_before token_out_mint_before : Mint.t) (token_in_amount current_timestamp : Z)
  : Result unit :=
  user_paid ← panicking (u64.checked_sub (TokenAccount.amount user_token_in_before)
                           (TokenAccount.amount user_token_in_after));
  assert_ (user_paid =? token_in_amount);;
  boss_received ← panicking (u64.checked_sub (TokenAccount.amount boss_token_in_after)
                               (TokenAccount.amount boss_token_in_before));
  assert_ (boss_received =? token_in_amount);;
  let user_token_out_before_amount :=
    match user_token_out_before with Some a => TokenAccount.amount a | None => 0 end in
  user_received ← panicking (u64.checked_sub (TokenAccount.amount user_token_out_after)
                               user_token_out_before_amount);
  expected ← expected_token_out offer_before (Mint.decimals token_in_mint_before)
    (Mint.decimals token_out_mint_before) token_in_amount (u64.cast current_timestamp);
  assert_ (user_received =? expected).
