(* ===== verification/FuzzTest.v ===== *)
(** * The fuzz tests

    [src/trident-tests/fuzz_0/test_fuzz.rs]: the drivers that send an instruction and
    judge its outcome, and the flows the fuzzer composes of them.  A driver takes
    the deployment and returns the next one, or panics ([Err Panicked]); the random
    choices of a flow are its arguments.  A transaction that fails leaves the
    accounts as they were.

    [start], [deposit_to_vault] and the helpers that create mints and token accounts
    are in [FuzzStart].  *)

From S2P Require Import World Approval OfferPricing OfferHandlers Vaults TakeOffer Program Lifecycle Harness.
Open Scope Z_scope.

(** [TokenPairs]: the mints being traded and their token programs. *)
Record TokenPairs : Type := mkTokenPairs {
  token_in : Pubkey;
  token_out : Pubkey;
  token_program_in : Pubkey;
  token_program_out : Pubkey
}.

(** [assert!(res.is_success())] and [expect]: any failure is a panic. *)
Definition expect_success {A} (r : Result A) : Result A :=
  match r with Ok x => Ok x | Err _ => Err Panicked end.

Section fuzz_test.
Context {R : Runtime} {P : Platform} {L : Type} {TL : TokenLedger L}.

(** The accounts of other programs, the transaction's instructions as the sysvar
    shows them, the address in the [boss] storage, the traded pair, and Trident's
    [forward_in_time]. *)
Context (chain : Pubkey -> RawAccount) (tx : InstructionsSysvar) (boss : Pubkey)
(pair : TokenPairs) (forward_clock : Z -> Clock.t -> Clock.t).
Implicit Types d : Deployment.t L.

(** ** What a driver reads *)

Definition get_state d : Result State.t := panicking (Deployment.state_account d).
Definition get_offer d (k : Pubkey) : Result Offer.t := panicking (offers (Deployment.others d) !! k).
Definition get_token_account d (k : Pubkey) : Result TokenAccount.t :=
  panicking (ledger_account (ledger (Deployment.others d)) k).
Definition get_mint d (k : Pubkey) : Result Mint.t :=
  panicking (ledger_mint (ledger (Deployment.others d)) k).
Definition get_current_timestamp d : Z := Clock.unix_timestamp (clock (Deployment.others d)).

Definition process_transaction (i : instruction) d : Result (Deployment.t L) :=
  run chain tx (Handler i) d.

(** ** Drivers *)

Definition remove_admin (removed_admin : Pubkey) d : Result (Deployment.t L) :=
  state_before ← get_state d;
  match process_transaction (RemoveAdmin boss removed_admin) d with
  | Ok d' =>
      state_after ← get_state d';
      remove_admin_invariant state_after state_before removed_admin;;
      Ok d'
  | Err e => remove_admin_error state_before removed_admin e;; Ok d
  end.

(** A failed [add_admin] is accepted whatever the error. *)
Definition set_admin (new_admin : Pubkey) d : Result (Deployment.t L) :=
  state_before ← get_state d;
  match process_transaction (AddAdmin boss new_admin) d with
  | Ok d' =>
      state_after ← get_state d';
      set_admin_invariant state_after state_before new_admin;;
      Ok d'
  | Err _ => Ok d
  end.

Definition propose_boss (old_boss new_boss : Pubkey) d : Result (Deployment.t L) :=
  state_before ← get_state d;
  match process_transaction (ProposeBoss old_boss new_boss) d with
  | Ok d' =>
      state_after ← get_state d';
      propose_boss_invariant state_after state_before new_boss old_boss;;
      Ok d'
  | Err e => propose_boss_error state_before old_boss e;; Ok d
  end.

Definition accept_boss (new_boss : Pubkey) d : Result (Deployment.t L) :=
  state_before ← get_state d;
  match process_transaction (AcceptBoss new_boss) d with
  | Ok d' =>
      state_after ← get_state d';
      accept_boss_invariant state_after state_before new_boss;;
      Ok d'
  | Err e => accept_boss_error state_before new_boss e;; Ok d
  end.

(** The offer of the traded pair, and the associated accounts of the drivers. *)
Definition offer_address : Pubkey := offer_pda (token_in pair) (token_out pair).
Definition ata_in (owner : Pubkey) : Pubkey :=
  associated_token_address owner (token_in pair) (token_program_in pair).
Definition ata_out (owner : Pubkey) : Pubkey :=
  associated_token_address owner (token_out pair) (token_program_out pair).

Definition take_offer (user : Pubkey) (token_in_amount : Z) d : Result (Deployment.t L) :=
  let vault_authority := pda [seeds.OFFER_VAULT_AUTHORITY] in
  let mint_authority := pda [seeds.MINT_AUTHORITY] in
  let ctx := mkTakeOfferBase offer_address vault_authority (ata_in vault_authority)
    (ata_out vault_authority) (token_in pair) (token_program_in pair) (token_out pair)
    (token_program_out pair) (ata_in user) (ata_out user) mint_authority user in
  offer_before ← get_offer d offer_address;
  user_token_in_before ← get_token_account d (ata_in user);
  let user_token_out_before := ledger_account (ledger (Deployment.others d)) (ata_out user) in
  boss_token_in_before ← get_token_account d (ata_in boss);
  _ ← get_token_account d (ata_in vault_authority);
  _ ← get_token_account d (ata_out vault_authority);
  token_in_mint_before ← get_mint d (token_in pair);
  token_out_mint_before ← get_mint d (token_out pair);
  d' ← expect_success (process_transaction
         (TakeOffer ctx boss (ata_in boss) instructions_sysvar_id token_in_amount None) d);
  _ ← get_offer d' offer_address;
  user_token_in_after ← get_token_account d' (ata_in user);
  user_token_out_after ← get_token_account d' (ata_out user);
  boss_token_in_after ← get_token_account d' (ata_in boss);
  _ ← get_token_account d' (ata_in vault_authority);
  _ ← get_token_account d' (ata_out vault_authority);
  _ ← get_mint d' (token_in pair);
  _ ← get_mint d' (token_out pair);
  take_offer_invariant offer_before user_token_in_before user_token_in_after
    user_token_out_before user_token_out_after boss_token_in_before boss_token_in_after
    token_in_mint_before token_out_mint_before token_in_amount (get_current_timestamp d');;
  Ok d'.

(** On an error: the code 6003 exactly when no slot is empty. *)
Definition add_offer_vector_error (offer_before : Offer.t) (e : Error) : Result unit :=
  let has_empty_slot := existsb (fun v => OfferVector.start_time v =? 0) (Offer.vectors offer_before) in
  assert_ (eqb (negb has_empty_slot) (is_custom_error_with_code e 6003)).

Definition add_offer_vector (start_time : option Z) (base_time base_price apr price_fix_duration : Z) d
  : Result (Deployment.t L) :=
  offer_before ← get_offer d offer_address;
  let current_time := get_current_timestamp d in
  match process_transaction
          (AddOfferVector (mkOfferAdmin offer_address (token_in pair) (token_out pair) boss)
             start_time base_time base_price apr price_fix_duration) d with
  | Ok d' =>
      offer_after ← get_offer d' offer_address;
      add_offer_vector_invariant offer_after offer_before start_time base_time base_price apr
        price_fix_duration current_time;;
      Ok d'
  | Err e => add_offer_vector_error offer_before e;; Ok d
  end.

Definition make_offer (fee_basis_points : Z) (needs_approval allow_permissionless : bool) d
  : Result (Deployment.t L) :=
  let vault_authority := pda [seeds.OFFER_VAULT_AUTHORITY] in
  d' ← expect_success (process_transaction
         (MakeOfferIx (mkMakeOffer (token_in pair) (token_program_in pair) (ata_in vault_authority)
            (token_out pair) offer_address boss)
            fee_basis_points needs_approval allow_permissionless) d);
  make_offer_invariant (offers (Deployment.others d') !! offer_address) fee_basis_points
    (token_in pair) (token_out pair) needs_approval allow_permissionless;;
  Ok d'.

Definition withdraw_from_vault (withdraw_amount : Z) (token_mint from token_program_id : Pubkey) d
  : Result (Deployment.t L) :=
  let boss_ata := associated_token_address from token_mint token_program_id in
  let vault_token_account :=
    associated_token_address (pda [seeds.OFFER_VAULT_AUTHORITY]) token_mint token_program_id in
  boss_before_withdraw ← get_token_account d boss_ata;
  vault_before_withdraw ← get_token_account d vault_token_account;
  d' ← expect_success (process_transaction
         (OfferVaultWithdraw
            (mkVaultTransfer boss token_mint boss_ata vault_token_account token_program_id)
            withdraw_amount) d);
  boss_after_withdraw ← get_token_account d' boss_ata;
  vault_after_withdraw ← get_token_account d' vault_token_account;
  offer_vault_withdraw_invariant boss_before_withdraw boss_after_withdraw
    vault_before_withdraw vault_after_withdraw withdraw_amount;;
  Ok d'.

(** [setup_onyc_mint_and_initialize] once the mint exists. *)
Definition setup_initialize (program_data_address onyc_mint : Pubkey) d : Result (Deployment.t L) :=
  d' ← expect_success (run chain tx (Initialize boss program_id (Some program_data_address) onyc_mint) d);
  initialize_invariant (Deployment.state_account d') boss onyc_mint;;
  Ok d'.

Definition setup_permissionless_authority (name : list Z) d : Result (Deployment.t L) :=
  d' ← expect_success (run chain tx (InitializePermissionlessAuthority boss name) d);
  initialize_permissionless_authority_invariant (Deployment.permissionless_authority d') name;;
  Ok d'.

(** ** Flows *)

Definition forward_in_time (seconds : Z) d : Deployment.t L :=
  let w := Deployment.others d in
  Deployment.with_others (environment (forward_clock seconds (clock w)) (ledger w) w) d.

Definition flow1 (base_price apr price_fix_duration : Z) (random_bool : bool) (user : Pubkey) d
  : Result (Deployment.t L) :=
  let base_time := u64.cast (get_current_timestamp d) in
  let start_time := if random_bool then None else Some base_time in
  d ← add_offer_vector start_time base_time base_price apr price_fix_duration d;
  take_offer user 100 (forward_in_time 100000000 d).

(** [old_boss] is the stored boss or a random key. *)
Definition flow2 (old_boss new_boss : Pubkey) d : Result (Deployment.t L) :=
  d ← propose_boss old_boss new_boss d;
  d ← accept_boss new_boss d;
  d ← propose_boss new_boss old_boss d;
  accept_boss old_boss d.

Definition flow3 (new_admin : Pubkey) d : Result (Deployment.t L) := set_admin new_admin d.

(** [removed_admin] is a key added before or a random key. *)
Definition flow4 (removed_admin : Pubkey) d : Result (Deployment.t L) := remove_admin removed_admin d.
End fuzz_test.
