(* ===== verification/Frames.v ===== *)
(** * Frames

    What an instruction leaves alone.  [within P m] says that [m], when it
    succeeds, relates the worlds before and after by the preorder [P]; the tactic
    [within] proves it by following the structure of the code.  *)

From stdpp Require Import relations.
From S2P Require Import World OfferPricing TokenUtils OfferHandlers MarketInfo Buffer Vaults Redemption TakeOffer PropAmm Governance Approval Program.
Open Scope Z_scope.

Definition within {L A} (P : relation (World L)) (m : M L A) : Prop :=
  forall w a w', m w = Ok (a, w') -> P w w'.

Section within.
Context {L : Type} (P : relation (World L)) {Hpre : PreOrder P}.

Lemma within_ret {A} (a : A) : within P (mret a).
Proof using All. intros w b w' H. inv_m. reflexivity. Qed.

Lemma within_bind {A B} (m : M L A) (f : A -> M L B) :
  within P m -> (forall a, within P (f a)) -> within P (m ≫= f).
Proof using All.
  intros Hm Hf w b w' H. apply M_bind_Ok_inv in H as (a & w1 & H1 & H2).
  etransitivity; [by eapply Hm|by eapply Hf].
Qed.

Lemma within_lift {A} (r : Result A) : within P (lift r).
Proof using All. intros w a w' H. inv_m. reflexivity. Qed.
Lemma within_fail {A} e : within P (fail (A := A) e).
Proof using All. intros w a w' H. inv_m. Qed.
Lemma within_gets {A} (f : World L -> A) : within P (gets f).
Proof using All. intros w a w' H. inv_m. reflexivity. Qed.
Lemma within_guard c e : within P (guard c e).
Proof using All. intros w a w' H. inv_m. reflexivity. Qed.
Lemma within_constraint c e : within P (constraint c e).
Proof using All. intros w a w' H. inv_m. reflexivity. Qed.
Lemma within_when c m : (c = true -> within P m) -> within P (when c m).
Proof using All. destruct c; [by auto|intros _; apply within_ret]. Qed.
Lemma within_load_account {A} (f : World L -> gmap Pubkey A) k : within P (load_account f k).
Proof using All. intros w a w' H. inv_m. reflexivity. Qed.
Lemma within_modify f : (forall w, P w (f w)) -> within P (modify f).
Proof using All. intros Hf w a w' H. inv_m. apply Hf. Qed.
Lemma within_emit n fs : (forall w es, P w (set_events es w)) -> within P (emit n fs).
Proof using All. intros Hf w a w' H. inv_m. apply Hf. Qed.
Lemma within_invoke f :
  (forall w l, f (ledger w) = Some l -> P w (set_ledger l w)) -> within P (invoke f).
Proof using All. intros Hf w a w' H. inv_m. by apply Hf. Qed.
Lemma within_for_each {A} (xs : list A) f : (forall x, within P (f x)) -> within P (for_each xs f).
Proof using All.
  intros Hf. induction xs; cbn; [apply within_ret|]. apply within_bind; [apply Hf|done].
Qed.
Lemma within_attempt {A} (m : M L A) : within P m -> within P (attempt m).
Proof using All.
  intros Hm w a w' H. unfold attempt in H. destruct (m w) as [[b w1]|[]] eqn:E; simplify_eq;
    first [by eapply Hm | reflexivity].
Qed.

Context {R : Runtime} {TL : TokenLedger L}.
Lemma within_load_mint k : within P (load_mint k).
Proof using Hpre. intros w a w' H. apply load_mint_Ok_inv in H as (_ & _ & ->). reflexivity. Qed.
Lemma within_load_token_account k : within P (load_token_account k).
Proof using Hpre.
  intros w a w' H. apply load_token_account_Ok_inv in H as (_ & _ & ->). reflexivity.
Qed.
Lemma within_sum_excluded m tp l x : within P (sum_excluded m tp l x).
Proof using Hpre.
  revert x. induction l as [|[o k] l IH]; intros x; cbn; [apply within_ret|].
  apply within_bind; [apply within_lift|intros _].
  apply within_bind; [apply within_load_token_account|intros a].
  do 2 (apply within_bind; [apply within_lift|intros _]).
  apply within_bind; [apply within_lift|intros y]. apply IH.
Qed.
End within.

Ltac head_of t := lazymatch t with ?f _ => head_of f | _ => t end.

(** One step along the code; [leaf] closes the effects that matter for [P]. *)
Ltac within_step leaf :=
  lazymatch goal with
  | |- within ?P (mbind _ _) => apply (within_bind P); [|intros ?; cbv beta]
  | |- within ?P (mret _) => apply (within_ret P)
  | |- within ?P (lift _) => apply (within_lift P)
  | |- within ?P (fail _) => apply (within_fail P)
  | |- within ?P (gets _) => apply (within_gets P)
  | |- within ?P (guard _ _) => apply (within_guard P)
  | |- within ?P (constraint _ _) => apply (within_constraint P)
  | |- within ?P (when _ _) => apply (within_when P); intros _
  | |- within ?P (load_account _ _) => apply (within_load_account P)
  | |- within ?P (load_mint _) => apply (within_load_mint P)
  | |- within ?P (load_token_account _) => apply (within_load_token_account P)
  | |- within ?P (sum_excluded _ _ _ _) => apply (within_sum_excluded P)
  | |- within ?P (attempt _) => apply (within_attempt P)
  | |- within ?P (for_each _ _) => apply (within_for_each P); intros ?
  | |- within ?P (emit _ _) => apply (within_emit P); solve [leaf]
  | |- within ?P (modify _) => apply (within_modify P); solve [leaf]
  | |- within ?P (invoke _) => apply (within_invoke P); solve [leaf]
  | |- within _ (match ?x with _ => _ end) => destruct x
  | |- within _ (let x := _ in _) => cbv zeta
  | |- within _ ?m => let h := head_of m in unfold h
  end.
Ltac within leaf := repeat within_step leaf.

(** The projections a frame equality speaks of. *)
Definition same {L X} (f : World L -> X) : relation (World L) := fun w w' => f w' = f w.
#[export] Instance same_preorder {L X} (f : World L -> X) : PreOrder (same f).
Proof. split; [by intros w|intros x y z; unfold same; congruence]. Qed.

(** ** Invariants

    [keeps I m Q]: the computation [m] preserves the invariant [I] of the world,
    and its result satisfies [Q].  The rules follow the structure of the code. *)

Section keeps.
Context {L : Type} (I : World L -> Prop).

Definition keeps {A} (m : M L A) (Q : A -> Prop) : Prop :=
  forall w a w', I w -> m w = Ok (a, w') -> I w' /\ Q a.

Lemma keeps_ret {A} (a : A) : keeps (mret a) (fun x => x = a).
Proof. intros w b w' Hw H. by inv_m. Qed.

Lemma keeps_bind {A B} (m : M L A) (f : A -> M L B) Q Q' :
  keeps m Q -> (forall a, Q a -> keeps (f a) Q') -> keeps (m ≫= f) Q'.
Proof.
  intros Hm Hf w b w' Hw H. apply M_bind_Ok_inv in H as (a & w1 & H1 & H2).
  destruct (Hm _ _ _ Hw H1). by eapply Hf.
Qed.

Lemma keeps_assoc {A B C} (m : M L A) (f : A -> M L B) (g : B -> M L C) Q :
  keeps (m ≫= fun a => f a ≫= g) Q -> keeps ((m ≫= f) ≫= g) Q.
Proof.
  intros Hm w c w' Hw H. apply (Hm w); [done|]. unfold mbind, M_bind in *.
  destruct (m w) as [[? ?]|]; done.
Qed.

Lemma keeps_ret_bind {A B} (a : A) (f : A -> M L B) Q : keeps (f a) Q -> keeps (mret a ≫= f) Q.
Proof. intros Hm w b w' Hw H. by apply (Hm w). Qed.

Lemma keeps_weaken {A} (m : M L A) (Q Q' : A -> Prop) :
  keeps m Q -> (forall a, Q a -> Q' a) -> keeps m Q'.
Proof. intros Hm HQ w a w' Hw H. destruct (Hm _ _ _ Hw H). auto. Qed.

Lemma keeps_when (b : bool) (m : M L unit) :
  keeps m (fun _ => True) -> keeps (when b m) (fun _ => True).
Proof. intros Hm. destruct b; [done|]. intros w a w' Hw H. cbn in H. by inv_m. Qed.

Lemma keeps_lift {A} (r : Result A) : keeps (lift r) (fun a => r = Ok a).
Proof. intros w a w' Hw H. by inv_m. Qed.

Lemma keeps_guard (b : bool) e : keeps (guard b e) (fun _ => b = true).
Proof. intros w a w' Hw H. by inv_m. Qed.

Lemma keeps_constraint (b : bool) e : keeps (constraint b e) (fun _ => b = true).
Proof. intros w a w' Hw H. by inv_m. Qed.

Lemma keeps_frame {A X} (f : World L -> X) (m : M L A) :
  (forall w w', same f w w' -> I w -> I w') -> within (same f) m -> keeps m (fun _ => True).
Proof. intros Hf Hm w a w' Hw H. split; [|done]. by eapply Hf, Hw; eapply Hm. Qed.
End keeps.

(** One step along the code; [call] proves the calls. *)
Ltac keeps_step call :=
  lazymatch goal with
  | |- keeps _ (mbind _ (mbind _ _)) _ => apply keeps_assoc
  | |- keeps _ (mbind _ (mret _)) _ => apply keeps_ret_bind; cbv beta iota
  | |- keeps _ (mbind _ _) _ =>
      eapply keeps_bind; [call|let H := fresh "Hv" in intros ? H; cbv beta in H |- *]
  | |- keeps _ (match ?x with _ => _ end) _ => destruct x
  | |- keeps _ (let x := _ in _) _ => cbv zeta
  | |- keeps _ _ _ => eapply keeps_weaken; [call|try done; intros ? ->; try done]
  end.

(** The effect on the projection [f] of a successful call in the context. *)
Ltac frame_call f H :=
  lazymatch type of H with
  | ?m ?w = Ok (_, ?w') =>
      let E := fresh "Hsame" in
      assert (same f w w') as E by
        (refine ((_ : within (same f) m) _ _ _ H); clear; within ltac:(reflexivity));
      unfold same in E; cbn in E
  end.

(** The two maps of the redemption queue. *)
Definition redemption_maps {L} (w : World L)
  : gmap Pubkey RedemptionOffer.t * gmap Pubkey RedemptionRequest.t :=
  (redemption_offers w, redemption_requests w).
