(* ===== verification/Samples.v ===== *)
(** * A concrete deployment

    A small world in which the instructions run: a USDC/ONyc offer with a price
    vector in force, a redemption offer, an initialized BUFFER and funded vaults,
    over the sample runtime and ledger of [Runtime].  The witnesses of the
    development evaluate instructions on it.  *)

From S2P Require Import World MathUtils OfferPricing TokenUtils OfferHandlers MarketInfo Buffer.
Open Scope Z_scope.

Module Sample.
Definition boss : Pubkey := 101%N.
Definition worker : Pubkey := 102%N.
Definition user : Pubkey := 103%N.
Definition admin : Pubkey := 104%N.
Definition usdc : Pubkey := 201%N.
Definition onyc : Pubkey := 203%N.

Definition ata (owner mint : Pubkey) : Pubkey :=
  associated_token_address owner mint spl_token_id.
Definition offer_key : Pubkey := offer_pda usdc onyc.
Definition redemption_offer_key : Pubkey :=
  pda [seeds.REDEMPTION_OFFER; SeedKey onyc; SeedKey usdc].
Definition offer_vault : Pubkey := pda [seeds.OFFER_VAULT_AUTHORITY].
Definition redemption_vault : Pubkey := pda [seeds.REDEMPTION_OFFER_VAULT_AUTHORITY].
Definition intermediary : Pubkey := pda [seeds.PERMISSIONLESS_AUTHORITY].
Definition reserve : Pubkey := pda [seeds.RESERVE_VAULT_AUTHORITY].
Definition vault (k : ConfigurableVaultKind.t) : Pubkey :=
  pda [seeds.CONFIGURABLE_VAULT; seeds.vault_seed k].

(** Price 1.0 from second 100 on, 3.65% APR, daily steps. *)
Definition vector : OfferVector.t := OfferVector.mk 100 100 1000000000 36500 86400.

Definition offer : Offer.t :=
  Offer.mk usdc onyc (vector :: replicate 9 OfferVector.default) 500 255 0 1 0 0.

Definition redemption_offer : RedemptionOffer.t :=
  RedemptionOffer.mk offer_key onyc usdc 0 0 200 0 255 1000 0 300.

Definition state : State.t :=
  State.mk boss Pubkey_default false onyc
    (admin :: replicate 19 Pubkey_default) Pubkey_default Pubkey_default 255 0 worker 0 offer_key.

(** Ten percent gross yield, accruing since second 100. *)
Definition buffer : BufferState.t :=
  BufferState.mk onyc 100000 1000000000000 100 1000 1000000000 true 100 255.

Definition account (owner mint : Pubkey) (amount : Z) : Pubkey * TokenAccount.t :=
  (ata owner mint, TokenAccount.mk mint owner amount spl_token_id).

Definition all_kinds : list ConfigurableVaultKind.t :=
  [ConfigurableVaultKind.OfferFee; ConfigurableVaultKind.ManagementFee;
   ConfigurableVaultKind.PerformanceFee; ConfigurableVaultKind.PropAmmBuyFee;
   ConfigurableVaultKind.OfferProceeds; ConfigurableVaultKind.PropAmmProceeds;
   ConfigurableVaultKind.PermissionlessOfferFee; ConfigurableVaultKind.RedemptionFee;
   ConfigurableVaultKind.PropAmmSellFee].

Definition ledger : SampleLedger.t :=
  SampleLedger.mk
    (list_to_map
       [(usdc, Mint.mk 10000000000000 6 None spl_token_id None);
        (onyc, Mint.mk 1000000000000 9 (Some (pda [seeds.MINT_AUTHORITY])) spl_token_id None)])
    (list_to_map
       ([account user usdc 5000000000; account user onyc 700000000000;
         account offer_vault usdc 0; account offer_vault onyc 0;
         account redemption_vault usdc 100000000; account redemption_vault onyc 0;
         account reserve onyc 300000000000; account boss usdc 0; account boss onyc 0;
         account intermediary usdc 0; account intermediary onyc 0]
        ++ map (fun k => account (vault k) usdc 0) all_kinds
        ++ map (fun k => account (vault k) onyc 0) all_kinds)).

Definition world : World SampleLedger.t :=
  mkWorld (Clock.mk 1000100 77 5) state {[offer_key := offer]}
    {[redemption_offer_key := redemption_offer]} ∅
    (list_to_map (map (fun k =>
       (vault k, Some (ConfigurableVault.mk (ConfigurableVaultKind.as_u8 k) user 255))) all_kinds))
    ∅ (Loaded buffer) (SystemOwned true) (SystemOwned true) (SystemOwned true) ledger [].

Definition buffer_accounts : BufferAccrualAccounts :=
  mkBufferAccrualAccounts (pda [seeds.BUFFER_STATE]) (ata reserve onyc)
    (ata (vault ConfigurableVaultKind.ManagementFee) onyc)
    (ata (vault ConfigurableVaultKind.PerformanceFee) onyc).

Definition buffer_ctx (signer : Pubkey) : BufferCtx :=
  mkBufferCtx signer offer_key onyc spl_token_id buffer_accounts (pda [seeds.MARKET_STATS])
    (pda [seeds.CIRCULATING_SUPPLY_EXCLUDED_BALANCE]).

(** The world after a successful instruction. *)
Definition after {A} (m : M SampleLedger.t A) (w : World SampleLedger.t) : World SampleLedger.t :=
  match m w with Ok (_, w') => w' | Err _ => w end.
End Sample.

Lemma after_Ok (m : M SampleLedger.t unit) w :
  is_ok (m w) = true -> m w = Ok (tt, Sample.after m w).
Proof. unfold Sample.after. destruct (m w) as [[[] w']|]; done. Qed.

Example settle_runs :
  is_ok (settle_buffer (Sample.buffer_ctx Sample.worker) Sample.world) = true.
Proof. vm_compute. reflexivity. Qed.

Example burn_runs :
  is_ok (burn_for_nav_increase (Sample.buffer_ctx Sample.boss) 1000000000 Sample.world) = true.
Proof. vm_compute. reflexivity. Qed.
