(* ===== verification/MarketFacts.v ===== *)
(** * What the market information guarantees

    A quoted price holds until the quoted change time; the market-stats account
    holds the price, supply and value of one and the same instant; the excluded
    balance is the sum of the excluded owners' accounts. *)

From S2P Require Import World MathUtils OfferPricing TokenUtils OfferHandlers MarketInfo.
Open Scope Z_scope.

(** ** The next price change *)

Lemma filter_ext_In {A} (f g : A -> bool) (l : list A) :
  (forall x, In x l -> f x = g x) -> List.filter f l = List.filter g l.
Proof.
  induction l as [|a l IH]; cbn; intros H; [done|].
  rewrite (H a) by auto. rewrite IH by auto. done.
Qed.

Lemma active_same_between o t1 t2 :
  t1 <= t2 ->
  (forall v, In v (Offer.vectors o) -> OfferVector.start_time v <= t2 ->
             OfferVector.start_time v <= t1) ->
  find_active_vector_at o t2 = find_active_vector_at o t1.
Proof.
  intros Ht H. unfold find_active_vector_at. do 2 f_equal.
  apply filter_ext_In. intros v Hv. unfold vector_live_at. f_equal.
  apply eq_iff_eq_true. rewrite !Z.leb_le. specialize (H v Hv). lia.
Qed.

Lemma next_vector_after o now t :
  (forall w, find_next_vector_after o now = Some w -> t < OfferVector.start_time w) ->
  forall v, In v (Offer.vectors o) -> OfferVector.start_time v <= t ->
            OfferVector.start_time v <= now.
Proof.
  intros H v Hv Hle. destruct (Z.le_gt_cases (OfferVector.start_time v) now); [done|]. exfalso.
  unfold find_next_vector_after in H.
  destruct (min_by_key _ _) as [w|] eqn:E.
  - specialize (H w eq_refl). apply min_by_key_Some in E as [_ Hmin].
    assert (OfferVector.start_time w <= OfferVector.start_time v); [|lia].
    apply Hmin, filter_In. split; [done|]. by apply Z.ltb_lt.
  - apply min_by_key_None in E. enough (In v []) by done. rewrite <- E.
    apply filter_In. split; [done|]. by apply Z.ltb_lt.
Qed.

Lemma same_step a b d : 0 < d -> 0 <= a <= b -> b < (a / d + 1) * d -> b / d = a / d.
Proof.
  intros Hd Hab Hb. apply Z.le_antisymm; [|by apply Z.div_le_mono; lia].
  assert (b / d < a / d + 1); [|lia]. apply Z.div_lt_upper_bound; lia.
Qed.

Lemma step_price_congr apr bp bt d t1 t2 p :
  0 < d -> 0 <= bt -> t1 <= t2 <= u64.MAX -> t2 < bt + ((t1 - bt) / d + 1) * d ->
  calculate_step_price_at apr bp bt d t1 = Ok p -> calculate_step_price_at apr bp bt d t2 = Ok p.
Proof.
  intros Hd Hbt Ht Hs H. unfold calculate_step_price_at in *.
  destruct (Z.leb_spec bt t1) as [Hle|]; [|discriminate H].
  assert (bt <=? t2 = true) as -> by (apply Z.leb_le; lia). run_res.
  assert (u64.saturating_sub t1 bt = t1 - bt) as E1 by (unfold u64.saturating_sub; zlia).
  assert (u64.saturating_sub t2 bt = t2 - bt) as -> by (unfold u64.saturating_sub; zlia).
  rewrite E1 in H. unfold u128.checked_div in *.
  rewrite (same_step (t1 - bt) (t2 - bt) d) by lia. done.
Qed.

(** The fields of the used vectors that dates are computed with. *)
Definition u64_vector (v : OfferVector.t) : Prop := OfferVector.start_time v <> 0 ->
  0 <= OfferVector.base_time v /\ 0 < OfferVector.price_fix_duration v.

Lemma wf_u64_vectors vs : vectors_wf vs -> Forall u64_vector vs.
Proof.
  intros [_ _ Hs]. eapply Forall_impl; [exact Hs|]. intros v [-> | ?] ?; [done|lia].
Qed.

(** The pieces of a successful valuation. *)
Lemma valuation_Ok o now s :
  Forall u64_vector (Offer.vectors o) -> 0 <= now <= u64.MAX ->
  get_offer_valuation_snapshot o now = Ok s ->
  let v := ovs_active_vector s in
  let interval := OfferVector.base_time v
    + ((now - OfferVector.base_time v) / OfferVector.price_fix_duration v + 1)
      * OfferVector.price_fix_duration v in
  find_active_vector_at o now = Ok v /\
  (0 <= OfferVector.base_time v /\ 0 < OfferVector.price_fix_duration v) /\
  calculate_step_price_at (OfferVector.apr v) (OfferVector.base_price v)
    (OfferVector.base_time v) (OfferVector.price_fix_duration v) now = Ok (ovs_current_price s) /\
  OfferVector.base_time v <= now < interval /\ interval <= u64.MAX /\
  ovs_next_price_change_timestamp s =
    match find_next_vector_after o now with
    | Some w => Z.min interval (OfferVector.start_time w)
    | None => interval
    end.
Proof.
  intros Hv Hnow H. unfold get_offer_valuation_snapshot in H. inv_res.
  destruct v as [v p]. inv_res. cbn [ovs_active_vector ovs_current_price ovs_next_price_change_timestamp].
  unfold get_active_vector_and_current_price in *. inv_res.
  match goal with H : find_active_vector_at _ _ = _ |- _ => rename H into Ha end.
  match goal with H : compute_next_price_change_timestamp _ _ _ = Ok _ |- _ => rename H into Hn end.
  match goal with H : calculate_step_price_at _ _ _ _ _ = _ |- _ => rename H into Hp end.
  assert (Hin : live (Offer.vectors o) v) by (by apply find_active_Ok in Ha as [? _]).
  destruct Hin as [Hin Hlive].
  rewrite List.Forall_forall in Hv. destruct (Hv v Hin Hlive) as [Hb Hd].
  assert (bt_le : OfferVector.base_time v <= now).
  { unfold calculate_step_price_at in Hp.
    destruct (Z.leb_spec (OfferVector.base_time v) now); [done|discriminate Hp]. }
  unfold compute_next_price_change_timestamp, overflow in Hn.
  assert (u64.saturating_sub now (OfferVector.base_time v) = now - OfferVector.base_time v) as E
    by (unfold u64.saturating_sub; zlia).
  rewrite E in Hn. clear E. inv_res. inv_checked.
  pose proof (lt_div_mul (now - OfferVector.base_time v) (OfferVector.price_fix_duration v) Hd).
  subst v1 interval. cbn [ovs_active_vector]. repeat split; try done; lia.
Qed.

Lemma price_holds_until o now s t :
  Forall u64_vector (Offer.vectors o) -> 0 <= now <= u64.MAX ->
  get_offer_valuation_snapshot o now = Ok s ->
  now < ovs_next_price_change_timestamp s /\
  (now <= t < ovs_next_price_change_timestamp s ->
   get_active_vector_and_current_price o t = Ok (ovs_active_vector s, ovs_current_price s)).
Proof.
  intros Hv Hnow H. apply valuation_Ok in H as (Ha & [Hb Hd] & Hp & Hbt & Hmax & Hn); [|done..].
  set (v := ovs_active_vector s) in *.
  assert (Hnext : forall w, find_next_vector_after o now = Some w ->
            now < OfferVector.start_time w).
  { intros w Hw. unfold find_next_vector_after in Hw. apply min_by_key_Some in Hw as [Hw _].
    apply filter_In in Hw as [_ Hw]. by apply Z.ltb_lt in Hw. }
  split.
  { rewrite Hn. destruct (find_next_vector_after o now) as [w|]; [|lia].
    specialize (Hnext w eq_refl). lia. }
  intros Ht. unfold get_active_vector_and_current_price.
  rewrite (active_same_between o now t), Ha by
    (lia || (apply next_vector_after; intros w Hw; rewrite Hw in Hn; lia)).
  run_res.
  rewrite (step_price_congr _ _ _ _ now t (ovs_current_price s)); [done|done|done| | |done].
  - rewrite Hn in Ht. destruct (find_next_vector_after o now); lia.
  - rewrite Hn in Ht. destruct (find_next_vector_after o now); lia.
Qed.

(** ** Market stats *)

Lemma calculate_tvl_Ok c nav t :
  calculate_tvl c nav = Ok t -> t = c * nav / 10 ^ PRICE_DECIMALS /\ 0 <= t <= u64.MAX.
Proof.
  unfold calculate_tvl, overflow'. intros H. inv_res. inv_checked. auto.
Qed.

Lemma circulating_supply_Ok s e c :
  calculate_circulating_supply s e = Ok c -> c = s - e /\ e <= s /\ 0 <= c <= u64.MAX.
Proof. unfold calculate_circulating_supply. intros H. inv_res. inv_checked. auto with lia. Qed.

Section market_stats.
Context {R : Runtime} {L : Type} {TL : TokenLedger L}.
Implicit Types w : World L.

(** The excluded balance the program uses: the cached amount, or zero while the
    account does not exist. *)
Definition excluded_amount w : Z :=
  match excluded_balance w with
  | Loaded b => CirculatingSupplyExcludedBalance.amount b
  | _ => 0
  end.

Lemma load_excluded_Ok k x w w' :
  load_circulating_supply_excluded_balance_amount k w = Ok (x, w') ->
  w' = w /\ x = excluded_amount w.
Proof.
  unfold load_circulating_supply_excluded_balance_amount. intros H. inv_m.
  match goal with H : load_optional_pda_account _ _ _ = Ok (?o, _) |- _ =>
    apply load_optional_Ok_inv in H as [-> H]; destruct o end; cbn in *;
    unfold excluded_amount; match goal with H : excluded_balance _ = _ |- _ => by rewrite H end.
Qed.

(** What a refreshed market-stats account says about the world it was computed
    in: offer [o], ONyc mint [m], excluded amount [e]. *)
Record stats_of (o : Offer.t) (m : MintAccount) (e : Z) w (ms : MarketStats.t) : Prop := {
  stats_mint : Offer.token_out_mint o = mint_key m;
  stats_program : Mint.token_program (mint_data m) = spl_token_id;
  stats_nav : exists v, get_active_vector_and_current_price o (timestamp_u64 (clock w))
                        = Ok (v, MarketStats.nav ms) /\
                        calculate_apy_from_apr (OfferVector.apr v) = Ok (MarketStats.apy ms) /\
                        calculate_nav_adjustment o v = Ok (MarketStats.nav_adjustment ms);
  stats_supply : MarketStats.circulating_supply ms = supply m - e /\ e <= supply m;
  stats_tvl : MarketStats.tvl ms
              = MarketStats.circulating_supply ms * MarketStats.nav ms / 10 ^ PRICE_DECIMALS;
  stats_time : MarketStats.last_updated_at ms = Clock.unix_timestamp (clock w);
  stats_slot : MarketStats.last_updated_slot ms = Clock.slot (clock w)
}.

Lemma recompute_Ok o m e s ms w w' :
  recompute_market_stats o m e w = Ok (s, w') ->
  w' = w /\ stats_of o m e w (apply_market_stats_snapshot ms s (clock w)).
Proof.
  unfold recompute_market_stats, Clock_get, require_keys_eq. intros H. inv_m. inv_res.
  match goal with H : calculate_circulating_supply _ _ = Ok _ |- _ =>
    apply circulating_supply_Ok in H as (-> & ? & _) end.
  match goal with H : calculate_tvl _ _ = Ok _ |- _ => apply calculate_tvl_Ok in H as [-> _] end.
  repeat match goal with H : key_eqb _ _ = true |- _ => apply key_eqb_eq in H end.
  split; [done|]. split; cbn; auto. eauto.
Qed.

Lemma refresh_pda_Ok o m ek mk payer u w w' :
  refresh_market_stats_pda o m ek mk payer w = Ok (u, w') ->
  exists ms, w' = set_market_stats (Loaded ms) w /\ stats_of o m (excluded_amount w) w ms.
Proof.
  unfold refresh_market_stats_pda, update_market_stats_account, Clock_get, store_pda_account.
  intros H. inv_m.
  match goal with H : load_circulating_supply_excluded_balance_amount _ _ = _ |- _ =>
    apply load_excluded_Ok in H as [-> ->] end.
  match goal with H : recompute_market_stats _ _ _ _ = _ |- _ => rename H into Hr end.
  match goal with H : load_or_init_pda_account _ _ _ = _ |- _ =>
    apply load_or_init_Ok_inv in H as [[_ ->] | (_ & -> & ->)] end;
    (eapply recompute_Ok in Hr as [-> Hr]; eexists; split; [|exact Hr]; done).
Qed.
End market_stats.

(** ** Excluded balances *)

Section excluded.
Context {R : Runtime} {L : Type} {TL : TokenLedger L}.
Implicit Types w : World L.

(** The balances of the owners' associated accounts. *)
Definition owners_balance w (onyc_mint token_program : Pubkey) (owners : list Pubkey) : Z :=
  foldr (fun o s => balance (ledger w) (associated_token_address o onyc_mint token_program) + s)
    0 owners.

Lemma sum_excluded_Ok m tp owners accounts x y w w' :
  length accounts = length owners ->
  sum_excluded m tp (zip owners accounts) x w = Ok (y, w') ->
  w' = w /\ y = x + owners_balance w m tp owners /\
  accounts = map (fun o => associated_token_address o m tp) owners.
Proof.
  unfold owners_balance.
  revert accounts x. induction owners as [|o owners IH]; intros [|a accounts] x Hl H;
    cbn in Hl; try discriminate Hl; cbn in H.
  - inv_m. cbn. split; [done|]. split; [lia|done].
  - unfold require_keys_eq in H. inv_m.
    match goal with H : load_token_account _ _ = _ |- _ =>
      apply load_token_account_Ok_inv in H as (Hk & Ha & ->) end.
    inv_res. inv_checked. repeat match goal with H : key_eqb _ _ = true |- _ =>
      apply key_eqb_eq in H end.
    apply IH in H as (-> & -> & ->); [|by injection Hl].
    split; [done|]. cbn. split; [|congruence].
    rewrite <-Hx. unfold balance at 2. rewrite Ha. lia.
Qed.

Lemma validate_unique_Ok prev owners u :
  validate_unique_from prev owners = Ok u ->
  forall i j o, owners !! i = Some o -> owners !! j = Some o -> o <> Pubkey_default ->
    i = j /\ o ∉ prev.
Proof.
  revert prev. induction owners as [|a owners IH]; intros prev H i j o Hi Hj Ho; [done|].
  cbn in H. apply bind_Ok_inv in H as (x & Ha & H).
  assert (Hprev : forall k, owners !! k = Some o -> o ∉ prev /\ o <> a).
  { intros k Hk. destruct (IH _ H k k o Hk Hk Ho) as [_ Hn].
    rewrite elem_of_app, list_elem_of_singleton in Hn. tauto. }
  destruct i as [|i], j as [|j]; cbn in Hi, Hj.
  - split; [done|]. simplify_eq. destruct (key_eqb o Pubkey_default) eqn:E.
    + by apply key_eqb_eq in E.
    + inv_res. intros Hin.
      assert (mem_key o prev = true); [|congruence].
      unfold mem_key. apply existsb_exists. exists o.
      split; [by apply list_elem_of_In|apply key_eqb_refl].
  - simplify_eq. by destruct (Hprev j Hj).
  - simplify_eq. by destruct (Hprev i Hi).
  - destruct (Hprev i Hi). destruct (IH _ H i j o Hi Hj Ho) as [-> _]. done.
Qed.
End excluded.
