(* ===== verification/BufferFacts.v ===== *)
(** * What the BUFFER guarantees

    The accrual split conserves the minted amount, a mint never dilutes the NAV
    below the target yield, the supply baseline always records the mint's actual
    supply, and burns are minimal and backed. *)

From S2P Require Import World MathUtils OfferPricing TokenUtils OfferHandlers MarketInfo MarketFacts Buffer Samples.
Open Scope Z_scope.

(** ** Arithmetic *)

Lemma saturating_sub_eq a b : 0 <= a <= u64.MAX -> 0 <= b -> u64.saturating_sub a b = Z.max 0 (a - b).
Proof. intros. unfold u64.saturating_sub, clamp. zlia. Qed.

Lemma accrual_Ok supply delta y t m :
  0 <= supply -> 0 <= delta -> 0 <= y -> 0 <= t ->
  calculate_accrual_from_apr_delta supply delta y t = Ok m ->
  let den := SECONDS_PER_YEAR * YIELD_SCALE + y * t in
  0 <= m <= u64.MAX /\ m = supply * delta * t / den /\
  m * den <= supply * delta * t < (m + 1) * den.
Proof.
  intros Hs Hd Hy Ht H den. unfold calculate_accrual_from_apr_delta in H.
  assert (0 < den) by (unfold den, SECONDS_PER_YEAR, YIELD_SCALE; nia).
  assert (0 <= m <= u64.MAX /\ m = supply * delta * t / den) as [Hm ->].
  { destruct ((delta =? 0) || (supply =? 0) || (t =? 0)) eqn:Z0.
    - inv_res. assert (supply * delta * t = 0) as ->; [|split; [zlia|by rewrite Z.div_0_l by lia]].
      apply orb_true_iff in Z0 as [Z0|Z0]; [apply orb_true_iff in Z0 as [Z0|Z0]|];
        apply Z.eqb_eq in Z0; subst; lia.
    - inv_res. unfold math_overflow in *. inv_res. inv_checked.
      assert (0 <= supply * delta * t) by (apply Z.mul_nonneg_nonneg; [|lia]; nia).
      split; [split; [by apply div_nonneg|lia]|done]. }
  split; [done|]. split; [done|]. split; [by apply div_mul_le|by apply lt_div_mul].
Qed.

(** A mint that keeps the supply times the target growth below the gross growth. *)
Lemma accrual_no_dilution supply g y t m :
  0 <= supply -> 0 <= g <= u64.MAX -> 0 <= y <= g -> 0 <= t ->
  calculate_gross_buffer_accrual supply g y t = Ok m ->
  (supply + m) * (SECONDS_PER_YEAR * YIELD_SCALE + y * t)
    <= supply * (SECONDS_PER_YEAR * YIELD_SCALE + g * t)
    < (supply + m + 1) * (SECONDS_PER_YEAR * YIELD_SCALE + y * t).
Proof.
  intros Hs Hg Hy Ht H. unfold calculate_gross_buffer_accrual in H.
  rewrite saturating_sub_eq in H by lia.
  apply accrual_Ok in H as (Hm & _ & H1 & H2); [|lia..].
  rewrite Z.max_r in * by lia.
  assert (supply * (SECONDS_PER_YEAR * YIELD_SCALE + g * t)
          = supply * (SECONDS_PER_YEAR * YIELD_SCALE + y * t) + supply * (g - y) * t) as -> by ring.
  lia.
Qed.

(** The management fee: the yearly rate's share of the spread [delta]. *)
Definition management_due (mint bps delta : Z) : Z := mint * Z.min (bps * 100) delta / delta.

(** The performance fee: nothing below an enabled high watermark, nor before there
    is one. *)
Definition performance_due (base bps nav hwm : Z) (enabled : bool) : Z :=
  if enabled && ((hwm =? 0) || (nav <? hwm)) then 0 else base * bps / 10000.

Record split_spec (mint mgmt_bps perf_bps delta nav hwm : Z) (enabled : bool)
    (s : BufferAccrualBreakdown) : Prop := {
  split_total : bab_reserve_mint_amount s + bab_management_fee_mint_amount s
                  + bab_performance_fee_mint_amount s = mint;
  split_mint : bab_buffer_mint_amount s = mint;
  split_management_due : bab_management_fee_mint_amount s = management_due mint mgmt_bps delta;
  split_performance_due : bab_performance_fee_mint_amount s
    = performance_due (mint - bab_management_fee_mint_amount s) perf_bps nav hwm enabled;
  split_reserve : 0 <= bab_reserve_mint_amount s;
  split_management : 0 <= bab_management_fee_mint_amount s;
  split_performance : 0 <= bab_performance_fee_mint_amount s;
  split_management_cap : bab_management_fee_mint_amount s * delta <= mint * (mgmt_bps * 100);
  split_performance_cap :
    bab_performance_fee_mint_amount s * 10000
      <= (mint - bab_management_fee_mint_amount s) * perf_bps;
  split_below_watermark : enabled = true -> nav < hwm \/ hwm = 0 ->
    bab_performance_fee_mint_amount s = 0;
  split_watermark : bab_new_performance_fee_high_watermark s = Z.max hwm nav
}.

Lemma management_fee_Ok mint delta bps f :
  0 <= mint <= u64.MAX -> 0 <= delta -> 0 <= bps ->
  management_fee mint delta bps = Ok f ->
  f = management_due mint bps delta /\ 0 <= f /\ f * delta <= mint * (bps * 100).
Proof.
  intros Hm Hd Hb H. unfold management_fee, management_due in *.
  change BASIS_POINT_TO_YIELD_SCALE with 100 in H.
  destruct ((delta =? 0) || (mint =? 0)) eqn:E.
  - inv_res. split; [|split; [lia|rewrite Z.mul_0_l; nia]].
    apply orb_true_iff in E as [E|E]; apply Z.eqb_eq in E as ->; [by rewrite Zdiv_0_r|done].
  - apply orb_false_iff in E as [E1 E2]. apply Z.eqb_neq in E1, E2.
    inv_res. unfold math_overflow in *. inv_res. inv_checked.
    assert (0 <= mint * Z.min (bps * 100) delta) by (apply Z.mul_nonneg_nonneg; lia).
    split; [done|]. split; [apply div_nonneg; lia|].
    pose proof (div_mul_le (mint * Z.min (bps * 100) delta) delta ltac:(lia)).
    etransitivity; [eassumption|]. apply Z.mul_le_mono_nonneg_l; lia.
Qed.

Lemma performance_fee_Ok base bps nav hwm en f :
  0 <= base <= u64.MAX -> 0 <= bps ->
  performance_fee base bps nav hwm en = Ok f ->
  f = performance_due base bps nav hwm en /\
  0 <= f /\ f * 10000 <= base * bps /\ (en = true -> nav < hwm \/ hwm = 0 -> f = 0).
Proof.
  intros Hb Hp H. unfold performance_fee, performance_due in *.
  assert (0 <= base * bps) by (apply Z.mul_nonneg_nonneg; lia).
  assert (en && ((hwm =? 0) || (nav <? hwm)) = negb (negb en || (negb (hwm =? 0) && (hwm <=? nav))))
    as -> by (rewrite Z.ltb_antisym; by destruct en, (hwm =? 0), (hwm <=? nav)).
  destruct (negb en || (negb (hwm =? 0) && (hwm <=? nav))) eqn:E; cbn [negb].
  - inv_res. unfold math_overflow in *. inv_res. inv_checked.
    unfold BASIS_POINTS_SCALE, MAX_BASIS_POINTS in *.
    split; [done|]. split; [apply div_nonneg; lia|]. split; [apply div_mul_le; lia|].
    intros ->. cbn in E. apply andb_true_iff in E as [E1 E2].
    apply negb_true_iff, Z.eqb_neq in E1. apply Z.leb_le in E2. lia.
  - inv_res. split; [done|]. split; [lia|]. split; [lia|]. done.
Qed.

Lemma fee_split_Ok mint delta mgmt perf nav hwm en s :
  0 <= mint <= u64.MAX -> 0 <= delta -> 0 <= mgmt -> 0 <= perf ->
  calculate_buffer_fee_split mint delta mgmt perf nav hwm en = Ok s ->
  split_spec mint mgmt perf delta nav hwm en s.
Proof.
  intros Hm Hd Hmg Hp H. unfold calculate_buffer_fee_split in H.
  inv_res. unfold math_overflow in *. inv_res. inv_checked.
  rename v into mf, v1 into pf.
  match goal with H : management_fee _ _ _ = _ |- _ =>
    apply management_fee_Ok in H as (Hf & Hf1 & Hf2); [|done..] end.
  match goal with H : performance_fee _ _ _ _ _ = _ |- _ =>
    apply performance_fee_Ok in H as (Hpf & Hp1 & Hp2 & Hp3); [|lia..] end.
  split; cbn; try lia; auto.
Qed.

(** ** The effect of an accrual *)

(** The ranges of the fields of a [BufferState], by their types, and the fee
    rates [set_buffer_fee_config] allows. *)
Record buffer_ok (b : BufferState.t) : Prop := {
  ok_gross_apr : 0 <= BufferState.gross_apr b <= u64.MAX;
  ok_previous_supply : 0 <= BufferState.previous_supply b <= u64.MAX;
  ok_management : 0 <= BufferState.management_fee_basis_points b <= MAX_BASIS_POINTS;
  ok_performance : 0 <= BufferState.performance_fee_basis_points b <= MAX_BASIS_POINTS
}.

(** Offers store unsigned vector fields. *)
Definition vectors_unsigned (o : Offer.t) : Prop :=
  Forall (fun v => 0 <= OfferVector.apr v /\ 0 <= OfferVector.start_time v) (Offer.vectors o).

Section accrue.
Context {R : Runtime} {L : Type} {TL : TokenLedger L} {TLL : TokenLedgerLaws L}.
Implicit Types (w : World L) (b : BufferState.t).

Fixpoint split_balance (split : list (Pubkey * Z)) (k : Pubkey) : Z :=
  match split with
  | [] => 0
  | (d, x) :: rest => delta (key_eqb k d) x + split_balance rest k
  end.
Definition split_sum (split : list (Pubkey * Z)) : Z := foldr (fun p s => snd p + s) 0 split.

Lemma mint_split_moves st m auth tp split u w w' :
  Forall (fun p => 0 <= snd p) split ->
  mint_split st m auth tp split w = Ok (u, w') ->
  moves w w' (split_balance split) (fun k => delta (key_eqb k (mint_key m)) (split_sum split)).
Proof using All.
  unfold mint_split. revert w. induction split as [|[d x] split IH]; intros w Hp H; cbn in H.
  - inv_m. eapply moves_ext; [apply moves_refl|done|]. intros k. by destruct (key_eqb k _).
  - inv_m. inversion Hp as [|? ? Hx0 Hp']; subst. cbn in Hx0.
    apply IH in H; [|done].
    assert (moves w w0 (fun k => delta (key_eqb k d) x)
              (fun k => delta (key_eqb k (mint_key m)) x)) as H1.
    { apply when_Ok_inv in Hx as [[_ Hx] | [E ->]].
      - by apply mint_tokens_moves in Hx as [Hx _].
      - apply Z.ltb_ge in E. assert (x = 0) as -> by lia.
        eapply moves_ext; [apply moves_refl| |]; intros k; by destruct (key_eqb k _). }
    eapply moves_ext; [exact (moves_trans _ _ _ _ _ _ _ H1 H)| |]; intros k; cbn; [done|].
    unfold split_sum. destruct (key_eqb k _); cbn; lia.
Qed.

Lemma read_optional_Ok k tp x w w' :
  read_optional_token_account_amount k tp w = Ok (x, w') -> w' = w /\ 0 <= x.
Proof using All.
  unfold read_optional_token_account_amount. intros H. inv_m. split; [done|].
  destruct (ledger_account _ k) as [a|] eqn:E; [|lia].
  apply ledger_amount_u64 in E. destruct (key_eqb _ _); lia.
Qed.

Lemma find_active_unsigned o t v :
  vectors_unsigned o -> find_active_vector_at o t = Ok v -> 0 <= OfferVector.apr v.
Proof.
  intros Ho H. apply find_active_Ok in H as [[Hin _] _].
  unfold vectors_unsigned in Ho. rewrite List.Forall_forall in Ho. by apply Ho.
Qed.

(** The ONyc that [b] is due at the active yield [apr] after [t] seconds: the
    excess of the gross yield over it, on the last supply, discounted by the growth
    of the target NAV. *)
Definition accrual_due b (apr t : Z) : Z :=
  BufferState.previous_supply b * Z.max 0 (BufferState.gross_apr b - apr) * t
    / (SECONDS_PER_YEAR * YIELD_SCALE + apr * t).

(** [r] is the accrual of [b] at time [now]: what is due, and how it is split. *)
Record accrual_amounts b (apr nav now : Z) (r : BufferAccrualResult) : Prop := {
  am_total : bar_buffer_mint_amount r
    = accrual_due b apr (now - BufferState.last_accrual_timestamp b);
  am_management : bar_management_fee_mint_amount r
    = management_due (bar_buffer_mint_amount r) (BufferState.management_fee_basis_points b)
        (Z.max 0 (BufferState.gross_apr b - apr));
  am_performance : bar_performance_fee_mint_amount r
    = performance_due (bar_buffer_mint_amount r - bar_management_fee_mint_amount r)
        (BufferState.performance_fee_basis_points b) nav
        (BufferState.performance_fee_high_watermark b)
        (BufferState.performance_fee_high_watermark_enabled b);
  am_reserve : bar_reserve_mint_amount r
    = bar_buffer_mint_amount r - bar_management_fee_mint_amount r
      - bar_performance_fee_mint_amount r
}.

(** The buffer after an accrual to supply [s] at price [nav]: the first one sets the
    high watermark, every later one only raises it. *)
Definition accrued_buffer b (s nav now : Z) : BufferState.t :=
  set_buffer_baseline_after_supply_change s now
    (BufferState.with_performance_fee_high_watermark
       (if BufferState.previous_supply b =? 0 then nav
        else Z.max (BufferState.performance_fee_high_watermark b) nav) b).

(** What [accrue_buffer] does, on every successful path. *)
Record accrued b o m reserve mgmt perf now w w' b' (r : BufferAccrualResult) : Prop := {
  acc_moves : moves w w'
    (split_balance [(reserve, bar_reserve_mint_amount r);
                    (mgmt, bar_management_fee_mint_amount r);
                    (perf, bar_performance_fee_mint_amount r)])
    (fun k => delta (key_eqb k (mint_key m)) (bar_buffer_mint_amount r));
  acc_amounts : 0 <= bar_reserve_mint_amount r /\ 0 <= bar_management_fee_mint_amount r /\
    0 <= bar_performance_fee_mint_amount r;
  acc_total : bar_reserve_mint_amount r + bar_management_fee_mint_amount r
    + bar_performance_fee_mint_amount r = bar_buffer_mint_amount r;
  acc_state : b' = accrued_buffer b (supply m + bar_buffer_mint_amount r) (bar_current_nav r) now;
  acc_post : bar_post_accrual_supply r = supply m + bar_buffer_mint_amount r;
  acc_stamp : bar_timestamp r = now;
  acc_time : BufferState.last_accrual_timestamp b <= now;
  acc_first : BufferState.previous_supply b = 0 -> bar_buffer_mint_amount r = 0;
  acc_growth : exists v,
    get_active_vector_and_current_price o (u64.cast now) = Ok (v, bar_current_nav r) /\
    accrual_amounts b (OfferVector.apr v) (bar_current_nav r) now r /\
    (BufferState.previous_supply b + bar_buffer_mint_amount r)
      * (SECONDS_PER_YEAR * YIELD_SCALE
         + OfferVector.apr v * (now - BufferState.last_accrual_timestamp b))
    <= BufferState.previous_supply b
      * (SECONDS_PER_YEAR * YIELD_SCALE
         + Z.max (BufferState.gross_apr b) (OfferVector.apr v)
           * (now - BufferState.last_accrual_timestamp b));
  acc_performance : BufferState.performance_fee_high_watermark_enabled b = true ->
    bar_current_nav r < BufferState.performance_fee_high_watermark b ->
    bar_performance_fee_mint_amount r = 0
}.

Lemma emit_accrued_moves o m r u w w' :
  emit_buffer_accrued_event o m r w = Ok (u, w') -> moves w w' (fun _ => 0) (fun _ => 0).
Proof. apply emit_moves. Qed.

Lemma active_price_unsigned o t v p :
  vectors_unsigned o -> get_active_vector_and_current_price o t = Ok (v, p) ->
  0 <= OfferVector.apr v.
Proof.
  unfold get_active_vector_and_current_price. intros Ho H. inv_res.
  eauto using find_active_unsigned.
Qed.

(** The mint of an accrual: the three amounts, under both caps. *)
Lemma accrue_mint_Ok st m reserve mgmt perf auth tp mint x y z u w w' :
  x + y + z = mint -> 0 <= x -> 0 <= y -> 0 <= z ->
  when (0 <? mint)
    (lift (validate_max_supply (supply m) mint (State.max_supply st));;
     when (0 <? State.max_mint_amount st)
       (guard (mint <=? State.max_mint_amount st) OnreError.MaxMintAmountExceeded);;
     mint_split st m auth tp [(reserve, x); (mgmt, y); (perf, z)]) w = Ok (u, w') ->
  moves w w' (split_balance [(reserve, x); (mgmt, y); (perf, z)])
    (fun k => delta (key_eqb k (mint_key m)) mint) /\
  (0 < State.max_supply st -> 0 < mint -> supply m + mint <= State.max_supply st) /\
  (0 < State.max_mint_amount st -> mint <= State.max_mint_amount st \/ mint = 0).
Proof using All.
  intros Hsum Hx Hy Hz H. apply when_Ok_inv in H as [[Hc H] | [Hc ->]].
  - inv_m.
    apply mint_split_moves in H; [|by repeat constructor].
    split; [eapply moves_ext; [exact H|done|intros k; cbn; f_equal; lia]|].
    split; [intros; by eapply validate_max_supply_Ok|].
    intros Hp. left. by apply Z.leb_le, Hx1, Z.ltb_lt.
  - apply Z.ltb_ge in Hc. assert (x = 0 /\ y = 0 /\ z = 0 /\ mint = 0) as (-> & -> & -> & ->) by lia.
    split; [|split; [lia|by right]].
    eapply moves_ext; [apply moves_refl| |]; intros k; cbn; repeat destruct (key_eqb _ _); done.
Qed.

Lemma lift_elapsed now last e :
  last <= now -> panicking (i64.checked_sub now last) = Ok e ->
  0 <= e /\ u64.cast e = e /\ e = now - last.
Proof.
  intros Hle H. inv_res. inv_checked. split; [lia|]. split; [|done].
  apply Z.mod_small. change (2 ^ 64) with 18446744073709551616. zlia.
Qed.

Lemma growth_bound prev mint base g y t :
  mint * (base + y * t) <= prev * Z.max 0 (g - y) * t ->
  (prev + mint) * (base + y * t) <= prev * (base + Z.max g y * t).
Proof.
  intros H. assert (Z.max g y = y + Z.max 0 (g - y)) as -> by lia.
  assert (prev * (base + (y + Z.max 0 (g - y)) * t)
          = prev * (base + y * t) + prev * Z.max 0 (g - y) * t) as -> by ring.
  lia.
Qed.

Lemma accrue_buffer_Ok st b o m reserve mgmt perf auth tp now b' r w w' :
  buffer_ok b -> vectors_unsigned o ->
  accrue_buffer st b o m reserve mgmt perf auth tp now w = Ok ((b', r), w') ->
  accrued b o m reserve mgmt perf now w w' b' r /\
  (0 < State.max_supply st -> 0 < bar_buffer_mint_amount r ->
     bar_post_accrual_supply r <= State.max_supply st) /\
  (0 < State.max_mint_amount st -> bar_buffer_mint_amount r <= State.max_mint_amount st \/
     bar_buffer_mint_amount r = 0).
Proof using All.
  intros Hb Ho H. unfold accrue_buffer in H. inv_m. apply Z.leb_le in Hx.
  match goal with H : read_optional_token_account_amount _ _ _ = _ |- _ =>
    apply read_optional_Ok in H as [-> ?] end.
  pose proof (active_price_unsigned _ _ _ _ Ho Hx0).
  destruct (Z.eqb_spec (BufferState.previous_supply b) 0) as [E|E]; inv_m.
  - match goal with H : emit_buffer_accrued_event _ _ _ _ = _ |- _ =>
      apply emit_accrued_moves in H; rename H into He end.
    split; [|cbn; split; intros; [lia|by right]].
    split; cbn; auto; try lia; try done.
    2:{ unfold accrued_buffer. by rewrite E, Z.add_0_r. }
    2:{ eexists. split; [eassumption|]. split; [|rewrite E; lia].
        split; cbn; unfold accrual_due; rewrite ?E; [done|done| |done].
        unfold performance_due. by destruct (_ && _). }
    eapply moves_ext; [exact He| |]; intros k; cbn;
      repeat destruct (key_eqb _ _); cbn; lia.
  - destruct Hb.
    match goal with H : calculate_gross_buffer_accrual _ _ _ _ = Ok ?mint |- _ =>
      rename H into Hmint; set (mint0 := mint) in * end.
    apply lift_elapsed in Hx1 as (Ht & Htc & Hel); [|done]. rewrite Htc in *.
    unfold calculate_gross_buffer_accrual in Hmint.
    rewrite saturating_sub_eq in * by lia.
    apply accrual_Ok in Hmint as (Hm & Hex & Hg & _); [|lia..].
    match goal with H : calculate_buffer_fee_split _ _ _ _ _ _ _ = Ok ?s |- _ =>
      apply fee_split_Ok in H as []; [|lia..] end.
    match goal with H : when _ _ _ = Ok _ |- _ =>
      apply accrue_mint_Ok in H as (Hmv & Hcap & Hmax); [|done..] end.
    match goal with H : emit_buffer_accrued_event _ _ _ _ = _ |- _ =>
      apply emit_accrued_moves in H; rename H into He end.
    match goal with H : math_overflow (u64.checked_add (supply m) _) = _ |- _ =>
      unfold math_overflow in H; inv_res; inv_checked end.
    rewrite split_mint0 in *.
    split; [|cbn; rewrite ?split_mint0; auto].
    split; cbn; rewrite ?split_mint0; auto; try lia; try done.
    + eapply moves_ext; [exact (moves_trans _ _ _ _ _ _ _ Hmv He)| |]; intros k; cbn; lia.
    + unfold accrued_buffer. apply Z.eqb_neq in E. by rewrite E, split_watermark0.
    + eexists. split; [eassumption|]. split; [|by apply growth_bound].
      split; cbn; rewrite ?split_mint0; try done; lia.
Qed.
End accrue.

(** ** Settlement *)

Section settle.
Context {R : Runtime} {L : Type} {TL : TokenLedger L} {TLL : TokenLedgerLaws L}.
Implicit Types (w : World L) (b : BufferState.t).

(** [m] is the current state of its mint. *)
Definition fresh w (m : MintAccount) : Prop :=
  ledger_mint (ledger w) (mint_key m) = Some (mint_data m).

Lemma fresh_supply w m : fresh w m -> supply m = supply_of (ledger w) (mint_key m).
Proof. unfold fresh, supply_of. by intros ->. Qed.

Lemma load_mint_fresh k m w w' : load_mint k w = Ok (m, w') -> fresh w m /\ mint_key m = k.
Proof. intros H. apply load_mint_Ok_inv in H as (E & H & _). unfold fresh. by rewrite E. Qed.

(** The program's accounts other than the buffer and the market stats. *)
Definition same_accounts w w' : Prop :=
  clock w' = clock w /\ state w' = state w /\ offers w' = offers w /\
  redemption_offers w' = redemption_offers w /\ redemption_requests w' = redemption_requests w /\
  vaults w' = vaults w /\ prop_amm_pairs w' = prop_amm_pairs w /\
  excluded_accounts w' = excluded_accounts w /\ excluded_balance w' = excluded_balance w.

Lemma effects_same w w' : effects_only w w' ->
  same_accounts w w' /\ buffer_state w' = buffer_state w /\ market_stats w' = market_stats w.
Proof. intros (l & es & ->). done. Qed.

(** An accrual that may not have happened: the ONyc it mints, by account, and the
    supply it adds. *)
Definition accrual_balance (a : BufferAccrualAccounts) (r : option BufferAccrualResult) (k : Pubkey)
  : Z :=
  match r with
  | None => 0
  | Some r => split_balance [(baa_reserve_vault_onyc_account a, bar_reserve_mint_amount r);
      (baa_management_fee_vault_onyc_account a, bar_management_fee_mint_amount r);
      (baa_performance_fee_vault_onyc_account a, bar_performance_fee_mint_amount r)] k
  end.
Definition accrual_minted (r : option BufferAccrualResult) : Z :=
  match r with None => 0 | Some r => bar_buffer_mint_amount r end.

(** The BUFFER's accounts are the token accounts of its three vaults. *)
Record accrual_accounts (a : BufferAccrualAccounts) (onyc tp : Pubkey) : Prop := {
  ac_reserve : baa_reserve_vault_onyc_account a
    = associated_token_address reserve_vault_authority_key onyc tp;
  ac_management : baa_management_fee_vault_onyc_account a
    = associated_token_address (vault_key ConfigurableVaultKind.ManagementFee) onyc tp;
  ac_performance : baa_performance_fee_vault_onyc_account a
    = associated_token_address (vault_key ConfigurableVaultKind.PerformanceFee) onyc tp
}.

(** [x] is exactly the accrual the BUFFER of [w] owes at the clock, by the active
    vector of [o], and it goes to the BUFFER's vaults. *)
Record accrued_now (o : Offer.t) (onyc tp : Pubkey) (a : BufferAccrualAccounts)
    (x : BufferAccrualResult) w : Prop := {
  an_amounts : exists b v, buffer_state w = Loaded b /\
    BufferState.last_accrual_timestamp b <= Clock.unix_timestamp (clock w) /\
    get_active_vector_and_current_price o (timestamp_u64 (clock w)) = Ok (v, bar_current_nav x) /\
    accrual_amounts b (OfferVector.apr v) (bar_current_nav x) (Clock.unix_timestamp (clock w)) x;
  an_accounts : accrual_accounts a onyc tp
}.

Lemma accrued_accrued_now b o m a onyc tp w w' b' x :
  buffer_state w = Loaded b -> accrual_accounts a onyc tp ->
  accrued b o m (baa_reserve_vault_onyc_account a) (baa_management_fee_vault_onyc_account a)
    (baa_performance_fee_vault_onyc_account a) (Clock.unix_timestamp (clock w)) w w' b' x ->
  accrued_now o onyc tp a x w.
Proof.
  intros Hb Ha []. split; [|done]. destruct acc_growth0 as (v & Hv & Hx & _). by exists b, v.
Qed.

Lemma accrue_from_accounts_Ok st a o m auth tp b r w w' :
  buffer_state w = Loaded b -> buffer_ok b -> vectors_unsigned o ->
  accrue_buffer_from_accounts st a o m auth tp w = Ok (r, w') ->
  exists b' w1,
    accrued b o m (baa_reserve_vault_onyc_account a) (baa_management_fee_vault_onyc_account a)
      (baa_performance_fee_vault_onyc_account a) (Clock.unix_timestamp (clock w)) w w1 b' r /\
    BufferState.onyc_mint b = mint_key m /\ accrual_accounts a (mint_key m) tp /\
    w' = set_buffer_state (Loaded b') w1 /\
    (0 < State.max_supply st -> 0 < bar_buffer_mint_amount r ->
       bar_post_accrual_supply r <= State.max_supply st).
Proof using All.
  unfold accrue_buffer_from_accounts, Clock_get, load_buffer_state, store_buffer_state,
    store_pda_account. intros Hb Hok Ho H. inv_m.
  match goal with H : load_pda_account _ _ _ = Ok _ |- _ =>
    apply load_pda_account_Ok_inv in H as [Hl ->]; cbn in Hl; rewrite Hb in Hl; simplify_eq end.
  match goal with H : accrue_buffer _ _ _ _ _ _ _ _ _ _ _ = Ok _ |- _ =>
    apply accrue_buffer_Ok in H as (Ha & Hc & _); [|done..] end.
  match goal with H : validate_buffer_onyc_vault_accounts _ _ _ _ _ _ = Ok _ |- _ =>
    unfold validate_buffer_onyc_vault_accounts, require_keys_eq in H; inv_res end.
  repeat match goal with H : key_eqb _ _ = true |- _ => apply key_eqb_eq in H end.
  eexists _, _. split; [exact Ha|]. split; [done|]. by repeat split.
Qed.

(** The accounting state after an instruction that changes the ONyc supply and
    keeps the BUFFER's baseline: the baseline is the mint's actual supply at
    this very time, and the market stats, when refreshed, use the same supply. *)
Record baseline_current (onyc : Pubkey) w : Prop := {
  bl_buffer : exists b, buffer_state w = Loaded b /\
    BufferState.previous_supply b = supply_of (ledger w) onyc /\
    BufferState.last_accrual_timestamp b = Clock.unix_timestamp (clock w)
}.

Record stats_current (o : Offer.t) (onyc : Pubkey) w : Prop := {
  sc_stats : exists ms v, market_stats w = Loaded ms /\
    get_active_vector_and_current_price o (timestamp_u64 (clock w)) = Ok (v, MarketStats.nav ms) /\
    MarketStats.circulating_supply ms = supply_of (ledger w) onyc - excluded_amount w /\
    MarketStats.tvl ms
      = MarketStats.circulating_supply ms * MarketStats.nav ms / 10 ^ PRICE_DECIMALS /\
    MarketStats.last_updated_at ms = Clock.unix_timestamp (clock w)
}.

Lemma stats_of_current o m w ms :
  fresh w m -> stats_of o m (excluded_amount w) w ms ->
  stats_current o (mint_key m) (set_market_stats (Loaded ms) w).
Proof.
  intros Hf [_ _ (v & Hv & _ & _) [Hc _] Ht Hl _]. rewrite (fresh_supply w m Hf) in Hc.
  split. exists ms, v. by repeat split.
Qed.

Lemma settle_Ok ctx st o m b u w w' :
  buffer_state w = Loaded b -> buffer_ok b -> vectors_unsigned o -> fresh w m ->
  settle ctx st o m w = Ok (u, w') ->
  baseline_current (mint_key m) w' /\ stats_current o (mint_key m) w' /\
  same_accounts w w' /\
  exists r b' wa,
    accrued b o m (baa_reserve_vault_onyc_account (bc_buffer_accounts ctx))
      (baa_management_fee_vault_onyc_account (bc_buffer_accounts ctx))
      (baa_performance_fee_vault_onyc_account (bc_buffer_accounts ctx))
      (Clock.unix_timestamp (clock w)) w wa b' r /\
    ledger w' = ledger wa /\ buffer_state w' = Loaded b' /\
    accrual_accounts (bc_buffer_accounts ctx) (mint_key m) (bc_token_program ctx) /\
    supply_of (ledger w') (mint_key m)
      = supply_of (ledger w) (mint_key m) + bar_buffer_mint_amount r /\
    (0 < State.max_supply st -> 0 < bar_buffer_mint_amount r ->
       supply_of (ledger w') (mint_key m) <= State.max_supply st).
Proof using All.
  intros Hb Hok Ho Hf H. unfold settle in H. inv_m.
  match goal with H : accrue_buffer_from_accounts _ _ _ _ _ _ _ = Ok _ |- _ =>
    eapply accrue_from_accounts_Ok in H as (b' & wa & Ha & Hm & Hacs & -> & Hcap); [|done..] end.
  match goal with H : reload _ _ = Ok _ |- _ =>
    unfold reload in H; pose proof (load_mint_fresh _ _ _ _ H) as [Hf' Hk];
    apply load_mint_Ok_inv in H as (_ & _ & ->) end.
  apply refresh_pda_Ok in H as (ms & -> & Hs).
  apply stats_of_current in Hs; [|done]. rewrite Hk in Hs.
  pose proof Ha as Hacc. destruct Ha. destruct acc_moves0. pose proof (effects_same _ _ moves_world) as (Hsame & _ & _).
  pose proof Hsame as (Hclk & _).
  split; [|split; [exact Hs|split; [exact Hsame|]]].
  - split. exists b'. split; [done|]. cbn.
    rewrite acc_state0, moves_supply, key_eqb_refl, (fresh_supply w m Hf). cbn. by rewrite Hclk.
  - assert (Hsup : supply_of (ledger wa) (mint_key m)
              = supply_of (ledger w) (mint_key m) + bar_buffer_mint_amount x)
      by (rewrite moves_supply, key_eqb_refl; cbn; lia).
    exists x, b', wa. cbn. split; [exact Hacc|]. do 4 (split; [done|]).
    rewrite Hsup, <-(fresh_supply w m Hf), <-acc_post0. done.
Qed.
End settle.

(** ** Burns *)

Lemma burn_amount_Ok c adj nav nav' x :
  0 <= c <= u64.MAX -> 0 <= nav -> 0 < nav' -> 0 <= adj ->
  calculate_burn_amount c adj nav nav' = Ok x ->
  let assets := c * nav / 10 ^ PRICE_DECIMALS - adj in
  0 < x <= c /\ 0 <= assets /\
  (c - x - 1) * nav' < assets * 10 ^ PRICE_DECIMALS <= (c - x) * nav'.
Proof.
  intros Hc Hn Hn' Ha H assets. unfold calculate_burn_amount, math_overflow in H. inv_res.
  match goal with H : calculate_tvl _ _ = Ok _ |- _ => apply calculate_tvl_Ok in H as [-> _] end.
  match goal with H : u128.checked_pow _ _ = Some _ |- _ =>
    apply checked_Some in H as [-> _] end.
  subst assets. set (assets := c * nav / 10 ^ PRICE_DECIMALS - adj) in *.
  match goal with H : u128.checked_mul _ _ = Some _ |- _ =>
    apply checked_Some in H as [-> ?] end.
  match goal with H : u128.checked_sub _ _ = Some _ |- _ =>
    apply checked_Some in H as [-> ?] end.
  match goal with H : ceil_div_u128 _ _ = Some ?z |- _ => rename z into q;
    apply ceil_div_u128_spec in H as (H1 & H2 & H3); [|lia|lia] end.
  assert (0 <= assets) by (unfold assets; lia).
  replace (c - (c - q) - 1) with (q - 1) by ring. replace (c - (c - q)) with q by ring. lia.
Qed.

Section burn.
Context {R : Runtime} {L : Type} {TL : TokenLedger L} {TLL : TokenLedgerLaws L}.
Implicit Types (w : World L) (b : BufferState.t).

Lemma burn_accounts_Ok ctx b o m w w' :
  BurnForNavIncrease_accounts ctx w = Ok ((b, o, m), w') ->
  w' = w /\ State.boss (state w) = bc_signer ctx /\ State.is_killed (state w) = false /\
  State.onyc_mint (state w) = mint_key m /\ mint_key m = bc_onyc_mint ctx /\
  buffer_state w = Loaded b /\ offers w !! bc_main_offer ctx = Some o /\ fresh w m /\
  baa_management_fee_vault_onyc_account (bc_buffer_accounts ctx)
    = associated_token_address (vault_key ConfigurableVaultKind.ManagementFee) (bc_onyc_mint ctx)
        (bc_token_program ctx) /\
  baa_performance_fee_vault_onyc_account (bc_buffer_accounts ctx)
    = associated_token_address (vault_key ConfigurableVaultKind.PerformanceFee) (bc_onyc_mint ctx)
        (bc_token_program ctx).
Proof.
  unfold BurnForNavIncrease_accounts, has_one_boss, has_one_onyc_mint, not_killed,
    buffer_accrual_accounts, vault_account, load_vault, ata_account. intros H. inv_m.
  repeat match goal with
  | H : anchor_account _ = Ok _ |- _ => apply anchor_account_Ok_inv in H as [? ->]
  | H : load_token_account _ _ = Ok _ |- _ => apply load_token_account_Ok_inv in H as (_ & _ & ->)
  | H : load_mint _ _ = Ok _ |- _ =>
      pose proof (load_mint_fresh _ _ _ _ H) as [? ?];
      apply load_mint_Ok_inv in H as (_ & _ & ->)
  | H : key_eqb _ _ = true |- _ => apply key_eqb_eq in H
  | H : negb _ = true |- _ => apply negb_true_iff in H
  end. simplify_eq. repeat split; try done; congruence.
Qed.

Lemma burn_for_nav_increase_Ok ctx adj b o u w w' :
  buffer_state w = Loaded b -> buffer_ok b ->
  offers w !! bc_main_offer ctx = Some o -> vectors_unsigned o -> 0 <= adj ->
  burn_for_nav_increase ctx adj w = Ok (u, w') ->
  let onyc := bc_onyc_mint ctx in
  let a := bc_buffer_accounts ctx in
  let reserve := baa_reserve_vault_onyc_account a in
  State.boss (state w) = bc_signer ctx /\ State.is_killed (state w) = false /\
  State.onyc_mint (state w) = onyc /\ State.main_offer (state w) = bc_main_offer ctx /\
  baseline_current onyc w' /\ stats_current o onyc w' /\ same_accounts w w' /\
  exists nav x burned,
    let minted := bar_buffer_mint_amount x in
    let circ := supply_of (ledger w) onyc + minted - excluded_amount w in
    compute_offer_current_price o (timestamp_u64 (clock w)) = Ok nav /\
    accrued_now o onyc (bc_token_program ctx) a x w /\
    0 <= minted /\ 0 < burned /\
    (forall k, balance (ledger w') k = balance (ledger w) k + accrual_balance a (Some x) k
       - delta (key_eqb k reserve) burned) /\
    (forall k, supply_of (ledger w') k
       = supply_of (ledger w) k + delta (key_eqb k onyc) minted - delta (key_eqb k onyc) burned) /\
    (circ - burned - 1) * nav < (circ * nav / 10 ^ PRICE_DECIMALS - adj) * 10 ^ PRICE_DECIMALS
      <= (circ - burned) * nav /\
    balance (ledger w') reserve + burned <= balance (ledger w) reserve + minted.
Proof using All.
  intros Hb Hok Hoff Ho Hadj H. unfold burn_for_nav_increase in H. inv_m.
  match goal with H : BurnForNavIncrease_accounts _ _ = Ok _ |- _ =>
    apply burn_accounts_Ok in H as (-> & Hboss & Hkill & Honyc & Hk & Hb' & Hoff' & Hfr & Hmg & Hpf) end.
  rewrite Hb in Hb'. rewrite Hoff in Hoff'. simplify_eq.
  unfold Clock_get, store_buffer_state, store_pda_account in *. inv_m.
  match goal with H : compute_offer_current_price _ _ = Ok ?n |- _ =>
    rename H into Hnav, n into nav end.
  match goal with H : accrue_buffer _ _ _ _ _ _ _ _ _ _ _ = Ok (?b', ?r, _) |- _ =>
    apply accrue_buffer_Ok in H as [Hacc _]; [|done..]; rename b' into bb, r into res end.
  pose proof Hacc as [].
  match goal with H : load_circulating_supply_excluded_balance_amount _ _ = _ |- _ =>
    apply load_excluded_Ok in H as [-> ->] end.
  match goal with H : calculate_circulating_supply _ _ = Ok _ |- _ =>
    apply circulating_supply_Ok in H as (-> & _ & Hcr) end.
  assert (bar_current_nav res = nav) as En.
  { destruct acc_growth0 as (v & Hg & _). unfold compute_offer_current_price in Hnav.
    rewrite Hg in Hnav. by injection Hnav. }
  rewrite En in *. clear En.
  match goal with H : (0 <? nav) = true |- _ => apply Z.ltb_lt in H end.
  match goal with H : calculate_burn_amount _ _ _ _ = Ok ?x |- _ =>
    rename x into burned; apply burn_amount_Ok in H as ([Hb0 _] & _ & Hburn); [|lia..] end.
  match goal with H : burn_tokens _ _ _ _ _ _ = Ok _ |- _ =>
    apply burn_tokens_moves in H; rename H into Hbm end.
  pose proof (moves_trans _ _ _ _ _ _ _ acc_moves0 Hbm) as [Hw Hbal Hsup].
  match goal with H : reload _ _ = Ok _ |- _ =>
    unfold reload in H; pose proof (load_mint_fresh _ _ _ _ H) as [Hf' Hk'];
    apply load_mint_Ok_inv in H as (_ & _ & ->) end.
  match goal with H : refresh_market_stats_pda _ _ _ _ _ _ = Ok _ |- _ =>
    apply refresh_pda_Ok in H as (ms & -> & Hs) end.
  apply stats_of_current in Hs; [|done]. rewrite Hk', Hk in Hs.
  match goal with H : math_overflow (u64.checked_sub _ _) = Ok _ |- _ =>
    unfold math_overflow in H; inv_res; inv_checked end.
  assert (Hex : excluded_amount w8 = excluded_amount w)
    by (destruct acc_moves0 as [(? & ? & ->) _ _]; done).
  destruct (effects_same _ _ Hw) as (Hsame & _ & _). pose proof Hsame as (Hclk & _).
  rewrite acc_post0, (fresh_supply w m Hfr), Hk, Hex in *.
  cbv zeta. unfold require_keys_eq, timestamp_u64 in *. inv_res. unfold_ints.
  repeat match goal with H : key_eqb _ _ = true |- _ => apply key_eqb_eq in H end.
  do 4 (split; [done|]). destruct Hs as [(ms' & v & E1 & E2)].
  split; [|split; [split; exists ms', v; split; [exact E1|exact E2]|split; [exact Hsame|]]].
  - split. eexists. split; [done|]. cbn. rewrite Hsup, key_eqb_refl, Hclk. cbn.
    split; [lia|done].
  - exists nav, res, burned. cbn zeta. split; [done|].
    split; [eapply accrued_accrued_now; [eassumption| |exact Hacc]; by split|].
    split; [lia|]. split; [done|]. split; [intros k; cbn; rewrite Hbal; cbn; lia|].
    split; [intros k; cbn; rewrite Hsup; lia|]. split; [done|].
    cbn. rewrite Hbal, key_eqb_refl. cbn. unfold delta. repeat case_match; lia.
Qed.
End burn.

(** ** Properties *)

Section properties.
Context {R : Runtime} {L : Type} {TL : TokenLedger L} {TLL : TokenLedgerLaws L}.
Implicit Types (w : World L) (b : BufferState.t).

Lemma settle_accounts_Ok ctx m w w' :
  SettleBuffer_accounts ctx w = Ok (m, w') ->
  w' = w /\ State.worker (state w) = bc_signer ctx /\ State.is_killed (state w) = false /\
  State.onyc_mint (state w) = bc_onyc_mint ctx /\ mint_key m = bc_onyc_mint ctx /\ fresh w m.
Proof.
  unfold SettleBuffer_accounts, has_one_onyc_mint, not_killed, buffer_accrual_accounts.
  intros H. inv_m.
  match goal with H : load_mint _ _ = Ok _ |- _ =>
    pose proof (load_mint_fresh _ _ _ _ H) as [? ?];
    apply load_mint_Ok_inv in H as (_ & _ & ->) end.
  repeat match goal with
  | H : key_eqb _ _ = true |- _ => apply key_eqb_eq in H
  | H : negb _ = true |- _ => apply negb_true_iff in H
  end. auto 10.
Qed.

Lemma load_main_offer_Ok k st o w w' :
  load_main_offer k st w = Ok (o, w') ->
  w' = w /\ k = State.main_offer st /\ offers w !! k = Some o.
Proof.
  unfold load_main_offer, require_keys_eq. intros H. inv_m. inv_res.
  match goal with H : key_eqb _ _ = true |- _ => apply key_eqb_eq in H end. auto.
Qed.

(** C7: settling the BUFFER.  A successful [settle_buffer] was signed by the
    worker of a live program, with the main offer of the state.  It mints exactly
    what the BUFFER is due by the active vector at the clock, split into reserve,
    management fee and performance fee, to the token accounts of the three vaults;
    no other balance or supply changes.  The minted amount keeps the supply times the
    growth of the active APR within the growth of the gross yield (so the NAV target
    is never diluted), and respects the supply cap.  Afterwards the BUFFER's
    baseline is the mint's actual supply at this second and its high watermark has
    taken up the price, the market stats hold the price, circulating supply and value
    computed from that same supply, and no other account of the program has
    changed. *)
Theorem settle_buffer_correct ctx b o w w' :
  buffer_state w = Loaded b -> buffer_ok b ->
  offers w !! bc_main_offer ctx = Some o -> vectors_unsigned o ->
  settle_buffer ctx w = Ok (tt, w') ->
  let onyc := bc_onyc_mint ctx in
  let now := Clock.unix_timestamp (clock w) in
  let elapsed := now - BufferState.last_accrual_timestamp b in
  State.worker (state w) = bc_signer ctx /\ State.is_killed (state w) = false /\
  State.onyc_mint (state w) = onyc /\ State.main_offer (state w) = bc_main_offer ctx /\
  baseline_current onyc w' /\ stats_current o onyc w' /\ same_accounts w w' /\
  exists x v,
    find_active_vector_at o (timestamp_u64 (clock w)) = Ok v /\
    accrual_amounts b (OfferVector.apr v) (bar_current_nav x) now x /\
    accrual_accounts (bc_buffer_accounts ctx) onyc (bc_token_program ctx) /\
    let minted := bar_buffer_mint_amount x in
    0 <= minted /\
    (forall k, balance (ledger w') k
       = balance (ledger w) k + accrual_balance (bc_buffer_accounts ctx) (Some x) k) /\
    (forall k, supply_of (ledger w') k
       = supply_of (ledger w) k + delta (key_eqb k onyc) minted) /\
    buffer_state w'
      = Loaded (accrued_buffer b (supply_of (ledger w') onyc) (bar_current_nav x) now) /\
    get_active_vector_and_current_price o (timestamp_u64 (clock w)) = Ok (v, bar_current_nav x) /\
    (BufferState.previous_supply b + minted)
      * (SECONDS_PER_YEAR * YIELD_SCALE + OfferVector.apr v * elapsed)
    <= BufferState.previous_supply b
      * (SECONDS_PER_YEAR * YIELD_SCALE
         + Z.max (BufferState.gross_apr b) (OfferVector.apr v) * elapsed) /\
    (0 < State.max_supply (state w) -> 0 < minted ->
       supply_of (ledger w') onyc <= State.max_supply (state w)).
Proof using All.
  intros Hb Hok Hoff Ho H onyc now elapsed. unfold settle_buffer in H. inv_m.
  match goal with H : SettleBuffer_accounts _ _ = Ok _ |- _ =>
    apply settle_accounts_Ok in H as (-> & Hw & Hkill & Hon & Hk & Hf) end.
  match goal with H : load_main_offer _ _ _ = Ok _ |- _ =>
    apply load_main_offer_Ok in H as (-> & Hmo & Hoff'); rewrite Hoff in Hoff'; simplify_eq end.
  eapply settle_Ok in H as (Hbl & Hst & Hsame & r & b' & wa & Hacc & Hl & Hbs & Hacs & Hsup & Hcap);
    [|done..].
  rewrite Hk in *. do 7 (split; [done|]).
  destruct Hacc as [[_ Hbal Hs] ? ? Hb' _ _ _ _ (v & Hv & Hx & Hg) _].
  exists r, v. pose proof Hv as Hfind. unfold get_active_vector_and_current_price in Hfind. inv_res.
  rewrite Hl, Hbs, Hs, Hk, key_eqb_refl, (fresh_supply _ _ Hf), Hk in *.
  split; [done|]. split; [done|]. split; [done|]. split; [lia|]. auto 10.
Qed.

(** C22: burning for NAV.  A successful [burn_for_nav_increase] was signed by the
    boss of a live program.  It first mints exactly what the BUFFER is due at the
    clock to the BUFFER's vaults, then burns from the reserve vault the largest
    amount that leaves the remaining circulating supply, at the current price, worth
    at least the assets minus the adjustment: one more token burned would leave it
    worth less.  No other balance or supply changes.  Afterwards the baseline and
    the market stats record the mint's actual supply, and no other account of the
    program has changed. *)
Theorem burn_for_nav_increase_correct ctx adj b o w w' :
  buffer_state w = Loaded b -> buffer_ok b ->
  offers w !! bc_main_offer ctx = Some o -> vectors_unsigned o -> 0 <= adj ->
  burn_for_nav_increase ctx adj w = Ok (tt, w') ->
  let onyc := bc_onyc_mint ctx in
  let a := bc_buffer_accounts ctx in
  let reserve := baa_reserve_vault_onyc_account a in
  State.boss (state w) = bc_signer ctx /\ State.is_killed (state w) = false /\
  State.onyc_mint (state w) = onyc /\ State.main_offer (state w) = bc_main_offer ctx /\
  baseline_current onyc w' /\ stats_current o onyc w' /\ same_accounts w w' /\
  exists nav x burned,
    let minted := bar_buffer_mint_amount x in
    let circ := supply_of (ledger w) onyc + minted - excluded_amount w in
    compute_offer_current_price o (timestamp_u64 (clock w)) = Ok nav /\
    accrued_now o onyc (bc_token_program ctx) a x w /\
    0 <= minted /\ 0 < burned /\
    (forall k, balance (ledger w') k = balance (ledger w) k + accrual_balance a (Some x) k
       - delta (key_eqb k reserve) burned) /\
    (forall k, supply_of (ledger w') k
       = supply_of (ledger w) k + delta (key_eqb k onyc) minted - delta (key_eqb k onyc) burned) /\
    (circ - burned - 1) * nav < (circ * nav / 10 ^ PRICE_DECIMALS - adj) * 10 ^ PRICE_DECIMALS
      <= (circ - burned) * nav /\
    balance (ledger w') reserve + burned <= balance (ledger w) reserve + minted.
Proof using All. intros. by eapply burn_for_nav_increase_Ok. Qed.

(** The accrual split.  Whatever the fee rates and the watermark, a
    successful [calculate_buffer_fee_split] divides the minted amount exactly
    into reserve, management fee and performance fee, none negative; the
    management fee is at most the configured yearly rate's share of the spread,
    the performance fee at most its rate of the rest and zero below an enabled
    watermark; and the watermark only rises. *)
Theorem buffer_fee_split_conserves mint delta mgmt perf nav hwm enabled s :
  0 <= mint <= u64.MAX -> 0 <= delta -> 0 <= mgmt -> 0 <= perf ->
  calculate_buffer_fee_split mint delta mgmt perf nav hwm enabled = Ok s ->
  bab_reserve_mint_amount s + bab_management_fee_mint_amount s
    + bab_performance_fee_mint_amount s = mint /\
  0 <= bab_reserve_mint_amount s /\ 0 <= bab_management_fee_mint_amount s /\
  0 <= bab_performance_fee_mint_amount s /\
  bab_management_fee_mint_amount s * delta <= mint * (mgmt * 100) /\
  bab_performance_fee_mint_amount s * 10000
    <= (mint - bab_management_fee_mint_amount s) * perf /\
  (enabled = true -> nav < hwm \/ hwm = 0 -> bab_performance_fee_mint_amount s = 0) /\
  bab_new_performance_fee_high_watermark s = Z.max hwm nav.
Proof. intros Hm Hd Hg Hp H. apply fee_split_Ok in H as []; auto 10. Qed.
End properties.

Lemma sample_buffer_ok : buffer_ok Sample.buffer.
Proof. split; cbn; unfold MAX_BASIS_POINTS; zlia. Qed.

Lemma sample_unsigned : vectors_unsigned Sample.offer.
Proof. repeat constructor; cbn; lia. Qed.

Lemma settle_buffer_correct_witness :
  let ctx := Sample.buffer_ctx Sample.worker in
  let w' := Sample.after (settle_buffer ctx) Sample.world in
  is_ok (settle_buffer ctx Sample.world) = true /\ baseline_current Sample.onyc w'.
Proof.
  assert (E : is_ok (settle_buffer (Sample.buffer_ctx Sample.worker) Sample.world) = true)
    by (vm_compute; reflexivity).
  split; [exact E|].
  exact (proj1 (proj2 (proj2 (proj2 (proj2 (settle_buffer_correct (Sample.buffer_ctx Sample.worker)
           Sample.buffer Sample.offer Sample.world _ eq_refl sample_buffer_ok eq_refl sample_unsigned
           (after_Ok _ _ E))))))).
Defined.

Lemma burn_for_nav_increase_correct_witness :
  let ctx := Sample.buffer_ctx Sample.boss in
  let w' := Sample.after (burn_for_nav_increase ctx 1000000000) Sample.world in
  is_ok (burn_for_nav_increase ctx 1000000000 Sample.world) = true /\
  exists minted burned, 0 <= minted /\ 0 < burned /\ baseline_current Sample.onyc w'.
Proof.
  assert (E : is_ok (burn_for_nav_increase (Sample.buffer_ctx Sample.boss) 1000000000 Sample.world)
              = true) by (vm_compute; reflexivity).
  split; [exact E|].
  destruct (burn_for_nav_increase_correct (Sample.buffer_ctx Sample.boss) 1000000000 Sample.buffer
              Sample.offer Sample.world _ eq_refl sample_buffer_ok eq_refl sample_unsigned
              ltac:(lia) (after_Ok _ _ E))
    as (_ & _ & _ & _ & Hbl & _ & _ & nav & x & burned & _ & _ & Hm & Hb & _).
  exists (bar_buffer_mint_amount x), burned. split; [exact Hm|]. split; [exact Hb|exact Hbl].
Defined.

Lemma buffer_fee_split_conserves_witness :
  exists s, calculate_buffer_fee_split 10000 100000 100 2000 1000 1000 true = Ok s /\
    bab_reserve_mint_amount s + bab_management_fee_mint_amount s
      + bab_performance_fee_mint_amount s = 10000.
Proof.
  eexists. split; [vm_compute; reflexivity|].
  eapply (buffer_fee_split_conserves 10000 100000 100 2000 1000 1000 true);
    [zlia|lia|lia|lia|vm_compute; reflexivity].
Defined.
