(* ===== verification/AccountFacts.v ===== *)
(** * Lemmas about the account helpers

    Loading, creating and validating token accounts and vaults changes no balance
    and no mint ([quiet]); and the accrual that brackets every change of the
    ONyc supply leaves the BUFFER's baseline at the mint's actual supply.  *)

From S2P Require Import World MathUtils OfferPricing TokenUtils OfferHandlers MarketInfo Buffer Vaults Redemption TakeOffer PropAmmMath PropAmm MarketFacts BufferFacts.
Open Scope Z_scope.

Section quiet.
Context {R : Runtime} {L : Type} {TL : TokenLedger L} {TLL : TokenLedgerLaws L}.
Implicit Types w : World L.

(** [w'] is [w] up to newly created, empty token accounts and initialized vaults. *)
Definition quiet w w' : Prop :=
  exists l vs, w' = set_vaults vs (set_ledger l w) /\
    (forall k, balance l k = balance (ledger w) k) /\
    (forall k, ledger_mint l k = ledger_mint (ledger w) k).

Lemma quiet_refl w : quiet w w.
Proof. exists (ledger w), (vaults w). by destruct w. Qed.

Lemma quiet_trans w1 w2 w3 : quiet w1 w2 -> quiet w2 w3 -> quiet w1 w3.
Proof.
  intros (l & vs & -> & Hb & Hm) (l' & vs' & -> & Hb' & Hm'). exists l', vs'.
  split; [done|]. cbn in *. split; intros; by rewrite ?Hb', ?Hm', ?Hb, ?Hm.
Qed.

Lemma quiet_balance w w' k : quiet w w' -> balance (ledger w') k = balance (ledger w) k.
Proof. by intros (l & vs & -> & Hb & _). Qed.

Lemma quiet_supply w w' k : quiet w w' -> supply_of (ledger w') k = supply_of (ledger w) k.
Proof. intros (l & vs & -> & _ & Hm). unfold supply_of. cbn. by rewrite Hm. Qed.

Lemma quiet_fresh w w' m : quiet w w' -> fresh w m -> fresh w' m.
Proof. unfold fresh. intros (l & vs & -> & _ & Hm). cbn. by rewrite Hm. Qed.

(** The accounts a quiet step leaves alone. *)
Lemma quiet_same w w' : quiet w w' ->
  clock w' = clock w /\ state w' = state w /\ offers w' = offers w /\
  redemption_offers w' = redemption_offers w /\ redemption_requests w' = redemption_requests w /\
  prop_amm_pairs w' = prop_amm_pairs w /\ buffer_state w' = buffer_state w /\
  market_stats w' = market_stats w /\ excluded_accounts w' = excluded_accounts w /\
  excluded_balance w' = excluded_balance w /\ events w' = events w.
Proof. intros (l & vs & -> & _). by repeat split. Qed.

Lemma quiet_create w w' u auth m tp :
  invoke (create_associated_account auth m tp) w = Ok (u, w') -> quiet w w'.
Proof using All.
  intros H. inv_m. exists l, (vaults w). split; [by destruct w|].
  pose proof (create_balance _ _ _ _ _ H) as [Hb _]. apply create_effect in H as (Hm & _). auto.
Qed.

Lemma ata_account_Ok k auth m tp a w w' :
  ata_account k auth m tp w = Ok (a, w') ->
  w' = w /\ k = associated_token_address auth m tp /\ ta_key a = k /\
  TokenAccount.amount (ta_data a) = balance (ledger w) k.
Proof.
  unfold ata_account. intros H. inv_m. apply key_eqb_eq in Hx.
  apply load_token_account_Ok_inv in H as (? & E & ->). unfold balance. by rewrite E.
Qed.

Lemma get_ata_Ok k auth m tp e a w w' :
  get_associated_token_account k auth m tp e w = Ok (a, w') ->
  w' = w /\ k = associated_token_address auth m tp /\ ta_key a = k /\
  TokenAccount.amount (ta_data a) = balance (ledger w) k.
Proof.
  unfold get_associated_token_account, validate_associated_token_address. intros H. inv_m.
  apply key_eqb_eq in Hx. apply load_token_account_Ok_inv in H as (? & E & ->).
  unfold balance. by rewrite E.
Qed.

Lemma get_or_create_ata_Ok k auth m tp e a w w' :
  get_or_create_associated_token_account k auth m tp e w = Ok (a, w') ->
  quiet w w' /\ k = associated_token_address auth m tp /\ ta_key a = k /\
  TokenAccount.amount (ta_data a) = balance (ledger w) k.
Proof using All.
  unfold get_or_create_associated_token_account, validate_associated_token_address. intros H.
  inv_m. apply key_eqb_eq in Hx.
  match goal with H : when _ (invoke _) ?a = Ok (_, ?b) |- _ => assert (quiet a b) as Hq by
    (apply when_Ok_inv in H as [[_ H] | [_ ->]]; [by eapply quiet_create|apply quiet_refl]) end.
  apply load_token_account_Ok_inv in H as (? & E & ->).
  split; [done|]. do 2 (split; [done|]). rewrite <-(quiet_balance _ _ _ Hq). unfold balance.
  by rewrite E.
Qed.

Lemma init_if_needed_ata_Ok k auth m tp u w w' :
  init_if_needed_ata k auth m tp w = Ok (u, w') ->
  quiet w w' /\ k = associated_token_address auth m tp.
Proof using All.
  unfold init_if_needed_ata. intros H. inv_m. apply key_eqb_eq in Hx. split; [|done].
  apply when_Ok_inv in H as [[_ Hc] | [_ ->]]; [by eapply quiet_create|apply quiet_refl].
Qed.

Lemma store_vault_quiet k v u w w' : store_vault k v w = Ok (u, w') -> quiet w w'.
Proof. unfold store_vault. intros H. inv_m. eexists (ledger w), _. by destruct w. Qed.

Lemma get_or_create_vault_Ok k vault account payer m tp a w w' :
  get_or_create_configurable_vault_token_account k vault account payer m tp w = Ok (a, w') ->
  quiet w w' /\ vault = vault_key k /\ account = associated_token_address vault m tp /\
  ta_key a = account.
Proof using All.
  unfold get_or_create_configurable_vault_token_account, require_keys_eq. intros H. inv_m. inv_res.
  match goal with H : key_eqb _ _ = true |- _ => apply key_eqb_eq in H as <- end.
  apply get_or_create_ata_Ok in H as (Hq & -> & -> & _).
  split; [|done]. eapply quiet_trans; [|exact Hq]. clear Hq.
  destruct (vaults w !! vault_key k) as [[v|]|];
    [|by eapply store_vault_quiet|
     destruct (create_account_succeeds _ _); [by eapply store_vault_quiet|by inv_m]].
  inv_m. apply quiet_refl.
Qed.

Lemma get_or_create_pair_Ok k1 k2 v1 a1 v2 a2 payer m tp x y w w' :
  get_or_create_configurable_vault_token_account_pair k1 k2 v1 a1 v2 a2 payer m tp w
    = Ok ((x, y), w') ->
  quiet w w' /\ v1 = vault_key k1 /\ v2 = vault_key k2 /\
  a1 = associated_token_address v1 m tp /\ a2 = associated_token_address v2 m tp /\
  ta_key x = a1 /\ ta_key y = a2.
Proof using All.
  unfold get_or_create_configurable_vault_token_account_pair. intros H. inv_m.
  apply get_or_create_vault_Ok in Hx as (Hq1 & ? & ? & ?).
  apply get_or_create_vault_Ok in Hx0 as (Hq2 & ? & ? & ?).
  split; [by eapply quiet_trans|]. by repeat split.
Qed.

Lemma check_is_initialized_Ok a b w w' :
  check_is_initialized a w = Ok (b, w') ->
  w' = w /\ (b = true -> exists s, buffer_state w = Loaded s) /\
  (forall s, buffer_state w = Loaded s -> b = true).
Proof.
  unfold check_is_initialized, load_buffer_state. intros H. inv_m.
  destruct (buffer_state w) as [e| |e|s] eqn:E.
  1,2: by inv_m.
  - destruct e; inv_m; [done|].
    match goal with H : load_pda_account _ _ _ = Ok _ |- _ =>
      apply load_pda_account_Ok_inv in H as [Hl ->]; cbn in Hl; congruence end.
  - inv_m. match goal with H : load_pda_account _ _ _ = Ok _ |- _ =>
      apply load_pda_account_Ok_inv in H as [Hl ->] end. split; [done|]. eauto.
Qed.

Lemma buffer_accrual_accounts_Ok a u w w' :
  buffer_accrual_accounts a w = Ok (u, w') -> w' = w.
Proof. unfold buffer_accrual_accounts. intros H. by inv_m. Qed.

Lemma live_state_Ok s w w' :
  live_state w = Ok (s, w') -> w' = w /\ s = state w /\ State.is_killed s = false.
Proof.
  unfold live_state, not_killed. intros H. inv_m. by apply negb_true_iff in Hx0.
Qed.

Lemma load_mint_same k m w w' : load_mint k w = Ok (m, w') -> w' = w.
Proof. intros H. by apply load_mint_Ok_inv in H as (_ & _ & ->). Qed.
End quiet.

(** Clean up after [inv_m]: the successes of the account helpers. *)
Ltac inv_accounts :=
  repeat match goal with
  | H : ata_account _ _ _ _ _ = Ok _ |- _ => apply ata_account_Ok in H as (-> & ? & ? & ?)
  | H : get_associated_token_account _ _ _ _ _ _ = Ok _ |- _ =>
      apply get_ata_Ok in H as (-> & ? & ? & ?)
  | H : buffer_accrual_accounts _ _ = Ok _ |- _ => apply buffer_accrual_accounts_Ok in H as ->
  | H : live_state _ = Ok _ |- _ => apply live_state_Ok in H as (-> & ? & ?); subst
  | H : load_mint _ _ = Ok _ |- _ =>
      pose proof (load_mint_fresh _ _ _ _ H) as [? ?]; apply load_mint_same in H as ->
  | H : load_token_account _ _ = Ok _ |- _ => apply load_token_account_Ok_inv in H as (_ & _ & ->)
  | H : key_eqb _ _ = true |- _ => apply key_eqb_eq in H
  | H : negb _ = true |- _ => apply negb_true_iff in H
  end.

(** ** Supply changes between an accrual and the stored baseline *)

(** The fields of a pair are in the range of their types, and [configure_prop_amm]
    accepted its parameters. *)
Record pair_ok (s : PropAmmPairState.t) : Prop := {
  pk_peg : 0 <= PropAmmPairState.curve_peg_haircut_bps s <= 10000;
  pk_exponent : 0 <= PropAmmPairState.curve_exponent_scaled s;
  pk_wave : 0 <= PropAmmPairState.cadence_wave_scaled s <= MAX_CADENCE_WAVE_SCALED;
  pk_threshold : 0 <= PropAmmPairState.cadence_threshold s <= u32.MAX;
  pk_sensitivity : 0 <= PropAmmPairState.wall_sensitivity_scaled s <= u32.MAX;
  pk_epoch : PropAmmPairState.epoch_duration_seconds s <= i64.MAX;
  pk_sells : 0 <= PropAmmPairState.curr_sell_value_stable s <= u64.MAX;
  pk_buys : 0 <= PropAmmPairState.curr_buy_value_stable s <= u64.MAX;
  pk_prev : 0 <= PropAmmPairState.prev_net_sell_value_stable s <= u64.MAX;
  pk_count : 0 <= PropAmmPairState.curr_sell_trade_count s <= u32.MAX;
  pk_minimum : 0 <= PropAmmPairState.minimum_sell_haircut_onyc s <= u64.MAX
}.

Section supply_change.
Context {R : Runtime} {L : Type} {TL : TokenLedger L} {TLL : TokenLedgerLaws L}.
Implicit Types w : World L.

(** The stored accounts are within the ranges of their field types and of the
    fees their instructions allow. *)
Record typed w : Prop := {
  typed_buffer b : buffer_state w = Loaded b -> buffer_ok b;
  typed_offer k o : offers w !! k = Some o ->
    vectors_unsigned o /\ 0 <= Offer.fee_basis_points o <= MAX_BASIS_POINTS /\
    0 <= Offer.permissionless_fee_basis_points o <= MAX_BASIS_POINTS;
  typed_redemption_offer k o : redemption_offers w !! k = Some o ->
    0 <= RedemptionOffer.fee_basis_points o <= MAX_BASIS_POINTS /\
    0 <= RedemptionOffer.fee_basis_points_prop_amm_sell o <= MAX_BASIS_POINTS /\
    0 <= RedemptionOffer.vault_target_bps o <= MAX_BASIS_POINTS;
  typed_pair k s : prop_amm_pairs w !! k = Some s -> pair_ok s
}.

(** An accrual, if there is one, by offer [mo] to the vaults' accounts of [a]. *)
Record accrual_step (a : BufferAccrualAccounts) (tp : Pubkey) (mo : option Offer.t) (m : MintAccount)
    (r : option BufferAccrualResult) w w' : Prop := {
  as_world : exists l es bs, w' = set_buffer_state bs (set_events es (set_ledger l w)) /\
    (r = None -> bs = buffer_state w);
  as_balance k : balance (ledger w') k = balance (ledger w) k + accrual_balance a r k;
  as_supply k : supply_of (ledger w') k
    = supply_of (ledger w) k + delta (key_eqb k (mint_key m)) (accrual_minted r);
  as_minted : 0 <= accrual_minted r /\ forall k, 0 <= accrual_balance a r k;
  as_result x : r = Some x -> (exists b, buffer_state w = Loaded b) /\
    bar_post_accrual_supply x = supply_of (ledger w') (mint_key m) /\
    bar_timestamp x = Clock.unix_timestamp (clock w);
  as_exact x : r = Some x -> exists o, mo = Some o /\ accrued_now o (mint_key m) tp a x w
}.

Lemma accrual_step_none a tp mo m w : accrual_step a tp mo m None w w.
Proof.
  split; cbn; try done; try (intros; lia).
  - exists (ledger w), (events w), (buffer_state w). by destruct w.
  - intros k. destruct (key_eqb k _); cbn; lia.
Qed.

Lemma accrue_step st a o m auth tp r w w' :
  typed w -> vectors_unsigned o -> fresh w m ->
  accrue_buffer_from_accounts st a o m auth tp w = Ok (r, w') ->
  accrual_step a tp (Some o) m (Some r) w w'.
Proof using All.
  intros [Hty _ _ _] Ho Hf H.
  assert (exists b, buffer_state w = Loaded b) as [b Hb].
  { pose proof H as H'. unfold accrue_buffer_from_accounts, Clock_get, load_buffer_state in H'.
    inv_m. match goal with H : load_pda_account _ _ _ = Ok _ |- _ =>
      apply load_pda_account_Ok_inv in H as [Hl ->] end. by eexists. }
  eapply accrue_from_accounts_Ok in H as (b' & w1 & Hacc & _ & Hacs & -> & _); [|eauto..].
  pose proof (accrued_accrued_now _ _ _ _ _ _ _ _ _ _ Hb Hacs Hacc) as Hnow.
  destruct Hacc as [[(l & es & ->) Hbal Hsup] ? ? ? ? ? ? ? ? ?]. cbn in *.
  split; cbn; auto; [by eexists _, _, _| | |].
  - split; [lia|]. intros k. unfold delta. repeat case_match; lia.
  - intros x [= <-]. split; [by eexists|]. rewrite Hsup, key_eqb_refl, <-(fresh_supply w m Hf). auto.
  - intros x [= <-]. by exists o.
Qed.

Lemma store_post_Ok x now u w w' :
  store_buffer_post_supply x now w = Ok (u, w') ->
  exists b, buffer_state w = Loaded b /\
    w' = set_buffer_state (Loaded (set_buffer_baseline_after_supply_change x now b)) w.
Proof.
  unfold store_buffer_post_supply, load_buffer_state, store_buffer_state, store_pda_account.
  intros H. inv_m. match goal with H : load_pda_account _ _ _ = Ok _ |- _ =>
    apply load_pda_account_Ok_inv in H as [Hl ->] end. by exists x0.
Qed.

(** Storing the baseline changes the BUFFER only; the baseline is then the supply
    if the accrual's supply plus the change [d] is. *)
Definition stored (r : option BufferAccrualResult) (d : Z) w w' : Prop :=
  (exists bs, w' = set_buffer_state bs w /\ (r = None -> bs = buffer_state w)) /\
  (forall onyc x, r = Some x -> bar_timestamp x = Clock.unix_timestamp (clock w) ->
     bar_post_accrual_supply x + d = supply_of (ledger w) onyc -> baseline_current onyc w').

Lemma stored_some x d u w w' :
  store_buffer_post_supply (bar_post_accrual_supply x + d) (bar_timestamp x) w = Ok (u, w') ->
  stored (Some x) d w w'.
Proof.
  intros H. apply store_post_Ok in H as (b & _ & ->). split; [by eexists|].
  intros onyc y [= <-] Ht Hs. split. eexists. split; [done|]. cbn. auto.
Qed.

Lemma stored_none d w : stored None d w w.
Proof. split; [|done]. exists (buffer_state w). by destruct w. Qed.

Lemma store_post_offer_Ok r x e u w w' :
  store_post_offer_supply r x e w = Ok (u, w') -> stored r x w w'.
Proof.
  unfold store_post_offer_supply. destruct r as [r|]; intros H; inv_m; [|by apply stored_none].
  inv_res. inv_checked. by eapply stored_some.
Qed.

Lemma store_post_burn_Ok r x u w w' :
  store_post_burn_supply r x w = Ok (u, w') -> stored r (- x) w w'.
Proof.
  unfold store_post_burn_supply, math_overflow.
  destruct r as [r|]; intros H; inv_m; [|by apply stored_none].
  inv_res. inv_checked. by eapply stored_some.
Qed.

Lemma quiet_accrued o onyc tp a x w w' :
  quiet w w' -> accrued_now o onyc tp a x w' -> accrued_now o onyc tp a x w.
Proof. intros (l & vs & -> & _) []. by split. Qed.

(** The two accruals that bracket a supply change. *)
Lemma accrue_before_mint_Ok st c a mo m tp r w w' :
  typed w -> (forall o, mo = Some o -> vectors_unsigned o) -> fresh w m ->
  accrue_before_mint st c a mo m tp w = Ok (r, w') ->
  accrual_step a tp mo m r w w' /\ (c = true <-> r <> None).
Proof using All.
  unfold accrue_before_mint. intros Hw Ho Hf H. destruct c; inv_m.
  - inv_res. match goal with H : mo = Some _ |- _ => rewrite H in * end.
    split; [|done]. eapply accrue_step; eauto.
  - split; [apply accrual_step_none|done].
Qed.

Lemma accrue_before_burn_Ok st c a mo m tp r w w' :
  typed w -> (forall o, mo = Some o -> vectors_unsigned o) -> fresh w m ->
  accrue_before_burn st c a mo m tp w = Ok (r, w') ->
  accrual_step a tp mo m r w w' /\ (r <> None -> c = true) /\
  (c = true -> (exists b, buffer_state w = Loaded b) -> r <> None).
Proof using All.
  unfold accrue_before_burn. intros Hw Ho Hf H. inv_m.
  match goal with H : check_is_initialized _ _ = Ok _ |- _ =>
    apply check_is_initialized_Ok in H as (-> & _ & Hi) end.
  destruct (c && x) eqn:E; inv_m.
  - apply andb_true_iff in E as [-> ->]. inv_res. match goal with H : mo = Some _ |- _ => rewrite H in * end.
    split; [|done]. eapply accrue_step; eauto.
  - split; [apply accrual_step_none|]. split; [done|]. intros -> [b Hb].
    by rewrite (Hi b Hb) in E.
Qed.

Lemma baseline_market_stats onyc w a :
  baseline_current onyc w -> baseline_current onyc (set_market_stats a w).
Proof. intros [(b & ? & ? & ?)]. split. by exists b. Qed.

(** The refresh that follows: stats and, if there was one, the baseline. *)
Lemma refresh_Ok o m m' ek mk payer u w w1 w' :
  reload m w = Ok (m', w1) -> refresh_market_stats_pda o m' ek mk payer w1 = Ok (u, w') ->
  stats_current o (mint_key m) w' /\ exists ms, w' = set_market_stats (Loaded ms) w.
Proof.
  unfold reload. intros Hr H. pose proof (load_mint_fresh _ _ _ _ Hr) as [Hf Hk].
  apply load_mint_same in Hr as ->. apply refresh_pda_Ok in H as (ms & -> & Hs).
  apply stats_of_current in Hs; [|done]. rewrite Hk in Hs. eauto.
Qed.

(** A refresh of the market stats that may be skipped. *)
Definition refreshed (c : bool) (mo : option Offer.t) (onyc : Pubkey) w w' : Prop :=
  (exists ms, w' = set_market_stats ms w) /\
  (c = true -> exists o, mo = Some o /\ stats_current o onyc w').

Lemma refreshed_no mo onyc w : refreshed false mo onyc w w.
Proof. split; [|done]. exists (market_stats w). by destruct w. Qed.

Lemma when_refreshed (c : bool) mo m ek mk payer u w w' :
  when c (o ← lift (ok_or_onre mo OnreError.InvalidMainOffer);
          m ← reload m; refresh_market_stats_pda o m ek mk payer) w = Ok (u, w') ->
  refreshed c mo (mint_key m) w w'.
Proof using All.
  intros H. apply when_Ok_inv in H as [[-> H] | [-> ->]]; [|apply refreshed_no].
  inv_m. inv_res. match goal with H : reload _ _ = Ok _ |- _ => rename H into Hr end.
  destruct (refresh_Ok _ _ _ _ _ _ _ _ _ _ Hr H) as [Hs [ms ->]]. split; [by eexists|]. eauto.
Qed.

Lemma when_refresh_after_Ok (c : bool) a mo m payer u w w' :
  when c (refresh_after_exchange a mo m payer) w = Ok (u, w') ->
  refreshed c mo (mint_key m) w w'.
Proof using All.
  unfold refresh_after_exchange. intros H.
  apply when_Ok_inv in H as [[-> H] | [-> ->]]; [|apply refreshed_no].
  inv_m. inv_res. match goal with H : reload _ _ = Ok _ |- _ => rename H into Hr end.
  match goal with H : refresh_market_stats_pda _ _ _ _ _ _ = Ok _ |- _ =>
    destruct (refresh_Ok _ _ _ _ _ _ _ _ _ _ Hr H) as [Hs [ms ->]] end.
  split; [by eexists|]. eauto.
Qed.

(** Moves during which a prop-AMM pair may be stored too. *)
Record pair_moves w w' (db ds : Pubkey -> Z) : Prop := {
  pm_world : exists l es ps, w' = set_prop_amm_pairs ps (set_events es (set_ledger l w));
  pm_balance k : balance (ledger w') k = balance (ledger w) k + db k;
  pm_supply k : supply_of (ledger w') k = supply_of (ledger w) k + ds k
}.

Lemma moves_pair w w' db ds : moves w w' db ds -> pair_moves w w' db ds.
Proof.
  intros [(l & es & ->) Hb Hs]. split; [|done..]. exists l, es, (prop_amm_pairs w). by destruct w.
Qed.

Lemma pair_moves_trans w1 w2 w3 db ds db' ds' :
  pair_moves w1 w2 db ds -> pair_moves w2 w3 db' ds' ->
  pair_moves w1 w3 (fun k => db k + db' k) (fun k => ds k + ds' k).
Proof.
  intros [(l & es & ps & ->) Hb Hs] [(l' & es' & ps' & ->) Hb' Hs']. cbn in *.
  split; [by exists l', es', ps'| |]; intros k; cbn; rewrite ?Hb', ?Hs', ?Hb, ?Hs; lia.
Qed.

(** The frame of every instruction that changes the ONyc supply: an accrual, token
    movements, the stored baseline, the refreshed stats. *)
Record bracketed (a : BufferAccrualAccounts) (tp : Pubkey) (m : MintAccount) (r : option BufferAccrualResult)
    (db ds : Pubkey -> Z) (c : bool) (mo : option Offer.t) w w' : Prop := {
  br_world : exists l es ps bs ms, w' = set_market_stats ms (set_buffer_state bs
    (set_prop_amm_pairs ps (set_events es (set_ledger l w))));
  br_balance k : balance (ledger w') k = balance (ledger w) k + accrual_balance a r k + db k;
  br_supply k : supply_of (ledger w') k
    = supply_of (ledger w) k + delta (key_eqb k (mint_key m)) (accrual_minted r) + ds k;
  br_minted : 0 <= accrual_minted r /\ forall k, 0 <= accrual_balance a r k;
  br_exact x : r = Some x -> exists o, mo = Some o /\ accrued_now o (mint_key m) tp a x w;
  br_baseline : r <> None -> baseline_current (mint_key m) w';
  br_stats : c = true -> exists o, mo = Some o /\ stats_current o (mint_key m) w'
}.

Lemma bracket a tp m r d db ds c mo w w1 w2 w3 w4 :
  accrual_step a tp mo m r w w1 -> pair_moves w1 w2 db ds ->
  (r <> None -> ds (mint_key m) = d) -> stored r d w2 w3 -> refreshed c mo (mint_key m) w3 w4 ->
  bracketed a tp m r db ds c mo w w4 /\ prop_amm_pairs w4 = prop_amm_pairs w2.
Proof using All.
  intros [(l & es & bs & -> & _) Hb Hs Hmin Hr Hex] [(l2 & es2 & ps & ->) Hb2 Hs2] Hd
    [(bs3 & -> & _) Hst] [(ms & ->) Href]. cbn in *.
  split; [|done]. split; cbn; auto.
  - by eexists _, _, _, _, _.
  - intros k. rewrite Hb2, Hb. lia.
  - intros k. rewrite Hs2, Hs. lia.
  - intros Hn. destruct r as [x|]; [|done]. destruct (Hr x eq_refl) as (_ & Hp & Ht).
    apply baseline_market_stats. apply (Hst _ x eq_refl); [done|]. cbn.
    rewrite Hs2, Hp, Hd by done. lia.
Qed.
End supply_change.
