(* ===== verification/RedemptionFacts.v ===== *)
(** * Redemptions: correctness

    The payout of a redemption, and what opening a redemption offer and creating,
    cancelling and fulfilling a request do: the lemmas that [RedemptionInvariant]
    builds on.  *)

From stdpp Require Import relations.
From S2P Require Import World MathUtils OfferPricing TokenUtils OfferHandlers MarketInfo Buffer Vaults Redemption TakeOffer Samples MarketFacts BufferFacts AccountFacts.
Open Scope Z_scope.

(** ** The payout *)

Lemma redemption_fees_Ok amount bps minimum r :
  0 <= amount <= u64.MAX -> 0 <= bps <= MAX_BASIS_POINTS -> 0 <= minimum ->
  redemption_fees amount bps minimum = Ok r ->
  exists fee, token_in_fee_amount r = Z.max fee minimum /\
    token_in_net_amount r = amount - Z.max fee minimum /\
    (fee - 1) * MAX_BASIS_POINTS < amount * bps <= fee * MAX_BASIS_POINTS /\
    0 <= token_in_net_amount r /\ 0 <= fee.
Proof.
  intros Ha Hb Hm H. unfold redemption_fees in H.
  destruct (calculate_fees_exact amount bps Ha Hb) as (fee & E & Hf & Hr). rewrite E in H.
  cbn in H. exists fee. destruct (Z.ltb_spec fee minimum).
  - inv_res. inv_checked. cbn. rewrite Z.max_r by lia. lia.
  - inv_res. cbn. rewrite Z.max_l by lia. lia.
Qed.

Lemma redemption_payout_Ok net price din dout r :
  0 <= din -> 0 <= dout -> redemption_payout net price din dout = Ok r ->
  r = net * price * 10 ^ dout / (10 ^ din * 10 ^ PRICE_DECIMALS) /\ 0 < r <= u64.MAX /\
  0 < 10 ^ din * 10 ^ PRICE_DECIMALS.
Proof.
  intros Hdi Hdo H. unfold redemption_payout, overflow, PRICE_DECIMALS in *. inv_res. inv_checked.
  split; [done|]. split; [lia|].
  apply Z.mul_pos_pos; apply Z.pow_pos_nonneg; lia.
Qed.

Lemma process_redemption_Ok o t amount mi mo bps minimum r :
  0 <= amount <= u64.MAX -> 0 <= bps <= MAX_BASIS_POINTS -> 0 <= minimum ->
  0 <= decimals mi -> 0 <= decimals mo ->
  process_redemption_core o t amount mi mo bps minimum = Ok r ->
  compute_offer_current_price o t = Ok (rpr_price r) /\
  rpr_token_in_net_amount r + rpr_token_in_fee_amount r = amount /\
  0 <= rpr_token_in_net_amount r /\ minimum <= rpr_token_in_fee_amount r /\
  amount * bps <= rpr_token_in_fee_amount r * MAX_BASIS_POINTS /\
  0 < rpr_token_out_amount r <= u64.MAX /\
  rpr_token_out_amount r * (10 ^ decimals mi * 10 ^ PRICE_DECIMALS)
    <= rpr_token_in_net_amount r * rpr_price r * 10 ^ decimals mo
    < (rpr_token_out_amount r + 1) * (10 ^ decimals mi * 10 ^ PRICE_DECIMALS).
Proof.
  intros Ha Hb Hm Hi Ho H. unfold process_redemption_core in H. inv_res. cbn.
  match goal with H : redemption_fees _ _ _ = Ok _ |- _ =>
    apply redemption_fees_Ok in H as (fee & -> & En & Hf & Hn & Hfe); [|done..] end.
  match goal with H : redemption_payout _ _ _ _ = Ok _ |- _ =>
    apply redemption_payout_Ok in H as (-> & Hr & Hd); [|done..] end.
  rewrite En in *. split; [done|]. split; [lia|]. split; [done|]. split; [lia|].
  split; [unfold MAX_BASIS_POINTS in *; lia|]. split; [done|].
  split; [by apply div_mul_le|by apply lt_div_mul].
Qed.

(** ** Open requests *)

(** What is still owed to requests of the redemption offer [k]. *)
Definition remaining (k : Pubkey) (r : RedemptionRequest.t) : Z :=
  if key_eqb (RedemptionRequest.offer r) k
  then RedemptionRequest.amount r - RedemptionRequest.fulfilled_amount r else 0.
Definition outstanding (k : Pubkey) (m : gmap Pubkey RedemptionRequest.t) : Z :=
  map_fold (fun _ r acc => remaining k r + acc) 0 m.

Lemma outstanding_insert k m rk r :
  m !! rk = None -> outstanding k (<[rk := r]> m) = remaining k r + outstanding k m.
Proof. intros H. apply (map_fold_insert_L (fun _ r acc => remaining k r + acc)); [intros; lia|done]. Qed.

Lemma outstanding_delete k m rk r :
  m !! rk = Some r -> outstanding k (delete rk m) = outstanding k m - remaining k r.
Proof.
  intros H. rewrite <-(insert_delete_id m rk r H) at 2.
  rewrite outstanding_insert by apply lookup_delete_eq. lia.
Qed.

Lemma outstanding_replace k m rk r r' :
  m !! rk = Some r ->
  outstanding k (<[rk := r']> m) = outstanding k m - remaining k r + remaining k r'.
Proof.
  intros H. rewrite <-insert_delete_eq, outstanding_insert, (outstanding_delete _ _ _ _ H)
    by apply lookup_delete_eq. lia.
Qed.

Lemma outstanding_none k m :
  (forall rk r, m !! rk = Some r -> RedemptionRequest.offer r <> k) -> outstanding k m = 0.
Proof.
  induction m as [|rk r m Hn IH] using map_ind; intros H; [done|].
  rewrite outstanding_insert by done. unfold remaining.
  rewrite (proj2 (key_eqb_neq _ _)), IH; [done| |].
  - intros j s Hj. apply (H j). rewrite lookup_insert_ne; [done|]. congruence.
  - apply (H rk). apply lookup_insert_eq.
Qed.

(** ** What the three instructions do *)

Section requests.
Context {R : Runtime} {L : Type} {TL : TokenLedger L} {TLL : TokenLedgerLaws L}.
Implicit Types w : World L.

Lemma balance_u64 (l : L) k : 0 <= balance l k <= u64.MAX.
Proof using All.
  unfold balance. destruct (ledger_account l k) eqn:E; [by eapply ledger_amount_u64|zlia].
Qed.

Lemma redemption_offer_account_Ok k o w w' :
  redemption_offer_account k w = Ok (o, w') ->
  w' = w /\ redemption_offers w !! k = Some o /\
  k = redemption_offer_pda (RedemptionOffer.token_in_mint o) (RedemptionOffer.token_out_mint o).
Proof. unfold redemption_offer_account. intros H. inv_m. inv_accounts. auto. Qed.

Lemma init_account_Ok {A} (f : World L -> gmap Pubkey A) k s payer u w w' :
  init_account f k s payer w = Ok (u, w') -> w' = w /\ f w !! k = None /\ k = pda s.
Proof.
  unfold init_account. intros H. inv_m. inv_accounts.
  apply when_Ok_inv in H as [[_ H] | [H ->]]; [by inv_m|]. split; [done|]. split; [|done].
  apply orb_false_iff in H as [H _]. apply bool_decide_eq_false in H.
  destruct (f w !! k) eqn:E; [|done]. destruct H. by eexists.
Qed.

(** What [make_redemption_offer] does: the boss opens, once per pair, the way back
    of an offer that pays out the redeemed token, which is the program's ONyc and
    a mint of the SPL token program; the new offer is enabled, counts no
    redemptions, and charges the two given fees. *)
Record redemption_offer_made ctx fee sell_fee w w' : Prop := {
  made_boss : mro_boss ctx = State.boss (state w);
  made_offer : is_Some (offers w !! mro_offer ctx) /\
    mro_offer ctx = offer_pda (mro_token_out_mint ctx) (mro_token_in_mint ctx);
  made_onyc : mro_token_in_mint ctx = State.onyc_mint (state w) /\
    mro_token_in_program ctx = spl_token_id /\
    exists m, ledger_mint (ledger w) (mro_token_in_mint ctx) = Some m /\
      Mint.token_program m = spl_token_id;
  made_fees : fee <= MAX_ALLOWED_FEE_BPS /\ sell_fee <= MAX_ALLOWED_FEE_BPS;
  made_key : mro_redemption_offer ctx
    = redemption_offer_pda (mro_token_in_mint ctx) (mro_token_out_mint ctx);
  made_fresh : redemption_offers w !! mro_redemption_offer ctx = None;
  made_vaults :
    mro_vault_token_in_account ctx = associated_token_address redemption_vault_authority_key
      (mro_token_in_mint ctx) (mro_token_in_program ctx) /\
    mro_vault_token_out_account ctx = associated_token_address redemption_vault_authority_key
      (mro_token_out_mint ctx) (mro_token_out_program ctx);
  made_world : exists w1 es, quiet w w1 /\ w' = set_events es
    (set_redemption_offers (<[mro_redemption_offer ctx :=
        RedemptionOffer.mk (mro_offer ctx) (mro_token_in_mint ctx) (mro_token_out_mint ctx) 0 0
          fee 0
          (pda_bump (redemption_offer_seeds (mro_token_in_mint ctx) (mro_token_out_mint ctx)))
          0 0 sell_fee]> (redemption_offers w)) w1)
}.

Lemma make_redemption_offer_Ok ctx fee sell_fee u w w' :
  make_redemption_offer ctx fee sell_fee w = Ok (u, w') ->
  redemption_offer_made ctx fee sell_fee w w'.
Proof using All.
  unfold make_redemption_offer, MakeRedemptionOffer_accounts, has_one_boss, spl_token_mint,
    store_redemption_offer. intros H. inv_m. inv_accounts.
  repeat match goal with
  | H : init_if_needed_ata _ _ _ _ _ = Ok _ |- _ => apply init_if_needed_ata_Ok in H as (? & ?)
  | H : init_account _ _ _ _ _ = Ok _ |- _ => apply init_account_Ok in H as (-> & ? & ?)
  end.
  match goal with A : quiet w ?v, B : quiet ?v ?v' |- _ =>
    pose proof (quiet_trans _ _ _ A B) as Hq end.
  pose proof (quiet_same _ _ Hq) as (_ & Est & _ & Ero & _).
  rewrite Est, Ero in *. split; eauto 6.
  - do 2 (split; [done|]). eexists. split; [|eassumption]. by etrans; [|eassumption]; f_equal.
  - by split; apply Z.leb_le.
Qed.

(** The request [create_redemption_request] stores. *)
Definition new_request (ctx : CreateRedemptionRequest) (id amount : Z) : RedemptionRequest.t :=
  RedemptionRequest.mk (crr_redemption_offer ctx) id (crr_redeemer ctx) amount
    (pda_bump (redemption_request_seeds (crr_redemption_offer ctx) id)) 0.

(** What [create_redemption_request] does to redemption offer [ro]: the amount
    goes into the redemption vault's account, the request is recorded, and the
    offer counts it. *)
Record request_created ctx amount (ro : RedemptionOffer.t) w w' : Prop := {
  created_offer : redemption_offers w !! crr_redemption_offer ctx = Some ro;
  created_live : State.is_killed (state w) = false;
  created_enabled : RedemptionOffer.is_disabled ro = false /\
    exists o, offers w !! RedemptionOffer.offer ro = Some o /\ Offer.is_disabled o = false;
  created_amount : 0 < amount <= balance (ledger w) (crr_redeemer_token_account ctx);
  created_key : crr_redemption_request ctx
    = redemption_request_pda (crr_redemption_offer ctx) (RedemptionOffer.request_counter ro);
  created_fresh : redemption_requests w !! crr_redemption_request ctx = None;
  created_bounds : RedemptionOffer.request_counter ro + 1 <= u64.MAX /\
    RedemptionOffer.requested_redemptions ro + amount <= u128.MAX;
  created_world : exists l es, w' = set_events es
    (set_redemption_offers (<[crr_redemption_offer ctx :=
        RedemptionOffer.with_request_counter (RedemptionOffer.request_counter ro + 1)
          (RedemptionOffer.with_requested_redemptions
             (RedemptionOffer.requested_redemptions ro + amount) ro)]> (redemption_offers w))
    (set_redemption_requests (<[crr_redemption_request ctx :=
        new_request ctx (RedemptionOffer.request_counter ro) amount]> (redemption_requests w))
    (set_ledger l w)));
  created_accounts :
    crr_redeemer_token_account ctx = associated_token_address (crr_redeemer ctx)
      (RedemptionOffer.token_in_mint ro) spl_token_id /\
    crr_vault_token_account ctx = associated_token_address redemption_vault_authority_key
      (RedemptionOffer.token_in_mint ro) spl_token_id;
  created_supply k : supply_of (ledger w') k = supply_of (ledger w) k;
  created_balance k : balance (ledger w') k = balance (ledger w) k
    - delta (key_eqb k (crr_redeemer_token_account ctx)) amount
    + delta (key_eqb k (crr_vault_token_account ctx)) amount
}.

Lemma create_request_Ok ctx amount u w w' :
  create_redemption_request ctx amount w = Ok (u, w') ->
  exists ro, request_created ctx amount ro w w'.
Proof using All.
  unfold create_redemption_request, CreateRedemptionRequest_accounts, not_killed, spl_token_mint,
    store_redemption_request, store_redemption_offer, require_keys_eq,
    RedemptionOffer.require_enabled, Offer.require_enabled.
  intros H. inv_m. inv_accounts. inv_res.
  repeat match goal with
  | H : redemption_offer_account _ _ = Ok _ |- _ =>
      apply redemption_offer_account_Ok in H as (-> & ? & ?)
  | H : init_account _ _ _ _ _ = Ok _ |- _ => apply init_account_Ok in H as (-> & ? & ?)
  | H : transfer_tokens _ _ _ _ _ _ _ = Ok _ |- _ =>
      apply transfer_tokens_moves in H as [[Hw Hb Hs] Hle]
  end. inv_accounts. inv_checked. destruct Hw as (l & es & ->). cbn in *. subst.
  match goal with H : redemption_offers w !! _ = Some ?o |- _ => exists o end.
  repeat match goal with H : crr_token_program _ = _ |- _ => rewrite H in * end.
  repeat match goal with H : crr_token_in_mint _ = _ |- _ => rewrite H in * end.
  split; cbn; eauto; try lia; try (intros k; rewrite ?Hb, ?Hs; lia).
  split; [done|]. eexists. split; [|done].
  match goal with H : RedemptionOffer.offer _ = _ |- _ => by rewrite H end.
Qed.

(** What [cancel_redemption_request] does to request [rq]: whoever of redeemer,
    worker and boss signs, the unfulfilled rest goes back to the redeemer's
    account, the offer no longer counts it, and the request is gone. *)
Record request_cancelled ctx (ro : RedemptionOffer.t) (rq : RedemptionRequest.t) w w' : Prop := {
  cancelled_offer : redemption_offers w !! cxr_redemption_offer ctx = Some ro;
  cancelled_request : redemption_requests w !! cxr_redemption_request ctx = Some rq;
  cancelled_of : RedemptionRequest.offer rq = cxr_redemption_offer ctx;
  cancelled_live : State.is_killed (state w) = false;
  cancelled_signer : cxr_signer ctx = State.boss (state w) \/
    cxr_signer ctx = State.worker (state w) \/ cxr_signer ctx = RedemptionRequest.redeemer rq;
  cancelled_bounds : RedemptionRequest.fulfilled_amount rq <= RedemptionRequest.amount rq /\
    RedemptionRequest.amount rq - RedemptionRequest.fulfilled_amount rq
      <= RedemptionOffer.requested_redemptions ro;
  cancelled_world : exists l es, w' = set_events es
    (set_redemption_offers (<[cxr_redemption_offer ctx :=
        RedemptionOffer.with_requested_redemptions
          (RedemptionOffer.requested_redemptions ro
           - (RedemptionRequest.amount rq - RedemptionRequest.fulfilled_amount rq)) ro]>
        (redemption_offers w))
    (set_redemption_requests (delete (cxr_redemption_request ctx) (redemption_requests w))
    (set_ledger l w)));
  cancelled_accounts :
    cxr_redeemer_token_account ctx = associated_token_address (RedemptionRequest.redeemer rq)
      (RedemptionOffer.token_in_mint ro) (cxr_token_program ctx) /\
    cxr_vault_token_account ctx = associated_token_address redemption_vault_authority_key
      (RedemptionOffer.token_in_mint ro) (cxr_token_program ctx);
  cancelled_supply k : supply_of (ledger w') k = supply_of (ledger w) k;
  cancelled_balance k :
    let returned := RedemptionRequest.amount rq - RedemptionRequest.fulfilled_amount rq in
    balance (ledger w') k = balance (ledger w) k
      - delta (key_eqb k (cxr_vault_token_account ctx)) returned
      + delta (key_eqb k (cxr_redeemer_token_account ctx)) returned
}.

Lemma get_or_create_ata_ledger k auth m tp e a w w' :
  get_or_create_associated_token_account k auth m tp e w = Ok (a, w') ->
  exists l, w' = set_ledger l w.
Proof.
  unfold get_or_create_associated_token_account, validate_associated_token_address. intros H.
  inv_m. match goal with H : load_token_account _ _ = Ok _ |- _ =>
    apply load_token_account_Ok_inv in H as (_ & _ & ->) end.
  match goal with H : when _ _ _ = Ok _ |- _ => apply when_Ok_inv in H as [[_ H] | [_ ->]] end.
  - inv_m. by eexists.
  - exists (ledger w). by destruct w.
Qed.

Lemma cancel_request_Ok ctx u w w' :
  cancel_redemption_request ctx w = Ok (u, w') ->
  exists ro rq, request_cancelled ctx ro rq w w'.
Proof using All.
  unfold cancel_redemption_request, CancelRedemptionRequest_accounts, not_killed,
    store_redemption_offer, close_redemption_request.
  intros H. inv_m. inv_accounts. inv_res.
  repeat match goal with
  | H : redemption_offer_account _ _ = Ok _ |- _ =>
      apply redemption_offer_account_Ok in H as (-> & ? & ?)
  | H : transfer_tokens _ _ _ _ _ _ _ = Ok _ |- _ =>
      apply transfer_tokens_moves in H as [[Hw Hb Hs] Hle]
  | H : get_or_create_associated_token_account _ _ _ _ _ _ = Ok _ |- _ =>
      pose proof (get_or_create_ata_ledger _ _ _ _ _ _ _ _ H) as [l1 El1];
      apply get_or_create_ata_Ok in H as (Hq0 & Ha0 & Hk0 & _)
  end.
  inv_checked. destruct Hw as (l & es & ->). cbn in *. subst. cbn in *.
  match goal with H : redemption_offers w !! _ = Some ?o |- _ => exists o end.
  match goal with H : redemption_requests w !! _ = Some ?o |- _ => exists o end.
  repeat match goal with H : cxr_token_in_mint _ = _ |- _ => rewrite H in * end.
  repeat match goal with H : cxr_redeemer _ = _ |- _ => rewrite H in * end.
  split; cbn; eauto; try lia.
  - rewrite !orb_true_iff, !key_eqb_eq in *. tauto.
  - intros k. rewrite Hs, (quiet_supply _ _ _ Hq0). lia.
  - intros k. rewrite Hb, (quiet_balance _ _ _ Hq0), Hk0. lia.
Qed.

(** The exchange of a redemption: what leaves the vault's two accounts, and what
    is burned. *)
Section exchange.
Import ExecuteRedemptionOpsParams.
Implicit Types p : ExecuteRedemptionOpsParams.t.

Definition burns_in p : bool := program_controls_mint (token_in_mint p) (mint_authority_pda p).

Definition redemption_balance_change p (k : Pubkey) : Z :=
  - delta (key_eqb k (vault_token_in_account p)) (token_in_net_amount p + token_in_fee_amount p)
  + delta (key_eqb k (fee_destination_token_in_account p)) (token_in_fee_amount p)
  + (if burns_in p then 0
     else delta (key_eqb k (token_in_destination_account p)) (token_in_net_amount p))
  - delta (key_eqb k (vault_token_out_account p)) (token_out_amount p)
  + delta (key_eqb k (user_token_out_account p)) (token_out_amount p).

Definition redemption_supply_change p (k : Pubkey) : Z :=
  if burns_in p
  then - delta (key_eqb k (mint_key (token_in_mint p))) (token_in_net_amount p) else 0.

Lemma execute_redemption_moves p u w w' :
  0 <= token_in_fee_amount p -> execute_redemption_operations p w = Ok (u, w') ->
  moves w w' (redemption_balance_change p) (redemption_supply_change p) /\
  has_transfer_fee (token_in_mint p) = false /\ has_transfer_fee (token_out_mint p) = false.
Proof using All.
  intros Hf H. unfold execute_redemption_operations, redemption_balance_change,
    redemption_supply_change in *. fold (burns_in p) in H. inv_m. inv_accounts.
  assert (moves w w2 (fun k => - delta (key_eqb k (vault_token_in_account p)) (token_in_net_amount p)
      + (if burns_in p then 0
         else delta (key_eqb k (token_in_destination_account p)) (token_in_net_amount p)))
    (redemption_supply_change p)) as H1.
  { unfold redemption_supply_change. destruct (burns_in p).
    - match goal with H : burn_tokens _ _ _ _ _ _ = Ok _ |- _ => apply burn_tokens_moves in H end.
      eapply moves_ext; [eassumption|intros k; cbn; lia|done].
    - match goal with H : transfer_tokens _ _ _ _ _ _ w = Ok _ |- _ =>
        by apply transfer_tokens_moves in H as [H _] end. }
  match goal with H : when _ _ _ = Ok _ |- _ =>
    apply transfer_when_moves in H; [|done]; rename H into H2' end.
  match goal with H : transfer_tokens _ _ _ _ _ _ _ = Ok _ |- _ =>
    apply transfer_tokens_moves in H as [H3 _] end.
  split; [|done].
  eapply moves_ext; [exact (moves_trans _ _ _ _ _ _ _ (moves_trans _ _ _ _ _ _ _ H1 H2') H3)| |];
    intros k; cbn; unfold redemption_supply_change; [|lia].
  rewrite <-(delta_plus (key_eqb k (vault_token_in_account p))). lia.
Qed.
End exchange.

(** ** Fulfilling *)

Definition fulfill_params ctx mi mo (res : RedemptionProcessResult)
  : ExecuteRedemptionOpsParams.t :=
  ExecuteRedemptionOpsParams.mk (frr_token_in_program ctx) (frr_token_out_program ctx) mi
    (rpr_token_in_net_amount res) (rpr_token_in_fee_amount res) (frr_vault_token_in_account ctx)
    (frr_offer_proceeds_token_in_account ctx) (frr_redemption_fee_token_in_account ctx)
    redemption_vault_authority_key mo (rpr_token_out_amount res) (frr_vault_token_out_account ctx)
    (frr_user_token_out_account ctx) mint_authority_key.

(** The requests after [amount] of [rq] is fulfilled. *)
Definition fulfilled_requests ctx amount rq (m : gmap Pubkey RedemptionRequest.t)
  : gmap Pubkey RedemptionRequest.t :=
  let total := RedemptionRequest.fulfilled_amount rq + amount in
  if total =? RedemptionRequest.amount rq then delete (frr_redemption_request ctx) m
  else <[frr_redemption_request ctx := RedemptionRequest.with_fulfilled_amount total rq]> m.

(** Whether fulfilling burns ONyc, so that accrual and market stats are due. *)
Definition burns_onyc w (mi : MintAccount) : bool :=
  key_eqb (mint_key mi) (State.onyc_mint (state w))
  && program_controls_mint mi mint_authority_key.

(** What fulfilling [amount] of request [rq] does. *)
Record fulfilment ctx amount mi mo (o : Offer.t) ro rq res r w w' : Prop := {
  ful_enabled : Offer.is_disabled o = false;
  ful_amount : 0 < amount <= RedemptionRequest.amount rq - RedemptionRequest.fulfilled_amount rq;
  ful_requested : amount <= RedemptionOffer.requested_redemptions ro /\
    RedemptionOffer.executed_redemptions ro + amount <= u128.MAX;
  ful_payout : process_redemption_core o (timestamp_u64 (clock w)) amount mi mo
    (RedemptionOffer.fee_basis_points ro) 0 = Ok res;
  ful_offers : redemption_offers w' = <[frr_redemption_offer ctx :=
      RedemptionOffer.with_requested_redemptions (RedemptionOffer.requested_redemptions ro - amount)
        (RedemptionOffer.with_executed_redemptions
           (RedemptionOffer.executed_redemptions ro + amount) ro)]> (redemption_offers w);
  ful_requests : redemption_requests w' = fulfilled_requests ctx amount rq (redemption_requests w);
  ful_same : clock w' = clock w /\ state w' = state w /\ offers w' = offers w /\
    prop_amm_pairs w' = prop_amm_pairs w;
  ful_balance k : balance (ledger w') k = balance (ledger w) k
    + accrual_balance (frr_buffer_accounts ctx) r k
    + redemption_balance_change (fulfill_params ctx mi mo res) k;
  ful_supply k : supply_of (ledger w') k = supply_of (ledger w) k
    + delta (key_eqb k (mint_key mi)) (accrual_minted r)
    + redemption_supply_change (fulfill_params ctx mi mo res) k;
  ful_accrual : (r <> None <-> burns_onyc w mi = true /\ exists b, buffer_state w = Loaded b) /\
    0 <= accrual_minted r /\ forall k, 0 <= accrual_balance (frr_buffer_accounts ctx) r k;
  ful_accrued x : r = Some x -> exists mof,
    offers w !! State.main_offer (state w) = Some mof /\
    accrued_now mof (mint_key mi) (frr_token_in_program ctx) (frr_buffer_accounts ctx) x w;
  ful_baseline : burns_onyc w mi = true -> (exists b, buffer_state w = Loaded b) ->
    baseline_current (mint_key mi) w';
  ful_stats : burns_onyc w mi = true -> exists mof,
    offers w !! State.main_offer (state w) = Some mof /\ stats_current mof (mint_key mi) w'
}.

(** What [fulfill_redemption_request] checks first. *)
Record fulfilment_checked ctx mi mo (o : Offer.t) ro rq w : Prop := {
  ful_live : State.is_killed (state w) = false;
  ful_worker : frr_worker ctx = State.worker (state w);
  ful_offer : offers w !! frr_offer ctx = Some o;
  ful_redemption_offer : redemption_offers w !! frr_redemption_offer ctx = Some ro /\
    RedemptionOffer.is_disabled ro = false /\ RedemptionOffer.offer ro = frr_offer ctx;
  ful_request : redemption_requests w !! frr_redemption_request ctx = Some rq /\
    RedemptionRequest.offer rq = frr_redemption_offer ctx;
  ful_mints : fresh w mi /\ mint_key mi = RedemptionOffer.token_in_mint ro /\
    fresh w mo /\ mint_key mo = RedemptionOffer.token_out_mint ro;
  ful_to_redeemer : frr_user_token_out_account ctx
    = associated_token_address (RedemptionRequest.redeemer rq) (mint_key mo)
        (frr_token_out_program ctx);
  ful_from_vault :
    frr_vault_token_in_account ctx = associated_token_address redemption_vault_authority_key
      (mint_key mi) (frr_token_in_program ctx) /\
    frr_vault_token_out_account ctx = associated_token_address redemption_vault_authority_key
      (mint_key mo) (frr_token_out_program ctx);
  ful_to_vaults :
    frr_offer_proceeds_token_in_account ctx
      = associated_token_address (vault_key ConfigurableVaultKind.OfferProceeds) (mint_key mi)
          (frr_token_in_program ctx) /\
    frr_redemption_fee_token_in_account ctx
      = associated_token_address (vault_key ConfigurableVaultKind.RedemptionFee) (mint_key mi)
          (frr_token_in_program ctx)
}.

Lemma quiet_fulfilment ctx amount mi mo o ro rq res r w w1 w' :
  quiet w w1 -> fulfilment ctx amount mi mo o ro rq res r w1 w' ->
  fulfilment ctx amount mi mo o ro rq res r w w'.
Proof.
  intros Hq []. pose proof (quiet_same _ _ Hq) as (E1 & E2 & E3 & E4 & E5 & E6 & E7 & _).
  unfold burns_onyc in *. rewrite E1, E2, E3, E4, E5, E6, E7 in *. split; auto.
  - intros k. by rewrite <-(quiet_balance _ _ k Hq).
  - intros k. by rewrite <-(quiet_supply _ _ k Hq).
  - intros x Hx. destruct (ful_accrued0 x Hx) as (mof & ? & ?). exists mof.
    split; [done|]. by eapply quiet_accrued.
Qed.

Lemma quiet_typed w w' : quiet w w' -> typed w -> typed w'.
Proof.
  intros Hq []. pose proof (quiet_same _ _ Hq) as (E1 & E2 & E3 & E4 & E5 & E6 & E7 & _).
  split; rewrite ?E3, ?E4, ?E6, ?E7; auto.
Qed.

Lemma main_offer_loaded (c : bool) k st mo w w' :
  (if c then o ← load_main_offer k st; mret (Some o) else mret None) w = Ok (mo, w') ->
  w' = w /\ (forall o, mo = Some o -> c = true /\ offers w !! State.main_offer st = Some o) /\
  (c = true -> mo <> None).
Proof.
  intros H. destruct c; inv_m; [|done].
  match goal with H : load_main_offer _ _ _ = Ok _ |- _ =>
    apply load_main_offer_Ok in H as (-> & -> & ?) end.
  split; [done|]. split; [|done]. by intros o [= <-].
Qed.

Lemma execute_fulfill_Ok ctx o ro rq mi mo amount u w w' :
  typed w -> fresh w mi -> fresh w mo ->
  0 <= RedemptionOffer.fee_basis_points ro <= MAX_BASIS_POINTS ->
  0 <= RedemptionRequest.fulfilled_amount rq -> RedemptionRequest.amount rq <= u64.MAX ->
  execute_fulfill_redemption_request ctx (state w) o ro rq mi mo amount w = Ok (u, w') ->
  exists res r, fulfilment ctx amount mi mo o ro rq res r w w'.
Proof using All.
  intros Hty Hmi Hmo Hbps Hful Hamt H. unfold execute_fulfill_redemption_request, record_fulfillment,
    Offer.require_enabled, Clock_get in H. cbv zeta in H. fold (burns_onyc w mi) in H.
  inv_m. inv_res. inv_accounts. inv_checked.
  match goal with H : _ = Ok (?m, _) |- _ =>
    apply main_offer_loaded in H as (-> & Hmain & Hmain') end.
  match goal with H : process_redemption_core _ _ _ _ _ _ _ = Ok ?r |- _ =>
    rename H into Hpay, r into res end.
  match goal with H : accrue_before_burn _ _ _ _ _ _ _ = Ok (?r, _) |- _ =>
    eapply accrue_before_burn_Ok in H as (Hstep & Hc & Hacc); [|done| |done]; [rename r into r0|] end.
  2:{ intros o' Ho'. apply Hmain in Ho' as [_ Ho']. by eapply typed_offer in Ho' as [Ho' _]. }
  pose proof Hpay as Hfee. apply process_redemption_Ok in Hfee as (_ & Hsum & Hnet & Hfee & _);
    [|lia|done|lia|by eapply ledger_decimals_u8..].
  match goal with H : execute_redemption_operations _ _ = Ok _ |- _ =>
    apply execute_redemption_moves in H as [Hmv _]; [|done] end.
  match goal with H : store_post_burn_supply _ _ _ = Ok _ |- _ =>
    apply store_post_burn_Ok in H; rename H into Hst end.
  match goal with H : when _ _ _ = Ok _ |- _ => apply when_refreshed in H; rename H into Href end.
  fold (fulfill_params ctx mi mo res) in Hmv. assert (Hpr : prop_amm_pairs w8 = prop_amm_pairs w).
  { destruct Hmv as [(? & ? & ->) _ _], Hstep as [(? & ? & ? & -> & _) _ _ _ _ _]. done. }
  apply moves_pair in Hmv.
  destruct (bracket _ _ _ _ _ _ _ _ _ _ _ _ _ _ Hstep Hmv
    ltac:(intros Hr; apply Hc, andb_true_iff in Hr as [_ Hr]; unfold redemption_supply_change,
          burns_in; cbn; by rewrite Hr, key_eqb_refl) Hst Href)
    as [[(l & es & ps & bs & ms & ->) Hb Hs Hmin Hex Hbl Hsc] Hpairs].
  exists res, r0. unfold store_redemption_offer in *. inv_m. cbn in *.
  assert (exists ros rqs es', w' = set_events es' (set_redemption_requests rqs
    (set_redemption_offers ros (set_market_stats ms (set_buffer_state bs (set_prop_amm_pairs ps
      (set_events es (set_ledger l w))))))) /\ rqs = fulfilled_requests ctx amount rq
        (redemption_requests w) /\ ros = <[frr_redemption_offer ctx :=
      RedemptionOffer.with_requested_redemptions (RedemptionOffer.requested_redemptions ro - amount)
        (RedemptionOffer.with_executed_redemptions
           (RedemptionOffer.executed_redemptions ro + amount) ro)]> (redemption_offers w))
    as (ros & rqs & es' & -> & -> & ->).
  { unfold fulfilled_requests, close_redemption_request, store_redemption_request in *.
    destruct (_ =? _); inv_m; cbn; by eexists _, _, _. }
  split; cbn; auto; try lia.
  - repeat split. congruence.
  - split; [|done]. split; [|by intros [? ?]; apply Hacc]. intros Hr. split; [by apply Hc|].
    destruct r0 as [x|]; [|done]. by destruct (as_result _ _ _ _ _ _ _ Hstep x eq_refl).
  - intros y Hy. destruct (Hex y Hy) as (o1 & Ho1 & ?). apply Hmain in Ho1 as [_ Ho1]. eauto.
  - intros Hc1 Hc2. destruct Hbl as [(b & ? & ? & ?)]; [by apply Hacc|]. split. by exists b.
  - intros Hc1. destruct (Hsc Hc1) as (o1 & Ho1 & [(m1 & v & ?)]). apply Hmain in Ho1 as [_ Ho1].
    exists o1. split; [done|]. split. by exists m1, v.
Qed.

Lemma load_redemption_offer_Ok ok rok mi mo ro w w' :
  load_redemption_offer ok rok mi mo w = Ok (ro, w') ->
  w' = w /\ redemption_offers w !! rok = Some ro /\ RedemptionOffer.offer ro = ok /\
  mint_key mi = RedemptionOffer.token_in_mint ro /\
  mint_key mo = RedemptionOffer.token_out_mint ro /\ RedemptionOffer.is_disabled ro = false.
Proof.
  unfold load_redemption_offer, require_keys_eq, RedemptionOffer.require_enabled. intros H.
  inv_m. inv_res. inv_accounts. auto 10.
Qed.

Lemma fulfill_request_Ok ctx amount u w w' :
  typed w ->
  (forall k rq, redemption_requests w !! k = Some rq ->
     0 <= RedemptionRequest.fulfilled_amount rq /\ RedemptionRequest.amount rq <= u64.MAX) ->
  fulfill_redemption_request ctx amount w = Ok (u, w') ->
  exists mi mo o ro rq res r, fulfilment_checked ctx mi mo o ro rq w /\
    fulfilment ctx amount mi mo o ro rq res r w w'.
Proof using All.
  intros Hty Hrq. unfold fulfill_redemption_request, not_killed, validate_associated_token_address,
    require_keys_eq. intros H. inv_m. inv_accounts. inv_res.
  match goal with H : load_redemption_offer _ _ _ _ _ = Ok _ |- _ =>
    apply load_redemption_offer_Ok in H as (-> & Hro & Hroo & Hmi & Hmo & Hen) end.
  match goal with H : get_or_create_associated_token_account _ _ _ _ _ _ = Ok _ |- _ =>
    apply get_or_create_ata_Ok in H as (Hq1 & Hout & _) end.
  repeat match goal with H : get_or_create_configurable_vault_token_account _ _ _ _ _ _ _ = Ok _ |- _ =>
    apply get_or_create_vault_Ok in H as (? & ? & ? & _) end.
  repeat match goal with H : key_eqb _ _ = true |- _ => apply key_eqb_eq in H end.
  match goal with A : quiet w18 _, B : quiet _ w21 |- _ =>
    pose proof (quiet_trans _ _ _ Hq1 A) as Hq2; pose proof (quiet_trans _ _ _ Hq2 B) as Hq3 end.
  pose proof (quiet_same _ _ Hq2) as (_ & _ & _ & Ero & _). rewrite Ero in Hro.
  pose proof (quiet_same _ _ Hq3) as (_ & Est & _).
  match goal with H : execute_fulfill_redemption_request _ _ _ _ _ _ _ _ _ = Ok _ |- _ =>
    rewrite <-Est in H; apply execute_fulfill_Ok in H as (res & r & H) end.
  - do 7 eexists. split; [|by eapply quiet_fulfilment].
    split; eauto 6; first [congruence | split; congruence].
  - by eapply quiet_typed.
  - by eapply quiet_fresh.
  - by eapply quiet_fresh.
  - by eapply typed_redemption_offer in Hro as [Hro _].
  - by eapply Hrq.
  - by eapply Hrq.
Qed.
End requests.
