(* ===== verification/RedemptionInvariant.v ===== *)
(** * The redemption queue

    In every reachable world the counters of a redemption offer agree with its
    open requests, and every open request can still be paid out of them.  *)

From stdpp Require Import relations.
From S2P Require Import World OfferPricing TokenUtils OfferHandlers MarketInfo Buffer Vaults Redemption TakeOffer Program Frames Samples MarketFacts BufferFacts AccountFacts RedemptionFacts.
Open Scope Z_scope.

Section invariant.
Context {R : Runtime} {L : Type} {TL : TokenLedger L} {TLL : TokenLedgerLaws L}.
Implicit Types w : World L.

(** An open request: it is at its own address, below its offer's counter, and
    something of it is left. *)
Definition request_ok w (rk : Pubkey) (rq : RedemptionRequest.t) : Prop :=
  rk = redemption_request_pda (RedemptionRequest.offer rq) (RedemptionRequest.request_id rq) /\
  (exists ro, redemption_offers w !! RedemptionRequest.offer rq = Some ro /\
     RedemptionRequest.request_id rq < RedemptionOffer.request_counter ro) /\
  0 <= RedemptionRequest.fulfilled_amount rq < RedemptionRequest.amount rq /\
  RedemptionRequest.amount rq <= u64.MAX.

(** A redemption offer: it counts exactly what its open requests still ask for. *)
Definition redemption_offer_ok w (k : Pubkey) (ro : RedemptionOffer.t) : Prop :=
  k = redemption_offer_pda (RedemptionOffer.token_in_mint ro) (RedemptionOffer.token_out_mint ro) /\
  RedemptionOffer.requested_redemptions ro = outstanding k (redemption_requests w) /\
  RedemptionOffer.requested_redemptions ro <= u128.MAX.

Record redemptions_ok w : Prop := {
  ok_requests rk rq : redemption_requests w !! rk = Some rq -> request_ok w rk rq;
  ok_offers k ro : redemption_offers w !! k = Some ro -> redemption_offer_ok w k ro
}.

Lemma redemptions_ok_same w w' :
  same redemption_maps w w' -> redemptions_ok w -> redemptions_ok w'.
Proof.
  unfold same, redemption_maps. intros [= Eo Er] [Hr Ho].
  split; unfold request_ok, redemption_offer_ok; rewrite ?Eo, ?Er; [apply Hr|apply Ho].
Qed.

(** What fulfilling does to the two maps. *)
Definition fulfilled_maps ctx amount ro rq w w' : Prop :=
  0 < amount <= RedemptionRequest.amount rq - RedemptionRequest.fulfilled_amount rq /\
  redemption_offers w' = <[frr_redemption_offer ctx :=
    RedemptionOffer.with_requested_redemptions (RedemptionOffer.requested_redemptions ro - amount)
      (RedemptionOffer.with_executed_redemptions
         (RedemptionOffer.executed_redemptions ro + amount) ro)]> (redemption_offers w) /\
  redemption_requests w' = fulfilled_requests ctx amount rq (redemption_requests w).

Lemma execute_fulfill_maps ctx st o ro rq mi mo amount u w w' :
  execute_fulfill_redemption_request ctx st o ro rq mi mo amount w = Ok (u, w') ->
  fulfilled_maps ctx amount ro rq w w'.
Proof.
  unfold execute_fulfill_redemption_request, record_fulfillment, Offer.require_enabled, Clock_get. cbv zeta.
  intros H. inv_m. inv_res. inv_checked. unfold store_redemption_offer in *.
  repeat match goal with
  | H : accrue_before_burn _ _ _ _ _ _ _ = Ok _ |- _ => frame_call (@redemption_maps L) H; clear H
  | H : execute_redemption_operations _ _ = Ok _ |- _ =>
      frame_call (@redemption_maps L) H; clear H
  | H : store_post_burn_supply _ _ _ = Ok _ |- _ => frame_call (@redemption_maps L) H; clear H
  | H : when _ _ _ = Ok _ |- _ => frame_call (@redemption_maps L) H; clear H
  | H : _ = Ok (?mo, _) |- _ => apply main_offer_loaded in H as (-> & _)
  end.
  assert (redemption_maps w10 = redemption_maps w) as [= Eo Er] by congruence.
  split; [lia|]. unfold fulfilled_requests, close_redemption_request, store_redemption_request in *.
  destruct (_ =? _); inv_m; cbn; by rewrite Eo, Er.
Qed.

Lemma fulfill_maps ctx amount u w w' :
  fulfill_redemption_request ctx amount w = Ok (u, w') ->
  exists ro rq, redemption_offers w !! frr_redemption_offer ctx = Some ro /\
    redemption_requests w !! frr_redemption_request ctx = Some rq /\
    RedemptionRequest.offer rq = frr_redemption_offer ctx /\ fulfilled_maps ctx amount ro rq w w'.
Proof using All.
  unfold fulfill_redemption_request, not_killed, validate_associated_token_address,
    require_keys_eq. intros H. inv_m. inv_accounts. inv_res.
  match goal with H : load_redemption_offer _ _ _ _ _ = Ok _ |- _ =>
    apply load_redemption_offer_Ok in H as (-> & Hro & _) end.
  repeat match goal with
  | H : get_or_create_associated_token_account _ _ _ _ _ _ = Ok _ |- _ =>
      frame_call (@redemption_maps L) H; clear H
  | H : get_or_create_configurable_vault_token_account _ _ _ _ _ _ _ = Ok _ |- _ =>
      frame_call (@redemption_maps L) H; clear H
  end.
  match goal with H : execute_fulfill_redemption_request _ _ _ _ _ _ _ _ ?v = Ok _ |- _ =>
    apply execute_fulfill_maps in H as (Ha & Eo & Er); assert (redemption_maps v = redemption_maps w)
      as [= Eo' Er'] by congruence end.
  assert (redemption_maps w19 = redemption_maps w) as [= Eo'' _] by congruence.
  rewrite Eo'' in Hro. rewrite Eo' in Eo. rewrite Er' in Er.
  do 2 eexists. split; [exact Hro|]. split; [eassumption|].
  match goal with H : key_eqb _ (frr_redemption_offer ctx) = true |- _ => apply key_eqb_eq in H end.
  split; [done|]. split; [exact Ha|by split].
Qed.

(** ** Preservation *)

(** An update of a redemption offer's settings. *)
Lemma ok_update w w' k ro ro' :
  redemptions_ok w -> redemption_offers w !! k = Some ro ->
  redemption_offers w' = <[k := ro']> (redemption_offers w) ->
  redemption_requests w' = redemption_requests w ->
  RedemptionOffer.token_in_mint ro' = RedemptionOffer.token_in_mint ro ->
  RedemptionOffer.token_out_mint ro' = RedemptionOffer.token_out_mint ro ->
  RedemptionOffer.request_counter ro' = RedemptionOffer.request_counter ro ->
  RedemptionOffer.requested_redemptions ro' = RedemptionOffer.requested_redemptions ro ->
  redemptions_ok w'.
Proof.
  intros [Hr Ho] Hk Eo Er E1 E2 E3 E4. split; unfold request_ok, redemption_offer_ok; rewrite Eo, Er.
  - intros rk rq Hrq. destruct (Hr _ _ Hrq) as (? & (ro1 & Hro1 & Hc) & ?). split; [done|].
    split; [|done]. destruct (decide (RedemptionRequest.offer rq = k)) as [<-|Hn].
    + exists ro'. rewrite lookup_insert_eq. simplify_eq. by rewrite E3.
    + exists ro1. by rewrite lookup_insert_ne by congruence.
  - intros k' ro1 H1. apply lookup_insert_Some in H1 as [[<- <-] | [_ H1]]; [|by apply Ho].
    rewrite E1, E2, E4. by apply Ho.
Qed.

Lemma ok_make w w' k ro :
  redemptions_ok w -> redemption_offers w !! k = None ->
  redemption_offers w' = <[k := ro]> (redemption_offers w) ->
  redemption_requests w' = redemption_requests w ->
  k = redemption_offer_pda (RedemptionOffer.token_in_mint ro) (RedemptionOffer.token_out_mint ro) ->
  RedemptionOffer.requested_redemptions ro = 0 -> redemptions_ok w'.
Proof.
  intros [Hr Ho] Hk Eo Er E1 E2. split; unfold request_ok, redemption_offer_ok; rewrite Eo, Er.
  - intros rk rq Hrq. destruct (Hr _ _ Hrq) as (? & (ro1 & Hro1 & Hc) & ?). split; [done|].
    split; [|done]. exists ro1. rewrite lookup_insert_ne; [done|]. by intros ->; rewrite Hk in Hro1.
  - intros k' ro1 H1. apply lookup_insert_Some in H1 as [[<- <-] | [_ H1]]; [|by apply Ho].
    split; [done|]. rewrite E2, outstanding_none; [by split|]. intros rk rq Hrq Ek.
    destruct (Hr _ _ Hrq) as (_ & (ro1 & Hro1 & _) & _). congruence.
Qed.

(** A change of one request and of its offer's counters. *)
Lemma ok_request w w' rk k ro ro' reqs :
  redemptions_ok w -> redemption_offers w !! k = Some ro ->
  redemption_offers w' = <[k := ro']> (redemption_offers w) -> redemption_requests w' = reqs ->
  (forall j rq, reqs !! j = Some rq -> j <> rk -> redemption_requests w !! j = Some rq) ->
  (forall rq, reqs !! rk = Some rq -> RedemptionRequest.offer rq = k /\
     rk = redemption_request_pda k (RedemptionRequest.request_id rq) /\
     RedemptionRequest.request_id rq < RedemptionOffer.request_counter ro' /\
     0 <= RedemptionRequest.fulfilled_amount rq < RedemptionRequest.amount rq /\
     RedemptionRequest.amount rq <= u64.MAX) ->
  RedemptionOffer.token_in_mint ro' = RedemptionOffer.token_in_mint ro ->
  RedemptionOffer.token_out_mint ro' = RedemptionOffer.token_out_mint ro ->
  RedemptionOffer.request_counter ro <= RedemptionOffer.request_counter ro' ->
  RedemptionOffer.requested_redemptions ro' = outstanding k reqs ->
  RedemptionOffer.requested_redemptions ro' <= u128.MAX ->
  (forall k', k' <> k -> outstanding k' reqs = outstanding k' (redemption_requests w)) ->
  redemptions_ok w'.
Proof.
  intros [Hr Ho] Hk Eo Er Hold Hnew E1 E2 E3 E4 Hmax E5.
  split; unfold request_ok, redemption_offer_ok; rewrite Eo, Er.
  - intros j rq Hrq. destruct (decide (j = rk)) as [->|Hj].
    + destruct (Hnew _ Hrq) as (-> & -> & Hc & ? & ?). split; [done|]. split; [|done].
      exists ro'. by rewrite lookup_insert_eq.
    + destruct (Hr _ _ (Hold _ _ Hrq Hj)) as (? & (ro1 & Hro1 & Hc) & ?). split; [done|].
      split; [|done]. destruct (decide (RedemptionRequest.offer rq = k)) as [<-|Hn].
      * exists ro'. rewrite lookup_insert_eq. simplify_eq. split; [done|lia].
      * exists ro1. by rewrite lookup_insert_ne by congruence.
  - intros k' ro1 H1. apply lookup_insert_Some in H1 as [[<- <-] | [Hn H1]].
    + rewrite E1, E2. split; [by apply Ho|by split].
    + rewrite E5 by done. by apply Ho.
Qed.

Lemma remaining_other k rq : RedemptionRequest.offer rq <> k -> remaining k rq = 0.
Proof. unfold remaining. intros H. by apply key_eqb_neq in H as ->. Qed.
Lemma remaining_own rq : remaining (RedemptionRequest.offer rq) rq
  = RedemptionRequest.amount rq - RedemptionRequest.fulfilled_amount rq.
Proof. unfold remaining. by rewrite key_eqb_refl. Qed.

Lemma ok_create ctx amount u w w' :
  redemptions_ok w -> create_redemption_request ctx amount w = Ok (u, w') -> redemptions_ok w'.
Proof using All.
  intros Hok H. apply create_request_Ok in H as (ro & []).
  destruct created_world as (l & es & ->).
  pose proof (balance_u64 (ledger w) (crr_redeemer_token_account ctx)).
  assert (Hrem : forall k, remaining k (new_request ctx (RedemptionOffer.request_counter ro) amount)
    = if key_eqb (crr_redemption_offer ctx) k then amount else 0)
    by (intros k; unfold remaining; cbn; by rewrite Z.sub_0_r).
  eapply ok_request with (rk := crr_redemption_request ctx); try done; cbn; try lia.
  - intros j rq Hj Hn. by rewrite lookup_insert_ne in Hj by congruence.
  - intros rq Hrq. rewrite lookup_insert_eq in Hrq. simplify_eq. cbn. auto with lia.
  - rewrite outstanding_insert, Hrem, key_eqb_refl by done.
    destruct (ok_offers _ Hok _ _ created_offer) as (_ & -> & _). lia.
  - intros k' Hk'. rewrite outstanding_insert, Hrem by done.
    apply not_eq_sym, key_eqb_neq in Hk'. by rewrite Hk'.
Qed.

Lemma ok_cancel ctx u w w' :
  redemptions_ok w -> cancel_redemption_request ctx w = Ok (u, w') -> redemptions_ok w'.
Proof using All.
  intros Hok H. apply cancel_request_Ok in H as (ro & rq & []).
  destruct cancelled_world as (l & es & ->).
  eapply ok_request with (rk := cxr_redemption_request ctx); try done; cbn; try lia.
  - intros j rq' Hj Hn. by rewrite lookup_delete_ne in Hj by congruence.
  - intros rq' Hrq. by rewrite lookup_delete_eq in Hrq.
  - rewrite (outstanding_delete _ _ _ _ cancelled_request), <-cancelled_of, remaining_own.
    rewrite <-cancelled_of in cancelled_offer.
    destruct (ok_offers _ Hok _ _ cancelled_offer) as (_ & -> & _). lia.
  - destruct (ok_offers _ Hok _ _ cancelled_offer) as (_ & _ & ?). lia.
  - intros k' Hk'. rewrite (outstanding_delete _ _ _ _ cancelled_request), remaining_other by congruence.
    lia.
Qed.

Lemma ok_fulfill ctx amount u w w' :
  redemptions_ok w -> fulfill_redemption_request ctx amount w = Ok (u, w') -> redemptions_ok w'.
Proof using All.
  intros Hok H. apply fulfill_maps in H as (ro & rq & Hro & Hrq & Hof & Ha & Eo & Er).
  destruct (ok_requests _ Hok _ _ Hrq) as (Hk & (ro1 & Hro1 & Hc) & Hf & Hu).
  rewrite Hof, Hro in Hro1. injection Hro1 as <-.
  set (rq' := RedemptionRequest.with_fulfilled_amount
                (RedemptionRequest.fulfilled_amount rq + amount) rq).
  assert (Hout : forall k, outstanding k (redemption_requests w')
    = outstanding k (redemption_requests w) - if key_eqb (RedemptionRequest.offer rq) k then amount else 0).
  { intros k. rewrite Er. unfold fulfilled_requests. fold rq'.
    destruct (Z.eqb_spec (RedemptionRequest.fulfilled_amount rq + amount) (RedemptionRequest.amount rq));
      [rewrite (outstanding_delete _ _ _ _ Hrq)|rewrite (outstanding_replace _ _ _ _ _ Hrq)];
      unfold remaining; cbn; destruct (key_eqb _ k); lia. }
  eapply ok_request with (rk := frr_redemption_request ctx) (reqs := redemption_requests w');
    try done; cbn; try lia.
  - intros j rq0 Hj Hn. rewrite Er in Hj. unfold fulfilled_requests in Hj.
    destruct (_ =? _); [by rewrite lookup_delete_ne in Hj by congruence|
                        by rewrite lookup_insert_ne in Hj by congruence].
  - intros rq0 Hj. rewrite Er in Hj. unfold fulfilled_requests in Hj. destruct (Z.eqb_spec
      (RedemptionRequest.fulfilled_amount rq + amount) (RedemptionRequest.amount rq)).
    + by rewrite lookup_delete_eq in Hj.
    + rewrite lookup_insert_eq in Hj. simplify_eq. cbn. rewrite <-Hof. split; [done|].
      split; [exact Hk|]. lia.
  - rewrite Hout, Hof, key_eqb_refl. destruct (ok_offers _ Hok _ _ Hro) as (_ & -> & _). lia.
  - destruct (ok_offers _ Hok _ _ Hro) as (_ & _ & ?). lia.
  - intros k' Hk'. rewrite Hout, Hof. apply not_eq_sym, key_eqb_neq in Hk'. rewrite Hk'. lia.
Qed.

Lemma ok_make_offer ctx fee sell_fee u w w' :
  redemptions_ok w -> make_redemption_offer ctx fee sell_fee w = Ok (u, w') -> redemptions_ok w'.
Proof using All.
  intros Hok H. apply make_redemption_offer_Ok in H as [].
  destruct made_world as (w1 & es & Hq & ->).
  pose proof (quiet_same _ _ Hq) as (_ & _ & _ & _ & Er & _).
  by eapply ok_make.
Qed.

(** The instructions of the boss that change one setting. *)
Lemma ok_setting i tx w w' :
  redemptions_ok w -> exec tx i w = Ok (tt, w') ->
  match i with
  | SetRedemptionOfferDisabled _ _ _ | UpdateRedemptionOfferFee _ _ _
  | UpdateRedemptionOfferPropAmmSellFee _ _ _ | UpdateRedemptionOfferVaultTarget _ _ _ => True
  | _ => False
  end -> redemptions_ok w'.
Proof using All.
  intros Hok H Hi. destruct i; try done; clear Hi; cbn in H;
    unfold set_redemption_offer_disabled, update_redemption_offer_fee,
      update_redemption_offer_prop_amm_sell_fee, update_redemption_offer_vault_target,
      UpdateRedemptionOfferFee_accounts, store_redemption_offer in H; inv_m;
    match goal with H : redemption_offer_account _ _ = Ok _ |- _ =>
      apply redemption_offer_account_Ok in H as (-> & Hro & _) end;
    (eapply ok_update; [exact Hok|exact Hro|reflexivity|reflexivity|..]; reflexivity).
Qed.

Lemma ok_exec tx i w w' :
  redemptions_ok w -> exec tx i w = Ok (tt, w') -> redemptions_ok w'.
Proof using All.
  intros Hok H. destruct i;
    try (by eapply ok_setting in H); cbn [exec] in H;
    try (frame_call (@redemption_maps L) H; by eapply redemptions_ok_same);
    eauto using ok_create, ok_cancel, ok_fulfill, ok_make_offer.
Qed.

Lemma ok_reachable w w' : redemptions_ok w -> rtc step w w' -> redemptions_ok w'.
Proof using All.
  intros Hok Hs. induction Hs as [|w w1 w2 Hs _ IH]; [done|]. apply IH.
  destruct Hs as [tx i w1 H|c l]; [by eapply ok_exec|]. by apply (redemptions_ok_same w).
Qed.

Lemma ok_initial w :
  redemption_offers w = ∅ -> redemption_requests w = ∅ -> redemptions_ok w.
Proof. intros Eo Er. split; [rewrite Er|rewrite Eo]; intros ? ? H; by rewrite lookup_empty in H. Qed.

Lemma outstanding_nonneg k m :
  (forall j rq, m !! j = Some rq ->
     RedemptionRequest.fulfilled_amount rq <= RedemptionRequest.amount rq) -> 0 <= outstanding k m.
Proof.
  induction m as [|j rq m Hn IH] using map_ind; intros H; [done|].
  rewrite outstanding_insert by done. pose proof (H j rq ltac:(apply lookup_insert_eq)).
  assert (0 <= remaining k rq) by (unfold remaining; destruct (key_eqb _ k); lia).
  assert (0 <= outstanding k m); [|lia]. apply IH. intros j' rq' Hj.
  apply (H j'). rewrite lookup_insert_ne; [done|]. congruence.
Qed.

(** An open request never asks for more than its offer counts. *)
Lemma request_covered w rk rq ro :
  redemptions_ok w -> redemption_requests w !! rk = Some rq ->
  redemption_offers w !! RedemptionRequest.offer rq = Some ro ->
  RedemptionRequest.amount rq - RedemptionRequest.fulfilled_amount rq
    <= RedemptionOffer.requested_redemptions ro.
Proof.
  intros Hok Hrq Hro. destruct (ok_offers _ Hok _ _ Hro) as (_ & -> & _).
  rewrite <-remaining_own.
  pose proof (outstanding_delete (RedemptionRequest.offer rq) _ _ _ Hrq) as E.
  assert (0 <= outstanding (RedemptionRequest.offer rq) (delete rk (redemption_requests w))); [|lia].
  apply outstanding_nonneg. intros j rq' Hj. apply lookup_delete_Some in Hj as [_ Hj].
  destruct (ok_requests _ Hok _ _ Hj) as (_ & _ & ? & _). lia.
Qed.

(** ** Properties *)

(** C1: the redemption queue.  Whatever instructions run, in whatever order, and
    whatever happens to the tokens in between, every open request sits at the
    address derived from its offer and id, its id is below the offer's counter,
    something of it is left to fulfil; and every redemption offer's
    [requested_redemptions] is exactly the sum of what its open requests still
    ask for, within a [u128].  (A world without redemption offers starts this.) *)
Theorem redemption_queue_invariant w w' :
  redemptions_ok w -> rtc step w w' ->
  (forall rk rq, redemption_requests w' !! rk = Some rq ->
     rk = redemption_request_pda (RedemptionRequest.offer rq) (RedemptionRequest.request_id rq) /\
     (exists ro, redemption_offers w' !! RedemptionRequest.offer rq = Some ro /\
        RedemptionRequest.request_id rq < RedemptionOffer.request_counter ro) /\
     0 <= RedemptionRequest.fulfilled_amount rq < RedemptionRequest.amount rq /\
     RedemptionRequest.amount rq <= u64.MAX) /\
  (forall k ro, redemption_offers w' !! k = Some ro ->
     RedemptionOffer.requested_redemptions ro = outstanding k (redemption_requests w') /\
     RedemptionOffer.requested_redemptions ro <= u128.MAX).
Proof using All.
  intros Hok Hs. destruct (ok_reachable _ _ Hok Hs) as [Hr Ho].
  split; [exact Hr|]. intros k ro H. by apply Ho in H as [_ H].
Qed.

(** C35: creating a request.  A successful [create_redemption_request] ran on a
    live program, against enabled offers, for a positive amount the redeemer
    holds.  It moves exactly that amount from the redeemer's to the redemption
    vault's associated account, changes no supply, stores the fresh request under
    the offer's next id, and the offer counts one more request and the amount. *)
Theorem create_redemption_request_correct ctx amount w w' :
  create_redemption_request ctx amount w = Ok (tt, w') ->
  exists ro, request_created ctx amount ro w w'.
Proof using All. apply create_request_Ok. Qed.

(** C36: cancelling a request.  Only the redeemer, the worker or the boss cancels,
    on a live program; exactly the unfulfilled rest returns from the vault to the
    redeemer's own associated account, whoever signed, and the request is closed
    and no longer counted. *)
Theorem cancel_redemption_request_correct ctx w w' :
  cancel_redemption_request ctx w = Ok (tt, w') ->
  exists ro rq, request_cancelled ctx ro rq w w'.
Proof using All. apply cancel_request_Ok. Qed.

(** C21: a redemption is never stuck.  In a world that satisfies the queue's
    invariant, once the accounts of a cancellation are accepted and the vault's
    transfer of the rest succeeds, the cancellation succeeds: the bookkeeping of
    the counters never overflows or underflows. *)
Theorem cancel_never_stuck ctx w ro rq mint ta w0 w1 w2 :
  redemptions_ok w ->
  CancelRedemptionRequest_accounts ctx w = Ok ((ro, rq, mint), w0) ->
  get_or_create_associated_token_account (cxr_redeemer_token_account ctx) (cxr_redeemer ctx)
    (cxr_token_in_mint ctx) (cxr_token_program ctx) OnreError.InvalidRedeemerTokenAccount w0
    = Ok (ta, w1) ->
  transfer_tokens mint (cxr_token_program ctx) (cxr_vault_token_account ctx) (ta_key ta)
    redemption_vault_authority_key
    (RedemptionRequest.amount rq - RedemptionRequest.fulfilled_amount rq) w1 = Ok (tt, w2) ->
  exists w', cancel_redemption_request ctx w = Ok (tt, w') /\
    redemption_requests w' !! cxr_redemption_request ctx = None.
Proof using All.
  intros Hok Ha Hta Htr. pose proof Ha as Hc. unfold CancelRedemptionRequest_accounts, not_killed in Hc.
  inv_m. inv_accounts.
  match goal with H : redemption_offer_account _ _ = Ok _ |- _ =>
    apply redemption_offer_account_Ok in H as (Ew & Hro & _) end. subst.
  match goal with H : redemption_requests _ !! _ = Some rq |- _ => rename H into Hrq end.
  match goal with H : RedemptionRequest.offer rq = _ |- _ => rewrite <-H in Hro end.
  pose proof (request_covered _ _ _ _ Hok Hrq Hro).
  destruct (ok_requests _ Hok _ _ Hrq) as (_ & _ & Hf & Hu).
  destruct (ok_offers _ Hok _ _ Hro) as (_ & _ & Hmax).
  unfold cancel_redemption_request. rewrite (M_bind_Ok _ _ _ _ _ Ha). cbv beta iota.
  rewrite (M_bind_Ok _ _ _ _ _ Hta). unfold u64.checked_sub, u128.checked_sub.
  rewrite checked_ok by lia. rewrite (M_bind_Ok _ _ w1 _ w1) by done.
  rewrite (M_bind_Ok _ _ _ _ _ Htr). rewrite checked_ok by lia.
  rewrite (M_bind_Ok _ _ w2 _ w2) by done. eexists. split; [reflexivity|]. cbn.
  apply lookup_delete_eq.
Qed.

(** C8: fulfilling a request.  Only the worker of a live program fulfils, against
    enabled offers, at most what is left of the request; the payout is the price's
    for the amount net of the fee and goes from the redemption vault to the
    redeemer's own account; token_in the program mints is burned and any other goes
    to the account of the proceeds vault, the fee to that of the redemption fee
    vault; the counters move by the amount, and a request that is complete is
    closed.  When ONyc is burned, an initialized BUFFER first accrues exactly what it
    is due, and its baseline and the market stats then record the mint's actual
    supply. *)
Theorem fulfill_redemption_request_correct ctx amount w w' :
  typed w -> redemptions_ok w -> fulfill_redemption_request ctx amount w = Ok (tt, w') ->
  exists mi mo o ro rq res r, fulfilment_checked ctx mi mo o ro rq w /\
    fulfilment ctx amount mi mo o ro rq res r w w'.
Proof using All.
  intros Hty Hok. apply fulfill_request_Ok; [done|]. intros k rq Hrq.
  destruct (ok_requests _ Hok _ _ Hrq) as (_ & _ & ? & ?). lia.
Qed.
End invariant.

(** ** Witnesses *)

Module Queue.
Definition request : Pubkey := redemption_request_pda Sample.redemption_offer_key 0.
Definition create_ctx : CreateRedemptionRequest :=
  mkCreateRedemptionRequest Sample.redemption_offer_key Sample.offer_key request Sample.user
    Sample.onyc (Sample.ata Sample.user Sample.onyc) (Sample.ata Sample.redemption_vault Sample.onyc)
    spl_token_id.
Definition cancel_ctx : CancelRedemptionRequest :=
  mkCancelRedemptionRequest Sample.redemption_offer_key request Sample.user Sample.user Sample.worker
    Sample.onyc (Sample.ata Sample.redemption_vault Sample.onyc) (Sample.ata Sample.user Sample.onyc)
    spl_token_id.
Definition fulfill_ctx : FulfillRedemptionRequest :=
  mkFulfillRedemptionRequest Sample.offer_key Sample.redemption_offer_key request
    (Sample.ata Sample.redemption_vault Sample.onyc) (Sample.ata Sample.redemption_vault Sample.usdc)
    Sample.onyc spl_token_id Sample.usdc spl_token_id (Sample.ata Sample.user Sample.usdc)
    (Sample.vault ConfigurableVaultKind.OfferProceeds)
    (Sample.ata (Sample.vault ConfigurableVaultKind.OfferProceeds) Sample.onyc)
    (Sample.vault ConfigurableVaultKind.RedemptionFee)
    (Sample.ata (Sample.vault ConfigurableVaultKind.RedemptionFee) Sample.onyc)
    Sample.user Sample.worker Sample.buffer_accounts (Sample.ata Sample.offer_vault Sample.onyc)
    (pda [seeds.MARKET_STATS]) (pda [seeds.CIRCULATING_SUPPLY_EXCLUDED_BALANCE]) Sample.offer_key.
Definition requested : World SampleLedger.t :=
  Sample.after (create_redemption_request create_ctx 50000000000) Sample.world.
End Queue.

Example create_runs :
  is_ok (create_redemption_request Queue.create_ctx 50000000000 Sample.world) = true.
Proof. vm_compute. reflexivity. Qed.
Example cancel_runs : is_ok (cancel_redemption_request Queue.cancel_ctx Queue.requested) = true.
Proof. vm_compute. reflexivity. Qed.
Example fulfill_runs :
  is_ok (fulfill_redemption_request Queue.fulfill_ctx 20000000000 Queue.requested) = true.
Proof. vm_compute. reflexivity. Qed.

Lemma sample_redemptions_ok : redemptions_ok Sample.world.
Proof.
  split; [by intros rk rq H|]. intros k ro H. cbn in H.
  apply lookup_singleton_Some in H as [<- <-]. by repeat split.
Qed.

Lemma requested_ok : redemptions_ok Queue.requested.
Proof.
  apply (ok_create Queue.create_ctx 50000000000 tt Sample.world); [apply sample_redemptions_ok|].
  apply (after_Ok _ _ create_runs).
Qed.

Lemma requested_typed : typed Queue.requested.
Proof.
  split.
  - intros b H. assert (buffer_state Queue.requested = Loaded Sample.buffer) as E
      by (vm_compute; reflexivity). rewrite E in H. injection H as <-. apply sample_buffer_ok.
  - intros k o H. assert (offers Queue.requested = {[Sample.offer_key := Sample.offer]}) as E
      by (vm_compute; reflexivity). rewrite E in H. apply lookup_singleton_Some in H as [_ <-].
    split; [apply sample_unsigned|]. cbn. unfold MAX_BASIS_POINTS. lia.
  - intros k o H. assert (redemption_offers Queue.requested
      = {[Sample.redemption_offer_key := RedemptionOffer.with_request_counter 1
            (RedemptionOffer.with_requested_redemptions 50000000000 Sample.redemption_offer)]}) as E
      by (vm_compute; reflexivity). rewrite E in H. apply lookup_singleton_Some in H as [_ <-].
    cbn. unfold MAX_BASIS_POINTS. lia.
  - intros k s H. assert (prop_amm_pairs Queue.requested = ∅) as E by (vm_compute; reflexivity).
    rewrite E in H. clear E. apply lookup_empty_Some in H as [].
Qed.

Lemma redemption_queue_invariant_witness :
  exists ro, redemption_offers Queue.requested !! Sample.redemption_offer_key = Some ro /\
    RedemptionOffer.requested_redemptions ro
      = outstanding Sample.redemption_offer_key (redemption_requests Queue.requested).
Proof.
  eexists. split; [vm_compute; reflexivity|].
  apply (redemption_queue_invariant Sample.world Queue.requested sample_redemptions_ok
           (rtc_once _ _ (step_exec _ (Approval.mkInstructionsSysvar 0 [])
              (CreateRedemptionRequestIx Queue.create_ctx 50000000000) _ (after_Ok _ _ create_runs)))).
  vm_compute. reflexivity.
Defined.

Lemma create_redemption_request_correct_witness :
  exists ro, request_created Queue.create_ctx 50000000000 ro Sample.world Queue.requested.
Proof. exact (create_redemption_request_correct _ _ _ _ (after_Ok _ _ create_runs)). Defined.

Lemma cancel_redemption_request_correct_witness :
  exists ro rq, request_cancelled Queue.cancel_ctx ro rq Queue.requested
    (Sample.after (cancel_redemption_request Queue.cancel_ctx) Queue.requested).
Proof. exact (cancel_redemption_request_correct _ _ _ (after_Ok _ _ cancel_runs)). Defined.

Lemma cancel_never_stuck_witness :
  exists w', cancel_redemption_request Queue.cancel_ctx Queue.requested = Ok (tt, w') /\
    redemption_requests w' !! Queue.request = None.
Proof.
  assert (E : is_ok (('(_, rq, mint) ← CancelRedemptionRequest_accounts Queue.cancel_ctx;
     ta ← get_or_create_associated_token_account (Sample.ata Sample.user Sample.onyc) Sample.user
       Sample.onyc spl_token_id OnreError.InvalidRedeemerTokenAccount;
     transfer_tokens mint spl_token_id (Sample.ata Sample.redemption_vault Sample.onyc) (ta_key ta)
       redemption_vault_authority_key
       (RedemptionRequest.amount rq - RedemptionRequest.fulfilled_amount rq)) Queue.requested) = true)
    by (vm_compute; reflexivity).
  apply after_Ok in E. apply M_bind_Ok_inv in E as ([[ro rq] mint] & w0 & E0 & E).
  apply M_bind_Ok_inv in E as (ta & w1 & E1 & E2).
  exact (cancel_never_stuck Queue.cancel_ctx Queue.requested ro rq mint ta w0 w1 _ requested_ok
           E0 E1 E2).
Defined.

Lemma fulfill_redemption_request_correct_witness :
  exists mi mo o ro rq res r,
    fulfilment_checked Queue.fulfill_ctx mi mo o ro rq Queue.requested /\
    fulfilment Queue.fulfill_ctx 20000000000 mi mo o ro rq res r Queue.requested
      (Sample.after (fulfill_redemption_request Queue.fulfill_ctx 20000000000) Queue.requested).
Proof.
  exact (fulfill_redemption_request_correct _ _ _ _ requested_typed requested_ok
           (after_Ok _ _ fulfill_runs)).
Defined.
