(* ===== verification/ProgramFacts.v ===== *)
(** * What the whole program guarantees

    The kill switch freezes all tokens; the state account, the offers and the
    configuration change only by the hand of the boss, up to the few steps others
    may take; the boss changes only in two steps.  *)

From stdpp Require Import relations.
From S2P Require Import World OfferPricing TokenUtils OfferHandlers MarketInfo Buffer Vaults Redemption TakeOffer PropAmm Governance Program Frames Samples MarketFacts BufferFacts AccountFacts RedemptionFacts.
Open Scope Z_scope.

(** The account that must sign, where the instruction names one. *)
Definition signer (i : instruction) : option Pubkey :=
  match i with
  | OfferVaultDeposit ctx _ | OfferVaultWithdraw ctx _ | RedemptionVaultDeposit ctx _
  | RedemptionVaultWithdraw ctx _ => Some (vt_signer ctx)
  | SetConfigurableVaultDestination boss _ _ => Some boss
  | MakeOfferIx ctx _ _ _ => Some (mo_boss ctx)
  | AddOfferVector ctx _ _ _ _ _ | DeleteOfferVector ctx _ | DeleteAllOfferVectors ctx
  | UpdateOfferFee ctx _ | UpdateOfferPermissionlessFee ctx _ => Some (oa_boss ctx)
  | SetOfferDisabled _ s _ | SetRedemptionOfferDisabled _ s _ => Some s
  | TakeOffer ctx _ _ _ _ _ | TakeOfferPermissionless ctx _ _ _ _ _ _ _ => Some (to_user ctx)
  | TakeOfferV2Ix ctx _ _ => Some (to_user (tv_base ctx))
  | TakeOfferPermissionlessV2Ix ctx _ => Some (to_user (tp_base ctx))
  | OpenSwapBuyIx ctx _ _ => Some (sb_user ctx)
  | OpenSwapSellIx ctx _ _ => Some (ss_user ctx)
  | ConfigurePropAmm _ _ _ boss _ | ProposeBoss boss _ | AddAdmin boss _ | RemoveAdmin boss _
  | ClearAdmins boss | SetOnycMint boss _ | SetWorker boss _ | SetMainOffer boss _
  | AddApprover boss _ | RemoveApprover boss _ | ConfigureMaxSupply boss _
  | ConfigureMaxMintAmount boss _ | TransferMintAuthorityToProgram boss _ _
  | TransferMintAuthorityToBoss boss _ _ | InitializeBuffer boss _ _ _ _ _ _
  | WithdrawReserveVault boss _ _ _ _ _ | SetExcludedAccounts boss _
  | UpdateRedemptionOfferFee _ boss _ | UpdateRedemptionOfferPropAmmSellFee _ boss _
  | UpdateRedemptionOfferVaultTarget _ boss _ => Some boss
  | AcceptBoss new_boss => Some new_boss
  | SetKillSwitch s _ => Some s
  | MintTo ctx _ _ | SettleBuffer ctx | SetBufferGrossApr ctx _ | SetBufferFeeConfig ctx _ _ _
  | BurnForNavIncrease ctx _ => Some (bc_signer ctx)
  | DepositReserveVault s _ _ _ _ _ => Some s
  | RefreshMarketStatsIx ctx => Some (rms_signer ctx)
  | UpdateExcludedBalance _ _ s _ => Some s
  | MakeRedemptionOfferIx ctx _ _ => Some (mro_boss ctx)
  | CreateRedemptionRequestIx ctx _ => Some (crr_redeemer ctx)
  | CancelRedemptionRequestIx ctx => Some (cxr_signer ctx)
  | FulfillRedemptionRequestIx ctx _ => Some (frr_worker ctx)
  | WithdrawConfigurableVault _ _ _ _ _ _ _ | QuoteSwapBuy _ _ _ _ _
  | QuoteSwapSell _ _ _ _ _ _ _ _ _ | GetNav _ _ _ | GetApy _ _ _ | GetNavAdjustment _ _ _
  | GetTvl _ _ _ _ _ | GetTvlV2 _ _ _ _ | GetCirculatingSupply _ _ _
  | GetCirculatingSupplyV2 _ _ => None
  end.

(** ** Tokens *)

Section tokens.
Context {R : Runtime} {L : Type} {TL : TokenLedger L} {TLL : TokenLedgerLaws L}.
Implicit Types w : World L.

(** Every balance and every supply is the same. *)
Definition same_tokens : relation (World L) := fun w w' =>
  (forall k, balance (ledger w') k = balance (ledger w) k) /\
  (forall k, supply_of (ledger w') k = supply_of (ledger w) k).

#[local] Instance same_tokens_preorder : PreOrder same_tokens.
Proof.
  split; [by split|]. intros a b c [H1 H2] [H3 H4]. split; intros; by rewrite ?H3, ?H4, ?H1, ?H2.
Qed.

Lemma create_same_tokens auth m tp w l :
  create_associated_account auth m tp (ledger w) = Some l -> same_tokens w (set_ledger l w).
Proof using All. apply create_balance. Qed.

Lemma set_authority_same_tokens pr m a b w l :
  set_mint_authority pr m a b (ledger w) = Some l -> same_tokens w (set_ledger l w).
Proof using All.
  intros H. apply set_authority_effect in H as ((i & Hi & _ & Hi') & Hm & Ha).
  split; intros k; cbn.
  - unfold balance. by rewrite Ha.
  - unfold supply_of. destruct (decide (k = m)) as [->|Hn]; [by rewrite Hi, Hi'|by rewrite Hm].
Qed.

Ltac same_tokens_leaf :=
  first [intros; split; reflexivity | intros ? ?; apply create_same_tokens
        | intros ? ?; apply set_authority_same_tokens].

(** C10: the kill switch freezes all tokens.  While it is on, no instruction of the
    program, whoever signs it, changes the balance of any token account or the
    supply of any mint. *)
Theorem kill_switch_freezes_tokens tx i w w' :
  State.is_killed (state w) = true -> exec tx i w = Ok (tt, w') -> same_tokens w w'.
Proof using All.
  intros Hk H. destruct i; cbn [exec] in H;
    try (solve [match type of H with ?m _ = _ =>
      refine ((_ : within same_tokens m) _ _ _ H); clear - TLL; within same_tokens_leaf end]);
    exfalso.
  all: match type of H with ?m _ = _ => let h := head_of m in unfold h in H end.
  all: unfold vault_deposit, vault_withdraw, TakeOffer_accounts, TakeOfferV2_accounts,
    OpenSwapBuy_accounts, OpenSwapSell_accounts, MintTo_accounts, SettleBuffer_accounts,
    SetBufferGrossYield_accounts, SetBufferFeeConfig_accounts, SetBuffer_accounts,
    BurnForNavIncrease_accounts, has_one_onyc_mint, has_one_boss, CancelRedemptionRequest_accounts,
    pair_account, offer_accounts, offer_account, not_killed in H.
  all: try (inv_m; inv_accounts; congruence).
  fold (create_redemption_request ctx amount) in H. apply create_request_Ok in H as (ro & []).
  congruence.
Qed.
End tokens.

(** ** Who may change what *)

Section authority.
Context {R : Runtime} {L : Type} {TL : TokenLedger L}.
Implicit Types w : World L.

Lemma has_one_boss_Ok boss u w w' :
  has_one_boss boss w = Ok (u, w') -> w' = w /\ State.boss (state w) = boss.
Proof. unfold has_one_boss. intros H. inv_m. by apply key_eqb_eq in H. Qed.

Lemma update_state_Ok f s w w' :
  update_state f w = Ok (s, w') -> f (state w) = Ok s /\ w' = set_state s w.
Proof. unfold update_state. intros H. by inv_m. Qed.

Lemma offer_admin_Ok ctx o w w' :
  offer_admin_accounts ctx w = Ok (o, w') ->
  w' = w /\ offers w !! oa_offer ctx = Some o /\ State.boss (state w) = oa_boss ctx /\
  oa_offer ctx = offer_pda (oa_token_in_mint ctx) (oa_token_out_mint ctx) /\
  Offer.token_in_mint o = oa_token_in_mint ctx /\ Offer.token_out_mint o = oa_token_out_mint ctx.
Proof.
  unfold offer_admin_accounts, offer_accounts. intros H. inv_m.
  repeat match goal with
  | H : has_one_boss _ _ = Ok _ |- _ => apply has_one_boss_Ok in H as [-> ?]
  | H : load_mint _ _ = Ok _ |- _ => apply load_mint_same in H as ->
  | H : key_eqb _ _ = true |- _ => apply key_eqb_eq in H
  end. by repeat split.
Qed.

Ltac inv_authority := repeat match goal with
  | H : has_one_boss _ _ = Ok _ |- _ => apply has_one_boss_Ok in H as [-> ?]
  | H : update_state _ _ = Ok _ |- _ => apply update_state_Ok in H as [? ->]
  | H : offer_admin_accounts _ _ = Ok _ |- _ => apply offer_admin_Ok in H as (-> & ? & ? & ? & ? & ?)
  end.

(** What an instruction does to the state account: the update of its handler, after
    the check of its signer. *)
Definition state_update (i : instruction) (s s' : State.t) : Prop :=
  match i with
  | ProposeBoss boss k => boss = State.boss s /\ propose_boss_state k s = Ok s'
  | AcceptBoss k => accept_boss_state k s = Ok s'
  | AddAdmin boss k => boss = State.boss s /\ add_admin_state k s = Ok s'
  | RemoveAdmin boss k => boss = State.boss s /\ remove_admin_state k s = Ok s'
  | ClearAdmins boss => boss = State.boss s /\ clear_admins_state s = s'
  | SetKillSwitch signer enable => set_kill_switch_state signer enable s = Ok s'
  | SetOnycMint boss k => boss = State.boss s /\ State.with_onyc_mint k s = s'
  | SetWorker boss k => boss = State.boss s /\ set_worker_state k s = Ok s'
  | SetMainOffer boss k => boss = State.boss s /\ exists o, set_main_offer_state k o s = Ok s'
  | AddApprover boss k => boss = State.boss s /\ add_approver_state k s = Ok s'
  | RemoveApprover boss k => boss = State.boss s /\ remove_approver_state k s = Ok s'
  | ConfigureMaxSupply boss x => boss = State.boss s /\ State.with_max_supply x s = s'
  | ConfigureMaxMintAmount boss x => boss = State.boss s /\ State.with_max_mint_amount x s = s'
  | _ => s' = s
  end.

Lemma exec_state tx i w w' : exec tx i w = Ok (tt, w') -> state_update i (state w) (state w').
Proof.
  intros H. destruct i; cbn [exec] in H; unfold state_update;
    try (refine ((_ : within (same state) _) _ _ _ H); clear; within ltac:(reflexivity); fail);
    match type of H with ?m _ = _ => let h := head_of m in unfold h in H end;
    inv_m; inv_authority; inv_accounts; simplify_eq; cbn [state set_state set_events]; eauto.
Qed.

(** C17: who changes an offer.  Pricing vectors, fees, flags and the existence of
    offers change only by instructions the boss signs, with one exception: an
    admin may disable an offer, and that changes nothing else of it. *)
Theorem offers_change_authorized tx i w w' :
  exec tx i w = Ok (tt, w') ->
  offers w' = offers w \/ signer i = Some (State.boss (state w)) \/
  exists k o s, i = SetOfferDisabled k s true /\ mem_key s (State.admins (state w)) = true /\
    offers w !! k = Some o /\ offers w' = <[k := Offer.set_disabled true o]> (offers w).
Proof.
  intros H. destruct i; cbn [exec] in H;
    try (left; refine ((_ : within (same offers) _) _ _ _ H); clear; within ltac:(reflexivity); fail);
    right; cbn [signer].
  2-6: left; match type of H with ?m _ = _ => let h := head_of m in unfold h in H end;
    unfold AddOfferVector_accounts, DeleteOfferVector_accounts, DeleteAllOfferVectors_accounts,
      UpdateOfferFee_accounts, UpdateOfferPermissionlessFee_accounts in H; inv_m; inv_authority;
    congruence.
  - left. unfold make_offer, MakeOffer_accounts in H. inv_m. inv_accounts.
    repeat match goal with H : init_if_needed_ata _ _ _ _ _ = Ok _ |- _ =>
      frame_call (@state L) H; clear H end.
    match goal with H : init_account _ _ _ _ _ = Ok _ |- _ => apply init_account_Ok in H as (-> & _) end.
    inv_authority. congruence.
  - unfold set_offer_disabled, store_offer, authorize_targeted_disable in H. inv_m.
    destruct disabled; inv_res.
    + match goal with H : _ || _ = true |- _ => apply orb_true_iff in H as [Hs | Hs] end.
      * left. apply key_eqb_eq in Hs. congruence.
      * right. do 3 eexists. eauto.
    + left. match goal with H : key_eqb _ _ = true |- _ => apply key_eqb_eq in H end. congruence.
Qed.

(** C16: who changes the state account.  Roles, caps, the kill switch, the ONyc
    mint and the main offer change only by instructions the boss signs, with two
    exceptions: an admin may switch the kill switch on, and the proposed boss may
    accept; neither changes anything else. *)
Theorem state_changes_authorized tx i w w' :
  exec tx i w = Ok (tt, w') ->
  state w' = state w \/ signer i = Some (State.boss (state w)) \/
  (exists s, i = SetKillSwitch s true /\ mem_key s (State.admins (state w)) = true /\
     state w' = State.with_is_killed true (state w)) \/
  (i = AcceptBoss (State.proposed_boss (state w)) /\ State.proposed_boss (state w) <> Pubkey_default /\
     state w' = State.with_proposed_boss Pubkey_default
                  (State.with_boss (State.proposed_boss (state w)) (state w))).
Proof.
  intros H. apply exec_state in H. destruct i; cbn in H; try (by left); right; cbn [signer];
    try (left; destruct H as [-> _]; done).
  - right. right. unfold accept_boss_state in H. inv_res.
    match goal with H : key_eqb _ _ = true |- _ => apply key_eqb_eq in H as -> end.
    split; [done|]. split; [by apply key_eqb_neq|done].
  - unfold set_kill_switch_state in H. destruct enable; inv_res.
    + match goal with H : _ || _ = true |- _ => apply orb_true_iff in H as [Hs | Hs] end.
      * left. apply key_eqb_eq in Hs. congruence.
      * right. left. eauto.
    + left. match goal with H : key_eqb _ _ = true |- _ => apply key_eqb_eq in H end. congruence.
Qed.

(** The boss and the proposed boss after an update. *)
Lemma state_update_boss i s s' :
  state_update i s s' ->
  (State.boss s' = State.boss s \/
   i = AcceptBoss (State.boss s') /\ State.proposed_boss s = State.boss s' /\
   State.boss s' <> Pubkey_default /\ State.proposed_boss s' = Pubkey_default) /\
  (State.proposed_boss s' = State.proposed_boss s \/ State.proposed_boss s' = Pubkey_default \/
   i = ProposeBoss (State.boss s) (State.proposed_boss s')).
Proof.
  intros H. destruct i; cbn in H; try (rewrite H; by auto); destruct_and?; subst;
    unfold propose_boss_state, accept_boss_state, add_admin_state, remove_admin_state,
      clear_admins_state, set_kill_switch_state, add_approver_state, remove_approver_state,
      set_worker_state, set_main_offer_state in *;
    repeat match goal with H : exists _, _ |- _ => destruct H end; repeat case_match; inv_res; auto.
  repeat match goal with H : key_eqb _ _ = true |- _ => apply key_eqb_eq in H as ->
    | H : key_eqb _ _ = false |- _ => apply key_eqb_neq in H end.
  cbn. auto 6.
Qed.

(** The boss changes in two steps.  If an instruction changes the boss, it is
    the acceptance, signed by the new boss, whom the state already names as
    proposed; and if an instruction changes the proposed boss to anybody, it is
    the proposal of exactly that account, signed by the boss. *)
Theorem boss_changes_in_two_steps tx i w w' :
  exec tx i w = Ok (tt, w') ->
  (State.boss (state w') <> State.boss (state w) ->
     i = AcceptBoss (State.boss (state w')) /\
     State.proposed_boss (state w) = State.boss (state w') /\
     State.proposed_boss (state w') = Pubkey_default) /\
  (State.proposed_boss (state w') <> State.proposed_boss (state w) ->
     State.proposed_boss (state w') <> Pubkey_default ->
     i = ProposeBoss (State.boss (state w)) (State.proposed_boss (state w'))).
Proof. intros H. apply exec_state, state_update_boss in H. naive_solver. Qed.
End authority.

(** ** Witnesses *)

Module Governed.
Definition tx : Approval.InstructionsSysvar := Approval.mkInstructionsSysvar 0 [].
(** The kill switch on, by the admin's hand. *)
Definition killed : World SampleLedger.t :=
  Sample.after (set_kill_switch Sample.admin true) Sample.world.
Definition proposed : World SampleLedger.t :=
  Sample.after (propose_boss Sample.boss Sample.user) Sample.world.
Definition disable : instruction := SetOfferDisabled Sample.offer_key Sample.admin true.
End Governed.

Example disable_runs : is_ok (exec Governed.tx Governed.disable Governed.killed) = true.
Proof. vm_compute. reflexivity. Qed.
Example kill_runs : is_ok (exec Governed.tx (SetKillSwitch Sample.admin true) Sample.world) = true.
Proof. vm_compute. reflexivity. Qed.
Example accept_runs : is_ok (exec Governed.tx (AcceptBoss Sample.user) Governed.proposed) = true.
Proof. vm_compute. reflexivity. Qed.

Lemma kill_switch_freezes_tokens_witness :
  same_tokens Governed.killed (Sample.after (exec Governed.tx Governed.disable) Governed.killed).
Proof.
  apply (kill_switch_freezes_tokens Governed.tx Governed.disable);
    [vm_compute; reflexivity|exact (after_Ok _ _ disable_runs)].
Defined.

Lemma offers_change_authorized_witness :
  let w' := Sample.after (exec Governed.tx Governed.disable) Governed.killed in
  offers w' = offers Governed.killed \/
  Some Sample.admin = Some (State.boss (state Governed.killed)) \/
  exists k o s, Governed.disable = SetOfferDisabled k s true /\
    mem_key s (State.admins (state Governed.killed)) = true /\
    offers Governed.killed !! k = Some o /\
    offers w' = <[k := Offer.set_disabled true o]> (offers Governed.killed).
Proof. exact (offers_change_authorized _ _ _ _ (after_Ok _ _ disable_runs)). Defined.

Lemma state_changes_authorized_witness :
  let i := SetKillSwitch Sample.admin true in
  let w := Sample.world in
  let w' := Sample.after (exec Governed.tx i) w in
  state w' = state w \/ Some Sample.admin = Some (State.boss (state w)) \/
  (exists s, i = SetKillSwitch s true /\ mem_key s (State.admins (state w)) = true /\
     state w' = State.with_is_killed true (state w)) \/
  (i = AcceptBoss (State.proposed_boss (state w)) /\
     State.proposed_boss (state w) <> Pubkey_default /\
     state w' = State.with_proposed_boss Pubkey_default
                  (State.with_boss (State.proposed_boss (state w)) (state w))).
Proof. exact (state_changes_authorized _ _ _ _ (after_Ok _ _ kill_runs)). Defined.

Lemma boss_changes_in_two_steps_witness :
  let w' := Sample.after (exec Governed.tx (AcceptBoss Sample.user)) Governed.proposed in
  AcceptBoss Sample.user = AcceptBoss (State.boss (state w')) /\
  State.proposed_boss (state Governed.proposed) = State.boss (state w') /\
  State.proposed_boss (state w') = Pubkey_default.
Proof.
  apply (proj1 (boss_changes_in_two_steps _ _ _ _ (after_Ok _ _ accept_runs))).
  vm_compute. discriminate.
Defined.
