(* ===== verification/AuthorityFacts.v ===== *)
(** * Nobody's tokens move without a signature

    Over all instructions: a balance falls only by the hand of an account that signs
    the instruction or of one of the program's own addresses, and a supply rises
    only if one of these is the mint's authority.  [TokenAuthorization] is what the
    token programs promise about authorities. *)

From stdpp Require Import relations.
From S2P Require Import World Approval OfferPricing TokenUtils OfferHandlers MarketInfo Buffer Vaults Redemption TakeOffer PropAmm Governance Program Frames Samples AccountFacts ProgramFacts.
Open Scope Z_scope.

(** ** The token programs' authorities *)

(** [may_debit l s k]: in [l], the signature of [s] suffices to take tokens from [k] -
    as owner, or as a delegate the owner has approved. *)
Class TokenAuthorization (L : Type) : Type :=
  may_debit : L -> Pubkey -> Pubkey -> Prop.

(** The amounts are unsigned; transfers and burns need an authority of the source; no
    call of the program gives anybody a right over an existing account. *)
Class TokenAuthorizationLaws (L : Type) `{TokenLedger L} `{TokenAuthorization L} : Prop := {
  transfer_authorized l l' pr m from to auth x d :
    transfer_checked pr m from to auth x d l = Some l' -> 0 <= x /\ may_debit l auth from;
  transfer_rights l l' pr m from to auth x d s k :
    transfer_checked pr m from to auth x d l = Some l' -> may_debit l' s k -> may_debit l s k;
  burn_authorized l l' pr m from auth x d :
    burn_checked pr m from auth x d l = Some l' -> 0 <= x /\ may_debit l auth from;
  burn_rights l l' pr m from auth x d s k :
    burn_checked pr m from auth x d l = Some l' -> may_debit l' s k -> may_debit l s k;
  mint_to_unsigned l l' pr m to auth x d :
    mint_to_checked pr m to auth x d l = Some l' -> 0 <= x;
  mint_to_rights l l' pr m to auth x d s k :
    mint_to_checked pr m to auth x d l = Some l' -> may_debit l' s k -> may_debit l s k;
  create_rights l l' auth m p s k :
    create_associated_account auth m p l = Some l' -> may_debit l' s k ->
    may_debit l s k \/ ledger_account l k = None;
  set_authority_rights l l' pr m current new s k :
    set_mint_authority pr m current new l = Some l' -> may_debit l' s k -> may_debit l s k
}.

Section authority.
Context {R : Runtime} {L : Type} {TL : TokenLedger L} {TLL : TokenLedgerLaws L}.
Context {TA : TokenAuthorization L} {TAL : TokenAuthorizationLaws L}.
Implicit Types w : World L.

(** The addresses that sign: [s] ranges over them below. *)
Variable signs : Pubkey -> Prop.

(** No signing address has a right over the account; none is the mint's authority. *)
Definition untouchable (l : L) (k : Pubkey) : Prop :=
  is_Some (ledger_account l k) /\ forall s, signs s -> ~ may_debit l s k.
Definition closed_mint (l : L) (m : Pubkey) : Prop :=
  forall i s, ledger_mint l m = Some i -> Mint.mint_authority i = Some s -> ~ signs s.

Definition respects : relation (World L) := fun w w' =>
  (forall k, untouchable (ledger w) k ->
     untouchable (ledger w') k /\ balance (ledger w) k <= balance (ledger w') k) /\
  (forall m, closed_mint (ledger w) m ->
     closed_mint (ledger w') m /\ supply_of (ledger w') m <= supply_of (ledger w) m).

#[export] Instance respects_preorder : PreOrder respects.
Proof.
  split; [by split|]. intros a b c [H1 H2] [H3 H4]. split; intros k Hk.
  - destruct (H1 k Hk) as [Hk' ?]. destruct (H3 k Hk') as [? ?]. split; [done|lia].
  - destruct (H2 k Hk) as [Hk' ?]. destruct (H4 k Hk') as [? ?]. split; [done|lia].
Qed.

(** Only the ledger matters. *)
Lemma respects_same w w' : ledger w' = ledger w -> respects w w'.
Proof. unfold respects. intros ->. split; done. Qed.

Lemma respects_transfer pr m from to auth x d w l :
  signs auth -> transfer_checked pr m from to auth x d (ledger w) = Some l ->
  respects w (set_ledger l w).
Proof using All.
  intros Ha T. destruct (transfer_authorized _ _ _ _ _ _ _ _ _ T) as [Hx Hd].
  pose proof (transfer_balance _ _ _ _ _ _ _ _ _ T) as (Hb & Hs & _).
  apply transfer_effect in T as T'. destruct T' as (_ & Hm & Hacc). split; cbn.
  - intros k [He Hk]. assert (Hn : key_eqb k from = false).
    { apply key_eqb_neq. intros ->. by apply (Hk auth). }
    split; [split|].
    + rewrite Hacc. unfold at_account. rewrite Hn. destruct (key_eqb k to); [|done].
      by apply fmap_is_Some.
    + intros s Hsg Hr. apply (Hk s Hsg). by eapply transfer_rights.
    + rewrite Hb, Hn. destruct (key_eqb k to); cbn; lia.
  - intros k Hk. split; [|by rewrite Hs]. intros i s Hi. rewrite Hm in Hi. by apply Hk.
Qed.

Lemma respects_burn pr m from auth x d w l :
  signs auth -> burn_checked pr m from auth x d (ledger w) = Some l ->
  respects w (set_ledger l w).
Proof using All.
  intros Ha T. destruct (burn_authorized _ _ _ _ _ _ _ _ T) as [Hx Hd].
  pose proof (burn_balance _ _ _ _ _ _ _ _ T) as (Hb & Hs & _).
  apply burn_effect in T as T'. destruct T' as (_ & (i & Hi & Hi') & Hm & Hacc). split; cbn.
  - intros k [He Hk]. assert (Hn : key_eqb k from = false).
    { apply key_eqb_neq. intros ->. by apply (Hk auth). }
    split; [split|].
    + rewrite Hacc. unfold at_account. by rewrite Hn.
    + intros s Hsg Hr. apply (Hk s Hsg). by eapply burn_rights.
    + rewrite Hb, Hn. cbn. lia.
  - intros k Hk. split; [|rewrite Hs; destruct (key_eqb k m); cbn; lia].
    intros j s. destruct (decide (k = m)) as [->|Hn]; [|rewrite Hm by done; apply Hk].
    rewrite Hi'. intros [= <-]. apply (Hk i s Hi).
Qed.

Lemma respects_mint pr m to auth x d w l :
  signs auth -> mint_to_checked pr m to auth x d (ledger w) = Some l ->
  respects w (set_ledger l w).
Proof using All.
  intros Ha T. pose proof (mint_to_unsigned _ _ _ _ _ _ _ _ T) as Hx.
  pose proof (mint_to_balance _ _ _ _ _ _ _ _ T) as (Hb & Hs & _).
  apply mint_to_effect in T as T'. destruct T' as (_ & (i & Hi & Hau & _) & Hm & Hacc). split; cbn.
  - intros k [He Hk]. split; [split|].
    + rewrite Hacc. unfold at_account. destruct (key_eqb k to); [|done]. by apply fmap_is_Some.
    + intros s Hsg Hr. apply (Hk s Hsg). by eapply mint_to_rights.
    + rewrite Hb. destruct (key_eqb k to); cbn; lia.
  - intros k Hk. assert (Hn : k <> m) by (intros ->; by apply (Hk i auth)). split.
    + intros j s. rewrite Hm by done. apply Hk.
    + rewrite Hs, (proj2 (key_eqb_neq _ _) Hn). cbn. lia.
Qed.

Lemma respects_create auth m p w l :
  create_associated_account auth m p (ledger w) = Some l -> respects w (set_ledger l w).
Proof using All.
  intros T. pose proof (create_balance _ _ _ _ _ T) as (Hb & Hs).
  apply create_effect in T as T'. destruct T' as (Hm & Hold & _). split; cbn.
  - intros k [[a He] Hk]. split; [split|by rewrite Hb].
    + by rewrite (Hold k a He).
    + intros s Hsg Hr. destruct (create_rights _ _ _ _ _ s k T Hr); [by apply (Hk s)|congruence].
  - intros k Hk. split; [|by rewrite Hs]. intros i s. rewrite Hm. apply Hk.
Qed.

Lemma respects_set_authority pr m current new w l :
  signs current -> set_mint_authority pr m current new (ledger w) = Some l ->
  respects w (set_ledger l w).
Proof using All.
  intros Ha T. apply set_authority_effect in T as T'.
  destruct T' as ((i & Hi & Hau & _) & Hm & Hacc). split; cbn.
  - intros k [He Hk]. split; [split|].
    + by rewrite Hacc.
    + intros s Hsg Hr. apply (Hk s Hsg). by eapply set_authority_rights.
    + unfold balance. by rewrite Hacc.
  - intros k Hk. assert (Hn : k <> m) by (intros ->; by apply (Hk i current)). split.
    + intros j s. rewrite Hm by done. apply Hk.
    + unfold supply_of. by rewrite Hm.
Qed.
End authority.

(** An address of the program: a signature only the program can make. *)
Definition program_address `{Runtime} (s : Pubkey) : Prop := exists seeds, s = pda seeds.

(** Who signs for [i]: the account it names, and the program. *)
Definition signs_for `{Runtime} (i : instruction) (s : Pubkey) : Prop :=
  signer i = Some s \/ program_address s.

Section program.
Context {R : Runtime} {L : Type} {TL : TokenLedger L} {TLL : TokenLedgerLaws L}.
Context {TA : TokenAuthorization L} {TAL : TokenAuthorizationLaws L}.
Implicit Types w : World L.

Ltac signs := first [by left | right; first [by eexists | eexists; eassumption]].
Ltac respects_leaf :=
  first
  [ intros; apply respects_same; reflexivity
  | intros ? ?; apply respects_create
  | intros ? ?; apply respects_transfer; signs
  | intros ? ?; apply respects_mint; signs
  | intros ? ?; apply respects_burn; signs
  | intros ? ?; apply respects_set_authority; signs ].

(** The takes check which addresses they were given before they use them. *)
Lemma within_required {B} P `{!PreOrder P} a k e (f : unit -> M L B) :
  (k = a -> within P (f tt)) -> within P (lift (require (key_eqb a k) e) ≫= f).
Proof.
  intros Hf w b w' H. inv_m. inv_res. match goal with H : key_eqb a k = true |- _ => apply key_eqb_eq in H end.
  by eapply Hf.
Qed.

Lemma within_authorities {B} P `{!PreOrder P} va ma sysvar (f : unit -> M L B) :
  (va = offer_vault_authority_key -> ma = mint_authority_key -> within P (f tt)) ->
  within P (validate_take_offer_authorities va ma sysvar ≫= f).
Proof.
  intros Hf w b w' H. unfold validate_take_offer_authorities, require_keys_eq in H. inv_m. inv_res.
  repeat match goal with H : key_eqb _ _ = true |- _ => apply key_eqb_eq in H end.
  eapply Hf; [..|done]; done.
Qed.

Ltac take_step :=
  lazymatch goal with
  | |- within _ (mbind _ (lift (require (key_eqb _ _) _))) =>
      apply (within_required _); intros ?
  | |- within _ (mbind _ (validate_take_offer_authorities _ _ _)) =>
      apply (within_authorities _); intros ? ?
  | _ => within_step respects_leaf
  end.

Lemma exec_respects tx i : within (respects (signs_for i)) (exec (L := L) tx i).
Proof using All.
  destruct i; cbn [exec];
    first [solve [within respects_leaf] | solve [repeat take_step]].
Qed.

(** Also of an account that does not exist yet. *)
Lemma respects_balance (signs : Pubkey -> Prop) w w' k :
  respects signs w w' -> (forall s, signs s -> ~ may_debit (ledger w) s k) ->
  balance (ledger w) k <= balance (ledger w') k.
Proof using All.
  intros [Hk _] Hn. destruct (ledger_account (ledger w) k) as [a|] eqn:E.
  - apply Hk. split; [by eexists|done].
  - unfold balance. rewrite E. destruct (ledger_account (ledger w') k) as [a|] eqn:E'; [|done].
    apply ledger_amount_u64 in E'. lia.
Qed.

(** C2: nobody's tokens move without a signature.  Whatever instruction runs, by
    whomever: a token account loses tokens only if the instruction's signer or one
    of the program's own addresses has the right to take them (as owner or
    approved delegate); and a mint's supply grows only if one of these is its mint
    authority. *)
Theorem tokens_move_by_signature tx i w w' :
  exec tx i w = Ok (tt, w') ->
  (forall k, (forall s, signs_for i s -> ~ may_debit (ledger w) s k) ->
     balance (ledger w) k <= balance (ledger w') k) /\
  (forall m, closed_mint (signs_for i) (ledger w) m ->
     supply_of (ledger w') m <= supply_of (ledger w) m).
Proof using All.
  intros H. apply exec_respects in H as Hr. split; [|by apply Hr]. intros k. by apply respects_balance.
Qed.
End program.

(** ** The sample ledger: the owner's signature *)

#[export] Instance sample_authorization : TokenAuthorization SampleLedger.t := fun l s k =>
  exists a, SampleLedger.accounts l !! k = Some a /\ TokenAccount.owner a = s.

Lemma sample_credit_rights l k x s j :
  may_debit (SampleLedger.credit l k x) s j -> may_debit l s j.
Proof.
  intros (a & Ha & Hs). cbn in Ha. apply lookup_alter_Some in Ha.
  destruct Ha as [(_ & b & Hb & ->)|[_ Ha]]; [by exists b|by exists a].
Qed.

(** A successful call met every condition of the sample ledger. *)
Ltac sample_call T :=
  cbn in T; unfold SampleLedger.transfer, SampleLedger.mint_to, SampleLedger.burn,
    SampleLedger.set_authority in T;
  repeat match type of T with (mbind _ ?x) = _ =>
    let E := fresh "E" in destruct x eqn:E; [cbn [mbind option_bind] in T|done] end;
  apply sample_ok in T as [? ->].
Ltac sample_conditions :=
  repeat match goal with H : _ && _ = true |- _ => apply andb_true_iff in H as [? ?] end.
Ltac sample_debit :=
  sample_conditions;
  match goal with
  | H : key_eqb (TokenAccount.owner ?a) _ = true, Ha : SampleLedger.account _ _ = Some ?a |- _ =>
      apply key_eqb_eq in H; apply sample_account_Some in Ha as [? _];
      split; [by apply Z.leb_le|by exists a]
  end.

#[export] Instance sample_authorization_laws : TokenAuthorizationLaws SampleLedger.t.
Proof.
  split.
  - intros l l' pr m from to auth x d T. sample_call T.
    sample_debit.
  - intros l l' pr m from to auth x d s k T Hr. sample_call T.
    by apply sample_credit_rights, sample_credit_rights in Hr.
  - intros l l' pr m from auth x d T. sample_call T.
    sample_debit.
  - intros l l' pr m from auth x d s k T Hr. sample_call T.
    by apply sample_credit_rights in Hr.
  - intros l l' pr m to auth x d T. sample_call T.
    sample_conditions. by apply Z.leb_le.
  - intros l l' pr m to auth x d s k T Hr. sample_call T.
    by apply sample_credit_rights in Hr.
  - intros l l' auth m p s k T (a & Ha & Hs).
    cbn [create_associated_account SampleTokenLedger] in T. unfold SampleLedger.create in T.
    set (j := associated_token_address auth m p) in *. clearbody j.
    apply (f_equal (fun o => SampleLedger.accounts <$> o)) in T. cbn in T.
    destruct (SampleLedger.accounts l !! j) eqn:E; injection T as T; rewrite <- T in Ha;
      [left; by exists a|].
    apply lookup_insert_Some in Ha as [[<- _]|[_ Ha]]; [right|left; by exists a].
    cbn. unfold SampleLedger.account. by rewrite E.
  - intros l l' pr m current new s k T Hr. sample_call T. done.
Qed.

(** A settlement by the worker: the user's USDC stays. *)
Lemma tokens_move_by_signature_witness :
  let w' := Sample.after (exec Governed.tx (SettleBuffer (Sample.buffer_ctx Sample.worker))) Sample.world in
  balance (ledger Sample.world) (Sample.ata Sample.user Sample.usdc)
    <= balance (ledger w') (Sample.ata Sample.user Sample.usdc).
Proof.
  refine (proj1 (tokens_move_by_signature Governed.tx (SettleBuffer (Sample.buffer_ctx Sample.worker))
    Sample.world _ (after_Ok _ _ settle_runs)) _ _).
  intros s Hs (a & Ha & <-). vm_compute in Ha. injection Ha as <-.
  destruct Hs as [[=]|[seeds E]]. by vm_compute in E.
Defined.
