(* ===== verification/ScheduleFacts.v ===== *)
(** * An offer's slots implement a price schedule

    The specification of an offer's pricing vectors is a [Schedule]: a finite map
    from start times to vectors from which nothing is ever evicted.  The ten slots,
    which the program cleans up when it adds a vector, refine it: [refines] relates
    them as seen from a moment on, every instruction preserves it, and through it
    the vector in force at any later time is the schedule's.  *)

From stdpp Require Import gmap.
From S2P Require Import World Approval OfferPricing OfferHandlers Program Frames Samples RedemptionFacts ProgramFacts.
Open Scope Z_scope.

Module Schedule.
Abbreviation t := (gmap Z OfferVector.t).

(** A successful vector instruction at [now]. *)
Definition apply (now : Z) (op : vector_op) (s : t) : t :=
  match op with
  | AddVector st bt bp apr d =>
      let new := new_offer_vector st bt bp apr d now in
      <[OfferVector.start_time new := new]> s
  | DeleteVector st => delete st s
  | DeleteAllVectors => ∅
  end.

(** The vector in force at a time: the latest that has started. *)
Definition in_force (s : t) (time : Z) : option OfferVector.t :=
  max_by_key OfferVector.start_time
    (List.filter (fun v => OfferVector.start_time v <=? time) (map snd (map_to_list s))).
End Schedule.

(** ** The refinement *)

(** From [now] on: the slots are well formed, hold nothing but the schedule's vectors,
    and a vector of the schedule they no longer hold starts before one of theirs
    that has started already. *)
Record refines (now : Z) (o : Offer.t) (s : Schedule.t) : Prop := {
  rf_wf : vectors_wf (Offer.vectors o);
  rf_key t v : s !! t = Some v -> OfferVector.start_time v = t;
  rf_live v : live (Offer.vectors o) v -> s !! OfferVector.start_time v = Some v;
  rf_gone t v : s !! t = Some v -> live (Offer.vectors o) v \/
    exists a, live (Offer.vectors o) a /\ OfferVector.start_time a <= now /\
      t < OfferVector.start_time a
}.

Lemma refines_later now now' o s : now <= now' -> refines now o s -> refines now' o s.
Proof.
  intros Hle [Hw Hk Hl Hg]. split; [done..|]. intros t v Hv.
  destruct (Hg t v Hv) as [?|(a & ? & ? & ?)]; [by left|]. right. exists a. split_and!; [done|lia|done].
Qed.

Lemma refines_same now o o' s :
  Offer.vectors o' = Offer.vectors o -> refines now o s -> refines now o' s.
Proof. intros E []. split; by rewrite ?E. Qed.

Lemma refines_empty now o : Offer.vectors o = empty_vectors -> refines now o ∅.
Proof.
  intros E. split; rewrite ?E; [apply empty_vectors_wf|by intros t v ?%lookup_empty_Some| |].
  - intros v [Hv Hn]. apply list_elem_of_In, elem_of_replicate in Hv as [-> _]. done.
  - by intros t v ?%lookup_empty_Some.
Qed.

Lemma refines_add now o new o' ev s :
  0 < now -> add_vector o now new = Ok (o', ev) -> refines now o s ->
  refines now o' (<[OfferVector.start_time new := new]> s).
Proof.
  intros Hn H [Hw Hk Hl Hg]. pose proof (add_vector_wf _ _ _ _ _ Hn Hw H) as Hw'.
  destruct (add_vector_live _ _ _ _ _ Hn H) as (Hlast & Hst & e & Hlive & Hev).
  assert (Hnew : live (Offer.vectors o') new) by (apply Hlive; by left).
  (* what is evicted, or was before, starts before a live vector that has started *)
  assert (Hold : forall t a, live (Offer.vectors o) a -> OfferVector.start_time a <= now ->
    t < OfferVector.start_time a -> exists b, live (Offer.vectors o') b /\
      OfferVector.start_time b <= now /\ t < OfferVector.start_time b).
  { intros t a Ha Hat Hta. destruct (decide (OfferVector.start_time new = now)) as [E|E].
    { exists new. specialize (Hlast a Ha). split_and!; [done|lia..]. }
    destruct (e a) eqn:Ea.
    - destruct (Hev a Ea) as [?|(b & Hb & Hab)]; [done|].
      apply find_active_Ok in Hb as (Hb & Hbt & Hmax). exists b. split_and!; [|done|lia].
      apply Hlive. right. split; [done|]. destruct (e b) eqn:Eb; [|done].
      destruct (Hev b Eb) as [?|(c & Hc & Hbc)]; [done|].
      apply find_active_Ok in Hc as (Hc & Hct & _). specialize (Hmax c Hc Hct). lia.
    - exists a. split_and!; [|done..]. apply Hlive. by right. }
  split; [done| | |].
  - intros t v [[<- <-]|[_ Hv]]%lookup_insert_Some; [done|by apply Hk].
  - intros v [->|[Hv _]]%Hlive; [by rewrite lookup_insert_eq|].
    rewrite lookup_insert_ne; [by apply Hl|]. specialize (Hlast v Hv). lia.
  - intros t v [[<- <-]|[Hne Hv]]%lookup_insert_Some; [by left|].
    destruct (Hg t v Hv) as [Hvl|(a & Ha & Hat & Hta)]; [|right; by eapply Hold].
    destruct (e v) eqn:Ev; [|left; apply Hlive; by right]. right.
    assert (OfferVector.start_time v = t) as Et by by apply Hk.
    destruct (Hev v Ev) as [E|(a & Ha & Hva)].
    + exists new. specialize (Hlast v Hvl). split_and!; [done|lia..].
    + apply find_active_Ok in Ha as (Ha & Hat & _). apply (Hold t a); [done..|lia].
Qed.

Lemma refines_delete now o st o' s :
  0 < now -> delete_vector o now st = Ok o' -> refines now o s -> refines now o' (delete st s).
Proof.
  intros Hn H [Hw Hk Hl Hg]. pose proof (delete_vector_wf _ _ _ _ Hn Hw H) as Hw'.
  apply delete_vector_Ok in H as (Hst & i & v0 & Hi & Hv0 & Hvs).
  assert (Hlive : forall w, live (Offer.vectors o') w <->
    live (Offer.vectors o) w /\ OfferVector.start_time w <> st).
  { intros w. rewrite Hvs, <- Hv0. apply live_delete; [by apply wf_unique|done|lia]. }
  split; [done| | |].
  - intros t v [_ Hv]%lookup_delete_Some. by apply Hk.
  - intros v [Hv Hne]%Hlive. rewrite lookup_delete_ne by done. by apply Hl.
  - intros t v [Hne Hv]%lookup_delete_Some. rewrite Hlive.
    destruct (Hg t v Hv) as [Hvl|(a & Ha & Hat & Hta)].
    + left. split; [done|]. rewrite (Hk t v Hv). done.
    + right. exists a. rewrite Hlive. split_and!; [done|lia|done|done].
Qed.

Lemma delete_all_empty o :
  length (Offer.vectors o) = MAX_VECTORS -> Forall slot_wf (Offer.vectors o) ->
  Offer.vectors (fst (delete_all_vectors o)) = empty_vectors.
Proof.
  intros Hl Hs. unfold empty_vectors. rewrite <- Hl. cbn. clear Hl.
  induction Hs as [|v vs [->|(Hv & _)] _ IH]; cbn in *; [done|by f_equal|].
  rewrite (proj2 (Z.eqb_neq _ _)) by lia. cbn. by f_equal.
Qed.

(** Every vector instruction of the slots is the schedule's. *)
Lemma refines_op now op o o' s :
  0 < now -> apply_vector_op now op o = Ok o' -> refines now o s ->
  refines now o' (Schedule.apply now op s).
Proof.
  intros Hn H Hr. destruct op; cbn [apply_vector_op Schedule.apply] in *.
  - apply fmap_Ok_inv in H as ([o1 ev] & H & ->). by eapply refines_add.
  - by eapply refines_delete.
  - injection H as <-. apply refines_empty. destruct Hr as [[] _ _ _]. by apply delete_all_empty.
Qed.

(** ** What is observed *)

Lemma in_force_Some now o s t v :
  refines now o s -> now <= t -> find_active_vector_at o t = Ok v -> Schedule.in_force s t = Some v.
Proof.
  intros [Hw Hk Hl Hg] Ht H. apply find_active_Ok in H as (Hv & Hvt & Hmax).
  assert (Hs : forall k w, s !! k = Some w -> OfferVector.start_time w <= t ->
    OfferVector.start_time w <= OfferVector.start_time v).
  { intros k w Hkw Hwt. rewrite (Hk k w Hkw) in *. destruct (Hg k w Hkw) as [Hwl|(a & Ha & Hat & Hka)].
    - rewrite <- (Hk k w Hkw) in *. by apply Hmax.
    - specialize (Hmax a Ha ltac:(lia)). lia. }
  unfold Schedule.in_force. destruct (max_by_key _ _) as [x|] eqn:E.
  - apply max_by_key_Some in E as [Hx Hxmax]. apply filter_In in Hx as [Hx Hxt%Z.leb_le].
    apply in_map_iff in Hx as ([k x'] & <- & Hin). cbn in *.
    apply list_elem_of_In, elem_of_map_to_list in Hin. f_equal.
    assert (OfferVector.start_time v <= OfferVector.start_time x') as Hle.
    { apply Hxmax, filter_In. split; [|by apply Z.leb_le]. apply in_map_iff.
      exists (OfferVector.start_time v, v). split; [done|].
      by apply list_elem_of_In, elem_of_map_to_list, Hl. }
    specialize (Hs k x' Hin Hxt). pose proof (Hl v Hv) as Hsv.
    assert (OfferVector.start_time v = k) as <- by (rewrite <- (Hk k x' Hin); lia).
    by simplify_eq.
  - apply max_by_key_None in E. exfalso. enough (In v []) by done. rewrite <- E. apply filter_In.
    split; [|by apply Z.leb_le]. apply in_map_iff. exists (OfferVector.start_time v, v).
    split; [done|]. by apply list_elem_of_In, elem_of_map_to_list, Hl.
Qed.

Lemma in_force_None now o s t e :
  refines now o s -> now <= t -> find_active_vector_at o t = Err e ->
  e = Onre OnreError.NoActiveVector /\ Schedule.in_force s t = None.
Proof.
  intros [Hw Hk Hl Hg] Ht H. apply find_active_Err in H as [-> Hno]. split; [done|].
  apply max_by_key_None. destruct (List.filter _ _) as [|x xs] eqn:E; [done|]. exfalso.
  assert (In x (x :: xs)) as Hx by by left. rewrite <- E in Hx.
  apply filter_In in Hx as [Hx Hxt%Z.leb_le]. apply in_map_iff in Hx as ([k x'] & <- & Hin).
  apply list_elem_of_In, elem_of_map_to_list in Hin. cbn in *.
  destruct (Hg k x' Hin) as [Hlive|(a & Ha & Hat & _)].
  - specialize (Hno x' Hlive). lia.
  - specialize (Hno a Ha). lia.
Qed.

(** The vector in force, as the program answers. *)
Definition answer (v : option OfferVector.t) : Result OfferVector.t :=
  ok_or_onre v OnreError.NoActiveVector.

Lemma refines_in_force now o s t :
  refines now o s -> now <= t -> find_active_vector_at o t = answer (Schedule.in_force s t).
Proof.
  intros Hr Ht. destruct (find_active_vector_at o t) as [v|e] eqn:E.
  - by rewrite (in_force_Some _ _ _ _ _ Hr Ht E).
  - by destruct (in_force_None _ _ _ _ _ Hr Ht E) as [-> ->].
Qed.

(** ** Over the program *)

Section program.
Context {R : Runtime} {L : Type} {TL : TokenLedger L}.
Implicit Types w : World L.

(** The vector instructions. *)
Definition schedule_op (i : instruction) : option (Pubkey * vector_op) :=
  match i with
  | AddOfferVector ctx st bt bp apr d => Some (oa_offer ctx, AddVector st bt bp apr d)
  | DeleteOfferVector ctx st => Some (oa_offer ctx, DeleteVector st)
  | DeleteAllOfferVectors ctx => Some (oa_offer ctx, DeleteAllVectors)
  | _ => None
  end.

(** What [i] does at [now] to the schedule of the offer at [k]. *)
Definition schedule_step (k : Pubkey) (now : Z) (i : instruction) (s : Schedule.t) : Schedule.t :=
  match schedule_op i with
  | Some (j, op) => if key_eqb j k then Schedule.apply now op s else s
  | None => s
  end.

(** What an instruction may do to the offer at [j]. *)
Definition offer_update w w' (j : Pubkey) (f : Offer.t -> Offer.t -> Prop) : Prop :=
  clock w' = clock w /\ exists o o', offers w !! j = Some o /\ offers w' = <[j := o']> (offers w) /\ f o o'.

Lemma vector_instruction tx i w w' j op :
  exec tx i w = Ok (tt, w') -> schedule_op i = Some (j, op) ->
  offer_update w w' j (fun o o' => apply_vector_op (timestamp_u64 (clock w)) op o = Ok o').
Proof.
  intros H Hi. destruct i; cbn in Hi; simplify_eq; cbn [exec] in H.
  - frame_call (@clock L) H. split; [done|]. unfold add_offer_vector, AddOfferVector_accounts, Clock_get in H.
    cbv zeta in H. inv_m.
    repeat match goal with H : offer_admin_accounts _ _ = Ok _ |- _ => apply offer_admin_Ok in H as (-> & ? & _) end.
    match goal with H : for_each _ _ _ = Ok _ |- _ => frame_call (@offers L) H end.
    unfold store_offer in *. inv_m. do 2 eexists. split_and!; [done|cbn; match goal with E : offers _ = offers w |- _ => by rewrite E end|]. cbn [apply_vector_op].
    match goal with H : add_vector _ _ _ = Ok _ |- _ => by rewrite H end.
  - frame_call (@clock L) H. split; [done|]. unfold delete_offer_vector, DeleteOfferVector_accounts, Clock_get in H. inv_m.
    repeat match goal with H : offer_admin_accounts _ _ = Ok _ |- _ => apply offer_admin_Ok in H as (-> & ? & _) end.
    unfold store_offer in *. inv_m. do 2 eexists. by split_and!.
  - frame_call (@clock L) H. split; [done|]. unfold delete_all_offer_vectors, DeleteAllOfferVectors_accounts in H. inv_m.
    repeat match goal with H : offer_admin_accounts _ _ = Ok _ |- _ => apply offer_admin_Ok in H as (-> & ? & _) end.
    unfold store_offer in *. destruct (delete_all_vectors x) as [o' n] eqn:E. inv_m.
    exists x, o'. split_and!; [done..|]. cbn [apply_vector_op]. by rewrite E.
Qed.

(** Every other instruction keeps the vectors of every offer that exists, and an offer
    that appears has none. *)
Lemma other_instruction tx i w w' j :
  exec tx i w = Ok (tt, w') -> schedule_op i = None ->
  clock w' = clock w /\
  match offers w !! j with
  | Some o => exists o', offers w' !! j = Some o' /\ Offer.vectors o' = Offer.vectors o
  | None => forall o', offers w' !! j = Some o' -> Offer.vectors o' = empty_vectors
  end.
Proof.
  intros H Hi.
  assert (Hput : forall k o o', offers w !! k = Some o -> Offer.vectors o' = Offer.vectors o ->
    offers w' = <[k := o']> (offers w) ->
    match offers w !! j with
    | Some o => exists o', offers w' !! j = Some o' /\ Offer.vectors o' = Offer.vectors o
    | None => forall o', offers w' !! j = Some o' -> Offer.vectors o' = empty_vectors
    end).
  { intros k o o' Hk Ho ->. destruct (decide (k = j)) as [->|Hn].
    - rewrite Hk, lookup_insert_eq. eauto.
    - rewrite lookup_insert_ne by done. destruct (offers w !! j) eqn:E; [eauto|]. done. }
  destruct i; cbn in Hi; try discriminate Hi; cbn [exec] in H; frame_call (@clock L) H; (split; [done|]);
    try (frame_call (@offers L) H; match goal with E : offers w' = offers w |- _ => rewrite E end;
         destruct (offers w !! j); [eauto|done]; fail).
  - unfold make_offer, MakeOffer_accounts in H. cbv zeta in H. inv_m.
    repeat match goal with H : load_mint _ _ = Ok _ |- _ => apply load_mint_Ok_inv in H as (_ & _ & ->) end.
    match goal with H : init_if_needed_ata _ _ _ _ _ = Ok _ |- _ => frame_call (@offers L) H; clear H end.
    match goal with H : init_account _ _ _ _ _ = Ok _ |- _ => apply init_account_Ok in H as (-> & Hnone & _) end.
    match goal with H : has_one_boss _ _ = Ok _ |- _ => apply has_one_boss_Ok in H as [-> _] end.
    unfold store_offer in *. inv_m. cbn. match goal with E : offers _ = offers w |- _ => rewrite E in * end.
    destruct (decide (mo_offer ctx = j)) as [<-|Hn].
    + rewrite Hnone, lookup_insert_eq. by intros o' [= <-].
    + rewrite lookup_insert_ne by done. destruct (offers w !! j) eqn:E; [eauto|done].
  - unfold update_offer_fee, UpdateOfferFee_accounts in H. inv_m.
    match goal with H : offer_admin_accounts _ _ = Ok _ |- _ => apply offer_admin_Ok in H as (-> & ? & _) end.
    unfold store_offer in *. inv_m. eapply Hput; [eassumption| |reflexivity]; done.
  - unfold update_offer_permissionless_fee, UpdateOfferPermissionlessFee_accounts in H. inv_m.
    match goal with H : offer_admin_accounts _ _ = Ok _ |- _ => apply offer_admin_Ok in H as (-> & ? & _) end.
    unfold store_offer in *. inv_m. eapply Hput; [eassumption| |reflexivity]; done.
  - unfold set_offer_disabled, store_offer in H. inv_m. eapply Hput; [eassumption| |reflexivity]; done.
Qed.

(** The life of the offer at [k] and its schedule: it is made, instructions run, the
    clock moves on while anybody uses the token programs. *)
Inductive scheduled (k : Pubkey) : World L -> Schedule.t -> Prop :=
| scheduled_made tx i w w' :
    offers w !! k = None -> 0 < timestamp_u64 (clock w) -> exec tx i w = Ok (tt, w') ->
    is_Some (offers w' !! k) -> scheduled k w' ∅
| scheduled_exec tx i w w' s :
    scheduled k w s -> exec tx i w = Ok (tt, w') ->
    scheduled k w' (schedule_step k (timestamp_u64 (clock w)) i s)
| scheduled_environment c l w s :
    scheduled k w s -> timestamp_u64 (clock w) <= timestamp_u64 c ->
    scheduled k (environment c l w) s.

Lemma scheduled_refines k w s :
  scheduled k w s ->
  0 < timestamp_u64 (clock w) /\
  exists o, offers w !! k = Some o /\ refines (timestamp_u64 (clock w)) o s.
Proof.
  induction 1 as [tx i w w' Hn Hc H [o Ho]|tx i w w' s _ (Hc & o & Ho & Hr) H|c l w s _ (Hc & o & Ho & Hr) Hle].
  - destruct (schedule_op i) as [[j op]|] eqn:Hi.
    + destruct (vector_instruction _ _ _ _ _ _ H Hi) as (_ & o1 & o2 & Hj & E & _).
      rewrite E in Ho. destruct (decide (j = k)) as [->|Hne]; [congruence|].
      rewrite lookup_insert_ne in Ho by done. congruence.
    + destruct (other_instruction _ _ _ _ k H Hi) as [Ec Hv]. rewrite Hn in Hv. rewrite Ec.
      split; [done|]. exists o. split; [done|]. by apply refines_empty, Hv.
  - unfold schedule_step. destruct (schedule_op i) as [[j op]|] eqn:Hi.
    + destruct (vector_instruction _ _ _ _ _ _ H Hi) as (Ec & o1 & o2 & Hj & E & Hop). rewrite Ec, E.
      split; [done|]. destruct (key_eqb j k) eqn:Ek.
      * apply key_eqb_eq in Ek as ->. simplify_eq. exists o2. rewrite lookup_insert_eq.
        split; [done|]. by eapply refines_op.
      * apply key_eqb_neq in Ek. exists o. by rewrite lookup_insert_ne.
    + destruct (other_instruction _ _ _ _ k H Hi) as [Ec Hv]. rewrite Ho in Hv.
      destruct Hv as (o' & Ho' & Ev). rewrite Ec. split; [done|]. exists o'. split; [done|].
      by eapply refines_same.
  - cbn. split; [lia|]. exists o. split; [done|]. by eapply refines_later.
Qed.

(** C6: the ten slots of an offer implement an unbounded price schedule.  Follow an
    offer from its creation through any instructions of the program and any moves of
    the clock, and keep beside it a schedule: a map from start times to vectors that
    is only ever changed by the offer's own vector instructions, as an insertion, a
    deletion or a reset, and never cleaned up.  Then at every time from the present
    on, the vector the program finds in force is the schedule's latest started one,
    and where the schedule has none the program answers [NoActiveVector]: evicting
    old vectors to make room is never observable in a price. *)
Theorem slots_implement_schedule k w s :
  scheduled k w s ->
  exists o, offers w !! k = Some o /\
    forall t, timestamp_u64 (clock w) <= t ->
      find_active_vector_at o t = answer (Schedule.in_force s t).
Proof.
  intros H. apply scheduled_refines in H as (_ & o & Ho & Hr).
  exists o. split; [done|]. intros t Ht. by eapply refines_in_force.
Qed.
End program.

(** ** Witness: an offer is made and gets a vector *)

Module Scheduled.
Definition bare : World SampleLedger.t := set_offers ∅ Sample.world.
Definition make : instruction :=
  MakeOfferIx (mkMakeOffer Sample.usdc spl_token_id (Sample.ata Sample.offer_vault Sample.usdc)
    Sample.onyc Sample.offer_key Sample.boss) 50 false true.
Definition add : instruction :=
  AddOfferVector (mkOfferAdmin Sample.offer_key Sample.usdc Sample.onyc Sample.boss)
    None 2000000 1000000000 36500 86400.
Definition made : World SampleLedger.t := Sample.after (exec Governed.tx make) bare.
Definition priced : World SampleLedger.t := Sample.after (exec Governed.tx add) made.
Definition schedule : Schedule.t := schedule_step Sample.offer_key 1000100 add ∅.
End Scheduled.

Example make_runs : is_ok (exec Governed.tx Scheduled.make Scheduled.bare) = true.
Proof. vm_compute. reflexivity. Qed.
Lemma make_stores : is_Some (offers Scheduled.made !! Sample.offer_key).
Proof. apply (bool_decide_unpack _). vm_compute. exact I. Qed.
Example add_runs : is_ok (exec Governed.tx Scheduled.add Scheduled.made) = true.
Proof. vm_compute. reflexivity. Qed.

Lemma slots_implement_schedule_witness :
  exists o, offers Scheduled.priced !! Sample.offer_key = Some o /\
    find_active_vector_at o 3000000 = Ok (OfferVector.mk 2000000 2000000 1000000000 36500 86400).
Proof.
  destruct (slots_implement_schedule Sample.offer_key Scheduled.priced Scheduled.schedule) as (o & Ho & H).
  - apply (scheduled_exec _ _ _ _ _ _ (scheduled_made _ _ _ Scheduled.bare Scheduled.made
      eq_refl eq_refl (after_Ok _ _ make_runs) make_stores) (after_Ok _ _ add_runs)).
  - exists o. split; [exact Ho|]. rewrite H; vm_compute; [reflexivity|discriminate].
Defined.
