(* ===== verification/GovernanceFacts.v ===== *)
(** * Admins and approvers are sets

    The state account keeps admins in twenty slots and approvers in two fields,
    with the default key as the empty slot.  Seen as finite sets of keys, the
    instructions are insertion, deletion and clearing, bounded by the capacity;
    in every reachable state no key occupies two slots.  *)

From stdpp Require Import gmap relations.
From S2P Require Import World OfferPricing TokenUtils OfferHandlers MarketInfo Buffer Vaults Redemption TakeOffer PropAmm Governance Program Frames Samples AccountFacts ProgramFacts.
Open Scope Z_scope.

(** ** Slots *)

(** The keys in a list of slots. *)
Definition occupied (slots : list Pubkey) : list Pubkey :=
  filter (fun k => k <> Pubkey_default) slots.
Definition slot_set (slots : list Pubkey) : gset Pubkey := list_to_set (occupied slots).
Definition slots_ok (n : nat) (slots : list Pubkey) : Prop :=
  length slots = n /\ NoDup (occupied slots).

Lemma elem_of_slot_set k slots : k ∈ slot_set slots <-> k <> Pubkey_default /\ k ∈ slots.
Proof. unfold slot_set, occupied. by rewrite elem_of_list_to_set, list_elem_of_filter. Qed.

Lemma mem_key_elem k ks : mem_key k ks = true <-> k ∈ ks.
Proof.
  unfold mem_key. rewrite existsb_exists. split.
  - intros (x & Hx & E). apply key_eqb_eq in E as ->. by apply list_elem_of_In.
  - intros Hk. exists k. split; [by apply list_elem_of_In|apply key_eqb_refl].
Qed.

Lemma occupied_vacate slots i k :
  slots !! i = Some k -> k <> Pubkey_default ->
  occupied slots ≡ₚ k :: occupied (<[i := Pubkey_default]> slots).
Proof.
  intros Hi Hk. pose proof (lookup_lt_Some _ _ _ Hi).
  rewrite <- (take_drop_middle slots i k Hi) at 1. unfold occupied.
  rewrite insert_take_drop by done. rewrite !filter_app, !filter_cons.
  rewrite decide_True, decide_False by auto. by rewrite Permutation_middle.
Qed.

Lemma occupied_occupy slots i k :
  slots !! i = Some Pubkey_default -> k <> Pubkey_default ->
  occupied (<[i := k]> slots) ≡ₚ k :: occupied slots.
Proof.
  intros Hi Hk. rewrite (occupied_vacate (<[i := k]> slots) i k); [|by apply list_lookup_insert_eq, lookup_lt_Some with Pubkey_default|done].
  by rewrite list_insert_insert_eq, list_insert_id.
Qed.

Lemma slot_set_size n slots : slots_ok n slots -> size (slot_set slots) = length (occupied slots).
Proof. intros [_ Hd]. unfold slot_set. by apply size_list_to_set. Qed.

Lemma occupied_full slots : Pubkey_default ∉ slots -> occupied slots = slots.
Proof.
  induction slots as [|k slots IH]; [done|]. rewrite not_elem_of_cons. intros [Hk Hs].
  unfold occupied in *. rewrite filter_cons, decide_True by auto. by rewrite IH.
Qed.

Lemma free_slot n slots :
  slots_ok n slots -> Pubkey_default ∈ slots <-> (size (slot_set slots) < n)%nat.
Proof.
  intros Hok. rewrite (slot_set_size n) by done. destruct Hok as [<- _]. unfold occupied. split.
  - intros Hin. apply (length_filter_lt _ _ Pubkey_default); [done|]. by intros [].
  - intros Hlt. destruct (decide (Pubkey_default ∈ slots)) as [|Hn]; [done|].
    pose proof (occupied_full slots Hn) as E. unfold occupied in E. rewrite E in Hlt. lia.
Qed.

Lemma replace_admin_Some k new slots slots' :
  replace_admin k new slots = Some slots' ->
  exists i, slots !! i = Some k /\ slots' = <[i := new]> slots.
Proof.
  unfold replace_admin. destruct (position _ _) as [i|] eqn:E; cbn; [|done]. intros [= <-].
  apply position_Some in E as (x & Hx & Hk). apply key_eqb_eq in Hk as ->. eauto.
Qed.

Lemma replace_admin_None k new slots : replace_admin k new slots = None <-> k ∉ slots.
Proof.
  unfold replace_admin. destruct (position _ _) as [i|] eqn:E; cbn.
  - split; [done|]. intros Hn. exfalso. apply Hn.
    apply position_Some in E as (x & Hx & Hk). apply key_eqb_eq in Hk as ->.
    by eapply list_elem_of_lookup_2.
  - split; [|done]. intros _ Hin. rewrite position_None in E.
    apply list_elem_of_In in Hin. specialize (E k Hin). by rewrite key_eqb_refl in E.
Qed.

Lemma occupy_ok n slots i k :
  slots_ok n slots -> slots !! i = Some Pubkey_default -> k <> Pubkey_default -> k ∉ slots ->
  slots_ok n (<[i := k]> slots) /\ slot_set (<[i := k]> slots) = {[k]} ∪ slot_set slots.
Proof.
  intros [Hl Hd] Hi Hk Hn. pose proof (occupied_occupy slots i k Hi Hk) as Hp. split.
  - split; [by rewrite length_insert|]. rewrite Hp. constructor; [|done].
    unfold occupied. rewrite list_elem_of_filter. tauto.
  - unfold slot_set. apply leibniz_equiv. by rewrite Hp, list_to_set_cons.
Qed.

Lemma vacate_ok n slots i k :
  slots_ok n slots -> slots !! i = Some k -> k <> Pubkey_default ->
  slots_ok n (<[i := Pubkey_default]> slots) /\
  slot_set (<[i := Pubkey_default]> slots) = slot_set slots ∖ {[k]}.
Proof.
  intros [Hl Hd] Hi Hk. pose proof (occupied_vacate slots i k Hi Hk) as Hp.
  rewrite Hp in Hd. apply NoDup_cons in Hd as [Hnin Hd]. split.
  - split; [by rewrite length_insert|done].
  - unfold slot_set. rewrite Hp, list_to_set_cons.
    assert (k ∉ (list_to_set (occupied (<[i:=Pubkey_default]> slots)) : gset Pubkey))
      by (by rewrite elem_of_list_to_set). set_solver.
Qed.

(** ** The roles of a state *)

Definition admin_set (s : State.t) : gset Pubkey := slot_set (State.admins s).
Definition approver_slots (s : State.t) : list Pubkey := [State.approver1 s; State.approver2 s].
Definition approver_set (s : State.t) : gset Pubkey := slot_set (approver_slots s).

Record roles_ok (s : State.t) : Prop := {
  ro_admins : slots_ok MAX_ADMINS (State.admins s);
  ro_approvers : slots_ok 2 (approver_slots s)
}.

Lemma add_admin_Ok a s s' :
  roles_ok s -> add_admin_state a s = Ok s' ->
  roles_ok s' /\ a <> Pubkey_default /\ a ∉ admin_set s /\ (size (admin_set s) < MAX_ADMINS)%nat /\
  admin_set s' = {[a]} ∪ admin_set s /\ approver_set s' = approver_set s.
Proof.
  intros [Ha Hp] H. unfold add_admin_state in H. inv_res.
  match goal with H : replace_admin _ _ _ = Some _ |- _ =>
    apply replace_admin_Some in H as (i & Hi & ->) end.
  assert (a ∉ State.admins s) as Hn by (rewrite <- mem_key_elem; congruence).
  assert (a <> Pubkey_default) as Hd
    by (intros ->; apply Hn; by eapply list_elem_of_lookup_2).
  destruct (occupy_ok _ _ _ _ Ha Hi Hd Hn) as [Hok Hset].
  split; [by split|]. split; [done|]. split; [unfold admin_set; rewrite elem_of_slot_set; tauto|].
  split; [|by split]. apply (free_slot MAX_ADMINS); [done|]. by eapply list_elem_of_lookup_2.
Qed.

Lemma add_admin_Err a s e :
  roles_ok s -> add_admin_state a s = Err e ->
  ((a ∈ admin_set s \/ a = Pubkey_default /\ (size (admin_set s) < MAX_ADMINS)%nat) /\
     e = Onre OnreError.AdminAlreadyExists) \/
  (size (admin_set s) = MAX_ADMINS /\ e = Onre OnreError.MaxAdminsReached).
Proof.
  intros [Ha Hp] H. unfold add_admin_state in H.
  destruct (mem_key a (State.admins s)) eqn:Hm; cbn in H.
  - left. injection H as <-. apply mem_key_elem in Hm. split; [|done].
    unfold admin_set. rewrite elem_of_slot_set. destruct (decide (a = Pubkey_default)) as [->|]; [|by left].
    right. split; [done|]. by apply (free_slot MAX_ADMINS).
  - right. destruct (replace_admin _ _ _) as [l|] eqn:E; cbn in H; [done|]. injection H as <-.
    split; [|done]. apply replace_admin_None in E. unfold admin_set.
    rewrite (slot_set_size _ _ Ha), occupied_full by done. apply Ha.
Qed.

Lemma remove_admin_Ok a s s' :
  roles_ok s -> a <> Pubkey_default -> remove_admin_state a s = Ok s' ->
  roles_ok s' /\ a ∈ admin_set s /\ admin_set s' = admin_set s ∖ {[a]} /\
  approver_set s' = approver_set s.
Proof.
  intros [Ha Hp] Hd H. unfold remove_admin_state in H. inv_res.
  match goal with H : replace_admin _ _ _ = Some _ |- _ =>
    apply replace_admin_Some in H as (i & Hi & ->) end.
  destruct (vacate_ok _ _ _ _ Ha Hi Hd) as [Hok Hset].
  split; [by split|]. split; [|by split].
  apply elem_of_slot_set. split; [done|]. by eapply list_elem_of_lookup_2.
Qed.

Lemma remove_default_admin_noop s s' :
  remove_admin_state Pubkey_default s = Ok s' -> s' = s /\ Pubkey_default ∈ State.admins s.
Proof.
  intros H. unfold remove_admin_state in H. inv_res.
  match goal with H : replace_admin _ _ _ = Some _ |- _ =>
    apply replace_admin_Some in H as (i & Hi & ->) end.
  rewrite list_insert_id by done. split; [by destruct s|]. by eapply list_elem_of_lookup_2.
Qed.

Lemma remove_admin_Err a s e :
  roles_ok s -> remove_admin_state a s = Err e ->
  e = Onre OnreError.AdminNotFound /\ a ∉ admin_set s /\
  (a = Pubkey_default -> size (admin_set s) = MAX_ADMINS).
Proof.
  intros [Ha _] H. unfold remove_admin_state in H. destruct (replace_admin _ _ _) eqn:Er; [done|].
  injection H as <-. apply replace_admin_None in Er. unfold admin_set. split; [done|].
  split; [rewrite elem_of_slot_set; tauto|]. intros ->.
  rewrite (slot_set_size _ _ Ha), occupied_full by done. apply Ha.
Qed.

Lemma clear_admins_ok s :
  roles_ok s -> roles_ok (clear_admins_state s) /\ admin_set (clear_admins_state s) = ∅ /\
  approver_set (clear_admins_state s) = approver_set s.
Proof.
  intros [Ha Hp]. split; [|by split]. split; [|exact Hp]. split; [done|]. constructor.
Qed.

(** The approver fields as two slots. *)
Lemma approver_full s :
  slots_ok 2 (approver_slots s) ->
  State.approver1 s <> Pubkey_default -> State.approver2 s <> Pubkey_default ->
  size (approver_set s) = 2%nat.
Proof.
  intros Hp H1 H2. unfold approver_set. rewrite (slot_set_size _ _ Hp), occupied_full; [done|].
  unfold approver_slots. rewrite !not_elem_of_cons. by repeat split; [| |apply not_elem_of_nil].
Qed.

Lemma add_approver_Ok a s s' :
  roles_ok s -> add_approver_state a s = Ok s' ->
  roles_ok s' /\ a <> Pubkey_default /\ a ∉ approver_set s /\
  approver_set s' = {[a]} ∪ approver_set s /\ admin_set s' = admin_set s.
Proof.
  intros [Ha Hp] H. unfold add_approver_state in H.
  destruct (key_eqb a Pubkey_default) eqn:Hd; [done|]. apply key_eqb_neq in Hd.
  destruct (_ || _) eqn:Hn; [done|]. apply orb_false_iff in Hn as [Hn1 Hn2].
  apply key_eqb_neq in Hn1, Hn2.
  assert (a ∉ approver_slots s) as Hn.
  { unfold approver_slots. rewrite !not_elem_of_cons. repeat split; [auto..|apply not_elem_of_nil]. }
  assert (a ∉ approver_set s) by (unfold approver_set; rewrite elem_of_slot_set; tauto).
  destruct (key_eqb (State.approver1 s) Pubkey_default) eqn:H1.
  - apply key_eqb_eq in H1. simplify_eq.
    destruct (occupy_ok 2 (approver_slots s) 0 a Hp) as [Hok Hset]; [cbn; congruence|done..|].
    split; [split; [exact Ha|exact Hok]|by repeat split].
  - destruct (key_eqb (State.approver2 s) Pubkey_default) eqn:H2; [|done]. apply key_eqb_eq in H2.
    simplify_eq. destruct (occupy_ok 2 (approver_slots s) 1 a Hp) as [Hok Hset]; [cbn; congruence|done..|].
    split; [split; [exact Ha|exact Hok]|by repeat split].
Qed.

Lemma remove_approver_Ok a s s' :
  roles_ok s -> remove_approver_state a s = Ok s' ->
  roles_ok s' /\ a ∈ approver_set s /\ approver_set s' = approver_set s ∖ {[a]} /\
  admin_set s' = admin_set s.
Proof.
  intros [Ha Hp] H. unfold remove_approver_state in H.
  destruct (key_eqb a Pubkey_default) eqn:Hd; [done|]. apply key_eqb_neq in Hd.
  assert (Hv : forall i, approver_slots s !! i = Some a ->
    slots_ok 2 (<[i := Pubkey_default]> (approver_slots s)) /\ a ∈ approver_set s /\
    slot_set (<[i := Pubkey_default]> (approver_slots s)) = approver_set s ∖ {[a]}).
  { intros i Hi. destruct (vacate_ok 2 (approver_slots s) i a Hp Hi Hd) as [Hok Hset].
    split; [done|]. split; [|done]. unfold approver_set. apply elem_of_slot_set. split; [done|].
    by eapply list_elem_of_lookup_2. }
  destruct (key_eqb (State.approver1 s) a) eqn:H1.
  - apply key_eqb_eq in H1. simplify_eq. destruct (Hv 0%nat eq_refl) as (Hok & Hin & Hset).
    split; [split; [exact Ha|exact Hok]|by repeat split].
  - destruct (key_eqb (State.approver2 s) a) eqn:H2; [|done]. apply key_eqb_eq in H2. simplify_eq.
    destruct (Hv 1%nat eq_refl) as (Hok & Hin & Hset).
    split; [split; [exact Ha|exact Hok]|by repeat split].
Qed.

(** C23: the admin slots refine a set of at most twenty keys.  Adding succeeds
    exactly for a key that is not the default, not yet an admin, while a slot is
    free, and inserts it.  Removing an admin deletes it; removing any other key fails
    with [AdminNotFound], but for the default key, which marks a free slot: while one
    is free its removal succeeds and changes nothing.  Clearing empties the set.
    Every failure has its error, and the approvers are untouched throughout. *)
Theorem admins_refine_set a s :
  roles_ok s ->
  let A := admin_set s in
  match add_admin_state a s with
  | Ok s' => a <> Pubkey_default /\ a ∉ A /\ (size A < MAX_ADMINS)%nat /\
             admin_set s' = {[a]} ∪ A /\ approver_set s' = approver_set s
  | Err e => (a ∈ A \/ a = Pubkey_default /\ (size A < MAX_ADMINS)%nat) /\
               e = Onre OnreError.AdminAlreadyExists \/
             size A = MAX_ADMINS /\ e = Onre OnreError.MaxAdminsReached
  end /\
  match remove_admin_state a s with
  | Ok s' => a ∈ A /\ admin_set s' = A ∖ {[a]} /\ approver_set s' = approver_set s \/
             a = Pubkey_default /\ (size A < MAX_ADMINS)%nat /\ s' = s
  | Err e => e = Onre OnreError.AdminNotFound /\ a ∉ A /\
             (a = Pubkey_default -> size A = MAX_ADMINS)
  end /\
  admin_set (clear_admins_state s) = ∅ /\ approver_set (clear_admins_state s) = approver_set s.
Proof.
  intros Hok A. split; [|split; [|by apply clear_admins_ok]].
  - destruct (add_admin_state a s) as [s'|e] eqn:E.
    + apply add_admin_Ok in E; [|done]. tauto.
    + by apply add_admin_Err.
  - destruct (remove_admin_state a s) as [s'|e] eqn:E; [|by apply remove_admin_Err].
    destruct (decide (a = Pubkey_default)) as [->|Hd].
    + right. apply remove_default_admin_noop in E as [-> Hin]. split; [done|]. split; [|done].
      by apply (free_slot MAX_ADMINS); [apply Hok|].
    + left. apply remove_admin_Ok in E; [|done..]. tauto.
Qed.

(** ** The invariant *)

Lemma roles_ok_same s s' :
  State.admins s' = State.admins s -> State.approver1 s' = State.approver1 s ->
  State.approver2 s' = State.approver2 s -> roles_ok s -> roles_ok s'.
Proof. intros E1 E2 E3 [Ha Hp]. split; unfold approver_slots in *; by rewrite ?E1, ?E2, ?E3. Qed.

Lemma remove_admin_roles a s s' : roles_ok s -> remove_admin_state a s = Ok s' -> roles_ok s'.
Proof.
  intros Hok H. destruct (decide (a = Pubkey_default)) as [->|Hn].
  - by apply remove_default_admin_noop in H as [-> _].
  - by apply remove_admin_Ok in H as [].
Qed.

Section invariant.
Context {R : Runtime} {L : Type} {TL : TokenLedger L}.
Implicit Types w : World L.

Lemma state_update_roles i s s' : roles_ok s -> state_update i s s' -> roles_ok s'.
Proof.
  intros Hok H. destruct i; cbn in H; try (by rewrite H);
    destruct_and?; subst; try (by eapply remove_admin_roles); try (by eapply add_admin_Ok);
    try (by eapply add_approver_Ok); try (by eapply remove_approver_Ok); try (by apply clear_admins_ok);
    unfold propose_boss_state, accept_boss_state, set_kill_switch_state, set_worker_state,
      set_main_offer_state in *; repeat match goal with H : exists _, _ |- _ => destruct H end;
    repeat case_match; inv_res; try done;
    by apply (roles_ok_same s).
Qed.

Lemma exec_roles tx i w w' :
  roles_ok (state w) -> exec tx i w = Ok (tt, w') -> roles_ok (state w').
Proof. intros Hok H. apply exec_state in H. by eapply state_update_roles. Qed.

(** No key ever occupies two slots.  In every world the program reaches from a
    well-formed one, there are exactly twenty admin slots, no admin occupies two
    of them, and the two approvers are different keys. *)
Theorem roles_invariant w w' :
  roles_ok (state w) -> rtc step w w' ->
  length (State.admins (state w')) = MAX_ADMINS /\ NoDup (occupied (State.admins (state w'))) /\
  (State.approver1 (state w') = State.approver2 (state w') ->
   State.approver1 (state w') = Pubkey_default).
Proof.
  intros Hok Hr. assert (roles_ok (state w')) as [[Hl Hd] [_ Ha]].
  { induction Hr as [w|w1 w2 w3 Hs _ IH]; [done|]. apply IH. destruct Hs; [by eapply exec_roles|done]. }
  split; [done|]. split; [done|]. intros E.
  destruct (decide (State.approver1 (state w') = Pubkey_default)) as [|Hn]; [done|]. exfalso.
  unfold occupied, approver_slots in Ha. rewrite <- E, !filter_cons, !decide_True in Ha by auto.
  apply NoDup_cons in Ha as [Hin _]. apply Hin. by left.
Qed.
End invariant.

(** ** Witnesses *)

Lemma sample_roles_ok : roles_ok (state Sample.world).
Proof.
  split; (split; [reflexivity|]).
  - change (NoDup [Sample.admin]). apply NoDup_singleton.
  - change (NoDup (@nil Pubkey)). constructor.
Qed.

Lemma admins_refine_set_witness :
  exists s', add_admin_state Sample.worker Sample.state = Ok s' /\
    Sample.worker ∉ admin_set Sample.state /\
    admin_set s' = {[Sample.worker]} ∪ admin_set Sample.state.
Proof.
  eexists. split; [reflexivity|].
  destruct (admins_refine_set Sample.worker Sample.state sample_roles_ok) as [(_ & Hn & _ & Hs & _) _]. exact (conj Hn Hs).
Defined.

Lemma roles_invariant_witness :
  let w' := Sample.after (add_admin Sample.boss Sample.worker) Sample.world in
  length (State.admins (state w')) = MAX_ADMINS /\ NoDup (occupied (State.admins (state w'))).
Proof.
  assert (E : is_ok (add_admin Sample.boss Sample.worker Sample.world) = true)
    by (vm_compute; reflexivity).
  destruct (roles_invariant Sample.world (Sample.after (add_admin Sample.boss Sample.worker) Sample.world)
    sample_roles_ok (rtc_once _ _ (step_exec _ Governed.tx (AddAdmin Sample.boss Sample.worker) _
      (after_Ok _ _ E)))) as (Hl & Hd & _).
  exact (conj Hl Hd).
Defined.
