(* ===== verification/TypedFacts.v ===== *)
(** * The stored accounts stay within their types

    [typed] - the ranges of the BUFFER's, the offers' and the redemption offers'
    fields that the other theorems assume - is an invariant of the program: every
    instruction with unsigned arguments preserves it.  The proof is by the rules
    for [keeps] of [Frames]; the lemmas on the calls are found in the hint database
    [typed]. *)

From stdpp Require Import relations.
From S2P Require Import World MathUtils OfferPricing Approval TokenUtils OfferHandlers MarketInfo Buffer Vaults Redemption TakeOffer PropAmmMath PropAmm Governance Program Frames Samples MarketFacts BufferFacts AccountFacts RedemptionFacts.
Open Scope Z_scope.

Create HintDb typed.

Section typed_facts.
Context {R : Runtime} {L : Type} {TL : TokenLedger L} {TLL : TokenLedgerLaws L}.
Implicit Types w : World L.

(** The accounts [typed] speaks of. *)
Definition typed_view w := (buffer_state w, offers w, redemption_offers w, prop_amm_pairs w).

Lemma typed_same w w' : same typed_view w w' -> typed w -> typed w'.
Proof. intros [= Eb Eo Er Ep] []. split; rewrite ?Eb, ?Eo, ?Er, ?Ep; auto. Qed.

Lemma yields_frame {A} (m : M L A) : within (same typed_view) m -> keeps (typed (L := L)) m (fun _ => True).
Proof. intros Hm w a w' Hw H. split; [|done]. by eapply typed_same; [eapply Hm|]. Qed.

(** ** The ranges *)

Definition offer_ok (o : Offer.t) : Prop :=
  vectors_unsigned o /\ 0 <= Offer.fee_basis_points o <= MAX_BASIS_POINTS /\
  0 <= Offer.permissionless_fee_basis_points o <= MAX_BASIS_POINTS.
Definition redemption_offer_ok (o : RedemptionOffer.t) : Prop :=
  0 <= RedemptionOffer.fee_basis_points o <= MAX_BASIS_POINTS /\
  0 <= RedemptionOffer.fee_basis_points_prop_amm_sell o <= MAX_BASIS_POINTS /\
  0 <= RedemptionOffer.vault_target_bps o <= MAX_BASIS_POINTS.
Definition supply_u64 (m : MintAccount) : Prop := 0 <= supply m <= u64.MAX.

(** ** Reads *)

Lemma yields_load_offer k : keeps (typed (L := L)) (load_account offers k) offer_ok.
Proof. intros w o w' Hw H. inv_m. split; [done|]. by eapply typed_offer. Qed.

Lemma yields_load_redemption_offer k : keeps (typed (L := L)) (load_account redemption_offers k) redemption_offer_ok.
Proof. intros w o w' Hw H. inv_m. split; [done|]. by eapply typed_redemption_offer. Qed.

Lemma yields_load_mint k : keeps (typed (L := L)) (load_mint k) supply_u64.
Proof using All.
  intros w m w' Hw H. pose proof (load_mint_fresh _ _ _ _ H) as [Hf _].
  apply load_mint_same in H as ->. split; [done|]. by eapply ledger_supply_u64.
Qed.

Lemma yields_reload m : keeps (typed (L := L)) (reload m) supply_u64.
Proof using All. apply yields_load_mint. Qed.

Lemma yields_load_buffer : keeps (typed (L := L)) load_buffer_state buffer_ok.
Proof.
  intros w b w' Hw H. unfold load_buffer_state in H.
  apply load_pda_account_Ok_inv in H as [Hl ->]. split; [done|]. by apply (typed_buffer w).
Qed.

Lemma yields_anchor_buffer : keeps (typed (L := L)) (anchor_account (T := BufferState.t)) buffer_ok.
Proof.
  intros w b w' Hw H. unfold anchor_account in H. inv_m.
  destruct (slot_get w) eqn:E; inv_m. split; [done|]. by apply (typed_buffer w).
Qed.

(** ** Writes *)

Lemma yields_store_buffer b : buffer_ok b -> keeps (typed (L := L)) (store_buffer_state b) (fun _ => True).
Proof.
  intros Hb w a w' [Hty1 Hty2 Hty3 Hty4] H. unfold store_buffer_state, store_pda_account in H. inv_m. split; [|done].
  split; auto. cbn. by intros b' [= <-].
Qed.

Lemma yields_store_offer k o : offer_ok o -> keeps (typed (L := L)) (store_offer k o) (fun _ => True).
Proof.
  intros Ho w a w' [Hty1 Hty2 Hty3 Hty4] H. unfold store_offer in H. inv_m. split; [|done]. split; auto. cbn.
  intros j o' [[_ <-]|[_ Hj]]%lookup_insert_Some; [done|by eapply Hty2].
Qed.

Lemma yields_store_redemption_offer k o :
  redemption_offer_ok o -> keeps (typed (L := L)) (store_redemption_offer k o) (fun _ => True).
Proof.
  intros Ho w a w' [Hty1 Hty2 Hty3 Hty4] H. unfold store_redemption_offer in H. inv_m. split; [|done]. split; auto. cbn.
  intros j o' [[_ <-]|[_ Hj]]%lookup_insert_Some; [done|by eapply Hty3].
Qed.

Lemma yields_load_pair k : keeps (typed (L := L)) (load_account prop_amm_pairs k) pair_ok.
Proof. intros w s w' Hw H. inv_m. split; [done|]. by eapply typed_pair. Qed.

Lemma yields_store_pair k s : pair_ok s -> keeps (typed (L := L)) (store_pair k s) (fun _ => True).
Proof.
  intros Ho w a w' [Hty1 Hty2 Hty3 Hty4] H. unfold store_pair in H. inv_m. split; [|done].
  split; auto. cbn. intros j s' [[_ <-]|[_ Hj]]%lookup_insert_Some; [done|by eapply Hty4].
Qed.
End typed_facts.

#[export] Hint Resolve keeps_ret keeps_lift keeps_guard yields_load_offer
  yields_load_redemption_offer yields_load_mint yields_reload yields_load_buffer
  yields_load_pair yields_store_pair yields_anchor_buffer yields_store_buffer yields_store_offer yields_store_redemption_offer : typed.

(** ** Following the code *)

(** A call: a known one, or one that leaves the typed accounts alone. *)
Ltac yields_call :=
  first [ solve [eauto 3 with typed]
        | solve [apply yields_frame; within ltac:(reflexivity)] ].

Ltac yields := repeat keeps_step yields_call.

(** A store, whose value has to be shown in range. *)
Ltac yields_store :=
  eapply keeps_bind;
  [first [apply yields_store_buffer | apply yields_store_offer | apply yields_store_redemption_offer
         | apply yields_store_pair]
  |intros ? _; yields].

(** The comparisons of the guards passed. *)
Ltac use_guards :=
  repeat match goal with H : (_ <=? _) = true |- _ => apply Z.leb_le in H end;
  unfold offer_ok, redemption_offer_ok, Offer.permissionless_fee_basis_points in *;
  unfold MAX_BUFFER_GROSS_APR, MAX_ALLOWED_FEE_BPS, MAX_BASIS_POINTS in *.

Section buffer.
Context {R : Runtime} {L : Type} {TL : TokenLedger L} {TLL : TokenLedgerLaws L}.

Lemma checked_add_u64 a b c : u64.checked_add a b = Some c -> 0 <= c <= u64.MAX.
Proof. unfold u64.checked_add. intros H. inv_checked. lia. Qed.

Lemma checked_sub_u64 a b c : u64.checked_sub a b = Some c -> 0 <= c <= u64.MAX.
Proof. unfold u64.checked_sub. intros H. inv_checked. lia. Qed.

Lemma baseline_ok x now b :
  0 <= x <= u64.MAX -> buffer_ok b -> buffer_ok (set_buffer_baseline_after_supply_change x now b).
Proof. by intros Hx []. Qed.

Lemma hwm_ok x b : buffer_ok b -> buffer_ok (BufferState.with_performance_fee_high_watermark x b).
Proof. by intros []. Qed.

Lemma yields_accrue st b o m r1 r2 r3 auth tp now :
  buffer_ok b -> supply_u64 m ->
  keeps (typed (L := L)) (accrue_buffer st b o m r1 r2 r3 auth tp now) (fun p => buffer_ok (fst p)).
Proof using All.
  intros Hb Hm. unfold accrue_buffer. yields; cbn [fst]; apply baseline_ok, hwm_ok, Hb; [exact Hm|].
  unfold math_overflow in *. inv_res. by eapply checked_add_u64.
Qed.

Lemma yields_accrue_from st a o m auth tp :
  supply_u64 m -> keeps (typed (L := L)) (accrue_buffer_from_accounts st a o m auth tp) (fun _ => True).
Proof using All.
  intros Hm. unfold accrue_buffer_from_accounts, Clock_get.
  keeps_step yields_call. cbv zeta. eapply keeps_bind; [yields_call|intros b Hb].
  keeps_step yields_call.
  eapply keeps_bind; [by apply yields_accrue|intros [b' r] Hb'].
  eapply keeps_bind; [apply yields_store_buffer, Hb'|intros ? _]. yields.
Qed.

Lemma yields_store_post x now :
  0 <= x <= u64.MAX -> keeps (typed (L := L)) (store_buffer_post_supply x now) (fun _ => True).
Proof.
  intros Hx. unfold store_buffer_post_supply. eapply keeps_bind; [yields_call|intros b Hb].
  by apply yields_store_buffer, baseline_ok.
Qed.

Lemma yields_store_post_offer r x e : keeps (typed (L := L)) (store_post_offer_supply r x e) (fun _ => True).
Proof.
  unfold store_post_offer_supply. destruct r; [|yields].
  keeps_step yields_call. inv_res. apply yields_store_post. by eapply checked_add_u64.
Qed.

Lemma yields_store_post_burn r x : keeps (typed (L := L)) (store_post_burn_supply r x) (fun _ => True).
Proof.
  unfold store_post_burn_supply, math_overflow. destruct r; [|yields].
  keeps_step yields_call. inv_res. apply yields_store_post. by eapply checked_sub_u64.
Qed.

Lemma yields_before_mint st c a mo m tp :
  supply_u64 m -> keeps (typed (L := L)) (accrue_before_mint st c a mo m tp) (fun _ => True).
Proof using All.
  intros Hm. unfold accrue_before_mint. destruct c; [|yields].
  keeps_step yields_call.
  eapply keeps_bind; [by apply yields_accrue_from|intros ? _]. yields.
Qed.

Lemma yields_before_burn st c a mo m tp :
  supply_u64 m -> keeps (typed (L := L)) (accrue_before_burn st c a mo m tp) (fun _ => True).
Proof using All.
  intros Hm. unfold accrue_before_burn. keeps_step yields_call.
  destruct (_ && _); [|yields].
  keeps_step yields_call.
  eapply keeps_bind; [by apply yields_accrue_from|intros ? _]. yields.
Qed.

Lemma yields_reload_if {A} (r : option A) m :
  supply_u64 m ->
  keeps (typed (L := L)) (match r with Some _ => reload m | None => mret m end) supply_u64.
Proof using All.
  intros Hm. destruct r; [apply yields_reload|]. eapply keeps_weaken; [apply keeps_ret|by intros ? ->].
Qed.
End buffer.

#[export] Hint Resolve yields_accrue yields_accrue_from yields_store_post_offer
  yields_store_post_burn yields_before_mint yields_before_burn yields_reload_if : typed.

(** ** The instructions that change a typed account *)

Section instructions.
Context {R : Runtime} {L : Type} {TL : TokenLedger L} {TLL : TokenLedgerLaws L}.

Lemma yields_token_accounts ctx :
  keeps (typed (L := L)) (take_offer_token_accounts ctx) (fun p => supply_u64 (fst p) /\ supply_u64 (snd p)).
Proof using All. unfold take_offer_token_accounts. yields. Qed.

Lemma yields_take_v2 tx ctx amount msg :
  keeps (typed (L := L)) (take_offer_v2 tx ctx amount msg) (fun _ => True).
Proof using All.
  unfold take_offer_v2, TakeOfferV2_accounts, take_offer_token_accounts. cbv zeta. yields.
Qed.

Lemma yields_settle ctx : keeps (typed (L := L)) (settle_buffer ctx) (fun _ => True).
Proof using All. unfold settle_buffer, SettleBuffer_accounts, settle. yields. Qed.

Lemma roll_pair_ok s now s' : pair_ok s -> roll_prop_amm_volume_tracker s now = Ok s' -> pair_ok s'.
Proof.
  intros [] H. unfold roll_prop_amm_volume_tracker in H. inv_res.
  destruct (_ || _); [simplify_eq; by split|]. inv_res.
  destruct (_ <=? _); [simplify_eq; by split|]. destruct (_ <=? _); simplify_eq; [|done].
  split; cbn; try done. unfold u64.saturating_sub, clamp. zlia.
Qed.

Lemma record_sell_pair_ok s x now s' : pair_ok s -> record_prop_amm_sell s x now = Ok s' -> pair_ok s'.
Proof.
  intros Hs H. unfold record_prop_amm_sell, mul_overflow in H. inv_res.
  match goal with H : roll_prop_amm_volume_tracker _ _ = Ok _ |- _ => apply roll_pair_ok in H as []; [|done] end.
  inv_checked. by split.
Qed.

Lemma record_buy_pair_ok s x now s' : pair_ok s -> record_prop_amm_buy s x now = Ok s' -> pair_ok s'.
Proof.
  intros Hs H. unfold record_prop_amm_buy, mul_overflow in H. inv_res.
  match goal with H : roll_prop_amm_volume_tracker _ _ = Ok _ |- _ => apply roll_pair_ok in H as []; [|done] end.
  inv_checked. by split.
Qed.

Lemma yields_open_buy ctx amount minimum : keeps (typed (L := L)) (open_swap_buy ctx amount minimum) (fun _ => True).
Proof using All.
  unfold open_swap_buy, buy_settle, OpenSwapBuy_accounts, pair_account. yields. yields_store.
  by eapply record_buy_pair_ok.
Qed.

Lemma yields_open_sell ctx amount minimum : keeps (typed (L := L)) (open_swap_sell ctx amount minimum) (fun _ => True).
Proof using All.
  unfold open_swap_sell, sell_settle, OpenSwapSell_accounts, pair_account. cbv zeta. yields. yields_store.
  by eapply record_sell_pair_ok.
Qed.

(** The numbers of a configuration are in the range of their types. *)
Definition config_unsigned (c : PropAmmConfig) : Prop :=
  0 <= pc_curve_peg_haircut_bps c /\ 0 <= pc_curve_exponent_scaled c /\
  0 <= pc_cadence_threshold c <= u32.MAX /\ 0 <= pc_cadence_wave_scaled c /\
  pc_epoch_duration_seconds c <= i64.MAX /\ 0 <= pc_wall_sensitivity_scaled c <= u32.MAX /\
  0 <= pc_minimum_sell_haircut_onyc c <= u64.MAX.

Lemma configure_accounts_Ok o m k b st offer s w w' :
  typed w -> ConfigurePropAmm_accounts o m k b w = Ok ((st, offer, s), w') -> w' = w /\ pair_ok s.
Proof using All.
  intros Hw H. unfold ConfigurePropAmm_accounts in H. inv_m. inv_accounts.
  destruct (prop_amm_pairs _ !! k) as [p|] eqn:E; inv_m.
  - split; [done|]. by eapply typed_pair.
  - destruct (create_account_succeeds b k); inv_m. split; [done|]. by split.
Qed.

Lemma yields_configure o m k b c :
  config_unsigned c -> keeps (typed (L := L)) (configure_prop_amm o m k b c) (fun _ => True).
Proof using All.
  intros Hc. unfold configure_prop_amm.
  eapply keeps_bind with (Q := fun p => pair_ok (snd p)).
  { intros w [[st offer] s] w' Hw H. by apply configure_accounts_Ok in H as [-> Hs]. }
  intros [[st offer] s] []. cbn in *. yields. yields_store.
  unfold config_unsigned, validate_config in *. inv_res. use_guards. split; cbn; tauto || lia.
Qed.

Lemma yields_take_permissionless_v2 ctx amount :
  keeps (typed (L := L)) (take_offer_permissionless_v2 ctx amount) (fun _ => True).
Proof using All.
  unfold take_offer_permissionless_v2, take_offer_token_accounts, execute_take_offer_permissionless, permissionless_settle.
  cbv zeta. cbn [fst fmap option_fmap option_map]. yields.
Qed.

Lemma yields_take_permissionless ctx boss ba pa pin pout sysvar amount :
  keeps (typed (L := L)) (take_offer_permissionless ctx boss ba pa pin pout sysvar amount) (fun _ => True).
Proof using All.
  unfold take_offer_permissionless, execute_take_offer_permissionless, permissionless_settle. cbv zeta.
  cbn [fst fmap option_fmap option_map]. yields.
Qed.

Lemma yields_mint_to ctx account amount : keeps (typed (L := L)) (mint_to ctx account amount) (fun _ => True).
Proof using All.
  unfold mint_to, MintTo_accounts. cbv zeta. yields.
  eapply keeps_bind with (Q := fun _ => True).
  { destruct (should_accrue_onyc_mint _ _ _ _); yields. }
  intros r _. yields.
Qed.

Lemma yields_set_gross_apr ctx g :
  0 <= g -> keeps (typed (L := L)) (set_buffer_gross_apr ctx g) (fun _ => True).
Proof using All.
  intros Hg. unfold set_buffer_gross_apr, SetBufferGrossYield_accounts, SetBuffer_accounts, settle.
  yields. yields_store. use_guards.
  match goal with H : buffer_ok _ |- _ => destruct H end. split; cbn; try done. zlia.
Qed.

Lemma yields_set_fee_config ctx m p h :
  0 <= m -> 0 <= p -> keeps (typed (L := L)) (set_buffer_fee_config ctx m p h) (fun _ => True).
Proof using All.
  intros Hm Hp. unfold set_buffer_fee_config, SetBufferFeeConfig_accounts, SetBuffer_accounts, settle.
  cbv zeta. yields. yields_store. use_guards.
  match goal with H : buffer_ok _ |- _ => destruct H end. split; cbn; done.
Qed.

Lemma yields_burn ctx x : keeps (typed (L := L)) (burn_for_nav_increase ctx x) (fun _ => True).
Proof using All.
  unfold burn_for_nav_increase, BurnForNavIncrease_accounts. cbv zeta. yields. yields_store.
  apply baseline_ok; [|done]. unfold math_overflow in *. inv_res. by eapply checked_sub_u64.
Qed.

Lemma yields_initialize boss m o r1 r2 r3 tp :
  keeps (typed (L := L)) (initialize_buffer boss m o r1 r2 r3 tp) (fun _ => True).
Proof using All.
  unfold initialize_buffer. cbv zeta. yields. yields_store. split; cbn; done.
Qed.

(** Offers. *)

Lemma vectors_with vs o :
  offer_ok o -> Forall (fun v => 0 <= OfferVector.apr v /\ 0 <= OfferVector.start_time v) vs ->
  offer_ok (Offer.with_vectors vs o).
Proof. by intros (_ & ? & ?) Hv. Qed.

Lemma cleared_ok (f : OfferVector.t -> OfferVector.t) vs :
  (forall v, f v = v \/ f v = OfferVector.default) ->
  Forall (fun v => 0 <= OfferVector.apr v /\ 0 <= OfferVector.start_time v) vs ->
  Forall (fun v => 0 <= OfferVector.apr v /\ 0 <= OfferVector.start_time v) (map f vs).
Proof.
  intros Hf H. induction H as [|v vs Hv _ IH]; cbn; constructor; [|done].
  destruct (Hf v) as [->| ->]; [done|cbn; lia].
Qed.

Lemma clean_ok o v now o' ev :
  offer_ok o -> clean_old_vectors o v now = Ok (o', ev) -> offer_ok o'.
Proof.
  intros Ho H. unfold clean_old_vectors in H. cbv zeta in H.
  destruct (if OfferVector.start_time v =? now then _ else _); [|by simplify_eq].
  inv_res. apply vectors_with, cleared_ok, Ho; [done|]. intros x. destruct (evictable _ _ _); auto.
Qed.

Lemma add_vector_ok o now v o' ev :
  offer_ok o -> 0 <= OfferVector.apr v /\ 0 <= OfferVector.start_time v ->
  add_vector o now v = Ok (o', ev) -> offer_ok o'.
Proof.
  intros Ho Hv H. unfold add_vector in H. inv_res.
  match goal with H : clean_old_vectors _ _ _ = Ok ?p |- _ =>
    destruct p; apply clean_ok in H; [|done] end. inv_res.
  apply vectors_with; [done|].
  match goal with |- Forall _ (<[_ := _]> (Offer.vectors ?t)) =>
    assert (offer_ok t) as [Hu _] by done end.
  by apply Forall_insert.
Qed.

Lemma yields_add_vector ctx st bt bp apr d :
  (forall t, st = Some t -> 0 <= t) -> 0 <= bt -> 0 <= apr ->
  keeps (typed (L := L)) (add_offer_vector ctx st bt bp apr d) (fun _ => True).
Proof using All.
  intros Hst Hbt Ha. unfold add_offer_vector, AddOfferVector_accounts, offer_admin_accounts, offer_accounts.
  cbv zeta. yields. yields_store. eapply add_vector_ok; [eassumption| |eassumption].
  split; [done|]. destruct st; cbn; [by apply Hst|]. lia.
Qed.

Lemma yields_delete_vector ctx t : keeps (typed (L := L)) (delete_offer_vector ctx t) (fun _ => True).
Proof using All.
  unfold delete_offer_vector, DeleteOfferVector_accounts, offer_admin_accounts, offer_accounts.
  yields. yields_store. unfold delete_vector in *. inv_res.
  apply vectors_with; [done|]. match goal with H : offer_ok _ |- _ => destruct H as [Hu _] end.
  by apply Forall_insert.
Qed.

Lemma yields_delete_all ctx : keeps (typed (L := L)) (delete_all_offer_vectors ctx) (fun _ => True).
Proof using All.
  unfold delete_all_offer_vectors, DeleteAllOfferVectors_accounts, offer_admin_accounts, offer_accounts,
    delete_all_vectors. yields. yields_store. apply vectors_with, cleared_ok; [done| |by destruct Hv].
  intros v. destruct (_ =? _); auto.
Qed.

(** A record whose changed fields passed the guards. *)
Ltac in_range := use_guards; cbn; split_and?; tauto || lia || done.

Lemma yields_offer_fee ctx fee :
  0 <= fee -> keeps (typed (L := L)) (update_offer_fee ctx fee) (fun _ => True).
Proof using All.
  intros Hf. unfold update_offer_fee, UpdateOfferFee_accounts, offer_admin_accounts, offer_accounts.
  yields; yields_store; in_range.
Qed.

Lemma yields_offer_permissionless_fee ctx fee :
  0 <= fee -> keeps (typed (L := L)) (update_offer_permissionless_fee ctx fee) (fun _ => True).
Proof using All.
  intros Hf. unfold update_offer_permissionless_fee, UpdateOfferPermissionlessFee_accounts,
    offer_admin_accounts, offer_accounts. yields; yields_store; in_range.
Qed.

Lemma yields_offer_disabled k s d : keeps (typed (L := L)) (set_offer_disabled k s d) (fun _ => True).
Proof using All. unfold set_offer_disabled. yields; yields_store; in_range. Qed.

Lemma yields_make_offer ctx fee n a :
  0 <= fee -> keeps (typed (L := L)) (make_offer ctx fee n a) (fun _ => True).
Proof using All.
  intros Hf. unfold make_offer. cbv zeta. yields. yields_store.
  split; [by apply Forall_replicate|in_range].
Qed.

(** Redemption offers. *)

Lemma yields_make_redemption_offer ctx fee sell_fee :
  0 <= fee -> 0 <= sell_fee ->
  keeps (typed (L := L)) (make_redemption_offer ctx fee sell_fee) (fun _ => True).
Proof using All. intros. unfold make_redemption_offer. yields; yields_store; in_range. Qed.

Lemma yields_redemption_fee k b fee :
  0 <= fee -> keeps (typed (L := L)) (update_redemption_offer_fee k b fee) (fun _ => True).
Proof using All.
  intros. unfold update_redemption_offer_fee, UpdateRedemptionOfferFee_accounts, redemption_offer_account.
  yields; yields_store; in_range.
Qed.

Lemma yields_redemption_sell_fee k b fee :
  0 <= fee -> keeps (typed (L := L)) (update_redemption_offer_prop_amm_sell_fee k b fee) (fun _ => True).
Proof using All.
  intros. unfold update_redemption_offer_prop_amm_sell_fee, UpdateRedemptionOfferFee_accounts,
    redemption_offer_account. yields; yields_store; in_range.
Qed.

Lemma yields_redemption_target k b x :
  0 <= x -> keeps (typed (L := L)) (update_redemption_offer_vault_target k b x) (fun _ => True).
Proof using All.
  intros. unfold update_redemption_offer_vault_target, UpdateRedemptionOfferFee_accounts,
    redemption_offer_account. yields; yields_store; in_range.
Qed.

Lemma yields_redemption_disabled k s d :
  keeps (typed (L := L)) (set_redemption_offer_disabled k s d) (fun _ => True).
Proof using All.
  unfold set_redemption_offer_disabled, redemption_offer_account. yields; yields_store; in_range.
Qed.

Lemma yields_create ctx amount : keeps (typed (L := L)) (create_redemption_request ctx amount) (fun _ => True).
Proof using All.
  unfold create_redemption_request, CreateRedemptionRequest_accounts, redemption_offer_account. cbv zeta.
  yields; yields_store; in_range.
Qed.

Lemma yields_cancel ctx : keeps (typed (L := L)) (cancel_redemption_request ctx) (fun _ => True).
Proof using All.
  unfold cancel_redemption_request, CancelRedemptionRequest_accounts, redemption_offer_account. cbv zeta.
  yields; yields_store; in_range.
Qed.

Lemma yields_load_checked ok k mi mo :
  keeps (typed (L := L)) (load_redemption_offer ok k mi mo) redemption_offer_ok.
Proof using All.
  intros w ro w' Hw H. apply load_redemption_offer_Ok in H as (-> & Hro & _). split; [done|].
  by eapply typed_redemption_offer.
Qed.
#[local] Hint Resolve yields_load_checked : typed.

Lemma yields_fulfill ctx amount : keeps (typed (L := L)) (fulfill_redemption_request ctx amount) (fun _ => True).
Proof using All.
  unfold fulfill_redemption_request, execute_fulfill_redemption_request, record_fulfillment. cbv zeta.
  yields; yields_store; in_range.
Qed.
End instructions.

#[export] Hint Resolve yields_take_v2 yields_take_permissionless yields_mint_to yields_take_permissionless_v2 yields_settle yields_open_buy
  yields_open_sell yields_set_gross_apr yields_set_fee_config yields_burn yields_initialize
  yields_add_vector yields_delete_vector yields_delete_all yields_offer_fee
  yields_offer_permissionless_fee yields_offer_disabled yields_make_offer
  yields_make_redemption_offer yields_redemption_fee yields_redemption_sell_fee
  yields_redemption_target yields_redemption_disabled yields_create yields_cancel
  yields_fulfill yields_configure : typed.

(** ** Every instruction *)

(** The numbers among the arguments are unsigned: the instruction data has no
    encoding of a negative [u16] or [u64]. *)
Definition unsigned_arguments (i : instruction) : Prop :=
  match i with
  | MakeOfferIx _ fee _ _ | UpdateOfferFee _ fee | UpdateOfferPermissionlessFee _ fee
  | UpdateRedemptionOfferFee _ _ fee | UpdateRedemptionOfferPropAmmSellFee _ _ fee => 0 <= fee
  | UpdateRedemptionOfferVaultTarget _ _ target => 0 <= target
  | AddOfferVector _ start base_time _ apr _ =>
      (forall t, start = Some t -> 0 <= t) /\ 0 <= base_time /\ 0 <= apr
  | ConfigurePropAmm _ _ _ _ config => config_unsigned config
  | SetBufferGrossApr _ gross_yield => 0 <= gross_yield
  | SetBufferFeeConfig _ management performance _ => 0 <= management /\ 0 <= performance
  | MakeRedemptionOfferIx _ fee sell_fee => 0 <= fee /\ 0 <= sell_fee
  | _ => True
  end.

Section every.
Context {R : Runtime} {L : Type} {TL : TokenLedger L} {TLL : TokenLedgerLaws L}.
Implicit Types w : World L.

Inductive unsigned_step w : World L -> Prop :=
| unsigned_exec tx i w' : unsigned_arguments i -> exec tx i w = Ok (tt, w') -> unsigned_step w w'
| unsigned_environment c l : unsigned_step w (environment c l w).

Lemma yields_exec tx i : unsigned_arguments i -> keeps (typed (L := L)) (exec tx i) (fun _ => True).
Proof using All.
  intros Hi. destruct i; cbn [exec unsigned_arguments] in *; destruct_and?; yields_call.
Qed.

Lemma typed_exec tx i w w' : typed w -> unsigned_arguments i -> exec tx i w = Ok (tt, w') -> typed w'.
Proof using All. intros Hw Hi H. by eapply (yields_exec tx i). Qed.

(** The ranges the other theorems assume of the stored accounts - unsigned vector
    fields, fees of at most 100%, a BUFFER whose yield, supply and fees are in
    range - hold in every state the program reaches from one where they hold, in
    particular from one without accounts, whatever anybody does with the token
    programs in between. *)
Theorem typed_reachable w w' : typed w -> rtc unsigned_step w w' -> typed w'.
Proof using All.
  intros Hw Hs. induction Hs as [|w w1 w2 Hs _ IH]; [done|]. apply IH.
  destruct Hs as [tx i w1 Hi H|c l]; [by eapply typed_exec|]. by eapply (typed_same w).
Qed.
End every.

(** ** Witness *)

Lemma sample_typed : typed Sample.world.
Proof.
  split.
  - intros b [= <-]. apply sample_buffer_ok.
  - intros k o H. cbn in H. apply lookup_singleton_Some in H as [_ <-]. split; [apply sample_unsigned|].
    cbn. unfold MAX_BASIS_POINTS. lia.
  - intros k o H. cbn in H. apply lookup_singleton_Some in H as [_ <-]. cbn. unfold MAX_BASIS_POINTS. lia.
  - intros k s H. cbn in H. by apply lookup_empty_Some in H.
Qed.

Definition settled : World SampleLedger.t :=
  Sample.after (settle_buffer (Sample.buffer_ctx Sample.worker)) Sample.world.

Lemma typed_reachable_witness : typed settled.
Proof.
  apply (typed_reachable Sample.world); [exact sample_typed|]. apply rtc_once.
  apply (unsigned_exec _ (mkInstructionsSysvar 0 []) (SettleBuffer (Sample.buffer_ctx Sample.worker)));
    [exact I|]. apply after_Ok. exact settle_runs.
Defined.
