(* ===== verification/StoreInvariant.v ===== *)
(** * The offers, pairs and vaults of the program

    [store_ok] - every offer is at the address of its pair of mints with
    well-formed price vectors, every prop AMM pair at the address of its offer, and
    every configurable vault at the address of its kind - is an invariant of the
    program.  The proof is by the rules for [keeps]; the lemmas on the calls are in
    the hint database [stored]. *)

From stdpp Require Import relations.
From S2P Require Import World MathUtils OfferPricing Approval TokenUtils OfferHandlers MarketInfo Buffer Vaults Redemption TakeOffer PropAmmMath PropAmm Governance Program Frames.
Open Scope Z_scope.

Create HintDb stored.

Section store.
Context {R : Runtime} {L : Type} {TL : TokenLedger L}.
Implicit Types w : World L.

Definition stored_offer (k : Pubkey) (o : Offer.t) : Prop :=
  k = offer_pda (Offer.token_in_mint o) (Offer.token_out_mint o) /\ vectors_wf (Offer.vectors o).

Definition stored_pair (k : Pubkey) (s : PropAmmPairState.t) : Prop :=
  k = pda (pair_seeds (PropAmmPairState.offer s)).

Definition stored_vault (k : Pubkey) (v : option ConfigurableVault.t) : Prop :=
  exists kind v', k = vault_key kind /\ v = Some v' /\
    ConfigurableVault.kind v' = ConfigurableVaultKind.as_u8 kind.

(** The clock of a live network is past the Unix epoch: the code reads an empty
    slot of the vectors off its start time, zero. *)
Record store_ok w : Prop := {
  ok_clock : 0 < timestamp_u64 (clock w);
  ok_offer k o : offers w !! k = Some o -> stored_offer k o;
  ok_pair k s : prop_amm_pairs w !! k = Some s -> stored_pair k s;
  ok_vault k v : vaults w !! k = Some v -> stored_vault k v
}.

Definition store_view w := (clock w, offers w, prop_amm_pairs w, vaults w).

Lemma store_same w w' : same store_view w w' -> store_ok w -> store_ok w'.
Proof. unfold same, store_view. intros [= Ec Eo Ep Ev] []. split; rewrite ?Ec, ?Eo, ?Ep, ?Ev; auto. Qed.

Lemma stored_frame {A} (m : M L A) : within (same store_view) m -> keeps store_ok m (fun _ => True).
Proof. apply keeps_frame, store_same. Qed.

Lemma stored_clock : keeps store_ok Clock_get (fun c => 0 < timestamp_u64 c).
Proof. intros w c w' Hw H. unfold Clock_get in H. inv_m. split; [done|]. apply ok_clock, Hw. Qed.

Lemma stored_load_offer k : keeps store_ok (load_account offers k) (stored_offer k).
Proof. intros w o w' Hw H. inv_m. split; [done|]. by eapply ok_offer. Qed.

Lemma stored_load_pair k : keeps store_ok (load_account prop_amm_pairs k) (stored_pair k).
Proof. intros w o w' Hw H. inv_m. split; [done|]. by eapply ok_pair. Qed.

Lemma stored_store_offer k o :
  stored_offer k o -> keeps store_ok (store_offer k o) (fun _ => True).
Proof.
  intros Hk w u w' [Hc Ho Hp Hv] H. unfold store_offer in H. inv_m. split; [|done].
  split; [done| |done..]. cbn. intros j o' [[-> ->]|[_ Hj]]%lookup_insert_Some; [done|by apply Ho].
Qed.

Lemma stored_store_pair k s :
  stored_pair k s -> keeps store_ok (store_pair k s) (fun _ => True).
Proof.
  intros Hk w u w' [Hc Ho Hp Hv] H. unfold store_pair in H. inv_m. split; [|done].
  split; [done..| |done]. cbn. intros j s' [[-> ->]|[_ Hj]]%lookup_insert_Some; [done|by apply Hp].
Qed.

Lemma stored_store_vault k v :
  ConfigurableVault.kind v = ConfigurableVaultKind.as_u8 k ->
  keeps store_ok (store_vault (L := L) k v) (fun _ => True).
Proof.
  intros Hk w u w' [Hc Ho Hp Hv] H. unfold store_vault in H. inv_m. split; [|done].
  split; [done..|]. cbn.
  intros j v' [[<- <-]|[_ Hj]]%lookup_insert_Some; [by exists k, v|by apply Hv].
Qed.

Lemma stored_get_or_create k vault account payer mint tp :
  keeps store_ok (get_or_create_configurable_vault_token_account (L := L) k vault account payer mint tp)
    (fun _ => True).
Proof.
  unfold get_or_create_configurable_vault_token_account. cbv zeta.
  eapply keeps_bind; [apply keeps_lift|intros _ _].
  eapply keeps_bind; [apply stored_frame; within ltac:(reflexivity)|intros vs _].
  eapply keeps_bind with (Q := fun _ => True); [|intros _ _; apply stored_frame; within ltac:(reflexivity)].
  destruct (vs !! vault) as [[v|]|]; [| |destruct (create_account_succeeds _ _)];
    first [by apply stored_store_vault | solve [apply stored_frame; within ltac:(reflexivity)]].
Qed.

Lemma init_fee_vault_kind k b v v' :
  init_fee_vault k b v = Ok v' -> ConfigurableVault.kind v' = ConfigurableVaultKind.as_u8 k.
Proof. unfold init_fee_vault. intros H. inv_res. done. Qed.

(** A change of an offer that keeps its mints. *)
Lemma update_stored k o o' :
  stored_offer k o -> Offer.token_in_mint o' = Offer.token_in_mint o ->
  Offer.token_out_mint o' = Offer.token_out_mint o ->
  (vectors_wf (Offer.vectors o) -> vectors_wf (Offer.vectors o')) -> stored_offer k o'.
Proof. intros [-> Hv] E1 E2 Hv'. split; [by rewrite E1, E2|auto]. Qed.

Lemma clean_old_mints o v now o' ev :
  clean_old_vectors o v now = Ok (o', ev) ->
  Offer.token_in_mint o' = Offer.token_in_mint o /\ Offer.token_out_mint o' = Offer.token_out_mint o.
Proof.
  unfold clean_old_vectors. cbv zeta. intros H.
  destruct (if OfferVector.start_time v =? now then _ else _); [|by simplify_eq]. by inv_res.
Qed.

Lemma add_vector_stored k o now v o' ev :
  0 < now -> stored_offer k o -> add_vector o now v = Ok (o', ev) -> stored_offer k o'.
Proof.
  intros Hn Hk H.
  assert (Offer.token_in_mint o' = Offer.token_in_mint o /\
          Offer.token_out_mint o' = Offer.token_out_mint o) as [].
  { pose proof H as Ha. unfold add_vector in Ha. inv_res.
    match goal with H : clean_old_vectors _ _ _ = Ok ?p |- _ =>
      destruct p; apply clean_old_mints in H end. by inv_res. }
  eapply update_stored; [done..|]. intros Hv. by eapply add_vector_wf.
Qed.

Lemma delete_vector_stored k o now st o' :
  0 < now -> stored_offer k o -> delete_vector o now st = Ok o' -> stored_offer k o'.
Proof.
  intros Hn Hk H. pose proof H as Ho. unfold delete_vector in Ho. inv_res.
  eapply update_stored; [done..|]. intros Hwf. by eapply delete_vector_wf.
Qed.
End store.

#[export] Hint Resolve keeps_ret keeps_lift keeps_guard keeps_constraint stored_clock
  stored_load_offer stored_load_pair stored_store_offer stored_store_pair
  stored_store_vault stored_get_or_create init_fee_vault_kind : stored.

(** A call: a known one, one that leaves these accounts alone, or its body. *)
Ltac stored_call :=
  first [ solve [eauto 3 with stored]
        | solve [apply stored_frame; within ltac:(reflexivity)]
        | lazymatch goal with
          | |- keeps ?I ?m _ =>
              let h := head_of m in
              refine (_ : keeps I m (fun _ => True)); unfold h; solve [stored]
          end ]
with stored := repeat keeps_step stored_call.
(** A store, whose value has to be shown at its address. *)
Ltac stored_store :=
  eapply keeps_bind; [first [apply stored_store_offer | apply stored_store_pair]|intros ? _; stored].

Section handlers.
Context {R : Runtime} {L : Type} {TL : TokenLedger L}.

Lemma stored_add_vector ctx st bt bp apr d :
  keeps (store_ok (L := L)) (add_offer_vector ctx st bt bp apr d) (fun _ => True).
Proof.
  unfold add_offer_vector, AddOfferVector_accounts, offer_admin_accounts, offer_accounts.
  cbv zeta. stored. stored_store. by eapply add_vector_stored.
Qed.

Lemma stored_delete_vector ctx t :
  keeps (store_ok (L := L)) (delete_offer_vector ctx t) (fun _ => True).
Proof.
  unfold delete_offer_vector, DeleteOfferVector_accounts, offer_admin_accounts, offer_accounts.
  stored. stored_store. by eapply delete_vector_stored.
Qed.

Lemma stored_delete_all ctx :
  keeps (store_ok (L := L)) (delete_all_offer_vectors ctx) (fun _ => True).
Proof.
  unfold delete_all_offer_vectors, DeleteAllOfferVectors_accounts, offer_admin_accounts, offer_accounts,
    delete_all_vectors. stored. stored_store.
  eapply update_stored; [done..|]. apply delete_all_vectors_wf.
Qed.

Lemma stored_offer_fee ctx fee :
  keeps (store_ok (L := L)) (update_offer_fee ctx fee) (fun _ => True).
Proof.
  unfold update_offer_fee, UpdateOfferFee_accounts, offer_admin_accounts, offer_accounts.
  stored.
Qed.

Lemma stored_offer_permissionless_fee ctx fee :
  keeps (store_ok (L := L)) (update_offer_permissionless_fee ctx fee) (fun _ => True).
Proof.
  unfold update_offer_permissionless_fee, UpdateOfferPermissionlessFee_accounts,
    offer_admin_accounts, offer_accounts. stored.
Qed.

Lemma stored_offer_disabled k s d :
  keeps (store_ok (L := L)) (set_offer_disabled k s d) (fun _ => True).
Proof. unfold set_offer_disabled. stored. Qed.

Lemma stored_make_offer ctx fee n a :
  keeps (store_ok (L := L)) (make_offer ctx fee n a) (fun _ => True).
Proof.
  unfold make_offer, MakeOffer_accounts, init_account. cbv zeta. stored. stored_store.
  split; [cbn|apply empty_vectors_wf].
  match goal with H : key_eqb _ _ = true |- _ => by apply key_eqb_eq in H end.
Qed.

Lemma roll_pair_offer s now s' :
  roll_prop_amm_volume_tracker s now = Ok s' -> PropAmmPairState.offer s' = PropAmmPairState.offer s.
Proof.
  intros H. unfold roll_prop_amm_volume_tracker in H. inv_res.
  destruct (_ || _); [by simplify_eq|]. inv_res.
  destruct (_ <=? _); [by simplify_eq|]. by destruct (_ <=? _); simplify_eq.
Qed.

Lemma record_sell_pair_offer s x now s' :
  record_prop_amm_sell s x now = Ok s' -> PropAmmPairState.offer s' = PropAmmPairState.offer s.
Proof.
  intros H. unfold record_prop_amm_sell, mul_overflow in H. inv_res. cbn. by eapply roll_pair_offer.
Qed.

Lemma record_buy_pair_offer s x now s' :
  record_prop_amm_buy s x now = Ok s' -> PropAmmPairState.offer s' = PropAmmPairState.offer s.
Proof.
  intros H. unfold record_prop_amm_buy, mul_overflow in H. inv_res. cbn. by eapply roll_pair_offer.
Qed.

Lemma stored_open_buy ctx amount minimum :
  keeps (store_ok (L := L)) (open_swap_buy ctx amount minimum) (fun _ => True).
Proof.
  unfold open_swap_buy, buy_settle, OpenSwapBuy_accounts, pair_account. stored. stored_store.
  unfold stored_pair in *. by erewrite record_buy_pair_offer.
Qed.

Lemma stored_open_sell ctx amount minimum :
  keeps (store_ok (L := L)) (open_swap_sell ctx amount minimum) (fun _ => True).
Proof.
  unfold open_swap_sell, sell_settle, OpenSwapSell_accounts, pair_account. cbv zeta. stored. stored_store.
  unfold stored_pair in *. by erewrite record_sell_pair_offer.
Qed.

Lemma stored_configure o m k b c :
  keeps (store_ok (L := L)) (configure_prop_amm o m k b c) (fun _ => True).
Proof.
  unfold configure_prop_amm.
  eapply keeps_bind with (Q := fun _ => k = pda (pair_seeds o)).
  { intros w a w' Hw H. unfold ConfigurePropAmm_accounts in H. inv_m.
    match goal with H : key_eqb k _ = true |- _ => apply key_eqb_eq in H; rename H into Hk end.
    split; [|done]. eapply store_same; [|exact Hw].
    repeat match goal with H : load_mint _ _ = Ok _ |- _ => apply load_mint_Ok_inv in H as (_ & _ & ->) end.
    destruct (prop_amm_pairs _ !! _); [|destruct (create_account_succeeds _ _)]; by inv_m. }
  intros [[st offer] s] Hk. cbn in *. stored.
Qed.

Lemma stored_set_destination boss k dest :
  keeps (store_ok (L := L)) (set_configurable_vault_destination boss k dest) (fun _ => True).
Proof.
  unfold set_configurable_vault_destination. stored.
  eapply keeps_bind; [apply stored_store_vault|intros _ _; stored]. cbn.
  by eapply init_fee_vault_kind.
Qed.
End handlers.

#[export] Hint Resolve stored_add_vector stored_delete_vector stored_delete_all stored_offer_fee
  stored_offer_permissionless_fee stored_offer_disabled stored_make_offer stored_open_buy
  stored_open_sell stored_configure stored_set_destination : stored.

Lemma store_ok_exec `{R : Runtime} {L} `{TL : !TokenLedger L} tx i (w w' : World L) :
  store_ok w -> exec tx i w = Ok (tt, w') -> store_ok w'.
Proof.
  assert (keeps (store_ok (L := L)) (exec tx i) (fun _ => True)) as Hi
    by (destruct i; cbn [exec]; stored_call).
  intros Hw H. by eapply Hi.
Qed.
