(* ===== verification/OfferFacts.v ===== *)
(** * What taking an offer does

    The computation of an exchange, its inverse through a redemption, the refill
    of the redemption vault, and the effect of [take_offer_v2] and
    [take_offer_permissionless_v2] on every balance, supply and account.  *)

From stdpp Require Import relations.
From S2P Require Import World MathUtils OfferPricing Approval TokenUtils OfferHandlers MarketInfo Buffer Vaults Redemption TakeOffer PropAmm Governance Program Frames Samples MarketFacts BufferFacts AccountFacts RedemptionFacts TypedFacts.
Open Scope Z_scope.

(** ** The computation *)

(** The exchange of [amount] at price [opr_current_price r]: an exact split into
    fee and net amount, and the largest output the net amount pays for. *)
Record priced (o : Offer.t) (t amount bps din dout : Z) (r : OfferProcessResult) : Prop := {
  pr_price : compute_offer_current_price o t = Ok (opr_current_price r);
  pr_positive : 0 < amount /\ 0 < opr_current_price r;
  pr_split : opr_token_in_net_amount r + opr_token_in_fee_amount r = amount;
  pr_net : 0 <= opr_token_in_net_amount r;
  pr_fee : (opr_token_in_fee_amount r - 1) * MAX_BASIS_POINTS < amount * bps
             <= opr_token_in_fee_amount r * MAX_BASIS_POINTS /\ 0 <= opr_token_in_fee_amount r;
  pr_out : 0 < opr_token_out_amount r <= u64.MAX;
  pr_value : opr_token_out_amount r * (opr_current_price r * 10 ^ din)
               <= opr_token_in_net_amount r * 10 ^ (dout + 9)
               < (opr_token_out_amount r + 1) * (opr_current_price r * 10 ^ din);
  pr_fits : din <= 18 /\ dout <= 18 /\ opr_token_in_net_amount r * 10 ^ (dout + 9) <= u128.MAX /\
            opr_current_price r * 10 ^ din <= u128.MAX
}.

Lemma process_offer_core_at_Ok o amount ink din outk dout t bps r :
  amount <= u64.MAX -> 0 <= bps <= MAX_BASIS_POINTS -> 0 <= din -> 0 <= dout ->
  process_offer_core_at o amount ink din outk dout t bps = Ok r ->
  priced o t amount bps din dout r /\ Offer.token_in_mint o = ink /\ Offer.token_out_mint o = outk.
Proof.
  intros Ha Hb Hi Ho H. unfold process_offer_core_at, Offer.require_mints, require_keys_eq in H.
  inv_res.
  repeat match goal with H : key_eqb _ _ = true |- _ => apply key_eqb_eq in H end.
  match goal with H : calculate_fees _ _ = Ok _ |- _ =>
    destruct (calculate_fees_exact amount bps ltac:(lia) Hb) as (fee & E & Hf & Hr);
    rewrite E in H; injection H as <- end.
  match goal with H : calculate_token_out_amount _ _ _ _ = Ok _ |- _ =>
    pose proof (calculate_token_out_amount_bounds _ _ _ _ _ Hi Ho H);
    pose proof (calculate_token_out_amount_fits _ _ _ _ _ H);
    apply calculate_token_out_amount_Ok in H as (_ & ? & ? & ? & ?); [|done..] end.
  split; [|auto]. split; cbn in *; try tauto; try lia.
  unfold compute_offer_current_price, get_active_vector_and_current_price,
    compute_vector_price_at_time. run_known. done.
Qed.

(** Buying and redeeming at one price returns at most the net amount paid. *)
Lemma round_trip_le net y p z din dout :
  0 <= din -> 0 <= dout -> 0 <= p ->
  y * (p * 10 ^ din) <= net * 10 ^ (dout + 9) ->
  z * (10 ^ dout * 10 ^ PRICE_DECIMALS) <= y * p * 10 ^ din -> z <= net.
Proof.
  intros Hi Ho Hp H1 H2. unfold PRICE_DECIMALS in *. rewrite Z.pow_add_r in H1 by lia.
  assert (0 < 10 ^ dout * 10 ^ 9) by (apply Z.mul_pos_pos; apply Z.pow_pos_nonneg; lia).
  apply (Z.mul_le_mono_pos_r _ _ (10 ^ dout * 10 ^ 9)); [done|]. lia.
Qed.

(** The refill never takes more than the vault lacks nor more than is paid. *)
Lemma refill_amount_Ok stats bps din dout bal net r :
  0 <= bal -> 0 <= net <= u64.MAX -> refill_amount stats bps din dout bal net = Ok r ->
  0 <= r <= net.
Proof.
  intros Hb Hn H. unfold refill_amount in H. inv_res.
  match goal with H : (if ?b then _ else _) = Ok _ |- _ => destruct (Z.ltb_spec bal v) end; inv_res; [|lia].
  unfold u64.cast, wrap_u. rewrite Z.mod_small; [lia|].
  change (2 ^ 64) with 18446744073709551616. zlia.
Qed.

Section taking.
Context {R : Runtime} {L : Type} {TL : TokenLedger L} {TLL : TokenLedgerLaws L}.
Implicit Types w : World L.

Lemma calculate_refill_Ok k bps mi mo bal net r w w' :
  0 <= bal -> 0 <= net <= u64.MAX ->
  calculate_redemption_vault_refill_amount k bps mi mo bal net w = Ok (r, w') ->
  w' = w /\ 0 <= r <= net.
Proof using.
  intros Hb Hn H. unfold calculate_redemption_vault_refill_amount in H.
  destruct (bps =? 0); inv_m; [split; [done|lia]|].
  match goal with H : attempt ?m ?a = Ok (_, ?b) |- _ => assert (a = b) as <- by
    (refine ((_ : within eq (attempt m)) _ _ _ H); clear; within ltac:(reflexivity)) end.
  split; [done|]. by eapply refill_amount_Ok.
Qed.

(** The refill that is due: up to the target of the redemption offer at [k], none if
    that offer is missing or disabled, as a share of the TVL the market stats hold. *)
Definition refill_target w (k : Pubkey) : Z :=
  match redemption_offers w !! k with
  | Some o => if RedemptionOffer.is_disabled o then 0 else RedemptionOffer.vault_target_bps o
  | None => 0
  end.
Definition refill_due w (k : Pubkey) (mi mo : MintAccount) (bal net : Z) : Result Z :=
  let target := refill_target w k in
  if target =? 0 then Ok 0
  else refill_amount (match market_stats w with Loaded ms => Some ms | _ => None end) target
         (decimals mi) (decimals mo) bal net.

(** What a refill reads of the world. *)
Definition refill_view w := (redemption_offers w, market_stats w).

Lemma refill_due_same w w' k mi mo bal net :
  refill_view w' = refill_view w -> refill_due w' k mi mo bal net = refill_due w k mi mo bal net.
Proof. unfold refill_view, refill_due, refill_target. by intros [= -> ->]. Qed.

Lemma refill_target_Ok k ok ki ko t w w' :
  load_redemption_offer_vault_target_bps_for_offer k ok ki ko w = Ok (t, w') ->
  default 0 t = refill_target w k.
Proof.
  unfold load_redemption_offer_vault_target_bps_for_offer, load_optional_checked_redemption_offer,
    refill_target. intros H. inv_m. destruct (_ !! _); inv_m; [|done].
  by destruct (RedemptionOffer.is_disabled _).
Qed.

Lemma calculate_refill_due k rk mi mo bal net r w w' :
  k = pda [seeds.MARKET_STATS] ->
  calculate_redemption_vault_refill_amount k (refill_target w rk) mi mo bal net w = Ok (r, w') ->
  refill_due w rk mi mo bal net = Ok r.
Proof.
  intros -> H. unfold calculate_redemption_vault_refill_amount, refill_due in *.
  destruct (_ =? 0); inv_m; [done|].
  unfold attempt, read_market_stats_account, load_pda_account, gets, mbind, M_bind in Hx.
  rewrite key_eqb_refl in Hx. cbn in Hx. destruct (market_stats w); cbn in Hx; simplify_eq; done.
Qed.

Lemma redemption_refill_Ok ctx ra k bps mi mo net d r w w' :
  0 <= net <= u64.MAX ->
  redemption_refill ctx ra k bps mi mo net w = Ok ((d, r), w') ->
  quiet w w' /\ 0 <= r <= net /\ (d = None -> r = 0) /\
  (forall a, d = Some a ->
     a = associated_token_address (ra_redemption_vault_authority ra) (to_token_in_mint ctx)
           (to_token_in_program ctx) /\
     program_controls_mint mi (to_mint_authority ctx) = false).
Proof using All.
  intros Hn H. unfold redemption_refill in H.
  destruct ((0 <? bps) && _) eqn:E; inv_m; [|split; [apply quiet_refl|]; split; [lia|]; split; [lia|done]].
  apply andb_true_iff in E as [_ E]. apply negb_true_iff in E.
  match goal with H : get_or_create_associated_token_account _ _ _ _ _ _ = Ok _ |- _ =>
    apply get_or_create_ata_Ok in H as (Hq & Hk & Ht & Hb) end.
  match goal with H : calculate_redemption_vault_refill_amount _ _ _ _ _ _ _ = Ok _ |- _ =>
    apply calculate_refill_Ok in H as [-> Hr]; [|rewrite Hb; apply balance_u64|done] end.
  split; [done|]. split; [done|]. split; [done|]. intros a [= <-]. by rewrite Ht.
Qed.

(** ** A mint keeps all but its supply through an accrual *)

Definition same_mints : relation (World L) := fun w w' => forall k,
  Mint.with_supply 0 <$> ledger_mint (ledger w') k = Mint.with_supply 0 <$> ledger_mint (ledger w) k.

#[export] Instance same_mints_preorder : PreOrder same_mints.
Proof. split; [by intros w k|]. intros a b c H1 H2 k. by rewrite H2, H1. Qed.

Lemma mint_to_same_mints pr m to auth x d w l :
  mint_to_checked pr m to auth x d (ledger w) = Some l -> same_mints w (set_ledger l w).
Proof using All.
  intros H k. apply mint_to_effect in H as (_ & (i & Hi & _ & _ & Hi') & Hm & _). cbn.
  destruct (decide (k = m)) as [->|Hn]; [by rewrite Hi, Hi'|by rewrite Hm].
Qed.

Lemma accrue_same_mints st c a mo m tp r w w' :
  accrue_before_mint st c a mo m tp w = Ok (r, w') -> same_mints w w'.
Proof using All.
  intros H. refine ((_ : within same_mints _) _ _ _ H). clear - TLL.
  within ltac:(first [intros; intros ?; reflexivity | intros ? ?; apply mint_to_same_mints]).
Qed.

Lemma same_mints_fresh w w' m m' auth :
  same_mints w w' -> fresh w m -> fresh w' m' -> mint_key m' = mint_key m ->
  program_controls_mint m' auth = program_controls_mint m auth /\
  has_transfer_fee m' = has_transfer_fee m /\ decimals m' = decimals m.
Proof.
  unfold fresh, program_controls_mint, has_transfer_fee, decimals. intros Hs H1 H2 Hk.
  specialize (Hs (mint_key m)). rewrite Hk, H1 in *. rewrite H2 in Hs. cbn in Hs.
  destruct (mint_data m), (mint_data m'). cbn in *. by simplify_eq.
Qed.

(** ** The effect of an exchange that may mint ONyc *)

Section taken.
Import ExecTokenOpsParams.
Implicit Types p : ExecTokenOpsParams.t.

(** [p] is exchanged between two accruals of the BUFFER: [c] says whether the BUFFER
    accrues, [s] whether the market stats are refreshed from the main offer. *)
Record taken p (a : BufferAccrualAccounts) (r : option BufferAccrualResult) (c s : bool) w w'
  : Prop := {
  tk_world : exists l es vs bs ms, w' = set_market_stats ms (set_buffer_state bs
    (set_vaults vs (set_events es (set_ledger l w))));
  tk_balance k : balance (ledger w') k = balance (ledger w) k
    + accrual_balance a r k + in_balance_change p k + out_balance_change p k;
  tk_supply k : supply_of (ledger w') k = supply_of (ledger w) k
    + delta (key_eqb k (mint_key (token_out_mint p))) (accrual_minted r)
    + in_supply_change p k + out_supply_change p k;
  tk_accrual : (c = true <-> r <> None) /\ 0 <= accrual_minted r /\ forall k, 0 <= accrual_balance a r k;
  tk_accrued x : r = Some x -> exists o, offers w !! State.main_offer (state w) = Some o /\
    accrued_now o (mint_key (token_out_mint p)) (token_out_program p) a x w;
  tk_fees : has_transfer_fee (token_in_mint p) = false /\ has_transfer_fee (token_out_mint p) = false;
  tk_refill : if controls_in p then token_in_refill_amount p = 0
              else 0 <= token_in_refill_amount p <= token_in_net_amount p;
  tk_caps : controls_out p = true ->
    (0 < token_out_max_mint_amount p -> token_out_amount p <= token_out_max_mint_amount p) /\
    (0 < token_out_max_supply p ->
       supply_of (ledger w) (mint_key (token_out_mint p)) + accrual_minted r + token_out_amount p
         <= token_out_max_supply p);
  tk_baseline : c = true -> baseline_current (mint_key (token_out_mint p)) w';
  tk_stats : s = true -> exists o, offers w !! State.main_offer (state w) = Some o /\
    stats_current o (mint_key (token_out_mint p)) w'
}.

Lemma quiet_taken p a r c s w w1 w' : quiet w w1 -> taken p a r c s w1 w' -> taken p a r c s w w'.
Proof.
  intros Hq []. pose proof (quiet_same _ _ Hq) as (_ & Est & Eof & _).
  pose proof (fun k => quiet_balance _ _ k Hq) as Eb. pose proof (fun k => quiet_supply _ _ k Hq) as Es.
  rewrite Est, Eof in *. split; auto.
  - destruct Hq as (l1 & vs1 & -> & _), tk_world0 as (l & es & vs & bs & ms & ->).
    by exists l, es, vs, bs, ms.
  - intros k. by rewrite tk_balance0, Eb.
  - intros k. by rewrite tk_supply0, Es.
  - intros x Hx. destruct (tk_accrued0 x Hx) as (o & ? & ?). exists o. split; [done|].
    by eapply quiet_accrued.
  - intros Hc. rewrite <- Es. auto.
Qed.

Lemma taken_emit p a r c s w w' es : taken p a r c s w w' -> taken p a r c s w (set_events es w').
Proof.
  intros []. split; auto.
  - destruct tk_world0 as (l & es' & vs & bs & ms & ->). by exists l, es, vs, bs, ms.
  - intros Hc. destruct (tk_baseline0 Hc) as [(b & ? & ? & ?)]. split. by exists b.
  - intros Hs. destruct (tk_stats0 Hs) as (o & ? & [(m & v & ?)]). exists o. split; [done|].
    split. by exists m, v.
Qed.

(** What the exchange itself checks, seen from the world [w1] it runs in. *)
Record exchange_checked p w1 : Prop := {
  ec_fees : has_transfer_fee (token_in_mint p) = false /\ has_transfer_fee (token_out_mint p) = false;
  ec_refill : if controls_in p then token_in_refill_amount p = 0
              else 0 <= token_in_refill_amount p <= token_in_net_amount p;
  ec_caps : controls_out p = true ->
    (0 < token_out_max_mint_amount p -> token_out_amount p <= token_out_max_mint_amount p) /\
    (0 < token_out_max_supply p ->
       supply_of (ledger w1) (mint_key (token_out_mint p)) + token_out_amount p <= token_out_max_supply p)
}.

Lemma taken_core p a r (c s : bool) mof w w1 w2 w3 w4 :
  accrual_step a (token_out_program p) mof (token_out_mint p) r w w1 -> (c = true <-> r <> None) ->
  (c = true -> controls_out p = true) ->
  mint_key (token_in_mint p) <> mint_key (token_out_mint p) ->
  exchange_checked p w1 ->
  moves w1 w2 (fun k => in_balance_change p k + out_balance_change p k)
    (fun k => in_supply_change p k + out_supply_change p k) ->
  stored r (token_out_amount p) w2 w3 -> refreshed s mof (mint_key (token_out_mint p)) w3 w4 ->
  (forall o, mof = Some o -> offers w !! State.main_offer (state w) = Some o) ->
  taken p a r c s w w4.
Proof using All.
  intros Hstep Hc Hco Hne [Hfee Href Hcaps] Hmv Hst Hre Hof.
  assert (Hpairs : prop_amm_pairs w2 = prop_amm_pairs w).
  { destruct Hmv as [(? & ? & ->) _ _], Hstep as [(? & ? & ? & -> & _) _ _ _ _ _]. done. }
  pose proof (as_supply _ _ _ _ _ _ _ Hstep (mint_key (token_out_mint p))) as Hsup.
  rewrite key_eqb_refl in Hsup. cbn in Hsup. apply moves_pair in Hmv.
  assert (Hd : r <> None -> in_supply_change p (mint_key (token_out_mint p))
                 + out_supply_change p (mint_key (token_out_mint p)) = token_out_amount p).
  { intros Hr. apply Hc, Hco in Hr. unfold in_supply_change, out_supply_change.
    rewrite Hr, key_eqb_refl, (proj2 (key_eqb_neq _ _)) by congruence. by destruct (controls_in p). }
  destruct (bracket _ _ _ _ _ _ _ _ _ _ _ _ _ _ Hstep Hmv Hd Hst Hre)
    as [[(l & es & ps & bs & ms & ->) Hb Hs Hmin Hex Hbl Hsc] Hps]. cbn in Hps, Hb, Hs. split; auto.
  - exists l, es, (vaults w), bs, ms. subst ps. rewrite Hpairs. by destruct w.
  - intros k. cbn. rewrite Hb. lia.
  - intros k. cbn. rewrite Hs. lia.
  - intros x Hx. destruct (Hex x Hx) as (o & Ho & ?). exists o. auto.
  - intros Hctl. destruct (Hcaps Hctl) as [H1 H2]. split; [done|]. intros Hm.
    specialize (H2 Hm). cbn in H2. lia.
  - intros Hct. by apply Hbl, Hc.
  - intros Hs1. destruct (Hsc Hs1) as (o & Ho & Hcur). exists o. auto.
Qed.
End taken.

(** ** [take_offer_v2] *)

(** The exchange of a taken offer, between accounts. *)
Definition taken_params (ctx : TakeOfferBase) (st : State.t) (mi mo : MintAccount)
    (res : OfferProcessResult) (proceeds fee_account : Pubkey) (refill_to : option Pubkey) (refill : Z)
  : ExecTokenOpsParams.t :=
  exchange_params ctx st mi mo res (to_user ctx) (to_user_token_in_account ctx) proceeds refill_to
    refill fee_account (to_user_token_out_account ctx).

(** The exchange with a reloaded mint is that with the first snapshot. *)
Lemma exchange_reloaded ctx st mi mo mo1 res auth src dest rd rf fd od u w w' :
  supply mo1 = supply_of (ledger w) (mint_key mo) -> mint_key mo1 = mint_key mo ->
  program_controls_mint mo1 (to_mint_authority ctx) = program_controls_mint mo (to_mint_authority ctx) ->
  has_transfer_fee mo1 = has_transfer_fee mo ->
  0 <= opr_token_in_net_amount res -> 0 <= opr_token_in_fee_amount res -> 0 <= rf ->
  execute_token_operations (exchange_params ctx st mi mo1 res auth src dest rd rf fd od) w = Ok (u, w') ->
  let p := exchange_params ctx st mi mo res auth src dest rd rf fd od in
  exchange_checked p w /\
  moves w w' (fun k => in_balance_change p k + out_balance_change p k)
             (fun k => in_supply_change p k + out_supply_change p k).
Proof using All.
  intros Hf Hk Hc Ht Hn Hfee Hr H p.
  apply execute_token_operations_moves in H as (Hm & Hf1 & Hf2 & Hrf & Hcaps); [|done..].
  assert (Hco : controls_out p = controls_out (exchange_params ctx st mi mo1 res auth src dest rd rf fd od))
    by (symmetry; exact Hc).
  split.
  - split; [cbn in *; by rewrite <- Ht| |].
    + change (controls_in p) with (controls_in (exchange_params ctx st mi mo1 res auth src dest rd rf fd od)).
      destruct (controls_in _); cbn in *; [done|lia].
    + rewrite Hco. intros Hctl. destruct (Hcaps Hctl) as [H1 H2]. cbn in *. split; [done|].
      intros Hs. specialize (H2 Hs). by rewrite Hf in H2.
  - eapply moves_ext; [exact Hm| |]; intros k; cbn;
      unfold out_balance_change, out_supply_change; rewrite Hco; cbn; by rewrite ?Hk.
Qed.

(** The reload of [token_out] after an accrual. *)
Lemma maybe_reload_same (m m1 : MintAccount) (r : option BufferAccrualResult) w w1 :
  (match r with Some _ => reload m | None => mret m end) w = Ok (m1, w1) -> w1 = w.
Proof. destruct r; intros H; [by apply load_mint_same in H|by inv_m]. Qed.

Lemma reload_after_accrual (mo mo1 : MintAccount) (r : option BufferAccrualResult) auth w w1 w2 :
  fresh w mo -> same_mints w w1 -> (r = None -> w1 = w) ->
  (match r with Some _ => reload mo | None => mret mo end) w1 = Ok (mo1, w2) ->
  w2 = w1 /\ fresh w1 mo1 /\ mint_key mo1 = mint_key mo /\
  program_controls_mint mo1 auth = program_controls_mint mo auth /\
  has_transfer_fee mo1 = has_transfer_fee mo /\ decimals mo1 = decimals mo.
Proof using All.
  intros Hf Hs Hn H. destruct r as [x|].
  - unfold reload in H. pose proof (load_mint_fresh _ _ _ _ H) as [Hf1 Hk].
    apply load_mint_same in H as ->. destruct (same_mints_fresh _ _ _ _ auth Hs Hf Hf1 Hk) as (? & ? & ?).
    auto 10.
  - rewrite Hn in * by done. inv_m. auto 10.
Qed.

(** The token accounts of the user and of the offer vault. *)
Record take_accounts (ctx : TakeOfferBase) : Prop := {
  tac_user_in : to_user_token_in_account ctx
    = associated_token_address (to_user ctx) (to_token_in_mint ctx) (to_token_in_program ctx);
  tac_vault_in : to_vault_token_in_account ctx
    = associated_token_address (to_vault_authority ctx) (to_token_in_mint ctx)
        (to_token_in_program ctx);
  tac_vault_out : to_vault_token_out_account ctx
    = associated_token_address (to_vault_authority ctx) (to_token_out_mint ctx)
        (to_token_out_program ctx)
}.

(** What [take_offer_v2] checks first, and how it prices the exchange. *)
Record take_checked (ctx : TakeOfferBase) (o : Offer.t) (mi mo : MintAccount) (amount bps : Z)
    (res : OfferProcessResult) w : Prop := {
  tc_live : State.is_killed (state w) = false;
  tc_offer : offers w !! to_offer ctx = Some o /\ Offer.is_disabled o = false;
  tc_mints : fresh w mi /\ mint_key mi = to_token_in_mint ctx /\ Offer.token_in_mint o = mint_key mi /\
             fresh w mo /\ mint_key mo = to_token_out_mint ctx /\ Offer.token_out_mint o = mint_key mo;
  tc_accounts : take_accounts ctx /\ to_user_token_out_account ctx
    = associated_token_address (to_user ctx) (to_token_out_mint ctx) (to_token_out_program ctx);
  tc_priced : priced o (timestamp_u64 (clock w)) amount bps (decimals mi) (decimals mo) res;
  tc_authorities : to_mint_authority ctx = mint_authority_key /\
                   to_vault_authority ctx = pda [seeds.OFFER_VAULT_AUTHORITY]
}.

(** Where the token_in of an exchange goes: the proceeds and the fee to the token
    accounts of their configurable vaults, the refill, only of a token_in that is
    not burned, to the redemption vault. *)
Record take_routed (ctx : TakeOfferBase) (mi : MintAccount) (kp kf : ConfigurableVaultKind.t)
    (proceeds fee_account : Pubkey) (refill_to : option Pubkey) (refill : Z) : Prop := {
  tr_proceeds : proceeds = associated_token_address (vault_key kp) (to_token_in_mint ctx)
                             (to_token_in_program ctx);
  tr_fee : fee_account = associated_token_address (vault_key kf) (to_token_in_mint ctx)
                           (to_token_in_program ctx);
  tr_no_refill : refill_to = None -> refill = 0;
  tr_refill a : refill_to = Some a ->
    a = associated_token_address redemption_vault_authority_key (to_token_in_mint ctx)
          (to_token_in_program ctx) /\ program_controls_mint mi (to_mint_authority ctx) = false
}.

(** Whether the exchange accrues the BUFFER first. *)
Definition accrues w (mo : MintAccount) : Prop :=
  is_onyc_token_out_mint (state w) mo = true /\ program_controls_mint mo mint_authority_key = true /\
  exists b, buffer_state w = Loaded b.

Lemma should_accrue_accrues w (mo : MintAccount) (b : bool) :
  (b = true -> exists s, buffer_state w = Loaded s) -> (forall s, buffer_state w = Loaded s -> b = true) ->
  should_accrue_onyc_mint (state w) mo b mint_authority_key = true <-> accrues w mo.
Proof.
  intros H1 H2. unfold should_accrue_onyc_mint, accrues. rewrite !andb_true_iff. split.
  - intros [[? Hb] ?]. auto.
  - intros (? & ? & s & Hs). eauto.
Qed.

Lemma offer_accounts_Ok k ki ko o w w' :
  offer_accounts k ki ko w = Ok (o, w') ->
  w' = w /\ offers w !! k = Some o /\ Offer.token_in_mint o = ki /\ Offer.token_out_mint o = ko.
Proof.
  unfold offer_accounts. intros H. inv_m. inv_accounts.
  repeat match goal with H : key_eqb _ _ = true |- _ => apply key_eqb_eq in H end. auto.
Qed.

Lemma take_offer_token_accounts_Ok ctx mi mo w w' :
  take_offer_token_accounts ctx w = Ok ((mi, mo), w') ->
  w' = w /\ fresh w mi /\ mint_key mi = to_token_in_mint ctx /\
  fresh w mo /\ mint_key mo = to_token_out_mint ctx /\ take_accounts ctx.
Proof.
  unfold take_offer_token_accounts. intros H. inv_m. inv_accounts. do 5 (split; [done|]). by split.
Qed.

Lemma validate_take_offer_authorities_Ok va ma ins u w w' :
  validate_take_offer_authorities va ma ins w = Ok (u, w') ->
  w' = w /\ va = pda [seeds.OFFER_VAULT_AUTHORITY] /\ ma = mint_authority_key /\
  ins = instructions_sysvar_id.
Proof.
  unfold validate_take_offer_authorities, require_keys_eq. intros H. inv_m. inv_res.
  repeat match goal with H : key_eqb _ _ = true |- _ => apply key_eqb_eq in H end. auto.
Qed.

Lemma verify_approval_pure tx o msg prog user a1 a2 ins u w w' :
  verify_offer_approval tx o msg prog user a1 a2 ins w = Ok (u, w') -> w' = w.
Proof.
  unfold verify_offer_approval, Clock_get. intros H. destruct (Offer.needs_approval o); [|by inv_m].
  destruct msg; by inv_m.
Qed.

Lemma refill_target_pure k ok ki ko t w w' :
  load_redemption_offer_vault_target_bps_for_offer k ok ki ko w = Ok (t, w') -> w' = w.
Proof.
  unfold load_redemption_offer_vault_target_bps_for_offer, load_optional_checked_redemption_offer.
  intros H. inv_m. destruct (_ !! _); by inv_m.
Qed.

Lemma process_offer_core_Ok o amount (mi mo : MintAccount) bps res w w' :
  amount <= u64.MAX -> 0 <= bps <= MAX_BASIS_POINTS -> fresh w mi -> fresh w mo ->
  process_offer_core o amount mi mo bps w = Ok (res, w') ->
  w' = w /\ priced o (timestamp_u64 (clock w)) amount bps (decimals mi) (decimals mo) res /\
  Offer.token_in_mint o = mint_key mi /\ Offer.token_out_mint o = mint_key mo.
Proof using All.
  intros Ha Hb Hi Ho H. unfold process_offer_core, Clock_get in H. inv_m. split; [done|].
  apply (process_offer_core_at_Ok _ _ _ _ _ _ _ _ _ Ha Hb); [by eapply ledger_decimals_u8..|done].
Qed.

(** From the accrual to the refreshed stats, around any steps that have the effect
    of the exchange. *)
Lemma take_around st a sup mof (mo mo1 : MintAccount) auth tp p c e payer u2 u3 r w w1 w2 w3 w4 w5 :
  let s := is_onyc_token_out_mint st mo in
  typed w -> fresh w mo -> ExecTokenOpsParams.token_out_mint p = mo ->
  ExecTokenOpsParams.token_out_program p = tp ->
  (forall o, mof = Some o -> offers w !! State.main_offer (state w) = Some o) ->
  mint_key (ExecTokenOpsParams.token_in_mint p) <> mint_key mo -> (c = true -> controls_out p = true) ->
  accrue_before_mint st c a mof mo tp w = Ok (r, w1) ->
  (match r with Some _ => reload mo | None => mret mo end) w1 = Ok (mo1, w2) ->
  (supply mo1 = supply_of (ledger w2) (mint_key mo) -> mint_key mo1 = mint_key mo ->
   program_controls_mint mo1 auth = program_controls_mint mo auth ->
   has_transfer_fee mo1 = has_transfer_fee mo ->
   exchange_checked p w2 /\
   moves w2 w3 (fun k => in_balance_change p k + out_balance_change p k)
     (fun k => in_supply_change p k + out_supply_change p k)) ->
  store_post_offer_supply r (ExecTokenOpsParams.token_out_amount p) e w3 = Ok (u2, w4) ->
  when (is_onyc_token_out_mint st mo1) (refresh_after_exchange sup mof mo1 payer) w4 = Ok (u3, w5) ->
  taken p a r c s w w5.
Proof using All.
  intros s Hty Hmo <- <- Hmof Hne Hco Ha Hr He Hst Hre.
  pose proof (accrue_same_mints _ _ _ _ _ _ _ _ _ Ha) as Hsame.
  assert (Hnone : r = None -> w1 = w) by
    (intros ->; unfold accrue_before_mint in Ha; destruct c; by inv_m).
  apply accrue_before_mint_Ok in Ha as [Hstep Hc]; [|done| |done].
  2:{ intros o Ho. apply Hmof in Ho. by eapply typed_offer in Ho as [Ho _]. }
  apply (reload_after_accrual _ mo1 r auth) with (w := w) in Hr
    as (-> & Hf1 & Hk1 & Hpc & Htf & _); [|done..].
  destruct He as [Hchk Hmv]; [rewrite <-Hk1; by apply fresh_supply|done..|].
  apply store_post_offer_Ok in Hst. apply when_refresh_after_Ok in Hre.
  unfold is_onyc_token_out_mint in Hre. rewrite Hk1 in Hre. by eapply (taken_core p a r c s mof).
Qed.

End taking.

(** Clean up after [inv_m]: the successes of the steps that read. *)
Ltac inv_take :=
  repeat match goal with
  | H : offer_accounts _ _ _ _ = Ok _ |- _ => apply offer_accounts_Ok in H as (-> & ? & ? & ?)
  | H : take_offer_token_accounts _ _ = Ok _ |- _ =>
      apply take_offer_token_accounts_Ok in H as (-> & ? & ? & ? & ? & ?)
  | H : validate_take_offer_authorities _ _ _ _ = Ok _ |- _ =>
      apply validate_take_offer_authorities_Ok in H as (-> & ? & ? & ?)
  | H : check_is_initialized _ _ = Ok _ |- _ => apply check_is_initialized_Ok in H as (-> & ? & ?)
  | H : (if _ then _ else _) _ = Ok _ |- _ => apply main_offer_loaded in H as (-> & ? & ?)
  | H : verify_offer_approval _ _ _ _ _ _ _ _ ?a = Ok (?u, ?b) |- _ =>
      tryif unify a b then fail else
      (pose proof (verify_approval_pure _ _ _ _ _ _ _ _ _ _ _ H); subst b)
  | H : load_redemption_offer_vault_target_bps_for_offer _ _ _ _ _ = Ok _ |- _ =>
      apply refill_target_pure in H as ->
  end.

Section take_instructions.
Context {R : Runtime} {L : Type} {TL : TokenLedger L} {TLL : TokenLedgerLaws L}.
Implicit Types w : World L.

(** C4: taking an offer ([take_offer_v2]).  The offer is enabled, approved if it must
    be and priced at the clock; the user pays exactly the amount, split into net and
    fee; token_in the program mints is burned, any other goes to the proceeds vault
    less a refill, of at most the net amount, of the redemption vault; the user gets
    the token_out the net amount pays for, minted within the supply and mint caps or
    out of the vault; no other balance or supply moves, except for what the BUFFER
    is due, exactly, and accrues first when the program mints ONyc, after which its
    baseline and the market stats record the mint's actual supply. *)
Theorem take_offer_v2_correct tx ctx amount msg u w w' :
  let base := tv_base ctx in
  typed w -> 0 <= amount <= u64.MAX -> to_token_in_mint base <> to_token_out_mint base ->
  take_offer_v2 tx ctx amount msg w = Ok (u, w') ->
  exists o mi mo res refill_to refill r c,
    take_checked base o mi mo amount (Offer.fee_basis_points o) res w /\
    verify_offer_approval tx o msg program_id (to_user base) (State.approver1 (state w))
      (State.approver2 (state w)) (tv_instructions_sysvar ctx) w = Ok (tt, w) /\
    take_routed base mi ConfigurableVaultKind.OfferProceeds ConfigurableVaultKind.OfferFee
      (tv_offer_proceeds_token_in_account ctx) (tv_offer_fee_token_in_account ctx) refill_to refill /\
    (c = true <-> accrues w mo) /\
    taken (taken_params base (state w) mi mo res (tv_offer_proceeds_token_in_account ctx)
             (tv_offer_fee_token_in_account ctx) refill_to refill)
      (sa_buffer_accounts (tv_supply ctx)) r c (is_onyc_token_out_mint (state w) mo) w w'.
Proof using All.
  intros base Hty Ha Hne H. unfold take_offer_v2, TakeOfferV2_accounts, Offer.require_enabled in H.
  subst base. inv_m. inv_res. inv_accounts. inv_take.
  match goal with H : process_offer_core _ _ _ _ _ _ = Ok (?r, _) |- _ => rename r into res;
    pose proof H as Hp; apply process_offer_core_Ok in Hp as (-> & Hp & ? & ?);
    [|lia|by eapply typed_offer|done..] end.
  match goal with H : get_or_create_configurable_vault_token_account_pair _ _ _ _ _ _ _ _ _ _ = Ok _ |- _ =>
    apply get_or_create_pair_Ok in H as (Hq1 & ? & ? & ? & ? & Ek1 & Ek2) end.
  pose proof (pr_split _ _ _ _ _ _ _ Hp). pose proof (pr_net _ _ _ _ _ _ _ Hp).
  pose proof (pr_fee _ _ _ _ _ _ _ Hp) as [_ ?].
  match goal with H : redemption_refill _ _ _ _ _ _ _ _ = Ok _ |- _ =>
    apply redemption_refill_Ok in H as (Hq2 & [? ?] & ? & Hto); [|lia] end.
  match goal with H : get_or_create_associated_token_account _ _ _ _ _ _ = Ok _ |- _ =>
    apply get_or_create_ata_Ok in H as (Hq3 & ? & Ek3 & _) end.
  pose proof (quiet_trans _ _ _ Hq1 (quiet_trans _ _ _ Hq2 Hq3)) as Hq.
  pose proof (quiet_same _ _ Hq) as (_ & Est & Eof & _).
  match goal with He : execute_token_operations (exchange_params _ _ ?mi _ ?res _ _ _ ?rd ?rf _ _) _ = _,
    Ha : accrue_before_mint _ ?c _ _ ?mo _ _ = Ok (?r, _), Ho : process_offer_core ?o _ _ _ _ _ = _ |- _ =>
    exists o, mi, mo, res, rd, rf, r, c end.
  split; [|split; [|split; [|split]]]; [..|eapply quiet_taken; [exact Hq|]]; cycle 4.
  - unfold emit_taken in H. inv_m. apply taken_emit. rewrite Ek1, Ek2, Ek3 in *.
    eapply take_around; [..|eassumption|eassumption| |eassumption|eassumption].
    all: rewrite ?Est, ?Eof; try done; try lia.
    + by eapply quiet_typed.
    + by eapply quiet_fresh.
    + intros o' Ho'. naive_solver.
    + cbn. congruence.
    + unfold should_accrue_onyc_mint. intros Hc. apply andb_true_iff in Hc as [_ Hc]. exact Hc.
    + intros ????. eapply exchange_reloaded; eassumption.
  - split; auto; split_and?; congruence.
  - done.
  - split; [congruence|congruence|done|]. intros a Hra. apply Hto in Hra as [-> ?]. split; [|done]. congruence.
  - match goal with H : to_mint_authority _ = mint_authority_key |- _ => rewrite H end.
    by apply should_accrue_accrues.
Qed.

(** ** [take_offer_permissionless_v2] *)

(** The exchange through the intermediary accounts is the exchange without them. *)
Lemma exchange_through ctx st mi mo mo1 res pa pin pout dest rd rf fd uin uout tpi tpo
    ui uo m2 u1 u2 u3 w w1 w2 w3 :
  supply mo1 = supply_of (ledger w) (mint_key mo) -> mint_key mo1 = mint_key mo ->
  program_controls_mint mo1 (to_mint_authority ctx) = program_controls_mint mo (to_mint_authority ctx) ->
  has_transfer_fee mo1 = has_transfer_fee mo ->
  0 <= opr_token_in_net_amount res -> 0 <= opr_token_in_fee_amount res -> 0 <= rf ->
  transfer_tokens mi tpi uin pin ui (opr_token_in_net_amount res + opr_token_in_fee_amount res) w
    = Ok (u1, w1) ->
  execute_token_operations (exchange_params ctx st mi mo1 res pa pin dest rd rf fd pout) w1
    = Ok (u2, w2) ->
  transfer_tokens m2 tpo pout uout uo (opr_token_out_amount res) w2 = Ok (u3, w3) ->
  let p := exchange_params ctx st mi mo res (to_user ctx) uin dest rd rf fd uout in
  exchange_checked p w /\
  moves w w3 (fun k => in_balance_change p k + out_balance_change p k)
             (fun k => in_supply_change p k + out_supply_change p k).
Proof using All.
  intros Hsup Hk Hc Ht Hn Hfee Hr H1 H2 H3 p.
  apply transfer_tokens_moves in H1 as [H1 _]. apply transfer_tokens_moves in H3 as [H3 _].
  eapply exchange_reloaded in H2 as [[Hf Hrf Hcap] H2]; try done.
  2:{ rewrite Hsup. symmetry. rewrite (moves_supply _ _ _ _ H1). lia. }
  pose proof (moves_trans _ _ _ _ _ _ _ (moves_trans _ _ _ _ _ _ _ H1 H2) H3) as Hall.
  assert (Hs1 : forall k, supply_of (ledger w1) k = supply_of (ledger w) k)
    by (intros k; rewrite (moves_supply _ _ _ _ H1); lia).
  split.
  - split; [done..|]. intros Hct. specialize (Hcap Hct). by rewrite Hs1 in Hcap.
  - eapply moves_ext; [exact Hall| |]; intros k;
      unfold in_supply_change, out_supply_change, in_balance_change, out_balance_change,
        controls_in, controls_out; cbn; [|lia].
    destruct (program_controls_mint mo _), (program_controls_mint mi _); unfold delta;
      repeat case_match; lia.
Qed.

(** The refill's account is at most created. *)
Lemma refill_moves ctx ra k bps mi mo net x w w' :
  quiet w w' -> redemption_refill ctx ra k bps mi mo net w = Ok (x, w') ->
  moves w w' (fun _ => 0) (fun _ => 0).
Proof using All.
  intros Hq H.
  assert (Hv : same vaults w w').
  { refine ((_ : within (same vaults) _) _ _ _ H). clear - TLL.
    within ltac:(first [intros; intros ?; reflexivity | intros ? ?; intros ?; reflexivity]). }
  destruct Hq as (l & vs & -> & Hb & Hm). unfold same in Hv. cbn in Hv. subst vs.
  split; cbn.
  - exists l, (events w). by destruct w.
  - intros j. rewrite Hb. lia.
  - intros j. unfold supply_of. rewrite Hm. lia.
Qed.

Lemma exchange_after_refill p w w1 w2 db ds :
  moves w w1 (fun _ => 0) (fun _ => 0) -> exchange_checked p w1 /\ moves w1 w2 db ds ->
  exchange_checked p w /\ moves w w2 db ds.
Proof using All.
  intros H0 [[Hf Hr Hc] Hm]. split.
  - split; [done..|]. intros Hct. specialize (Hc Hct).
    rewrite (moves_supply _ _ _ _ H0), Z.add_0_r in Hc. done.
  - eapply moves_ext; [exact (moves_trans _ _ _ _ _ _ _ H0 Hm)| |]; done.
Qed.

Lemma execute_permissionless_Ok ctx o mi mo amount pa pin pout dest feed uout bps sup ra u w w' :
  typed w -> amount <= u64.MAX -> 0 <= bps <= MAX_BASIS_POINTS -> fresh w mi -> fresh w mo ->
  mint_key mi <> mint_key mo ->
  execute_take_offer_permissionless ctx (state w) o mi mo amount pa pin pout dest feed uout
    (Some bps) (Some (sup, ra)) w = Ok (u, w') ->
  exists res refill_to refill r c,
    (Offer.is_disabled o = false /\ Offer.allow_permissionless o = true /\
     Offer.token_in_mint o = mint_key mi /\ Offer.token_out_mint o = mint_key mo /\
     to_vault_authority ctx = pda [seeds.OFFER_VAULT_AUTHORITY] /\
     to_mint_authority ctx = mint_authority_key) /\
    priced o (timestamp_u64 (clock w)) amount bps (decimals mi) (decimals mo) res /\
    (refill_to = None -> refill = 0) /\
    (forall a, refill_to = Some a ->
       a = associated_token_address (ra_redemption_vault_authority ra) (to_token_in_mint ctx)
             (to_token_in_program ctx) /\
       program_controls_mint mi (to_mint_authority ctx) = false) /\
    (c = true <-> accrues w mo) /\
    taken (exchange_params ctx (state w) mi mo res (to_user ctx) (to_user_token_in_account ctx) dest
             refill_to refill feed uout)
      (sa_buffer_accounts sup) r c (is_onyc_token_out_mint (state w) mo) w w'.
Proof using All.
  intros Hty Ha Hb Hmi Hmo Hne H. unfold execute_take_offer_permissionless, permissionless_settle, Offer.require_enabled in H.
  cbn [fmap option_fmap option_map fst default] in H. inv_m. inv_res. inv_take.
  match goal with H : process_offer_core _ _ _ _ _ _ = Ok (?r, _) |- _ => rename r into res;
    apply process_offer_core_Ok in H as (-> & Hp & ? & ?); [|done..] end.
  pose proof (pr_split _ _ _ _ _ _ _ Hp) as Hs. pose proof (pr_net _ _ _ _ _ _ _ Hp).
  pose proof (pr_fee _ _ _ _ _ _ _ Hp) as [_ ?].
  match goal with H : redemption_refill _ _ _ _ _ _ _ _ = Ok _ |- _ =>
    pose proof H as Hr0; apply redemption_refill_Ok in Hr0 as (Hq & ? & ? & ?); [|lia];
    apply (refill_moves _ _ _ _ _ _ _ _ _ _ Hq) in H as Hrf end.
  repeat match goal with H : key_eqb _ _ = true |- _ => apply key_eqb_eq in H end.
  do 5 eexists. split; [eauto 10|]. do 3 (split; [done|]).
  split; [|unfold emit_taken in H; inv_m; apply taken_emit; eapply take_around;
           [..|eassumption|eassumption| |eassumption|eassumption]].
  all: try done; try congruence.
  - match goal with H : mint_authority_key = _ |- _ => rewrite <-H end. by apply should_accrue_accrues.
  - naive_solver.
  - unfold should_accrue_onyc_mint. intros Hc. apply andb_true_iff in Hc as [_ Hc]. exact Hc.
  - intros Hsup Hk Hpc Htf. eapply exchange_after_refill; [exact Hrf|]. rewrite <-Hs in *.
    eapply exchange_through; try eassumption; try lia.
    rewrite Hsup. symmetry. by apply (quiet_supply _ _ _ Hq).
Qed.

Lemma quiet_accrues w w' mo : quiet w w' -> accrues w' mo <-> accrues w mo.
Proof. intros (l & vs & -> & _). done. Qed.

(** C14: taking an offer without approval ([take_offer_permissionless_v2]): the same
    exchange, at the permissionless fee; although every token passes through the
    program's intermediary accounts, their balances do not change. *)
Theorem take_offer_permissionless_v2_correct ctx amount u w w' :
  let base := tp_base ctx in
  typed w -> amount <= u64.MAX -> to_token_in_mint base <> to_token_out_mint base ->
  take_offer_permissionless_v2 ctx amount w = Ok (u, w') ->
  exists o mi mo res refill_to refill r c,
    take_checked base o mi mo amount (Offer.permissionless_fee_basis_points o) res w /\
    Offer.allow_permissionless o = true /\
    take_routed base mi ConfigurableVaultKind.OfferProceeds ConfigurableVaultKind.PermissionlessOfferFee
      (tp_offer_proceeds_token_in_account ctx) (tp_permissionless_offer_fee_token_in_account ctx)
      refill_to refill /\
    (c = true <-> accrues w mo) /\
    taken (taken_params base (state w) mi mo res (tp_offer_proceeds_token_in_account ctx)
             (tp_permissionless_offer_fee_token_in_account ctx) refill_to refill)
      (sa_buffer_accounts (tp_supply ctx)) r c (is_onyc_token_out_mint (state w) mo) w w'.
Proof using All.
  intros base Hty Ha Hne H. unfold take_offer_permissionless_v2, offer_account in H.
  subst base. inv_m. inv_accounts. inv_take.
  repeat match goal with H : key_eqb _ _ = true |- _ => apply key_eqb_eq in H end.
  repeat match goal with H : get_or_create_configurable_vault_token_account _ _ _ _ _ _ _ = Ok _ |- _ =>
    apply get_or_create_vault_Ok in H as (? & ? & ? & ?) end.
  match goal with H : get_or_create_associated_token_account _ _ _ _ _ _ = Ok _ |- _ =>
    apply get_or_create_ata_Ok in H as (Hq3 & ? & Ek3 & _) end.
  match type of H with execute_take_offer_permissionless _ _ _ _ _ _ _ _ _ _ _ _ _ _ ?w2 = _ =>
    assert (Hq : quiet w w2) by (repeat first [done | eapply quiet_trans; [eassumption|]]) end.
  pose proof (quiet_same _ _ Hq) as (Eck & Est & Eof & _). rewrite <-Est in H.
  apply execute_permissionless_Ok in H as (res & rd & rf & r & c & (? & ? & ? & ? & ? & ?) & Hp & ? & Hto
    & Hc & Ht); [|by eapply quiet_typed|done|by eapply typed_offer|by eapply quiet_fresh
    |by eapply quiet_fresh|congruence].
  rewrite Est in *. rewrite Eck in Hp.
  exists x, m, m0, res, rd, rf, r, c. split; [split; auto 10|].
  split; [done|].
  split; [split; [congruence|congruence|done|]; intros a Hra; apply Hto in Hra as [-> ?];
    split; [congruence|done]|].
  split; [by rewrite <-(quiet_accrues _ _ m0 Hq)|]. eapply quiet_taken; [exact Hq|].
  repeat match goal with H : ta_key _ = _ |- _ => rewrite H in Ht; clear H end. exact Ht.
Qed.
End take_instructions.

(** C18: buying at an offer's price and redeeming the proceeds at the same instant
    returns at most the net amount paid, whatever the fees and the decimals. *)
Theorem buy_then_redeem_no_profit o t amount bps (mi mo : MintAccount) bps' minimum r z :
  0 <= amount <= u64.MAX -> 0 <= bps <= MAX_BASIS_POINTS -> 0 <= bps' <= MAX_BASIS_POINTS ->
  0 <= minimum -> 0 <= decimals mi -> 0 <= decimals mo ->
  process_offer_core_at o amount (mint_key mi) (decimals mi) (mint_key mo) (decimals mo) t bps = Ok r ->
  process_redemption_core o t (opr_token_out_amount r) mo mi bps' minimum = Ok z ->
  rpr_token_out_amount z <= opr_token_in_net_amount r <= amount.
Proof.
  intros Ha Hb Hb' Hm Hi Ho H1 H2.
  apply process_offer_core_at_Ok in H1 as ([Hpr Hpos Hsp _ [_ ?] Hout [Hval _]] & _); [|lia|done..].
  apply process_redemption_Ok in H2 as (Ep & Hs & Hn & Hf & _ & _ & Hz & _); [|lia|done..].
  rewrite Hpr in Ep. injection Ep as Ep. split; [|lia].
  apply (round_trip_le _ (opr_token_out_amount r) (opr_current_price r) _ (decimals mi) (decimals mo));
    [done|done|lia|done|].
  etransitivity; [exact Hz|]. rewrite <-Ep. apply Z.mul_le_mono_nonneg_r; [by apply Z.pow_nonneg|].
  apply Z.mul_le_mono_nonneg_r; lia.
Qed.

(** ** Witnesses *)

Module Take.
Definition base : TakeOfferBase :=
  mkTakeOfferBase Sample.offer_key Sample.offer_vault (Sample.ata Sample.offer_vault Sample.usdc)
    (Sample.ata Sample.offer_vault Sample.onyc) Sample.usdc spl_token_id Sample.onyc spl_token_id
    (Sample.ata Sample.user Sample.usdc) (Sample.ata Sample.user Sample.onyc) mint_authority_key
    Sample.user.
Definition refill : RefillAccounts :=
  mkRefillAccounts Sample.redemption_offer_key redemption_vault_authority_key
    (Sample.ata redemption_vault_authority_key Sample.usdc).
Definition supply : SupplyAccounts :=
  mkSupplyAccounts Sample.buffer_accounts (pda [seeds.MARKET_STATS])
    (pda [seeds.CIRCULATING_SUPPLY_EXCLUDED_BALANCE]) Sample.offer_key.
Definition vault_usdc (k : ConfigurableVaultKind.t) : Pubkey := Sample.ata (Sample.vault k) Sample.usdc.
Definition v2 : TakeOfferV2 :=
  mkTakeOfferV2 base refill (Sample.vault ConfigurableVaultKind.OfferProceeds)
    (vault_usdc ConfigurableVaultKind.OfferProceeds) (Sample.vault ConfigurableVaultKind.OfferFee)
    (vault_usdc ConfigurableVaultKind.OfferFee) supply instructions_sysvar_id.
Definition permissionless : TakeOfferPermissionlessV2 :=
  mkTakeOfferPermissionlessV2 base Sample.intermediary (Sample.ata Sample.intermediary Sample.usdc)
    (Sample.ata Sample.intermediary Sample.onyc) refill (Sample.vault ConfigurableVaultKind.OfferProceeds)
    (vault_usdc ConfigurableVaultKind.OfferProceeds)
    (Sample.vault ConfigurableVaultKind.PermissionlessOfferFee)
    (vault_usdc ConfigurableVaultKind.PermissionlessOfferFee) supply.
Definition tx : InstructionsSysvar := mkInstructionsSysvar 0 [].
End Take.

Example take_runs :
  is_ok (take_offer_v2 Take.tx Take.v2 1000000000 None Sample.world) = true.
Proof. vm_compute. reflexivity. Qed.
Example permissionless_runs :
  is_ok (take_offer_permissionless_v2 Take.permissionless 1000000000 Sample.world) = true.
Proof. vm_compute. reflexivity. Qed.

Lemma take_offer_v2_correct_witness :
  exists o mi mo res refill_to refill r c,
    take_checked Take.base o mi mo 1000000000 (Offer.fee_basis_points o) res Sample.world /\
    verify_offer_approval Take.tx o None program_id Sample.user (State.approver1 Sample.state)
      (State.approver2 Sample.state) instructions_sysvar_id Sample.world = Ok (tt, Sample.world) /\
    take_routed Take.base mi ConfigurableVaultKind.OfferProceeds ConfigurableVaultKind.OfferFee
      (Take.vault_usdc ConfigurableVaultKind.OfferProceeds)
      (Take.vault_usdc ConfigurableVaultKind.OfferFee) refill_to refill /\
    (c = true <-> accrues Sample.world mo) /\
    taken (taken_params Take.base Sample.state mi mo res
             (Take.vault_usdc ConfigurableVaultKind.OfferProceeds)
             (Take.vault_usdc ConfigurableVaultKind.OfferFee) refill_to refill)
      Sample.buffer_accounts r c (is_onyc_token_out_mint Sample.state mo) Sample.world
      (Sample.after (take_offer_v2 Take.tx Take.v2 1000000000 None) Sample.world).
Proof.
  exact (take_offer_v2_correct Take.tx Take.v2 1000000000 None tt Sample.world _ sample_typed
           ltac:(split; [lia|vm_compute; discriminate]) ltac:(vm_compute; discriminate)
           (after_Ok _ _ take_runs)).
Defined.

Lemma take_offer_permissionless_v2_correct_witness :
  exists o mi mo res refill_to refill r c,
    take_checked Take.base o mi mo 1000000000 (Offer.permissionless_fee_basis_points o) res
      Sample.world /\
    Offer.allow_permissionless o = true /\
    take_routed Take.base mi ConfigurableVaultKind.OfferProceeds
      ConfigurableVaultKind.PermissionlessOfferFee
      (Take.vault_usdc ConfigurableVaultKind.OfferProceeds)
      (Take.vault_usdc ConfigurableVaultKind.PermissionlessOfferFee) refill_to refill /\
    (c = true <-> accrues Sample.world mo) /\
    taken (taken_params Take.base Sample.state mi mo res
             (Take.vault_usdc ConfigurableVaultKind.OfferProceeds)
             (Take.vault_usdc ConfigurableVaultKind.PermissionlessOfferFee) refill_to refill)
      Sample.buffer_accounts r c (is_onyc_token_out_mint Sample.state mo) Sample.world
      (Sample.after (take_offer_permissionless_v2 Take.permissionless 1000000000) Sample.world).
Proof.
  exact (take_offer_permissionless_v2_correct Take.permissionless 1000000000 tt Sample.world _
           sample_typed ltac:(vm_compute; discriminate) ltac:(vm_compute; discriminate)
           (after_Ok _ _ permissionless_runs)).
Defined.

(** 1,000 USDC buy ONyc, which redeems for at most what was paid net of the fee. *)
Definition sample_mint (k : Pubkey) (d : Z) : MintAccount :=
  mkMintAccount k (Mint.mk 0 d None spl_token_id None).

Lemma buy_then_redeem_no_profit_witness : exists r z,
  process_offer_core_at Sample.offer 1000000000 Sample.usdc 6 Sample.onyc 9 1000100 500 = Ok r /\
  process_redemption_core Sample.offer 1000100 (opr_token_out_amount r)
    (sample_mint Sample.onyc 9) (sample_mint Sample.usdc 6) 200 0 = Ok z /\
  rpr_token_out_amount z <= opr_token_in_net_amount r <= 1000000000.
Proof.
  destruct (process_offer_core_at Sample.offer 1000000000 Sample.usdc 6 Sample.onyc 9 1000100 500)
    as [r|] eqn:E1; [|by vm_compute in E1].
  destruct (process_redemption_core Sample.offer 1000100 (opr_token_out_amount r)
    (sample_mint Sample.onyc 9) (sample_mint Sample.usdc 6) 200 0) as [z|] eqn:E2;
    [|vm_compute in E1; injection E1 as <-; by vm_compute in E2].
  exists r, z. do 2 (split; [done|]).
  refine (buy_then_redeem_no_profit Sample.offer 1000100 1000000000 500 (sample_mint Sample.usdc 6)
    (sample_mint Sample.onyc 9) 200 0 r z _ _ _ _ _ _ E1 E2);
    (split || idtac); vm_compute; discriminate.
Defined.
