(* ===== verification/LegacyFacts.v ===== *)
(** * The legacy take instructions

    [take_offer] and [take_offer_permissionless] ([take_offer.rs],
    [take_offer_permissionless.rs]): token_in and the fee go to the boss, and
    neither the BUFFER nor the market stats are touched.  *)

From S2P Require Import World MathUtils OfferPricing Approval TokenUtils OfferHandlers MarketInfo Buffer Vaults Redemption TakeOffer Program Frames Samples MarketFacts BufferFacts AccountFacts RedemptionFacts TypedFacts OfferFacts.
Open Scope Z_scope.

Section legacy.
Context {R : Runtime} {L : Type} {TL : TokenLedger L} {TLL : TokenLedgerLaws L}.
Implicit Types w : World L.
Import ExecTokenOpsParams.

(** [p] was exchanged, and nothing else happened. *)
Record exchanged (p : ExecTokenOpsParams.t) w w' : Prop := {
  ex_world : exists l es, w' = set_events es (set_ledger l w);
  ex_balance k : balance (ledger w') k
    = balance (ledger w) k + in_balance_change p k + out_balance_change p k;
  ex_supply k : supply_of (ledger w') k
    = supply_of (ledger w) k + in_supply_change p k + out_supply_change p k;
  ex_fees : has_transfer_fee (token_in_mint p) = false /\ has_transfer_fee (token_out_mint p) = false;
  ex_caps : controls_out p = true ->
    (0 < token_out_max_mint_amount p -> token_out_amount p <= token_out_max_mint_amount p) /\
    (0 < token_out_max_supply p ->
       supply_of (ledger w) (mint_key (token_out_mint p)) + token_out_amount p
         <= token_out_max_supply p)
}.

(** Nothing but token accounts is created before the exchange. *)
Lemma exchanged_after p w w1 w2 es :
  quiet w w1 -> vaults w1 = vaults w -> exchange_checked p w1 ->
  moves w1 w2 (fun k => in_balance_change p k + out_balance_change p k)
    (fun k => in_supply_change p k + out_supply_change p k) ->
  exchanged p w (set_events es w2).
Proof using All.
  intros Hq Hv [Hf _ Hc] [(l2 & es2 & ->) Hb Hs].
  pose proof (fun k => quiet_balance _ _ k Hq) as Eb. pose proof (fun k => quiet_supply _ _ k Hq) as Es.
  destruct Hq as (l1 & vs & -> & _). cbn in Hv. subst vs. cbn in *. split; cbn.
  - exists l2, es. by destruct w.
  - intros k. rewrite Hb, Eb. lia.
  - intros k. rewrite Hs, Es. lia.
  - done.
  - intros Hctl. destruct (Hc Hctl) as [H1 H2]. split; [done|]. intros Hm. specialize (H2 Hm).
    by rewrite Es in H2.
Qed.

(** What a legacy instruction pays to the boss for the user. *)
Definition legacy_params (ctx : TakeOfferBase) (st : State.t) (mi mo : MintAccount)
    (res : OfferProcessResult) (boss_account : Pubkey) : ExecTokenOpsParams.t :=
  exchange_params ctx st mi mo res (to_user ctx) (to_user_token_in_account ctx) boss_account None 0
    boss_account (to_user_token_out_account ctx).

(** An approval that holds does so whatever token accounts exist. *)
Lemma approval_clock tx o msg prog user a1 a2 ins u w w1 w2 :
  clock w1 = clock w -> verify_offer_approval tx o msg prog user a1 a2 ins w1 = Ok (u, w2) ->
  verify_offer_approval tx o msg prog user a1 a2 ins w = Ok (tt, w).
Proof.
  unfold verify_offer_approval, Clock_get. intros E H. destruct (Offer.needs_approval o); [|done].
  destruct msg; [|by inv_m]. inv_m. rewrite E in *. unfold gets, lift, mbind, M_bind.
  match goal with H : _ = Ok tt |- _ => by rewrite H end.
Qed.

Lemma take_offer_legacy tx ctx boss boss_account sysvar amount msg u w w' :
  typed w -> amount <= u64.MAX ->
  take_offer tx ctx boss boss_account sysvar amount msg w = Ok (u, w') ->
  exists o mi mo res,
    take_checked ctx o mi mo amount (Offer.fee_basis_points o) res w /\
    verify_offer_approval tx o msg program_id (to_user ctx) (State.approver1 (state w))
      (State.approver2 (state w)) sysvar w = Ok (tt, w) /\
    boss = State.boss (state w) /\
    boss_account = associated_token_address boss (to_token_in_mint ctx) (to_token_in_program ctx) /\
    exchanged (legacy_params ctx (state w) mi mo res boss_account) w w'.
Proof using All.
  intros Hty Ha H. unfold take_offer, TakeOffer_accounts, Offer.require_enabled, not_killed in H.
  inv_m. inv_res. inv_accounts. inv_take.
  match goal with Hi : init_if_needed_ata _ _ _ _ _ = Ok _ |- _ =>
    pose proof Hi as Hq; apply init_if_needed_ata_Ok in Hq as [Hq ?]; frame_call (@vaults L) Hi end.
  pose proof (quiet_same _ _ Hq) as (Eck & Est & Eof & _).
  match goal with H : process_offer_core _ _ _ _ _ _ = Ok (?r, _) |- _ => rename r into res;
    apply process_offer_core_Ok in H as (-> & Hp & ? & ?);
    [|done|by eapply typed_offer|by eapply quiet_fresh|by eapply quiet_fresh] end.
  match goal with H : verify_offer_approval _ _ _ _ _ _ _ _ _ = Ok _ |- _ =>
    apply (approval_clock _ _ _ _ _ _ _ _ _ w) in H as Hv; [|done] end.
  match goal with H : execute_token_operations (exchange_params _ _ ?mi ?mo _ _ _ _ _ _ _ _) _ = Ok _,
    Ho : offers w !! _ = Some ?o |- _ => exists o, mi, mo, res;
    eapply (exchange_reloaded ctx _ mi mo mo) in H as [Hchk Hmv];
    [|apply fresh_supply; by eapply quiet_fresh|done..|apply Hp|apply Hp|done] end.
  rewrite Eck in Hp. split; [split; auto; split_and?; congruence|]. split; [done|]. split; [done|]. split; [done|].
  unfold emit_taken in H. inv_m. by eapply exchanged_after.
Qed.

(** C15: taking an offer the legacy way ([take_offer]).  The offer is enabled, approved if
    it must be and priced at the clock; the user pays exactly the amount, net and
    fee both to the boss's own token account (the net is burned if the program
    mints token_in); the user gets the token_out the net amount pays for, minted
    within the supply and mint caps or out of the vault; no other balance and no
    other supply moves, and no account of the program changes, the BUFFER's
    included. *)
Theorem take_offer_correct tx ctx boss boss_account sysvar amount msg u w w' :
  typed w -> amount <= u64.MAX ->
  take_offer tx ctx boss boss_account sysvar amount msg w = Ok (u, w') ->
  exists o mi mo res,
    take_checked ctx o mi mo amount (Offer.fee_basis_points o) res w /\
    verify_offer_approval tx o msg program_id (to_user ctx) (State.approver1 (state w))
      (State.approver2 (state w)) sysvar w = Ok (tt, w) /\
    boss = State.boss (state w) /\
    boss_account = associated_token_address boss (to_token_in_mint ctx) (to_token_in_program ctx) /\
    exchanged (legacy_params ctx (state w) mi mo res boss_account) w w'.
Proof using All. apply take_offer_legacy. Qed.

(** The exchange through the intermediary accounts, without the accounts of v2. *)
Lemma execute_legacy_Ok ctx o mi mo amount pa pin pout dest uout u w w' :
  typed w -> amount <= u64.MAX -> 0 <= Offer.fee_basis_points o <= MAX_BASIS_POINTS ->
  fresh w mi -> fresh w mo ->
  execute_take_offer_permissionless ctx (state w) o mi mo amount pa pin pout dest dest uout None None w
    = Ok (u, w') ->
  exists res w2 es,
    (Offer.is_disabled o = false /\ Offer.allow_permissionless o = true /\
     Offer.token_in_mint o = mint_key mi /\ Offer.token_out_mint o = mint_key mo /\
     to_vault_authority ctx = pda [seeds.OFFER_VAULT_AUTHORITY] /\
     to_mint_authority ctx = mint_authority_key) /\
    priced o (timestamp_u64 (clock w)) amount (Offer.fee_basis_points o) (decimals mi) (decimals mo) res /\
    let p := exchange_params ctx (state w) mi mo res (to_user ctx) (to_user_token_in_account ctx) dest
               None 0 dest uout in
    exchange_checked p w /\
    moves w w2 (fun k => in_balance_change p k + out_balance_change p k)
      (fun k => in_supply_change p k + out_supply_change p k) /\ w' = set_events es w2.
Proof using All.
  intros Hty Ha Hb Hmi Hmo H. unfold execute_take_offer_permissionless, permissionless_settle, Offer.require_enabled in H.
  cbn [fmap option_fmap option_map fst default] in H. inv_m. inv_res. inv_take.
  match goal with H : process_offer_core _ _ _ _ _ _ = Ok (?r, _) |- _ => rename r into res;
    apply process_offer_core_Ok in H as (-> & Hp & ? & ?); [|done..] end.
  pose proof (pr_split _ _ _ _ _ _ _ Hp) as Hs. pose proof (pr_net _ _ _ _ _ _ _ Hp).
  pose proof (pr_fee _ _ _ _ _ _ _ Hp) as [_ ?]. cbn [store_post_offer_supply] in *. inv_m.
  repeat match goal with H : key_eqb _ _ = true |- _ => apply key_eqb_eq in H end.
  match goal with H3 : transfer_tokens ?m _ pout _ _ _ ?a = Ok (_, ?b), H1 : transfer_tokens _ _ _ pin _ _ _ = _,
    H2 : execute_token_operations _ _ = _ |- _ =>
    eapply (exchange_through ctx (state w) mi m m res pa pin pout dest None 0 dest _ uout) in H1
      as [Hchk Hmv]; [exists res, b|by apply fresh_supply|done|done|done|lia|lia|lia|exact H2|exact H3] end.
  unfold emit_taken in H. inv_m. eexists. split; [eauto 10|]. split; [done|]. split; [done|]. by split.
Qed.

(** Taking an offer without approval the legacy way ([take_offer_permissionless]): the
    exchange of [take_offer], at the same fee, for offers that allow it; every
    token passes through the program's intermediary accounts, whose balances do
    not change. *)
Theorem take_offer_permissionless_correct ctx boss boss_account pa pin pout sysvar amount u w w' :
  typed w -> amount <= u64.MAX ->
  take_offer_permissionless ctx boss boss_account pa pin pout sysvar amount w = Ok (u, w') ->
  exists o mi mo res,
    take_checked ctx o mi mo amount (Offer.fee_basis_points o) res w /\
    Offer.allow_permissionless o = true /\ boss = State.boss (state w) /\
    boss_account = associated_token_address boss (to_token_in_mint ctx) (to_token_in_program ctx) /\
    exchanged (legacy_params ctx (state w) mi mo res boss_account) w w'.
Proof using All.
  intros Hty Ha H. unfold take_offer_permissionless, offer_account, live_state, not_killed in H.
  inv_m. inv_res. inv_accounts. inv_take.
  match goal with Hi : get_or_create_associated_token_account _ _ _ _ _ _ = Ok _ |- _ =>
    pose proof Hi as Hq; apply get_or_create_ata_Ok in Hq as (Hq & ? & Ek & _);
    frame_call (@vaults L) Hi end.
  pose proof (quiet_same _ _ Hq) as (Eck & Est & Eof & _). rewrite <- Est in H.
  match goal with E : ta_key ?a = boss_account |- _ => rewrite E in H end.
  apply execute_legacy_Ok in H as (res & w2 & es & (? & ? & ? & ? & ? & ?) & Hp & Hchk & Hmv & ->);
    [|by eapply quiet_typed|done|by eapply typed_offer|by eapply quiet_fresh|by eapply quiet_fresh].
  rewrite Eck in Hp. rewrite Est, Ek in *.
  match goal with Ho : offers w !! _ = Some ?o,
    _ : exchange_checked (exchange_params _ _ ?mi ?mo _ _ _ _ _ _ _ _) _ |- _ => exists o, mi, mo, res end.
  split; [by split|]. split; [done|]. split; [done|]. split; [done|]. by eapply exchanged_after.
Qed.
End legacy.

(** ** Witnesses *)

Module Legacy.
Definition boss_account : Pubkey := Sample.ata Sample.boss Sample.usdc.
Definition amount : Z := 1000000000.
End Legacy.

Example legacy_runs :
  is_ok (take_offer Take.tx Take.base Sample.boss Legacy.boss_account instructions_sysvar_id
           Legacy.amount None Sample.world) = true.
Proof. vm_compute. reflexivity. Qed.

Example legacy_permissionless_runs :
  is_ok (take_offer_permissionless Take.base Sample.boss Legacy.boss_account Sample.intermediary
           (Sample.ata Sample.intermediary Sample.usdc) (Sample.ata Sample.intermediary Sample.onyc)
           instructions_sysvar_id Legacy.amount Sample.world) = true.
Proof. vm_compute. reflexivity. Qed.

Lemma take_offer_correct_witness :
  exists o mi mo res,
    take_checked Take.base o mi mo Legacy.amount (Offer.fee_basis_points o) res Sample.world /\
    exchanged (legacy_params Take.base Sample.state mi mo res Legacy.boss_account) Sample.world
      (Sample.after (take_offer Take.tx Take.base Sample.boss Legacy.boss_account
                       instructions_sysvar_id Legacy.amount None) Sample.world).
Proof.
  destruct (take_offer_correct Take.tx Take.base Sample.boss Legacy.boss_account instructions_sysvar_id
    Legacy.amount None tt Sample.world _ sample_typed ltac:(vm_compute; discriminate)
    (after_Ok _ _ legacy_runs)) as (o & mi & mo & res & Hc & _ & _ & _ & He).
  exists o, mi, mo, res. exact (conj Hc He).
Defined.

Lemma take_offer_permissionless_correct_witness :
  exists o mi mo res,
    take_checked Take.base o mi mo Legacy.amount (Offer.fee_basis_points o) res Sample.world /\
    Offer.allow_permissionless o = true /\
    exchanged (legacy_params Take.base Sample.state mi mo res Legacy.boss_account) Sample.world
      (Sample.after (take_offer_permissionless Take.base Sample.boss Legacy.boss_account
         Sample.intermediary (Sample.ata Sample.intermediary Sample.usdc)
         (Sample.ata Sample.intermediary Sample.onyc) instructions_sysvar_id Legacy.amount) Sample.world).
Proof.
  destruct (take_offer_permissionless_correct Take.base Sample.boss Legacy.boss_account
    Sample.intermediary (Sample.ata Sample.intermediary Sample.usdc)
    (Sample.ata Sample.intermediary Sample.onyc) instructions_sysvar_id Legacy.amount tt Sample.world _
    sample_typed ltac:(vm_compute; discriminate) (after_Ok _ _ legacy_permissionless_runs))
    as (o & mi & mo & res & Hc & Hp & _ & _ & He).
  exists o, mi, mo, res. exact (conj Hc (conj Hp He)).
Defined.
