(* ===== verification/HardWallFacts.v ===== *)
(** * The hard-wall arithmetic is monotone

    [hard_wall_math.rs] computes powers through truncated series for log2 and
    exp2.  For every utilization and every admissible exponent the result exists
    (nothing overflows or panics) and grows with the utilization: the truncation
    errors never reverse the order of two powers, not even where the code
    switches from the series to its special cases.  *)

From S2P Require Import World MathUtils PropAmmMath.
Open Scope Z_scope.

(** ** Monotone machine arithmetic *)

Lemma clamp_mono lo hi a b : a <= b -> clamp lo hi a <= clamp lo hi b.
Proof. unfold clamp. lia. Qed.

Lemma clamp_id lo hi a : lo <= a <= hi -> clamp lo hi a = a.
Proof. unfold clamp. lia. Qed.

Lemma clamp_range lo hi a : lo <= hi -> lo <= clamp lo hi a <= hi.
Proof. unfold clamp. lia. Qed.

Lemma saturating_mul_mono a b c d :
  0 <= a <= b -> 0 <= c <= d -> 0 <= u128.saturating_mul a c <= u128.saturating_mul b d.
Proof.
  intros. unfold u128.saturating_mul. split; [unfold clamp; lia|]. apply clamp_mono. nia.
Qed.

Lemma saturating_add_mono a b c d :
  0 <= a <= b -> 0 <= c <= d -> 0 <= u128.saturating_add a c <= u128.saturating_add b d.
Proof.
  intros. unfold u128.saturating_add. split; [unfold clamp; lia|]. apply clamp_mono. lia.
Qed.

Lemma shiftr_mono a b n : 0 <= n -> 0 <= a <= b -> 0 <= Z.shiftr a n <= Z.shiftr b n.
Proof.
  intros. rewrite !Z.shiftr_div_pow2 by lia. assert (0 < 2 ^ n) by (apply Z.pow_pos_nonneg; lia).
  split; [apply Z.div_pos; lia|]. apply Z.div_le_mono; lia.
Qed.

Lemma div_mono a b d : 0 < d -> 0 <= a <= b -> 0 <= a / d <= b / d.
Proof. intros. split; [apply Z.div_pos; lia|]. apply Z.div_le_mono; lia. Qed.

(** ** log2 *)

Lemma log_terms_mono ds z2 z2' term term' sum sum' :
  Forall (fun d => 0 < d) ds -> 0 <= z2 <= z2' -> 0 <= term <= term' -> 0 <= sum <= sum' ->
  0 <= log_terms ds z2 term sum <= log_terms ds z2' term' sum'.
Proof.
  intros Hds Hz. revert term term' sum sum'.
  induction Hds as [|d ds Hd _ IH]; intros term term' sum sum' Ht Hs; cbn; [done|].
  assert (0 <= Z.shiftr (u128.saturating_mul term z2) POW_APPROX_Q_SHIFT
            <= Z.shiftr (u128.saturating_mul term' z2') POW_APPROX_Q_SHIFT)
    by (apply shiftr_mono; [done|by apply saturating_mul_mono]).
  apply IH; [done|]. apply saturating_add_mono; [done|]. by apply div_mono.
Qed.

(** The fractional part that [log2_integer_q] computes from a mantissa. *)
Definition log2_fraction (m : Z) : Z :=
  let z := u128.saturating_mul (u128.saturating_sub m POW_APPROX_Q) POW_APPROX_Q
           / u128.saturating_add m POW_APPROX_Q in
  let z2 := Z.shiftr (u128.saturating_mul z z) POW_APPROX_Q_SHIFT in
  Z.shiftr (u128.saturating_mul
    (u128.saturating_mul (log_terms [3; 5; 7; 9; 11; 13] z2 z z) 2) POW_APPROX_LOG2_E_Q)
    POW_APPROX_Q_SHIFT.

Definition mantissa (value : Z) : Z :=
  let shift := Z.log2 value - POW_APPROX_Q_SHIFT in
  if 0 <=? shift then Z.shiftr value shift else wrap_u 128 (Z.shiftl value (- shift)).

Lemma log2_integer_q_eq v :
  log2_integer_q v =
  i128.saturating_add (i128.saturating_mul (Z.log2 v) POW_APPROX_Q) (log2_fraction (mantissa v)).
Proof. unfold log2_integer_q, log2_fraction, mantissa. reflexivity. Qed.

Lemma z_mono m m' :
  POW_APPROX_Q <= m <= m' -> m' < 2 * POW_APPROX_Q ->
  0 <= u128.saturating_mul (u128.saturating_sub m POW_APPROX_Q) POW_APPROX_Q
         / u128.saturating_add m POW_APPROX_Q
    <= u128.saturating_mul (u128.saturating_sub m' POW_APPROX_Q) POW_APPROX_Q
         / u128.saturating_add m' POW_APPROX_Q.
Proof.
  change POW_APPROX_Q with 1099511627776. intros H1 H2. unfold_ints.
  rewrite !(clamp_id _ _ (_ - _)), !(clamp_id _ _ (_ * _)), !(clamp_id _ _ (_ + _)) by zlia.
  split; [apply Z.div_pos; lia|]. apply Z.div_le_lower_bound; [lia|].
  pose proof (div_mul_le ((m - 1099511627776) * 1099511627776) (m + 1099511627776)).
  set (q := (m - 1099511627776) * 1099511627776 / (m + 1099511627776)) in *.
  assert (q <= 1099511627776) by (apply Z.div_le_upper_bound; lia).
  nia.
Qed.

Lemma log2_fraction_mono m m' :
  POW_APPROX_Q <= m <= m' -> m' < 2 * POW_APPROX_Q ->
  0 <= log2_fraction m <= log2_fraction m'.
Proof.
  intros H1 H2. pose proof (z_mono m m' H1 H2) as Hz. unfold log2_fraction. cbv zeta.
  set (z := _ / u128.saturating_add m _) in *. set (z' := _ / u128.saturating_add m' _) in *.
  apply shiftr_mono; [done|]. apply saturating_mul_mono; [|done].
  apply saturating_mul_mono; [|done]. apply log_terms_mono; [repeat constructor| |done|done].
  apply shiftr_mono; [done|]. by apply saturating_mul_mono.
Qed.

(** The mantissa just below two still has a fraction below one. *)
Lemma log2_fraction_range m :
  POW_APPROX_Q <= m < 2 * POW_APPROX_Q -> 0 <= log2_fraction m <= POW_APPROX_Q.
Proof.
  intros Hm. pose proof (log2_fraction_mono m (2 * POW_APPROX_Q - 1)).
  assert (log2_fraction (2 * POW_APPROX_Q - 1) <= POW_APPROX_Q) by (vm_compute; discriminate).
  lia.
Qed.

Lemma u128_max_pow : u128.MAX = 2 ^ 128 - 1.
Proof. reflexivity. Qed.

Lemma log2_u128 v : 0 < v <= u128.MAX -> 0 <= Z.log2 v <= 127.
Proof.
  intros Hv. split; [apply Z.log2_nonneg|]. assert (Z.log2 v < 128); [|lia].
  apply Z.log2_lt_pow2; [lia|]. rewrite u128_max_pow in Hv. lia.
Qed.

Lemma mantissa_small v :
  0 < v <= u128.MAX -> Z.log2 v <= 40 -> mantissa v = v * 2 ^ (40 - Z.log2 v).
Proof.
  intros Hv Hl. pose proof (log2_u128 v Hv). pose proof (Z.log2_spec v ltac:(lia)) as [_ Hs].
  unfold mantissa. change POW_APPROX_Q_SHIFT with 40.
  assert (v * 2 ^ (40 - Z.log2 v) < 2 ^ 128).
  { apply Z.lt_le_trans with (2 ^ Z.succ (Z.log2 v) * 2 ^ (40 - Z.log2 v)).
    - apply Z.mul_lt_mono_pos_r; [apply Z.pow_pos_nonneg; lia|done].
    - rewrite <- Z.pow_add_r by lia. apply Z.pow_le_mono_r; lia. }
  assert (0 < 2 ^ (40 - Z.log2 v)) by (apply Z.pow_pos_nonneg; lia).
  destruct (Z.leb_spec 0 (Z.log2 v - 40)).
  - replace (Z.log2 v) with 40 by lia. rewrite Z.shiftr_0_r. cbn. lia.
  - rewrite Z.shiftl_mul_pow2 by lia. replace (- (Z.log2 v - 40)) with (40 - Z.log2 v) by lia.
    unfold wrap_u. apply Z.mod_small. nia.
Qed.

Lemma mantissa_large v :
  0 < v <= u128.MAX -> 40 <= Z.log2 v -> mantissa v = v / 2 ^ (Z.log2 v - 40).
Proof.
  intros Hv Hl. unfold mantissa. change POW_APPROX_Q_SHIFT with 40.
  rewrite (proj2 (Z.leb_le 0 (Z.log2 v - 40))) by lia. rewrite Z.shiftr_div_pow2 by lia. done.
Qed.

Lemma mantissa_range v :
  0 < v <= u128.MAX -> POW_APPROX_Q <= mantissa v < 2 * POW_APPROX_Q.
Proof.
  intros Hv. pose proof (log2_u128 v Hv). pose proof (Z.log2_spec v ltac:(lia)) as [Hs1 Hs2].
  change POW_APPROX_Q with (2 ^ 40). change (2 * 2 ^ 40) with (2 ^ 41).
  destruct (Z.le_ge_cases (Z.log2 v) 40).
  - rewrite mantissa_small by done. assert (0 < 2 ^ (40 - Z.log2 v)) by (apply Z.pow_pos_nonneg; lia).
    replace 41 with (Z.succ (Z.log2 v) + (40 - Z.log2 v)) by lia.
    replace (2 ^ 40) with (2 ^ (Z.log2 v + (40 - Z.log2 v))) by (f_equal; lia).
    rewrite !Z.pow_add_r by lia. split.
    + apply Z.mul_le_mono_nonneg_r; lia.
    + apply Z.mul_lt_mono_pos_r; lia.
  - rewrite mantissa_large by done. assert (0 < 2 ^ (Z.log2 v - 40)) by (apply Z.pow_pos_nonneg; lia).
    split.
    + apply div_le_mul; [done|]. rewrite <- Z.pow_add_r by lia.
      replace (40 + (Z.log2 v - 40)) with (Z.log2 v) by lia. done.
    + apply div_lt_mul; [done|]. rewrite <- Z.pow_add_r by lia.
      replace (41 + (Z.log2 v - 40)) with (Z.succ (Z.log2 v)) by lia. done.
Qed.

Lemma mantissa_mono v v' :
  0 < v <= v' -> v' <= u128.MAX -> Z.log2 v = Z.log2 v' -> mantissa v <= mantissa v'.
Proof.
  intros Hv Hv' He. pose proof (log2_u128 v ltac:(lia)).
  destruct (Z.le_ge_cases (Z.log2 v) 40).
  - rewrite !mantissa_small by lia. rewrite <- He.
    apply Z.mul_le_mono_nonneg_r; [apply Z.pow_nonneg|]; lia.
  - rewrite !mantissa_large by lia. rewrite <- He.
    apply Z.div_le_mono; [apply Z.pow_pos_nonneg|]; lia.
Qed.

Lemma log2_integer_q_value v :
  0 < v <= u128.MAX -> log2_integer_q v = Z.log2 v * POW_APPROX_Q + log2_fraction (mantissa v).
Proof.
  intros Hv. pose proof (log2_u128 v Hv).
  pose proof (log2_fraction_range _ (mantissa_range v Hv)) as Hf.
  rewrite log2_integer_q_eq. unfold_ints. change POW_APPROX_Q with 1099511627776 in *.
  rewrite (clamp_id _ _ (_ * _)), clamp_id by zlia. done.
Qed.

Lemma log2_integer_q_range v :
  0 < v <= u128.MAX -> 0 <= log2_integer_q v <= 128 * POW_APPROX_Q.
Proof.
  intros Hv. pose proof (log2_u128 v Hv).
  pose proof (log2_fraction_range _ (mantissa_range v Hv)) as Hf.
  rewrite log2_integer_q_value by done. change POW_APPROX_Q with 1099511627776 in *. lia.
Qed.

Lemma log2_integer_q_mono v v' :
  0 < v <= v' -> v' <= u128.MAX -> log2_integer_q v <= log2_integer_q v'.
Proof.
  intros Hv Hv'. rewrite !log2_integer_q_value by lia.
  pose proof (log2_fraction_range _ (mantissa_range v ltac:(lia))) as Hf.
  pose proof (mantissa_range v' ltac:(lia)) as Hm'.
  pose proof (Z.log2_le_mono v v' ltac:(lia)) as Hl.
  destruct (decide (Z.log2 v = Z.log2 v')) as [He|Hn].
  - rewrite He. pose proof (log2_fraction_mono (mantissa v) (mantissa v')) as Hmono.
    pose proof (mantissa_mono v v' Hv Hv' He). pose proof (mantissa_range v ltac:(lia)). lia.
  - pose proof (log2_fraction_range _ Hm').
    change POW_APPROX_Q with 1099511627776 in *. lia.
Qed.

(** ** exp2 *)

Lemma exp_terms_mono ds x x' term term' sum sum' :
  Forall (fun d => 0 < d) ds -> 0 <= x <= x' -> 0 <= term <= term' -> 0 <= sum <= sum' ->
  0 <= exp_terms ds x term sum <= exp_terms ds x' term' sum'.
Proof.
  intros Hds Hx. revert term term' sum sum'.
  induction Hds as [|d ds Hd _ IH]; intros term term' sum sum' Ht Hs; cbn; [done|].
  assert (0 <= Z.shiftr (u128.saturating_mul term x) POW_APPROX_Q_SHIFT / d
            <= Z.shiftr (u128.saturating_mul term' x') POW_APPROX_Q_SHIFT / d)
    by (apply div_mono; [done|]; apply shiftr_mono; [done|]; by apply saturating_mul_mono).
  apply IH; [done|]. by apply saturating_add_mono.
Qed.

(** [2 ^ f] for the fraction [f], in units of the hard-wall scale. *)
Definition exp2_fraction (f : Z) : Z :=
  Z.shiftr (u128.saturating_mul
    (exp_terms [1; 2; 3; 4; 5; 6; 7; 8; 9; 10]
       (Z.shiftr (u128.saturating_mul f POW_APPROX_LN2_Q) POW_APPROX_Q_SHIFT)
       POW_APPROX_Q POW_APPROX_Q) HARD_WALL_SCALE) POW_APPROX_Q_SHIFT.

Lemma exp2_fraction_mono f f' :
  0 <= f <= f' -> 0 <= exp2_fraction f <= exp2_fraction f'.
Proof.
  intros Hf. unfold exp2_fraction. cbv zeta. apply shiftr_mono; [done|].
  apply saturating_mul_mono; [|done]. apply exp_terms_mono; [repeat constructor| |done|done].
  apply shiftr_mono; [done|]. by apply saturating_mul_mono.
Qed.

Lemma exp2_fraction_range f :
  0 <= f < POW_APPROX_Q -> HARD_WALL_SCALE <= exp2_fraction f <= 2 * HARD_WALL_SCALE.
Proof.
  intros Hf. pose proof (exp2_fraction_mono 0 f ltac:(lia)).
  pose proof (exp2_fraction_mono f (POW_APPROX_Q - 1) ltac:(lia)).
  assert (exp2_fraction 0 = HARD_WALL_SCALE) by (vm_compute; reflexivity).
  assert (exp2_fraction (POW_APPROX_Q - 1) <= 2 * HARD_WALL_SCALE) by (vm_compute; discriminate).
  lia.
Qed.

(** The result as a function of the integer and the fractional part. *)
Definition exp2_of (n f : Z) : Z :=
  if 0 <=? n then Z.min u128.MAX (exp2_fraction f * 2 ^ n) else exp2_fraction f / 2 ^ (- n).

(** The logarithms the code can produce; [1280] is [128] bits times the exponent
    bound [10]. *)
Definition LOG_BOUND : Z := 1280 * POW_APPROX_Q.

Lemma quot_rem_floor l :
  let n := Z.quot l POW_APPROX_Q in
  let f := Z.rem l POW_APPROX_Q in
  (if f <? 0 then (n - 1, f + POW_APPROX_Q) else (n, f))
  = (l / POW_APPROX_Q, l mod POW_APPROX_Q).
Proof.
  cbv zeta. change POW_APPROX_Q with 1099511627776.
  pose proof (Z.quot_rem' l 1099511627776).
  pose proof (Z.div_mod l 1099511627776 ltac:(lia)). pose proof (Z.mod_pos_bound l 1099511627776).
  assert (-1099511627776 < Z.rem l 1099511627776 < 1099511627776)
    by (pose proof (Z.rem_bound_abs l 1099511627776); lia).
  destruct (Z.ltb_spec (Z.rem l 1099511627776) 0); f_equal; lia.
Qed.

(** The final shift of [exp2_hard_wall_scaled_q]. *)
Definition exp2_shift (n scaled : Z) : Z :=
  if 0 <=? n then
    let shift := wrap_u 32 n in
    if u128.BITS <=? shift then u128.MAX
    else if Z.shiftr u128.MAX shift <? scaled then u128.MAX
    else Z.shiftl scaled shift
  else
    let shift := wrap_u 32 (- n) in
    if u128.BITS <=? shift then 0 else Z.shiftr scaled shift.

Lemma exp2_eq l :
  exp2_hard_wall_scaled_q l =
  let '(n, f) :=
    if Z.rem l POW_APPROX_Q <? 0
    then (Z.quot l POW_APPROX_Q - 1, Z.rem l POW_APPROX_Q + POW_APPROX_Q)
    else (Z.quot l POW_APPROX_Q, Z.rem l POW_APPROX_Q) in
  exp2_shift n (exp2_fraction f).
Proof. unfold exp2_hard_wall_scaled_q, exp2_shift, exp2_fraction. reflexivity. Qed.

Lemma exp2_value l :
  - LOG_BOUND <= l <= LOG_BOUND ->
  exp2_hard_wall_scaled_q l = exp2_of (l / POW_APPROX_Q) (l mod POW_APPROX_Q).
Proof.
  intros Hl. rewrite exp2_eq, quot_rem_floor. unfold exp2_shift. cbv zeta.
  assert (Hn : -1280 <= l / POW_APPROX_Q <= 1280).
  { unfold LOG_BOUND in Hl. change POW_APPROX_Q with 1099511627776 in *.
    split; [apply Z.div_le_lower_bound|apply Z.div_le_upper_bound]; lia. }
  pose proof (Z.mod_pos_bound l POW_APPROX_Q ltac:(done)) as Hf.
  pose proof (exp2_fraction_range _ Hf) as Hr.
  set (n := l / POW_APPROX_Q) in *. set (f := l mod POW_APPROX_Q) in *.
  unfold exp2_of, wrap_u. change u128.BITS with 128. change HARD_WALL_SCALE with 1000000000000 in Hr.
  destruct (Z.leb_spec 0 n).
  - rewrite (Z.mod_small n) by lia. destruct (Z.leb_spec 128 n).
    + assert (2 ^ 128 <= 2 ^ n) by (apply Z.pow_le_mono_r; lia).
      rewrite u128_max_pow, Z.min_l; [done|]. nia.
    + assert (0 < 2 ^ n) by (apply Z.pow_pos_nonneg; lia).
      rewrite Z.shiftr_div_pow2, Z.shiftl_mul_pow2 by lia.
      destruct (Z.ltb_spec (u128.MAX / 2 ^ n) (exp2_fraction f)) as [Hlt|Hge].
      * apply div_lt_mul in Hlt; [|done]. by rewrite Z.min_l by lia.
      * apply div_le_mul in Hge; [|done]. by rewrite Z.min_r by lia.
  - rewrite (Z.mod_small (- n)) by lia. destruct (Z.leb_spec 128 (- n)).
    + symmetry. apply Z.div_small. split; [lia|].
      assert (2 ^ 128 <= 2 ^ (- n)) by (apply Z.pow_le_mono_r; lia).
      change (2 ^ 128) with 340282366920938463463374607431768211456 in *. lia.
    + by rewrite Z.shiftr_div_pow2 by lia.
Qed.

Lemma exp2_of_range n f :
  0 <= f < POW_APPROX_Q -> 0 <= exp2_of n f <= u128.MAX.
Proof.
  intros Hf. pose proof (exp2_fraction_range _ Hf) as Hr.
  change HARD_WALL_SCALE with 1000000000000 in Hr. unfold exp2_of. destruct (Z.leb_spec 0 n).
  - assert (0 < 2 ^ n) by (apply Z.pow_pos_nonneg; lia).
    assert (0 <= exp2_fraction f * 2 ^ n) by lia. zlia.
  - assert (0 < 2 ^ (- n)) by (apply Z.pow_pos_nonneg; lia).
    split; [apply Z.div_pos; lia|].
    transitivity (exp2_fraction f); [apply div_le_self; lia|zlia].
Qed.

Lemma exp2_of_mono n f n' f' :
  0 <= f < POW_APPROX_Q -> 0 <= f' < POW_APPROX_Q -> n < n' \/ n = n' /\ f <= f' ->
  exp2_of n f <= exp2_of n' f'.
Proof.
  intros Hf Hf' [Hn | [<- Hff]].
  - pose proof (exp2_fraction_range _ Hf). pose proof (exp2_fraction_range _ Hf').
    change HARD_WALL_SCALE with 1000000000000 in *. unfold exp2_of.
    destruct (Z.leb_spec 0 n), (Z.leb_spec 0 n'); [| lia | |].
    + apply Z.min_le_compat_l. assert (0 < 2 ^ n) by (apply Z.pow_pos_nonneg; lia).
      assert (2 * 2 ^ n <= 2 ^ n').
      { rewrite <- Z.pow_succ_r by lia. apply Z.pow_le_mono_r; lia. }
      nia.
    + assert (2 <= 2 ^ (- n)) by (apply (Z.pow_le_mono_r 2 1 (- n)); lia).
      assert (1 <= 2 ^ n') by (apply (Z.pow_le_mono_r 2 0 n'); lia).
      transitivity 1000000000000; [apply Z.div_le_upper_bound; nia|].
      apply Z.min_glb; [done|nia].
    + assert (2 <= 2 ^ (- n')) by (apply (Z.pow_le_mono_r 2 1 (- n')); lia).
      assert (2 * 2 ^ (- n') <= 2 ^ (- n)).
      { rewrite <- Z.pow_succ_r by lia. apply Z.pow_le_mono_r; lia. }
      transitivity (1000000000000 / 2 ^ (- n')); [|apply Z.div_le_mono; lia].
      apply div_le_mul; [lia|].
      pose proof (div_mul_le (exp2_fraction f) (2 ^ (- n)) ltac:(lia)).
      assert (0 <= exp2_fraction f / 2 ^ (- n)) by (apply Z.div_pos; lia). nia.
  - pose proof (exp2_fraction_mono f f' ltac:(lia)). unfold exp2_of. destruct (Z.leb_spec 0 n).
    + apply Z.min_le_compat_l. assert (0 < 2 ^ n) by (apply Z.pow_pos_nonneg; lia). nia.
    + apply Z.div_le_mono; [apply Z.pow_pos_nonneg; lia|lia].
Qed.

Lemma exp2_mono l l' :
  - LOG_BOUND <= l -> l <= l' -> l' <= LOG_BOUND ->
  exp2_hard_wall_scaled_q l <= exp2_hard_wall_scaled_q l'.
Proof.
  intros H1 H2 H3. rewrite !exp2_value by lia.
  assert (0 < POW_APPROX_Q) as HQ by done.
  apply exp2_of_mono; [by apply Z.mod_pos_bound..|].
  pose proof (Z.div_le_mono l l' POW_APPROX_Q HQ H2).
  destruct (decide (l / POW_APPROX_Q = l' / POW_APPROX_Q)) as [He|]; [right|left; lia].
  split; [done|]. pose proof (Z.div_mod l POW_APPROX_Q ltac:(done)).
  pose proof (Z.div_mod l' POW_APPROX_Q ltac:(done)). rewrite He in *. lia.
Qed.

Lemma exp2_range l :
  - LOG_BOUND <= l <= LOG_BOUND -> 0 <= exp2_hard_wall_scaled_q l <= u128.MAX.
Proof.
  intros Hl. rewrite exp2_value by done. apply exp2_of_range. by apply Z.mod_pos_bound.
Qed.

(** ** The power *)

Lemma integer_power_mono u u' k :
  0 <= u <= u' ->
  0 <= integer_utilization_power_scaled u k <= integer_utilization_power_scaled u' k.
Proof.
  intros Hu. unfold integer_utilization_power_scaled. generalize (Z.to_nat k) as n.
  induction n as [|n IH]; cbn [Nat.iter nat_rect]; [done|]. unfold mul_scaled_saturating.
  apply div_mono; [done|]. by apply saturating_mul_mono.
Qed.

Lemma integer_power_range u k :
  0 <= u -> 0 <= integer_utilization_power_scaled u k <= u128.MAX.
Proof.
  intros Hu. pose proof (integer_power_mono u u k) as Hp. split; [lia|].
  unfold integer_utilization_power_scaled. destruct (Z.to_nat k) as [|n]; cbn; [done|].
  unfold mul_scaled_saturating, u128.saturating_mul.
  pose proof (clamp_range 0 u128.MAX
    (Nat.iter n (fun value => mul_scaled_saturating value u) HARD_WALL_SCALE * u) ltac:(done)) as Hc.
  etransitivity; [apply div_le_self; [exact (proj1 Hc)|done]|exact (proj2 Hc)].
Qed.

(** The series branch of [utilization_power_scaled]. *)
Definition series_power (u e : Z) : Z :=
  exp2_hard_wall_scaled_q
    (Z.quot ((log2_integer_q u - LOG2_HARD_WALL_SCALE_Q) * e) CURVE_EXPONENT_SCALE).

Lemma power_log_bound u e :
  0 < u <= u128.MAX -> 0 <= e <= 100000 ->
  - LOG_BOUND <= Z.quot ((log2_integer_q u - LOG2_HARD_WALL_SCALE_Q) * e) CURVE_EXPONENT_SCALE
    <= LOG_BOUND.
Proof.
  intros Hu He. pose proof (log2_integer_q_range u Hu) as Hl.
  unfold LOG_BOUND. change POW_APPROX_Q with 1099511627776 in *.
  change LOG2_HARD_WALL_SCALE_Q with 43829982801540. change CURVE_EXPONENT_SCALE with 10000.
  set (x := (log2_integer_q u - 43829982801540) * e).
  assert (-43829982801540 * 100000 <= x <= 128 * 1099511627776 * 100000) by (unfold x; nia).
  pose proof (Z.quot_rem' x 10000). pose proof (Z.rem_bound_abs x 10000 ltac:(lia)). lia.
Qed.

Lemma power_series_Ok u e :
  0 < u <= u128.MAX -> 0 <= e <= 100000 ->
  (log2_u_q ← log2_hard_wall_scaled_q u;
   p ← mul_overflow (i128.checked_mul log2_u_q e);
   exponentiated_log_q ← div_by_zero (i128.checked_div p CURVE_EXPONENT_SCALE);
   Ok (exp2_hard_wall_scaled_q exponentiated_log_q)) = Ok (series_power u e).
Proof.
  intros Hu He. pose proof (log2_integer_q_range u Hu) as Hl.
  pose proof (power_log_bound u e Hu He) as Hq.
  unfold log2_hard_wall_scaled_q, series_power, i128.checked_div. unfold_ints.
  change POW_APPROX_Q with 1099511627776 in *. unfold LOG_BOUND in Hq.
  change POW_APPROX_Q with 1099511627776 in *.
  change LOG2_HARD_WALL_SCALE_Q with 43829982801540 in *. change CURVE_EXPONENT_SCALE with 10000 in *.
  rewrite checked_ok by zlia. run_res. unfold mul_overflow.
  rewrite checked_ok by (unfold_bounds; nia). run_res. unfold div_by_zero.
  cbn [Z.eqb]. rewrite checked_ok by zlia. run_res. done.
Qed.

Lemma series_power_mono u u' e :
  0 < u <= u' -> u' <= u128.MAX -> 0 <= e <= 100000 ->
  0 <= series_power u e <= series_power u' e /\ series_power u' e <= u128.MAX.
Proof.
  intros Hu Hu' He. pose proof (log2_integer_q_mono u u' Hu Hu').
  pose proof (power_log_bound u e ltac:(lia) He). pose proof (power_log_bound u' e ltac:(lia) He).
  unfold series_power. split; [split|].
  - by apply exp2_range.
  - apply exp2_mono; [lia| |lia]. apply Z.quot_le_mono; [done|]. nia.
  - by apply exp2_range.
Qed.

(** Just below and at the scale the series is on the right side of one. *)
Lemma series_power_below u e :
  0 < u <= HARD_WALL_SCALE -> 0 <= e <= 100000 -> series_power u e <= HARD_WALL_SCALE.
Proof.
  intros Hu He. change HARD_WALL_SCALE with (exp2_hard_wall_scaled_q 0).
  assert (u <= u128.MAX) by (change HARD_WALL_SCALE with 1000000000000 in *; zlia).
  pose proof (power_log_bound u e ltac:(lia) He) as Hb. unfold series_power.
  apply exp2_mono; [lia| |done].
  pose proof (log2_integer_q_mono u HARD_WALL_SCALE Hu ltac:(done)) as Hm.
  assert (log2_integer_q HARD_WALL_SCALE = LOG2_HARD_WALL_SCALE_Q) as E by (vm_compute; reflexivity).
  rewrite E in Hm.
  apply (Z.quot_le_mono ((log2_integer_q u - LOG2_HARD_WALL_SCALE_Q) * e) 0 CURVE_EXPONENT_SCALE);
    [done|nia].
Qed.

Lemma series_power_above u e :
  HARD_WALL_SCALE <= u <= u128.MAX -> 0 <= e <= 100000 -> HARD_WALL_SCALE <= series_power u e.
Proof.
  intros Hu He. pose proof (power_log_bound u e) as Hb.
  change HARD_WALL_SCALE with 1000000000000 in *. specialize (Hb ltac:(lia) He).
  change 1000000000000 with (exp2_hard_wall_scaled_q 0) at 1. unfold series_power.
  apply exp2_mono; [done| |lia].
  pose proof (log2_integer_q_mono 1000000000000 u ltac:(lia) ltac:(lia)) as Hm.
  assert (log2_integer_q 1000000000000 = LOG2_HARD_WALL_SCALE_Q) as E by (vm_compute; reflexivity).
  rewrite E in Hm.
  apply (Z.quot_le_mono 0 ((log2_integer_q u - LOG2_HARD_WALL_SCALE_Q) * e) CURVE_EXPONENT_SCALE);
    [done|nia].
Qed.

Lemma validate_exponent_Ok e :
  validate_curve_exponent_scaled e = Ok tt <-> e <= 100000 /\ e mod 1000 = 0.
Proof.
  unfold validate_curve_exponent_scaled, is_multiple_of.
  change (u32.saturating_mul CURVE_EXPONENT_SCALE 10) with 100000.
  change CURVE_EXPONENT_STEP with 1000.
  destruct (Z.leb_spec e 100000), (Z.eqb_spec (e mod 1000) 0); cbn; split; try done; lia.
Qed.

(** The value of the power: which branch computes it. *)
Definition power_value (u e : Z) : Z :=
  if e =? 0 then HARD_WALL_SCALE
  else if u =? 0 then 0
  else if u =? HARD_WALL_SCALE then HARD_WALL_SCALE
  else if is_multiple_of e CURVE_EXPONENT_SCALE
  then integer_utilization_power_scaled u (e / CURVE_EXPONENT_SCALE)
  else series_power u e.

Lemma utilization_power_value u e :
  0 <= u <= u128.MAX -> 0 <= e -> validate_curve_exponent_scaled e = Ok tt ->
  utilization_power_scaled u e = Ok (power_value u e).
Proof.
  intros Hu He Hv. unfold utilization_power_scaled, power_value. rewrite Hv.
  apply validate_exponent_Ok in Hv as [? _]. cbn [mbind result_bind].
  destruct (e =? 0); [done|]. destruct (Z.eqb_spec u 0); [done|].
  destruct (u =? HARD_WALL_SCALE); [done|]. destruct (is_multiple_of _ _); [done|].
  apply power_series_Ok; lia.
Qed.

Lemma integer_power_scale k : integer_utilization_power_scaled HARD_WALL_SCALE k = HARD_WALL_SCALE.
Proof.
  unfold integer_utilization_power_scaled. generalize (Z.to_nat k) as n.
  induction n as [|n IH]; [done|]. rewrite Nat.iter_succ, IH. reflexivity.
Qed.

Lemma power_value_mono u u' e :
  0 <= u <= u' -> u' <= u128.MAX -> 0 <= e <= 100000 ->
  0 <= power_value u e <= power_value u' e /\ power_value u' e <= u128.MAX.
Proof.
  intros Hu Hu' He. unfold power_value. destruct (e =? 0); [done|].
  set (k := e / CURVE_EXPONENT_SCALE). destruct (is_multiple_of _ _).
  - pose proof (integer_power_mono u u' k Hu) as Hm. pose proof (integer_power_scale k) as Hs.
    pose proof (integer_power_range u' k ltac:(lia)).
    assert (HARD_WALL_SCALE <= u128.MAX) by done.
    destruct (Z.eqb_spec u 0), (Z.eqb_spec u' 0), (Z.eqb_spec u HARD_WALL_SCALE),
      (Z.eqb_spec u' HARD_WALL_SCALE); subst; try lia; rewrite ?Hs in *; try lia;
      change HARD_WALL_SCALE with 1000000000000 in *; lia.
  - destruct (Z.eqb_spec u 0), (Z.eqb_spec u' 0); try lia;
      [destruct (u' =? HARD_WALL_SCALE); [done|];
       pose proof (series_power_mono u' u' e ltac:(lia) Hu' He); lia|].
    pose proof (series_power_mono u u' e ltac:(lia) Hu' He).
    assert (HARD_WALL_SCALE <= u128.MAX) by done.
    destruct (Z.eqb_spec u HARD_WALL_SCALE), (Z.eqb_spec u' HARD_WALL_SCALE); subst; try lia.
    + pose proof (series_power_above u' e ltac:(lia) He).
      change HARD_WALL_SCALE with 1000000000000 in *. lia.
    + pose proof (series_power_below u e ltac:(lia) He). lia.
Qed.

Lemma power_value_below u e :
  0 <= u <= HARD_WALL_SCALE -> 0 <= e <= 100000 -> power_value u e <= HARD_WALL_SCALE.
Proof.
  intros Hu He. pose proof (power_value_mono u HARD_WALL_SCALE e) as Hm.
  assert (power_value HARD_WALL_SCALE e = HARD_WALL_SCALE) as E.
  { unfold power_value. by destruct (e =? 0). }
  rewrite E in Hm. apply Hm; [lia|done|lia].
Qed.

(** C34: the approximate power is total and monotone.  For every admissible
    exponent (a multiple of 0.1 up to 10) and every two utilizations in order,
    [utilization_power_scaled] returns a value at both, nothing overflows or
    panics, the values are in the same order, and a utilization of at most one
    has a power of at most one. *)
Theorem utilization_power_monotone u u' e :
  0 <= u <= u' -> u' <= u128.MAX -> 0 <= e -> validate_curve_exponent_scaled e = Ok tt ->
  exists p p',
    utilization_power_scaled u e = Ok p /\ utilization_power_scaled u' e = Ok p' /\
    0 <= p <= p' /\ p' <= u128.MAX /\ (u <= HARD_WALL_SCALE -> p <= HARD_WALL_SCALE).
Proof.
  intros Hu Hu' He Hv. pose proof (proj1 (validate_exponent_Ok e) Hv) as [He' _].
  pose proof (power_value_mono u u' e Hu Hu' ltac:(lia)) as [Hp Hp'].
  exists (power_value u e), (power_value u' e).
  split; [apply utilization_power_value; auto; lia|].
  split; [apply utilization_power_value; auto; lia|].
  split; [done|]. split; [done|]. intros. apply power_value_below; lia.
Qed.

Lemma utilization_power_monotone_witness :
  exists p p',
    utilization_power_scaled 400000000000 25000 = Ok p /\
    utilization_power_scaled 999999999999 25000 = Ok p' /\
    0 <= p <= p' /\ p' <= u128.MAX /\ (400000000000 <= HARD_WALL_SCALE -> p <= HARD_WALL_SCALE).
Proof.
  apply (utilization_power_monotone 400000000000 999999999999 25000);
    [lia|vm_compute; discriminate|lia|vm_compute; reflexivity].
Defined.
