(* ===== verification/PropAmmFacts.v ===== *)
(** * The prop AMM's prices

    A sell is paid its redemption value times a factor that the hard wall
    computes; the factor never exceeds one and only falls as the trade grows, or as
    others are recorded before it.  The volume tracker's previews agree with its
    updates.  *)

From S2P Require Import World MathUtils TokenUtils OfferHandlers MarketInfo Redemption TakeOffer PropAmmMath PropAmm MarketFacts BufferFacts AccountFacts TypedFacts HardWallFacts.
Open Scope Z_scope.

Ltac inv_amm :=
  unfold mul_overflow, div_by_zero in *; inv_res;
  repeat match goal with
  | H : u128.checked_div _ _ = Some _ |- _ => apply u128_checked_div_Some in H as [? ?]; subst
  end;
  inv_checked.

Section tracker.
Implicit Types s : PropAmmPairState.t.

(** ** The preview of the effective sell volume *)

(** The part of the effective volume that does not depend on the trade. *)
Definition preview_base s (now : Z) : Result Z :=
  '(prev_net, curr_net, elapsed) ← preview_window s now;
  remaining ← ok_or_onre (i64.checked_sub (PropAmmPairState.epoch_duration_seconds s) elapsed)
                OnreError.ArithmeticUnderflow;
  weighted ← mul_overflow (u128.checked_mul prev_net (wrap_u 128 remaining));
  decayed_prev ← div_by_zero
    (u128.checked_div weighted (wrap_u 128 (PropAmmPairState.epoch_duration_seconds s)));
  Ok (decayed_prev + curr_net).

Lemma preview_effective_Ok s x now v :
  preview_effective_sell_volume s x now = Ok v ->
  exists base, preview_base s now = Ok base /\ v = base + x.
Proof.
  unfold preview_effective_sell_volume, preview_base, mul_overflow, div_by_zero.
  intros H. inv_res. destruct v1 as [[prev_net curr_net] elapsed]. inv_res.
  exists (v2 + curr_net). split; [run_known; reflexivity|]. inv_checked. lia.
Qed.

(** ** Rolling the tracker *)

Lemma saturating_double d : 0 < d <= i64.MAX -> d <= i64.saturating_mul d 2.
Proof. intros. unfold i64.saturating_mul. zlia. Qed.

Lemma i64_checked_sub_self x : i64.checked_sub x x = Some 0.
Proof. unfold i64.checked_sub. rewrite checked_ok by zlia. f_equal. lia. Qed.

(** The tracker's epoch is the current one, [e] seconds old. *)
Record in_epoch s (now e : Z) : Prop := {
  ie_started : (PropAmmPairState.epoch_start s =? 0) || (now <? PropAmmPairState.epoch_start s) = false;
  ie_elapsed : i64.checked_sub now (PropAmmPairState.epoch_start s) = Some e;
  ie_recent : (PropAmmPairState.epoch_duration_seconds s <=? e) = false
}.

Lemma in_epoch_recent s now e :
  0 < PropAmmPairState.epoch_duration_seconds s <= i64.MAX -> in_epoch s now e ->
  (i64.saturating_mul (PropAmmPairState.epoch_duration_seconds s) 2 <=? e) = false.
Proof.
  intros Hd [_ _ He]. pose proof (saturating_double _ Hd).
  apply Z.leb_gt in He. apply Z.leb_gt. lia.
Qed.

Lemma in_epoch_restart s now prev :
  0 < PropAmmPairState.epoch_duration_seconds s -> now <> 0 -> in_epoch (restart_epoch now prev s) now 0.
Proof.
  intros Hd Hn. destruct s. split; cbn.
  - by rewrite (proj2 (Z.eqb_neq now 0) Hn), Z.ltb_irrefl.
  - apply i64_checked_sub_self.
  - by apply Z.leb_gt.
Qed.

Lemma in_epoch_window s now e :
  0 < PropAmmPairState.epoch_duration_seconds s <= i64.MAX -> in_epoch s now e ->
  preview_window s now =
    Ok (PropAmmPairState.prev_net_sell_value_stable s,
        u64.saturating_sub (PropAmmPairState.curr_sell_value_stable s)
          (PropAmmPairState.curr_buy_value_stable s), e).
Proof.
  intros Hd He. pose proof (in_epoch_recent _ _ _ Hd He) as H2. destruct He as [H1 E H3].
  unfold preview_window. rewrite H1. run_known. by rewrite H2, H3.
Qed.

Lemma in_epoch_roll s now e :
  0 < PropAmmPairState.epoch_duration_seconds s <= i64.MAX -> in_epoch s now e ->
  roll_prop_amm_volume_tracker s now = Ok s.
Proof.
  intros Hd He. pose proof (in_epoch_recent _ _ _ Hd He) as H2. destruct He as [H1 E H3].
  unfold roll_prop_amm_volume_tracker. rewrite (proj2 (Z.ltb_lt 0 _)), H1 by lia. run_known.
  by rewrite H2, H3.
Qed.

(** Rolling brings the tracker into the current epoch and keeps its window, which is
    what the previews read. *)
Lemma roll_Ok s now s' :
  PropAmmPairState.epoch_duration_seconds s <= i64.MAX -> now <> 0 ->
  roll_prop_amm_volume_tracker s now = Ok s' ->
  0 < PropAmmPairState.epoch_duration_seconds s /\
  PropAmmPairState.epoch_duration_seconds s' = PropAmmPairState.epoch_duration_seconds s /\
  preview_window s' now = preview_window s now /\ exists e, in_epoch s' now e.
Proof.
  intros Hd Hn H. assert (0 < PropAmmPairState.epoch_duration_seconds s) as Hp
    by (unfold roll_prop_amm_volume_tracker in H; inv_res; lia).
  split; [done|].
  assert (Hr : forall prev, s' = restart_epoch now prev s -> preview_window s now = Ok (prev, 0, 0) ->
    PropAmmPairState.epoch_duration_seconds s' = PropAmmPairState.epoch_duration_seconds s /\
    preview_window s' now = preview_window s now /\ exists e, in_epoch s' now e).
  { intros prev -> ->. assert (PropAmmPairState.epoch_duration_seconds (restart_epoch now prev s)
      = PropAmmPairState.epoch_duration_seconds s) as Es by (by destruct s).
    pose proof (in_epoch_restart s now prev Hp Hn) as Hin. split; [done|]. split; [|eauto].
    rewrite (in_epoch_window _ _ 0) by (rewrite ?Es; auto). by destruct s. }
  unfold roll_prop_amm_volume_tracker in H. inv_res.
  destruct (_ || _) eqn:E1; [simplify_eq; eapply Hr; [done|]; unfold preview_window; by rewrite E1|].
  inv_res. destruct (i64.saturating_mul _ 2 <=? _) eqn:E2;
    [simplify_eq; eapply Hr; [done|]; unfold preview_window; rewrite E1; run_known; by rewrite E2|].
  destruct (_ <=? _) eqn:E3 in H; simplify_eq;
    [eapply Hr; [done|]; unfold preview_window; rewrite E1; run_known; by rewrite E2, E3|].
  split; [done|]. split; [done|]. by eexists.
Qed.

(** ** Splitting a sell *)

(** What the preview computes from the window it reads. *)
Definition preview_of_window (d prev_net curr_net elapsed x : Z) : Result Z :=
  remaining ← ok_or_onre (i64.checked_sub d elapsed) OnreError.ArithmeticUnderflow;
  weighted ← mul_overflow (u128.checked_mul prev_net (wrap_u 128 remaining));
  decayed_prev ← div_by_zero (u128.checked_div weighted (wrap_u 128 d));
  effective ← mul_overflow (v ← u128.checked_add decayed_prev curr_net; u128.checked_add v x);
  _ ← require_onre (effective <=? u64.MAX) OnreError.MathOverflow;
  Ok effective.

Lemma preview_effective_window s x now p c e :
  0 < PropAmmPairState.epoch_duration_seconds s -> preview_window s now = Ok (p, c, e) ->
  preview_effective_sell_volume s x now =
  preview_of_window (PropAmmPairState.epoch_duration_seconds s) p c e x.
Proof.
  intros Hd Hw. unfold preview_effective_sell_volume. rewrite (proj2 (Z.ltb_lt _ _) Hd). run_known.
  reflexivity.
Qed.

Lemma checked_add_both a b c d :
  0 <= a -> 0 <= b -> 0 <= c -> 0 <= d ->
  (effective ← mul_overflow (v ← u128.checked_add a (b + c); u128.checked_add v d);
   _ ← require_onre (effective <=? u64.MAX) OnreError.MathOverflow; Ok effective) =
  if a + b + c + d <=? u64.MAX then Ok (a + b + c + d) else Err (Onre OnreError.MathOverflow).
Proof.
  intros. unfold u128.checked_add, mul_overflow.
  destruct (checked 0 u128.MAX (a + (b + c))) as [v|] eqn:E1; cbn [mbind option_bind].
  - apply checked_Some in E1 as [-> ?].
    destruct (checked 0 u128.MAX (a + (b + c) + d)) as [v|] eqn:E2; run_res.
    + apply checked_Some in E2 as [-> ?]. replace (a + (b + c) + d) with (a + b + c + d) by lia.
      by destruct (_ <=? u64.MAX).
    + apply checked_None in E2. destruct (Z.leb_spec (a + b + c + d) u64.MAX); [zlia|done].
  - apply checked_None in E1. run_res.
    destruct (Z.leb_spec (a + b + c + d) u64.MAX); [zlia|done].
Qed.

Lemma preview_of_window_shift d p c e x y :
  0 <= p -> 0 <= c -> 0 <= x -> 0 <= y ->
  preview_of_window d p (c + x) e y = preview_of_window d p c e (x + y).
Proof.
  intros. unfold preview_of_window, mul_overflow, div_by_zero.
  destruct (i64.checked_sub d e) as [r|]; run_res; [|done].
  destruct (u128.checked_mul p (wrap_u 128 r)) as [q|] eqn:E1; run_res; [|done].
  destruct (u128.checked_div q (wrap_u 128 d)) as [dp|] eqn:E2; run_res; [|done].
  assert (0 <= dp).
  { inv_amm. assert (0 <= d mod 2 ^ 128) by (apply Z.mod_pos_bound; lia). apply Z.div_pos; lia. }
  pose proof (checked_add_both dp c x y) as HA. pose proof (checked_add_both dp c 0 (x + y)) as HB.
  unfold mul_overflow in *. rewrite HA by lia. rewrite Z.add_0_r in HB. rewrite HB by lia.
  replace (dp + c + 0 + (x + y)) with (dp + c + x + y) by lia. done.
Qed.


Lemma preview_effective_same_window s s' x now :
  PropAmmPairState.epoch_duration_seconds s' = PropAmmPairState.epoch_duration_seconds s ->
  preview_window s' now = preview_window s now ->
  preview_effective_sell_volume s' x now = preview_effective_sell_volume s x now.
Proof. intros Hd Hw. unfold preview_effective_sell_volume. by rewrite Hd, Hw. Qed.

Lemma in_epoch_count s now e :
  0 < PropAmmPairState.epoch_duration_seconds s -> in_epoch s now e ->
  preview_current_sell_trade_count s now = Ok (PropAmmPairState.curr_sell_trade_count s).
Proof.
  intros Hd [H1 E H3]. unfold preview_current_sell_trade_count.
  rewrite (proj2 (Z.ltb_lt 0 _)), H1 by done. run_known. by rewrite H3.
Qed.

Lemma roll_count s now s' :
  roll_prop_amm_volume_tracker s now = Ok s' -> PropAmmPairState.epoch_duration_seconds s <= i64.MAX ->
  preview_current_sell_trade_count s now = Ok (PropAmmPairState.curr_sell_trade_count s').
Proof.
  intros H Hd. unfold roll_prop_amm_volume_tracker, preview_current_sell_trade_count in *.
  destruct (0 <? PropAmmPairState.epoch_duration_seconds s) eqn:Hp; [|done]. apply Z.ltb_lt in Hp.
  pose proof (saturating_double _ (conj Hp Hd)) as Hs. cbn [mbind result_bind require_onre require] in *.
  assert (Hr : forall p, PropAmmPairState.curr_sell_trade_count (restart_epoch now p s) = 0) by (by destruct s).
  destruct (_ || _); [simplify_eq; by rewrite Hr|].
  destruct (i64.checked_sub _ _) as [e|]; run_res; cbn [mbind result_bind ok_or_onre ok_or] in H; [|done].
  destruct (Z.leb_spec (PropAmmPairState.epoch_duration_seconds s) e) as [Hle|Hlt].
  - destruct (_ <=? e); simplify_eq; by rewrite Hr.
  - destruct (Z.leb_spec (i64.saturating_mul (PropAmmPairState.epoch_duration_seconds s) 2) e); [lia|].
    by simplify_eq.
Qed.

(** What recording a sell does to the rolled tracker. *)
Lemma record_sell_Ok s x now s' :
  pair_ok s -> 0 <= x -> now <> 0 -> record_prop_amm_sell s x now = Ok s' ->
  exists s1 e, roll_prop_amm_volume_tracker s now = Ok s1 /\ in_epoch s1 now e /\ in_epoch s' now e /\
    s' = PropAmmPairState.with_curr_sell_trade_count (PropAmmPairState.curr_sell_trade_count s1 + 1)
           (PropAmmPairState.with_curr_sell_value_stable
              (PropAmmPairState.curr_sell_value_stable s1 + x) s1) /\
    PropAmmPairState.curr_sell_value_stable s1 + x <= u64.MAX.
Proof.
  intros Hok Hx Hn H. unfold record_prop_amm_sell, mul_overflow in H. inv_res.
  match goal with H : roll_prop_amm_volume_tracker _ _ = Ok ?s1 |- _ =>
    pose proof (roll_Ok _ _ _ (pk_epoch _ Hok) Hn H) as (_ & _ & _ & e & He); exists s1, e end.
  inv_checked. split; [done|]. split; [done|]. split; [|split; [done|lia]].
  destruct He as [H1 H2 H3]. destruct v. by split.
Qed.
End tracker.

(** The previews of the volume tracker agree with its updates.  Rolling the
    tracker to the present changes neither the effective sell volume of any trade
    nor the trade count that a quote reads, and a rolled tracker is rolled: a
    quote and the swap executed after it see the same sell pressure. *)
Theorem tracker_previews_agree s now s' :
  pair_ok s -> now <> 0 -> roll_prop_amm_volume_tracker s now = Ok s' ->
  (forall x, preview_effective_sell_volume s' x now = preview_effective_sell_volume s x now) /\
  preview_current_sell_trade_count s' now = preview_current_sell_trade_count s now /\
  roll_prop_amm_volume_tracker s' now = Ok s'.
Proof.
  intros Hok Hn H. pose proof (roll_Ok _ _ _ (pk_epoch _ Hok) Hn H) as (Hp & Hd & Hw & e & He).
  pose proof (pk_epoch _ Hok) as Hm. split_and!.
  - intros x. by apply preview_effective_same_window.
  - rewrite (in_epoch_count _ _ e) by (rewrite ?Hd; auto). symmetry. by apply roll_count.
  - apply (in_epoch_roll _ _ e); [lia|done].
Qed.

(** When sells already outweigh buys in the current epoch, selling [x] and then
    quoting [y] at the same moment meets exactly the sell pressure of quoting [x + y]
    at once, and the trade count the cadence wave reads has grown by one. *)
Lemma split_sell_pressure s s1 s' x y now :
  pair_ok s -> now <> 0 -> 0 <= x -> 0 <= y ->
  roll_prop_amm_volume_tracker s now = Ok s1 ->
  PropAmmPairState.curr_buy_value_stable s1 <= PropAmmPairState.curr_sell_value_stable s1 ->
  record_prop_amm_sell s x now = Ok s' ->
  preview_effective_sell_volume s' y now = preview_effective_sell_volume s (x + y) now /\
  exists n, preview_current_sell_trade_count s now = Ok n /\
            preview_current_sell_trade_count s' now = Ok (n + 1).
Proof.
  intros Hok Hn Hx Hy Hroll Hnet H. pose proof (roll_pair_ok _ _ _ Hok Hroll) as Hok1.
  pose proof (pk_sells _ Hok1) as Hs1. pose proof (pk_buys _ Hok1) as Hb1. pose proof (pk_prev _ Hok1) as Hp1.
  pose proof (pk_count _ Hok1) as Hc1. apply record_sell_Ok in H as (s1' & e & H1 & He & He' & -> & Hmax); [|done..].
  rewrite Hroll in H1. injection H1 as <-.
  pose proof (roll_Ok _ _ _ (pk_epoch _ Hok) Hn Hroll) as (Hp & Hd & Hw & _).
  pose proof (pk_epoch _ Hok) as Hm. split.
  - pose proof (in_epoch_window s1 now e ltac:(lia) He) as Hw1. rewrite Hw in Hw1.
    rewrite (preview_effective_window s _ _ _ _ _ Hp Hw1).
    match type of He' with in_epoch ?s2 _ _ => set (s' := s2) in * end.
    assert (Hd' : PropAmmPairState.epoch_duration_seconds s' = PropAmmPairState.epoch_duration_seconds s)
      by (rewrite <- Hd; by destruct s1).
    pose proof (in_epoch_window s' now e ltac:(lia) He') as Hw2.
    rewrite (preview_effective_window s' _ _ _ _ _ ltac:(lia) Hw2), Hd'.
    destruct s1; subst s'; cbn in *. unfold u64.saturating_sub. rewrite !clamp_id by zlia.
    rewrite <- preview_of_window_shift by lia. f_equal. lia.
  - exists (PropAmmPairState.curr_sell_trade_count s1).
    split; [apply roll_count; [done|lia]|].
    rewrite (in_epoch_count _ now e); [by destruct s1| |done]. destruct s1. cbn in *. lia.
Qed.

(** ** The output of a sell *)

Section output.
Implicit Types s : PropAmmPairState.t.

Lemma wall_position_Ok L v sens r :
  0 <= v -> 0 <= sens -> dynamic_wall_position L v sens = Ok r ->
  0 < L /\ r = (if v =? 0 then L else Z.max (L * 10000 / (10000 + sens * v / L)) 1).
Proof.
  intros Hv Hs H. unfold dynamic_wall_position in H. inv_res.
  destruct (v =? 0); [inv_res; auto|]. inv_amm.
  change WALL_SENSITIVITY_SCALE with 10000 in *. auto.
Qed.

(** The dynamic wall only falls as the pressure grows or the liquidity shrinks, and
    never leaves [1 .. L]. *)
Lemma wall_position_mono L L' sens v v' r r' :
  0 <= v <= v' -> 0 <= sens -> L' <= L -> dynamic_wall_position L v sens = Ok r ->
  dynamic_wall_position L' v' sens = Ok r' -> 0 < r' <= r /\ r <= L.
Proof.
  intros Hv Hs HL' H H'. apply wall_position_Ok in H as [HL ->]; [|lia..].
  apply wall_position_Ok in H' as [HL1 ->]; [|lia..].
  assert (Hc : forall M x, 0 < M -> 0 <= x -> 0 <= sens * x / M) by (intros; apply Z.div_pos; nia).
  assert (Hle : forall M x, 0 < M -> 0 <= x -> M * 10000 / (10000 + sens * x / M) <= M).
  { intros M x HM Hx. pose proof (Hc M x HM Hx). apply Z.div_le_upper_bound; nia. }
  assert (L' * 10000 / (10000 + sens * v' / L') <= L * 10000 / (10000 + sens * v / L)).
  { pose proof (Hc L v HL ltac:(lia)). pose proof (Hc L' v' HL1 ltac:(lia)).
    assert (sens * v / L <= sens * v' / L') by
      (transitivity (sens * v' / L); [apply Z.div_le_mono|apply Z.div_le_compat_l]; nia).
    transitivity (L * 10000 / (10000 + sens * v' / L'));
      [apply Z.div_le_mono|apply Z.div_le_compat_l]; lia. }
  pose proof (Hle L v HL ltac:(lia)). pose proof (Hle L' v' HL1 ltac:(lia)).
  destruct (Z.eqb_spec v 0), (Z.eqb_spec v' 0); lia.
Qed.

Lemma preview_base_nonneg s now base :
  pair_ok s -> preview_base s now = Ok base -> 0 <= base.
Proof.
  intros [] H. unfold preview_base, mul_overflow, div_by_zero in H. inv_res.
  destruct v as [[p c] e]. inv_res.
  assert (0 <= p /\ 0 <= c) as [Hp Hc].
  { unfold preview_window in *. destruct (_ || _); inv_res; [lia|]. destruct (_ <=? _); inv_res; [lia|].
    destruct (_ <=? _); inv_res; unfold u64.saturating_sub, clamp; lia. }
  inv_amm. assert (0 <= PropAmmPairState.epoch_duration_seconds s mod 2 ^ 128)
    by (apply Z.mod_pos_bound; lia).
  apply Z.add_nonneg_nonneg; [apply Z.div_pos; lia|done].
Qed.

Lemma count_nonneg s now n :
  pair_ok s -> preview_current_sell_trade_count s now = Ok n -> 0 <= n.
Proof.
  intros Hok H. pose proof (pk_count _ Hok). unfold preview_current_sell_trade_count in H. inv_res.
  destruct (_ || _); inv_res; [lia|]. destruct (_ <=? _); inv_res; lia.
Qed.

(** A quote of [a'] against the pair [s'] is under at least the pressure of a quote
    of [a] against [s]: the same parameters, no less volume, no fewer trades. *)
Record more_pressure s a s' a' now : Prop := {
  mp_peg : PropAmmPairState.curve_peg_haircut_bps s' = PropAmmPairState.curve_peg_haircut_bps s;
  mp_exponent : PropAmmPairState.curve_exponent_scaled s' = PropAmmPairState.curve_exponent_scaled s;
  mp_sensitivity :
    PropAmmPairState.wall_sensitivity_scaled s' = PropAmmPairState.wall_sensitivity_scaled s;
  mp_wave : PropAmmPairState.cadence_wave_scaled s' = PropAmmPairState.cadence_wave_scaled s;
  mp_threshold : PropAmmPairState.cadence_threshold s' = PropAmmPairState.cadence_threshold s;
  mp_volume v v' : preview_effective_sell_volume s a now = Ok v ->
    preview_effective_sell_volume s' a' now = Ok v' -> 0 <= v <= v';
  mp_count n n' : preview_current_sell_trade_count s now = Ok n ->
    preview_current_sell_trade_count s' now = Ok n' -> 0 <= n <= n'
}.

Lemma more_pressure_amount s a a' now :
  pair_ok s -> 0 <= a <= a' -> more_pressure s a s a' now.
Proof.
  intros Hok Ha. split; try done.
  - intros v v' H H'. apply preview_effective_Ok in H as (b & Hb & ->).
    apply preview_effective_Ok in H' as (b' & Hb' & ->). assert (b' = b) as -> by congruence.
    pose proof (preview_base_nonneg _ _ _ Hok Hb). lia.
  - intros n n' H H'. pose proof (count_nonneg _ _ _ Hok H). assert (n' = n) as -> by congruence. lia.
Qed.

Lemma record_sell_parameters s x now s' :
  record_prop_amm_sell s x now = Ok s' ->
  PropAmmPairState.curve_peg_haircut_bps s' = PropAmmPairState.curve_peg_haircut_bps s /\
  PropAmmPairState.curve_exponent_scaled s' = PropAmmPairState.curve_exponent_scaled s /\
  PropAmmPairState.wall_sensitivity_scaled s' = PropAmmPairState.wall_sensitivity_scaled s /\
  PropAmmPairState.cadence_wave_scaled s' = PropAmmPairState.cadence_wave_scaled s /\
  PropAmmPairState.cadence_threshold s' = PropAmmPairState.cadence_threshold s.
Proof.
  intros H. unfold record_prop_amm_sell, roll_prop_amm_volume_tracker, mul_overflow in H.
  destruct s. cbn in *. inv_res.
  repeat match goal with
  | H : (if ?b then _ else _) = Ok _ |- _ => destruct b; inv_res
  end; cbn; auto.
Qed.

Lemma more_pressure_recorded s s1 s' x y now :
  pair_ok s -> now <> 0 -> 0 <= x -> 0 <= y ->
  roll_prop_amm_volume_tracker s now = Ok s1 ->
  PropAmmPairState.curr_buy_value_stable s1 <= PropAmmPairState.curr_sell_value_stable s1 ->
  record_prop_amm_sell s x now = Ok s' -> more_pressure s y s' y now.
Proof.
  intros Hok Hn Hx Hy Hroll Hnet H.
  destruct (split_sell_pressure s s1 s' x y now Hok Hn Hx Hy Hroll Hnet H) as (Hv & n & Hc & Hc').
  pose proof (record_sell_parameters _ _ _ _ H) as (? & ? & ? & ? & ?).
  destruct (more_pressure_amount s y (x + y) now Hok ltac:(lia)) as [_ _ _ _ _ Hvol _].
  split; try done; [by rewrite Hv|].
  intros m m' Hm Hm'. pose proof (count_nonneg _ _ _ Hok Hm).
  assert (m = n) by congruence. assert (m' = n + 1) by congruence. lia.
Qed.

Lemma wall_liquidity_mono s s' now a a' L L' r r' l l' :
  pair_ok s -> more_pressure s a s' a' now -> 0 < L' <= L -> 0 < r' <= r ->
  dynamic_wall_liquidity_at_time a L r s now = Ok l ->
  dynamic_wall_liquidity_at_time a' L' r' s' now = Ok l' ->
  0 < l' <= l.
Proof.
  intros Hok Hm HL Hr H H'. unfold dynamic_wall_liquidity_at_time in *.
  rewrite (mp_sensitivity _ _ _ _ _ Hm) in H'.
  destruct (_ =? 0); [inv_res; lia|]. inv_res.
  match goal with H1 : preview_effective_sell_volume s _ _ = Ok ?x,
    H2 : preview_effective_sell_volume s' _ _ = Ok ?y |- _ =>
    pose proof (mp_volume _ _ _ _ _ Hm _ _ H1 H2) as Hvol; clear H1 H2; revert H H' Hvol;
    generalize x y; clear x y end.
  intros v v' H H' Hv. pose proof (pk_sensitivity _ Hok) as [Hs _].
  destruct (Z.eqb_spec v 0), (Z.eqb_spec v' 0); inv_res; try lia.
  - match goal with H : dynamic_wall_position L' _ _ = Ok _ |- _ =>
      pose proof (wall_position_mono _ _ _ v' v' _ _ ltac:(lia) Hs (Z.le_refl _) H H) end. lia.
  - match goal with H : dynamic_wall_position L v _ = Ok _, H' : dynamic_wall_position L' v' _ = Ok _ |- _ =>
      pose proof (wall_position_mono _ _ _ v v' _ _ Hv Hs (proj2 HL) H H') end. lia.
Qed.

Lemma utilization_Ok a l u :
  0 < l -> utilization_scaled a l = Ok u -> u = a * HARD_WALL_SCALE / l.
Proof.
  intros Hl H. unfold utilization_scaled in H. destruct (Z.eqb_spec a 0) as [->|]; [by inv_res|].
  destruct (Z.eqb_spec a l) as [->|]; [|by inv_amm]. inv_res.
  by rewrite Z.mul_comm, Z.div_mul by lia.
Qed.

Lemma utilization_mono a a' l l' u u' :
  0 <= a <= a' -> 0 < l' <= l -> utilization_scaled a l = Ok u -> utilization_scaled a' l' = Ok u' ->
  0 <= u <= u'.
Proof.
  intros Ha Hl H H'. apply utilization_Ok in H; [|lia]. apply utilization_Ok in H'; [|lia]. subst.
  change HARD_WALL_SCALE with 1000000000000. split; [apply Z.div_pos; lia|].
  transitivity (a * 1000000000000 / l'); [apply Z.div_le_compat_l|apply Z.div_le_mono]; lia.
Qed.

(** A utilization is small enough for the powers. *)
Lemma utilization_u128 a l u :
  0 <= a <= u64.MAX -> 0 < l -> utilization_scaled a l = Ok u -> u <= u128.MAX.
Proof.
  intros Ha Hl H. apply utilization_Ok in H; [|done]. subst.
  change HARD_WALL_SCALE with 1000000000000.
  transitivity (a * 1000000000000); [apply div_le_self; lia|zlia].
Qed.

Lemma haircut_mono u u' bps e h h' :
  0 <= u <= u' -> u' <= u128.MAX -> 0 <= bps -> 0 <= e ->
  redemption_haircut_scaled u bps e = Ok h -> redemption_haircut_scaled u' bps e = Ok h' ->
  0 <= h <= h'.
Proof.
  intros Hu Hu' Hb He H H'. unfold redemption_haircut_scaled in *. inv_res. simplify_eq.
  match goal with H1 : bps_to_hard_wall_scale _ = Ok ?x, H2 : bps_to_hard_wall_scale _ = Ok ?y |- _ =>
    assert (y = x) as -> by congruence; rename x into peg; clear H2; rename H1 into Hpeg end.
  assert (0 <= peg).
  { unfold bps_to_hard_wall_scale in Hpeg. inv_amm. change MAX_BASIS_POINTS with 10000.
    apply Z.div_pos; lia. }
  destruct (peg =? 0); [inv_res; lia|]. inv_res.
  repeat match goal with H : utilization_power_scaled ?x e = Ok _ |- _ =>
    assert (validate_curve_exponent_scaled e = Ok tt)
      by (unfold utilization_power_scaled in H; destruct (validate_curve_exponent_scaled e) as [[]|]; done);
    rewrite utilization_power_value in H by (done || lia); injection H as <- end.
  match goal with H : validate_curve_exponent_scaled e = Ok tt |- _ =>
    apply validate_exponent_Ok in H as [? _] end.
  pose proof (power_value_mono u u' e Hu Hu' ltac:(lia)) as [Hp _]. inv_amm.
  apply div_mono; [done|]. by apply saturating_mul_mono.
Qed.

(** The eased rise of the cadence wave at the normalized utilization [n]. *)
Definition eased_rise (n : Z) : Z :=
  u128.saturating_mul (u128.saturating_mul n CADENCE_WAVE_EASE) HARD_WALL_SCALE
    / (u128.saturating_mul n CADENCE_WAVE_EASE + u128.saturating_sub HARD_WALL_SCALE n).

Lemma eased_rise_mono n n' :
  0 < n <= n' -> n' <= HARD_WALL_SCALE -> 0 <= eased_rise n <= eased_rise n'.
Proof.
  unfold eased_rise. change HARD_WALL_SCALE with 1000000000000. change CADENCE_WAVE_EASE with 8.
  intros Hn Hn'. unfold_ints.
  rewrite !(clamp_id _ _ (_ * 8)), !(clamp_id _ _ (_ - _)), !(clamp_id _ _ (_ * _ * _)) by zlia.
  assert (0 <= n * 8 * 1000000000000 / (n * 8 + (1000000000000 - n))) by (apply Z.div_pos; lia).
  split; [done|]. apply Z.div_le_lower_bound; [lia|].
  pose proof (div_mul_le (n * 8 * 1000000000000) (n * 8 + (1000000000000 - n)) ltac:(lia)) as Hm.
  set (q := _ / _) in *. assert (q <= 1000000000000) by (apply Z.div_le_upper_bound; lia). nia.
Qed.

Lemma wave_Ok u y t :
  cadence_wave_target_haircut_scaled u y = Ok t ->
  t = if (y =? 0) || (Z.min u HARD_WALL_SCALE =? 0) then 0
      else Z.min (u128.saturating_mul (eased_rise (Z.min u HARD_WALL_SCALE)) y / 30000) HARD_WALL_SCALE.
Proof.
  unfold cadence_wave_target_haircut_scaled, mul_overflow, div_by_zero. intros H.
  destruct (y =? 0); [by inv_res|]. destruct (_ =? 0); cbn [orb]; [by inv_res|]. inv_res.
  repeat match goal with H : u128.checked_add _ _ = Some _ |- _ =>
    unfold u128.checked_add in H; apply checked_Some in H as [-> _] end.
  match goal with H : u128.checked_mul _ _ = Some _ |- _ => injection H as <- end.
  repeat match goal with H : u128.checked_div _ _ = Some _ |- _ =>
    apply u128_checked_div_Some in H as [_ ->] end.
  reflexivity.
Qed.

Lemma wave_mono u u' y y' t t' :
  0 <= u <= u' -> 0 <= y <= y' ->
  cadence_wave_target_haircut_scaled u y = Ok t -> cadence_wave_target_haircut_scaled u' y' = Ok t' ->
  0 <= t <= t'.
Proof.
  intros Hu Hy H H'. apply wave_Ok in H as ->. apply wave_Ok in H' as ->.
  assert (0 < HARD_WALL_SCALE) as HS by done.
  assert (Hr : forall n, 0 < n <= HARD_WALL_SCALE -> 0 <= u128.saturating_mul (eased_rise n) y' / 30000).
  { intros n Hn. apply Z.div_pos; [|done]. unfold u128.saturating_mul, clamp. lia. }
  destruct (Z.eqb_spec y 0), (Z.eqb_spec y' 0), (Z.eqb_spec (Z.min u HARD_WALL_SCALE) 0),
    (Z.eqb_spec (Z.min u' HARD_WALL_SCALE) 0); cbn [orb]; try lia;
    try (pose proof (Hr (Z.min u' HARD_WALL_SCALE)); lia).
  pose proof (eased_rise_mono (Z.min u HARD_WALL_SCALE) (Z.min u' HARD_WALL_SCALE)
                ltac:(lia) ltac:(lia)) as He.
  pose proof (saturating_mul_mono _ _ y y' He ltac:(lia)) as Hm.
  pose proof (div_mono _ _ 30000 ltac:(done) Hm). lia.
Qed.

(** What [apply_hard_wall_liquidity_factor_at_time] computes. *)
Lemma hard_wall_Ok s now a L r o :
  pair_ok s -> 0 <= a <= u64.MAX -> apply_hard_wall_liquidity_factor_at_time a L r s now = Ok o ->
  0 < L /\ 0 < r /\ a <= L /\ exists l u h y t,
    dynamic_wall_liquidity_at_time a L r s now = Ok l /\ utilization_scaled a l = Ok u /\
    redemption_haircut_scaled u (PropAmmPairState.curve_peg_haircut_bps s)
      (PropAmmPairState.curve_exponent_scaled s) = Ok h /\
    cadence_wave_y_for_quote_scaled s now = Ok y /\
    cadence_wave_target_haircut_scaled u y = Ok t /\
    o = a * u128.saturating_sub HARD_WALL_SCALE (Z.max h t) / HARD_WALL_SCALE.
Proof.
  intros Hok Ha H. unfold apply_hard_wall_liquidity_factor_at_time, mul_overflow, div_by_zero in H.
  inv_res. split; [done|]. split; [done|]. split; [done|].
  do 5 eexists. split; [eassumption|]. split; [eassumption|]. split; [eassumption|].
  split; [eassumption|]. split; [eassumption|]. by inv_checked.
Qed.

(** The ramp of the cadence wave after [n] trades. *)
Definition ramp (threshold n : Z) : Z :=
  if threshold <=? n then CADENCE_WAVE_SCALE else n * CADENCE_WAVE_SCALE / threshold.

Lemma ramp_mono threshold n n' :
  0 < threshold -> 0 <= n <= n' -> 0 <= ramp threshold n <= ramp threshold n'.
Proof.
  intros Ht Hn. unfold ramp. change CADENCE_WAVE_SCALE with 10000.
  pose proof (div_mono (n * 10000) (n' * 10000) threshold Ht ltac:(lia)).
  assert (n < threshold -> n * 10000 / threshold <= 10000) by (intros; apply Z.div_le_upper_bound; lia).
  destruct (Z.leb_spec threshold n), (Z.leb_spec threshold n'); lia.
Qed.

Lemma wave_y_Ok s now y :
  cadence_wave_y_for_quote_scaled s now = Ok y ->
  0 < PropAmmPairState.cadence_threshold s /\
  (PropAmmPairState.cadence_wave_scaled s = 0 /\ y = 0 \/
   exists n, preview_current_sell_trade_count s now = Ok n /\
     y = PropAmmPairState.cadence_wave_scaled s * ramp (PropAmmPairState.cadence_threshold s) n
           / CADENCE_WAVE_SCALE).
Proof.
  intros H. unfold cadence_wave_y_for_quote_scaled in H. inv_res. split; [done|].
  destruct (Z.eqb_spec (PropAmmPairState.cadence_wave_scaled s) 0); [inv_res; by left|]. inv_res. right.
  eexists. split; [eassumption|]. unfold ramp.
  match goal with H : (if ?n =? 0 then _ else _) = Ok _ |- _ => destruct (Z.eqb_spec n 0) as [->|] end.
  - inv_res. destruct (Z.leb_spec (PropAmmPairState.cadence_threshold s) 0); [lia|].
    by rewrite Z.mul_0_l, Z.div_0_l, Z.mul_0_r by lia.
  - inv_res. destruct (_ <=? _); inv_amm; done.
Qed.

Lemma wave_y_mono s s' now a a' y y' :
  pair_ok s -> more_pressure s a s' a' now ->
  cadence_wave_y_for_quote_scaled s now = Ok y -> cadence_wave_y_for_quote_scaled s' now = Ok y' ->
  0 <= y <= y'.
Proof.
  intros Hok Hm H H'. apply wave_y_Ok in H as [Ht H]. apply wave_y_Ok in H' as [_ H'].
  rewrite (mp_wave _ _ _ _ _ Hm), (mp_threshold _ _ _ _ _ Hm) in H'.
  pose proof (pk_wave _ Hok) as [Hw _].
  assert (Hz : forall n, 0 * ramp (PropAmmPairState.cadence_threshold s) n / CADENCE_WAVE_SCALE = 0) by done.
  destruct H as [[E ->]|(n & Hn & ->)], H' as [[E' ->]|(n' & Hn' & ->)];
    rewrite ?E, ?E', ?Hz; try lia.
  pose proof (ramp_mono _ _ _ Ht (mp_count _ _ _ _ _ Hm _ _ Hn Hn')).
  apply div_mono; [done|]. nia.
Qed.

(** The factors of two sells, the second under at least the pressure of the first and
    against no more liquidity. *)
Lemma hard_wall_factors s s' now a a' L L' r r' o o' :
  pair_ok s -> pair_ok s' -> more_pressure s a s' a' now -> 0 <= a <= a' -> a' <= u64.MAX ->
  L' <= L -> r' <= r ->
  apply_hard_wall_liquidity_factor_at_time a L r s now = Ok o ->
  apply_hard_wall_liquidity_factor_at_time a' L' r' s' now = Ok o' ->
  exists f f', 0 <= f' <= f /\ f <= HARD_WALL_SCALE /\
    o = a * f / HARD_WALL_SCALE /\ o' = a' * f' / HARD_WALL_SCALE /\ a' <= L'.
Proof.
  intros Hok Hok' Hm Ha Ha' HL1 Hr1 H H'.
  apply hard_wall_Ok in H as (HL & Hr & _ & l & u & h & y & t & El & Eu & Eh & Ey & Et & ->); [|done|lia].
  apply hard_wall_Ok in H'
    as (HL' & Hr' & HaL & l' & u' & h' & y' & t' & El' & Eu' & Eh' & Ey' & Et' & ->); [|done|lia].
  pose proof (wave_y_mono _ _ _ _ _ _ _ Hok Hm Ey Ey') as Hy.
  pose proof (wall_liquidity_mono _ _ _ _ _ _ _ _ _ _ _ Hok Hm (conj HL' HL1) (conj Hr' Hr1) El El')
    as Hl.
  rewrite (mp_peg _ _ _ _ _ Hm), (mp_exponent _ _ _ _ _ Hm) in Eh'.
  pose proof (utilization_mono _ _ _ _ _ _ Ha Hl Eu Eu') as Hu.
  pose proof (utilization_u128 a' l' u' ltac:(lia) ltac:(lia) Eu').
  pose proof (haircut_mono u u' _ _ h h' Hu ltac:(lia) (proj1 (pk_peg _ Hok)) (pk_exponent _ Hok) Eh Eh').
  pose proof (wave_mono u u' y y' t t' Hu Hy Et Et').
  exists (u128.saturating_sub HARD_WALL_SCALE (Z.max h t)),
    (u128.saturating_sub HARD_WALL_SCALE (Z.max h' t')).
  split; [|split; [|done]]; unfold u128.saturating_sub; change HARD_WALL_SCALE with 1000000000000; zlia.
Qed.

Lemma scaled_le a f : 0 <= a -> 0 <= f <= HARD_WALL_SCALE -> 0 <= a * f / HARD_WALL_SCALE <= a.
Proof.
  change HARD_WALL_SCALE with 1000000000000. intros.
  split; [apply Z.div_pos; lia|apply Z.div_le_upper_bound; nia].
Qed.

(** A payout is at most the value of the trade, which the vault covers. *)
Lemma hard_wall_bounds s now a L r o :
  pair_ok s -> 0 <= a <= u64.MAX -> apply_hard_wall_liquidity_factor_at_time a L r s now = Ok o ->
  0 <= o <= a /\ a <= L.
Proof.
  intros Hok Ha H.
  destruct (hard_wall_factors s s now a a L L r r o o Hok Hok
    (more_pressure_amount s a a now Hok ltac:(lia)) ltac:(lia) (proj2 Ha) ltac:(lia) ltac:(lia) H H)
    as (f & f' & Hf & Hf1 & -> & _ & HL).
  split; [|done]. apply scaled_le; lia.
Qed.

(** C19: a larger sell never gets a better price.  The hard wall pays a sell its
    redemption value times a factor of at most one, rounded down; of two trades
    against the same pair, liquidity and moment, the larger has the smaller
    factor; and no payout exceeds the redemption value or the vault's balance. *)
Theorem hard_wall_larger_sell_worse_price s now a a' L r o o' :
  pair_ok s -> 0 <= a <= a' -> a' <= u64.MAX ->
  apply_hard_wall_liquidity_factor_at_time a L r s now = Ok o ->
  apply_hard_wall_liquidity_factor_at_time a' L r s now = Ok o' ->
  exists f f', 0 <= f' <= f /\ f <= HARD_WALL_SCALE /\
    o = a * f / HARD_WALL_SCALE /\ o' = a' * f' / HARD_WALL_SCALE /\
    0 <= o <= a /\ 0 <= o' <= a' /\ a' <= L.
Proof.
  intros Hok Ha Ha' H H'.
  destruct (hard_wall_factors _ _ _ _ _ _ _ _ _ _ _ Hok Hok (more_pressure_amount s a a' now Hok Ha)
    Ha Ha' (Z.le_refl _) (Z.le_refl _) H H') as (f & f' & Hf & Hf1 & -> & -> & HL).
  exists f, f'. pose proof (scaled_le a f ltac:(lia) ltac:(lia)).
  pose proof (scaled_le a' f' ltac:(lia) ltac:(lia)). auto 10.
Qed.

(** C31: what is sold counts against what is sold next.  When sells outweigh buys in
    the current epoch, then after [x] is sold a further [y] at the same moment meets
    exactly the sell pressure that [x + y] would meet at once, and one more trade; so
    against no more liquidity than before it is paid at a factor of its value at most
    the one [y] would have had before [x].  (This makes the later chunks of a split
    sell dearer; it does not make the pricing split-proof, see [split_pays_more].) *)
Theorem later_chunk_worse_price s s1 s' x y now L L' r r' o o' :
  pair_ok s -> now <> 0 -> 0 <= x -> 0 <= y <= u64.MAX ->
  roll_prop_amm_volume_tracker s now = Ok s1 ->
  PropAmmPairState.curr_buy_value_stable s1 <= PropAmmPairState.curr_sell_value_stable s1 ->
  record_prop_amm_sell s x now = Ok s' -> L' <= L -> r' <= r ->
  apply_hard_wall_liquidity_factor_at_time y L r s now = Ok o ->
  apply_hard_wall_liquidity_factor_at_time y L' r' s' now = Ok o' ->
  preview_effective_sell_volume s' y now = preview_effective_sell_volume s (x + y) now /\
  (exists n, preview_current_sell_trade_count s now = Ok n /\
     preview_current_sell_trade_count s' now = Ok (n + 1)) /\
  exists f f', 0 <= f' <= f /\ f <= HARD_WALL_SCALE /\
    o = y * f / HARD_WALL_SCALE /\ o' = y * f' / HARD_WALL_SCALE /\ o' <= o.
Proof.
  intros Hok Hn Hx Hy Hroll Hnet Hrec HL Hr H H'.
  destruct (split_sell_pressure s s1 s' x y now Hok Hn Hx (proj1 Hy) Hroll Hnet Hrec) as [Hv Hc].
  pose proof (more_pressure_recorded s s1 s' x y now Hok Hn Hx (proj1 Hy) Hroll Hnet Hrec) as Hm.
  pose proof (record_sell_pair_ok _ _ _ _ Hok Hrec) as Hok'.
  destruct (hard_wall_factors _ _ _ _ _ _ _ _ _ _ _ Hok Hok' Hm ltac:(lia) (proj2 Hy) HL Hr H H')
    as (f & f' & Hf & Hf1 & -> & -> & _).
  split; [done|]. split; [done|]. exists f, f'. do 4 (split; [done|]).
  apply Z.div_le_mono; [done|]. nia.
Qed.
End output.

(** ** Witnesses *)

Module SamplePair.
(** The default parameters, a day-long epoch begun at second 1000000 in which
    400 units were sold, 100 bought and 300 net sold the day before. *)
Definition pair : PropAmmPairState.t :=
  PropAmmPairState.mk 301%N 201%N 203%N true 700 25000 20 10000 86400 20000 0
    400000000 100000000 300000000 2 1000000 255.

(** [2 * h] sold as two halves at the same moment, the second against the liquidity
    the first has left. *)
Definition sold_in_halves (h L r : Z) (s : PropAmmPairState.t) (now : Z) : Result Z :=
  o1 ← apply_hard_wall_liquidity_factor_at_time h L r s now;
  s' ← record_prop_amm_sell s h now;
  o2 ← apply_hard_wall_liquidity_factor_at_time h (L - o1) r s' now;
  Ok (o1 + o2).
End SamplePair.

Lemma sample_pair_ok : pair_ok SamplePair.pair.
Proof. split; vm_compute; try split; discriminate. Qed.

Lemma hard_wall_larger_sell_worse_price_witness :
  exists o o', apply_hard_wall_liquidity_factor_at_time 50000000 5000000000 3000000000
                 SamplePair.pair 1040000 = Ok o /\
    apply_hard_wall_liquidity_factor_at_time 900000000 5000000000 3000000000
      SamplePair.pair 1040000 = Ok o' /\
    exists f f', 0 <= f' <= f /\ f <= HARD_WALL_SCALE /\
      o = 50000000 * f / HARD_WALL_SCALE /\ o' = 900000000 * f' / HARD_WALL_SCALE /\
      0 <= o <= 50000000 /\ 0 <= o' <= 900000000 /\ 900000000 <= 5000000000.
Proof.
  do 2 eexists. split; [vm_compute; reflexivity|]. split; [vm_compute; reflexivity|].
  apply (hard_wall_larger_sell_worse_price SamplePair.pair 1040000 50000000 900000000
           5000000000 3000000000);
    [exact sample_pair_ok|lia|vm_compute; discriminate|vm_compute; reflexivity..].
Defined.

Lemma tracker_previews_agree_witness :
  exists s', roll_prop_amm_volume_tracker SamplePair.pair 1100000 = Ok s' /\
    forall x, preview_effective_sell_volume s' x 1100000
            = preview_effective_sell_volume SamplePair.pair x 1100000.
Proof.
  eexists. split; [vm_compute; reflexivity|].
  apply (tracker_previews_agree SamplePair.pair 1100000);
    [exact sample_pair_ok|lia|vm_compute; reflexivity].
Defined.

Lemma later_chunk_worse_price_witness :
  exists s' o o', record_prop_amm_sell SamplePair.pair 500000000 1040000 = Ok s' /\
    apply_hard_wall_liquidity_factor_at_time 200000000 5000000000 3000000000 SamplePair.pair 1040000
      = Ok o /\
    apply_hard_wall_liquidity_factor_at_time 200000000 4500000000 3000000000 s' 1040000 = Ok o' /\
    o' <= o.
Proof.
  do 3 eexists. do 3 (split; [vm_compute; reflexivity|]).
  match goal with |- ?o' <= ?o =>
    destruct (later_chunk_worse_price SamplePair.pair SamplePair.pair _ 500000000 200000000 1040000
      5000000000 4500000000 3000000000 3000000000 o o' sample_pair_ok ltac:(lia) ltac:(lia)
      ltac:(split; [lia|vm_compute; discriminate]) ltac:(vm_compute; reflexivity)
      ltac:(vm_compute; discriminate) ltac:(vm_compute; reflexivity) ltac:(lia) ltac:(lia)
      ltac:(vm_compute; reflexivity) ltac:(vm_compute; reflexivity))
      as (_ & _ & f & f' & _ & _ & _ & _ & Hle) end.
  exact Hle.
Defined.

(** The pricing is not split-proof: two halves can pay more than the whole. *)
Example split_pays_more :
  match SamplePair.sold_in_halves 450000000 5000000000 3000000000 SamplePair.pair 1040000,
        apply_hard_wall_liquidity_factor_at_time 900000000 5000000000 3000000000 SamplePair.pair 1040000
  with Ok halves, Ok whole => whole < halves | _, _ => False end.
Proof. vm_compute. reflexivity. Qed.
