(* ===== verification/SwapFacts.v ===== *)
(** * What a swap against the prop AMM does

    The effect of [open_swap_sell] and [open_swap_buy] on every balance, supply and
    account: the payout, the volume they record, and the BUFFER and market stats
    around the burn or the mint of ONyc. *)

From S2P Require Import World MathUtils OfferPricing Approval TokenUtils OfferHandlers MarketInfo Buffer Vaults Redemption TakeOffer PropAmmMath PropAmm Governance Program Frames Samples MarketFacts BufferFacts AccountFacts RedemptionFacts TypedFacts OfferFacts HardWallFacts PropAmmFacts.
Open Scope Z_scope.

Section swaps.
Context {R : Runtime} {L : Type} {TL : TokenLedger L} {TLL : TokenLedgerLaws L}.
Implicit Types w : World L.

(** ** Pieces *)

Lemma accrue_burn_same_mints st c a mo m tp r w w' :
  accrue_before_burn st c a mo m tp w = Ok (r, w') -> same_mints w w' /\ (r = None -> w' = w).
Proof using All.
  intros H. split.
  - refine ((_ : within same_mints _) _ _ _ H). clear - TLL.
    within ltac:(first [intros; intros ?; reflexivity | intros ? ?; apply mint_to_same_mints]).
  - unfold accrue_before_burn in H. inv_m.
    match goal with H : check_is_initialized _ _ = Ok _ |- _ =>
      apply check_is_initialized_Ok in H as (-> & _) end.
    destruct (c && _); by inv_m.
Qed.

(** The account the payout of a sell is limited by, and the sell fee. *)
Definition sell_fee w (k : Pubkey) : Z :=
  default 0 (RedemptionOffer.fee_basis_points_prop_amm_sell <$> redemption_offers w !! k).

Definition sell_target w (k : Pubkey) : Z :=
  default 0 (RedemptionOffer.vault_target_bps <$> redemption_offers w !! k).

(** The reserve the hard wall protects: the target share of the TVL, at most the
    liquidity there is; all of it without a target. *)
Definition wall_reserve (liquidity target tvl : Z) (mi mo : MintAccount) : Result Z :=
  if target =? 0 then Ok liquidity
  else r ← hard_wall_reserve_from_tvl tvl target (decimals mo) (decimals mi); Ok (Z.min liquidity r).

Lemma redemption_offer_config_Ok rk ok ki ko c w w' :
  redemption_offer_config rk ok ki ko w = Ok (c, w') ->
  w' = w /\ roc_fee_basis_points_prop_amm_sell c = sell_fee w rk /\
  roc_vault_target_bps c = sell_target w rk.
Proof.
  unfold redemption_offer_config, load_optional_checked_redemption_offer, sell_fee,
    sell_target. intros H. inv_m.
  destruct (redemption_offers _ !! rk) eqn:E; inv_m; repeat split; by rewrite ?E.
Qed.

Lemma liquidity_context_Ok rk ok mi mo k bal c w w' :
  sell_quote_liquidity_context rk ok mi mo k bal w = Ok (c, w') ->
  w' = w /\ slc_actual_liquidity c = bal /\ slc_fee_basis_points_prop_amm_sell c = sell_fee w rk /\
  forall ms, market_stats w = Loaded ms ->
    wall_reserve bal (sell_target w rk) (MarketStats.tvl ms) mi mo = Ok (slc_hard_wall_reserve c).
Proof.
  intros H. split; [symmetry; refine ((_ : within eq _) _ _ _ H); clear; within ltac:(reflexivity)|].
  unfold sell_quote_liquidity_context in H. inv_m.
  match goal with H : redemption_offer_config _ _ _ _ _ = Ok _ |- _ =>
    apply redemption_offer_config_Ok in H as (-> & E & Et) end.
  split; [done|]. split; [by cbn; rewrite E|]. intros ms Hms. cbn.
  unfold resolve_hard_wall_reserve, read_market_stats_account, wall_reserve in *. rewrite <-Et.
  destruct (_ =? 0); inv_m; [done|].
  destruct (key_eqb k _); inv_m.
  match goal with H : load_pda_account _ _ _ = Ok _ |- _ =>
    apply load_pda_account_Ok_inv in H as [Hl ->]; cbn in Hl; rewrite Hms in Hl; injection Hl as <- end.
  match goal with H : hard_wall_reserve_from_tvl _ _ _ _ = _ |- _ => rewrite H end. done.
Qed.

Lemma sell_fee_ok w k : typed w -> 0 <= sell_fee w k <= MAX_BASIS_POINTS.
Proof.
  intros Hw. unfold sell_fee. destruct (redemption_offers w !! k) as [o|] eqn:E; cbn;
    [|unfold MAX_BASIS_POINTS; lia]. by eapply typed_redemption_offer in E as (_ & ? & _).
Qed.

(** The payout of a sell, as the two pure computations. *)
Lemma sell_payout_Ok o s amount L0 reserve bps (mi mo : MintAccount) res out w w' :
  sell_payout o s amount L0 reserve bps mi mo w = Ok ((res, out), w') ->
  w' = w /\
  process_redemption_core o (timestamp_u64 (clock w)) amount mi mo bps
    (PropAmmPairState.minimum_sell_haircut_onyc s) = Ok res /\
  apply_hard_wall_liquidity_factor_at_time (rpr_token_out_amount res) L0 reserve s
    (Clock.unix_timestamp (clock w)) = Ok out.
Proof.
  unfold sell_payout, apply_hard_wall_liquidity_factor, Clock_get. intros H. by inv_m.
Qed.

Lemma store_pair_moves k s u w w' :
  store_pair k s w = Ok (u, w') ->
  pair_moves w w' (fun _ => 0) (fun _ => 0) /\ prop_amm_pairs w' = <[k := s]> (prop_amm_pairs w).
Proof.
  unfold store_pair. intros H. inv_m. split; [|done]. split; cbn; try (intros; lia).
  by exists (ledger w), (events w), (<[k := s]> (prop_amm_pairs w)); destruct w.
Qed.

Lemma process_redemption_same o t amount (mi mi' mo : MintAccount) bps minimum :
  decimals mi' = decimals mi ->
  process_redemption_core o t amount mi' mo bps minimum = process_redemption_core o t amount mi mo bps minimum.
Proof. unfold process_redemption_core. by intros ->. Qed.

(** A sequence of account helpers. *)
Ltac quiet_helpers :=
  repeat match goal with
  | H : get_or_create_associated_token_account _ _ _ _ _ _ = Ok _ |- _ =>
      apply get_or_create_ata_Ok in H as (? & ? & ? & ?)
  | H : get_or_create_configurable_vault_token_account_pair _ _ _ _ _ _ _ _ _ _ = Ok (?x, _) |- _ =>
      destruct x; apply get_or_create_pair_Ok in H as (? & ? & ? & ? & ? & _)
  end.
Ltac quiet_steps := repeat first [done | eapply quiet_trans; [eassumption|]].

(** ** [open_swap_sell] *)

(** The redemption of a sell, out of the redemption vault. *)
Definition sell_params (ctx : OpenSwapSell) (mi mo : MintAccount) (res : RedemptionProcessResult)
    (out : Z) : ExecuteRedemptionOpsParams.t :=
  ExecuteRedemptionOpsParams.mk (ss_token_in_program ctx) (ss_token_out_program ctx) mi
    (rpr_token_in_net_amount res) (rpr_token_in_fee_amount res)
    (ss_redemption_vault_token_in_account ctx) (ss_prop_amm_proceeds_token_in_account ctx)
    (ss_prop_amm_sell_fee_token_in_account ctx) redemption_vault_authority_key mo out
    (ss_redemption_vault_token_out_account ctx) (ss_user_token_out_account ctx) mint_authority_key.

(** The token accounts of a sell: the seller's own, the redemption vault's, and those
    of the proceeds and the fee vault. *)
Record sell_accounts (ctx : OpenSwapSell) : Prop := {
  sac_user_in : ss_user_token_in_account ctx
    = associated_token_address (ss_user ctx) (ss_token_in_mint ctx) (ss_token_in_program ctx);
  sac_user_out : ss_user_token_out_account ctx
    = associated_token_address (ss_user ctx) (ss_token_out_mint ctx) (ss_token_out_program ctx);
  sac_vault_in : ss_redemption_vault_token_in_account ctx
    = associated_token_address redemption_vault_authority_key (ss_token_in_mint ctx)
        (ss_token_in_program ctx);
  sac_proceeds : ss_prop_amm_proceeds_token_in_account ctx
    = associated_token_address (vault_key ConfigurableVaultKind.PropAmmProceeds)
        (ss_token_in_mint ctx) (ss_token_in_program ctx);
  sac_fee : ss_prop_amm_sell_fee_token_in_account ctx
    = associated_token_address (vault_key ConfigurableVaultKind.PropAmmSellFee)
        (ss_token_in_mint ctx) (ss_token_in_program ctx)
}.

(** What [open_swap_sell] checks first. *)
Record sell_checked (ctx : OpenSwapSell) (o : Offer.t) (s : PropAmmPairState.t) (mi mo : MintAccount)
    (reserve : Z) w : Prop := {
  sc_live : State.is_killed (state w) = false;
  sc_offer : offers w !! ss_offer ctx = Some o /\ Offer.is_disabled o = false;
  sc_pair : prop_amm_pairs w !! ss_prop_amm_pair_state ctx = Some s /\
    validate_prop_amm_pair_for_side (state w) s (ss_offer ctx) (ss_token_in_mint ctx)
      (ss_token_out_mint ctx) SwapSide.Sell = Ok tt;
  sc_mints : fresh w mi /\ mint_key mi = ss_token_in_mint ctx /\
    fresh w mo /\ mint_key mo = ss_token_out_mint ctx;
  sc_vault : ss_redemption_vault_token_out_account ctx
    = associated_token_address redemption_vault_authority_key (ss_token_out_mint ctx)
        (ss_token_out_program ctx);
  sc_reserve : exists mof ms, offers w !! State.main_offer (state w) = Some mof /\
    stats_of mof mi (excluded_amount w) w ms /\
    wall_reserve (balance (ledger w) (ss_redemption_vault_token_out_account ctx))
      (sell_target w (ss_redemption_offer ctx)) (MarketStats.tvl ms) mi mo = Ok reserve;
  sc_accounts : sell_accounts ctx
}.

(** What selling [amount] does, and what it pays. *)
Record sold (ctx : OpenSwapSell) (amount minimum_out : Z) (o : Offer.t) (s s' : PropAmmPairState.t)
    (mi mo : MintAccount) (res : RedemptionProcessResult) (out reserve : Z)
    (r : option BufferAccrualResult) w w' : Prop := {
  sl_redemption : process_redemption_core o (timestamp_u64 (clock w)) amount mi mo
    (sell_fee w (ss_redemption_offer ctx)) (PropAmmPairState.minimum_sell_haircut_onyc s) = Ok res;
  sl_payout : apply_hard_wall_liquidity_factor_at_time (rpr_token_out_amount res)
    (balance (ledger w) (ss_redemption_vault_token_out_account ctx)) reserve s
    (Clock.unix_timestamp (clock w)) = Ok out;
  sl_bounds : minimum_out <= out <= rpr_token_out_amount res /\
    rpr_token_out_amount res <= balance (ledger w) (ss_redemption_vault_token_out_account ctx);
  sl_volume : record_prop_amm_sell s (rpr_token_out_amount res) (Clock.unix_timestamp (clock w)) = Ok s';
  sl_pairs : prop_amm_pairs w' = <[ss_prop_amm_pair_state ctx := s']> (prop_amm_pairs w);
  sl_same : clock w' = clock w /\ state w' = state w /\ offers w' = offers w /\
    redemption_offers w' = redemption_offers w /\ redemption_requests w' = redemption_requests w;
  sl_balance k : balance (ledger w') k = balance (ledger w) k
    + accrual_balance (sa_buffer_accounts (ss_supply ctx)) r k
    - delta (key_eqb k (ss_user_token_in_account ctx)) amount
    + delta (key_eqb k (ss_redemption_vault_token_in_account ctx)) amount
    + redemption_balance_change (sell_params ctx mi mo res out) k;
  sl_supply k : supply_of (ledger w') k = supply_of (ledger w) k
    + delta (key_eqb k (mint_key mi)) (accrual_minted r)
    + redemption_supply_change (sell_params ctx mi mo res out) k;
  sl_accrual : (r <> None <-> burns_onyc w mi = true /\ exists b, buffer_state w = Loaded b) /\
    0 <= accrual_minted r /\
    forall k, 0 <= accrual_balance (sa_buffer_accounts (ss_supply ctx)) r k;
  sl_accrued x : r = Some x -> exists mof, offers w !! State.main_offer (state w) = Some mof /\
    accrued_now mof (mint_key mi) (ss_token_in_program ctx) (sa_buffer_accounts (ss_supply ctx)) x w;
  sl_baseline : burns_onyc w mi = true -> (exists b, buffer_state w = Loaded b) ->
    baseline_current (mint_key mi) w';
  sl_stats : burns_onyc w mi = true -> exists mof,
    offers w !! State.main_offer (state w) = Some mof /\ stats_current mof (mint_key mi) w'
}.

Lemma pair_account_Ok k o s w w' :
  pair_account k o w = Ok (s, w') -> w' = w /\ prop_amm_pairs w !! k = Some s.
Proof. unfold pair_account. intros H. by inv_m. Qed.

Lemma sell_accounts_Ok ctx st u w w' :
  open_swap_sell_token_accounts ctx st w = Ok (u, w') ->
  ss_prop_amm_proceeds_vault ctx = vault_key ConfigurableVaultKind.PropAmmProceeds ->
  ss_prop_amm_sell_fee_vault ctx = vault_key ConfigurableVaultKind.PropAmmSellFee ->
  quiet w w' /\ sell_accounts ctx.
Proof using All.
  unfold open_swap_sell_token_accounts. cbv zeta. intros H Hp Hf. inv_m. inv_accounts. quiet_helpers.
  split; [quiet_steps|]. split; congruence.
Qed.

(** The sell from the accrual on. *)
Lemma sell_core ctx amount minimum_out o s s' mi mi' mo mof res out reserve bps r payer ek mk
    u1 u2 u3 u4 u5 w w1 w2 w3 w4 w5 w6 w7 w8 :
  typed w -> pair_ok s -> 0 <= amount <= u64.MAX -> fresh w mi -> fresh w mo ->
  offers w !! State.main_offer (state w) = Some mof ->
  bps = sell_fee w (ss_redemption_offer ctx) -> minimum_out <= out ->
  let c := burns_onyc w mi in
  accrue_before_burn (state w) c (sa_buffer_accounts (ss_supply ctx)) (Some mof) mi
    (ss_token_in_program ctx) w = Ok (r, w1) ->
  (match r with Some _ => reload mi | None => mret mi end) w1 = Ok (mi', w2) ->
  sell_payout o s amount (balance (ledger w) (ss_redemption_vault_token_out_account ctx)) reserve bps
    mi' mo w2 = Ok ((res, out), w3) ->
  record_prop_amm_sell s (rpr_token_out_amount res) (Clock.unix_timestamp (clock w3)) = Ok s' ->
  store_pair (ss_prop_amm_pair_state ctx) s' w3 = Ok (u1, w4) ->
  transfer_tokens mi' (ss_token_in_program ctx) (ss_user_token_in_account ctx)
    (ss_redemption_vault_token_in_account ctx) (ss_user ctx) amount w4 = Ok (u2, w5) ->
  execute_redemption_operations (sell_params ctx mi' mo res out) w5 = Ok (u3, w6) ->
  store_post_burn_supply r (rpr_token_in_net_amount res) w6 = Ok (u4, w7) ->
  when c (mi'' ← reload mi'; refresh_market_stats_pda mof mi'' ek mk payer) w7 = Ok (u5, w8) ->
  sold ctx amount minimum_out o s s' mi mo res out reserve r w w8.
Proof using All.
  intros Hty Hs Ha Hmi Hmo Hmof -> Hmin c Hacc Hrel Hpay Hrec Hst Htr Hex Hpost Href.
  pose proof (accrue_burn_same_mints _ _ _ _ _ _ _ _ _ Hacc) as [Hsame Hnone].
  eapply accrue_before_burn_Ok in Hacc as (Hstep & Hc & Hdo); [|done| |done].
  2:{ intros o' [= <-]. by eapply typed_offer in Hmof as [Hmof _]. }
  apply (reload_after_accrual mi mi' r mint_authority_key) with (w := w) in Hrel
    as (-> & _ & Hk & Hpc & _ & Hd); [|done..].
  apply sell_payout_Ok in Hpay as (-> & Hcore & Hwall).
  assert (Hcl : clock w1 = clock w) by (by destruct Hstep as [(? & ? & ? & -> & _) _ _ _ _ _]).
  assert (Hpp : prop_amm_pairs w1 = prop_amm_pairs w) by (by destruct Hstep as [(? & ? & ? & -> & _) _ _ _ _ _]).
  rewrite Hcl in *. rewrite (process_redemption_same _ _ _ mi mi' _ _ _ Hd) in Hcore.
  pose proof Hcore as Hres. apply process_redemption_Ok in Hres as (_ & Hsum & Hnet & Hfee & _ & Hout & _);
    [|done|by apply sell_fee_ok|apply (pk_minimum _ Hs)|by eapply ledger_decimals_u8..].
  pose proof (hard_wall_bounds _ _ _ _ _ _ Hs (conj (Z.lt_le_incl _ _ (proj1 Hout)) (proj2 Hout)) Hwall).
  apply store_pair_moves in Hst as [Hm1 Hp4]. apply transfer_tokens_moves in Htr as [Hm2 _].
  apply execute_redemption_moves in Hex as [Hm3 _]; [|exact (Z.le_trans _ _ _ (proj1 (pk_minimum _ Hs)) Hfee)].
  apply store_post_burn_Ok in Hpost.
  assert (Hre : refreshed c (Some mof) (mint_key mi') w7 w8) by
    (eapply (when_refreshed c (Some mof) mi' ek mk payer u5); exact Href).
  rewrite Hk in Hre.
  assert (Hpairs : prop_amm_pairs w6 = <[ss_prop_amm_pair_state ctx := s']> (prop_amm_pairs w)).
  { rewrite <-Hpp, <-Hp4. destruct Hm3 as [(? & ? & ->) _ _], Hm2 as [(? & ? & ->) _ _]. done. }
  pose proof (pair_moves_trans _ _ _ _ _ _ _ Hm1 (pair_moves_trans _ _ _ _ _ _ _
    (moves_pair _ _ _ _ Hm2) (moves_pair _ _ _ _ Hm3))) as Hm.
  assert (Hb : burns_in (sell_params ctx mi' mo res out) = burns_in (sell_params ctx mi mo res out))
    by exact Hpc.
  destruct (bracket _ _ _ _ (- rpr_token_in_net_amount res) _ _ c (Some mof) _ _ _ w7 w8 Hstep Hm) as [[Hw Hbal Hsup Hac Hex Hbl Hstt] Hps];
    [|exact Hpost|exact Hre|].
  { intros Hr. apply Hc in Hr. unfold c, burns_onyc in Hr. apply andb_true_iff in Hr as [_ Hr].
    unfold redemption_supply_change. rewrite Hb. unfold burns_in. cbn. rewrite Hr, Hk, key_eqb_refl. cbn. lia. }
  split; auto; try lia.
  - congruence.
  - destruct Hw as (l & es & ps & bs & ms & ->). auto 10.
  - intros k. rewrite Hbal. unfold redemption_balance_change. rewrite Hb. cbn. lia.
  - intros k. rewrite Hsup. unfold redemption_supply_change. rewrite Hb. cbn. rewrite Hk. lia.
  - split; [|done]. split; [|by intros [? ?]; apply Hdo]. intros Hr. split; [by apply Hc|].
    destruct r as [x|]; [|done]. by destruct (as_result _ _ _ _ _ _ _ Hstep x eq_refl).
  - intros x Hx. destruct (Hex x Hx) as (? & [= <-] & ?). eauto.
  - intros Hb1. destruct (Hstt Hb1) as (? & [= <-] & ?). eauto.
Qed.

(** What happens before: the market stats are refreshed, accounts are created. *)
Definition calm w w1 : Prop := exists ms, quiet (set_market_stats ms w) w1.

Lemma calm_typed w w1 : calm w w1 -> typed w -> typed w1.
Proof. intros (ms & l & vs & -> & _) []. by split. Qed.

Lemma sold_calm ctx amount minimum_out o s s' mi mo res out reserve r w w1 w' :
  calm w w1 -> sold ctx amount minimum_out o s s' mi mo res out reserve r w1 w' ->
  sold ctx amount minimum_out o s s' mi mo res out reserve r w w'.
Proof.
  intros (ms & Hq) [].
  pose proof (fun k => quiet_balance _ _ k Hq) as Eb. pose proof (fun k => quiet_supply _ _ k Hq) as Es.
  rewrite Eb in *. destruct Hq as (l & vs & -> & _). cbn in *. split; auto.
  - intros k. by rewrite sl_balance0, Eb.
  - intros k. by rewrite sl_supply0, Es.
  - intros x Hx. destruct (sl_accrued0 x Hx) as (mof & ? & []). exists mof. split; [done|]. by split.
Qed.

Lemma sold_emit ctx amount minimum_out o s s' mi mo res out reserve r w w' es :
  sold ctx amount minimum_out o s s' mi mo res out reserve r w w' ->
  sold ctx amount minimum_out o s s' mi mo res out reserve r w (set_events es w').
Proof.
  intros []. split; auto.
  - intros H1 H2. destruct (sl_baseline0 H1 H2) as [(b & ? & ? & ?)]. split. by exists b.
  - intros Hs. destruct (sl_stats0 Hs) as (mf & ? & [(m & v & ?)]). exists mf. split; [done|].
    split. by exists m, v.
Qed.

Lemma open_swap_sell_Ok ctx amount minimum_out u w w' :
  typed w -> 0 <= amount <= u64.MAX ->
  open_swap_sell ctx amount minimum_out w = Ok (u, w') ->
  exists o s s' mi mo res out reserve r,
    sell_checked ctx o s mi mo reserve w /\ sold ctx amount minimum_out o s s' mi mo res out reserve r w w'.
Proof using All.
  intros Hty Ha H. unfold open_swap_sell, sell_settle, OpenSwapSell_accounts, offer_account, Offer.require_enabled,
    validate_market_stats_pda, Clock_get in H. cbv zeta in H. inv_m. inv_res. inv_accounts. inv_take.
  match goal with H : pair_account _ _ _ = Ok _ |- _ => apply pair_account_Ok in H as [-> Hs] end.
  match goal with H : load_main_offer _ _ _ = Ok _ |- _ => apply load_main_offer_Ok in H as (-> & Em & Hmof) end.
  match goal with H : refresh_market_stats_pda _ _ _ _ _ _ = Ok _ |- _ =>
    apply refresh_pda_Ok in H as (ms & -> & Hms) end.
  match goal with H : sell_quote_liquidity_context _ _ _ _ _ _ _ = Ok (?c, _) |- _ =>
    apply liquidity_context_Ok in H as (-> & El & Ef & Er); rename c into ctxl end.
  specialize (Er ms eq_refl).
  match goal with H : TokenAccount.amount _ = balance _ _ |- _ => rewrite H in *; clear H end.
  match goal with H : open_swap_sell_token_accounts _ _ _ = Ok _ |- _ => apply sell_accounts_Ok in H as [Hq Hacs]; [|done..] end.
  match type of Hq with quiet _ ?w2 => assert (Hc : calm w w2) by (by exists (Loaded ms)) end.
  pose proof (quiet_same _ _ Hq) as (Eck & Est & Eof & Ero & _). cbn in Eck, Est, Eof, Ero.
  match goal with Hp : sell_payout ?o ?s _ _ ?rs _ _ ?mo _ = Ok ((?res, ?out), _),
    Hr : record_prop_amm_sell _ _ _ = Ok ?s', Hb : accrue_before_burn _ _ _ _ ?mi _ ?w2 = Ok (?r, _) |- _ =>
    assert (Eb : key_eqb (ss_token_in_mint ctx) (State.onyc_mint (state w))
                 && program_controls_mint mi mint_authority_key = burns_onyc w2 mi)
      by (unfold burns_onyc; rewrite Est; by f_equal; f_equal);
    rewrite Eb in *; rewrite <-Est in Hb; exists o, s, s', mi, mo, res, out, rs, r end.
  rewrite Em in Hmof. split; [split; eauto 6|].
  apply sold_emit. eapply sold_calm; [exact Hc|].
  eapply sell_core; [by eapply calm_typed|by eapply typed_pair|..]; try eassumption.
  - by eapply (quiet_fresh _ _ _ Hq).
  - by eapply (quiet_fresh _ _ _ Hq).
  - rewrite Est, Eof. congruence.
  - transitivity (slc_fee_basis_points_prop_amm_sell ctxl); [reflexivity|].
    rewrite Ef. unfold sell_fee. by rewrite Ero.
  - rewrite (quiet_balance _ _ _ Hq).
    change (ledger w) with (ledger (set_market_stats (Loaded ms) w)). rewrite <-El. eassumption.
Qed.

(** C11: selling against the prop AMM ([open_swap_sell]).  In a live program with an
    enabled pair and offer, the seller pays exactly the amount and gets the raw
    redemption value at the offer's price, net of the sell fee, dampened by the hard
    wall: at least the minimum asked for, at most the raw value, which the redemption
    vault covers.  The pair records the raw value as sold volume; token_in the program
    mints is burned, any other goes to the account of the proceeds vault, and the fee
    to that of the sell fee vault; nothing else moves but what an initialized BUFFER
    is due, exactly, before ONyc is burned, after which its baseline and the market
    stats record the mint's actual supply. *)
Theorem open_swap_sell_correct ctx amount minimum_out u w w' :
  typed w -> 0 <= amount <= u64.MAX ->
  open_swap_sell ctx amount minimum_out w = Ok (u, w') ->
  exists o s s' mi mo res out reserve r,
    sell_checked ctx o s mi mo reserve w /\ sold ctx amount minimum_out o s s' mi mo res out reserve r w w'.
Proof using All. exact (open_swap_sell_Ok ctx amount minimum_out u w w'). Qed.

(** ** [open_swap_buy] *)

(** Where the tokens of a buy go: the buyer pays; net of the refill of the
    redemption vault it goes to the proceeds vault, the fee to the fee vault;
    token_out comes from the mint, or from the offer vault. *)
Definition buy_balance_change (ctx : OpenSwapBuy) (minted : bool) (res : OfferProcessResult) (refill : Z)
    (k : Pubkey) : Z :=
  - delta (key_eqb k (sb_user_token_in_account ctx))
      (opr_token_in_net_amount res + opr_token_in_fee_amount res)
  + delta (key_eqb k (sb_redemption_vault_token_in_account ctx)) refill
  + delta (key_eqb k (sb_prop_amm_proceeds_token_in_account ctx)) (opr_token_in_net_amount res - refill)
  + delta (key_eqb k (sb_prop_amm_buy_fee_token_in_account ctx)) (opr_token_in_fee_amount res)
  + delta (key_eqb k (sb_user_token_out_account ctx)) (opr_token_out_amount res)
  - (if minted then 0
     else delta (key_eqb k (sb_offer_vault_token_out_account ctx)) (opr_token_out_amount res)).

Lemma buy_distribute_moves ctx mi refill net fee u w w' :
  0 <= refill -> 0 <= net -> 0 <= fee ->
  buy_distribute_token_in ctx mi refill net fee w = Ok (u, w') ->
  moves w w' (fun k => - delta (key_eqb k (sb_permissionless_token_in_account ctx)) (refill + net + fee)
    + delta (key_eqb k (sb_redemption_vault_token_in_account ctx)) refill
    + delta (key_eqb k (sb_prop_amm_proceeds_token_in_account ctx)) net
    + delta (key_eqb k (sb_prop_amm_buy_fee_token_in_account ctx)) fee) (fun _ => 0).
Proof using All.
  intros Hr Hn Hf H. unfold buy_distribute_token_in in H. inv_m.
  repeat match goal with H : when _ _ _ = Ok _ |- _ => apply transfer_when_moves in H; [|done] end.
  eapply moves_ext; [eapply moves_trans; [eapply moves_trans; eassumption|eassumption]| |];
    intros k; cbn; unfold delta; repeat case_match; lia.
Qed.

Lemma buy_deliver_moves ctx st (mo : MintAccount) x u w w' :
  buy_deliver_token_out ctx st mo x w = Ok (u, w') ->
  let minted := program_controls_mint mo mint_authority_key in
  moves w w' (fun k => delta (key_eqb k (sb_user_token_out_account ctx)) x
      - (if minted then 0 else delta (key_eqb k (sb_offer_vault_token_out_account ctx)) x))
    (fun k => if minted then delta (key_eqb k (mint_key mo)) x else 0) /\
  (minted = true -> (0 < State.max_mint_amount st -> x <= State.max_mint_amount st) /\
     (0 < State.max_supply st -> supply mo + x <= State.max_supply st)).
Proof using All.
  intros H minted. unfold buy_deliver_token_out in H. fold minted in H. destruct minted.
  - apply mint_tokens_moves in H as (H & _ & ? & ?). split; [|auto].
    eapply moves_ext; [exact H| |]; intros k; cbn; lia.
  - inv_m. repeat match goal with H : transfer_tokens _ _ _ _ _ _ _ = Ok _ |- _ =>
      apply transfer_tokens_moves in H as [H _] end.
    split; [|done]. eapply moves_ext; [eapply moves_trans; eassumption| |];
      intros k; cbn; unfold delta; repeat case_match; lia.
Qed.

(** The token accounts of a buy: the buyer's own, the intermediary's, and those of
    the offer vault, the redemption vault, the proceeds and the fee vault. *)
Record buy_accounts (ctx : OpenSwapBuy) : Prop := {
  bac_user_in : sb_user_token_in_account ctx
    = associated_token_address (sb_user ctx) (sb_token_in_mint ctx) (sb_token_in_program ctx);
  bac_user_out : sb_user_token_out_account ctx
    = associated_token_address (sb_user ctx) (sb_token_out_mint ctx) (sb_token_out_program ctx);
  bac_intermediary_in : sb_permissionless_token_in_account ctx
    = associated_token_address permissionless_authority_key (sb_token_in_mint ctx)
        (sb_token_in_program ctx);
  bac_intermediary_out : sb_permissionless_token_out_account ctx
    = associated_token_address permissionless_authority_key (sb_token_out_mint ctx)
        (sb_token_out_program ctx);
  bac_offer_vault : sb_offer_vault_token_out_account ctx
    = associated_token_address offer_vault_authority_key (sb_token_out_mint ctx)
        (sb_token_out_program ctx);
  bac_redemption_vault : sb_redemption_vault_token_in_account ctx
    = associated_token_address redemption_vault_authority_key (sb_token_in_mint ctx)
        (sb_token_in_program ctx);
  bac_proceeds : sb_prop_amm_proceeds_token_in_account ctx
    = associated_token_address (vault_key ConfigurableVaultKind.PropAmmProceeds)
        (sb_token_in_mint ctx) (sb_token_in_program ctx);
  bac_fee : sb_prop_amm_buy_fee_token_in_account ctx
    = associated_token_address (vault_key ConfigurableVaultKind.PropAmmBuyFee)
        (sb_token_in_mint ctx) (sb_token_in_program ctx)
}.

Lemma buy_accounts_Ok ctx a w w' :
  open_swap_buy_token_accounts ctx w = Ok (a, w') ->
  sb_prop_amm_proceeds_vault ctx = vault_key ConfigurableVaultKind.PropAmmProceeds ->
  sb_prop_amm_buy_fee_vault ctx = vault_key ConfigurableVaultKind.PropAmmBuyFee ->
  quiet w w' /\ buy_accounts ctx /\
  TokenAccount.amount (ta_data a) = balance (ledger w) (sb_redemption_vault_token_in_account ctx).
Proof using All.
  unfold open_swap_buy_token_accounts. cbv zeta. intros H Hp Hf. inv_m. inv_accounts.
  match goal with H : get_or_create_associated_token_account (sb_redemption_vault_token_in_account _) _ _ _ _ _ = _ |- _ =>
    apply get_or_create_ata_Ok in H as (Hq2 & Hr & _ & Hb) end.
  quiet_helpers. match type of Hq2 with quiet ?v _ => assert (Hq : quiet w v) by quiet_steps end.
  split; [by eapply quiet_trans|]. split; [split; congruence|]. rewrite Hb. by apply quiet_balance.
Qed.

(** What [open_swap_buy] checks first. *)
Record buy_checked (ctx : OpenSwapBuy) (o : Offer.t) (s : PropAmmPairState.t) (mi mo : MintAccount) w
  : Prop := {
  bc_live : State.is_killed (state w) = false;
  bc_offer : offers w !! sb_offer ctx = Some o /\ Offer.is_disabled o = false /\
    Offer.allow_permissionless o = true;
  bc_pair : prop_amm_pairs w !! sb_prop_amm_pair_state ctx = Some s /\
    validate_prop_amm_pair_for_side (state w) s (sb_offer ctx) (sb_token_in_mint ctx)
      (sb_token_out_mint ctx) SwapSide.Buy = Ok tt;
  bc_mints : fresh w mi /\ mint_key mi = sb_token_in_mint ctx /\
    fresh w mo /\ mint_key mo = sb_token_out_mint ctx /\
    has_transfer_fee mi = false /\ has_transfer_fee mo = false;
  bc_accounts : buy_accounts ctx
}.

(** What buying for [amount] does, and what it costs. *)
Record bought (ctx : OpenSwapBuy) (amount minimum_out : Z) (o : Offer.t) (s s' : PropAmmPairState.t)
    (mi mo : MintAccount) (res : OfferProcessResult) (refill : Z) (r : option BufferAccrualResult) w w'
  : Prop := {
  bg_priced : priced o (timestamp_u64 (clock w)) amount (Offer.permissionless_fee_basis_points o)
    (decimals mi) (decimals mo) res;
  bg_bounds : minimum_out <= opr_token_out_amount res /\ 0 <= refill <= opr_token_in_net_amount res;
  bg_refill : refill_due w (sb_redemption_offer ctx) mi mo
    (balance (ledger w) (sb_redemption_vault_token_in_account ctx)) (opr_token_in_net_amount res)
    = Ok refill;
  bg_volume : record_prop_amm_buy s (opr_token_in_net_amount res) (Clock.unix_timestamp (clock w)) = Ok s';
  bg_pairs : prop_amm_pairs w' = <[sb_prop_amm_pair_state ctx := s']> (prop_amm_pairs w);
  bg_same : clock w' = clock w /\ state w' = state w /\ offers w' = offers w /\
    redemption_offers w' = redemption_offers w /\ redemption_requests w' = redemption_requests w;
  bg_balance k : balance (ledger w') k = balance (ledger w) k
    + accrual_balance (sa_buffer_accounts (sb_supply ctx)) r k
    + buy_balance_change ctx (program_controls_mint mo mint_authority_key) res refill k;
  bg_supply k : supply_of (ledger w') k = supply_of (ledger w) k
    + delta (key_eqb k (mint_key mo)) (accrual_minted r)
    + (if program_controls_mint mo mint_authority_key
       then delta (key_eqb k (mint_key mo)) (opr_token_out_amount res) else 0);
  bg_caps : program_controls_mint mo mint_authority_key = true ->
    (0 < State.max_mint_amount (state w) -> opr_token_out_amount res <= State.max_mint_amount (state w)) /\
    (0 < State.max_supply (state w) ->
       supply_of (ledger w) (mint_key mo) + accrual_minted r + opr_token_out_amount res
         <= State.max_supply (state w));
  bg_accrual : (accrues w mo <-> r <> None) /\ 0 <= accrual_minted r /\
    forall k, 0 <= accrual_balance (sa_buffer_accounts (sb_supply ctx)) r k;
  bg_accrued x : r = Some x -> exists mof, offers w !! State.main_offer (state w) = Some mof /\
    accrued_now mof (mint_key mo) (sb_token_out_program ctx) (sa_buffer_accounts (sb_supply ctx)) x w;
  bg_baseline : accrues w mo -> baseline_current (mint_key mo) w';
  bg_stats : is_onyc_token_out_mint (state w) mo = true -> exists mof,
    offers w !! State.main_offer (state w) = Some mof /\ stats_current mof (mint_key mo) w'
}.

Lemma quiet_bought ctx amount minimum_out o s s' mi mo res refill r w w1 w' :
  quiet w w1 -> bought ctx amount minimum_out o s s' mi mo res refill r w1 w' ->
  bought ctx amount minimum_out o s s' mi mo res refill r w w'.
Proof.
  intros Hq []. pose proof (quiet_accrues _ _ mo Hq) as Eac.
  pose proof (fun k => quiet_balance _ _ k Hq) as Eb. pose proof (fun k => quiet_supply _ _ k Hq) as Es.
  rewrite Es, Eb in *. destruct Hq as (l & vs & -> & _). cbn in *. split; auto.
  - intros k. by rewrite bg_balance0, Eb.
  - intros k. by rewrite bg_supply0, Es.
  - intros x Hx. destruct (bg_accrued0 x Hx) as (mof & ? & []). exists mof. split; [done|]. by split.
Qed.

(** The buy from the accrual on. *)
Lemma buy_core ctx amount minimum_out o s s' mi mo mo' mof res refill c r ek mk payer
    u1 u2 u3 u4 u5 u6 w w1 w2 w3 w4 w5 w6 w7 w8 :
  typed w -> fresh w mi -> fresh w mo -> (c = true <-> accrues w mo) ->
  (forall o, mof = Some o -> offers w !! State.main_offer (state w) = Some o) ->
  priced o (timestamp_u64 (clock w)) amount (Offer.permissionless_fee_basis_points o)
    (decimals mi) (decimals mo) res ->
  minimum_out <= opr_token_out_amount res -> 0 <= refill <= opr_token_in_net_amount res ->
  refill_due w (sb_redemption_offer ctx) mi mo'
    (balance (ledger w) (sb_redemption_vault_token_in_account ctx)) (opr_token_in_net_amount res)
    = Ok refill ->
  accrue_before_mint (state w) c (sa_buffer_accounts (sb_supply ctx)) mof mo
    (sb_token_out_program ctx) w = Ok (r, w1) ->
  (match r with Some _ => reload mo | None => mret mo end) w1 = Ok (mo', w2) ->
  transfer_tokens mi (sb_token_in_program ctx) (sb_user_token_in_account ctx)
    (sb_permissionless_token_in_account ctx) (sb_user ctx) amount w2 = Ok (u1, w3) ->
  buy_distribute_token_in ctx mi refill (opr_token_in_net_amount res - refill)
    (opr_token_in_fee_amount res) w3 = Ok (u2, w4) ->
  record_prop_amm_buy s (opr_token_in_net_amount res) (Clock.unix_timestamp (clock w4)) = Ok s' ->
  store_pair (sb_prop_amm_pair_state ctx) s' w4 = Ok (u3, w5) ->
  buy_deliver_token_out ctx (state w) mo' (opr_token_out_amount res) w5 = Ok (u4, w6) ->
  store_post_offer_supply r (opr_token_out_amount res) OnreError.OverflowError w6 = Ok (u5, w7) ->
  when (is_onyc_token_out_mint (state w) mo')
    (mof ← lift (ok_or_onre mof OnreError.InvalidMainOffer);
     mo'' ← reload mo'; refresh_market_stats_pda mof mo'' ek mk payer) w7 = Ok (u6, w8) ->
  bought ctx amount minimum_out o s s' mi mo res refill r w w8.
Proof using All.
  intros Hty Hmi Hmo Hca Hmof Hp Hmin Hrf Hdue Hacc Hrel Htr Hdis Hrec Hst Hdel Hpost Href.
  pose proof (accrue_same_mints _ _ _ _ _ _ _ _ _ Hacc) as Hsame.
  assert (Hnone : r = None -> w1 = w) by
    (intros ->; unfold accrue_before_mint in Hacc; destruct c; by inv_m).
  apply accrue_before_mint_Ok in Hacc as [Hstep Hc]; [|done| |done].
  2:{ intros o' Ho'. apply Hmof in Ho'. by eapply typed_offer in Ho' as [Ho' _]. }
  apply (reload_after_accrual mo mo' r mint_authority_key) with (w := w) in Hrel
    as (-> & Hf1 & Hk & Hpc & _ & Hd); [|done..].
  pose proof (fresh_supply _ _ Hf1) as Esup. rewrite Hk in Esup.
  assert (Hcl : clock w1 = clock w) by (by destruct Hstep as [(? & ? & ? & -> & _) _ _ _ _ _]).
  assert (Hpp : prop_amm_pairs w1 = prop_amm_pairs w) by (by destruct Hstep as [(? & ? & ? & -> & _) _ _ _ _ _]).
  pose proof (pr_split _ _ _ _ _ _ _ Hp) as Hsp. pose proof (pr_fee _ _ _ _ _ _ _ Hp) as [_ Hfee].
  apply transfer_tokens_moves in Htr as [Hm1 _].
  apply buy_distribute_moves in Hdis as Hm2; [|lia|lia|done].
  apply store_pair_moves in Hst as [Hm3 Hp5]. apply buy_deliver_moves in Hdel as [Hm4 Hcap].
  apply store_post_offer_Ok in Hpost. apply when_refreshed in Href.
  unfold is_onyc_token_out_mint in Href. rewrite Hk in *. rewrite Hpc in *.
  assert (Hcl4 : clock w4 = clock w).
  { rewrite <-Hcl. destruct Hm2 as [(? & ? & ->) _ _], Hm1 as [(? & ? & ->) _ _]. done. }
  assert (Hpairs : prop_amm_pairs w6 = <[sb_prop_amm_pair_state ctx := s']> (prop_amm_pairs w)).
  { rewrite <-Hpp. destruct Hm4 as [(? & ? & ->) _ _]. cbn. rewrite Hp5.
    destruct Hm2 as [(? & ? & ->) _ _], Hm1 as [(? & ? & ->) _ _]. done. }
  rewrite Hcl4 in Hrec.
  pose proof (pair_moves_trans _ _ _ _ _ _ _ (moves_pair _ _ _ _ Hm1) (pair_moves_trans _ _ _ _ _ _ _
    (moves_pair _ _ _ _ Hm2) (pair_moves_trans _ _ _ _ _ _ _ Hm3 (moves_pair _ _ _ _ Hm4)))) as Hm.
  pose proof (as_supply _ _ _ _ _ _ _ Hstep (mint_key mo)) as Hs1. rewrite key_eqb_refl in Hs1. cbn in Hs1.
  destruct (bracket _ _ _ _ (opr_token_out_amount res) _ _ (key_eqb (mint_key mo) (State.onyc_mint (state w)))
    mof _ _ _ w7 w8 Hstep Hm)
    as [[Hw Hbal Hsup Hac Hex Hbl Hstt] Hps]; [|exact Hpost|exact Href|].
  { intros Hr. apply Hc, Hca in Hr as (_ & Hr & _). cbn. rewrite Hr, key_eqb_refl. cbn. lia. }
  split; auto.
  - unfold refill_due in *. by rewrite <-Hd.
  - congruence.
  - destruct Hw as (l & es & ps & bs & ms & ->). auto 10.
  - intros k. rewrite Hbal. unfold buy_balance_change, delta. repeat case_match; lia.
  - intros Hct. destruct (Hcap Hct) as [H1 H2]. split; [done|]. intros Hpos. specialize (H2 Hpos).
    rewrite Esup, Hs1 in H2. lia.
  - split; [|done]. by rewrite <-Hca.
  - intros x Hx. destruct (Hex x Hx) as (mf & Hmf & ?). eauto.
  - intros Hct. apply Hbl. by apply Hc, Hca.
  - intros Hct. destruct (Hstt Hct) as (mf & Hmf & ?). eauto.
Qed.

(** The result is the one the offer computes. *)
Lemma open_swap_buy_Ok ctx amount minimum_out u w w' :
  typed w -> 0 <= amount <= u64.MAX -> open_swap_buy ctx amount minimum_out w = Ok (u, w') ->
  exists o s s' mi mo res refill r,
    buy_checked ctx o s mi mo w /\ bought ctx amount minimum_out o s s' mi mo res refill r w w' /\
    process_offer_core o amount mi mo (Offer.permissionless_fee_basis_points o) w = Ok (res, w).
Proof using All.
  intros Hty Ha H. unfold open_swap_buy, buy_settle, OpenSwapBuy_accounts, Offer.require_enabled,
    require_quote_mints_without_transfer_fees, Clock_get in H. cbv zeta in H. inv_m. inv_res.
  inv_accounts.
  match goal with H : load_redemption_offer_vault_target_bps_for_offer _ _ _ _ _ = Ok _ |- _ =>
    pose proof (refill_target_Ok _ _ _ _ _ _ _ H) as Htarget end.
  inv_take.
  match goal with H : pair_account _ _ _ = Ok _ |- _ => apply pair_account_Ok in H as [-> Hs] end.
  match goal with H : process_offer_core _ _ _ _ _ _ = Ok (?x, _) |- _ =>
    pose proof H as Hcore;
    apply process_offer_core_Ok in H as (-> & Hp & _ & _); [rename x into res|lia|by eapply typed_offer|done..] end.
  match goal with H : open_swap_buy_token_accounts _ _ = Ok _ |- _ => apply buy_accounts_Ok in H as (Hq & Hacs & Hbal); [|done..] end.
  pose proof (quiet_same _ _ Hq) as (Eck & Est & Eof & _ & _ & _ & Ebf & _).
  pose proof (pr_split _ _ _ _ _ _ _ Hp). pose proof (pr_net _ _ _ _ _ _ _ Hp).
  pose proof (pr_fee _ _ _ _ _ _ _ Hp) as [_ ?].
  match goal with H : calculate_redemption_vault_refill_amount _ _ _ _ _ _ _ = Ok _ |- _ =>
    rewrite Htarget in H; pose proof H as Hdue; apply calculate_refill_due in Hdue; [|done];
    apply calculate_refill_Ok in H as [-> Hrf]; [|rewrite Hbal; apply balance_u64|lia] end.
  match goal with H : u64.checked_sub _ _ = Some ?x |- _ =>
    unfold u64.checked_sub in H; inv_checked end.
  match goal with Hd : buy_distribute_token_in _ ?mi ?refill _ _ _ = _, Hr : record_prop_amm_buy ?s _ _ = Ok ?s',
    Hb : accrue_before_mint _ _ _ _ ?mo _ _ = Ok (?r, _), Ho : offers w !! sb_offer _ = Some ?o |- _ =>
    rewrite <-Est in Hb; exists o, s, s', mi, mo, res, refill, r;
    frame_call (@refill_view L) Hb end.
  match goal with H : transfer_tokens _ _ _ _ _ _ _ = Ok _ |- _ => frame_call (@refill_view L) H end.
  split; [split; auto 10|]. split; [|exact Hcore]. eapply quiet_bought; [exact Hq|]. rewrite <-Est in *.
  eapply buy_core; [by eapply quiet_typed|by eapply quiet_fresh|by eapply quiet_fresh|..];
    try eassumption.
  - by apply should_accrue_accrues.
  - naive_solver.
  - by rewrite Eck.
  - match goal with H : (match _ with Some _ => reload _ | None => _ end) _ = Ok _ |- _ =>
      apply maybe_reload_same in H as -> end.
    rewrite (quiet_balance _ _ _ Hq), <-Hbal, <-Hdue. apply refill_due_same. congruence.
Qed.
(** C12: buying from the prop AMM ([open_swap_buy]).  In a live program with an
    enabled pair and an enabled permissionless offer, the buyer pays exactly the
    amount, split into net and permissionless fee, and gets what the net amount pays
    for at the offer's price, at least the minimum asked for; token_in goes to the
    token accounts of the buy fee vault, the redemption vault (exactly the refill it is
    due, at most the net amount) and the proceeds vault; token_out is minted within the
    caps or comes from the offer vault; the intermediary accounts end as they began.
    The pair records the net amount as bought volume, and when the program mints ONyc
    an initialized BUFFER accrues exactly what it is due first, and its baseline and
    the market stats then record the mint's actual supply. *)
Theorem open_swap_buy_correct ctx amount minimum_out u w w' :
  typed w -> 0 <= amount <= u64.MAX -> open_swap_buy ctx amount minimum_out w = Ok (u, w') ->
  exists o s s' mi mo res refill r,
    buy_checked ctx o s mi mo w /\ bought ctx amount minimum_out o s s' mi mo res refill r w w'.
Proof using All.
  intros Hty Ha H. destruct (open_swap_buy_Ok ctx amount minimum_out u w w' Hty Ha H)
    as (o & s & s' & mi & mo & res & refill & r & Hc & Hb & _).
  exists o, s, s', mi, mo, res, refill, r. exact (conj Hc Hb).
Qed.
End swaps.

(** ** Witnesses *)

Module Swap.
Definition pair_key : Pubkey := pda (pair_seeds Sample.offer_key).
Definition config : PropAmmConfig := mkPropAmmConfig true 700 25000 20 10000 86400 20000 0.
(** The sample deployment with a configured pair. *)
Definition world : World SampleLedger.t :=
  Sample.after (configure_prop_amm Sample.offer_key Sample.usdc pair_key Sample.boss config) Sample.world.
Definition supply : SupplyAccounts :=
  mkSupplyAccounts Sample.buffer_accounts (pda [seeds.MARKET_STATS])
    (pda [seeds.CIRCULATING_SUPPLY_EXCLUDED_BALANCE]) Sample.offer_key.
Definition sell : OpenSwapSell :=
  mkOpenSwapSell Sample.offer_key pair_key Sample.redemption_offer_key
    (Sample.ata redemption_vault_authority_key Sample.onyc)
    (Sample.ata redemption_vault_authority_key Sample.usdc) Sample.onyc spl_token_id Sample.usdc
    spl_token_id (Sample.ata Sample.user Sample.onyc) (Sample.ata Sample.user Sample.usdc)
    (Sample.vault ConfigurableVaultKind.PropAmmProceeds)
    (Sample.ata (Sample.vault ConfigurableVaultKind.PropAmmProceeds) Sample.onyc)
    (Sample.vault ConfigurableVaultKind.PropAmmSellFee)
    (Sample.ata (Sample.vault ConfigurableVaultKind.PropAmmSellFee) Sample.onyc) supply
    instructions_sysvar_id Sample.user (Sample.ata Sample.offer_vault Sample.onyc).
Definition buy : OpenSwapBuy :=
  mkOpenSwapBuy Sample.offer_key pair_key Sample.redemption_offer_key
    (Sample.ata Sample.offer_vault Sample.usdc) (Sample.ata Sample.offer_vault Sample.onyc)
    (Sample.ata redemption_vault_authority_key Sample.usdc) Sample.usdc spl_token_id Sample.onyc
    spl_token_id (Sample.ata Sample.user Sample.usdc) (Sample.ata Sample.user Sample.onyc)
    (Sample.vault ConfigurableVaultKind.PropAmmProceeds)
    (Sample.ata (Sample.vault ConfigurableVaultKind.PropAmmProceeds) Sample.usdc)
    (Sample.vault ConfigurableVaultKind.PropAmmBuyFee)
    (Sample.ata (Sample.vault ConfigurableVaultKind.PropAmmBuyFee) Sample.usdc)
    (Sample.ata Sample.intermediary Sample.usdc) (Sample.ata Sample.intermediary Sample.onyc) supply
    Sample.user.
End Swap.

Example sell_runs : is_ok (open_swap_sell Swap.sell 1000000000 1 Swap.world) = true.
Proof. vm_compute. reflexivity. Qed.
Example buy_runs : is_ok (open_swap_buy Swap.buy 1000000000 1 Swap.world) = true.
Proof. vm_compute. reflexivity. Qed.

Lemma swap_typed : typed Swap.world.
Proof.
  apply (typed_exec (mkInstructionsSysvar 0 []) (ConfigurePropAmm Sample.offer_key Sample.usdc
    Swap.pair_key Sample.boss Swap.config) Sample.world); [exact sample_typed| |].
  - vm_compute. repeat split; discriminate.
  - apply after_Ok. vm_compute. reflexivity.
Qed.

Lemma open_swap_sell_correct_witness :
  exists o s s' mi mo res out reserve r, sell_checked Swap.sell o s mi mo reserve Swap.world /\
    sold Swap.sell 1000000000 1 o s s' mi mo res out reserve r Swap.world
      (Sample.after (open_swap_sell Swap.sell 1000000000 1) Swap.world).
Proof.
  exact (open_swap_sell_correct Swap.sell 1000000000 1 tt Swap.world _ swap_typed
           ltac:(split; [lia|vm_compute; discriminate]) (after_Ok _ _ sell_runs)).
Defined.

Lemma open_swap_buy_correct_witness :
  exists o s s' mi mo res refill r, buy_checked Swap.buy o s mi mo Swap.world /\
    bought Swap.buy 1000000000 1 o s s' mi mo res refill r Swap.world
      (Sample.after (open_swap_buy Swap.buy 1000000000 1) Swap.world).
Proof.
  exact (open_swap_buy_correct Swap.buy 1000000000 1 tt Swap.world _ swap_typed
           ltac:(split; [lia|vm_compute; discriminate]) (after_Ok _ _ buy_runs)).
Defined.
