(* ===== verification/ApprovalFacts.v ===== *)
(** * Approved and unapproved purchases

    Five instructions sell at an offer's price: the two forms of [take_offer.rs], which
    verify the approval an offer demands, the two of [take_offer_permissionless.rs] and
    [open_swap_buy], which instead demand that the offer allows permissionless
    purchases.  What [Approval] proves of the check alone is put here in its place. *)

From Stdlib Require Import Strings.Byte.
From S2P Require Import World Approval TokenUtils OfferHandlers Buffer Vaults Redemption TakeOffer PropAmm Program Frames Samples MarketFacts AccountFacts TypedFacts OfferFacts LegacyFacts.
Open Scope Z_scope.

(** How a purchase may be permitted. *)
Inductive permission : Type :=
| ByApproval (approval : option ApprovalMessage.t)
| Permissionless.

(** The offer an instruction buys at, its user, and how the purchase is permitted. *)
Definition purchase (i : instruction) : option (Pubkey * Pubkey * permission) :=
  match i with
  | TakeOffer ctx _ _ _ _ approval => Some (to_offer ctx, to_user ctx, ByApproval approval)
  | TakeOfferV2Ix ctx _ approval =>
      Some (to_offer (tv_base ctx), to_user (tv_base ctx), ByApproval approval)
  | TakeOfferPermissionless ctx _ _ _ _ _ _ _ => Some (to_offer ctx, to_user ctx, Permissionless)
  | TakeOfferPermissionlessV2Ix ctx _ =>
      Some (to_offer (tp_base ctx), to_user (tp_base ctx), Permissionless)
  | OpenSwapBuyIx ctx _ _ => Some (sb_offer ctx, sb_user ctx, Permissionless)
  | _ => None
  end.

(** Some approver of the state [st], not the default key, signed [msg] for this program
    and [user] in the instruction before the current one, and [msg] has not expired. *)
Definition approved `{Runtime} (tx : InstructionsSysvar) (st : State.t) (user : Pubkey) (now : Z)
    (msg : ApprovalMessage.t) : Prop :=
  ApprovalMessage.program_id msg = program_id /\ ApprovalMessage.user_pubkey msg = user /\
  now <= ApprovalMessage.expiry_unix msg /\
  exists approver, (approver = State.approver1 st \/ approver = State.approver2 st) /\
    approver <> Pubkey_default /\ signed_by tx approver msg.

(** What permits a purchase at [o]. *)
Definition permitted `{Runtime} (tx : InstructionsSysvar) (st : State.t) (user : Pubkey) (now : Z)
    (o : Offer.t) (how : permission) : Prop :=
  match how with
  | ByApproval approval => Offer.needs_approval o = true ->
      exists msg, approval = Some msg /\ approved tx st user now msg
  | Permissionless => Offer.allow_permissionless o = true
  end.

Section purchases.
Context {R : Runtime} {L : Type} {TL : TokenLedger L} {TLL : TokenLedgerLaws L}.
Implicit Types w : World L.

(** [o] is the enabled offer at [k], and its purchase is permitted. *)
Definition may_buy tx k user how w : Prop :=
  exists o, offers w !! k = Some o /\ Offer.is_disabled o = false /\
    permitted tx (state w) user (timestamp_u64 (clock w)) o how.

Lemma verified_may_buy tx k o msg user sysvar u w w' :
  offers w !! k = Some o -> Offer.is_disabled o = false ->
  verify_offer_approval tx o msg program_id user (State.approver1 (state w))
    (State.approver2 (state w)) sysvar w = Ok (u, w') ->
  may_buy tx k user (ByApproval msg) w.
Proof.
  intros Ho Hd H. exists o. split; [done|]. split; [done|]. intros Hn. destruct u.
  apply approval_sound in H as (_ & m & a & -> & ? & ? & ? & ? & ? & ?); [|done].
  exists m. split; [done|]. split; eauto 10.
Qed.

Lemma take_offer_permitted tx ctx boss ba sysvar amount msg u w w' :
  take_offer tx ctx boss ba sysvar amount msg w = Ok (u, w') ->
  may_buy tx (to_offer ctx) (to_user ctx) (ByApproval msg) w.
Proof using All.
  intros H. unfold take_offer, TakeOffer_accounts, Offer.require_enabled, not_killed in H.
  inv_m. inv_res. inv_accounts. inv_take.
  match goal with Hi : init_if_needed_ata _ _ _ _ _ = Ok _ |- _ =>
    apply init_if_needed_ata_Ok in Hi as [Hq _] end.
  pose proof (quiet_same _ _ Hq) as (Eck & _).
  match goal with H : verify_offer_approval _ _ _ _ _ _ _ _ _ = Ok _ |- _ =>
    apply (approval_clock _ _ _ _ _ _ _ _ _ w) in H; [|done] end.
  by eapply verified_may_buy.
Qed.

Lemma take_offer_v2_permitted tx ctx amount msg u w w' :
  take_offer_v2 tx ctx amount msg w = Ok (u, w') ->
  may_buy tx (to_offer (tv_base ctx)) (to_user (tv_base ctx)) (ByApproval msg) w.
Proof using All.
  intros H. unfold take_offer_v2, TakeOfferV2_accounts, Offer.require_enabled in H.
  inv_m. inv_res. inv_accounts. inv_take. by eapply verified_may_buy.
Qed.

Lemma execute_permissionless_allowed ctx st o mi mo amount pa pin pout dest feed uout bps v2 u w w' :
  execute_take_offer_permissionless ctx st o mi mo amount pa pin pout dest feed uout bps v2 w = Ok (u, w') ->
  Offer.is_disabled o = false /\ Offer.allow_permissionless o = true.
Proof.
  intros H. unfold execute_take_offer_permissionless, Offer.require_enabled in H.
  inv_m. inv_res. done.
Qed.

Lemma take_offer_permissionless_permitted tx ctx boss ba pa pin pout sysvar amount u w w' :
  take_offer_permissionless ctx boss ba pa pin pout sysvar amount w = Ok (u, w') ->
  may_buy tx (to_offer ctx) (to_user ctx) Permissionless w.
Proof using All.
  intros H. unfold take_offer_permissionless, offer_account, live_state, not_killed in H.
  inv_m. apply execute_permissionless_allowed in H as []. eexists. split; [done|]. by split.
Qed.

Lemma take_offer_permissionless_v2_permitted tx ctx amount u w w' :
  take_offer_permissionless_v2 ctx amount w = Ok (u, w') ->
  may_buy tx (to_offer (tp_base ctx)) (to_user (tp_base ctx)) Permissionless w.
Proof using All.
  intros H. unfold take_offer_permissionless_v2, offer_account, live_state, not_killed in H.
  inv_m. apply execute_permissionless_allowed in H as []. eexists. split; [done|]. by split.
Qed.

Lemma open_swap_buy_permitted tx ctx amount minimum_out u w w' :
  open_swap_buy ctx amount minimum_out w = Ok (u, w') ->
  may_buy tx (sb_offer ctx) (sb_user ctx) Permissionless w.
Proof using All.
  intros H. unfold open_swap_buy, OpenSwapBuy_accounts, Offer.require_enabled in H.
  inv_m. inv_res. eexists. split; [done|]. by split.
Qed.

(** C20: an approval an offer demands is never skipped.  Whichever instruction buys at an
    offer, the offer is enabled; [take_offer] and [take_offer_v2] on one that needs
    approval only succeed with a message for this program and the paying user, not
    expired, that an approver the state names (never the default key) signed in the
    Ed25519 instruction immediately before; and the purchases without approval only
    succeed on an offer that allows them. *)
Theorem approval_required tx i k user how w w' :
  purchase i = Some (k, user, how) -> exec tx i w = Ok (tt, w') ->
  exists o, offers w !! k = Some o /\ Offer.is_disabled o = false /\
    permitted tx (state w) user (timestamp_u64 (clock w)) o how.
Proof using All.
  intros Hp H. destruct i; cbn [purchase] in Hp; try discriminate Hp; injection Hp as <- <- <-;
    cbn [exec] in H.
  - by eapply take_offer_permitted.
  - by eapply take_offer_v2_permitted.
  - by eapply take_offer_permissionless_permitted.
  - by eapply take_offer_permissionless_v2_permitted.
  - by eapply open_swap_buy_permitted.
Qed.
End purchases.

(** ** Witnesses *)

(** The sample offer, now needing approval; one approver is set and has signed a
    message for the user. *)
Module Approved.
Definition approver : Pubkey := 105%N.
Definition world : World SampleLedger.t :=
  set_state (State.with_approver1 approver Sample.state)
    (set_offers {[Sample.offer_key := Offer.with_needs_approval_flag 1 Sample.offer]} Sample.world).
Definition msg : ApprovalMessage.t := ApprovalMessage.mk program_id Sample.user 2000000.
Definition tx : InstructionsSysvar :=
  mkInstructionsSysvar 1
    [mkInstruction ed25519_program_id []
       (ed25519_ix_data (key_to_bytes approver) (replicate 64 x00) (ApprovalMessage.serialize msg));
     mkInstruction program_id [] []].
Definition take (m : option ApprovalMessage.t) : instruction := TakeOfferV2Ix Take.v2 1000000000 m.
End Approved.

Example approved_take_runs : is_ok (exec Approved.tx (Approved.take (Some Approved.msg)) Approved.world) = true.
Proof. vm_compute. reflexivity. Qed.

(** The same take without the message is refused. *)
Example unapproved_take_refused :
  exec Approved.tx (Approved.take None) Approved.world = Err (Onre OnreError.ApprovalRequired).
Proof. vm_compute. reflexivity. Qed.

Lemma approval_required_witness :
  Offer.needs_approval (Offer.with_needs_approval_flag 1 Sample.offer) = true /\
  exists o, offers Approved.world !! Sample.offer_key = Some o /\ Offer.is_disabled o = false /\
    permitted Approved.tx (state Approved.world) Sample.user 1000100 o (ByApproval (Some Approved.msg)).
Proof.
  split; [reflexivity|].
  exact (approval_required Approved.tx (Approved.take (Some Approved.msg)) Sample.offer_key Sample.user
    (ByApproval (Some Approved.msg)) Approved.world _ ltac:(reflexivity)
    (after_Ok _ _ approved_take_runs)).
Defined.
