(* ===== verification/ViewFacts.v ===== *)
(** * What the market views report

    The queries agree with the stored market stats, the announced time of the next
    price change is right, the excluded balance is the sum of the registered
    owners' balances, each counted once; a swap pays what its quote says; what leaves
    a configurable vault goes to the destination the boss set; and what [mint_to]
    does. *)

From stdpp Require Import relations.
From S2P Require Import World MathUtils OfferPricing Approval TokenUtils OfferHandlers MarketInfo Buffer Vaults Redemption TakeOffer PropAmmMath PropAmm Governance Program Frames Samples MarketFacts BufferFacts AccountFacts RedemptionFacts TypedFacts OfferFacts SwapFacts.
Open Scope Z_scope.

Section views.
Context {R : Runtime} {L : Type} {TL : TokenLedger L} {TLL : TokenLedgerLaws L}.
Implicit Types w : World L.

(** ** Queries *)

Lemma query_accounts_Ok k ki ko o (m : MintAccount) w w' :
  query_accounts k ki ko w = Ok ((o, m), w') ->
  w' = w /\ offers w !! k = Some o /\ fresh w m /\ mint_key m = ko.
Proof.
  unfold query_accounts. intros H. inv_m. inv_accounts. inv_take. auto.
Qed.

Lemma refresh_market_stats_Ok ctx u w w' :
  refresh_market_stats ctx w = Ok (u, w') ->
  exists o m ms es, w' = set_events es (set_market_stats (Loaded ms) w) /\
    offers w !! State.main_offer (state w) = Some o /\ fresh w m /\
    mint_key m = State.onyc_mint (state w) /\ stats_of o m (excluded_amount w) w ms.
Proof.
  unfold refresh_market_stats, has_one_onyc_mint, update_market_stats_account, store_pda_account,
    Clock_get. intros H. inv_m. inv_accounts.
  match goal with H : anchor_init_if_needed _ _ _ _ = Ok (?x, _) |- _ =>
    apply anchor_init_Ok_inv in H as Hi; rename x into ms0 end.
  match goal with H : load_main_offer _ _ _ = Ok (?o, _) |- _ =>
    apply load_main_offer_Ok in H as (-> & Ek & Hof); rename o into off end.
  match goal with H : load_circulating_supply_excluded_balance_amount _ _ = _ |- _ =>
    apply load_excluded_Ok in H as [-> ->] end.
  match goal with H : recompute_market_stats _ _ _ _ = Ok _ |- _ => rename H into Hr end.
  rewrite Ek in *. destruct Hi as [[_ ->] | (_ & _ & ->)];
    (eapply recompute_Ok in Hr as [-> Hr]; do 4 eexists; split; [reflexivity|];
     split; [exact Hof|]; split; [|split; [|destruct Hr; split; eassumption]];
     [done|congruence]).
Qed.

Lemma snapshot_price o t s :
  get_offer_valuation_snapshot o t = Ok s ->
  get_active_vector_and_current_price o t = Ok (ovs_active_vector s, ovs_current_price s).
Proof.
  unfold get_offer_valuation_snapshot. intros H.
  apply bind_Ok_inv in H as ([v p] & -> & H). by inv_res.
Qed.

Lemma active_vector_of o t v p :
  get_active_vector_and_current_price o t = Ok (v, p) -> find_active_vector_at o t = Ok v.
Proof. unfold get_active_vector_and_current_price. intros H. by inv_res. Qed.

Lemma tvl_of_Ok k o s e x w w' :
  tvl_of k o s e w = Ok (x, w') -> exists v p,
    get_active_vector_and_current_price o (timestamp_u64 (clock w)) = Ok (v, p) /\
    x = (s - e) * p / 10 ^ PRICE_DECIMALS.
Proof.
  unfold tvl_of, Clock_get. intros H. inv_m. inv_res.
  match goal with H : calculate_circulating_supply _ _ = Ok _ |- _ =>
    apply circulating_supply_Ok in H as (-> & _) end.
  match goal with H : calculate_tvl _ _ = Ok _ |- _ => apply calculate_tvl_Ok in H as [-> _] end. eauto.
Qed.

Ltac inv_query :=
  match goal with H : query_accounts _ _ _ _ = Ok _ |- _ =>
    let Ho' := fresh "Ho'" in let Hf := fresh "Hf" in let Hk := fresh "Hk" in
    apply query_accounts_Ok in H as (-> & Ho' & Hf & Hk) end.

(** C32: the queries agree with the stored market stats.  Right after
    [refresh_market_stats], whatever [get_nav], [get_apy], [get_nav_adjustment],
    [get_tvl_v2] and [get_circulating_supply_v2] report for the main offer and
    ONyc is the field of the market-stats account. *)
Theorem views_agree_with_stats ctx w w' :
  refresh_market_stats ctx w = Ok (tt, w') ->
  let k := State.main_offer (state w) in let onyc := State.onyc_mint (state w) in
  exists ms, market_stats w' = Loaded ms /\
    (forall ki x v, get_nav k ki onyc w' = Ok (x, v) -> x = MarketStats.nav ms) /\
    (forall ki x v, get_apy k ki onyc w' = Ok (x, v) -> x = MarketStats.apy ms) /\
    (forall ki x v, get_nav_adjustment k ki onyc w' = Ok (x, v) -> x = MarketStats.nav_adjustment ms) /\
    (forall ki e x v, get_tvl_v2 k ki onyc e w' = Ok (x, v) -> x = MarketStats.tvl ms) /\
    (forall e x v, get_circulating_supply_v2 onyc e w' = Ok (x, v) ->
       x = MarketStats.circulating_supply ms).
Proof using All.
  intros H k onyc. apply refresh_market_stats_Ok in H
    as (o & m & ms & es & -> & Ho & Hm & Ek & [_ _ (v0 & Hnav & Hapy & Hadj) [Hc _] Ht _ _]).
  assert (Hmint : forall m', fresh (set_events es (set_market_stats (Loaded ms) w)) m' ->
    mint_key m' = onyc -> supply m' = supply m).
  { intros m' Hm' Hk'. rewrite (fresh_supply _ _ Hm'), (fresh_supply _ _ Hm). unfold onyc in Hk'. cbn.
    by rewrite Hk', Ek. }
  subst k onyc. exists ms. split; [done|].
  split; [|split; [|split; [|split]]].
  - intros ki x v H. unfold get_nav, Clock_get in H. inv_m. inv_query.
    match goal with H : get_offer_valuation_snapshot _ _ = Ok _ |- _ => apply snapshot_price in H end.
    cbn in *. congruence.
  - intros ki x v H. unfold get_apy, Clock_get in H. inv_m. inv_query.
    apply active_vector_of in Hnav. cbn in *. congruence.
  - intros ki x v H. unfold get_nav_adjustment, Clock_get in H. inv_m. inv_query.
    apply active_vector_of in Hnav. unfold calculate_nav_adjustment in Hadj. inv_res. cbn in *.
    congruence.
  - intros ki e x v H. unfold get_tvl_v2, GetTVLV2_accounts in H. inv_m. inv_query.
    match goal with H : load_circulating_supply_excluded_balance_amount _ _ = _ |- _ =>
      apply load_excluded_Ok in H as [-> ->] end.
    match goal with H : tvl_of _ _ _ _ _ = Ok _ |- _ => apply tvl_of_Ok in H as (v1 & p & Hp & ->) end.
    rewrite (Hmint _ Hf Hk), Ht, Hc. cbn in *. repeat f_equal. congruence.
  - intros e x v H. unfold get_circulating_supply_v2, Clock_get, has_one_onyc_mint in H. inv_m. inv_accounts.
    match goal with H : load_circulating_supply_excluded_balance_amount _ _ = _ |- _ =>
      apply load_excluded_Ok in H as [-> ->] end.
    match goal with H : calculate_circulating_supply _ _ = Ok _ |- _ =>
      apply circulating_supply_Ok in H as (-> & _) end.
    rewrite Hc. by erewrite Hmint by done.
Qed.

(** [get_nav] announces the next price change rightly.  The reported price is
    the one in force, the reported time of the next change lies in the future, and
    until then the price stays what was reported. *)
Theorem next_price_change_correct o now s :
  vectors_wf (Offer.vectors o) -> 0 <= now <= u64.MAX ->
  get_offer_valuation_snapshot o now = Ok s ->
  now < ovs_next_price_change_timestamp s /\
  forall t, now <= t < ovs_next_price_change_timestamp s ->
    compute_offer_current_price o t = Ok (ovs_current_price s).
Proof.
  intros Hv%wf_u64_vectors Hn H. split; [by eapply price_holds_until|]. intros t Ht.
  destruct (price_holds_until o now s t Hv Hn H) as [_ Hp]. specialize (Hp Ht).
  unfold compute_offer_current_price. by rewrite Hp.
Qed.

(** ** Quotes *)

Lemma stats_same_tvl o (m m' : MintAccount) e ms ms' w :
  fresh w m -> fresh w m' -> stats_of o m e w ms -> stats_of o m' e w ms' ->
  MarketStats.tvl ms = MarketStats.tvl ms'.
Proof using All.
  intros Hf Hf' [Hk _ (v & Hn & _) [Hc _] -> _ _] [Hk' _ (v' & Hn' & _) [Hc' _] -> _ _].
  rewrite Hc, Hc', (fresh_supply _ _ Hf), (fresh_supply _ _ Hf'). congruence.
Qed.

Lemma fresh_unique w (m m' : MintAccount) :
  fresh w m -> fresh w m' -> mint_key m = mint_key m' -> m = m'.
Proof. unfold fresh. destruct m, m'. cbn. intros H H' ->. rewrite H in H'. by injection H' as ->. Qed.

Lemma no_transfer_fees_pure mi mo u w w' :
  require_quote_mints_without_transfer_fees mi mo w = Ok (u, w') -> w' = w.
Proof. unfold require_quote_mints_without_transfer_fees. intros H. by inv_m. Qed.

(** The quote's amounts are those of a result with this net amount, fee and payout. *)
Definition quotes (q : SwapQuote) (net fee out : Z) : Prop :=
  sq_token_in_net_amount q = net /\ sq_token_in_fee_amount q = fee /\
  sq_token_out_amount q = out /\ sq_minimum_out q = out.

(** The accounts a quote reads. *)
Ltac inv_quote :=
  repeat match goal with
  | H : pair_account _ _ _ = Ok _ |- _ => apply pair_account_Ok in H as [-> ?]
  | H : require_quote_mints_without_transfer_fees _ _ _ = Ok _ |- _ =>
      apply no_transfer_fees_pure in H as ->
  | H : fresh ?w ?m, Hi : fresh ?w ?m', E : mint_key ?m = mint_key ?m' |- _ =>
      tryif unify m m' then fail else (apply (fresh_unique w m m' H Hi) in E; subst m)
  end.

Lemma quote_buy_Ok k pk ki ko amount q w w' o s mi mo :
  quote_swap_buy k pk ki ko amount w = Ok (q, w') ->
  offers w !! k = Some o -> prop_amm_pairs w !! pk = Some s ->
  fresh w mi -> mint_key mi = ki -> fresh w mo -> mint_key mo = ko ->
  exists res, process_offer_core o amount mi mo (Offer.permissionless_fee_basis_points o) w = Ok (res, w) /\
    quotes q (opr_token_in_net_amount res) (opr_token_in_fee_amount res) (opr_token_out_amount res).
Proof using All.
  unfold quote_swap_buy, QuoteSwapBuy_accounts, build_swap_buy_quote, Clock_get. intros H Ho Hs Hi Eki Hm Ekm. inv_m. inv_accounts.
  inv_quote.
  match goal with H : process_offer_core _ _ _ _ _ _ = Ok (?res, _) |- _ => exists res end.
  simplify_eq. split; [|done].
  match goal with H : process_offer_core _ _ _ _ _ _ = Ok (?res, ?v) |- _ =>
    enough (v = w) as -> by exact H; unfold process_offer_core, Clock_get in H; by inv_m end.
Qed.

Lemma quote_sell_Ok k pk rk vk ki ko tp mk amount q w w' o s mi mo :
  quote_swap_sell k pk rk vk ki ko tp mk amount w = Ok (q, w') ->
  offers w !! k = Some o -> prop_amm_pairs w !! pk = Some s ->
  fresh w mi -> mint_key mi = ki -> fresh w mo -> mint_key mo = ko ->
  exists res out reserve,
    process_redemption_core o (timestamp_u64 (clock w)) amount mi mo (sell_fee w rk)
      (PropAmmPairState.minimum_sell_haircut_onyc s) = Ok res /\
    (forall ms, market_stats w = Loaded ms -> wall_reserve (balance (ledger w) vk) (sell_target w rk)
       (MarketStats.tvl ms) mi mo = Ok reserve) /\
    apply_hard_wall_liquidity_factor_at_time (rpr_token_out_amount res) (balance (ledger w) vk) reserve s
      (Clock.unix_timestamp (clock w)) = Ok out /\
    quotes q (rpr_token_in_net_amount res) (rpr_token_in_fee_amount res) out.
Proof using All.
  unfold quote_swap_sell, QuoteSwapSell_accounts, build_swap_sell_quote, validate_market_stats_pda, Clock_get.
  intros H Ho Hs Hi Eki Hm Ekm. inv_m. inv_accounts.
  inv_quote.
  match goal with H : sell_quote_liquidity_context _ _ _ _ _ _ _ = Ok (?c, _) |- _ =>
    apply liquidity_context_Ok in H as (-> & El & Ef & Er); rename c into lc end.
  match goal with H : TokenAccount.amount _ = balance _ _ |- _ => rewrite H in *; clear H end.
  match goal with H : sell_payout _ _ _ _ _ _ _ _ _ = Ok ((?res, ?out), _) |- _ =>
    apply sell_payout_Ok in H as (-> & Hr & Hw); exists res, out, (slc_hard_wall_reserve lc) end.
  rewrite El, Ef in *. simplify_eq. done.
Qed.

(** C30: a swap pays what was quoted.  In the same state, a buy is charged and paid
    exactly what [quote_swap_buy] answers, so the quoted minimum is the payout; and
    right after a [refresh_market_stats] the same holds of a sell and
    [quote_swap_sell], hard wall, volume and haircuts included. *)
Theorem swap_quotes_honoured w :
  typed w ->
  (forall ctx amount m q v u w', 0 <= amount <= u64.MAX ->
     quote_swap_buy (sb_offer ctx) (sb_prop_amm_pair_state ctx) (sb_token_in_mint ctx)
       (sb_token_out_mint ctx) amount w = Ok (q, v) ->
     open_swap_buy ctx amount m w = Ok (u, w') ->
     exists o s s' mi mo res refill r,
       bought ctx amount m o s s' mi mo res refill r w w' /\
       quotes q (opr_token_in_net_amount res) (opr_token_in_fee_amount res) (opr_token_out_amount res)) /\
  (forall w0 refresh ctx amount m q v u w', 0 <= amount <= u64.MAX ->
     refresh_market_stats refresh w0 = Ok (tt, w) ->
     quote_swap_sell (ss_offer ctx) (ss_prop_amm_pair_state ctx) (ss_redemption_offer ctx)
       (ss_redemption_vault_token_out_account ctx) (ss_token_in_mint ctx) (ss_token_out_mint ctx)
       (ss_token_out_program ctx) (sa_market_stats (ss_supply ctx)) amount w = Ok (q, v) ->
     open_swap_sell ctx amount m w = Ok (u, w') ->
     exists o s s' mi mo res out reserve r,
       sold ctx amount m o s s' mi mo res out reserve r w w' /\
       quotes q (rpr_token_in_net_amount res) (rpr_token_in_fee_amount res) out).
Proof using All.
  intros Hty. split.
  - intros ctx amount m q v u w' Ha Hq H.
    apply open_swap_buy_Ok in H as (o & s & s' & mi & mo & res & refill & r & Hc & Hb & Hp); [|done|lia].
    exists o, s, s', mi, mo, res, refill, r. split; [exact Hb|].
    destruct Hc as [_ [Ho _] [Hs _] (? & ? & ? & ? & _)].
    destruct (quote_buy_Ok _ _ _ _ _ _ _ _ o s mi mo Hq) as (res' & Hp' & Hq'); [done..|].
    rewrite Hp in Hp'. by injection Hp' as <-.
  - intros w0 rf ctx amount m q v u w' Ha Hrf Hq H.
    apply refresh_market_stats_Ok in Hrf as (o0 & m0 & ms0 & es & Ew & Ho0 & Hf0 & _ & Hst0).
    apply open_swap_sell_Ok in H as (o & s & s' & mi & mo & res & out & reserve & r & Hc & Hb); [|done|lia].
    exists o, s, s', mi, mo, res, out, reserve, r. split; [exact Hb|].
    destruct Hc as [_ [Ho _] [Hs _] (? & ? & ? & ?) _ (mof & ms & Hmof & Hst & Hres)].
    destruct (quote_sell_Ok _ _ _ _ _ _ _ _ _ _ _ _ o s mi mo Hq)
      as (res' & out' & reserve' & Hp & Hres' & Hout & Hq'); [done..|].
    rewrite (sl_redemption _ _ _ _ _ _ _ _ _ _ _ _ _ _ Hb) in Hp. injection Hp as <-.
    assert (MarketStats.tvl ms0 = MarketStats.tvl ms) as Et.
    { subst w. cbn in Hmof. rewrite Ho0 in Hmof. injection Hmof as <-.
      apply (stats_same_tvl o0 m0 mi (excluded_amount w0) ms0 ms w0); try done. by destruct Hst; split. }
    specialize (Hres' ms0 ltac:(by subst w)). rewrite Et, Hres in Hres'. injection Hres' as <-.
    rewrite (sl_payout _ _ _ _ _ _ _ _ _ _ _ _ _ _ Hb) in Hout. by injection Hout as <-.
Qed.

(** ** Excluded balances *)

Lemma anchor_account_Ok {T} `{PdaSlot L T} v w w' :
  anchor_account (T := T) w = Ok (v, w') -> slot_get w = Loaded v /\ w' = w.
Proof. unfold anchor_account. intros Ha. inv_m. by destruct (slot_get w); inv_m. Qed.

Definition owners_unique w : Prop := forall e, excluded_accounts w = Loaded e -> forall i j o,
  CirculatingSupplyExcludedAccounts.owners e !! i = Some o ->
  CirculatingSupplyExcludedAccounts.owners e !! j = Some o -> o <> Pubkey_default -> i = j.

(** The excluded balance ([update_circulating_supply_excluded_balance]) is the
    sum of the ONyc balances of the registered owners' associated accounts, all of
    them and each in its place; nothing else changes. *)
Theorem excluded_balance_correct onyc tp signer accounts u w w' :
  update_circulating_supply_excluded_balance onyc tp signer accounts w = Ok (u, w') ->
  exists e, excluded_accounts w = Loaded e /\ onyc = State.onyc_mint (state w) /\
    accounts = map (fun o => associated_token_address o onyc tp) (active_owners e) /\
    excluded_amount w' = owners_balance w onyc tp (active_owners e) /\
    exists es b, w' = set_events es (set_excluded_balance b w).
Proof using All.
  unfold update_circulating_supply_excluded_balance, has_one_onyc_mint, store_pda_account, Clock_get.
  intros H. inv_m. inv_accounts.
  match goal with H : anchor_account _ = Ok (?e, _) |- _ => apply anchor_account_Ok in H as [He ->]; exists e end.
  match goal with H : (_ =? _)%nat = true |- _ => apply Nat.eqb_eq in H as Hlen end.
  match goal with H : sum_excluded _ _ _ _ _ = Ok _ |- _ =>
    apply sum_excluded_Ok in H as (-> & -> & Hacc); [|done] end.
  match goal with H : anchor_init_if_needed _ _ _ _ = Ok _ |- _ =>
    apply anchor_init_Ok_inv in H as [[_ ->] | (_ & _ & ->)] end;
    (split; [done|]; split; [congruence|]; split; [done|]; split; [cbn; done|];
     do 2 eexists; reflexivity).
Qed.

Lemma owners_unique_same w w' : same excluded_accounts w w' -> owners_unique w -> owners_unique w'.
Proof. unfold same, owners_unique. by intros ->. Qed.

Lemma owners_unique_exec tx i w w' :
  owners_unique w -> exec tx i w = Ok (tt, w') -> owners_unique w'.
Proof using All.
  intros Hw H. destruct i; cbn [exec] in H;
    try (eapply owners_unique_same; [|exact Hw]; refine ((_ : within (same excluded_accounts) _) _ _ _ H);
         clear; within ltac:(reflexivity); fail).
  unfold set_circulating_supply_excluded_accounts, store_pda_account in H. inv_m. intros e He. cbn in He.
  injection He as <-. intros i j o Hi Hj Ho.
  match goal with H : validate_unique_non_default_owners _ = Ok _ |- _ =>
    by destruct (validate_unique_Ok _ _ _ H i j o Hi Hj Ho) end.
Qed.

(** The registry of excluded owners holds every owner at most once, in every
    state the program reaches from one where it does, so that no balance is
    excluded twice. *)
Theorem excluded_owners_unique w w' : owners_unique w -> rtc step w w' -> owners_unique w'.
Proof using All.
  intros Hw Hs. induction Hs as [|w w1 w2 Hs _ IH]; [done|]. apply IH.
  destruct Hs as [tx i w1 H|c l]; [by eapply owners_unique_exec|]. by apply (owners_unique_same w).
Qed.

(** ** Vaults *)

Lemma vault_account_Ok k v w w' :
  vault_account k w = Ok (v, w') ->
  w' = w /\ vaults w !! vault_key k = Some (Some v) /\
  ConfigurableVault.kind v = ConfigurableVaultKind.as_u8 k.
Proof.
  unfold vault_account, load_vault. intros H. inv_m. inv_res. naive_solver.
Qed.

(** C33: withdrawing from a configurable vault ([withdraw_configurable_vault]), which
    anybody may do in a live program: the tokens - the asked amount, or everything
    for 0 - go from the vault's own token account to the token account of the
    destination the boss configured, and nowhere else. *)
Theorem withdraw_configurable_vault_correct k va d da mint tp amount u w w' :
  withdraw_configurable_vault k va d da mint tp amount w = Ok (u, w') ->
  exists v x, State.is_killed (state w) = false /\ vaults w !! vault_key k = Some (Some v) /\
    d = ConfigurableVault.withdrawal_destination v /\ d <> Pubkey_default /\
    va = associated_token_address (vault_key k) mint tp /\ da = associated_token_address d mint tp /\
    x = (if amount =? 0 then balance (ledger w) va else amount) /\
    0 < x <= balance (ledger w) va /\
    (forall j, balance (ledger w') j
       = balance (ledger w) j - delta (key_eqb j va) x + delta (key_eqb j da) x) /\
    (forall j, supply_of (ledger w') j = supply_of (ledger w) j) /\
    exists l es, w' = set_events es (set_ledger l w).
Proof using All.
  unfold withdraw_configurable_vault, not_killed. cbv zeta. intros H. inv_m. inv_accounts.
  match goal with H : vault_account _ _ = Ok _ |- _ => apply vault_account_Ok in H as (-> & Hv & _) end.
  match goal with H : init_if_needed_ata _ _ _ _ _ = Ok _ |- _ =>
    pose proof H as Hq; apply init_if_needed_ata_Ok in Hq as [Hq Hd];
    frame_call (@vaults L) H end.
  match goal with H : transfer_tokens _ _ _ _ _ _ _ = Ok _ |- _ => apply transfer_tokens_moves in H as [[Hw Hb Hs] _] end.
  match goal with H : TokenAccount.amount _ = balance _ _ |- _ => rewrite H in * end.
  destruct Hw as (l2 & es2 & ->).
  destruct Hq as (l1 & vs & -> & Hbq & Hmq). cbn in *. subst vs.
  exists x1, (if amount =? 0 then balance (ledger w) va else amount).
  repeat match goal with H : (_ <? _) = true |- _ => apply Z.ltb_lt in H
    | H : (_ <=? _) = true |- _ => apply Z.leb_le in H end.
  match goal with H : key_eqb _ Pubkey_default = false |- _ => apply key_eqb_neq in H end.
  split; [done|]. split; [done|]. split; [done|]. split; [congruence|]. split; [done|]. split; [done|].
  split; [done|]. split; [done|]. split; [intros j; rewrite Hb, Hbq; lia|].
  split; [intros j; rewrite Hs; unfold supply_of; rewrite Hmq; lia|].
  do 2 eexists. by destruct w.
Qed.

(** ** Minting *)

Lemma accrue_if_before_mint st (c : bool) a o m tp :
  (if c then r ← accrue_buffer_from_accounts st a o m mint_authority_key tp; mret (Some r) else mret None)
  = accrue_before_mint (L := L) st c a (Some o) m tp.
Proof. by destruct c. Qed.

(** What minting [amount] ONyc to the boss does. *)
Record minted (ctx : BufferCtx) (account : Pubkey) (amount : Z) (o : Offer.t) (mo : MintAccount)
    (r : option BufferAccrualResult) w w' : Prop := {
  mt_boss : State.boss (state w) = bc_signer ctx /\ State.is_killed (state w) = false;
  mt_mint : fresh w mo /\ mint_key mo = State.onyc_mint (state w) /\
    Mint.mint_authority (mint_data mo) = Some mint_authority_key;
  mt_account : account = associated_token_address (bc_signer ctx) (mint_key mo) (bc_token_program ctx);
  mt_offer : offers w !! State.main_offer (state w) = Some o;
  mt_balance k : balance (ledger w') k = balance (ledger w) k
    + accrual_balance (bc_buffer_accounts ctx) r k + delta (key_eqb k account) amount;
  mt_supply k : supply_of (ledger w') k = supply_of (ledger w) k
    + delta (key_eqb k (mint_key mo)) (accrual_minted r + amount);
  mt_caps : (0 < State.max_mint_amount (state w) -> amount <= State.max_mint_amount (state w)) /\
    (0 < State.max_supply (state w) ->
       supply_of (ledger w) (mint_key mo) + accrual_minted r + amount <= State.max_supply (state w));
  mt_accrual : (accrues w mo <-> r <> None) /\ 0 <= accrual_minted r /\
    forall k, 0 <= accrual_balance (bc_buffer_accounts ctx) r k;
  mt_accrued x : r = Some x ->
    accrued_now o (mint_key mo) (bc_token_program ctx) (bc_buffer_accounts ctx) x w;
  mt_baseline : accrues w mo -> baseline_current (mint_key mo) w';
  mt_stats : stats_current o (mint_key mo) w'
}.

(** The mint bracketed by the accrual and the stored baseline. *)
Lemma mint_around st c a o (m m1 m2 : MintAccount) auth tp account amount cap maxm e ek mk payer u1 u2 u3 r
    w w1 w2 w3 w4 w5 w6 :
  typed w -> vectors_unsigned o -> fresh w m ->
  accrue_before_mint st c a (Some o) m tp w = Ok (r, w1) ->
  (match r with Some _ => reload m | None => mret m end) w1 = Ok (m1, w2) ->
  mint_tokens tp m1 account auth amount cap maxm w2 = Ok (u1, w3) ->
  store_post_offer_supply r amount e w3 = Ok (u2, w4) ->
  reload m1 w4 = Ok (m2, w5) -> refresh_market_stats_pda o m2 ek mk payer w5 = Ok (u3, w6) ->
  bracketed a tp m r (fun k => delta (key_eqb k account) amount)
    (fun k => delta (key_eqb k (mint_key m)) amount) true (Some o) w w6 /\
  (c = true <-> r <> None) /\ (0 < maxm -> amount <= maxm) /\
  (0 < cap -> supply_of (ledger w) (mint_key m) + accrual_minted r + amount <= cap).
Proof using All.
  intros Hty Ho Hf Ha Hr Hm Hst Hr2 Href.
  pose proof (accrue_same_mints _ _ _ _ _ _ _ _ _ Ha) as Hsame.
  assert (Hnone : r = None -> w1 = w) by
    (intros ->; unfold accrue_before_mint in Ha; destruct c; by inv_m).
  apply accrue_before_mint_Ok in Ha as [Hstep Hc]; [|done|naive_solver|done].
  apply (reload_after_accrual _ m1 r auth) with (w := w) in Hr as (-> & Hf1 & Hk1 & _); [|done..].
  apply mint_tokens_moves in Hm as (Hmv & _ & Hmax & Hcap).
  apply store_post_offer_Ok in Hst. pose proof (refresh_Ok _ _ _ _ _ _ _ _ _ _ Hr2 Href) as [Hs [ms ->]].
  rewrite Hk1 in *. rewrite (fresh_supply _ _ Hf1), Hk1 in Hcap.
  rewrite (as_supply _ _ _ _ _ _ _ Hstep), key_eqb_refl in Hcap. cbn in Hcap.
  split; [|by repeat split; auto; apply Hc].
  eapply (bracket a tp m r amount _ _ true (Some o)); [exact Hstep|by apply moves_pair| |exact Hst|].
  - intros _. by rewrite key_eqb_refl.
  - split; [by eexists|]. intros _. by exists o.
Qed.

(** C24: minting ONyc ([mint_to]).  Only the boss of a live program mints, to its own
    account, exactly the amount asked for and within the mint and supply caps.  A
    BUFFER accrues first exactly when it is initialized (and the program controls the
    mint): it mints what it is due at the clock by the main offer to its own vaults.
    No other balance or supply changes, and afterwards the BUFFER's baseline and the
    market stats record the mint's actual supply. *)
Theorem mint_to_correct ctx account amount u w w' :
  typed w -> mint_to ctx account amount w = Ok (u, w') ->
  exists o mo r, minted ctx account amount o mo r w w'.
Proof using All.
  intros Hty H. unfold mint_to, MintTo_accounts, has_one_boss, has_one_onyc_mint, not_killed in H.
  inv_m. repeat match goal with H : context [if should_accrue_onyc_mint _ _ _ _ then _ else _] |- _ =>
    rewrite accrue_if_before_mint in H end. inv_res. inv_accounts. inv_take.
  match goal with H : init_if_needed_ata _ _ _ _ _ = Ok _ |- _ =>
    apply init_if_needed_ata_Ok in H as [Hq ->] end.
  pose proof (quiet_same _ _ Hq) as (_ & Est & Eof & _ & _ & _ & Ebuf & _). rewrite Est in *.
  match goal with H : load_main_offer _ _ _ = Ok _ |- _ =>
    apply load_main_offer_Ok in H as (-> & Ek & Hof) end. rewrite Eof, Ek in Hof.
  match goal with Ha : accrue_before_mint _ _ _ (Some ?o) ?m _ _ = Ok (?r, _) |- _ =>
    exists o, m, r; eapply mint_around in Ha as ([Hw Hb Hs Hmin Hex Hbase Hst] & Hc & Hmax & Hcap);
    [|by eapply quiet_typed|by eapply typed_offer|by eapply quiet_fresh|eassumption..] end.
  rewrite Ebuf in *.
  rewrite should_accrue_accrues in Hc by done. rewrite (quiet_supply _ _ _ Hq) in Hcap.
  destruct (Hst eq_refl) as (o' & [= <-] & Hcur).
  split; cbn [ledger set_events]; auto; try congruence.
  - repeat split; congruence.
  - intros k. by rewrite Hb, (quiet_balance _ _ _ Hq).
  - intros k. rewrite Hs, (quiet_supply _ _ _ Hq). unfold delta. repeat case_match; lia.
  - intros y Hy. destruct (Hex y Hy) as (? & [= <-] & Hnow). by eapply quiet_accrued.
  - intros Ha. destruct (Hbase (proj1 Hc Ha)). by split.
  - destruct Hcur. by split.
Qed.
End views.

(** ** Witnesses *)

Module Viewed.
Definition refresh : RefreshMarketStats :=
  mkRefreshMarketStats Sample.offer_key Sample.usdc Sample.onyc
    (pda [seeds.CIRCULATING_SUPPLY_EXCLUDED_BALANCE]) (pda [seeds.MARKET_STATS]) Sample.user.
(** The deployment with two excluded owners. *)
Definition owners : list Pubkey :=
  Sample.boss :: Sample.user :: replicate 18 Pubkey_default.
Definition excluding : World SampleLedger.t :=
  Sample.after (set_circulating_supply_excluded_accounts Sample.boss owners) Sample.world.
Definition accounts : list Pubkey :=
  [Sample.ata Sample.boss Sample.onyc; Sample.ata Sample.user Sample.onyc].
Definition fees : Pubkey := Sample.vault ConfigurableVaultKind.ManagementFee.
Definition refreshed : World SampleLedger.t :=
  Sample.after (refresh_market_stats refresh) Sample.world.
(** The deployment with a pair and current market stats, and its quotes. *)
Definition swapping : World SampleLedger.t :=
  Sample.after (refresh_market_stats refresh) Swap.world.
Definition quote_buy : M SampleLedger.t SwapQuote :=
  quote_swap_buy (sb_offer Swap.buy) (sb_prop_amm_pair_state Swap.buy) (sb_token_in_mint Swap.buy)
    (sb_token_out_mint Swap.buy) 1000000000.
Definition quote_sell : M SampleLedger.t SwapQuote :=
  quote_swap_sell (ss_offer Swap.sell) (ss_prop_amm_pair_state Swap.sell)
    (ss_redemption_offer Swap.sell) (ss_redemption_vault_token_out_account Swap.sell)
    (ss_token_in_mint Swap.sell) (ss_token_out_mint Swap.sell) (ss_token_out_program Swap.sell)
    (sa_market_stats (ss_supply Swap.sell)) 1000000000.
End Viewed.

Example refresh_runs : is_ok (refresh_market_stats Viewed.refresh Sample.world) = true.
Proof. vm_compute. reflexivity. Qed.
Example tvl_runs : is_ok (get_tvl_v2 Sample.offer_key Sample.usdc Sample.onyc
    (pda [seeds.CIRCULATING_SUPPLY_EXCLUDED_BALANCE]) Viewed.refreshed) = true.
Proof. vm_compute. reflexivity. Qed.
Example excluding_runs :
  is_ok (set_circulating_supply_excluded_accounts Sample.boss Viewed.owners Sample.world) = true.
Proof. vm_compute. reflexivity. Qed.
Example balance_runs :
  is_ok (update_circulating_supply_excluded_balance Sample.onyc spl_token_id Sample.user
    Viewed.accounts Viewed.excluding) = true.
Proof. vm_compute. reflexivity. Qed.
Example withdraw_runs :
  is_ok (withdraw_configurable_vault ConfigurableVaultKind.ManagementFee
    (Sample.ata Viewed.fees Sample.onyc) Sample.user (Sample.ata Sample.user Sample.onyc) Sample.onyc
    spl_token_id 0 settled) = true.
Proof. vm_compute. reflexivity. Qed.
Example swapping_runs : is_ok (refresh_market_stats Viewed.refresh Swap.world) = true.
Proof. vm_compute. reflexivity. Qed.
Example quotes_run : is_ok (Viewed.quote_buy Viewed.swapping) = true /\
  is_ok (Viewed.quote_sell Viewed.swapping) = true.
Proof. vm_compute. split; reflexivity. Qed.
Example swaps_run : is_ok (open_swap_buy Swap.buy 1000000000 1 Viewed.swapping) = true /\
  is_ok (open_swap_sell Swap.sell 1000000000 1 Viewed.swapping) = true.
Proof. vm_compute. split; reflexivity. Qed.
Lemma swapping_typed : typed Viewed.swapping.
Proof.
  apply (typed_exec (mkInstructionsSysvar 0 []) (RefreshMarketStatsIx Viewed.refresh) Swap.world);
    [exact swap_typed|done|]. exact (after_Ok _ _ swapping_runs).
Qed.
Lemma is_ok_Ok {E A} (r : result E A) : is_ok r = true -> exists x, r = Ok x.
Proof. destruct r; [eauto|done]. Qed.
Example mint_runs :
  is_ok (mint_to (Sample.buffer_ctx Sample.boss) (Sample.ata Sample.boss Sample.onyc) 5000000000
    Sample.world) = true.
Proof. vm_compute. reflexivity. Qed.

Lemma views_agree_with_stats_witness :
  exists ms x v, market_stats Viewed.refreshed = Loaded ms /\
    get_tvl_v2 Sample.offer_key Sample.usdc Sample.onyc
      (pda [seeds.CIRCULATING_SUPPLY_EXCLUDED_BALANCE]) Viewed.refreshed = Ok (x, v) /\
    x = MarketStats.tvl ms.
Proof.
  destruct (views_agree_with_stats Viewed.refresh Sample.world Viewed.refreshed
    (after_Ok _ _ refresh_runs)) as (ms & Hms & _ & _ & _ & Ht & _).
  pose proof tvl_runs as E. unfold is_ok in E.
  destruct (get_tvl_v2 _ _ _ _ _) as [[x v]|] eqn:E'; [clear E; rename E' into E|discriminate E]. exists ms, x, v. split; [exact Hms|]. split; [reflexivity|].
  exact (Ht _ _ _ _ E).
Defined.

Lemma next_price_change_correct_witness : exists s,
  get_offer_valuation_snapshot sample_offer 250 = Ok s /\
  250 < ovs_next_price_change_timestamp s /\
  compute_offer_current_price sample_offer 255 = Ok (ovs_current_price s).
Proof.
  destruct (get_offer_valuation_snapshot sample_offer 250) as [s|e] eqn:E;
    [|vm_compute in E; discriminate E].
  exists s. split; [done|].
  destruct (next_price_change_correct sample_offer 250 s sample_offer_wf
    ltac:(vm_compute; split; discriminate) E) as [Hn Hp].
  split; [exact Hn|]. apply Hp. vm_compute in E. injection E as <-. vm_compute. split; [discriminate|done].
Defined.

Lemma excluded_balance_correct_witness :
  excluded_amount (Sample.after (update_circulating_supply_excluded_balance Sample.onyc spl_token_id
    Sample.user Viewed.accounts) Viewed.excluding)
  = balance Sample.ledger (Sample.ata Sample.boss Sample.onyc)
    + balance Sample.ledger (Sample.ata Sample.user Sample.onyc).
Proof.
  destruct (excluded_balance_correct Sample.onyc spl_token_id Sample.user Viewed.accounts tt
    Viewed.excluding _ (after_Ok _ _ balance_runs)) as (e & He & _ & _ & -> & _).
  vm_compute in He. injection He as <-. vm_compute. reflexivity.
Defined.

Lemma excluded_owners_unique_witness : owners_unique Viewed.excluding.
Proof.
  refine (excluded_owners_unique Sample.world Viewed.excluding _ (rtc_once _ _ (step_exec _
    (mkInstructionsSysvar 0 []) (SetExcludedAccounts Sample.boss Viewed.owners) _
    (after_Ok _ _ excluding_runs)))).
  intros e He. discriminate He.
Defined.

Lemma withdraw_configurable_vault_correct_witness :
  let w' := Sample.after (withdraw_configurable_vault ConfigurableVaultKind.ManagementFee
    (Sample.ata Viewed.fees Sample.onyc) Sample.user (Sample.ata Sample.user Sample.onyc) Sample.onyc
    spl_token_id 0) settled in
  exists x, 0 < x /\ balance (ledger w') (Sample.ata Sample.user Sample.onyc)
    = balance (ledger settled) (Sample.ata Sample.user Sample.onyc) + x.
Proof.
  destruct (withdraw_configurable_vault_correct ConfigurableVaultKind.ManagementFee
    (Sample.ata Viewed.fees Sample.onyc) Sample.user (Sample.ata Sample.user Sample.onyc) Sample.onyc
    spl_token_id 0 tt settled _ (after_Ok _ _ withdraw_runs))
    as (v & x & _ & _ & _ & _ & _ & _ & _ & [Hx _] & Hb & _).
  exists x. split; [exact Hx|]. rewrite Hb. unfold delta.
  assert (key_eqb (Sample.ata Sample.user Sample.onyc) (Sample.ata Viewed.fees Sample.onyc) = false) as ->
    by (vm_compute; reflexivity).
  assert (key_eqb (Sample.ata Sample.user Sample.onyc) (Sample.ata Sample.user Sample.onyc) = true) as ->
    by (vm_compute; reflexivity). lia.
Defined.

Lemma mint_to_correct_witness : exists o mo r,
  minted (Sample.buffer_ctx Sample.boss) (Sample.ata Sample.boss Sample.onyc) 5000000000 o mo r
    Sample.world (Sample.after (mint_to (Sample.buffer_ctx Sample.boss)
      (Sample.ata Sample.boss Sample.onyc) 5000000000) Sample.world).
Proof.
  exact (mint_to_correct (Sample.buffer_ctx Sample.boss) (Sample.ata Sample.boss Sample.onyc) 5000000000
    tt Sample.world _ sample_typed (after_Ok _ _ mint_runs)).
Defined.

Lemma swap_quotes_honoured_witness :
  (exists q v o s s' mi mo res refill r, Viewed.quote_buy Viewed.swapping = Ok (q, v) /\
     bought Swap.buy 1000000000 1 o s s' mi mo res refill r Viewed.swapping
       (Sample.after (open_swap_buy Swap.buy 1000000000 1) Viewed.swapping) /\
     quotes q (opr_token_in_net_amount res) (opr_token_in_fee_amount res) (opr_token_out_amount res)) /\
  (exists q v o s s' mi mo res out reserve r, Viewed.quote_sell Viewed.swapping = Ok (q, v) /\
     sold Swap.sell 1000000000 1 o s s' mi mo res out reserve r Viewed.swapping
       (Sample.after (open_swap_sell Swap.sell 1000000000 1) Viewed.swapping) /\
     quotes q (rpr_token_in_net_amount res) (rpr_token_in_fee_amount res) out).
Proof.
  destruct (swap_quotes_honoured Viewed.swapping swapping_typed) as [Hb Hs].
  assert (Ha : 0 <= 1000000000 <= u64.MAX) by (split; [lia|vm_compute; discriminate]).
  split.
  - destruct (is_ok_Ok _ (proj1 quotes_run)) as [[q v] E].
    destruct (Hb Swap.buy 1000000000 1 q v tt _ Ha E (after_Ok _ _ (proj1 swaps_run)))
      as (o & s & s' & mi & mo & res & refill & r & H).
    exists q, v, o, s, s', mi, mo, res, refill, r. exact (conj E H).
  - destruct (is_ok_Ok _ (proj2 quotes_run)) as [[q v] E].
    destruct (Hs Swap.world Viewed.refresh Swap.sell 1000000000 1 q v tt _ Ha (after_Ok _ _ swapping_runs) E
      (after_Ok _ _ (proj2 swaps_run))) as (o & s & s' & mi & mo & res & out & reserve & r & H).
    exists q, v, o, s, s', mi, mo, res, out, reserve, r. exact (conj E H).
Defined.
