(* ===== verification/VaultFacts.v ===== *)
(** * Deposits into and withdrawals from the vaults

    [src/instructions/vault_operations/]: what the four instructions do to every
    balance, and what they leave alone. *)

From S2P Require Import World MathUtils TokenUtils OfferPricing OfferHandlers MarketInfo Buffer Vaults Frames Samples MarketFacts BufferFacts AccountFacts.
Open Scope Z_scope.

Section vaults.
Context {R : Runtime} {L : Type} {TL : TokenLedger L} {TLL : TokenLedgerLaws L}.
Implicit Types w : World L.

(** [x] moved between two token accounts and nothing else happened. *)
Record moved w w' (from to : Pubkey) (x : Z) : Prop := {
  mv_balance k : balance (ledger w') k
    = balance (ledger w) k - delta (key_eqb k from) x + delta (key_eqb k to) x;
  mv_supply k : supply_of (ledger w') k = supply_of (ledger w) k;
  mv_enough : x <= balance (ledger w) from;
  mv_world : exists l es, w' = set_events es (set_ledger l w)
}.

(** A transfer after accounts were created, and before an event. *)
Lemma moved_after w w1 w2 w3 mint tp from to auth x u1 u2 name fs k a m p u :
  init_if_needed_ata k a m p w = Ok (u, w1) ->
  transfer_tokens mint tp from to auth x w1 = Ok (u1, w2) ->
  emit name fs w2 = Ok (u2, w3) -> moved w w3 from to x.
Proof using All.
  intros Hi Ht He. pose proof Hi as Hq. apply init_if_needed_ata_Ok in Hq as [Hq _].
  frame_call (@vaults L) Hi. apply transfer_tokens_moves in Ht as [[Hw Hb Hs] Hx]. inv_m.
  destruct Hw as (l2 & es2 & ->). destruct Hq as (l1 & vs & -> & Hbq & Hmq). cbn in *. subst vs.
  split; cbn.
  - intros j. rewrite Hb, Hbq. lia.
  - intros j. rewrite Hs. unfold supply_of. rewrite Hmq. lia.
  - by rewrite <- Hbq.
  - do 2 eexists. by destruct w.
Qed.

Lemma deposit_Ok ev authority ctx amount u w w' :
  vault_deposit ev authority ctx amount w = Ok (u, w') ->
  State.is_killed (state w) = false /\
  vt_signer_account ctx = associated_token_address (vt_signer ctx) (vt_mint ctx) (vt_token_program ctx) /\
  vt_vault_account ctx = associated_token_address authority (vt_mint ctx) (vt_token_program ctx) /\
  moved w w' (vt_signer_account ctx) (vt_vault_account ctx) amount.
Proof using All.
  unfold vault_deposit, not_killed. intros H. inv_m. inv_accounts.
  match goal with Hi : init_if_needed_ata _ _ _ _ _ = Ok _ |- _ =>
    pose proof (proj2 (init_if_needed_ata_Ok _ _ _ _ _ _ _ Hi)) end.
  split_and!; try done. eapply moved_after; [done..|]. unfold emit, modify. reflexivity.
Qed.

Lemma withdraw_Ok ev authority ctx amount u w w' :
  vault_withdraw ev authority ctx amount w = Ok (u, w') ->
  State.is_killed (state w) = false /\ vt_signer ctx = State.boss (state w) /\
  vt_signer_account ctx = associated_token_address (vt_signer ctx) (vt_mint ctx) (vt_token_program ctx) /\
  vt_vault_account ctx = associated_token_address authority (vt_mint ctx) (vt_token_program ctx) /\
  moved w w' (vt_vault_account ctx) (vt_signer_account ctx) amount.
Proof using All.
  unfold vault_withdraw, not_killed, has_one_boss. intros H. inv_m. inv_accounts.
  match goal with Hi : init_if_needed_ata _ _ _ _ _ = Ok _ |- _ =>
    pose proof Hi as Hq; apply init_if_needed_ata_Ok in Hq as [Hq ?];
    pose proof (quiet_same _ _ Hq) as (_ & Est & _) end.
  rewrite Est in *. split_and!; try done. eapply moved_after; [done..|]. unfold emit, modify. reflexivity.
Qed.

(** C25: the vault instructions.  A deposit into the vault of [authority] (the offer
    vault and the redemption vault alike), which anybody may make in a live
    program, moves exactly the amount from the depositor's own token account to
    the vault's; a withdrawal, which only the boss may make, moves exactly the
    amount from the vault's token account to the boss's own; no other balance, no
    supply and no account of the program changes. *)
Theorem vault_transfers_correct ev authority ctx amount u w w' :
  let signer_account := associated_token_address (vt_signer ctx) (vt_mint ctx) (vt_token_program ctx) in
  let vault_account := associated_token_address authority (vt_mint ctx) (vt_token_program ctx) in
  (vault_deposit ev authority ctx amount w = Ok (u, w') ->
     State.is_killed (state w) = false /\ moved w w' signer_account vault_account amount) /\
  (vault_withdraw ev authority ctx amount w = Ok (u, w') ->
     State.is_killed (state w) = false /\ vt_signer ctx = State.boss (state w) /\
     moved w w' vault_account signer_account amount).
Proof using All.
  split; intros H; [apply deposit_Ok in H as (? & <- & <- & ?)|apply withdraw_Ok in H as (? & ? & <- & <- & ?)];
    done.
Qed.
End vaults.

(** ** Witness: a user deposits USDC into the offer vault *)

Module Deposit.
Definition ctx : VaultTransfer :=
  mkVaultTransfer Sample.user Sample.usdc (Sample.ata Sample.user Sample.usdc)
    (Sample.ata Sample.offer_vault Sample.usdc) spl_token_id.
End Deposit.

Example deposit_runs : is_ok (offer_vault_deposit Deposit.ctx 1000 Sample.world) = true.
Proof. vm_compute. reflexivity. Qed.

Lemma vault_transfers_correct_witness :
  moved Sample.world (Sample.after (offer_vault_deposit Deposit.ctx 1000) Sample.world)
    (Sample.ata Sample.user Sample.usdc) (Sample.ata Sample.offer_vault Sample.usdc) 1000.
Proof.
  exact (proj2 (proj1 (vault_transfers_correct "OfferVaultDepositEvent" Sample.offer_vault Deposit.ctx
    1000 tt Sample.world _) (after_Ok _ _ deposit_runs))).
Defined.
