(* ===== verification/VectorFacts.v ===== *)
(** * When a pricing vector is refused

    [add_offer_vector] accepts a vector exactly when its numbers are positive, it
    starts now or later and after every other vector, and a slot is free once old
    vectors are evicted; otherwise it fails with the error that names the first
    reason.  *)

From S2P Require Import Prelude Errors Accounts OfferPricing.
Open Scope Z_scope.

Section refusal.
Implicit Types (o : Offer.t) (new v w : OfferVector.t).

(** [v] is in use and starts by [now]. *)
Definition started o (now : Z) v : Prop :=
  live (Offer.vectors o) v /\ OfferVector.start_time v <= now.

(** The offer has room for a vector: an empty slot, or one that cleaning up empties -
    a vector that is neither in force nor the predecessor of the one in force. *)
Inductive room o (now : Z) new : Prop :=
| room_empty v : In v (Offer.vectors o) -> OfferVector.start_time v = 0 -> room o now new
| room_now : OfferVector.start_time new = now -> room o now new
| room_old u v w :
    started o now u -> started o now v -> started o now w ->
    OfferVector.start_time u < OfferVector.start_time v ->
    OfferVector.start_time v < OfferVector.start_time w -> room o now new.

(** The numbers of a vector that starts by no means in the past. *)
Record plausible (now : Z) new : Prop := {
  pl_future : now <= OfferVector.start_time new;
  pl_base_time : 0 < OfferVector.base_time new;
  pl_base_price : 0 < OfferVector.base_price new;
  pl_duration : 0 < OfferVector.price_fix_duration new
}.

(** It starts after every vector in use. *)
Definition latest o new : Prop := forall v, live (Offer.vectors o) v ->
  OfferVector.start_time v < OfferVector.start_time new.

(** Why a vector is refused, in the order of the checks. *)
Inductive refusal o (now : Z) new : OnreError.t -> Prop :=
| refuse_past : OfferVector.start_time new < now -> refusal o now new OnreError.StartTimeInPast
| refuse_zero : now <= OfferVector.start_time new ->
    OfferVector.base_time new <= 0 \/ OfferVector.base_price new <= 0 \/
    OfferVector.price_fix_duration new <= 0 -> refusal o now new OnreError.ZeroValue
| refuse_duplicate v : plausible now new -> live (Offer.vectors o) v ->
    OfferVector.start_time v = OfferVector.start_time new ->
    refusal o now new OnreError.DuplicateStartTime
| refuse_range v : plausible now new -> live (Offer.vectors o) v ->
    OfferVector.start_time new < OfferVector.start_time v ->
    (forall w, live (Offer.vectors o) w -> OfferVector.start_time w <> OfferVector.start_time new) ->
    refusal o now new OnreError.InvalidTimeRange
| refuse_full : plausible now new -> latest o new -> ~ room o now new ->
    refusal o now new OnreError.TooManyVectors.

Lemma existing_start_times_In o t :
  In t (existing_start_times o) <-> exists v, live (Offer.vectors o) v /\ OfferVector.start_time v = t.
Proof.
  unfold existing_start_times, live. rewrite in_map_iff. split.
  - intros (v & E & [Hin Hne]%filter_In). apply negb_true_iff, Z.eqb_neq in Hne. eauto.
  - intros (v & [Hin Hne] & E). exists v. split; [done|]. apply filter_In. split; [done|].
    by apply negb_true_iff, Z.eqb_neq.
Qed.

(** The checks of the arguments. *)
Lemma validate_inputs_decides o now new :
  match validate_inputs (OfferVector.start_time new) (OfferVector.base_time new)
          (OfferVector.base_price new) (OfferVector.price_fix_duration new) now o with
  | Ok _ => plausible now new /\ latest o new
  | Err e => exists x, e = Onre x /\ refusal o now new x /\ x <> OnreError.TooManyVectors
  end.
Proof.
  unfold validate_inputs.
  destruct (Z.leb_spec now (OfferVector.start_time new)) as [H1|H1]; cbn;
    [|by eexists; repeat split; [constructor|]].
  destruct (Z.ltb_spec 0 (OfferVector.base_time new)) as [H2|H2]; cbn;
    [|by eexists; repeat split; [constructor; auto|]].
  destruct (Z.ltb_spec 0 (OfferVector.base_price new)) as [H3|H3]; cbn;
    [|by eexists; repeat split; [constructor; auto|]].
  destruct (Z.ltb_spec 0 (OfferVector.price_fix_duration new)) as [H4|H4]; cbn;
    [|by eexists; repeat split; [constructor; auto|]].
  assert (Hp : plausible now new) by (by split).
  destruct (existsb _ _) eqn:E; cbn.
  - apply existsb_exists in E as (t & (v & Hv & <-)%existing_start_times_In & E).
    apply Z.eqb_eq in E. eexists. repeat split; [|done]. by eapply refuse_duplicate.
  - assert (Hnd : forall w, live (Offer.vectors o) w ->
      OfferVector.start_time w <> OfferVector.start_time new).
    { intros w Hw Ew. apply not_true_iff_false in E. apply E, existsb_exists.
      exists (OfferVector.start_time new). split; [|apply Z.eqb_refl].
      apply existing_start_times_In. eauto. }
    destruct (max_by_key id (existing_start_times o)) as [m|] eqn:Em; cbn.
    + apply max_by_key_Some in Em as [(v & Hv & <-)%existing_start_times_In Hm].
      destruct (Z.ltb_spec (OfferVector.start_time v) (OfferVector.start_time new)); cbn.
      * split; [done|]. intros w Hw.
        specialize (Hm (OfferVector.start_time w) ltac:(apply existing_start_times_In; eauto)).
        cbn in Hm. lia.
      * eexists. repeat split; [|done]. eapply refuse_range; eauto. specialize (Hnd v Hv). lia.
    + split; [done|]. intros w Hw. apply max_by_key_None in Em.
      assert (In (OfferVector.start_time w) (existing_start_times o)) as Hi
        by (apply existing_start_times_In; eauto). by rewrite Em in Hi.
Qed.

Lemma live_positive vs v : vectors_wf vs -> live vs v -> 0 < OfferVector.start_time v.
Proof.
  intros [_ _ Hs] [Hv Hne]. rewrite List.Forall_forall in Hs. by destruct (Hs v Hv) as [-> | [? _]].
Qed.

(** Cleaning up around an active vector [a] with predecessor [p]. *)
Lemma evicts_spec (a p : Z) v :
  evictable a p v = true <->
  OfferVector.start_time v <> 0 /\ OfferVector.start_time v <> a /\ OfferVector.start_time v <> p /\
  OfferVector.start_time v < a.
Proof.
  unfold evictable. rewrite !andb_true_iff, !negb_true_iff, !Z.eqb_neq, Z.ltb_lt. tauto.
Qed.

Definition has_empty (vs : list OfferVector.t) : Prop := exists v, In v vs /\ OfferVector.start_time v = 0.

Lemma has_empty_evict (e : OfferVector.t -> bool) vs :
  has_empty (map (fun v => if e v then OfferVector.default else v) vs) <->
  exists v, In v vs /\ (OfferVector.start_time v = 0 \/ e v = true).
Proof.
  unfold has_empty. split.
  - intros (x & (v & <- & Hv)%in_map_iff & H). exists v. split; [done|]. destruct (e v); auto.
  - intros (v & Hv & H). eexists. split; [by apply in_map|]. destruct (e v) eqn:E; [done|].
    by destruct H.
Qed.

Lemma has_empty_dec vs : has_empty vs \/ ~ has_empty vs.
Proof.
  destruct (position (fun v => OfferVector.start_time v =? 0) vs) eqn:E.
  - left. apply position_Some in E as (v & Hv & H0%Z.eqb_eq). exists v. split; [|done].
    apply In_lookup. eauto.
  - right. intros (v & Hv & H0%Z.eqb_eq). rewrite position_None in E. specialize (E v Hv). congruence.
Qed.

(** With two or more live vectors, one is not the predecessor. *)
Lemma two_slots vs (p : Z) : vectors_wf vs -> ~ has_empty vs ->
  exists v, In v vs /\ OfferVector.start_time v <> 0 /\ OfferVector.start_time v <> p.
Proof.
  intros [Hl Hu _] He. destruct vs as [|v0 [|v1 vs]]; try done.
  assert (Hne : forall v, In v (v0 :: v1 :: vs) -> OfferVector.start_time v <> 0)
    by (intros v Hv H0; apply He; by exists v).
  destruct (decide (OfferVector.start_time v0 = p)) as [E|E].
  - exists v1. split; [by right; left|]. split; [apply Hne; by right; left|]. intros E1.
    specialize (Hu 0%nat 1%nat v0 v1 eq_refl eq_refl ltac:(lia) (Hne _ (or_introl eq_refl))). done.
  - exists v0. split; [by left|]. split; [apply Hne; by left|done].
Qed.

(** The latest vector that starts before [a], as the source looks it up. *)
Definition predecessor o (a : Z) : Z :=
  match find_active_vector_at o (a - 1) with Ok v => OfferVector.start_time v | Err _ => 0 end.

Lemma predecessor_ge o a v : live (Offer.vectors o) v -> OfferVector.start_time v < a ->
  OfferVector.start_time v <= predecessor o a.
Proof.
  intros Hv Ha. unfold predecessor. destruct (find_active_vector_at o (a - 1)) as [p|] eqn:E.
  - apply find_active_Ok in E as (_ & _ & Hm). apply Hm; [done|lia].
  - apply find_active_Err in E as [_ E]. specialize (E v Hv). lia.
Qed.

Lemma predecessor_live o a v : live (Offer.vectors o) v -> OfferVector.start_time v < a ->
  exists p, live (Offer.vectors o) p /\ OfferVector.start_time p = predecessor o a /\
    OfferVector.start_time p < a.
Proof.
  intros Hv Ha. unfold predecessor. destruct (find_active_vector_at o (a - 1)) as [p|] eqn:E.
  - apply find_active_Ok in E as (Hp & Hle & _). exists p. split; [done|]. split; [done|lia].
  - apply find_active_Err in E as [_ E]. specialize (E v Hv). lia.
Qed.

Lemma clean_old_vectors_room o now new :
  0 < now -> now <= u64.MAX -> vectors_wf (Offer.vectors o) -> now <= OfferVector.start_time new ->
  latest o new ->
  exists o1 ev, clean_old_vectors o new now = Ok (o1, ev) /\
    (has_empty (Offer.vectors o1) <-> room o now new).
Proof.
  intros Hnow Hmax Hwf Hst Hlast. unfold clean_old_vectors.
  assert (Hsub : forall a, 0 < a -> a <= now -> u64.checked_sub a 1 = Some (a - 1)).
  { intros a ? ?. apply checked_Some. unfold u64.checked_sub. lia. }
  destruct (Z.eqb_spec (OfferVector.start_time new) now) as [E|E].
  - rewrite E, Hsub by lia. cbn. do 2 eexists. split; [reflexivity|]. cbn.
    fold (predecessor o now). split; [by intros; apply room_now|]. intros _. apply has_empty_evict.
    destruct (has_empty_dec (Offer.vectors o)) as [(v & Hv & H0)|He]; [by exists v; auto|].
    destruct (two_slots _ (predecessor o now) Hwf He) as (v & Hv & Hne & Hp).
    exists v. split; [done|]. right. apply evicts_spec. specialize (Hlast v (conj Hv Hne)).
    repeat split; lia.
  - destruct (find_active_vector_at o now) as [a|e] eqn:Ea.
    + apply find_active_Ok in Ea as (Ha & Hle & Hm).
      rewrite Hsub by (done || by apply live_positive with (Offer.vectors o)). cbn.
      do 2 eexists. split; [reflexivity|]. cbn. fold (predecessor o (OfferVector.start_time a)).
      rewrite has_empty_evict. split.
      * intros (v & Hv & [H0|(Hne & Hna & Hnp & Hlt)%evicts_spec]); [by eapply room_empty|].
        destruct (predecessor_live o (OfferVector.start_time a) v) as (p & Hp & Ep & Hpa); [done..|].
        pose proof (predecessor_ge o (OfferVector.start_time a) v (conj Hv Hne) Hlt).
        apply (room_old o now new v p a); unfold started; try done; try (split; [done|lia]); lia.
      * intros [v Hv H0|H|u v w [Hu _] [Hv _] [Hw Hwn] Huv Hvw]; [by eauto|done|].
        specialize (Hm w Hw Hwn).
        pose proof (predecessor_ge o (OfferVector.start_time a) v Hv ltac:(lia)).
        destruct Hu as [Hu Hne]. exists u. split; [done|]. right. apply evicts_spec.
        repeat split; lia.
    + apply find_active_Err in Ea as [_ Ea]. do 2 eexists. split; [reflexivity|]. split.
      * intros (v & Hv & H0). by eapply room_empty.
      * intros [v Hv H0|H|u v w [Hu Hun] _ _ _ _]; [by exists v|done|].
        specialize (Ea u Hu). lia.
Qed.

(** C37: what [add_offer_vector] accepts, and with which error it refuses the rest.
    On a well-formed offer it succeeds exactly for a vector with positive numbers
    that starts now or later, after every other vector, when there is room: an empty
    slot, or one that cleaning up frees, which it always does for a vector starting
    now.  It never panics, and every other vector gets the error of the first check
    it fails. *)
Theorem add_vector_decides o now new :
  0 < now <= u64.MAX -> vectors_wf (Offer.vectors o) ->
  match add_vector o now new with
  | Ok _ => plausible now new /\ latest o new /\ room o now new
  | Err e => exists x, e = Onre x /\ refusal o now new x
  end.
Proof.
  intros [Hnow Hmax] Hwf. unfold add_vector. pose proof (validate_inputs_decides o now new) as Hv.
  destruct (validate_inputs _ _ _ _ _ _) as [u|e]; cbn; [|by destruct Hv as (x & ? & ? & _); eauto].
  destruct Hv as [Hp Hl].
  destruct (clean_old_vectors_room o now new) as (o1 & ev & -> & Hroom); [done..|apply Hp|done|]. cbn.
  unfold find_vector_index_by_start_time.
  destruct (position _ (Offer.vectors o1)) as [i|] eqn:E; cbn.
  - do 2 (split; [done|]). apply Hroom. apply position_Some in E as (v & Hi & H0%Z.eqb_eq).
    exists v. split; [|done]. apply In_lookup. eauto.
  - eexists. split; [done|]. apply refuse_full; [done..|]. intros Hr. apply Hroom in Hr as (v & Hv & H0).
    rewrite position_None in E. specialize (E v Hv). apply Z.eqb_neq in E. done.
Qed.
End refusal.

(** Ten vectors, two of them started: the offer is full for a later vector, but not
    for one that starts now. *)
Definition full_starts : list Z := [10; 20; 30; 40; 50; 60; 70; 80; 90; 95].
Definition full_vector (t : Z) : OfferVector.t := OfferVector.mk t t 1000000000 0 86400.
Definition full_offer : Offer.t := Offer.with_vectors (full_vector <$> full_starts) sample_offer.

Lemma full_offer_wf : vectors_wf (Offer.vectors full_offer).
Proof.
  split; [done| |].
  - intros i j v w Hi Hj E _. change (Offer.vectors full_offer) with (full_vector <$> full_starts) in *.
    apply list_lookup_fmap_Some in Hi as (s & -> & Hi), Hj as (s' & -> & Hj). cbn in E. subst s'.
    eapply (NoDup_lookup full_starts); [|exact Hi|exact Hj].
    apply (bool_decide_unpack _). vm_compute. exact I.
  - repeat constructor; right; cbn; lia.
Qed.

Lemma add_vector_decides_witness :
  ~ room full_offer 25 (OfferVector.mk 100 100 1000000000 0 86400) /\
  plausible 100 (OfferVector.mk 100 100 1000000000 0 86400).
Proof.
  pose proof (add_vector_decides full_offer 25 (OfferVector.mk 100 100 1000000000 0 86400)
    ltac:(split; [lia|vm_compute; discriminate]) full_offer_wf) as H1.
  pose proof (add_vector_decides full_offer 100 (OfferVector.mk 100 100 1000000000 0 86400)
    ltac:(split; [lia|vm_compute; discriminate]) full_offer_wf) as H2.
  split.
  - destruct (add_vector full_offer 25 _) as [?|e] eqn:E; [vm_compute in E; discriminate E|].
    destruct H1 as (x & -> & H1). vm_compute in E. injection E as <-. inversion H1. assumption.
  - destruct (add_vector full_offer 100 _) as [?|e] eqn:E; [exact (proj1 H2)|].
    vm_compute in E. discriminate E.
Defined.
