(* ===== verification/LifecycleFacts.v ===== *)
(** * What holds from the deployment on

    The state account round-trips through its bytes; the lifecycle instructions
    are in the hands of the upgrade authority and of the boss; and the invariants
    of the other files hold in every state the program reaches from a deployment
    without accounts, closing and initializing again included.  *)

From Stdlib Require Import Strings.Byte.
From stdpp Require Import relations.
From S2P Require Import World MathUtils Approval OfferPricing TokenUtils OfferHandlers MarketInfo Buffer Vaults Redemption TakeOffer PropAmm Governance Program Lifecycle Borsh Frames Samples MarketFacts BufferFacts AccountFacts RedemptionFacts RedemptionInvariant ProgramFacts GovernanceFacts TypedFacts StoreInvariant ViewFacts.
Open Scope list_scope.
Open Scope Z_scope.

(** ** The layout of the state account *)

Module Layout.

(** The fields of the account are in the range of their types. *)
Record state_typed (s : State.t) : Prop := {
  st_boss : key32 (State.boss s);
  st_proposed : key32 (State.proposed_boss s);
  st_onyc : key32 (State.onyc_mint s);
  st_admins : Forall key32 (State.admins s);
  st_length : length (State.admins s) = MAX_ADMINS;
  st_approver1 : key32 (State.approver1 s);
  st_approver2 : key32 (State.approver2 s);
  st_bump : 0 <= State.bump s <= 255;
  st_supply : 0 <= State.max_supply s <= u64.MAX;
  st_worker : key32 (State.worker s);
  st_mint : 0 <= State.max_mint_amount s <= u64.MAX;
  st_offer : key32 (State.main_offer s)
}.

Lemma deserialize_serialize s rest :
  state_typed s -> deserialize (serialize s ++ rest) = Some s.
Proof.
  intros []. unfold deserialize, serialize. rewrite <- !app_assoc.
  repeat first [ rewrite read_key_app by done
               | rewrite read_bool_app
               | rewrite read_keys_app by done
               | rewrite read_int_app by (cbn; zlia)
               | rewrite read_bytes_app by done
               | progress cbn [mbind option_bind] ].
  by destruct s.
Qed.
End Layout.

Import Layout.

(** What the lifecycle relies on: Anchor's discriminators are eight bytes, and the
    program is not the system program. *)
Class PlatformLaws {R : Runtime} (P : Platform) : Prop := {
  discriminator_length : length state_discriminator = 8%nat;
  program_not_system : program_id <> system_program_id
}.

Section bytes.
Context {R : Runtime} {P : Platform} {PL : PlatformLaws P}.

Lemma state_data_length s :
  length (State.admins s) = MAX_ADMINS -> blen (state_data s) = 8 + 938.
Proof using All.
  intros Hl. unfold blen, state_data, StateLayout.serialize.
  assert (forall ks, length (concat (map key_to_bytes ks)) = (32 * length ks)%nat) as Hk.
  { induction ks as [|k ks IH]; cbn [map concat length]; [done|].
    rewrite length_app, key_bytes_length, IH. lia. }
  rewrite !length_app, !key_bytes_length, !to_le_bytes_length, Hk, Hl, discriminator_length.
  reflexivity.
Qed.

Lemma data_boss s : slice (state_data s) 8 32 = key_to_bytes (State.boss s).
Proof using All.
  unfold state_data, StateLayout.serialize.
  rewrite slice_app_r by (rewrite discriminator_length; lia).
  rewrite discriminator_length. apply slice_app_l. by rewrite key_bytes_length.
Qed.

Lemma state_of_data k lamports s :
  state_typed s -> state_of_account (mkRawAccount k program_id lamports (state_data s)) = Some s.
Proof using All.
  intros Hs. unfold state_of_account, state_data. cbn [ra_owner ra_data].
  rewrite key_eqb_refl, take_app_length, bool_decide_true, drop_app_length by done. cbn [andb].
  rewrite <- (app_nil_r (StateLayout.serialize s)). by apply deserialize_serialize.
Qed.

(** C38: the state account round-trips: an account of the program that holds the bytes
    of a state deserializes to that state, its size is the one [initialize]
    allocates, and bytes 8 to 40, which [close_state] reads without
    deserializing, are the boss. *)
Theorem state_account_roundtrip k lamports s :
  state_typed s ->
  state_of_account (mkRawAccount k program_id lamports (state_data s)) = Some s /\
  blen (state_data s) = 8 + 938 /\
  key_of_bytes (slice (state_data s) 8 32) = State.boss s.
Proof using All.
  intros Hs. split; [by apply state_of_data|]. split; [apply state_data_length, Hs|].
  rewrite data_boss. apply key_of_to_bytes, Hs.
Qed.
End bytes.

(** ** Instructions that need no state *)

Section stateless.
Context {R : Runtime} {L : Type} {TL : TokenLedger L}.
Implicit Types w : World L.

(** [m] neither reads nor writes the state account. *)
Definition stateless {A} (m : M L A) : Prop := forall s w,
  m (set_state s w) = match m w with Ok (a, w') => Ok (a, set_state s w') | Err e => Err e end.

Lemma stateless_ret {A} (a : A) : stateless (mret a).
Proof. done. Qed.
Lemma stateless_bind {A B} (m : M L A) (f : A -> M L B) :
  stateless m -> (forall a, stateless (f a)) -> stateless (m ≫= f).
Proof.
  intros Hm Hf s w. unfold mbind, M_bind. rewrite Hm. destruct (m w) as [[a w1]|]; [apply Hf|done].
Qed.
Lemma stateless_lift {A} (r : Result A) : stateless (lift r).
Proof. intros s w. by destruct r. Qed.
Lemma stateless_fail {A} e : stateless (fail (A := A) e).
Proof. done. Qed.
Lemma stateless_gets {A} (f : World L -> A) :
  (forall s w, f (set_state s w) = f w) -> stateless (gets f).
Proof. intros Hf s w. unfold gets. by rewrite Hf. Qed.
Lemma stateless_modify f :
  (forall s w, f (set_state s w) = set_state s (f w)) -> stateless (modify f).
Proof. intros Hf s w. unfold modify. by rewrite Hf. Qed.
Lemma stateless_load {A} (f : World L -> gmap Pubkey A) k :
  (forall s w, f (set_state s w) = f w) -> stateless (load_account f k).
Proof. intros Hf s w. unfold load_account. rewrite Hf. by destruct (f w !! k). Qed.
Lemma stateless_load_mint k : stateless (load_mint k).
Proof. intros s w. unfold load_mint. cbn. by destruct (ledger_mint _ _). Qed.
End stateless.

Ltac stateless_step :=
  lazymatch goal with
  | |- stateless (mbind _ _) => apply stateless_bind; [|intros ?; cbv beta]
  | |- stateless (mret _) => apply stateless_ret
  | |- stateless (lift _) => apply stateless_lift
  | |- stateless (fail _) => apply stateless_fail
  | |- stateless (gets _) => apply stateless_gets; reflexivity
  | |- stateless (modify _) => apply stateless_modify; reflexivity
  | |- stateless (load_account _ _) => apply stateless_load; reflexivity
  | |- stateless (load_mint _) => apply stateless_load_mint
  | |- stateless (match ?x with _ => _ end) => destruct x
  | |- stateless (let x := _ in _) => cbv zeta
  | |- stateless ?m => let h := head_of m in unfold h
  end.
Ltac stateless := repeat stateless_step.

Lemma stateless_exec `{R : Runtime} {L} `{TL : !TokenLedger L} tx i :
  reads_state i = false -> stateless (L := L) (exec tx i).
Proof. destruct i; try discriminate; intros _; cbn [exec]; stateless. Qed.

(** ** Who creates and closes the state account *)

Lemma require_keys_eq_Ok a b e u : require_keys_eq a b e = Ok u -> a = b.
Proof. unfold require_keys_eq. intros H. apply require_onre_Ok_inv in H. by apply key_eqb_eq. Qed.

(** The key comparisons a computation passed. *)
Ltac inv_keys := repeat match goal with
  | H : require_keys_eq _ _ _ = Ok _ |- _ => apply require_keys_eq_Ok in H
  | H : key_eqb _ _ = true |- _ => apply key_eqb_eq in H
  end; simplify_eq.


Section transitions.
Context {R : Runtime} {P : Platform} {PL : PlatformLaws P} {L : Type} {TL : TokenLedger L}.
Implicit Types d : Deployment.t L.

(** The state a successful [initialize] writes. *)
Definition fresh_state (boss onyc_mint : Pubkey) : State.t :=
  State.mk boss Pubkey_default false onyc_mint (replicate MAX_ADMINS Pubkey_default)
    Pubkey_default Pubkey_default (pda_bump [seeds.STATE]) 0 Pubkey_default 0 Pubkey_default.

(** The upgrade authority the loader records for the program, in the account the
    signer passes: [None] for a program that cannot be upgraded. *)
Definition upgrade_authority (chain : Pubkey -> RawAccount) d (program_data : Pubkey)
  (authority : option Pubkey) : Prop :=
  program_data = get_program_data_address program_id /\
  ra_owner (raw_account chain d program_data) = loader_id /\
  deserialize_loader_state (ra_data (raw_account chain d program_data)) = Some (Some authority).

Lemma raw_account_key chain d k : ra_key (raw_account chain d k) = k.
Proof. unfold raw_account. destruct (key_eqb k _); [|done]. by destruct (Deployment.state_account d). Qed.

Lemma raw_account_lamports chain d k : ra_lamports (raw_account chain d k) = ra_lamports (chain k).
Proof. unfold raw_account. destruct (key_eqb k _); [|done]. by destruct (Deployment.state_account d). Qed.

Lemma get_upgrade_authority_Ok p pd a :
  get_upgrade_authority p pd = Ok a ->
  exists x, pd = Some x /\ ra_key x = get_program_data_address (ra_key p) /\
    ra_owner x = loader_id /\ deserialize_loader_state (ra_data x) = Some (Some a).
Proof.
  unfold get_upgrade_authority. intros H. destruct (key_eqb (ra_owner p) loader_id); [|done].
  inv_res. inv_keys. eauto 8.
Qed.

Lemma initialize_Ok chain d boss program pd onyc d' :
  initialize boss (raw_account chain d program) (raw_account chain d <$> pd) onyc d = Ok d' ->
  program = program_id /\ Deployment.state_account d = None /\
  (exists k a, pd = Some k /\ upgrade_authority chain d k a /\ (a = Some boss \/ a = None)) /\
  d' = Deployment.mk (Some (fresh_state boss onyc)) true true (Deployment.permissionless_authority d)
         (set_state (fresh_state boss onyc) (Deployment.others d)).
Proof.
  unfold initialize, initialize_state. intros H.
  destruct (Deployment.state_account d); [done|]. inv_res. rewrite raw_account_key in *.
  match goal with H : get_upgrade_authority _ _ = Ok ?a |- _ =>
    apply get_upgrade_authority_Ok in H as (x & Hx & Hk & Ho & Hd); rename a into auth end.
  destruct pd as [k|]; [|done]. cbn in Hx. simplify_eq. rewrite raw_account_key in *.
  split; [by inv_keys|]. split; [done|]. split; [|by destruct auth; inv_keys].
  exists k, auth. unfold upgrade_authority. inv_keys. rewrite raw_account_key in *.
  split_and!; try done. destruct auth; [left|by right]. by inv_keys.
Qed.

Lemma close_state_Ok st boss st' boss' e :
  close_state st boss = Ok (st', boss', e) ->
  ra_owner st = program_id /\ ra_key st = pda [seeds.STATE] /\
  ra_key boss = key_of_bytes (slice (ra_data st) 8 32) /\
  st' = mkRawAccount (ra_key st) system_program_id 0 [] /\ ra_key boss' = ra_key boss /\
  ra_lamports boss' = ra_lamports boss + ra_lamports st.
Proof.
  unfold close_state. intros H. inv_res. inv_keys.
  unfold u64.checked_add in *. inv_checked. by split_and!.
Qed.

(** A handler runs on the state account; without one, only on none. *)
Lemma run_handler chain tx i d d' :
  run chain tx (Handler i) d = Ok d' ->
  match Deployment.state_account d with
  | Some s => exists w', exec tx i (set_state s (Deployment.others d)) = Ok (tt, w') /\
      d' = Deployment.with_others w' (Deployment.with_state_account (Some (state w')) d)
  | None => reads_state i = false /\ exists w', exec tx i (Deployment.others d) = Ok (tt, w') /\
      d' = Deployment.with_others w' d
  end.
Proof.
  cbn [run]. intros H. destruct (Deployment.state_account d); inv_res.
  - destruct v as [[] w]. simplify_eq. eauto.
  - destruct v0 as [[] w]. simplify_eq. split; [by destruct (reads_state i)|]. eauto.
Qed.

Lemma run_close chain tx st boss d d' :
  run chain tx (CloseState st boss) d = Ok d' ->
  (forall s, Deployment.state_account d = Some s -> key32 (State.boss s)) ->
  exists s e, Deployment.state_account d = Some s /\ st = pda [seeds.STATE] /\ boss = State.boss s /\
    d' = Deployment.with_others (set_events (events (Deployment.others d) ++ [e]) (Deployment.others d))
           (Deployment.with_state_account None d) /\
    exists state' boss', close_state (raw_account chain d st) (raw_account chain d boss)
      = Ok (state', boss', e).
Proof using All.
  cbn [run]. intros H Hb. inv_res. destruct v as [[st' boss'] e].
  match goal with H : close_state _ _ = Ok _ |- _ =>
    pose proof H as Hcl; apply close_state_Ok in H as (Ho & Hk & Hs & -> & _) end.
  rewrite raw_account_key in Hk, Hs. subst st. unfold raw_account in Ho, Hs.
  rewrite key_eqb_refl in Ho, Hs. destruct (Deployment.state_account d) as [s|] eqn:E; cbn in Ho, Hs.
  - exists s, e. rewrite data_boss, key_of_to_bytes in Hs by auto. simplify_eq.
    split_and!; try done; [|eauto]. f_equal. f_equal. unfold state_of_account. cbn.
    by rewrite (proj2 (key_eqb_neq _ _) (not_eq_sym program_not_system)).
  - by destruct program_not_system.
Qed.

(** Only the event log changes. *)
Definition only_events : relation (World L) := fun w w' => exists es, w' = set_events es w.

#[local] Instance only_events_preorder : PreOrder only_events.
Proof.
  split; [intros w; exists (events w); by destruct w|].
  intros a b c [es ->] [es' ->]. by exists es'.
Qed.

Lemma stateless_only_events tx i : reads_state i = false -> within only_events (exec tx i).
Proof.
  destruct i; try discriminate; intros _; cbn [exec]; within ltac:(intros w es; by exists es).
Qed.

(** Where the lamports of the state account go when [boss] closes it: to [boss], the
    account itself returns to the system program without data. *)
Definition lamports_returned (chain : Pubkey -> RawAccount) d (st boss : Pubkey) (e : Event) : Prop :=
  exists boss', close_state (raw_account chain d st) (raw_account chain d boss)
      = Ok (mkRawAccount st system_program_id 0 [], boss', e) /\
    ra_key boss' = boss /\ ra_lamports boss' = ra_lamports (chain boss) + ra_lamports (chain st).

(** C13: who holds the program's life.  The state account appears only by
    [initialize], signed by the upgrade authority the loader records for the
    program (or by anybody, if the program can no longer be upgraded), with every
    role but the boss unset, and together with the mint and the offer-vault authority
    accounts; it disappears only by [close_state], signed by its boss, whom the code
    reads from the raw bytes and who receives the account's lamports.  Both leave
    every other account of the program as it was.  In between the state changes only
    by the governance instructions, the permissionless authority is created once, by
    the boss, under a trimmed name that is not empty, and no authority account ever
    disappears.  Without the state account nothing runs but four queries, which
    change nothing but the log. *)
Theorem lifecycle_authorized chain tx op d d' :
  run chain tx op d = Ok d' ->
  (forall s, Deployment.state_account d = Some s -> key32 (State.boss s)) ->
  match Deployment.state_account d, Deployment.state_account d' with
  | None, Some s => exists boss k a onyc, op = Initialize boss program_id (Some k) onyc /\
      upgrade_authority chain d k a /\ (a = Some boss \/ a = None) /\ s = fresh_state boss onyc /\
      d' = Deployment.mk (Some s) true true (Deployment.permissionless_authority d)
             (set_state s (Deployment.others d))
  | Some s, None => exists e, op = CloseState (pda [seeds.STATE]) (State.boss s) /\
      lamports_returned chain d (pda [seeds.STATE]) (State.boss s) e /\
      d' = Deployment.with_others
             (set_events (events (Deployment.others d) ++ [e]) (Deployment.others d))
             (Deployment.with_state_account None d)
  | Some s, Some s' =>
      (exists name, op = InitializePermissionlessAuthority (State.boss s) name /\
         Deployment.permissionless_authority d = None /\ trim name <> [] /\
         d' = Deployment.with_permissionless_authority (Some (trim name)) d) \/
      (exists i w', op = Handler i /\ exec tx i (set_state s (Deployment.others d)) = Ok (tt, w') /\
         state_update i s s' /\
         d' = Deployment.with_others w' (Deployment.with_state_account (Some s') d))
  | None, None => (exists i, op = Handler i /\ reads_state i = false) /\
      exists es, d' = Deployment.with_others (set_events es (Deployment.others d)) d
  end.
Proof using All.
  intros H Hb. destruct op as [boss program pd onyc|boss name|st boss|i].
  - apply initialize_Ok in H as (-> & -> & (k & a & -> & Ha & Hor) & ->). cbn.
    exists boss, k, a, onyc. auto.
  - cbn [run] in H. unfold initialize_permissionless_authority in H.
    destruct (Deployment.state_account d) eqn:E; [|done]. inv_res. inv_keys. cbn. rewrite E. left.
    exists name. destruct (Deployment.permissionless_authority d); [done|].
    split; [congruence|]. split; [done|]. split; [|done].
    by match goal with H : bool_decide _ = false |- _ => apply bool_decide_eq_false in H end.
  - apply run_close in H as (s & e & E & -> & -> & -> & st' & boss' & Hcl); [|done].
    rewrite E. exists e. split; [done|]. split; [|done]. exists boss'.
    pose proof Hcl as Hl. apply close_state_Ok in Hl as (_ & _ & _ & -> & Hk & Hl).
    rewrite !raw_account_lamports in Hl. rewrite raw_account_key in Hcl, Hk. by split.
  - apply run_handler in H. destruct (Deployment.state_account d) as [s|] eqn:E.
    + destruct H as (w' & H & ->). cbn. pose proof H as Hs. apply exec_state in Hs. right.
      exists i, w'. auto.
    + destruct H as (Hr & w' & H & ->). cbn. rewrite E.
      split; [eauto|]. eapply stateless_only_events in H as [es ->]; [|done]. by exists es.
Qed.
End transitions.

(** ** Invariants of the whole history *)

Section history.
Context {R : Runtime} {P : Platform} {PL : PlatformLaws P} {L : Type}.
Context {TL : TokenLedger L} {TLL : TokenLedgerLaws L}.
Implicit Types d : Deployment.t L.

(** The arguments are in the range of their types, and nobody signs with the
    default key (which is the system program). *)
Definition unsigned_operation (op : operation) : Prop :=
  match op with
  | Initialize boss _ _ _ => boss <> Pubkey_default /\ key32 boss
  | InitializePermissionlessAuthority _ _ | CloseState _ _ => True
  | Handler i => unsigned_arguments i /\ forall boss k, i = ProposeBoss boss k -> key32 k
  end.

(** A step of the history: an instruction, or time passing and anybody using the
    token programs. *)
Inductive life_step d : Deployment.t L -> Prop :=
| life_run chain tx op d' : unsigned_operation op -> run chain tx op d = Ok d' -> life_step d d'
| life_environment c l : 0 < timestamp_u64 c ->
    life_step d (Deployment.with_others (environment c l (Deployment.others d)) d).

(** A deployment: the program has no account yet. *)
Record deployed d : Prop := {
  dp_state : Deployment.state_account d = None;
  dp_clock : 0 < timestamp_u64 (clock (Deployment.others d));
  dp_offers : offers (Deployment.others d) = ∅;
  dp_redemption_offers : redemption_offers (Deployment.others d) = ∅;
  dp_redemption_requests : redemption_requests (Deployment.others d) = ∅;
  dp_vaults : vaults (Deployment.others d) = ∅;
  dp_pairs : prop_amm_pairs (Deployment.others d) = ∅;
  dp_buffer : buffer_state (Deployment.others d) = SystemOwned true;
  dp_excluded : excluded_accounts (Deployment.others d) = SystemOwned true
}.

(** The accounts other than the state. *)
Record accounts_ok (w : World L) : Prop := {
  ac_typed : typed w;
  ac_redemptions : redemptions_ok w;
  ac_store : store_ok w;
  ac_owners : owners_unique w
}.

(** The state account: there is a boss and a key proposed to succeed is a key; no
    role is held twice. *)
Record live_state (s : State.t) : Prop := {
  ls_boss : State.boss s <> Pubkey_default /\ key32 (State.boss s);
  ls_proposed : key32 (State.proposed_boss s);
  ls_roles : roles_ok s
}.

Definition deployment_ok d : Prop :=
  accounts_ok (Deployment.others d) /\
  forall s, Deployment.state_account d = Some s -> live_state s.

Definition all_but_state (w : World L) :=
  (typed_view w, redemption_maps w, store_view w, excluded_accounts w).

Lemma accounts_ok_same w w' : same all_but_state w w' -> accounts_ok w -> accounts_ok w'.
Proof.
  unfold same, all_but_state. intros [= E1 E2 E3 E4 E5 E6 E7 E8 E9 E10 E11] []. split.
  - eapply typed_same; [|done]. unfold same, typed_view. congruence.
  - eapply redemptions_ok_same; [|done]. unfold same, redemption_maps. congruence.
  - eapply store_same; [|done]. unfold same, store_view. congruence.
  - eapply owners_unique_same; [|done]. done.
Qed.

Lemma accounts_ok_exec tx i w w' :
  unsigned_arguments i -> accounts_ok w -> exec tx i w = Ok (tt, w') -> accounts_ok w'.
Proof using All.
  intros Hi [] H. split; [by eapply typed_exec|by eapply ok_exec|by eapply store_ok_exec|
    by eapply owners_unique_exec].
Qed.

Lemma live_update i s s' :
  unsigned_operation (Handler i) -> live_state s -> state_update i s s' -> live_state s'.
Proof.
  intros Hi [[Hb Hk] Hp Hr] H. pose proof (state_update_roles _ _ _ Hr H).
  apply state_update_boss in H as [[E|(_ & E & Hd & _)] Ep]; (split; [| |done]).
  - by rewrite E.
  - destruct Ep as [->|[->| ->]]; [done..|by eapply Hi].
  - split; [done|]. by rewrite <- E.
  - destruct Ep as [->|[->| ->]]; [done..|by eapply Hi].
Qed.

Lemma live_fresh boss onyc : boss <> Pubkey_default -> key32 boss -> live_state (fresh_state boss onyc).
Proof. intros Hb Hk. split; [done|done|]. split; (split; [done|constructor]). Qed.

Lemma life_step_ok d d' : deployment_ok d -> life_step d d' -> deployment_ok d'.
Proof using All.
  intros [Hw Hs] [chain tx op d1 Hop H|c l Hc].
  - destruct op as [boss program pd onyc|boss name|st boss|i].
    + apply initialize_Ok in H as (-> & _ & _ & ->). split; cbn.
      * by apply (accounts_ok_same (Deployment.others d)).
      * intros s [= <-]. destruct Hop. by apply live_fresh.
    + cbn [run] in H. unfold initialize_permissionless_authority in H. inv_res. by split.
    + apply run_close in H as (s & e & E & -> & -> & -> & _); [|intros s E; by apply Hs].
      split; cbn; [by apply (accounts_ok_same (Deployment.others d))|done].
    + apply run_handler in H. destruct (Deployment.state_account d) as [s|] eqn:E.
      * destruct H as (w' & H & ->). split; cbn.
        { eapply accounts_ok_exec, H; [apply Hop|by apply (accounts_ok_same (Deployment.others d))]. }
        intros s' [= <-]. eapply live_update; [done|by apply Hs|]. by apply exec_state in H.
      * destruct H as (Hr & w' & H & ->). split; cbn; [|by rewrite E].
        eapply accounts_ok_exec, H; [apply Hop|done].
  - split; cbn; [|exact Hs]. destruct Hw as [Ht Hr [_ Ho Hp Hv] Hu].
    split; [by apply (typed_same (Deployment.others d))|by apply (redemptions_ok_same (Deployment.others d))| |
      by apply (owners_unique_same (Deployment.others d))]. by split.
Qed.

(** C5: from a deployment without accounts on, whatever instructions run, closing and
    initializing the state account included, and whatever anybody does with the
    token programs in between: the ranges, the redemption queue, the addresses
    and the well-formed price vectors of the offers, the pairs and vaults at
    their addresses, and the registry of excluded owners are as the other
    theorems assume; and as long as there is a state account, there is a boss,
    and no admin or approver holds a role twice. *)
Theorem deployment_invariant d0 d :
  deployed d0 -> rtc life_step d0 d ->
  typed (Deployment.others d) /\ redemptions_ok (Deployment.others d) /\
  store_ok (Deployment.others d) /\ owners_unique (Deployment.others d) /\
  forall s, Deployment.state_account d = Some s ->
    State.boss s <> Pubkey_default /\ roles_ok s.
Proof using All.
  intros [] Hr. assert (deployment_ok d0) as H0.
  { split; [split|by rewrite dp_state0].
    - split; [by rewrite dp_buffer0|rewrite dp_offers0|rewrite dp_redemption_offers0|rewrite dp_pairs0];
        by intros k o ?%lookup_empty_Some.
    - by apply ok_initial.
    - split; [done|rewrite dp_offers0|rewrite dp_pairs0|rewrite dp_vaults0];
        by intros k o ?%lookup_empty_Some.
    - intros e. by rewrite dp_excluded0. }
  assert (deployment_ok d) as [[] Hs] by (clear - TLL PL Hr H0; induction Hr; eauto using life_step_ok).
  split_and!; [done..|]. intros s E. destruct (Hs s E) as [[] _ ?]. done.
Qed.
End history.

(** ** Witnesses *)

Module Life.
Definition loader : Pubkey := 11%N.
Definition program_data : Pubkey := 13%N.

#[export] Instance sample_platform : Platform := {
  loader_id := loader;
  get_program_data_address _ := program_data;
  deserialize_loader_state data :=
    match data with
    | x03 :: key => Some (Some (Some (key_of_bytes key)))
    | [] => None
    | _ => Some None
    end;
  state_discriminator := [xd8; x92; x6b; x5e; x68; x4b; xb6; xb1]
}.

#[export] Instance sample_platform_laws : PlatformLaws sample_platform.
Proof. by split. Qed.

(** The program and its data account; the boss of the sample may upgrade it. *)
Definition chain (k : Pubkey) : RawAccount :=
  if key_eqb k program_id then mkRawAccount k loader 1 []
  else if key_eqb k program_data then mkRawAccount k loader 1 (x03 :: key_to_bytes Sample.boss)
  else mkRawAccount k system_program_id 1000 [].

Definition start : Deployment.t SampleLedger.t :=
  Deployment.mk None false false None
    (mkWorld (Clock.mk 1000100 77 5) Sample.state ∅ ∅ ∅ ∅ ∅ (SystemOwned true) (SystemOwned true)
       (SystemOwned true) (SystemOwned true) Sample.ledger []).

Definition tx : InstructionsSysvar := mkInstructionsSysvar 0 [].
Definition next (op : operation) (d : Deployment.t SampleLedger.t) : Deployment.t SampleLedger.t :=
  match run chain tx op d with Ok d' => d' | Err _ => d end.

Definition init : operation := Initialize Sample.boss program_id (Some program_data) Sample.onyc.
Definition close : operation := CloseState (pda [seeds.STATE]) Sample.boss.
Definition offer : operation :=
  Handler (MakeOfferIx (mkMakeOffer Sample.usdc spl_token_id (Sample.ata Sample.offer_vault Sample.usdc)
    Sample.onyc Sample.offer_key Sample.boss) 50 false true).
Definition initialized := next init start.
Definition offering := next offer initialized.
Definition closed := next close offering.
Definition again := next init closed.
End Life.
#[local] Existing Instance Life.sample_platform.
#[local] Existing Instance Life.sample_platform_laws.

Lemma next_runs op d : is_ok (run Life.chain Life.tx op d) = true ->
  run Life.chain Life.tx op d = Ok (Life.next op d).
Proof. unfold Life.next. destruct (run _ _ _ _); done. Qed.

Lemma step_next op d :
  unsigned_operation op -> is_ok (run Life.chain Life.tx op d) = true -> life_step d (Life.next op d).
Proof. intros Hop H. eapply life_run; [exact Hop|by apply next_runs]. Qed.

Lemma start_deployed : deployed Life.start.
Proof. by split. Qed.

Lemma sample_boss32 : key32 Sample.boss.
Proof. done. Qed.

(** Initialized, an offer made, closed, and initialized again: the offer is still
    there. *)
Lemma deployment_invariant_witness :
  Deployment.state_account Life.again = Some (fresh_state Sample.boss Sample.onyc) /\
  offers (Deployment.others Life.again) !! Sample.offer_key <> None /\
  redemptions_ok (Deployment.others Life.again) /\
  exists s, Deployment.state_account Life.again = Some s /\ State.boss s <> Pubkey_default.
Proof.
  assert (Hr : rtc life_step Life.start Life.again).
  { apply (rtc_l _ _ Life.initialized); [|apply (rtc_l _ _ Life.offering); [|apply (rtc_l _ _ Life.closed); [|apply rtc_once]]];
      (apply step_next; [|vm_compute; reflexivity]).
    - split; [discriminate|exact sample_boss32].
    - split; [cbn; lia|discriminate].
    - exact I.
    - split; [discriminate|exact sample_boss32]. }
  destruct (deployment_invariant Life.start Life.again start_deployed Hr) as (_ & Ho & _ & _ & Hs).
  split; [vm_compute; reflexivity|]. split; [vm_compute; discriminate|]. split; [exact Ho|].
  exists (fresh_state Sample.boss Sample.onyc). split; [vm_compute; reflexivity|].
  apply Hs. vm_compute. reflexivity.
Defined.

Lemma state_account_roundtrip_witness :
  let s := State.with_main_offer 301%N Sample.state in
  state_of_account (mkRawAccount 2%N program_id 0 (state_data s)) = Some s /\
  blen (state_data s) = 946.
Proof.
  intros s. destruct (state_account_roundtrip 2%N 0 s) as (H & Hl & _); [|exact (conj H Hl)].
  assert (H32 : forall k, (k <? 1000)%N = true -> key32 k).
  { intros k Hk%N.ltb_lt. unfold key32. transitivity 1000; [lia|reflexivity]. }
  assert (Hb : forall x n, Z.leb 0 x && Z.leb x n = true -> 0 <= x <= n) by (intros; zlia).
  split; [apply H32; reflexivity|apply H32; reflexivity|apply H32; reflexivity| |reflexivity
    |apply H32; reflexivity|apply H32; reflexivity|apply Hb; reflexivity|apply Hb; reflexivity
    |apply H32; reflexivity|apply Hb; reflexivity|apply H32; reflexivity].
  repeat (apply List.Forall_cons; [apply H32; reflexivity|]). apply List.Forall_nil.
Defined.

Lemma lifecycle_authorized_witness :
  exists e, Life.close = CloseState (pda [seeds.STATE]) Sample.boss /\
    lamports_returned Life.chain Life.offering (pda [seeds.STATE]) Sample.boss e /\
    Life.closed = Deployment.with_others
      (set_events (events (Deployment.others Life.offering) ++ [e]) (Deployment.others Life.offering))
      (Deployment.with_state_account None Life.offering).
Proof.
  pose proof (lifecycle_authorized Life.chain Life.tx Life.close Life.offering Life.closed) as H.
  assert (E : Deployment.state_account Life.offering = Some (fresh_state Sample.boss Sample.onyc))
    by (vm_compute; reflexivity).
  assert (E' : Deployment.state_account Life.closed = None) by (vm_compute; reflexivity).
  rewrite E, E' in H. apply H.
  - apply next_runs. vm_compute. reflexivity.
  - intros s [= <-]. exact sample_boss32.
Defined.
