(* ===== verification/ClientFacts.v ===== *)
(** * The builders and the program

    Which of the requests that [Client] builds the program understands: what each
    builder asks for ([intended]), given the fixed addresses where it leaves them to
    its caller and arguments in the range of their types ([well_formed]); and that
    [decode] makes of the bytes and accounts.  *)

From Stdlib Require Import Strings.Byte.
From S2P Require Import World Approval OfferHandlers Buffer Redemption TakeOffer PropAmm Vaults Program Lifecycle Borsh Entrypoint Client Samples.
Open Scope Z_scope.
Open Scope list_scope.

(** ** Running a decoder *)

(** The constant a term applies. *)
Ltac head_of t := lazymatch t with ?f _ => head_of f | _ => t end.

Definition runs {A} (m : Decoder A) accounts data (a : A) accounts' data' : Prop :=
  m accounts data = Some (a, accounts', data').

Lemma runs_bind {A B} (m : Decoder A) (f : A -> Decoder B) xs d a xs1 d1 b xs2 d2 :
  runs m xs d a xs1 d1 -> runs (f a) xs1 d1 b xs2 d2 -> runs (m ≫= f) xs d b xs2 d2.
Proof. unfold runs, mbind, Decoder_bind. intros H1 H2. rewrite H1. apply H2. Qed.

Lemma runs_ret {A} (a : A) xs d : runs (dret a) xs d a xs d.
Proof. done. Qed.

Lemma runs_next ok k s w xs d :
  ok (AccountMeta.mk k s w) = true ->
  runs (next_account ok) (AccountMeta.mk k s w :: xs) d k xs d.
Proof. unfold runs, next_account. by intros ->. Qed.

Lemma runs_arg {A} (r : Reader A) a d d' xs : r d = Some (a, d') -> runs (arg r) xs d a xs d'.
Proof. unfold runs, arg. by intros ->. Qed.

Lemma runs_only k s w xs d : runs (only k) (AccountMeta.mk k s w :: xs) d tt xs d.
Proof. eapply runs_bind; [by apply runs_next, key_eqb_refl|apply runs_ret]. Qed.

Lemma runs_mut_only k s xs d : runs (mut_only k) (AccountMeta.mk k s true :: xs) d tt xs d.
Proof.
  eapply runs_bind; [|apply runs_ret]. apply runs_next. cbn. by rewrite key_eqb_refl.
Qed.

(** ** Refusals *)

Definition refuses {A} (m : Decoder A) accounts data : Prop := m accounts data = None.

Lemma refuses_bind {A B} (m : Decoder A) (f : A -> Decoder B) xs d :
  refuses m xs d -> refuses (m ≫= f) xs d.
Proof. unfold refuses, mbind, Decoder_bind. by intros ->. Qed.

(** An account at another address is refused. *)
Lemma only_refuses k a xs d : AccountMeta.pubkey a <> k -> refuses (only k) (a :: xs) d.
Proof.
  intros Hk. apply refuses_bind. unfold refuses, next_account.
  by rewrite (proj2 (key_eqb_neq _ _) Hk).
Qed.

(** [m] takes [n] accounts, so a shorter list is refused. *)
Definition takes {A} (n : nat) (m : Decoder A) : Prop :=
  forall xs d a xs' d', runs m xs d a xs' d' -> length xs = (n + length xs')%nat.

Lemma takes_bind {A B} n k (m : Decoder A) (f : A -> Decoder B) :
  takes n m -> (forall a, takes k (f a)) -> takes (n + k) (m ≫= f).
Proof.
  intros Hm Hf xs d b xs' d' H. unfold runs, mbind, Decoder_bind in H.
  destruct (m xs d) as [[[a xs1] d1]|] eqn:E; [|done].
  apply Hm in E. apply Hf in H. lia.
Qed.
Lemma takes_ret {A} (a : A) : takes 0 (dret a).
Proof. by intros ????? [= <- <- <-]. Qed.
Lemma takes_next ok : takes 1 (next_account ok).
Proof.
  intros [|a xs] d k xs' d' H; [done|]. unfold runs, next_account in H. by destruct (ok a); simplify_eq.
Qed.
Lemma takes_arg {A} (r : Reader A) : takes 0 (arg r).
Proof.
  intros xs d a xs' d' H. unfold runs, arg in H. destruct (r d) as [[? ?]|]; [|done]. cbn in H. by simplify_eq.
Qed.
Lemma takes_exactly {A} n k (m : Decoder A) : takes k m -> k = n -> takes n m.
Proof. by intros ? <-. Qed.
Lemma takes_refuses {A} n (m : Decoder A) xs d : takes n m -> (length xs < n)%nat -> refuses m xs d.
Proof.
  intros Hm Hl. unfold refuses. destruct (m xs d) as [[[a xs'] d']|] eqn:E; [|done]. apply Hm in E. lia.
Qed.

Section client.
Context {R : Runtime} {RL : RuntimeLaws R} {I : Interface}.

Definition token_program_id (k : Pubkey) : Prop := k = spl_token_id \/ k = token_2022_id.

Lemma runs_token_interface k s w xs d :
  token_program_id k -> runs token_interface (AccountMeta.mk k s w :: xs) d k xs d.
Proof.
  intros Hk. apply runs_next. cbn. destruct Hk as [-> | ->]; rewrite key_eqb_refl; [done|].
  by rewrite orb_true_r.
Qed.

Lemma runs_optional k s w xs d :
  k <> program_id -> runs optional_account (AccountMeta.mk k s w :: xs) d (Some k) xs d.
Proof.
  intros Hk. eapply runs_bind; [by apply runs_next|]. cbn.
  rewrite (proj2 (key_eqb_neq _ _) Hk). apply runs_ret.
Qed.

(** The data leads with the function's discriminator. *)
Lemma decode_runs discriminator f xs d op xs' d' :
  length discriminator = 8%nat -> function_of discriminator = Some f ->
  runs f xs d op xs' d' -> decode (mkRequest program_id xs (discriminator ++ d)) = Some op.
Proof.
  intros Hl Hf Hr. unfold decode. cbn [rq_program_id rq_accounts rq_data].
  rewrite key_eqb_refl, take_app_length', drop_app_length', Hf by done. cbn.
  by rewrite Hr.
Qed.

Lemma decode_refuses discriminator xs d :
  length discriminator = 8%nat ->
  (forall f, function_of discriminator = Some f -> refuses f xs d) ->
  decode (mkRequest program_id xs (discriminator ++ d)) = None.
Proof.
  intros Hl Hf. unfold decode. cbn [rq_program_id rq_accounts rq_data].
  rewrite key_eqb_refl, take_app_length', drop_app_length' by done.
  destruct (function_of discriminator) as [f|]; [|done]. cbn. by rewrite (Hf f).
Qed.

Inductive call : Type :=
| AcceptBossCall (a : AcceptBossInstruction.Accounts) (d : AcceptBossInstruction.Data)
| AddAdminCall (a : AddAdminInstruction.Accounts) (d : AddAdminInstruction.Data)
| AddApproverCall (a : AddApproverInstruction.Accounts) (d : AddApproverInstruction.Data)
| AddOfferVectorCall (a : AddOfferVectorInstruction.Accounts) (d : AddOfferVectorInstruction.Data)
| ClearAdminsCall (a : ClearAdminsInstruction.Accounts) (d : ClearAdminsInstruction.Data)
| CloseOfferCall (a : CloseOfferInstruction.Accounts) (d : CloseOfferInstruction.Data)
| CloseStateCall (a : CloseStateInstruction.Accounts) (d : CloseStateInstruction.Data)
| ConfigureMaxSupplyCall (a : ConfigureMaxSupplyInstruction.Accounts)
    (d : ConfigureMaxSupplyInstruction.Data)
| DeleteOfferVectorCall (a : DeleteOfferVectorInstruction.Accounts)
    (d : DeleteOfferVectorInstruction.Data)
| GetApyCall (a : GetApyInstruction.Accounts) (d : GetApyInstruction.Data)
| GetCirculatingSupplyCall (a : GetCirculatingSupplyInstruction.Accounts)
    (d : GetCirculatingSupplyInstruction.Data)
| GetNavCall (a : GetNavInstruction.Accounts) (d : GetNavInstruction.Data)
| GetNavAdjustmentCall (a : GetNavAdjustmentInstruction.Accounts)
    (d : GetNavAdjustmentInstruction.Data)
| GetTvlCall (a : GetTvlInstruction.Accounts) (d : GetTvlInstruction.Data)
| InitializeCall (a : InitializeInstruction.Accounts) (d : InitializeInstruction.Data)
| InitializePermissionlessAuthorityCall (a : InitializePermissionlessAuthorityInstruction.Accounts)
    (d : InitializePermissionlessAuthorityInstruction.Data)
| MakeOfferCall (a : MakeOfferInstruction.Accounts) (d : MakeOfferInstruction.Data)
| MintToCall (a : MintToInstruction.Accounts) (d : MintToInstruction.Data)
| OfferVaultDepositCall (a : OfferVaultDepositInstruction.Accounts)
    (d : OfferVaultDepositInstruction.Data)
| OfferVaultWithdrawCall (a : OfferVaultWithdrawInstruction.Accounts)
    (d : OfferVaultWithdrawInstruction.Data)
| ProposeBossCall (a : ProposeBossInstruction.Accounts) (d : ProposeBossInstruction.Data)
| RemoveAdminCall (a : RemoveAdminInstruction.Accounts) (d : RemoveAdminInstruction.Data)
| RemoveApproverCall (a : RemoveApproverInstruction.Accounts) (d : RemoveApproverInstruction.Data)
| SetKillSwitchCall (a : SetKillSwitchInstruction.Accounts) (d : SetKillSwitchInstruction.Data)
| SetOnycMintCall (a : SetOnycMintInstruction.Accounts) (d : SetOnycMintInstruction.Data)
| TakeOfferCall (a : TakeOfferInstruction.Accounts) (d : TakeOfferInstruction.Data)
| TakeOfferPermissionlessCall (a : TakeOfferPermissionlessInstruction.Accounts)
    (d : TakeOfferPermissionlessInstruction.Data)
| TransferMintAuthorityToBossCall (a : TransferMintAuthorityToBossInstruction.Accounts)
    (d : TransferMintAuthorityToBossInstruction.Data)
| TransferMintAuthorityToProgramCall (a : TransferMintAuthorityToProgramInstruction.Accounts)
    (d : TransferMintAuthorityToProgramInstruction.Data)
| UpdateOfferFeeCall (a : UpdateOfferFeeInstruction.Accounts) (d : UpdateOfferFeeInstruction.Data).

Definition request_of (c : call) : Request :=
  match c with
  | AcceptBossCall a d => AcceptBossInstruction.instruction a d []
  | AddAdminCall a d => AddAdminInstruction.instruction a d []
  | AddApproverCall a d => AddApproverInstruction.instruction a d []
  | AddOfferVectorCall a d => AddOfferVectorInstruction.instruction a d []
  | ClearAdminsCall a d => ClearAdminsInstruction.instruction a d []
  | CloseOfferCall a d => CloseOfferInstruction.instruction a d []
  | CloseStateCall a d => CloseStateInstruction.instruction a d []
  | ConfigureMaxSupplyCall a d => ConfigureMaxSupplyInstruction.instruction a d []
  | DeleteOfferVectorCall a d => DeleteOfferVectorInstruction.instruction a d []
  | GetApyCall a d => GetApyInstruction.instruction a d []
  | GetCirculatingSupplyCall a d => GetCirculatingSupplyInstruction.instruction a d []
  | GetNavCall a d => GetNavInstruction.instruction a d []
  | GetNavAdjustmentCall a d => GetNavAdjustmentInstruction.instruction a d []
  | GetTvlCall a d => GetTvlInstruction.instruction a d []
  | InitializeCall a d => InitializeInstruction.instruction a d []
  | InitializePermissionlessAuthorityCall a d => InitializePermissionlessAuthorityInstruction.instruction a d []
  | MakeOfferCall a d => MakeOfferInstruction.instruction a d []
  | MintToCall a d => MintToInstruction.instruction a d []
  | OfferVaultDepositCall a d => OfferVaultDepositInstruction.instruction a d []
  | OfferVaultWithdrawCall a d => OfferVaultWithdrawInstruction.instruction a d []
  | ProposeBossCall a d => ProposeBossInstruction.instruction a d []
  | RemoveAdminCall a d => RemoveAdminInstruction.instruction a d []
  | RemoveApproverCall a d => RemoveApproverInstruction.instruction a d []
  | SetKillSwitchCall a d => SetKillSwitchInstruction.instruction a d []
  | SetOnycMintCall a d => SetOnycMintInstruction.instruction a d []
  | TakeOfferCall a d => TakeOfferInstruction.instruction a d []
  | TakeOfferPermissionlessCall a d => TakeOfferPermissionlessInstruction.instruction a d []
  | TransferMintAuthorityToBossCall a d => TransferMintAuthorityToBossInstruction.instruction a d []
  | TransferMintAuthorityToProgramCall a d => TransferMintAuthorityToProgramInstruction.instruction a d []
  | UpdateOfferFeeCall a d => UpdateOfferFeeInstruction.instruction a d []
  end.

Definition well_formed (c : call) : Prop :=
  match c with
  | AcceptBossCall (AcceptBossInstruction.mkAccounts state _) _ => state = state_key
  | AddAdminCall (AddAdminInstruction.mkAccounts state _) (AddAdminInstruction.mkData
      new_admin) =>
      state = state_key /\ key32 new_admin
  | AddApproverCall (AddApproverInstruction.mkAccounts state _)
      (AddApproverInstruction.mkData approver) =>
      state = state_key /\ key32 approver
  | AddOfferVectorCall (AddOfferVectorInstruction.mkAccounts _ _ _ state _)
      (AddOfferVectorInstruction.mkData start_time base_time base_price apr price_fix_duration)
      =>
      state = state_key /\ (forall t, start_time = Some t -> 0 <= t <= u64.MAX) /\
      0 <= base_time <= u64.MAX /\ 0 <= base_price <= u64.MAX /\ 0 <= apr <= u64.MAX /\
      0 <= price_fix_duration <= u64.MAX
  | ClearAdminsCall (ClearAdminsInstruction.mkAccounts state _) _ => state = state_key
  | CloseOfferCall _ _ => True
  | CloseStateCall _ _ => True
  | ConfigureMaxSupplyCall (ConfigureMaxSupplyInstruction.mkAccounts state _)
      (ConfigureMaxSupplyInstruction.mkData max_supply) =>
      state = state_key /\ 0 <= max_supply <= u64.MAX
  | DeleteOfferVectorCall (DeleteOfferVectorInstruction.mkAccounts _ _ _ state _)
      (DeleteOfferVectorInstruction.mkData vector_start_time) =>
      state = state_key /\ 0 <= vector_start_time <= u64.MAX
  | GetApyCall _ _ => True
  | GetCirculatingSupplyCall (GetCirculatingSupplyInstruction.mkAccounts _ state
      vault_authority _ token_program) _ =>
      state = state_key /\ vault_authority = offer_vault_authority_key /\
      token_program_id token_program
  | GetNavCall _ _ => True
  | GetNavAdjustmentCall _ _ => True
  | GetTvlCall (GetTvlInstruction.mkAccounts _ _ _ vault_authority _ token_out_program) _ =>
      vault_authority = offer_vault_authority_key /\ token_program_id token_out_program
  | InitializeCall (InitializeInstruction.mkAccounts state mint_authority
      offer_vault_authority _ program_data _) _ =>
      state = state_key /\ mint_authority = mint_authority_key /\
      offer_vault_authority = offer_vault_authority_key /\ program_data <> program_id
  | InitializePermissionlessAuthorityCall
      (InitializePermissionlessAuthorityInstruction.mkAccounts permissionless_authority state
      _) (InitializePermissionlessAuthorityInstruction.mkData name) =>
      permissionless_authority = pda [seeds.PERMISSIONLESS_AUTHORITY] /\ state = state_key /\
      is_string name
  | MakeOfferCall (MakeOfferInstruction.mkAccounts vault_authority _ token_in_program _ _ _
      state _) (MakeOfferInstruction.mkData fee_basis_points _ _) =>
      vault_authority = offer_vault_authority_key /\ token_program_id token_in_program /\
      state = state_key /\ 0 <= fee_basis_points <= u16.MAX
  | MintToCall _ _ => True
  | OfferVaultDepositCall (OfferVaultDepositInstruction.mkAccounts vault_authority _ _ _ _
      _ _) _ =>
      vault_authority = offer_vault_authority_key
  | OfferVaultWithdrawCall (OfferVaultWithdrawInstruction.mkAccounts vault_authority _ _ _
      _ state token_program) (OfferVaultWithdrawInstruction.mkData amount) =>
      vault_authority = offer_vault_authority_key /\ state = state_key /\
      token_program_id token_program /\ 0 <= amount <= u64.MAX
  | ProposeBossCall (ProposeBossInstruction.mkAccounts state _)
      (ProposeBossInstruction.mkData new_boss) =>
      state = state_key /\ key32 new_boss
  | RemoveAdminCall (RemoveAdminInstruction.mkAccounts state _)
      (RemoveAdminInstruction.mkData admin_to_remove) =>
      state = state_key /\ key32 admin_to_remove
  | RemoveApproverCall (RemoveApproverInstruction.mkAccounts state _)
      (RemoveApproverInstruction.mkData approver) =>
      state = state_key /\ key32 approver
  | SetKillSwitchCall (SetKillSwitchInstruction.mkAccounts state _) _ => state = state_key
  | SetOnycMintCall (SetOnycMintInstruction.mkAccounts state _ _) _ => state = state_key
  | TakeOfferCall (TakeOfferInstruction.mkAccounts _ state _ _ _ _ _ token_in_program _
      token_out_program _ _ _ _ _) (TakeOfferInstruction.mkData token_in_amount
      approval_message) =>
      state = state_key /\ token_program_id token_in_program /\
      token_program_id token_out_program /\ 0 <= token_in_amount <= u64.MAX /\
      (forall m, approval_message = Some m -> message_ok m)
  | TakeOfferPermissionlessCall (TakeOfferPermissionlessInstruction.mkAccounts _ state _ _
      _ _ _ _ _ _ token_in_program _ token_out_program _ _ _ _ _)
      (TakeOfferPermissionlessInstruction.mkData token_in_amount approval_message) =>
      state = state_key /\ token_program_id token_in_program /\
      token_program_id token_out_program /\ 0 <= token_in_amount <= u64.MAX /\
      (forall m, approval_message = Some m -> message_ok m)
  | TransferMintAuthorityToBossCall (TransferMintAuthorityToBossInstruction.mkAccounts _
      state _ mint_authority token_program) _ =>
      state = state_key /\ mint_authority = mint_authority_key /\ token_program_id token_program
  | TransferMintAuthorityToProgramCall
      (TransferMintAuthorityToProgramInstruction.mkAccounts _ state _ mint_authority
      token_program) _ =>
      state = state_key /\ mint_authority = mint_authority_key /\ token_program_id token_program
  | UpdateOfferFeeCall (UpdateOfferFeeInstruction.mkAccounts _ _ _ state _)
      (UpdateOfferFeeInstruction.mkData new_fee_basis_points) =>
      state = state_key /\ 0 <= new_fee_basis_points <= u16.MAX
  end.

Definition intended (c : call) : option operation :=
  match c with
  | AcceptBossCall (AcceptBossInstruction.mkAccounts _ new_boss) _ =>
      Some (Handler (AcceptBoss new_boss))
  | AddAdminCall (AddAdminInstruction.mkAccounts _ boss) (AddAdminInstruction.mkData
      new_admin) =>
      Some (Handler (AddAdmin boss new_admin))
  | AddApproverCall (AddApproverInstruction.mkAccounts _ boss)
      (AddApproverInstruction.mkData approver) =>
      Some (Handler (AddApprover boss approver))
  | AddOfferVectorCall (AddOfferVectorInstruction.mkAccounts offer token_in_mint
      token_out_mint _ boss) (AddOfferVectorInstruction.mkData start_time base_time base_price
      apr price_fix_duration) =>
      Some (Handler (AddOfferVector (mkOfferAdmin offer token_in_mint token_out_mint boss)
      start_time base_time base_price apr price_fix_duration))
  | ClearAdminsCall (ClearAdminsInstruction.mkAccounts _ boss) _ =>
      Some (Handler (ClearAdmins boss))
  | CloseOfferCall _ _ => None
  | CloseStateCall (CloseStateInstruction.mkAccounts state boss) _ =>
      Some (CloseState state boss)
  | ConfigureMaxSupplyCall (ConfigureMaxSupplyInstruction.mkAccounts _ boss)
      (ConfigureMaxSupplyInstruction.mkData max_supply) =>
      Some (Handler (ConfigureMaxSupply boss max_supply))
  | DeleteOfferVectorCall (DeleteOfferVectorInstruction.mkAccounts offer token_in_mint
      token_out_mint _ boss) (DeleteOfferVectorInstruction.mkData vector_start_time) =>
      Some (Handler (DeleteOfferVector (mkOfferAdmin offer token_in_mint token_out_mint boss)
      vector_start_time))
  | GetApyCall (GetApyInstruction.mkAccounts offer token_in_mint token_out_mint) _ =>
      Some (Handler (GetApy offer token_in_mint token_out_mint))
  | GetCirculatingSupplyCall (GetCirculatingSupplyInstruction.mkAccounts onyc_mint _ _
      onyc_vault_account token_program) _ =>
      Some (Handler (GetCirculatingSupply onyc_mint onyc_vault_account token_program))
  | GetNavCall (GetNavInstruction.mkAccounts offer token_in_mint token_out_mint) _ =>
      Some (Handler (GetNav offer token_in_mint token_out_mint))
  | GetNavAdjustmentCall (GetNavAdjustmentInstruction.mkAccounts offer token_in_mint
      token_out_mint) _ =>
      Some (Handler (GetNavAdjustment offer token_in_mint token_out_mint))
  | GetTvlCall (GetTvlInstruction.mkAccounts offer token_in_mint token_out_mint _
      vault_token_out_account token_out_program) _ =>
      Some (Handler (GetTvl offer token_in_mint token_out_mint vault_token_out_account
      token_out_program))
  | InitializeCall (InitializeInstruction.mkAccounts _ _ _ boss program_data onyc_mint) _ =>
      Some (Initialize boss program_id (Some program_data) onyc_mint)
  | InitializePermissionlessAuthorityCall
      (InitializePermissionlessAuthorityInstruction.mkAccounts _ _ boss)
      (InitializePermissionlessAuthorityInstruction.mkData name) =>
      Some (InitializePermissionlessAuthority boss name)
  | MakeOfferCall (MakeOfferInstruction.mkAccounts _ token_in_mint token_in_program
      vault_token_in_account token_out_mint offer _ boss) (MakeOfferInstruction.mkData
      fee_basis_points needs_approval allow_permissionless) =>
      Some (Handler (MakeOfferIx (mkMakeOffer token_in_mint token_in_program
      vault_token_in_account token_out_mint offer boss) fee_basis_points needs_approval
      allow_permissionless))
  | MintToCall _ _ => None
  | OfferVaultDepositCall _ _ => None
  | OfferVaultWithdrawCall (OfferVaultWithdrawInstruction.mkAccounts _ token_mint
      boss_token_account vault_token_account boss _ token_program)
      (OfferVaultWithdrawInstruction.mkData amount) =>
      Some (Handler (OfferVaultWithdraw (mkVaultTransfer boss token_mint boss_token_account
      vault_token_account token_program) amount))
  | ProposeBossCall (ProposeBossInstruction.mkAccounts _ boss)
      (ProposeBossInstruction.mkData new_boss) =>
      Some (Handler (ProposeBoss boss new_boss))
  | RemoveAdminCall (RemoveAdminInstruction.mkAccounts _ boss)
      (RemoveAdminInstruction.mkData admin_to_remove) =>
      Some (Handler (RemoveAdmin boss admin_to_remove))
  | RemoveApproverCall (RemoveApproverInstruction.mkAccounts _ boss)
      (RemoveApproverInstruction.mkData approver) =>
      Some (Handler (RemoveApprover boss approver))
  | SetKillSwitchCall (SetKillSwitchInstruction.mkAccounts _ signer)
      (SetKillSwitchInstruction.mkData enable) =>
      Some (Handler (SetKillSwitch signer enable))
  | SetOnycMintCall (SetOnycMintInstruction.mkAccounts _ boss onyc_mint) _ =>
      Some (Handler (SetOnycMint boss onyc_mint))
  | TakeOfferCall (TakeOfferInstruction.mkAccounts offer _ boss vault_authority
      vault_token_in_account vault_token_out_account token_in_mint token_in_program
      token_out_mint token_out_program user_token_in_account user_token_out_account
      boss_token_in_account mint_authority user) (TakeOfferInstruction.mkData token_in_amount
      approval_message) =>
      Some (Handler (TakeOffer (mkTakeOfferBase offer vault_authority vault_token_in_account
      vault_token_out_account token_in_mint token_in_program token_out_mint token_out_program
      user_token_in_account user_token_out_account mint_authority user) boss
      boss_token_in_account instructions_sysvar_id token_in_amount approval_message))
  | TakeOfferPermissionlessCall (TakeOfferPermissionlessInstruction.mkAccounts offer _ boss
      vault_authority vault_token_in_account vault_token_out_account permissionless_authority
      permissionless_token_in_account permissionless_token_out_account token_in_mint
      token_in_program token_out_mint token_out_program user_token_in_account
      user_token_out_account boss_token_in_account mint_authority user)
      (TakeOfferPermissionlessInstruction.mkData token_in_amount _) =>
      Some (Handler (TakeOfferPermissionless (mkTakeOfferBase offer vault_authority
      vault_token_in_account vault_token_out_account token_in_mint token_in_program
      token_out_mint token_out_program user_token_in_account user_token_out_account
      mint_authority user) boss boss_token_in_account permissionless_authority
      permissionless_token_in_account permissionless_token_out_account instructions_sysvar_id
      token_in_amount))
  | TransferMintAuthorityToBossCall (TransferMintAuthorityToBossInstruction.mkAccounts boss
      _ mint _ token_program) _ =>
      Some (Handler (TransferMintAuthorityToBoss boss mint token_program))
  | TransferMintAuthorityToProgramCall
      (TransferMintAuthorityToProgramInstruction.mkAccounts boss _ mint _ token_program) _ =>
      Some (Handler (TransferMintAuthorityToProgram boss mint token_program))
  | UpdateOfferFeeCall (UpdateOfferFeeInstruction.mkAccounts offer token_in_mint
      token_out_mint _ boss) (UpdateOfferFeeInstruction.mkData new_fee_basis_points) =>
      Some (Handler (UpdateOfferFee (mkOfferAdmin offer token_in_mint token_out_mint boss)
      new_fee_basis_points))
  end.


Ltac account_step :=
  first [ apply runs_only | apply runs_mut_only
        | apply runs_token_interface; done | apply runs_optional; done
        | apply runs_next; reflexivity ].
Ltac arg_step :=
  apply runs_arg;
  first [ apply read_u64_app; done | apply read_u16_app; done | apply read_key_app; done
        | apply read_bool_app | apply read_string_app; done
        | apply read_option_app; intros ? ?; apply read_u64_app; by eauto
        | apply read_option_app; intros ? ?; apply read_approval_message_app; by eauto ].
Ltac decoder_step :=
  first [ account_step | arg_step
        | apply runs_ret
        | eapply runs_bind
        | lazymatch goal with
          | |- runs ?m _ _ _ _ _ => let h := head_of m in unfold h
          end ]; cbv beta iota.
Ltac decodes :=
  eapply decode_runs; [reflexivity|reflexivity|];
  cbn -[mbind to_le_bytes key_to_bytes ApprovalMessage.serialize write_string write_option];
  repeat decoder_step.

(** A stale builder: its function takes more accounts than it gives. *)
Ltac takes_step :=
  first [ apply takes_ret | apply takes_next | apply takes_arg
        | eapply takes_bind; [|intros ?; repeat case_match]
        | lazymatch goal with |- takes _ ?m => let h := head_of m in unfold h end ].

Lemma mint_to_takes : takes 15 onreapp.mint_to.
Proof. eapply takes_exactly; [repeat takes_step|reflexivity]. Qed.

Lemma stale_deposit_refused a d :
  OfferVaultDepositInstruction.vault_authority a = offer_vault_authority_key ->
  decode (OfferVaultDepositInstruction.instruction a d []) = None.
Proof using RL.
  intros Ha. apply decode_refuses; [reflexivity|]. intros f [= <-].
  do 2 apply refuses_bind. apply only_refuses. cbn. rewrite Ha.
  unfold offer_vault_authority_key, state_key. by intros [=]%pda_inj.
Qed.

(** C26: the client and the program.  Of the requests the fuzzer's generated client
    builds, given the program's own addresses where the client leaves them to its
    caller, the program understands those of 27 builders, each as the operation and
    with the accounts and arguments the caller meant; it refuses those of the other
    three: [close_offer], a function it no longer has; [mint_to], whose
    account list is too short; and [offer_vault_deposit], whose accounts come in an
    order the program has given up. *)
Theorem builders_understood c : well_formed c -> decode (request_of c) = intended c.
Proof using RL.
  intros Hc. destruct c; try (destruct a, d; cbn -[Z.le key32] in Hc; destruct_and?; subst; solve [decodes]).
  - by apply decode_refuses.
  - apply decode_refuses; [reflexivity|]. intros f [= <-].
    eapply takes_refuses; [apply mint_to_takes|cbn; lia].
  - destruct a. by apply stale_deposit_refused.
Qed.
End client.

(** ** Witness *)

Module ClientSample.
#[export] Instance interface : Interface := { associated_token_program_id := 17%N }.

(** The pair of the sample, its vector starting at a given time. *)
Definition call : call :=
  AddOfferVectorCall
    (AddOfferVectorInstruction.mkAccounts Sample.offer_key Sample.usdc Sample.onyc state_key Sample.boss)
    (AddOfferVectorInstruction.mkData (Some 2000000) 1000000 1000000000 36500 86400).
End ClientSample.

#[local] Existing Instance ClientSample.interface.

Lemma builders_understood_witness :
  decode (request_of ClientSample.call)
  = Some (Handler (AddOfferVector (mkOfferAdmin Sample.offer_key Sample.usdc Sample.onyc Sample.boss)
             (Some 2000000) 1000000 1000000000 36500 86400)).
Proof.
  apply (builders_understood ClientSample.call). cbn [well_formed ClientSample.call].
  split; [reflexivity|]. split; [|repeat split; discriminate].
  intros t [= <-]. split; discriminate.
Defined.
