(* ===== verification/EntryFacts.v ===== *)
(** * From requests to operations

    The theorems of the other files start from operations; a transaction carries
    requests.  What [decode] makes of a request: the account an operation takes for its
    signer has signed, and the arguments are in the ranges of their types, so that a
    request's effect is a step of the history [LifecycleFacts] is about.  *)

From Stdlib Require Import Strings.Byte.
From S2P Require Import World Approval OfferHandlers Buffer Redemption TakeOffer PropAmm Vaults Governance Program Lifecycle Borsh TypedFacts ProgramFacts AuthorityFacts LifecycleFacts Entrypoint Client ClientFacts Samples.
Open Scope Z_scope.
Open Scope list_scope.

(** An account of the request that has signed it. *)
Definition signed (accounts : list AccountMeta.t) (k : Pubkey) : Prop :=
  exists a, a ∈ accounts /\ AccountMeta.pubkey a = k /\ AccountMeta.is_signer a = true.

(** What the runtime sees to: keys have 32 bytes, and nobody has signed with the
    default key, the address of the system program. *)
Definition admitted (accounts : list AccountMeta.t) : Prop :=
  forall a, a ∈ accounts -> key32 (AccountMeta.pubkey a) /\
    (AccountMeta.is_signer a = true -> AccountMeta.pubkey a <> Pubkey_default).

(** The account that must have signed for an operation. *)
Definition operation_signer (op : operation) : option Pubkey :=
  match op with
  | Initialize boss _ _ _ | InitializePermissionlessAuthority boss _ | CloseState _ boss => Some boss
  | Handler i => ProgramFacts.signer i
  end.

(** ** What a decoder ensures of its result *)

Section ensures.
Context (all : list AccountMeta.t).

Definition ensures {A} (m : Decoder A) (Q : A -> Prop) : Prop :=
  forall xs d a xs' d', xs ⊆ all -> runs m xs d a xs' d' -> Q a /\ xs' ⊆ all.

Lemma ensures_bind {A B} (m : Decoder A) (f : A -> Decoder B) Q S :
  ensures m Q -> (forall a, Q a -> ensures (f a) S) -> ensures (m ≫= f) S.
Proof.
  intros Hm Hf xs d b xs' d' Hi H. unfold runs, mbind, Decoder_bind in H.
  destruct (m xs d) as [[[a xs1] d1]|] eqn:E; [|done].
  destruct (Hm xs d a xs1 d1 Hi E) as [Ha Hi']. exact (Hf a Ha xs1 d1 b xs' d' Hi' H).
Qed.
Lemma ensures_assoc {A B C} (m : Decoder A) (f : A -> Decoder B) (g : B -> Decoder C) S :
  ensures (m ≫= fun a => f a ≫= g) S -> ensures ((m ≫= f) ≫= g) S.
Proof.
  intros H xs d c xs' d' Hi E. apply (H xs d c xs' d' Hi). revert E. unfold runs, mbind, Decoder_bind.
  by destruct (m xs d) as [[[? ?] ?]|].
Qed.
Lemma ensures_ret_bind {A B} (a : A) (f : A -> Decoder B) S :
  ensures (f a) S -> ensures (dret a ≫= f) S.
Proof. done. Qed.
Lemma ensures_ret {A} (a : A) (Q : A -> Prop) : Q a -> ensures (dret a) Q.
Proof. intros H xs d b xs' d' Hi [= <- <- <-]. done. Qed.

Lemma ensures_next ok :
  ensures (next_account ok) (fun k => exists a, a ∈ all /\ AccountMeta.pubkey a = k /\ ok a = true).
Proof.
  intros [|a xs] d k xs' d' Hi H; [done|]. unfold runs, next_account in H.
  destruct (ok a) eqn:E; simplify_eq. split; [|set_solver]. exists a. split; [set_solver|done].
Qed.
Lemma ensures_account : ensures account (fun _ => True).
Proof. intros xs d k xs' d' Hi H. by apply ensures_next in H as [_ ?]. Qed.
Lemma ensures_mut_account : ensures mut_account (fun _ => True).
Proof. intros xs d k xs' d' Hi H. by apply ensures_next in H as [_ ?]. Qed.
Lemma ensures_remaining : ensures remaining (fun _ => True).
Proof. intros xs d k xs' d' Hi [= <- <- <-]. split; [done|set_solver]. Qed.

Section admitted.
Context (Hall : admitted all).
Lemma ensures_signer :
  ensures signer (fun k => signed all k /\ k <> Pubkey_default /\ key32 k).
Proof using Hall.
  intros xs d k xs' d' Hi H. apply ensures_next in H as [(a & Ha & <- & Hs) ?]; [|done].
  destruct (Hall a Ha). split_and!; eauto. by exists a.
Qed.
Lemma ensures_mut_signer :
  ensures mut_signer (fun k => signed all k /\ k <> Pubkey_default /\ key32 k).
Proof using Hall.
  intros xs d k xs' d' Hi H. apply ensures_next in H as [(a & Ha & <- & [Hs _]%andb_true_iff) ?]; [|done].
  destruct (Hall a Ha). split_and!; eauto. by exists a.
Qed.
End admitted.

Lemma ensures_only k : ensures (only k) (fun _ => True).
Proof. eapply ensures_bind; [apply ensures_next|]. intros. by apply ensures_ret. Qed.
Lemma ensures_mut_only k : ensures (mut_only k) (fun _ => True).
Proof. eapply ensures_bind; [apply ensures_next|]. intros. by apply ensures_ret. Qed.
Lemma ensures_arg {A} (r : Reader A) (Q : A -> Prop) :
  (forall d a d', r d = Some (a, d') -> Q a) -> ensures (arg r) Q.
Proof.
  intros Hr xs d a xs' d' Hi H. unfold runs, arg in H.
  destruct (r d) as [[a' d1]|] eqn:E; [|done]. cbn in H. simplify_eq. split; [by eapply Hr|done].
Qed.

Lemma read_int_range n d z d' : read_int n d = Some (z, d') -> 0 <= z < 256 ^ Z.of_nat n.
Proof.
  unfold read_int, read_bytes. destruct (decide _) as [Hn|]; [|done]. cbn. intros [= <- _].
  pose proof (from_le_bytes_range (take n d)) as H. by rewrite length_take_le in H.
Qed.
Lemma ensures_u16 : ensures u16_arg (fun z => 0 <= z <= u16.MAX).
Proof.
  apply ensures_arg. intros d z d' H%read_int_range.
  change (256 ^ Z.of_nat 2) with (u16.MAX + 1) in H. lia.
Qed.
Lemma ensures_u32 : ensures u32_arg (fun z => 0 <= z <= u32.MAX).
Proof.
  apply ensures_arg. intros d z d' H%read_int_range.
  change (256 ^ Z.of_nat 4) with (u32.MAX + 1) in H. lia.
Qed.
Lemma ensures_u64 : ensures u64_arg (fun z => 0 <= z <= u64.MAX).
Proof.
  apply ensures_arg. intros d z d' H%read_int_range.
  change (256 ^ Z.of_nat 8) with (u64.MAX + 1) in H. lia.
Qed.
Lemma ensures_i64 : ensures i64_arg (fun z => i64.MIN <= z <= i64.MAX).
Proof.
  apply ensures_arg. unfold read_i64. intros d z d' H.
  destruct (read_int 8 d) as [[x d1]|] eqn:E; [|done]. apply read_int_range in E.
  change (256 ^ Z.of_nat 8) with (2 * (i64.MAX + 1)) in E. cbn -[Z.leb Z.pow] in H.
  change (2 ^ 64) with (2 * (i64.MAX + 1)) in H. assert (i64.MIN = - i64.MAX - 1) by done.
  destruct (Z.leb_spec x i64.MAX); simplify_eq; lia.
Qed.
Lemma ensures_pubkey : ensures pubkey_arg key32.
Proof.
  apply ensures_arg. unfold read_key, read_bytes. intros d k d' H.
  destruct (decide _) as [Hn|]; [|done]. cbn -[key_of_bytes] in H. simplify_eq.
  pose proof (from_le_bytes_range (take 32 d)) as Hr. rewrite length_take_le in Hr by done.
  unfold key32, key_of_bytes. rewrite Z2N.id by lia. apply Hr.
Qed.
Lemma ensures_option_u64 :
  ensures (option_arg (read_int 8)) (fun o => forall z, o = Some z -> 0 <= z).
Proof.
  apply ensures_arg. unfold read_option. intros d o d' H z ->.
  repeat case_match; simplify_eq. destruct (read_int 8 _) as [[x d1]|] eqn:E; [|done].
  cbn in H. simplify_eq. by apply read_int_range in E as [? _].
Qed.
Lemma ensures_any {A} (r : Reader A) : ensures (arg r) (fun _ => True).
Proof. by apply ensures_arg. Qed.
End ensures.








(** ** Every function *)

Section functions.
Context {R : Runtime} {I : Interface}.
Context (all : list AccountMeta.t) (Hall : admitted all).

Definition sound_operation (op : operation) : Prop :=
  (forall s, operation_signer op = Some s -> signed all s) /\ unsigned_operation op.

Lemma ensures_token_interface : ensures all token_interface (fun _ => True).
Proof. intros xs d k xs' d' Hi H. by apply (ensures_next all) in H as [_ ?]. Qed.
Lemma ensures_optional : ensures all optional_account (fun _ => True).
Proof. eapply ensures_bind; [apply ensures_account|]. intros. by apply ensures_ret. Qed.

Ltac ensures_leaf :=
  first
  [ apply ensures_account | apply ensures_mut_account | apply ensures_signer, Hall
  | apply ensures_mut_signer, Hall | apply ensures_only | apply ensures_mut_only
  | apply ensures_token_interface | apply ensures_optional | apply ensures_remaining
  | apply ensures_u16 | apply ensures_u32 | apply ensures_u64 | apply ensures_i64
  | apply ensures_pubkey | apply ensures_option_u64 | apply ensures_any ].
Ltac ensures_step :=
  lazymatch goal with
  | |- ensures _ (mbind _ (mbind _ _)) _ => apply ensures_assoc
  | |- ensures _ (mbind _ (dret _)) _ => apply ensures_ret_bind
  | |- ensures _ (mbind _ ?m) _ =>
      first [ eapply ensures_bind; [ensures_leaf|let H := fresh in intros ? H; cbv beta in H]
            | let h := head_of m in unfold h ]
  end; cbv beta iota.
(** The signer, then the ranges of the arguments. *)
Ltac sound :=
  repeat ensures_step; apply ensures_ret; unfold sound_operation, config_unsigned; cbn;
  destruct_and?; split; [intros ? [=]; subst; assumption|];
  split_and?; try done; try lia; intros ?? [=]; subst; assumption.

Lemma functions_sound : Forall (fun f => ensures all (snd f) sound_operation) functions.
Proof using Hall.
  unfold functions. repeat (apply Forall_cons; split); [..|apply Forall_nil; done]; cbn [snd];
    match goal with |- ensures _ ?m _ => let h := head_of m in unfold h end.
  all: sound.
Qed.
End functions.

Lemma decode_sound `{Runtime} `{Interface} rq op :
  admitted (rq_accounts rq) -> decode rq = Some op -> sound_operation (rq_accounts rq) op.
Proof.
  intros Ha. unfold decode, function_of. destruct (key_eqb _ _); [|done].
  destruct (List.find _ functions) as [[disc f]|] eqn:E; [|done]. cbn.
  apply find_some in E as [Hin _]. pose proof (functions_sound _ Ha) as Hf.
  rewrite List.Forall_forall in Hf. specialize (Hf _ Hin).
  destruct (f (rq_accounts rq) _) as [[[op' xs'] d']|] eqn:Er; [|done]. cbn. intros [= <-].
  by eapply Hf in Er as [? _].
Qed.

(** ** Requests in the history of a deployment *)

Section requests.
Context {R : Runtime} {I : Interface} {P : Platform} {L : Type} {TL : TokenLedger L}.
Context {TLL : TokenLedgerLaws L} {TA : TokenAuthorization L} {TAL : TokenAuthorizationLaws L}.
Implicit Types d : Deployment.t L.

(** Who signs for an operation: the account it names, and the program. *)
Definition operation_signs (op : operation) (s : Pubkey) : Prop :=
  operation_signer op = Some s \/ program_address s.

(** The signatures a request carries, and the program's. *)
Definition request_signs (rq : Request) (s : Pubkey) : Prop :=
  signed (rq_accounts rq) s \/ program_address s.

Lemma run_respects chain tx op d d' :
  run chain tx op d = Ok d' ->
  respects (operation_signs op) (Deployment.others d) (Deployment.others d').
Proof using All.
  intros H. destruct op as [boss program pd onyc|boss name|st boss|i]; cbn [run] in H.
  - apply initialize_Ok in H as (_ & _ & _ & ->). by apply respects_same.
  - unfold initialize_permissionless_authority in H.
    destruct (Deployment.state_account d); [|done]. inv_res. by apply respects_same.
  - apply bind_Ok_inv in H as ([[st' b'] e] & _ & [= <-]). by apply respects_same.
  - assert (Hr : forall w w', exec tx i w = Ok (tt, w') -> respects (operation_signs (Handler i)) w w')
      by (intros w w' Hx; by apply exec_respects in Hx).
    apply (run_handler chain) in H. destruct (Deployment.state_account d) as [s|].
    + destruct H as (w' & H & ->). by apply Hr in H.
    + destruct H as (_ & w' & H & ->). by apply Hr in H.
Qed.

(** C3: what a request can do.  Whatever bytes and accounts anybody sends: if the
    program does not refuse the request, it runs an operation whose signer has signed
    the request, as a step of the deployment's history; a token account loses tokens
    only if a signature of the request, or one of the program's own addresses,
    suffices to take them; and a mint's supply grows only under one of these as its
    mint authority. *)
Theorem requests_authorized chain tx rq op d d' :
  admitted (rq_accounts rq) -> decode rq = Some op -> run chain tx op d = Ok d' ->
  life_step d d' /\
  (forall s, operation_signer op = Some s -> signed (rq_accounts rq) s) /\
  (forall k, (forall s, request_signs rq s -> ~ may_debit (ledger (Deployment.others d)) s k) ->
     balance (ledger (Deployment.others d)) k <= balance (ledger (Deployment.others d')) k) /\
  (forall m, closed_mint (request_signs rq) (ledger (Deployment.others d)) m ->
     supply_of (ledger (Deployment.others d')) m <= supply_of (ledger (Deployment.others d)) m).
Proof using All.
  intros Ha Hd Hrun. destruct (decode_sound _ _ Ha Hd) as [Hs Hu].
  assert (Hsub : forall s, operation_signs op s -> request_signs rq s)
    by (intros s [H|H]; [left; by apply Hs|by right]).
  pose proof (run_respects _ _ _ _ _ Hrun) as Hr. split_and!.
  - by eapply life_run.
  - done.
  - intros k Hk. eapply respects_balance; [exact Hr|]. intros s H. by apply Hk, Hsub.
  - intros m Hm. apply Hr. intros i s Hi Hau H. by apply (Hm i s Hi Hau), Hsub.
Qed.
End requests.

(** ** Witness *)

(** The boss proposes a successor, by the request the client builds. *)
#[local] Existing Instance ClientSample.interface.

Module EntrySample.
Definition request : Request :=
  request_of (ProposeBossCall (ProposeBossInstruction.mkAccounts state_key Sample.boss)
                (ProposeBossInstruction.mkData Sample.user)).
Definition op : operation := Handler (ProposeBoss Sample.boss Sample.user).
End EntrySample.

#[local] Existing Instance Life.sample_platform.
#[local] Existing Instance Life.sample_platform_laws.

Lemma request_admitted : admitted (rq_accounts EntrySample.request).
Proof.
  intros a Hin. apply list_elem_of_In in Hin. destruct Hin as [<-|[<-|[]]]; split; done.
Qed.

Lemma requests_authorized_witness :
  let d' := Life.next EntrySample.op Life.initialized in
  life_step Life.initialized d' /\ signed (rq_accounts EntrySample.request) Sample.boss.
Proof.
  intros d'.
  assert (Hr : run Life.chain Life.tx EntrySample.op Life.initialized = Ok d')
    by (apply next_runs; vm_compute; reflexivity).
  assert (Ha : admitted (rq_accounts EntrySample.request)) by exact request_admitted.
  assert (Hd : decode EntrySample.request = Some EntrySample.op) by (vm_compute; reflexivity).
  destruct (requests_authorized Life.chain Life.tx _ _ _ _ Ha Hd Hr) as (Hs & Hsig & _).
  split; [exact Hs|]. apply Hsig. vm_compute. reflexivity.
Defined.
