(* ===== verification/ClientTypes.v ===== *)
(** * The fuzzer's view of the accounts

    The account types of [src/trident-tests/fuzz_0/types.rs], which the fuzzer reads its
    [State] and [Offer] accounts with, past the discriminator.  They date from an older
    program, whose reserved bytes have since got fields: [client_reads_accounts] says
    that all else is where the fuzzer looks for it, so that [Harness] and [FuzzTest]
    may work on the program's own [State.t] and [Offer.t].

    The events among the types ([AdminAddedEvent] and the rest) are used by nothing.  *)

From Stdlib Require Import Strings.Byte.
From S2P Require Import World Approval Lifecycle Borsh Samples LifecycleFacts.
Import Layout.
Open Scope Z_scope.
Open Scope list_scope.

(** ** The types *)

Module ClientState.
Record t : Type := mk {
  boss : Pubkey;
  proposed_boss : Pubkey;
  is_killed : bool;
  onyc_mint : Pubkey;
  admins : list Pubkey;
  approver1 : Pubkey;
  approver2 : Pubkey;
  bump : Z;
  max_supply : Z;
  reserved : list byte
}.

Definition deserialize : Reader t := fun bs =>
  '(boss, bs) ← read_key bs;
  '(proposed_boss, bs) ← read_key bs;
  '(is_killed, bs) ← read_bool bs;
  '(onyc_mint, bs) ← read_key bs;
  '(admins, bs) ← read_keys 20 bs;
  '(approver1, bs) ← read_key bs;
  '(approver2, bs) ← read_key bs;
  '(bump, bs) ← read_int 1 bs;
  '(max_supply, bs) ← read_int 8 bs;
  '(reserved, bs) ← read_bytes 128 bs;
  Some (mk boss proposed_boss is_killed onyc_mint admins approver1 approver2 bump max_supply
          reserved, bs).
End ClientState.

(** The client's vectors have the fields of the program's. *)
Module ClientOfferVector.
Definition deserialize : Reader OfferVector.t := fun bs =>
  '(start_time, bs) ← read_int 8 bs;
  '(base_time, bs) ← read_int 8 bs;
  '(base_price, bs) ← read_int 8 bs;
  '(apr, bs) ← read_int 8 bs;
  '(price_fix_duration, bs) ← read_int 8 bs;
  Some (OfferVector.mk start_time base_time base_price apr price_fix_duration, bs).
End ClientOfferVector.

(** An array of [n]. *)
Fixpoint read_array {A} (r : Reader A) (n : nat) : Reader (list A) := fun bs =>
  match n with
  | O => Some ([], bs)
  | S n => '(a, bs) ← r bs; '(l, bs) ← read_array r n bs; Some (a :: l, bs)
  end.

Module ClientOffer.
Record t : Type := mk {
  token_in_mint : Pubkey;
  token_out_mint : Pubkey;
  vectors : list OfferVector.t;
  fee_basis_points : Z;
  bump : Z;
  needs_approval : Z;
  allow_permissionless : Z;
  reserved : list byte
}.

Definition deserialize : Reader t := fun bs =>
  '(token_in_mint, bs) ← read_key bs;
  '(token_out_mint, bs) ← read_key bs;
  '(vectors, bs) ← read_array ClientOfferVector.deserialize 10 bs;
  '(fee_basis_points, bs) ← read_int 2 bs;
  '(bump, bs) ← read_int 1 bs;
  '(needs_approval, bs) ← read_int 1 bs;
  '(allow_permissionless, bs) ← read_int 1 bs;
  '(reserved, bs) ← read_bytes 131 bs;
  Some (mk token_in_mint token_out_mint vectors fee_basis_points bump needs_approval
          allow_permissionless reserved, bs).
End ClientOffer.

(** ** The program's [Offer] account *)

(** A zero-copy account: its fields in order ([repr(C)]; every offset is aligned, so
    there is no padding), integers little-endian. *)
Module OfferLayout.
Definition serialize_vector (v : OfferVector.t) : list byte :=
  to_le_bytes 8 (OfferVector.start_time v) ++ to_le_bytes 8 (OfferVector.base_time v)
  ++ to_le_bytes 8 (OfferVector.base_price v) ++ to_le_bytes 8 (OfferVector.apr v)
  ++ to_le_bytes 8 (OfferVector.price_fix_duration v).
Definition reserved : list byte := replicate 128 x00.
Definition serialize (o : Offer.t) : list byte :=
  key_to_bytes (Offer.token_in_mint o) ++ key_to_bytes (Offer.token_out_mint o)
  ++ concat (map serialize_vector (Offer.vectors o))
  ++ to_le_bytes 2 (Offer.fee_basis_points o) ++ to_le_bytes 1 (Offer.bump o)
  ++ to_le_bytes 1 (Offer.needs_approval_flag o) ++ to_le_bytes 1 (Offer.allow_permissionless_flag o)
  ++ to_le_bytes 1 (Offer.disabled o) ++ to_le_bytes 2 (Offer.fee_basis_points_permissionless o)
  ++ reserved.
End OfferLayout.

(** The fields are in the range of their types. *)
Definition vector_in_range (v : OfferVector.t) : Prop :=
  0 <= OfferVector.start_time v <= u64.MAX /\ 0 <= OfferVector.base_time v <= u64.MAX /\
  0 <= OfferVector.base_price v <= u64.MAX /\ 0 <= OfferVector.apr v <= u64.MAX /\
  0 <= OfferVector.price_fix_duration v <= u64.MAX.
Record offer_in_range (o : Offer.t) : Prop := {
  or_in : key32 (Offer.token_in_mint o);
  or_out : key32 (Offer.token_out_mint o);
  or_vectors : Forall vector_in_range (Offer.vectors o);
  or_length : length (Offer.vectors o) = MAX_VECTORS;
  or_fee : 0 <= Offer.fee_basis_points o <= u16.MAX;
  or_bump : 0 <= Offer.bump o <= 255;
  or_approval : 0 <= Offer.needs_approval_flag o <= 255;
  or_permissionless : 0 <= Offer.allow_permissionless_flag o <= 255
}.

(** ** Reading *)

Lemma read_u8_app z rest : 0 <= z <= 255 -> read_int 1 (to_le_bytes 1 z ++ rest) = Some (z, rest).
Proof. intros Hz. apply read_int_app. cbn; lia. Qed.

Lemma read_vector_app v rest :
  vector_in_range v ->
  ClientOfferVector.deserialize (OfferLayout.serialize_vector v ++ rest) = Some (v, rest).
Proof.
  intros (?&?&?&?&?). unfold ClientOfferVector.deserialize, OfferLayout.serialize_vector.
  rewrite <-!app_assoc. repeat (rewrite read_u64_app by done; cbn [mbind option_bind]). by destruct v.
Qed.

Lemma read_array_app {A} (r : Reader A) (write : A -> list byte) (ok : A -> Prop) l n rest :
  (forall a rest, ok a -> r (write a ++ rest) = Some (a, rest)) ->
  length l = n -> Forall ok l -> read_array r n (concat (map write l) ++ rest) = Some (l, rest).
Proof.
  intros Hr <- Hl. induction Hl as [|a l Ha _ IH]; [done|].
  cbn [read_array length map concat]. rewrite <-app_assoc, Hr by done. cbn [mbind option_bind].
  by rewrite IH.
Qed.

(** The rest of the account is where the client has reserved bytes. *)
Lemma read_bytes_all n l : length l = n -> read_bytes n l = Some (l, []).
Proof. intros Hl. rewrite <-(app_nil_r l) at 1. by apply read_bytes_app. Qed.

Ltac read_fields :=
  repeat first
    [ rewrite read_key_app by done | rewrite read_bool_app | rewrite read_keys_app by done
    | rewrite (read_array_app _ _ vector_in_range) by (done || apply read_vector_app)
    | rewrite read_u8_app by done | rewrite read_u16_app by done | rewrite read_u64_app by done
    | progress cbn [mbind option_bind] ].

(** C39: the fuzzer reads what the program wrote.  Of a [State] and of an [Offer] account
    whose fields are in the range of their types, the client's older types read every
    field they have in common with the program's, to the last byte of the account;
    what they call reserved are the fields added since: worker, mint limit and
    main offer, and the disabled flag and permissionless fee. *)
Theorem client_reads_accounts s o :
  state_typed s -> offer_in_range o ->
  ClientState.deserialize (StateLayout.serialize s)
  = Some (ClientState.mk (State.boss s) (State.proposed_boss s) (State.is_killed s)
            (State.onyc_mint s) (State.admins s) (State.approver1 s) (State.approver2 s)
            (State.bump s) (State.max_supply s)
            (key_to_bytes (State.worker s) ++ to_le_bytes 8 (State.max_mint_amount s)
             ++ key_to_bytes (State.main_offer s) ++ StateLayout.reserved), []) /\
  ClientOffer.deserialize (OfferLayout.serialize o)
  = Some (ClientOffer.mk (Offer.token_in_mint o) (Offer.token_out_mint o) (Offer.vectors o)
            (Offer.fee_basis_points o) (Offer.bump o) (Offer.needs_approval_flag o)
            (Offer.allow_permissionless_flag o)
            (to_le_bytes 1 (Offer.disabled o)
             ++ to_le_bytes 2 (Offer.fee_basis_points_permissionless o) ++ OfferLayout.reserved), []).
Proof.
  intros [] []. split.
  - unfold ClientState.deserialize, StateLayout.serialize. read_fields.
    rewrite read_bytes_all; [done|].
    by rewrite !length_app, !key_bytes_length, to_le_bytes_length.
  - unfold ClientOffer.deserialize, OfferLayout.serialize. read_fields.
    rewrite read_bytes_all; [done|]. by rewrite !length_app, !to_le_bytes_length.
Qed.

(** ** Witness *)

Lemma sample_offer_in_range : offer_in_range Sample.offer.
Proof.
  split; try done; [|cbn; zlia..].
  repeat (apply List.Forall_cons; [repeat split; discriminate|]). apply List.Forall_nil.
Qed.

Lemma small_key32 k : (k <? 1000)%N = true -> key32 k.
Proof. intros Hk%N.ltb_lt. unfold key32. transitivity 1000; [lia|reflexivity]. Qed.

Lemma client_reads_accounts_witness :
  let s := State.with_main_offer 301%N Sample.state in
  option_map (fun r => ClientState.boss (fst r)) (ClientState.deserialize (StateLayout.serialize s))
  = Some Sample.boss /\
  option_map (fun r => ClientOffer.vectors (fst r)) (ClientOffer.deserialize (OfferLayout.serialize Sample.offer))
  = Some (Offer.vectors Sample.offer).
Proof.
  intros s. destruct (client_reads_accounts s Sample.offer) as [Hs Ho]; [|exact sample_offer_in_range|].
  - split; try (apply small_key32; reflexivity); try reflexivity; try (split; discriminate).
    repeat (apply List.Forall_cons; [apply small_key32; reflexivity|]). apply List.Forall_nil.
  - rewrite Hs, Ho. split; reflexivity.
Defined.
