(* ===== verification/Panics.v ===== *)
(** * Computations that cannot panic

    A panic - an arithmetic operator that overflows, a division by zero, an [unwrap] of
    nothing - is the outcome [Err Panicked].  Computations that cannot panic are
    [calm].  What the others need is the invariant [sane]: a live clock, well-formed
    offers, an accrual in the past, and mints that come from the ledger [l0] the
    instruction started on; every instruction keeps it.  The tactics [calm] and [sane]
    follow the code.  *)

From stdpp Require Import relations.
From S2P Require Import World MathUtils OfferPricing Approval TokenUtils OfferHandlers MarketInfo Buffer Vaults Redemption TakeOffer PropAmmMath PropAmm Governance Program Lifecycle Frames Samples MarketFacts BufferFacts AccountFacts RedemptionFacts RedemptionInvariant TypedFacts StoreInvariant LifecycleFacts.
Open Scope Z_scope.

(** ** Computations that cannot panic *)

Lemma map_err_no_panic {A} (r : Result A) f :
  r <> Err Panicked -> (forall e, f e <> Panicked) -> map_err r f <> Err Panicked.
Proof. intros Hr Hf. destruct r as [|[]]; cbn; try congruence; intros [= H]; by eapply Hf. Qed.

Lemma ok_or_no_panic {A} (o : option A) e : e <> Panicked -> ok_or o e <> Err Panicked.
Proof. destruct o; cbn; congruence. Qed.

Lemma require_no_panic c e : e <> Panicked -> require c e <> Err Panicked.
Proof. destruct c; cbn; congruence. Qed.

Lemma panicking_Some {A} (o : option A) a : o = Some a -> panicking o <> Err Panicked.
Proof. by intros ->. Qed.

(** One step into a computation of results; [pure] proves the known ones. *)
Create HintDb pure.
Ltac pure_step :=
  lazymatch goal with
  | |- Ok _ <> _ => discriminate
  | |- Err _ <> _ => discriminate
  | |- mret _ <> _ => discriminate
  | |- mbind _ _ <> _ => apply bind_no_panic; [|intros ? ?]
  | |- require_onre _ _ <> _ => apply require_onre_no_panic
  | |- ok_or_onre _ _ <> _ => apply ok_or_onre_no_panic
  | |- require _ _ <> _ => apply require_no_panic; discriminate
  | |- ok_or _ _ <> _ => apply ok_or_no_panic; discriminate
  | |- map_err _ _ <> _ => apply map_err_no_panic; [|discriminate]
  | |- panicking _ <> _ => fail
  | |- (match ?x with _ => _ end) <> _ => destruct x eqn:?
  | |- (let x := _ in _) <> _ => cbv zeta
  | |- ?m <> _ => let h := head_of m in unfold h
  end.
Ltac pure := repeat first [solve [eauto 2 with pure] | pure_step].

Definition calm {L A} (m : M L A) : Prop := forall w, m w <> Err Panicked.

Section calm.
Context {L : Type}.

Lemma calm_ret {A} (a : A) : calm (L := L) (mret a).
Proof. done. Qed.
Lemma calm_bind {A B} (m : M L A) (f : A -> M L B) :
  calm m -> (forall a, calm (f a)) -> calm (m ≫= f).
Proof.
  intros Hm Hf w. unfold mbind, M_bind. specialize (Hm w).
  destruct (m w) as [[a w']|]; [apply Hf|congruence].
Qed.
Lemma calm_lift {A} (r : Result A) : r <> Err Panicked -> calm (L := L) (lift r).
Proof. intros Hr w. unfold lift. destruct r; congruence. Qed.
Lemma calm_fail {A} e : e <> Panicked -> calm (L := L) (fail (A := A) e).
Proof. intros He w. unfold fail. congruence. Qed.
Lemma calm_gets {A} (f : World L -> A) : calm (gets f).
Proof. done. Qed.
Lemma calm_modify (f : World L -> World L) : calm (modify f).
Proof. done. Qed.
Lemma calm_guard c e : calm (L := L) (guard c e).
Proof. apply calm_lift, require_onre_no_panic. Qed.
Lemma calm_constraint c e : calm (L := L) (constraint c e).
Proof. by apply calm_lift, require_no_panic. Qed.
Lemma calm_when (c : bool) (m : M L unit) : calm m -> calm (when c m).
Proof. by destruct c. Qed.
Lemma calm_emit n fs : calm (L := L) (emit n fs).
Proof. done. Qed.
Lemma calm_invoke f : calm (L := L) (invoke f).
Proof. intros w. unfold invoke. by destruct (f _). Qed.
Lemma calm_load_account {A} (f : World L -> gmap Pubkey A) k : calm (load_account f k).
Proof. intros w. unfold load_account. by destruct (f w !! k). Qed.
Lemma calm_for_each {A} (xs : list A) (f : A -> M L unit) : (forall x, calm (f x)) -> calm (for_each xs f).
Proof. intros Hf. induction xs; cbn; [done|]. by apply calm_bind. Qed.
Lemma calm_attempt {A} (m : M L A) : calm m -> calm (attempt m).
Proof. intros Hm w. unfold attempt. specialize (Hm w). by destruct (m w) as [[]|[]]. Qed.

Context {R : Runtime} {TL : TokenLedger L}.
Lemma calm_load_mint k : calm (load_mint k).
Proof. intros w. unfold load_mint. by destruct (ledger_mint _ _). Qed.
Lemma calm_load_token_account k : calm (load_token_account k).
Proof. intros w. unfold load_token_account. by destruct (ledger_account _ _). Qed.
End calm.

Ltac calm_step :=
  lazymatch goal with
  | |- calm (mbind _ _) => apply calm_bind; [|intros ?; cbv beta]
  | |- calm (mret _) => apply calm_ret
  | |- calm (lift _) => apply calm_lift; solve [pure]
  | |- calm (fail _) => apply calm_fail; discriminate
  | |- calm (gets _) => apply calm_gets
  | |- calm (modify _) => apply calm_modify
  | |- calm (guard _ _) => apply calm_guard
  | |- calm (constraint _ _) => apply calm_constraint
  | |- calm (when _ _) => apply calm_when
  | |- calm (emit _ _) => apply calm_emit
  | |- calm (invoke _) => apply calm_invoke
  | |- calm (load_account _ _) => apply calm_load_account
  | |- calm (load_mint _) => apply calm_load_mint
  | |- calm (load_token_account _) => apply calm_load_token_account
  | |- calm (attempt _) => apply calm_attempt
  | |- calm (for_each _ _) => apply calm_for_each; intros ?
  | |- calm (match ?x with _ => _ end) => destruct x
  | |- calm (let x := _ in _) => cbv zeta
  | |- calm ?m => let h := head_of m in unfold h
  end.
Ltac calm := repeat calm_step.

Section calm_token.
Context {R : Runtime} {L : Type} {TL : TokenLedger L}.

Lemma calm_sum_excluded m tp l x : calm (L := L) (sum_excluded m tp l x).
Proof.
  revert x. induction l as [|[o k] l IH]; intros x; cbn; [done|].
  calm_step; [calm|]. calm_step; [calm|]. repeat (calm_step; [calm|]). apply IH.
Qed.

Lemma validate_unique_no_panic previous owners : validate_unique_from previous owners <> Err Panicked.
Proof.
  revert previous. induction owners as [|o os IH]; intros previous; cbn [validate_unique_from]; [done|].
  apply bind_no_panic; [pure|intros _ _; apply IH].
Qed.

Lemma calm_update_balance m tp k l : calm (L := L) (update_circulating_supply_excluded_balance m tp k l).
Proof.
  unfold update_circulating_supply_excluded_balance. repeat first [apply calm_sum_excluded | calm_step].
Qed.
End calm_token.

(** ** Computations that panic on some arguments *)

Lemma slot_positive vs v :
  vectors_wf vs -> live vs v -> 0 < OfferVector.price_fix_duration v /\ 0 < OfferVector.base_time v.
Proof.
  intros Hwf [Hin Hne].
  destruct (proj1 (List.Forall_forall slot_wf _) (wf_slots _ Hwf) v Hin) as [->|(_ & ? & _ & ?)]; done.
Qed.

Lemma step_price_no_panic apr bp bt d t :
  d <> 0 -> calculate_step_price_at apr bp bt d t <> Err Panicked.
Proof.
  intros Hd. unfold calculate_step_price_at, overflow. no_panic; [|apply calculate_vector_price_no_panic].
  unfold panicking, u128.checked_div. by rewrite (proj2 (Z.eqb_neq _ 0)).
Qed.

Lemma price_no_panic vs v t :
  vectors_wf vs -> live vs v ->
  calculate_step_price_at (OfferVector.apr v) (OfferVector.base_price v) (OfferVector.base_time v)
    (OfferVector.price_fix_duration v) t <> Err Panicked.
Proof. intros Hwf Hv. destruct (slot_positive _ _ Hwf Hv). apply step_price_no_panic. lia. Qed.

Lemma find_active_no_panic o t : find_active_vector_at o t <> Err Panicked.
Proof. pure. Qed.

Section offer.
Context (o : Offer.t) (Hwf : vectors_wf (Offer.vectors o)).

Lemma active_no_panic t : get_active_vector_and_current_price o t <> Err Panicked.
Proof using All.
  unfold get_active_vector_and_current_price. apply bind_no_panic; [apply find_active_no_panic|].
  intros v Hv. apply find_active_Ok in Hv as (Hv & _). apply bind_no_panic; [by eapply price_no_panic|done].
Qed.

Lemma current_price_no_panic t : compute_offer_current_price o t <> Err Panicked.
Proof using All.
  unfold compute_offer_current_price. apply bind_no_panic; [apply active_no_panic|]. by intros [].
Qed.

Lemma previous_live t v : find_previous_vector o t = Some v -> live (Offer.vectors o) v.
Proof.
  unfold find_previous_vector. intros H. apply max_by_key_Some in H as [Hin _].
  apply filter_In in Hin as [Hin H]. split; [done|].
  apply andb_true_iff in H as [H%negb_true_iff%Z.eqb_neq _]. done.
Qed.

Lemma adjustment_no_panic v :
  live (Offer.vectors o) v -> get_nav_adjustment_snapshot o v <> Err Panicked.
Proof using All.
  intros Hv. unfold get_nav_adjustment_snapshot, compute_vector_price_at_time.
  apply bind_no_panic; [by eapply price_no_panic|intros p _].
  destruct (find_previous_vector o _) eqn:E; [|pure].
  apply previous_live in E. apply bind_no_panic; [by eapply price_no_panic|intros q _]. pure.
Qed.

Lemma nav_adjustment_no_panic v :
  live (Offer.vectors o) v -> calculate_nav_adjustment o v <> Err Panicked.
Proof using All.
  intros Hv. unfold calculate_nav_adjustment.
  apply bind_no_panic; [|done]. apply map_err_no_panic; [by apply adjustment_no_panic|done].
Qed.

Lemma process_offer_no_panic x a din b dout t fee :
  process_offer_core_at o x a din b dout t fee <> Err Panicked.
Proof using All.
  unfold process_offer_core_at. do 2 (apply bind_no_panic; [pure|intros _ _]).
  apply bind_no_panic; [apply find_active_no_panic|intros v Hv]. apply find_active_Ok in Hv as (Hv & _).
  apply bind_no_panic; [by eapply price_no_panic|intros p _]. pure.
Qed.

(** The next price change: at a time of the clock's type the step count is small. *)
Lemma next_change_no_panic v t :
  live (Offer.vectors o) v -> 0 <= t <= i64.MAX ->
  compute_next_price_change_timestamp o v t <> Err Panicked.
Proof using All.
  intros Hv Ht. destruct (slot_positive _ _ Hwf Hv) as [Hd Hb].
  unfold compute_next_price_change_timestamp, overflow. cbv zeta.
  set (e := u64.saturating_sub t (OfferVector.base_time v)).
  assert (0 <= e <= i64.MAX) as He by (subst e; unfold u64.saturating_sub, clamp; zlia).
  unfold u128.checked_div. rewrite (proj2 (Z.eqb_neq _ 0)) by lia. run_res.
  assert (0 <= e / OfferVector.price_fix_duration v <= e) by (split; [apply Z.div_pos; lia|apply Z.div_le_upper_bound; nia]).
  apply bind_no_panic; [|intros s _; pure].
  eapply panicking_Some. unfold u64.checked_add. apply checked_ok. zlia.
Qed.

Lemma valuation_no_panic t :
  0 <= t <= i64.MAX -> get_offer_valuation_snapshot o t <> Err Panicked.
Proof using All.
  intros Ht. unfold get_offer_valuation_snapshot.
  apply bind_no_panic; [apply active_no_panic|intros [v p] Hv].
  unfold get_active_vector_and_current_price in Hv. inv_res.
  match goal with H : find_active_vector_at _ _ = Ok _ |- _ => apply find_active_Ok in H as (Hl & _) end.
  apply bind_no_panic; [by apply next_change_no_panic|done].
Qed.

(** Cleaning subtracts one from the start of the active vector, which is not zero. *)
Lemma clean_no_panic v now :
  0 < now <= u64.MAX -> clean_old_vectors o v now <> Err Panicked.
Proof using All.
  intros Hn. unfold clean_old_vectors. cbv zeta.
  assert (forall a e, 0 < OfferVector.start_time a <= u64.MAX ->
    panicking (u64.checked_sub (OfferVector.start_time a) 1) <> Err e) as Hs.
  { intros a e Ha. unfold u64.checked_sub. rewrite checked_ok by zlia. done. }
  destruct (Z.eqb_spec (OfferVector.start_time v) now) as [E|_].
  - apply bind_no_panic; [apply Hs; lia|done].
  - destruct (find_active_vector_at o now) as [a|] eqn:Ea; [|done].
    apply find_active_Ok in Ea as (Hl & Ht & _).
    apply bind_no_panic; [apply Hs|done]. split; [|lia].
    destruct Hl as [Hin Hne]. destruct (proj1 (List.Forall_forall slot_wf _) (wf_slots _ Hwf) a Hin) as [->|]; [done|lia].
Qed.

Lemma add_vector_no_panic v now :
  0 < now <= u64.MAX -> add_vector o now v <> Err Panicked.
Proof using All.
  intros Hn. unfold add_vector. apply bind_no_panic; [pure|intros _ _].
  apply bind_no_panic; [by apply clean_no_panic|intros [] _]. pure.
Qed.
End offer.

(** The powers of ten of a redemption and of the refill fit 128 bits up to 38
    decimals. *)
Lemma pow10_fits d : 0 <= d <= 38 -> u128.checked_pow 10 d = Some (10 ^ d).
Proof.
  intros [H0 Hd]. unfold u128.checked_pow. apply checked_ok. split; [apply Z.pow_nonneg; lia|].
  transitivity (10 ^ 38); [by apply Z.pow_le_mono_r|zlia].
Qed.

Lemma payout_no_panic net price din dout :
  0 <= din <= 38 -> 0 <= dout <= 38 -> redemption_payout net price din dout <> Err Panicked.
Proof.
  intros Hi Ho. unfold redemption_payout, overflow. rewrite !pow10_fits by (unfold PRICE_DECIMALS; lia).
  apply bind_no_panic; [pure|intros v _]. run_res. apply bind_no_panic; [pure|intros n _].
  apply bind_no_panic; [pure|intros d Hd]. inv_res. inv_checked.
  apply bind_no_panic; [|intros x _; pure].
  assert (0 < 10 ^ din) by (apply Z.pow_pos_nonneg; lia).
  unfold u128.checked_div. rewrite (proj2 (Z.eqb_neq _ 0)); [done|]. unfold PRICE_DECIMALS in *. lia.
Qed.

Lemma redemption_no_panic o t x min fee m m' :
  vectors_wf (Offer.vectors o) -> 0 <= decimals m <= 38 -> 0 <= decimals m' <= 38 ->
  process_redemption_core o t x m m' fee min <> Err Panicked.
Proof.
  intros Ho Hm Hm'. unfold process_redemption_core.
  apply bind_no_panic; [by apply current_price_no_panic|intros p _].
  apply bind_no_panic; [pure|intros f _]. apply bind_no_panic; [by apply payout_no_panic|done].
Qed.

Lemma refill_no_panic s bps din dout b net :
  0 <= din <= 38 -> 0 <= dout <= 38 -> refill_amount s bps din dout b net <> Err Panicked.
Proof.
  intros Hi Ho. unfold refill_amount. apply bind_no_panic; [|intros x _; pure].
  destruct s; [|done]. by rewrite !pow10_fits.
Qed.

(** The logarithm of a utilization is not negative in its fixed-point format. *)
Lemma log_terms_nonneg ds z2 term sum : 0 <= sum -> 0 <= log_terms ds z2 term sum.
Proof.
  revert term sum. induction ds as [|d ds IH]; intros term sum Hs; cbn [log_terms]; [done|].
  apply IH. unfold u128.saturating_add, clamp. lia.
Qed.

Lemma log2_integer_q_nonneg v : 0 <= log2_integer_q v <= i128.MAX.
Proof.
  unfold log2_integer_q. cbv zeta. unfold i128.saturating_add, clamp at 1. split; [|zlia].
  assert (0 <= Z.log2 v) by apply Z.log2_nonneg.
  match goal with |- context [Z.shiftr ?a POW_APPROX_Q_SHIFT] => idtac end.
  apply Z.max_le_iff. right. apply Z.min_glb; [zlia|].
  apply Z.add_nonneg_nonneg.
  - unfold i128.saturating_mul, clamp, POW_APPROX_Q. apply Z.max_le_iff. right.
    apply Z.min_glb; [zlia|]. apply Z.mul_nonneg_nonneg; [done|]. by vm_compute.
  - apply Z.shiftr_nonneg. unfold u128.saturating_mul, clamp. lia.
Qed.

Lemma log2_scaled_no_panic v : log2_hard_wall_scaled_q v <> Err Panicked.
Proof.
  eapply panicking_Some. unfold i128.checked_sub. apply checked_ok.
  pose proof (log2_integer_q_nonneg v). unfold LOG2_HARD_WALL_SCALE_Q. zlia.
Qed.

#[export] Hint Resolve validate_unique_no_panic calculate_vector_price_no_panic log2_scaled_no_panic find_active_no_panic : pure.

(** ** The invariant of the accounts *)

Create HintDb sane.

Section sane.
Context {R : Runtime} {L : Type} {TL : TokenLedger L} {TLL : TokenLedgerLaws L}.
Context (l0 : L).
Implicit Types w : World L.

Definition clock_sane (c : Clock.t) : Prop := 0 < Clock.unix_timestamp c <= i64.MAX.
Definition offer_sane (o : Offer.t) : Prop := vectors_wf (Offer.vectors o).
Definition buffer_sane (b : BufferState.t) : Prop := 0 <= BufferState.last_accrual_timestamp b.

(** A mint descends from another: the same decimals, no authority lost. *)
Definition descends (m m0 : Mint.t) : Prop :=
  Mint.decimals m = Mint.decimals m0 /\ (Mint.mint_authority m = None -> Mint.mint_authority m0 = None).

(** A snapshot of the mint [k]. *)
Definition mint_at (k : Pubkey) (m : MintAccount) : Prop :=
  mint_key m = k /\ 0 <= decimals m <= 255 /\
  exists m0, ledger_mint l0 k = Some m0 /\ descends (mint_data m) m0.

(** A live clock, well-formed vectors, an accrual in the past, the mints of [l0]. *)
Record sane w : Prop := {
  sane_clock : clock_sane (clock w);
  sane_offer k o : offers w !! k = Some o -> offer_sane o;
  sane_buffer b : buffer_state w = Loaded b -> buffer_sane b;
  sane_mint k m : ledger_mint (ledger w) k = Some m ->
    exists m0, ledger_mint l0 k = Some m0 /\ descends m m0
}.

(** What keeps it: the accounts stay, the mints descend. *)
Definition settled_view w := (clock w, offers w, buffer_state w).
Definition undisturbed : relation (World L) := fun w w' =>
  settled_view w' = settled_view w /\
  forall k m', ledger_mint (ledger w') k = Some m' ->
    exists m, ledger_mint (ledger w) k = Some m /\ descends m' m.

Lemma descends_refl m : descends m m.
Proof. by split. Qed.
Lemma descends_trans m1 m2 m3 : descends m3 m2 -> descends m2 m1 -> descends m3 m1.
Proof. intros [E1 H1] [E2 H2]. split; [congruence|auto]. Qed.

#[local] Instance undisturbed_preorder : PreOrder undisturbed.
Proof.
  split; [intros w; split; eauto using descends_refl|].
  intros w1 w2 w3 [E1 H1] [E2 H2]. split; [congruence|].
  intros k m Hm. destruct (H2 k m Hm) as (m' & Hm' & Hd'). destruct (H1 k m' Hm') as (m'' & ? & ?).
  eauto using descends_trans.
Qed.

Lemma undisturbed_same w w' :
  settled_view w' = settled_view w -> (forall k, ledger_mint (ledger w') k = ledger_mint (ledger w) k) ->
  undisturbed w w'.
Proof. intros E Hl. split; [done|]. intros k m. rewrite Hl. eauto using descends_refl. Qed.

Lemma sane_undisturbed w w' : undisturbed w w' -> sane w -> sane w'.
Proof.
  intros [[= Ec Eo Eb] Hm] []. split; rewrite ?Ec, ?Eo, ?Eb; auto.
  intros k m H. destruct (Hm k m H) as (m1 & H1 & Hd1). destruct (sane_mint0 k m1 H1) as (m0 & ? & ?).
  eauto using descends_trans.
Qed.

(** The token programs. *)
Lemma undisturbed_transfer pr m from to auth x d w l :
  transfer_checked pr m from to auth x d (ledger w) = Some l -> undisturbed w (set_ledger l w).
Proof using TLL. intros H. apply transfer_effect in H as (_ & H & _). by apply undisturbed_same. Qed.

Lemma undisturbed_create auth m p w l :
  create_associated_account auth m p (ledger w) = Some l -> undisturbed w (set_ledger l w).
Proof using TLL. intros H. apply create_effect in H as (H & _). by apply undisturbed_same. Qed.

(** A call that replaces one mint. *)
Lemma undisturbed_mint m i i' w l :
  ledger_mint (ledger w) m = Some i -> ledger_mint l m = Some i' -> descends i' i ->
  (forall k, k <> m -> ledger_mint l k = ledger_mint (ledger w) k) -> undisturbed w (set_ledger l w).
Proof.
  intros Hi Hi' Hf Hk. split; [done|]. intros k m' Hm. cbn in Hm.
  destruct (decide (k = m)) as [->|Hne]; [|rewrite Hk in Hm by done; eauto using descends_refl].
  rewrite Hi' in Hm. simplify_eq. eauto.
Qed.

Lemma undisturbed_mint_to pr m to auth x d w l :
  mint_to_checked pr m to auth x d (ledger w) = Some l -> undisturbed w (set_ledger l w).
Proof using TLL.
  intros H. apply mint_to_effect in H as (_ & (i & Hi & _ & _ & Hi') & Hk & _). by eapply undisturbed_mint.
Qed.

Lemma undisturbed_burn pr m from auth x d w l :
  burn_checked pr m from auth x d (ledger w) = Some l -> undisturbed w (set_ledger l w).
Proof using TLL.
  intros H. apply burn_effect in H as (_ & (i & Hi & Hi') & Hk & _). by eapply undisturbed_mint.
Qed.

Lemma undisturbed_authority pr m old new w l :
  set_mint_authority pr m old new (ledger w) = Some l -> undisturbed w (set_ledger l w).
Proof using TLL.
  intros H. apply set_authority_effect in H as ((i & Hi & _ & Hi') & Hk & _).
  by eapply undisturbed_mint.
Qed.
End sane.

#[export] Existing Instance undisturbed_preorder.

(** An effect that leaves the invariant alone. *)
Ltac undisturbed :=
  intros; first
    [ solve [by apply undisturbed_same]
    | solve [eauto using undisturbed_transfer, undisturbed_create, undisturbed_mint_to,
               undisturbed_burn, undisturbed_authority] ].

Section sane_calls.
Context {R : Runtime} {L : Type} {TL : TokenLedger L} {TLL : TokenLedgerLaws L}.
Context (l0 : L).
Implicit Types w : World L.
Local Notation sane := (sane (L := L) l0).

Lemma sane_frame {A} (m : M L A) : within undisturbed m -> keeps sane m (fun _ => True).
Proof. intros Hm w a w' Hw H. split; [|done]. by eapply sane_undisturbed, Hw; eapply Hm. Qed.

Lemma sane_get_clock : keeps sane Clock_get clock_sane.
Proof. intros w c w' Hw H. unfold Clock_get in H. inv_m. split; [done|]. apply (sane_clock _ _ Hw). Qed.

Lemma sane_load_offer k : keeps sane (load_account offers k) offer_sane.
Proof. intros w o w' Hw H. inv_m. split; [done|]. by eapply sane_offer. Qed.

Lemma sane_load_mint k : keeps sane (load_mint k) (mint_at l0 k).
Proof using TLL.
  intros w m w' Hw H. apply load_mint_Ok_inv in H as (<- & H & ->). split; [done|]. split; [done|]. split.
  - by eapply ledger_decimals_u8.
  - by eapply sane_mint.
Qed.

Lemma sane_reload k m : mint_at l0 k m -> keeps sane (reload m) (mint_at l0 k).
Proof using TLL. intros [<- _]. apply sane_load_mint. Qed.

Lemma sane_load_buffer : keeps sane load_buffer_state buffer_sane.
Proof.
  intros w b w' Hw H. unfold load_buffer_state in H.
  apply load_pda_account_Ok_inv in H as [Hl ->]. split; [done|]. by eapply sane_buffer.
Qed.

Lemma sane_anchor_buffer : keeps sane (anchor_account (T := BufferState.t)) buffer_sane.
Proof.
  intros w b w' Hw H. apply anchor_account_Ok_inv in H as [Hl ->]. split; [done|]. by eapply sane_buffer.
Qed.

Lemma sane_main_offer k st : keeps sane (load_main_offer k st) offer_sane.
Proof.
  intros w o w' Hw H. unfold load_main_offer in H. inv_m.
  match goal with H : ok_or_onre _ _ = Ok _ |- _ => apply ok_or_onre_Ok_inv in H end.
  split; [done|]. by eapply sane_offer.
Qed.

Lemma sane_store_offer k o : offer_sane o -> keeps sane (store_offer k o) (fun _ => True).
Proof.
  intros Ho w u w' [Hc Hof Hb Hm] H. unfold store_offer in H. inv_m. split; [|done].
  split; [done| |done..]. cbn. intros j o' [[_ <-]|[_ Hj]]%lookup_insert_Some; [done|by eapply Hof].
Qed.

Lemma sane_store_buffer b : buffer_sane b -> keeps sane (store_buffer_state b) (fun _ => True).
Proof.
  intros Hb w u w' [Hc Ho Hbf Hm] H. unfold store_buffer_state, store_pda_account in H. inv_m.
  split; [|done]. split; [done..| |done]. cbn. by intros b' [= <-].
Qed.
End sane_calls.

#[export] Hint Resolve keeps_ret keeps_lift keeps_guard keeps_constraint sane_get_clock sane_load_offer
  sane_load_mint sane_reload sane_load_buffer sane_anchor_buffer sane_main_offer sane_store_offer
  sane_store_buffer : sane.

(** A call: a known one, one that leaves the invariant alone, or its body. *)
Ltac sane_call :=
  first [ solve [eauto 3 with sane]
        | solve [apply sane_frame; within ltac:(undisturbed)] ].
Ltac sane := repeat keeps_step sane_call.
Ltac sane_store :=
  eapply keeps_bind; [first [apply sane_store_buffer | apply sane_store_offer]|intros ? _; sane].

(** ** Every instruction keeps it *)

Section kept.
Context {R : Runtime} {L : Type} {TL : TokenLedger L} {TLL : TokenLedgerLaws L}.
Context (l0 : L).
Local Notation sane := (sane (L := L) l0).

Definition accrual_sane (r : BufferAccrualResult) : Prop := 0 <= bar_timestamp r.

Lemma sane_accrue st b o m r1 r2 r3 auth tp now :
  0 <= now ->
  keeps sane (accrue_buffer st b o m r1 r2 r3 auth tp now)
    (fun p => buffer_sane (fst p) /\ accrual_sane (snd p)).
Proof using All. intros Hn. unfold accrue_buffer. sane. Qed.

Lemma sane_accrue_from st a o m auth tp :
  keeps sane (accrue_buffer_from_accounts st a o m auth tp) accrual_sane.
Proof using All.
  unfold accrue_buffer_from_accounts. eapply keeps_bind; [sane_call|intros c Hc]. cbv zeta.
  eapply keeps_bind; [sane_call|intros b Hb]. keeps_step sane_call.
  eapply keeps_bind; [apply sane_accrue, Z.lt_le_incl, Hc|intros [b' r] [Hb' Hr]].
  eapply keeps_bind; [by apply sane_store_buffer|intros _ _].
  eapply keeps_weaken; [apply keeps_ret|by intros ? ->].
Qed.

Lemma sane_store_post x now : 0 <= now -> keeps sane (store_buffer_post_supply x now) (fun _ => True).
Proof.
  intros Hx. unfold store_buffer_post_supply. eapply keeps_bind; [sane_call|intros b Hb].
  by apply sane_store_buffer.
Qed.

Definition opt_accrual_sane (r : option BufferAccrualResult) : Prop :=
  match r with Some r => accrual_sane r | None => True end.

Lemma sane_store_post_offer r x e :
  opt_accrual_sane r -> keeps sane (store_post_offer_supply r x e) (fun _ => True).
Proof.
  intros Hr. unfold store_post_offer_supply. destruct r; [|sane].
  keeps_step sane_call. by apply sane_store_post.
Qed.

Lemma sane_store_post_burn r x :
  opt_accrual_sane r -> keeps sane (store_post_burn_supply r x) (fun _ => True).
Proof.
  intros Hr. unfold store_post_burn_supply. destruct r; [|sane].
  keeps_step sane_call. by apply sane_store_post.
Qed.

Lemma sane_opt_offer b k st :
  keeps sane (if b : bool then o ← load_main_offer k st; mret (Some o) else mret None)
    (fun o => match o with Some o => offer_sane o | None => True end).
Proof.
  destruct b; [|by eapply keeps_weaken; [apply keeps_ret|intros ? ->]].
  eapply keeps_bind; [sane_call|intros o Ho]. by eapply keeps_weaken; [apply keeps_ret|intros ? ->].
Qed.

Lemma sane_opt_accrue (c : bool) st a o m auth tp :
  keeps sane (if c then r ← accrue_buffer_from_accounts st a o m auth tp; mret (Some r) else mret None)
    opt_accrual_sane.
Proof using All.
  destruct c; [|by eapply keeps_weaken; [apply keeps_ret|intros ? ->]].
  eapply keeps_bind; [apply sane_accrue_from|intros r Hr].
  by eapply keeps_weaken; [apply keeps_ret|intros ? ->].
Qed.

Lemma sane_before_mint st c a mo m tp :
  keeps sane (accrue_before_mint st c a mo m tp) opt_accrual_sane.
Proof using All.
  unfold accrue_before_mint. destruct c; [|by eapply keeps_weaken; [apply keeps_ret|intros ? ->]].
  keeps_step sane_call. apply (sane_opt_accrue true).
Qed.

Lemma sane_before_burn st c a mo m tp :
  keeps sane (accrue_before_burn st c a mo m tp) opt_accrual_sane.
Proof using All.
  unfold accrue_before_burn. keeps_step sane_call.
  destruct (_ && _); [|by eapply keeps_weaken; [apply keeps_ret|intros ? ->]].
  keeps_step sane_call. apply (sane_opt_accrue true).
Qed.

Lemma sane_reload_if {A} (r : option A) k m :
  mint_at l0 k m -> keeps sane (match r with Some _ => reload m | None => mret m end) (mint_at l0 k).
Proof using All.
  intros Hm. destruct r; [by apply sane_reload|]. by eapply keeps_weaken; [apply keeps_ret|intros ? ->].
Qed.
End kept.

#[export] Hint Resolve sane_accrue sane_accrue_from sane_store_post_offer sane_store_post_burn
  sane_opt_offer sane_opt_accrue sane_before_mint sane_before_burn sane_reload_if : sane.

Section kept_instructions.
Context {R : Runtime} {L : Type} {TL : TokenLedger L} {TLL : TokenLedgerLaws L}.
Context (l0 : L).
Local Notation sane := (sane (L := L) l0).

Lemma sane_take_v2 tx ctx amount msg : keeps sane (take_offer_v2 tx ctx amount msg) (fun _ => True).
Proof using All.
  unfold take_offer_v2, TakeOfferV2_accounts, take_offer_token_accounts. cbv zeta. sane.
Qed.

Lemma sane_take_permissionless_v2 ctx amount :
  keeps sane (take_offer_permissionless_v2 ctx amount) (fun _ => True).
Proof using All.
  unfold take_offer_permissionless_v2, take_offer_token_accounts, execute_take_offer_permissionless, permissionless_settle.
  cbv zeta. cbn [fst fmap option_fmap option_map]. sane.
Qed.

Lemma sane_take_permissionless ctx boss ba pa pin pout sysvar amount :
  keeps sane (take_offer_permissionless ctx boss ba pa pin pout sysvar amount) (fun _ => True).
Proof using All.
  unfold take_offer_permissionless, execute_take_offer_permissionless, permissionless_settle. cbv zeta.
  cbn [fst fmap option_fmap option_map]. sane.
Qed.

Lemma sane_settle ctx : keeps sane (settle_buffer ctx) (fun _ => True).
Proof using All. unfold settle_buffer, SettleBuffer_accounts, settle. sane. Qed.

Lemma sane_set_gross_apr ctx g : keeps sane (set_buffer_gross_apr ctx g) (fun _ => True).
Proof using All.
  unfold set_buffer_gross_apr, SetBufferGrossYield_accounts, SetBuffer_accounts, settle.
  sane.
Qed.

Lemma sane_set_fee_config ctx m p h : keeps sane (set_buffer_fee_config ctx m p h) (fun _ => True).
Proof using All.
  unfold set_buffer_fee_config, SetBufferFeeConfig_accounts, SetBuffer_accounts, settle.
  cbv zeta. sane.
Qed.
(** The time the buffer's baseline is stored with. *)
Ltac sane_now :=
  sane_store; match goal with H : clock_sane _ |- _ => apply Z.lt_le_incl, H end.

Lemma sane_burn ctx x : keeps sane (burn_for_nav_increase ctx x) (fun _ => True).
Proof using All.
  unfold burn_for_nav_increase, BurnForNavIncrease_accounts. cbv zeta. sane. sane_now.
Qed.

Lemma sane_initialize boss m o r1 r2 r3 tp :
  keeps sane (initialize_buffer boss m o r1 r2 r3 tp) (fun _ => True).
Proof using All.
  unfold initialize_buffer. cbv zeta. sane. sane_now.
Qed.

Lemma sane_mint_to ctx account amount : keeps sane (mint_to ctx account amount) (fun _ => True).
Proof using All.
  unfold mint_to, MintTo_accounts. cbv zeta. sane.
Qed.

Lemma sane_fulfill ctx amount : keeps sane (fulfill_redemption_request ctx amount) (fun _ => True).
Proof using All.
  unfold fulfill_redemption_request, execute_fulfill_redemption_request. cbv zeta. sane.
Qed.

Lemma sane_open_buy ctx amount minimum : keeps sane (open_swap_buy ctx amount minimum) (fun _ => True).
Proof using All. unfold open_swap_buy, buy_settle, OpenSwapBuy_accounts, pair_account. sane. Qed.

Lemma sane_open_sell ctx amount minimum : keeps sane (open_swap_sell ctx amount minimum) (fun _ => True).
Proof using All.
  unfold open_swap_sell, sell_settle, OpenSwapSell_accounts, pair_account. cbv zeta. sane.
Qed.

(** The offers. *)
Lemma clock_sane_u64 c : clock_sane c -> timestamp_u64 c = Clock.unix_timestamp c /\ 0 < timestamp_u64 c <= i64.MAX.
Proof.
  unfold clock_sane. intros Hc. assert (timestamp_u64 c = Clock.unix_timestamp c) as E by (apply Z.mod_small; zlia).
  by rewrite E.
Qed.

Lemma sane_add_vector ctx st bt bp apr d :
  keeps sane (add_offer_vector ctx st bt bp apr d) (fun _ => True).
Proof using All.
  unfold add_offer_vector, AddOfferVector_accounts, offer_admin_accounts, offer_accounts. cbv zeta. sane.
  match goal with H : clock_sane _ |- _ => apply clock_sane_u64 in H as (_ & Hn & _) end.
  sane_store. by eapply add_vector_wf.
Qed.

Lemma sane_delete_vector ctx t : keeps sane (delete_offer_vector ctx t) (fun _ => True).
Proof using All.
  unfold delete_offer_vector, DeleteOfferVector_accounts, offer_admin_accounts, offer_accounts. sane.
  match goal with H : clock_sane _ |- _ => apply clock_sane_u64 in H as (_ & Hn & _) end.
  sane_store. by eapply delete_vector_wf.
Qed.

Lemma sane_delete_all ctx : keeps sane (delete_all_offer_vectors ctx) (fun _ => True).
Proof using All.
  unfold delete_all_offer_vectors, DeleteAllOfferVectors_accounts, offer_admin_accounts, offer_accounts,
    delete_all_vectors. sane. sane_store. by apply delete_all_vectors_wf.
Qed.

Lemma sane_offer_fee ctx fee : keeps sane (update_offer_fee ctx fee) (fun _ => True).
Proof using All.
  unfold update_offer_fee, UpdateOfferFee_accounts, offer_admin_accounts, offer_accounts. sane.
Qed.

Lemma sane_offer_permissionless_fee ctx fee :
  keeps sane (update_offer_permissionless_fee ctx fee) (fun _ => True).
Proof using All.
  unfold update_offer_permissionless_fee, UpdateOfferPermissionlessFee_accounts, offer_admin_accounts,
    offer_accounts. sane.
Qed.

Lemma sane_offer_disabled k s d : keeps sane (set_offer_disabled k s d) (fun _ => True).
Proof using All. unfold set_offer_disabled. sane. Qed.

Lemma sane_make_offer ctx fee n a : keeps sane (make_offer ctx fee n a) (fun _ => True).
Proof using All.
  unfold make_offer, MakeOffer_accounts, init_account. cbv zeta. sane. sane_store. apply empty_vectors_wf.
Qed.
End kept_instructions.

#[export] Hint Resolve sane_take_v2 sane_take_permissionless_v2 sane_take_permissionless sane_settle
  sane_set_gross_apr sane_set_fee_config sane_burn sane_initialize sane_mint_to sane_fulfill
  sane_add_vector sane_delete_vector sane_delete_all sane_offer_fee sane_offer_permissionless_fee
  sane_offer_disabled sane_make_offer sane_open_buy sane_open_sell : sane.

Lemma sane_exec `{R : Runtime} {L} `{TLL : TokenLedgerLaws L} (l0 : L) tx i :
  keeps (sane (L := L) l0) (exec tx i) (fun _ => True).
Proof. destruct i; cbn [exec]; sane_call. Qed.
