(* ===== verification/PanicFacts.v ===== *)
(** * What the program panics on

    [blames m] says that a panic of [m] in the worlds of the invariant [sane] implies
    the reason [B]: a mint of the instruction at fault.  The tactic [blames] follows the
    code; the theorem is about every instruction of a deployed program.  *)

From stdpp Require Import relations.
From S2P Require Import World MathUtils OfferPricing Approval TokenUtils OfferHandlers MarketInfo Buffer Vaults Redemption TakeOffer PropAmmMath PropAmm Governance Program Lifecycle Frames Samples MarketFacts BufferFacts AccountFacts RedemptionFacts RedemptionInvariant TypedFacts StoreInvariant LifecycleFacts Panics.
Open Scope Z_scope.

(** ** Blame *)

Create HintDb blames.

Section blames.
Context {R : Runtime} {L : Type} {TL : TokenLedger L} {TLL : TokenLedgerLaws L}.
Context (l0 : L) (B : Prop).
Local Notation sane := (sane (L := L) l0).

Definition blames {A} (m : M L A) : Prop := forall w, sane w -> m w = Err Panicked -> B.

Lemma blames_calm {A} (m : M L A) : calm m -> blames m.
Proof. intros Hm w _ H. by destruct (Hm w). Qed.

Lemma blames_bind {A B'} (m : M L A) (f : A -> M L B') Q :
  blames m -> keeps sane m Q -> (forall a, Q a -> blames (f a)) -> blames (m ≫= f).
Proof.
  intros Hm Hk Hf w Hw H. unfold mbind, M_bind in H. destruct (m w) as [[a w']|] eqn:E.
  - destruct (Hk w a w' Hw E) as [Hw' Ha]. by eapply Hf.
  - simplify_eq. by eapply Hm.
Qed.

(** Past its last computation that can panic, the invariant is not needed. *)
Lemma blames_last {A B'} (m : M L A) (f : A -> M L B') :
  blames m -> (forall a, calm (f a)) -> blames (m ≫= f).
Proof.
  intros Hm Hf w Hw H. unfold mbind, M_bind in H. destruct (m w) as [[a w']|] eqn:E.
  - by destruct (Hf a w').
  - simplify_eq. by eapply Hm.
Qed.

Lemma blames_assoc {A B' C} (m : M L A) (f : A -> M L B') (g : B' -> M L C) :
  blames (m ≫= fun a => f a ≫= g) -> blames ((m ≫= f) ≫= g).
Proof.
  intros Hm w Hw H. apply (Hm w Hw). unfold mbind, M_bind in *. by destruct (m w) as [[? ?]|].
Qed.

Lemma blames_ret_bind {A B'} (a : A) (f : A -> M L B') : blames (f a) -> blames (mret a ≫= f).
Proof. intros Hm w Hw H. by apply (Hm w). Qed.

Lemma blames_when (b : bool) (m : M L unit) : blames m -> blames (when b m).
Proof. destruct b; [done|]. intros _. by apply blames_calm. Qed.

Lemma blames_lift {A} (r : Result A) : (r = Err Panicked -> B) -> blames (lift r).
Proof. intros Hr w _ H. unfold lift in H. destruct r; simplify_eq. auto. Qed.

(** What an instruction can panic on: a mint of [l0] whose authority it unwraps, or
    whose decimals make [10_u128.pow(decimals)] overflow. *)
Definition no_authority (m : Mint.t) : bool :=
  match Mint.mint_authority m with None => true | Some _ => false end.
Definition many_decimals (m : Mint.t) : bool := 38 <? Mint.decimals m.
Definition reason (k : Pubkey) (bad : Mint.t -> bool) : Prop :=
  forall m, ledger_mint l0 k = Some m -> bad m = true -> B.

Lemma blames_authority k m :
  mint_at l0 k m -> reason k no_authority -> blames (lift (panicking (Mint.mint_authority (mint_data m)))).
Proof.
  intros (_ & _ & m0 & Hm0 & _ & Ha) Hr. apply blames_lift. intros H.
  eapply Hr; [exact Hm0|]. unfold no_authority. rewrite Ha; [done|]. by destruct (Mint.mint_authority _).
Qed.

Lemma few_decimals k m (P : Prop) :
  mint_at l0 k m -> reason k many_decimals -> (0 <= decimals m <= 38 -> P) -> P \/ B.
Proof.
  intros (_ & Hd & m0 & Hm0 & E & _) Hr Hp. destruct (Z.le_gt_cases (decimals m) 38); [left; apply Hp; lia|].
  right. eapply Hr; [exact Hm0|]. apply Z.ltb_lt. unfold decimals in *. lia.
Qed.

(** A priced exchange succeeds only on mints of at most 18 decimals. *)
Definition exchanged (k k' : Pubkey) : Prop :=
  forall m m', mint_at l0 k m -> mint_at l0 k' m' -> 0 <= decimals m <= 18 /\ 0 <= decimals m' <= 18.

Lemma mint_at_decimals k m m' : mint_at l0 k m -> mint_at l0 k m' -> decimals m = decimals m'.
Proof. intros (_ & _ & x & Hx & E & _) (_ & _ & y & Hy & E' & _). unfold decimals. congruence. Qed.

Lemma sane_process k k' o x m m' fee :
  mint_at l0 k m -> mint_at l0 k' m' ->
  keeps sane (process_offer_core o x m m' fee) (fun _ => exchanged k k').
Proof.
  intros Hm Hm'. eapply keeps_weaken with (Q := fun _ => 0 <= decimals m <= 18 /\ 0 <= decimals m' <= 18).
  - unfold process_offer_core. eapply keeps_bind; [sane_call|intros c _].
    eapply keeps_weaken; [apply keeps_lift|]. intros r H. unfold process_offer_core_at in H. inv_res.
    match goal with H : calculate_token_out_amount _ _ _ _ = Ok _ |- _ =>
      apply calculate_token_out_amount_Ok in H as (_ & _ & Hi & Ho & _); [|apply Hm|apply Hm'] end.
    destruct Hm as (_ & ? & _), Hm' as (_ & ? & _). lia.
  - intros _ H n n' Hn Hn'. by rewrite <- (mint_at_decimals k m n), <- (mint_at_decimals k' m' n').
Qed.

Definition opt_offer_sane (o : option Offer.t) : Prop :=
  match o with Some o => offer_sane o | None => True end.

(** The main offer the code loaded when it needed one. *)
Lemma blames_main_offer {A} mo e (f : Offer.t -> M L A) :
  opt_offer_sane mo -> (forall o, offer_sane o -> blames (f o)) ->
  blames (lift (ok_or_onre mo e) ≫= f).
Proof.
  intros Hmo Hf. eapply blames_bind; [apply blames_calm, calm_lift; pure|apply keeps_lift|].
  intros o H. apply ok_or_onre_Ok_inv in H as ->. by apply Hf.
Qed.

Lemma calm_refill ms bps m m' b net :
  0 <= decimals m <= 38 -> 0 <= decimals m' <= 38 ->
  calm (L := L) (calculate_redemption_vault_refill_amount ms bps m m' b net).
Proof.
  intros Hm Hm'. unfold calculate_redemption_vault_refill_amount. calm_step; [calm|].
  calm_step; [calm|]. by apply calm_lift, refill_no_panic.
Qed.

Lemma blames_refill k k' ms bps m m' b net :
  mint_at l0 k m -> mint_at l0 k' m' -> exchanged k k' ->
  blames (calculate_redemption_vault_refill_amount ms bps m m' b net).
Proof. intros Hm Hm' He. destruct (He m m' Hm Hm'). apply blames_calm, calm_refill; lia. Qed.
End blames.

#[export] Hint Resolve blames_when blames_authority blames_refill : blames.
#[export] Hint Resolve sane_process : sane.

(** Follow the code: a call is a known one, calm, or unfolded; past the last one
    that can panic the code is calm. *)
Ltac blames_pure :=
  apply calm_lift; first
    [ solve [eauto 3 using active_no_panic, current_price_no_panic, process_offer_no_panic]
    | solve [pure] ].
Ltac blames_call :=
  first [ solve [eauto 3 with blames]
        | solve [apply blames_calm; first [blames_pure | calm]]
        | lazymatch goal with |- blames _ _ (when _ _) => solve [apply blames_when; blames] end ]
with blames_step call :=
  lazymatch goal with
  | |- blames _ _ (mbind _ (mbind _ _)) => apply blames_assoc
  | |- blames _ _ (mbind _ (mret _)) => apply blames_ret_bind; cbv beta iota
  | |- blames _ _ (mbind _ _) =>
      first [ eapply blames_main_offer; [solve [eauto]|intros ? ?]
            | eapply blames_bind; [call|sane_call|let H := fresh "Hv" in intros ? H; cbv beta in H |- *]
            | apply blames_last; [call|intros ?; solve [calm]] ]
  | |- blames _ _ (match ?x with _ => _ end) => destruct x
  | |- blames _ _ (let x := _ in _) => cbv zeta
  | |- blames _ _ _ => first [call | match goal with |- blames _ _ ?m => let h := head_of m in unfold h end]
  end
with blames := repeat blames_step blames_call.

Section blame_shared.
Context {R : Runtime} {L : Type} {TL : TokenLedger L} {TLL : TokenLedgerLaws L}.
Context (l0 : L) (B : Prop).
Notation blames := (blames l0 B).
Notation reason := (reason l0 B).

Lemma blames_recompute o m x : offer_sane o -> blames (recompute_market_stats o m x).
Proof using TLL.
  intros Ho. unfold recompute_market_stats. do 2 blames_step blames_call.
  blames_step blames_call.
  eapply blames_bind; [apply blames_calm, calm_lift, active_no_panic, Ho|apply keeps_lift|intros [v p] Hp].
  unfold get_active_vector_and_current_price in Hp. inv_res.
  match goal with H : find_active_vector_at _ _ = Ok _ |- _ => apply find_active_Ok in H as (Hl & _) end.
  blames_step blames_call.
  eapply blames_bind; [apply blames_calm, calm_lift; by eapply nav_adjustment_no_panic|apply keeps_lift|intros ? _].
  blames.
Qed.

Lemma blames_accrue st b o m r1 r2 r3 auth tp now :
  buffer_sane b -> offer_sane o -> now <= i64.MAX ->
  blames (accrue_buffer st b o m r1 r2 r3 auth tp now).
Proof using TLL.
  intros Hb Ho Hn. unfold accrue_buffer. blames_step blames_call.
  eapply blames_bind; [apply blames_calm, calm_lift, active_no_panic, Ho|apply keeps_lift|intros [v p] Hp].
  eapply blames_bind; [|apply keeps_lift|].
  { apply blames_calm, calm_lift. eapply panicking_Some. unfold i64.checked_sub. apply checked_ok.
    apply Z.leb_le in Hv. unfold buffer_sane in Hb. zlia. }
  intros e _. apply blames_calm. calm.
Qed.

Lemma blames_accrue_now st b o m r1 r2 r3 auth tp c :
  buffer_sane b -> offer_sane o -> clock_sane c ->
  blames (accrue_buffer st b o m r1 r2 r3 auth tp (Clock.unix_timestamp c)).
Proof using TLL. intros Hb Ho [_ Hc]. by apply blames_accrue. Qed.

Lemma blames_accrue_from st a o m auth tp :
  offer_sane o -> blames (accrue_buffer_from_accounts st a o m auth tp).
Proof using TLL.
  intros Ho. unfold accrue_buffer_from_accounts.
  eapply blames_bind; [blames_call|sane_call|intros c Hc]. cbv zeta.
  eapply blames_bind; [blames_call|sane_call|intros b Hb]. blames_step blames_call.
  apply blames_last; [by apply blames_accrue_now|]. intros [b' r]. calm.
Qed.

Lemma blames_redemption k k' o t x fee min m m' :
  offer_sane o -> mint_at l0 k m -> mint_at l0 k' m' ->
  reason k many_decimals -> reason k' many_decimals ->
  blames (lift (process_redemption_core o t x m m' fee min)).
Proof.
  intros Ho Hm Hm' Hr Hr'. apply blames_lift. intros H.
  destruct (few_decimals l0 B k m _ Hm Hr (fun h => h)) as [Hd|]; [|done].
  destruct (few_decimals l0 B k' m' _ Hm' Hr' (fun h => h)) as [Hd'|]; [|done].
  by destruct (redemption_no_panic o t x min fee m m' Ho Hd Hd').
Qed.

Lemma blames_refresh o m x k p : offer_sane o -> blames (refresh_market_stats_pda o m x k p).
Proof using TLL.
  intros Ho. unfold refresh_market_stats_pda. eapply blames_bind; [blames_call|sane_call|intros e _].
  apply blames_last; [by apply blames_recompute|]. intros s. calm.
Qed.

Lemma blames_process o x m m' fee : offer_sane o -> blames (process_offer_core o x m m' fee).
Proof using TLL.
  intros Ho. unfold process_offer_core. eapply blames_bind; [blames_call|sane_call|intros c _].
  apply blames_calm, calm_lift, process_offer_no_panic, Ho.
Qed.

Lemma blames_opt_accrue (c : bool) st a o m auth tp :
  offer_sane o ->
  blames (if c then r ← accrue_buffer_from_accounts st a o m auth tp; mret (Some r) else mret None).
Proof using TLL.
  intros Ho. destruct c; [|by apply blames_calm]. apply blames_last; [by apply blames_accrue_from|done].
Qed.

Lemma blames_before_mint st c a mo m tp :
  opt_offer_sane mo -> blames (accrue_before_mint st c a mo m tp).
Proof using TLL.
  intros Ho. unfold accrue_before_mint. destruct c; [|by apply blames_calm].
  apply blames_main_offer; [done|intros o Hs]. by apply (blames_opt_accrue true).
Qed.

Lemma blames_before_burn st c a mo m tp :
  opt_offer_sane mo -> blames (accrue_before_burn st c a mo m tp).
Proof using TLL.
  intros Ho. unfold accrue_before_burn. eapply blames_bind; [blames_call|sane_call|intros b _].
  destruct (_ && _); [|by apply blames_calm].
  apply blames_main_offer; [done|intros o Hs]. by apply (blames_opt_accrue true).
Qed.

Lemma blames_refresh_after a mo m p : opt_offer_sane mo -> blames (refresh_after_exchange a mo m p).
Proof using TLL.
  intros Ho. unfold refresh_after_exchange.
  apply blames_main_offer; [done|intros o Hs].
  eapply blames_bind; [blames_call|sane_call|intros m' _].
  blames_step blames_call. by apply blames_refresh.
Qed.

(** The exchange passes the seeds its burn unwraps. *)
Lemma calm_execute p :
  ExecTokenOpsParams.vault_authority_signer_seeds p <> None -> calm (L := L) (execute_token_operations p).
Proof.
  intros Hp. unfold execute_token_operations, pay_token_in.
  assert (panicking (ExecTokenOpsParams.vault_authority_signer_seeds p) <> Err Panicked) as Hs
    by (by destruct (ExecTokenOpsParams.vault_authority_signer_seeds p)).
  repeat first [apply calm_lift, Hs | calm_step].
Qed.

Lemma blames_exchange ctx st m m' r a b c d e f g :
  blames (execute_token_operations (exchange_params ctx st m m' r a b c d e f g)).
Proof. apply blames_calm. by apply calm_execute. Qed.

Lemma blames_redemption_refill k k' ctx rf ms bps m m' net :
  mint_at l0 k m -> mint_at l0 k' m' -> exchanged l0 k k' ->
  blames (redemption_refill ctx rf ms bps m m' net).
Proof using TLL.
  intros Hm Hm' He. unfold redemption_refill. destruct (_ && _); [|by apply blames_calm].
  eapply blames_bind; [blames_call|sane_call|intros a _].
  apply blames_last; [by eapply blames_refill|done].
Qed.

Lemma blames_valuation o c :
  offer_sane o -> clock_sane c -> blames (lift (get_offer_valuation_snapshot o (timestamp_u64 c))).
Proof.
  intros Ho Hc. apply clock_sane_u64 in Hc as (_ & Hc).
  apply blames_calm, calm_lift, valuation_no_panic; [done|lia].
Qed.

Lemma blames_adjustment o v t :
  offer_sane o -> find_active_vector_at o t = Ok v -> blames (lift (get_nav_adjustment_snapshot o v)).
Proof.
  intros Ho Hv. apply find_active_Ok in Hv as (Hv & _). by apply blames_calm, calm_lift, adjustment_no_panic.
Qed.

Lemma blames_add o c v : offer_sane o -> clock_sane c -> blames (lift (add_vector o (timestamp_u64 c) v)).
Proof.
  intros Ho Hc. apply clock_sane_u64 in Hc as (_ & Hc).
  apply blames_calm, calm_lift, add_vector_no_panic; [done|zlia].
Qed.
End blame_shared.

#[export] Hint Resolve blames_recompute blames_accrue_now blames_accrue_from blames_redemption blames_refresh blames_process
  blames_opt_accrue blames_before_mint blames_before_burn blames_refresh_after blames_exchange
  blames_redemption_refill blames_add blames_valuation blames_adjustment : blames.

Section blame_instructions.
Context {R : Runtime} {L : Type} {TL : TokenLedger L} {TLL : TokenLedgerLaws L}.
Context (l0 : L) (B : Prop).
Notation blames := (blames l0 B).
Notation reason := (reason l0 B).

Lemma blames_settle ctx :
  reason (bc_onyc_mint ctx) no_authority ->
  blames (settle_buffer ctx).
Proof using TLL. intros Hr. unfold settle_buffer, SettleBuffer_accounts, settle. blames. Qed.

Lemma blames_set_gross_apr ctx g : blames (set_buffer_gross_apr ctx g).
Proof using TLL.
  unfold set_buffer_gross_apr, SetBufferGrossYield_accounts, SetBuffer_accounts, settle. blames.
Qed.

Lemma blames_set_fee_config ctx m p h : blames (set_buffer_fee_config ctx m p h).
Proof using TLL.
  unfold set_buffer_fee_config, SetBufferFeeConfig_accounts, SetBuffer_accounts, settle. cbv zeta. blames.
Qed.

Lemma blames_burn ctx x : blames (burn_for_nav_increase ctx x).
Proof using TLL.
  unfold burn_for_nav_increase, BurnForNavIncrease_accounts. cbv zeta. blames.
Qed.

Lemma blames_mint_to ctx account amount :
  reason (bc_onyc_mint ctx) no_authority ->
  blames (mint_to ctx account amount).
Proof using TLL. intros Hr. unfold mint_to, MintTo_accounts. cbv zeta. blames. Qed.

Lemma blames_add_vector ctx st bt bp apr d : blames (add_offer_vector ctx st bt bp apr d).
Proof using TLL.
  unfold add_offer_vector, AddOfferVector_accounts, offer_admin_accounts, offer_accounts. cbv zeta. blames.
Qed.

Lemma blames_take tx ctx boss ba sysvar amount msg : blames (take_offer tx ctx boss ba sysvar amount msg).
Proof using TLL.
  unfold take_offer, TakeOffer_accounts, take_offer_token_accounts, offer_accounts. cbv zeta. blames.
Qed.

Lemma blames_take_v2 tx ctx amount msg : blames (take_offer_v2 tx ctx amount msg).
Proof using TLL.
  unfold take_offer_v2, TakeOfferV2_accounts, take_offer_token_accounts, offer_accounts. cbv zeta. blames.
Qed.

Lemma blames_take_permissionless ctx boss ba pa pin pout sysvar amount :
  blames (take_offer_permissionless ctx boss ba pa pin pout sysvar amount).
Proof using TLL.
  unfold take_offer_permissionless, offer_account, take_offer_token_accounts,
    execute_take_offer_permissionless, permissionless_settle. cbv zeta.
  cbn [fst fmap option_fmap option_map]. blames.
Qed.

Lemma blames_take_permissionless_v2 ctx amount : blames (take_offer_permissionless_v2 ctx amount).
Proof using TLL.
  unfold take_offer_permissionless_v2, offer_account, take_offer_token_accounts,
    execute_take_offer_permissionless, permissionless_settle. cbv zeta.
  cbn [fst fmap option_fmap option_map]. blames.
Qed.

Lemma blames_quote_buy o p i q amount : blames (quote_swap_buy o p i q amount).
Proof using TLL. unfold quote_swap_buy, QuoteSwapBuy_accounts, build_swap_buy_quote, pair_account. blames. Qed.

Lemma blames_quote_sell o p ro v i q tp ms amount :
  reason i many_decimals -> reason q many_decimals ->
  blames (quote_swap_sell o p ro v i q tp ms amount).
Proof using TLL. intros Hr Hr'.
  unfold quote_swap_sell, QuoteSwapSell_accounts, build_swap_sell_quote, sell_payout, pair_account.
  cbv zeta. blames.
Qed.

Lemma blames_open_buy ctx amount minimum : blames (open_swap_buy ctx amount minimum).
Proof using TLL.
  unfold open_swap_buy, buy_settle, OpenSwapBuy_accounts, pair_account. cbv zeta. blames.
Qed.

Lemma blames_open_sell ctx amount minimum :
  reason (ss_token_in_mint ctx) many_decimals -> reason (ss_token_out_mint ctx) many_decimals ->
  blames (open_swap_sell ctx amount minimum).
Proof using TLL. intros Hr Hr'.
  unfold open_swap_sell, sell_settle, OpenSwapSell_accounts, offer_account, sell_payout, pair_account.
  cbv zeta. blames.
Qed.

Lemma blames_fulfill ctx amount :
  reason (frr_token_in_mint ctx) many_decimals -> reason (frr_token_out_mint ctx) many_decimals ->
  blames (fulfill_redemption_request ctx amount).
Proof using TLL. intros Hr Hr'.
  unfold fulfill_redemption_request, execute_fulfill_redemption_request, load_redemption_offer. cbv zeta. blames.
Qed.

Lemma blames_nav o i q : blames (get_nav o i q).
Proof using TLL. unfold get_nav, query_accounts, offer_accounts. blames. Qed.

Lemma blames_to_program b m p :
  reason m no_authority ->
  blames (transfer_mint_authority_to_program b m p).
Proof using TLL. intros Hr. unfold transfer_mint_authority_to_program. blames. Qed.

Lemma blames_to_boss b m p :
  reason m no_authority ->
  blames (transfer_mint_authority_to_boss b m p).
Proof using TLL. intros Hr. unfold transfer_mint_authority_to_boss. blames. Qed.

Lemma blames_nav_adjustment o i q : blames (get_nav_adjustment o i q).
Proof using TLL. unfold get_nav_adjustment, query_accounts, offer_accounts. blames. Qed.

Lemma blames_tvl o i q v p : blames (get_tvl o i q v p).
Proof using TLL. unfold get_tvl, GetTVL_accounts, query_accounts, offer_accounts. blames. Qed.

Lemma blames_tvl_v2 o i q e : blames (get_tvl_v2 o i q e).
Proof using TLL. unfold get_tvl_v2, GetTVLV2_accounts, query_accounts, offer_accounts. blames. Qed.

Lemma blames_refresh_stats ctx : blames (refresh_market_stats ctx).
Proof using TLL. unfold refresh_market_stats, offer_accounts. blames. Qed.
End blame_instructions.

#[export] Hint Resolve blames_settle blames_set_gross_apr blames_set_fee_config blames_burn blames_mint_to
  blames_add_vector blames_take blames_take_v2 blames_take_permissionless blames_take_permissionless_v2
  blames_quote_buy blames_quote_sell blames_open_buy blames_open_sell blames_fulfill blames_nav
  blames_to_program blames_to_boss blames_nav_adjustment blames_tvl blames_tvl_v2 blames_refresh_stats : blames.
#[export] Hint Resolve blames_calm calm_update_balance : blames.


(** ** The program *)

(** The mints an instruction can panic on, and on what: a settlement and a mint by
    the boss unwrap the authority of the ONyc mint, the transfers of a mint authority
    that of their mint; a redemption and the sells of the prop AMM raise ten to the
    decimals. *)
Definition panic_causes (i : instruction) : list (Pubkey * (Mint.t -> bool)) :=
  match i with
  | SettleBuffer ctx | MintTo ctx _ _ => [(bc_onyc_mint ctx, no_authority)]
  | TransferMintAuthorityToProgram _ mint _ | TransferMintAuthorityToBoss _ mint _ =>
      [(mint, no_authority)]
  | QuoteSwapSell _ _ _ _ token_in token_out _ _ _ =>
      [(token_in, many_decimals); (token_out, many_decimals)]
  | OpenSwapSellIx ctx _ _ =>
      [(ss_token_in_mint ctx, many_decimals); (ss_token_out_mint ctx, many_decimals)]
  | FulfillRedemptionRequestIx ctx _ =>
      [(frr_token_in_mint ctx, many_decimals); (frr_token_out_mint ctx, many_decimals)]
  | _ => []
  end.

Section program.
Context {R : Runtime} {L : Type} {TL : TokenLedger L} {TLL : TokenLedgerLaws L}.

Lemma blames_exec (l0 : L) (B : Prop) tx i :
  Forall (fun c => reason l0 B (fst c) (snd c)) (panic_causes i) -> blames l0 B (exec tx i).
Proof using TLL.
  intros Hr. destruct i; cbn [exec panic_causes] in *;
    repeat match goal with
    | H : Forall _ (_ :: _) |- _ => apply Forall_cons in H as [? H]
    end;
    try unfold returning; try (apply blames_last; [|done]); blames_call.
Qed.

(** A world is where its own mints come from. *)
Lemma sane_self l0 w : sane (L := L) l0 w -> sane (ledger w) w.
Proof. intros []. split; [done..|]. intros k m H. eauto using descends_refl. Qed.

Lemma exec_panics l0 tx i w :
  sane (L := L) l0 w -> exec tx i w = Err Panicked ->
  exists k bad m, In (k, bad) (panic_causes i) /\ ledger_mint (ledger w) k = Some m /\ bad m = true.
Proof using TLL.
  intros Hw H. apply sane_self in Hw. eapply blames_exec; [|exact Hw|exact H].
  apply List.Forall_forall. intros [k bad] Hin m Hm Hbad. by exists k, bad, m.
Qed.
End program.

Section history.
Context {R : Runtime} {P : Platform} {PL : PlatformLaws P} {L : Type}.
Context {TL : TokenLedger L} {TLL : TokenLedgerLaws L}.
Implicit Types d : Deployment.t L.

(** A step of the history that leaves the clock at a time of its type, after 1970. *)
Definition timely_step d d' : Prop := life_step d d' /\ clock_sane (clock (Deployment.others d')).

Definition sane_deployment d : Prop :=
  sane (ledger (Deployment.others d)) (Deployment.others d).

Lemma sane_state l0 (w : World L) s : sane l0 w -> sane l0 (set_state s w).
Proof. intros []. by split. Qed.

Lemma timely_sane d d' : sane_deployment d -> timely_step d d' -> sane_deployment d'.
Proof using TLL PL.
  intros Hd [[chain tx op d1 _ H|c l Hc] Hclock].
  - destruct op as [boss program pd onyc|boss name|st boss|i]; cbn [run] in H.
    + apply initialize_Ok in H as (-> & _ & _ & ->). by apply sane_state.
    + unfold initialize_permissionless_authority in H. by inv_res.
    + destruct (close_state _ _) as [[[s' b'] e]|]; inv_res. destruct Hd. by split.
    + apply (run_handler chain) in H. destruct (Deployment.state_account d) as [s|].
      * destruct H as (w' & H & ->). eapply sane_self.
        by destruct (sane_exec _ tx i _ _ _ (sane_state _ _ s Hd) H).
      * destruct H as (_ & w' & H & ->). eapply sane_self. by destruct (sane_exec _ tx i _ _ _ Hd H).
  - destruct Hd as [_ Ho Hb _]. split; [done..|]. intros k m H. eauto using descends_refl.
Qed.

Lemma initialize_no_panic boss program pd onyc d : initialize boss program pd onyc d <> Err Panicked.
Proof. unfold initialize. repeat first [apply calm_load_mint | pure_step]. Qed.

Lemma permissionless_no_panic boss name d :
  initialize_permissionless_authority boss name d <> Err Panicked.
Proof. pure. Qed.

Lemma close_no_panic chain tx st boss d : run chain tx (CloseState st boss) d <> Err Panicked.
Proof. cbn [run]. pure. Qed.

(** C9: an instruction of a deployed program panics only on a mint at fault.  From a
    deployment without accounts on, whatever runs in between (the clock being a time
    after 1970): if an instruction panics - a division by zero, an overflowing
    operator, an [unwrap] of nothing -, it is one of the seven listed in
    [panic_causes], on a mint without authority (a settlement, a mint by the boss, the
    transfers of a mint authority) or on a mint of more than 38 decimals (a fulfilment,
    a sell of the prop AMM or its quote).  No other instruction ever panics; taking
    offers, the prices, the BUFFER's accrual, the market statistics and the price
    vectors are free of it. *)
Theorem panics_need_bad_mint d0 d chain tx op :
  deployed d0 -> clock_sane (clock (Deployment.others d0)) -> rtc timely_step d0 d ->
  run chain tx op d = Err Panicked ->
  exists i k bad m, op = Handler i /\ In (k, bad) (panic_causes i) /\
    ledger_mint (ledger (Deployment.others d)) k = Some m /\ bad m = true.
Proof using TLL PL.
  intros [_ _ Ho _ _ _ _ Hb _] Hc Hr H. assert (sane_deployment d0) as H0.
  { split; [done|rewrite Ho; by intros k o ?%lookup_empty_Some|by rewrite Hb|].
    intros k m Hm. eauto using descends_refl. }
  assert (sane_deployment d) as Hd by (clear - TLL PL Hr H0; induction Hr; eauto using timely_sane).
  destruct op as [boss program pd onyc|boss name|st boss|i]; cbn [run] in H.
  - by apply initialize_no_panic in H.
  - by apply permissionless_no_panic in H.
  - by apply (close_no_panic chain tx) in H.
  - exists i. destruct (Deployment.state_account d) as [s|].
    + assert (exec tx i (set_state s (Deployment.others d)) = Err Panicked) as Hp
        by (apply bind_Err_inv in H as [H|([u w'] & _ & H)]; [done|discriminate H]).
      apply (exec_panics _ _ _ _ (sane_state _ _ s Hd)) in Hp as (k & bad & m & ? & ? & ?). by exists k, bad, m.
    + assert (exec tx i (Deployment.others d) = Err Panicked) as Hp
        by (apply bind_Err_inv in H as [H|(? & _ & H)]; [by destruct (reads_state i)|];
            apply bind_Err_inv in H as [H|([u w'] & _ & H)]; [done|discriminate H]).
      apply (exec_panics _ _ _ _ Hd) in Hp as (k & bad & m & ? & ? & ?). by exists k, bad, m.
Qed.
End history.

(** ** Witness *)

#[local] Existing Instance Life.sample_platform.
#[local] Existing Instance Life.sample_platform_laws.

(** The sample's ONyc mint, its authority dropped: the instructions that compare with
    [COption::Some] refuse it, the two that unwrap panic. *)
Definition orphaned : World SampleLedger.t :=
  set_ledger
    (SampleLedger.mk
       (<[Sample.onyc := Mint.mk 1000000000000 9 None spl_token_id None]> (SampleLedger.mints Sample.ledger))
       (SampleLedger.accounts Sample.ledger)) Sample.world.

Example burn_refuses_orphaned :
  burn_for_nav_increase (Sample.buffer_ctx Sample.boss) 1000000000 orphaned
  = Err (Onre OnreError.NoMintAuthority).
Proof. vm_compute. reflexivity. Qed.

Example settle_panics_orphaned : settle_buffer (Sample.buffer_ctx Sample.worker) orphaned = Err Panicked.
Proof. vm_compute. reflexivity. Qed.

Example mint_to_panics_orphaned :
  mint_to (Sample.buffer_ctx Sample.boss) (Sample.ata Sample.boss Sample.onyc) 1 orphaned = Err Panicked.
Proof. vm_compute. reflexivity. Qed.

(** The boss asks for the mint authority of a mint that has none. *)
Lemma panics_need_bad_mint_witness :
  let op := Handler (TransferMintAuthorityToBoss Sample.boss Sample.usdc spl_token_id) in
  run Life.chain Life.tx op Life.initialized = Err Panicked /\
  exists i k bad m, op = Handler i /\ In (k, bad) (panic_causes i) /\
    ledger_mint (ledger (Deployment.others Life.initialized)) k = Some m /\ bad m = true.
Proof.
  intros op.
  assert (Hp : run Life.chain Life.tx op Life.initialized = Err Panicked) by (vm_compute; reflexivity).
  split; [exact Hp|].
  apply (panics_need_bad_mint Life.start Life.initialized Life.chain Life.tx op start_deployed).
  - split; [reflexivity|discriminate].
  - apply rtc_once. split; [|split; [vm_compute; reflexivity|vm_compute; discriminate]].
    apply step_next; [|vm_compute; reflexivity]. split; [discriminate|exact sample_boss32].
  - exact Hp.
Defined.
