(* ===== verification/UnitTests.v ===== *)
(** * The unit tests of the program

    The [#[test]] functions of [src/programs/onreapp/src/instructions/]: each is a
    computation that returns [Ok tt] or panics on the first assertion that fails, on
    the modelled functions.  [Pubkey::new_unique] is a parameter, the number of the
    call its argument.  Left out is the test of [configurable_vault/init.rs], on the
    discriminator bytes of a vault account.  *)

From S2P Require Import World MathUtils OfferPricing TokenUtils MarketInfo Buffer Vaults Redemption TakeOffer Harness Samples.
Open Scope string_scope.
Open Scope Z_scope.

(** [Result::unwrap], [unwrap_err] and [assert_eq!] on numbers. *)
Definition unwrap {A} (r : Result A) : Result A :=
  match r with Ok a => Ok a | Err _ => Err Panicked end.
Definition unwrap_err {A} (r : Result A) : Result Error :=
  match r with Ok _ => Err Panicked | Err Panicked => Err Panicked | Err e => Ok e end.
Definition assert_eq (a b : Z) : Result unit := assert_ (a =? b).
(** [assert!(r.is_err())] on a call: a panic fails the test. *)
Definition assert_is_err {A} (r : Result A) : Result unit := _ ← unwrap_err r; Ok tt.
(** [assert_eq!(err, error!(e))]. *)
Definition assert_error (e : Error) (expected : OnreError.t) : Result unit :=
  match e with Onre e => assert_eq (OnreError.code e) (OnreError.code expected) | _ => Err Panicked end.
(** [for case in cases { .. }]. *)
Fixpoint for_cases {A} (cases : list A) (test : A -> Result unit) : Result unit :=
  match cases with
  | [] => Ok tt
  | case :: cases => _ ← test case; for_cases cases test
  end.

Section keys.
Context (new_unique : nat -> Pubkey).

(** ** [market_info/market_stats.rs] *)

Definition offer_with_vectors (vectors : list OfferVector.t) : Offer.t :=
  Offer.mk (new_unique 0) (new_unique 1) vectors 0 0 0 0 0 0.
(** The array of default vectors with its first elements replaced. *)
Definition vectors_of (first : list OfferVector.t) : list OfferVector.t :=
  first ++ replicate (MAX_VECTORS - length first) OfferVector.default.

Definition nav_adjustment_negative_transition_matches_programv4 : Result unit :=
  let previous := OfferVector.mk 100 100 2000000000 0 60 in
  let current := OfferVector.mk 200 200 1500000000 0 60 in
  let offer := offer_with_vectors (vectors_of [previous; current]) in
  adjustment ← unwrap (calculate_nav_adjustment offer current);
  assert_eq adjustment (-500000000).

Definition nav_adjustment_positive_transition_matches_programv4 : Result unit :=
  let previous := OfferVector.mk 100 100 1000000000 0 60 in
  let current := OfferVector.mk 200 200 1500000000 0 60 in
  let offer := offer_with_vectors (vectors_of [previous; current]) in
  adjustment ← unwrap (calculate_nav_adjustment offer current);
  assert_eq adjustment 500000000.

Definition nav_adjustment_uses_vector_transition_time : Result unit :=
  let previous := OfferVector.mk 100 100 1000000000 365000 86400 in
  let current := OfferVector.mk 200 200 1100000000 365000 86400 in
  let offer := offer_with_vectors (vectors_of [previous; current]) in
  adjustment ← unwrap (calculate_nav_adjustment offer current);
  assert_eq adjustment 100100000.

Definition market_stats_update_preserves_positive_nav_adjustment_sign : Result unit :=
  let market_stats := MarketStats.mk 0 0 0 0 0 0 0 7 in
  let snapshot := mkMarketStatsSnapshot 10 20 30 40 50 in
  let clock := Clock.mk 1700000000 42 0 in
  let market_stats := apply_market_stats_snapshot market_stats snapshot clock in
  _ ← assert_eq (MarketStats.apy market_stats) 10;
  _ ← assert_eq (MarketStats.circulating_supply market_stats) 20;
  _ ← assert_eq (MarketStats.nav market_stats) 30;
  _ ← assert_eq (MarketStats.nav_adjustment market_stats) 40;
  _ ← assert_eq (MarketStats.tvl market_stats) 50;
  _ ← assert_eq (MarketStats.last_updated_slot market_stats) 42;
  _ ← assert_eq (MarketStats.last_updated_at market_stats) 1700000000;
  assert_eq (MarketStats.bump market_stats) 7.

Definition market_stats_update_preserves_negative_nav_adjustment_sign : Result unit :=
  let market_stats := MarketStats.mk 0 0 0 0 0 0 0 7 in
  let snapshot := mkMarketStatsSnapshot 10 20 30 (-40) 50 in
  let clock := Clock.mk 1700000000 42 0 in
  let market_stats := apply_market_stats_snapshot market_stats snapshot clock in
  _ ← assert_eq (MarketStats.nav_adjustment market_stats) (-40);
  _ ← assert_ (MarketStats.nav_adjustment market_stats <? 0);
  _ ← assert_eq (MarketStats.last_updated_slot market_stats) 42;
  _ ← assert_eq (MarketStats.last_updated_at market_stats) 1700000000;
  assert_eq (MarketStats.bump market_stats) 7.

Definition tvl_uses_price_decimals_scale : Result unit :=
  tvl ← unwrap (calculate_tvl 2000000000 1500000000);
  assert_eq tvl 3000000000.

Definition tvl_overflow_is_rejected : Result unit :=
  err ← unwrap_err (calculate_tvl u64.MAX u64.MAX);
  assert_error err OnreError.Overflow.

Definition circulating_supply_matches_programv4_subtraction : Result unit :=
  circulating_supply ← unwrap (calculate_circulating_supply 1000000000 250000000);
  assert_eq circulating_supply 750000000.

Definition circulating_supply_subtracts_cached_excluded_balance : Result unit :=
  circulating_supply ← unwrap (calculate_circulating_supply 1000000000 350000000);
  assert_eq circulating_supply 650000000.

Definition circulating_supply_subtracts_cached_excluded_balance_for_varied_values : Result unit :=
  for_cases [(10000, 0, 10000); (10000, 1250, 8750); (5000000000, 2000000001, 2999999999);
             (u64.MAX, 20, u64.MAX - 20)]
    (fun '(total_supply, excluded_amount, expected) =>
       supply ← unwrap (calculate_circulating_supply total_supply excluded_amount);
       assert_eq supply expected).

Definition circulating_supply_rejects_excluded_supply_underflow : Result unit :=
  err ← unwrap_err (calculate_circulating_supply 1 2);
  assert_error err OnreError.ArithmeticUnderflow.

Definition first_vector_adjustment_matches_current_nav : Result unit :=
  let current := OfferVector.mk 100 100 1000000000 36500 86400 in
  let offer := offer_with_vectors (vectors_of [current]) in
  adjustment ← unwrap (calculate_nav_adjustment offer current);
  assert_eq adjustment 1000100000.

(** ** [offer/offer_utils.rs] *)

Definition offer_for_test (token_in_mint token_out_mint : Pubkey) (fee_basis_points : Z)
    (vector : OfferVector.t) : Offer.t :=
  Offer.mk token_in_mint token_out_mint (vectors_of [vector]) fee_basis_points 0 0 0 0 0.

Definition active_vector_for_test : OfferVector.t :=
  OfferVector.mk 1 1 1000000000 0 SECONDS_IN_DAY.

Definition process_offer_core_rejects_invalid_token_in_mint : Result unit :=
  let token_in_mint := new_unique 0 in
  let token_out_mint := new_unique 1 in
  let offer := offer_for_test token_in_mint token_out_mint 0 active_vector_for_test in
  assert_is_err (process_offer_core_at offer 1000000 (new_unique 2) 6 token_out_mint 6 1
                   (Offer.fee_basis_points offer)).

Definition process_offer_core_rejects_invalid_token_out_mint : Result unit :=
  let token_in_mint := new_unique 0 in
  let token_out_mint := new_unique 1 in
  let offer := offer_for_test token_in_mint token_out_mint 0 active_vector_for_test in
  assert_is_err (process_offer_core_at offer 1000000 token_in_mint 6 (new_unique 2) 6 1
                   (Offer.fee_basis_points offer)).

Definition process_offer_core_rejects_invalid_fee_basis_points : Result unit :=
  let token_in_mint := new_unique 0 in
  let token_out_mint := new_unique 1 in
  let offer := offer_for_test token_in_mint token_out_mint (MAX_BASIS_POINTS + 1)
                 active_vector_for_test in
  assert_is_err (process_offer_core_at offer 1000000 token_in_mint 6 token_out_mint 6 1
                   (Offer.fee_basis_points offer)).

Definition process_offer_core_rejects_output_that_rounds_to_zero : Result unit :=
  let token_in_mint := new_unique 0 in
  let token_out_mint := new_unique 1 in
  let offer := offer_for_test token_in_mint token_out_mint 0 active_vector_for_test in
  assert_is_err (process_offer_core_at offer 1 token_in_mint 9 token_out_mint 6 1
                   (Offer.fee_basis_points offer)).

Definition process_offer_core_rejects_missing_active_vector : Result unit :=
  let token_in_mint := new_unique 0 in
  let token_out_mint := new_unique 1 in
  let offer := offer_for_test token_in_mint token_out_mint 0
                 (OfferVector.with_start_time 2 active_vector_for_test) in
  assert_is_err (process_offer_core_at offer 1000000 token_in_mint 6 token_out_mint 6 1
                   (Offer.fee_basis_points offer)).
End keys.

Definition vector_price_matches_daily_compounding_on_day_boundaries : Result unit :=
  price ← unwrap (calculate_vector_price 97600 1000000000 SECONDS_IN_DAY);
  _ ← assert_eq price 1000267397;
  price ← unwrap (calculate_vector_price 97600 1000000000 (SECONDS_IN_DAY * 2));
  assert_eq price 1000534866.

Definition vector_price_grows_with_subday_elapsed_time : Result unit :=
  one_hour ← unwrap (calculate_vector_price 97600 1000000000 3600);
  six_hours ← unwrap (calculate_vector_price 97600 1000000000 21600);
  one_day ← unwrap (calculate_vector_price 97600 1000000000 SECONDS_IN_DAY);
  _ ← assert_eq one_hour 1000011142;
  _ ← assert_eq six_hours 1000066849;
  assert_eq one_day 1000267397.

Definition vector_price_matches_multi_day_compounding : Result unit :=
  three_days ← unwrap (calculate_vector_price 97600 1000000000 (SECONDS_IN_DAY * 3));
  three_days_six_hours ←
    unwrap (calculate_vector_price 97600 1000000000 (SECONDS_IN_DAY * 3 + 21600));
  _ ← assert_eq three_days 1000802406;
  assert_eq three_days_six_hours 1000869309.

Definition vector_price_rejects_price_overflow : Result unit :=
  assert_is_err (calculate_vector_price u64.MAX u64.MAX SECONDS_IN_DAY).

Definition step_price_rejects_time_before_base_time : Result unit :=
  assert_is_err (calculate_step_price_at 0 1000000000 2 SECONDS_IN_DAY 1).

Definition step_price_rejects_step_end_overflow : Result unit :=
  assert_is_err (calculate_step_price_at 0 1000000000 0 1 u64.MAX).

(** ** [buffer/accrual_utils.rs] *)

Definition HALF_YEAR_SECONDS : Z := SECONDS_PER_YEAR / 2.

Definition calculate_gross_buffer_accrual_returns_zero_for_zero_inputs : Result unit :=
  a ← unwrap (calculate_gross_buffer_accrual 0 150000 50000 HALF_YEAR_SECONDS);
  _ ← assert_eq a 0;
  a ← unwrap (calculate_gross_buffer_accrual 1000000000 50000 50000 HALF_YEAR_SECONDS);
  _ ← assert_eq a 0;
  a ← unwrap (calculate_gross_buffer_accrual 1000000000 150000 50000 0);
  assert_eq a 0.

Definition calculate_gross_buffer_accrual_preserves_zero_current_yield_behavior : Result unit :=
  a ← unwrap (calculate_gross_buffer_accrual 1000000000 100000 0 HALF_YEAR_SECONDS);
  assert_eq a 50000000.

Definition calculate_gross_buffer_accrual_discounts_by_target_nav_growth : Result unit :=
  for_cases
    [(1000000000, 150000, 50000, HALF_YEAR_SECONDS, 50000000, 48780487, 1219513);
     (1000000000, 120000, 20000, SECONDS_PER_YEAR, 100000000, 98039215, 1960785);
     (2500000000, 300000, 100000, SECONDS_PER_YEAR / 4, 125000000, 121951219, 3048781);
     (1000000000, 80000, 60000, 2592000, 1643835, 1635768, 8067)]
    (fun '(previous_supply, gross_yield, current_yield, seconds_elapsed, old_flat_mint_amount,
           expected_discounted_mint_amount, expected_overmint_amount) =>
       actual ← unwrap (calculate_gross_buffer_accrual previous_supply gross_yield current_yield
                          seconds_elapsed);
       _ ← assert_eq actual expected_discounted_mint_amount;
       overmint ← panicking (u64.checked_sub old_flat_mint_amount actual);
       assert_eq overmint expected_overmint_amount).

Definition calculate_buffer_fee_split_charges_performance_fee_at_high_watermark_boundary : Result unit :=
  split ← unwrap (calculate_buffer_fee_split 10000 100000 100 2000 1000 1000 true);
  _ ← assert_eq (bab_buffer_mint_amount split) 10000;
  _ ← assert_eq (bab_management_fee_mint_amount split) 1000;
  _ ← assert_eq (bab_performance_fee_mint_amount split) 1800;
  _ ← assert_eq (bab_reserve_mint_amount split) 7200;
  assert_eq (bab_new_performance_fee_high_watermark split) 1000.

Definition calculate_buffer_fee_split_seeds_uninitialized_high_watermark_without_performance_fee
  : Result unit :=
  split ← unwrap (calculate_buffer_fee_split 10000 100000 100 2000 1000 0 true);
  _ ← assert_eq (bab_buffer_mint_amount split) 10000;
  _ ← assert_eq (bab_management_fee_mint_amount split) 1000;
  _ ← assert_eq (bab_performance_fee_mint_amount split) 0;
  _ ← assert_eq (bab_reserve_mint_amount split) 9000;
  assert_eq (bab_new_performance_fee_high_watermark split) 1000.

Definition calculate_buffer_fee_split_skips_performance_fee_below_high_watermark : Result unit :=
  split ← unwrap (calculate_buffer_fee_split 100000000 100000 100 1000 900000000 1000000000 true);
  _ ← assert_eq (bab_management_fee_mint_amount split) 10000000;
  _ ← assert_eq (bab_performance_fee_mint_amount split) 0;
  _ ← assert_eq (bab_reserve_mint_amount split) 90000000;
  assert_eq (bab_new_performance_fee_high_watermark split) 1000000000.

Definition calculate_buffer_fee_split_charges_performance_fee_below_disabled_high_watermark
  : Result unit :=
  split ← unwrap (calculate_buffer_fee_split 100000000 100000 100 1000 900000000 1000000000 false);
  _ ← assert_eq (bab_management_fee_mint_amount split) 10000000;
  _ ← assert_eq (bab_performance_fee_mint_amount split) 9000000;
  _ ← assert_eq (bab_reserve_mint_amount split) 81000000;
  assert_eq (bab_new_performance_fee_high_watermark split) 1000000000.

(** ** [buffer/burn_for_nav_increase.rs] *)

Definition NAV_1_0 : Z := 1000000000.
Definition NAV_1_1 : Z := 1100000000.

Definition burn_amount_uses_circulating_supply_basis : Result unit :=
  let total_supply := 1100 in
  let vault_supply := 100 in
  circulating_supply ← unwrap (calculate_circulating_supply total_supply vault_supply);
  burn_amount ← unwrap (calculate_burn_amount circulating_supply 100 NAV_1_0 NAV_1_1);
  d ← panicking (u128.checked_sub total_supply 819);
  let total_supply_based_burn := u64.cast d in
  _ ← assert_eq burn_amount 181;
  diff ← panicking (u64.checked_sub total_supply_based_burn burn_amount);
  assert_eq diff vault_supply.

Definition burn_amount_is_zero_when_assets_already_match_target_nav : Result unit :=
  err ← unwrap_err (calculate_burn_amount 1000 0 NAV_1_0 NAV_1_0);
  assert_error err OnreError.NoBurnNeeded.

(** ** [redemption/redemption_utils.rs] *)

Definition fee_test (amount bps fee net : Z) : Result unit :=
  result ← unwrap (calculate_fees amount bps);
  _ ← assert_eq (token_in_fee_amount result) fee;
  assert_eq (token_in_net_amount result) net.

Definition test_zero_fee_basis_points : Result unit := fee_test 1000000000 0 0 1000000000.
Definition test_100_bps_fee : Result unit := fee_test 1000000000 100 10000000 990000000.
Definition test_max_fee_basis_points_1000 : Result unit :=
  fee_test 1000000000 1000 100000000 900000000.
Definition test_fee_rounding_ceiling : Result unit := fee_test 1 100 1 0.

Definition test_fee_plus_net_equals_total : Result unit :=
  for_cases [1; 100; 999; 1000000; 1000000000] (fun amount =>
    for_cases [0; 1; 50; 100; 500; 1000] (fun bps =>
      result ← unwrap (calculate_fees amount bps);
      total ← panicking (u64.checked_add (token_in_fee_amount result) (token_in_net_amount result));
      assert_eq total amount)).

(** ** [buffer/accounts.rs] *)

Section buffer_accounts.
Context (new_unique : nat -> Pubkey).
Context {R : Runtime} {L : Type}.
Implicit Types w : World L.

(** The state of an account of [data_len] zero bytes: owned by the program, they are
    no [BufferState]. *)
Definition unchecked_account_with_owner (owner : Pubkey) (data_len : nat) : PdaAccount BufferState.t :=
  let empty := Nat.eqb data_len 0 in
  if key_eqb owner program_id then Undeserializable empty
  else if key_eqb owner system_program_id then SystemOwned empty
  else ForeignOwned.

Definition test_accounts (buffer_state : Pubkey) : BufferAccrualAccounts :=
  mkBufferAccrualAccounts buffer_state (new_unique 1) (new_unique 2) (new_unique 3).

(** [check_is_initialized] reads the account the world has at the buffer's address;
    [w] is the rest of the world. *)
Definition check_test w (owner : Pubkey) (data_len : nat) (accounts : BufferAccrualAccounts)
  : Result bool :=
  '(b, _) ← check_is_initialized accounts
              (set_buffer_state (unchecked_account_with_owner owner data_len) w);
  Ok b.

Definition check_is_initialized_rejects_noncanonical_buffer_state_key w : Result unit :=
  err ← unwrap_err (check_test w program_id 8 (test_accounts (new_unique 0)));
  assert_error err OnreError.InvalidBufferStateAccount.

Definition check_is_initialized_allows_uninitialized_canonical_buffer_state w : Result unit :=
  let buffer_state_pda := pda [seeds.BUFFER_STATE] in
  b ← unwrap (check_test w (new_unique 0) 0 (test_accounts buffer_state_pda));
  assert_ (negb b).

(** ** All of them *)

Definition unit_tests w : list (Result unit) :=
  [ nav_adjustment_negative_transition_matches_programv4 new_unique;
    nav_adjustment_positive_transition_matches_programv4 new_unique;
    nav_adjustment_uses_vector_transition_time new_unique;
    market_stats_update_preserves_positive_nav_adjustment_sign;
    market_stats_update_preserves_negative_nav_adjustment_sign;
    tvl_uses_price_decimals_scale;
    tvl_overflow_is_rejected;
    circulating_supply_matches_programv4_subtraction;
    circulating_supply_subtracts_cached_excluded_balance;
    circulating_supply_subtracts_cached_excluded_balance_for_varied_values;
    circulating_supply_rejects_excluded_supply_underflow;
    first_vector_adjustment_matches_current_nav new_unique;
    process_offer_core_rejects_invalid_token_in_mint new_unique;
    process_offer_core_rejects_invalid_token_out_mint new_unique;
    process_offer_core_rejects_invalid_fee_basis_points new_unique;
    process_offer_core_rejects_output_that_rounds_to_zero new_unique;
    process_offer_core_rejects_missing_active_vector new_unique;
    vector_price_matches_daily_compounding_on_day_boundaries;
    vector_price_grows_with_subday_elapsed_time;
    vector_price_matches_multi_day_compounding;
    vector_price_rejects_price_overflow;
    step_price_rejects_time_before_base_time;
    step_price_rejects_step_end_overflow;
    calculate_gross_buffer_accrual_returns_zero_for_zero_inputs;
    calculate_gross_buffer_accrual_preserves_zero_current_yield_behavior;
    calculate_gross_buffer_accrual_discounts_by_target_nav_growth;
    calculate_buffer_fee_split_charges_performance_fee_at_high_watermark_boundary;
    calculate_buffer_fee_split_seeds_uninitialized_high_watermark_without_performance_fee;
    calculate_buffer_fee_split_skips_performance_fee_below_high_watermark;
    calculate_buffer_fee_split_charges_performance_fee_below_disabled_high_watermark;
    burn_amount_uses_circulating_supply_basis;
    burn_amount_is_zero_when_assets_already_match_target_nav;
    test_zero_fee_basis_points;
    test_100_bps_fee;
    test_max_fee_basis_points_1000;
    test_fee_rounding_ceiling;
    test_fee_plus_net_equals_total;
    check_is_initialized_rejects_noncanonical_buffer_state_key w;
    check_is_initialized_allows_uninitialized_canonical_buffer_state w ].

End buffer_accounts.

(** ** They pass *)

Section pass.
Context (new_unique : nat -> Pubkey).
Context {R : Runtime} {L : Type}.

Lemma key_eqb_fresh (Hu : forall n m, new_unique n = new_unique m -> n = m) n m :
  n <> m -> key_eqb (new_unique n) (new_unique m) = false.
Proof. intros Hn. apply key_eqb_neq. by intros ?%Hu. Qed.

(** The unit tests of the program pass on the model: the numbers the authors
    expect of the price, the fees, the accrual, its split, the burn, the market
    statistics, and the refusals, computed by the definitions the other theorems are
    about; for any source of unique keys that yields no two equal and not the
    BUFFER's address. *)
Theorem unit_tests_pass (w : World L) :
  (forall n m, new_unique n = new_unique m -> n = m) ->
  (forall n, new_unique n <> pda [seeds.BUFFER_STATE]) ->
  Forall (fun test => test = Ok tt) (unit_tests new_unique w).
Proof.
  intros Hu Hp. unfold unit_tests.
  repeat (apply Forall_cons; split; [try (vm_compute; reflexivity)|]); [..|apply Forall_nil_2].
  1-5: unfold process_offer_core_rejects_invalid_token_in_mint,
    process_offer_core_rejects_invalid_token_out_mint, process_offer_core_rejects_invalid_fee_basis_points,
    process_offer_core_rejects_output_that_rounds_to_zero, process_offer_core_rejects_missing_active_vector,
    process_offer_core_at, Offer.require_mints, require_keys_eq; cbn [Offer.token_in_mint Offer.token_out_mint offer_for_test];
    rewrite ?key_eqb_refl, ?(key_eqb_fresh Hu) by done; vm_compute; reflexivity.
  - unfold check_is_initialized_rejects_noncanonical_buffer_state_key, check_test, check_is_initialized,
      require_keys_eq. cbn [baa_buffer_state test_accounts]. by rewrite (proj2 (key_eqb_neq _ _) (Hp 0%nat)).
  - unfold check_is_initialized_allows_uninitialized_canonical_buffer_state, check_test,
      check_is_initialized, require_keys_eq. cbn [baa_buffer_state test_accounts]. rewrite key_eqb_refl.
    unfold unchecked_account_with_owner. by repeat destruct (key_eqb _ _).
Qed.
End pass.

(** Derived addresses as the unique keys. *)
Lemma unit_tests_pass_witness :
  Forall (fun test => test = Ok tt)
    (unit_tests (fun n => pda [SeedU64 (Z.of_nat n)]) Sample.world).
Proof.
  apply unit_tests_pass.
  - intros n m H. apply pda_inj in H. injection H. apply Nat2Z.inj.
  - intros n H. apply pda_inj in H. discriminate H.
Defined.
