(* ===== verification/HarnessFacts.v ===== *)
(** * The program passes its fuzzer

    What the oracles of [Harness] assert after a successful instruction holds of
    the model of that instruction; where an oracle asks for more than the program
    does, the difference is stated. *)

From S2P Require Import World MathUtils OfferPricing Approval TokenUtils OfferHandlers MarketInfo Buffer Vaults Redemption TakeOffer Governance Program Lifecycle Harness Frames Samples MarketFacts BufferFacts AccountFacts RedemptionFacts ProgramFacts GovernanceFacts TypedFacts StoreInvariant OfferFacts LegacyFacts VaultFacts LifecycleFacts.
Open Scope Z_scope.

Lemma assert_Ok (b : bool) : b = true -> assert_ b = Ok tt.
Proof. by intros ->. Qed.

(** Each assertion of an oracle is shown in turn. *)
Ltac asserts :=
  repeat match goal with
  | |- (assert_ _ ≫= _) = Ok _ => rewrite assert_Ok; [cbn [mbind result_bind]|]
  | |- assert_ _ = Ok _ => apply assert_Ok
  end.

(** ** Governance and initialization *)

Section governance.
Context {R : Runtime} {L : Type} {TL : TokenLedger L}.
Implicit Types w : World L.

(** The slot [add_admin] or [remove_admin] overwrites. *)
Lemma replaced_slot k new slots slots' :
  replace_admin k new slots = Some slots' ->
  exists i, position (key_eqb k) slots = Some i /\ slots' !! i = Some new.
Proof.
  unfold replace_admin. destruct (position _ _) as [i|] eqn:E; cbn; [|done]. intros [= <-].
  exists i. split; [done|]. apply position_Some in E as (x & Hx & _).
  apply list_lookup_insert_eq. by eapply lookup_lt_Some.
Qed.

Lemma remove_admin_oracle k s s' :
  remove_admin_state k s = Ok s' -> remove_admin_invariant s' s k = Ok tt.
Proof.
  unfold remove_admin_state, remove_admin_invariant, index. intros H. inv_res. cbn.
  match goal with H : replace_admin _ _ _ = Some _ |- _ => apply replaced_slot in H as (i & -> & E) end.
  cbn. by rewrite E.
Qed.

Lemma set_admin_oracle k s s' :
  add_admin_state k s = Ok s' -> set_admin_invariant s' s k = Ok tt.
Proof.
  unfold add_admin_state, set_admin_invariant, index. intros H. inv_res. cbn.
  match goal with H : replace_admin _ _ _ = Some _ |- _ => apply replaced_slot in H as (i & -> & E) end.
  cbn. rewrite E. cbn. by rewrite key_eqb_refl.
Qed.

Lemma propose_boss_oracle k s s' :
  propose_boss_state k s = Ok s' -> propose_boss_invariant s' s k (State.boss s) = Ok tt.
Proof.
  unfold propose_boss_state, propose_boss_invariant. intros H. inv_res. asserts; by rewrite ?key_eqb_refl.
Qed.

Lemma accept_boss_oracle k s s' :
  accept_boss_state k s = Ok s' -> accept_boss_invariant s' s k = Ok tt.
Proof.
  unfold accept_boss_state, accept_boss_invariant. intros H. inv_res.
  match goal with H : key_eqb k _ = true |- _ => apply key_eqb_eq in H as -> end.
  asserts; by rewrite ?key_eqb_refl.
Qed.

(** What the harness asserts after a governance instruction. *)
Definition governance_oracle (i : instruction) (s s' : State.t) : Result unit :=
  match i with
  | RemoveAdmin _ k => remove_admin_invariant s' s k
  | AddAdmin _ k => set_admin_invariant s' s k
  | ProposeBoss boss k => propose_boss_invariant s' s k boss
  | AcceptBoss k => accept_boss_invariant s' s k
  | _ => Ok tt
  end.

(** The fuzzer's governance oracles ([remove_admin_invariant], [set_admin_invariant],
    [propose_boss_invariant], [accept_boss_invariant]) pass on every successful
    instruction of the program, from any state. *)
Theorem governance_passes_oracles tx i w w' :
  exec tx i w = Ok (tt, w') -> governance_oracle i (state w) (state w') = Ok tt.
Proof.
  intros H. apply exec_state in H. destruct i; cbn in *; try done;
    try match type of H with _ /\ _ => destruct H as [-> H] end;
    auto using remove_admin_oracle, set_admin_oracle, propose_boss_oracle, accept_boss_oracle.
Qed.
End governance.

(** ** Initialization *)

Section initialization.
Context {R : Runtime} {P : Platform} {PL : PlatformLaws P} {L : Type} {TL : TokenLedger L}.
Implicit Types d : Deployment.t L.

(** What the harness asserts after the two initializing instructions. *)
Definition initialization_oracle (op : operation) d' : Result unit :=
  match op with
  | Initialize boss _ _ onyc_mint =>
      initialize_invariant (Deployment.state_account d') boss onyc_mint
  | InitializePermissionlessAuthority _ name =>
      initialize_permissionless_authority_invariant (Deployment.permissionless_authority d') name
  | _ => Ok tt
  end.

Lemma initialization_passes_oracles chain tx op d d' :
  run chain tx op d = Ok d' -> initialization_oracle op d' = Ok tt.
Proof.
  intros H. destruct op as [boss program pd onyc|boss name| |]; [| |done..].
  - apply initialize_Ok in H as (_ & _ & _ & ->). cbn. unfold initialize_invariant. cbn.
    by rewrite !key_eqb_refl, bool_decide_true.
  - cbn [run] in H. unfold initialize_permissionless_authority in H. inv_res. cbn.
    by rewrite bool_decide_true.
Qed.
End initialization.

(** ** Vaults *)

Section vaults.
Context {R : Runtime} {RL : RuntimeLaws R} {L : Type} {TL : TokenLedger L} {TLL : TokenLedgerLaws L}.
Implicit Types w : World L.

Lemma account_balance w k a : ledger_account (ledger w) k = Some a -> TokenAccount.amount a = balance (ledger w) k.
Proof. unfold balance. by intros ->. Qed.

Lemma balance_range w k : 0 <= balance (ledger w) k <= u64.MAX.
Proof using All.
  unfold balance. destruct (ledger_account _ _) as [a|] eqn:E; [by eapply ledger_amount_u64|zlia].
Qed.

(** An oracle's arithmetic on amounts that are in range. *)
Lemma sub_ok a b : 0 <= a - b <= u64.MAX -> u64.checked_sub a b = Some (a - b).
Proof. intros. by apply checked_ok. Qed.
Lemma add_ok a b : 0 <= a + b <= u64.MAX -> u64.checked_add a b = Some (a + b).
Proof. intros. by apply checked_ok. Qed.

(** The fuzzer's vault oracles ([offer_vault_deposit_invariant],
    [offer_vault_withdraw_invariant]) pass: read off the token accounts before and
    after a successful deposit or withdrawal, of anybody but the vault's own
    authority, the balances differ by exactly the amount. *)
Theorem vaults_pass_oracles ctx amount u w w' s s' v' :
  0 <= amount -> vt_signer ctx <> pda [seeds.OFFER_VAULT_AUTHORITY] ->
  ledger_account (ledger w) (vt_signer_account ctx) = Some s ->
  ledger_account (ledger w') (vt_signer_account ctx) = Some s' ->
  ledger_account (ledger w') (vt_vault_account ctx) = Some v' ->
  (offer_vault_deposit ctx amount w = Ok (u, w') ->
     offer_vault_deposit_invariant s s' (ledger_account (ledger w) (vt_vault_account ctx)) v' amount = Ok tt) /\
  (offer_vault_withdraw ctx amount w = Ok (u, w') -> forall v,
     ledger_account (ledger w) (vt_vault_account ctx) = Some v ->
     offer_vault_withdraw_invariant s s' v v' amount = Ok tt).
Proof using All.
  intros Ha Hne Hs Hs' Hv'. apply account_balance in Hs, Hs', Hv'.
  pose proof (balance_range w (vt_signer_account ctx)). pose proof (balance_range w' (vt_signer_account ctx)).
  pose proof (balance_range w (vt_vault_account ctx)). pose proof (balance_range w' (vt_vault_account ctx)).
  assert (Hk : forall auth, vt_signer ctx <> auth ->
    vt_signer_account ctx = associated_token_address (vt_signer ctx) (vt_mint ctx) (vt_token_program ctx) ->
    vt_vault_account ctx = associated_token_address auth (vt_mint ctx) (vt_token_program ctx) ->
    key_eqb (vt_signer_account ctx) (vt_vault_account ctx) = false /\
    key_eqb (vt_vault_account ctx) (vt_signer_account ctx) = false).
  { intros auth Hn E1 E2. rewrite !key_eqb_neq, E1, E2.
    split; intros E; apply ata_inj in E as [? _]; congruence. }
  split.
  - intros Hrun. apply deposit_Ok in Hrun as (_ & E1 & E2 & [Hb _ Hx _]).
    destruct (Hk _ Hne E1 E2) as [K1 K2].
    pose proof (Hb (vt_signer_account ctx)) as B1. pose proof (Hb (vt_vault_account ctx)) as B2.
    rewrite K1, key_eqb_refl in B1. rewrite K2, key_eqb_refl in B2. cbn in B1, B2.
    unfold offer_vault_deposit_invariant. rewrite Hs, Hs', Hv', sub_ok by lia. run_res.
    rewrite (assert_Ok (_ =? balance (ledger w') (vt_signer_account ctx))) by (apply Z.eqb_eq; lia).
    run_res. destruct (ledger_account (ledger w) (vt_vault_account ctx)) as [v|] eqn:E.
    + rewrite (account_balance _ _ _ E), add_ok by lia. cbn. apply assert_Ok, Z.eqb_eq. lia.
    + apply assert_Ok, Z.eqb_eq. unfold balance in B2. rewrite E in B2. unfold balance. lia.
  - intros Hrun v Hv. apply withdraw_Ok in Hrun as (_ & _ & E1 & E2 & [Hb _ Hx _]).
    destruct (Hk _ Hne E1 E2) as [K1 K2]. apply account_balance in Hv.
    pose proof (Hb (vt_signer_account ctx)) as B1. pose proof (Hb (vt_vault_account ctx)) as B2.
    rewrite K1, key_eqb_refl in B1. rewrite K2, key_eqb_refl in B2. cbn in B1, B2.
    unfold offer_vault_withdraw_invariant. rewrite Hs, Hs', Hv, Hv', add_ok by lia. run_res.
    rewrite (assert_Ok (_ =? balance (ledger w') (vt_signer_account ctx))) by (apply Z.eqb_eq; lia).
    run_res. rewrite sub_ok by lia. cbn. apply assert_Ok, Z.eqb_eq. lia.
Qed.
End vaults.

(** ** Offers *)

(** The harness's copies of the vector lookup and the clean-up are the program's. *)
Lemma harness_find_active o t v :
  Harness.find_active_vector_at o t = Some v <-> OfferPricing.find_active_vector_at o t = Ok v.
Proof.
  unfold Harness.find_active_vector_at, OfferPricing.find_active_vector_at, vector_live_at.
  destruct (max_by_key _ _); cbn; split; intros; by simplify_eq.
Qed.

Lemma harness_find_inactive o t :
  Harness.find_active_vector_at o t = None <->
  OfferPricing.find_active_vector_at o t = Err (Onre OnreError.NoActiveVector).
Proof.
  unfold Harness.find_active_vector_at, OfferPricing.find_active_vector_at, vector_live_at.
  destruct (max_by_key _ _); cbn; split; intros; by simplify_eq.
Qed.

Lemma harness_clean o v now :
  Harness.clean_old_vectors o v now = fst <$> OfferPricing.clean_old_vectors o v now.
Proof.
  unfold Harness.clean_old_vectors, OfferPricing.clean_old_vectors. cbv zeta.
  assert (Hfind : forall t, OfferPricing.find_active_vector_at o t =
    match Harness.find_active_vector_at o t with Some x => Ok x | None => Err (Onre OnreError.NoActiveVector) end).
  { intros t. destruct (Harness.find_active_vector_at o t) eqn:E;
      [by apply harness_find_active|by apply harness_find_inactive]. }
  rewrite !Hfind.
  destruct (if OfferVector.start_time v =? now then Some v else _) as [x|] eqn:E;
    destruct (OfferVector.start_time v =? now); simplify_eq; rewrite ?E; try done;
    (destruct (u64.checked_sub _ 1) as [b|]; [|done]); cbn; rewrite Hfind;
    by destruct (Harness.find_active_vector_at o b).
Qed.

Section offers.
Context {R : Runtime} {L : Type} {TL : TokenLedger L}.
Implicit Types w : World L.

Lemma make_offer_oracle ctx fee na ap u w w' :
  make_offer ctx fee na ap w = Ok (u, w') ->
  make_offer_invariant (offers w' !! mo_offer ctx) fee (mo_token_in_mint ctx) (mo_token_out_mint ctx)
    na ap = Ok tt /\
  Offer.vectors <$> offers w' !! mo_offer ctx = Some (replicate MAX_VECTORS OfferVector.default).
Proof.
  intros H. unfold make_offer in H. cbv zeta in H. inv_m. unfold store_offer in *. inv_m. cbn.
  rewrite lookup_insert_eq. split; [|done]. unfold make_offer_invariant. cbn.
  rewrite !key_eqb_refl, !Z.eqb_refl. cbn. by destruct na, ap.
Qed.

(** The fuzzer's offer oracles pass.  A made offer is what [make_offer_invariant] asserts,
    and its vectors are all empty, which the oracle computes without asserting;
    the harness's own clean-up of old vectors is the program's, for every offer;
    and an added vector that starts at its base time, as the fuzzer's all do, is
    found where [add_offer_vector_invariant] looks for it. *)
Theorem offers_pass_oracles ctx fee na ap u w w' o v now o' ev t :
  (make_offer ctx fee na ap w = Ok (u, w') ->
     make_offer_invariant (offers w' !! mo_offer ctx) fee (mo_token_in_mint ctx) (mo_token_out_mint ctx)
       na ap = Ok tt /\
     Offer.vectors <$> offers w' !! mo_offer ctx = Some (replicate MAX_VECTORS OfferVector.default)) /\
  Harness.clean_old_vectors o v now = fst <$> OfferPricing.clean_old_vectors o v now /\
  (length (Offer.vectors o) = MAX_VECTORS -> u64.cast t = now ->
   forall st bt bp apr d, OfferVector.start_time (new_offer_vector st bt bp apr d now) = bt ->
   add_vector o now (new_offer_vector st bt bp apr d now) = Ok (o', ev) ->
     add_offer_vector_invariant o' o st bt bp apr d t = Ok tt).
Proof.
  split; [|split; [apply harness_clean|]].
  - apply make_offer_oracle.
  - intros Hl Ht st bt bp apr d Hst H. unfold add_offer_vector_invariant. rewrite Ht.
    fold (new_offer_vector st bt bp apr d now). cbv zeta. rewrite harness_clean.
    unfold add_vector in H. inv_res.
    match goal with H : OfferPricing.clean_old_vectors _ _ _ = Ok ?p |- _ =>
      destruct p as [o1 ev1]; rewrite H; apply clean_old_vectors_Ok in H as (e & Hvs & _) end.
    cbn [fmap result_fmap fst mbind result_bind]. unfold find_vector_index_by_start_time in *. inv_res.
    match goal with H : position _ _ = Some ?i |- _ => rename i into slot; rewrite H;
      apply position_Some in H as (x & Hx & _) end.
    cbn [panicking mbind result_bind Offer.vectors Offer.with_vectors]. unfold index.
    rewrite length_insert, Hvs, length_map, Hl. rewrite assert_Ok by done. run_res.
    rewrite Hvs in Hx. rewrite list_lookup_insert_eq by (by eapply lookup_lt_Some).
    cbn in Hst |- *. by rewrite Hst, !Z.eqb_refl.
Qed.
End offers.

(** ** Taking an offer *)

(** On a flat price the harness computes the program's price. *)
Lemma flat_price o v t p :
  OfferPricing.find_active_vector_at o t = Ok v -> OfferVector.apr v = 0 ->
  0 <= OfferVector.base_price v <= u64.MAX -> compute_offer_current_price o t = Ok p ->
  p = OfferVector.base_price v /\
  calculate_price (OfferVector.apr v) (OfferVector.base_price v) (OfferVector.base_time v)
    (OfferVector.price_fix_duration v) t = Ok p.
Proof.
  intros Hv Ha Hbp H. unfold compute_offer_current_price, get_active_vector_and_current_price,
    compute_vector_price_at_time in H. rewrite Hv in H. cbn [mbind result_bind] in H. inv_res.
  rewrite Ha in *.
  match goal with H : calculate_step_price_at _ _ _ _ _ = Ok _ |- _ =>
    unfold calculate_step_price_at in H; inv_price end.
  assert (p = OfferVector.base_price v) as -> by (unfold calculate_vector_price in *; cbn in *; by inv_res).
  split; [done|]. unfold calculate_price. cbv zeta.
  rewrite (proj2 (Z.ltb_ge _ _)) by done. run_known.
  assert (0 <= v3 <= u64.MAX) by (unfold u64.checked_mul in *; inv_checked; lia).
  unfold u128.checked_mul, u128.checked_add. rewrite (checked_ok _ _ (1000000 * 31536000)) by zlia. run_res.
  rewrite (checked_ok _ _ (0 * v3)) by zlia. run_res.
  rewrite (checked_ok _ _ (1000000 * 31536000 + 0 * v3)) by zlia. run_res.
  rewrite Z.mul_0_l, Z.add_0_r.
  rewrite (checked_ok _ _ (OfferVector.base_price v * (1000000 * 31536000))) by zlia. run_res.
  unfold u128.checked_div. rewrite Z.div_mul by done.
  change (1000000 * 31536000 =? 0) with false. run_res. rewrite assert_Ok; [done|]. apply Z.leb_le. lia.
Qed.

(** The harness rounds the fee down, the program up: they agree when there is no
    remainder. *)
Lemma exact_fee o t amount bps din dout res :
  amount <= u64.MAX -> 0 <= bps <= MAX_BASIS_POINTS -> (10000 | amount * bps) ->
  priced o t amount bps din dout res -> u64.cast (amount * bps / 10000) = opr_token_in_fee_amount res.
Proof.
  intros Ha Hb [q Hq] [_ Hpos Hs Hn [[H1 H2] H3] _ _ _]. unfold MAX_BASIS_POINTS in *.
  rewrite Hq, Z.div_mul by done. assert (q = opr_token_in_fee_amount res) as -> by lia.
  unfold u64.cast, wrap_u. apply Z.mod_small. change (2 ^ 64) with 18446744073709551616. zlia.
Qed.

Lemma harness_token_out net price din dout out :
  0 <= net <= u64.MAX -> 0 < price -> 0 <= din <= 18 -> 0 <= dout <= 18 -> out <= u64.MAX ->
  net * 10 ^ (dout + 9) <= u128.MAX -> price * 10 ^ din <= u128.MAX ->
  out * (price * 10 ^ din) <= net * 10 ^ (dout + 9) < (out + 1) * (price * 10 ^ din) ->
  calculate_token_out net price din dout = Ok out.
Proof.
  intros Hn Hp Hdi Hdo Ho Hf1 Hf2 Hv. unfold calculate_token_out, u128.checked_pow, u128.checked_mul.
  assert (Hpow : forall d, 0 <= d <= 18 -> 1 <= 10 ^ d <= 10 ^ 18).
  { intros d Hd. split; [apply (Z.pow_le_mono_r 10 0); lia|apply Z.pow_le_mono_r; lia]. }
  pose proof (Hpow din Hdi). pose proof (Hpow dout Hdo).
  change (10 ^ 18) with 1000000000000000000 in *. rewrite Z.pow_add_r in * by lia.
  change (10 ^ 9) with 1000000000 in *.
  rewrite (checked_ok _ _ 1000000000) by zlia. run_res.
  rewrite (checked_ok _ _ (net * 1000000000)) by zlia. run_res.
  rewrite (checked_ok _ _ (10 ^ dout)) by zlia. run_res.
  replace (net * 1000000000 * 10 ^ dout) with (net * (10 ^ dout * 1000000000)) by ring.
  rewrite (checked_ok _ _ (net * (10 ^ dout * 1000000000))) by nia. run_res.
  rewrite (checked_ok _ _ (10 ^ din)) by zlia. run_res.
  rewrite (checked_ok _ _ (price * 10 ^ din)) by nia. run_res.
  unfold u128.checked_div. rewrite (proj2 (Z.eqb_neq _ 0)) by nia. run_res.
  rewrite <- (Z.div_unique (net * (10 ^ dout * 1000000000)) (price * 10 ^ din) out
    (net * (10 ^ dout * 1000000000) - out * (price * 10 ^ din))) by (nia || ring).
  rewrite assert_Ok; [done|]. apply Z.leb_le. lia.
Qed.

(** The fuzzer's price oracle: for an offer whose vector in force has no APR, and a
    fee without remainder, what [take_offer_invariant] expects the user to
    receive is what the program pays out. *)
Lemma expected_flat o v t amount din dout res :
  priced o t amount (Offer.fee_basis_points o) din dout res ->
  OfferPricing.find_active_vector_at o t = Ok v -> OfferVector.apr v = 0 ->
  0 <= OfferVector.base_price v <= u64.MAX -> 0 <= din -> 0 <= dout -> amount <= u64.MAX ->
  0 <= Offer.fee_basis_points o <= MAX_BASIS_POINTS -> (10000 | amount * Offer.fee_basis_points o) ->
  expected_token_out o din dout amount t = Ok (opr_token_out_amount res).
Proof.
  intros Hp Hv Hapr Hbp Hdi Hdo Ha Hb Hd. pose proof Hp as [Hpr [Hpos ?] Hs Hn [_ Hfee] Hout Hval Hfits].
  unfold expected_token_out, find_active_pricing_vector. pose proof Hv as Hf.
  apply harness_find_active in Hf. unfold Harness.find_active_vector_at in Hf. rewrite Hf. run_res.
  destruct (flat_price _ _ _ _ Hv Hapr Hbp Hpr) as [_ Hcp]. rewrite Hcp. run_res.
  unfold u128.checked_mul. unfold MAX_BASIS_POINTS in *.
  assert (0 <= amount * Offer.fee_basis_points o <= u64.MAX * 10000)
    by (split; [apply Z.mul_nonneg_nonneg|apply Z.mul_le_mono_nonneg]; lia).
  rewrite checked_ok by zlia. run_res.
  erewrite exact_fee by (done || eassumption).
  unfold u64.checked_sub. rewrite checked_ok by lia. run_res.
  apply harness_token_out; try tauto; try lia.
Qed.

Section take.
Context {R : Runtime} {L : Type} {TL : TokenLedger L} {TLL : TokenLedgerLaws L}.
Implicit Types w : World L.

(** The flat offer of [expected_flat], in the account the instruction names. *)
Record flat_offer (ctx : TakeOfferBase) (amount : Z) (o : Offer.t) (mi mo : Mint.t) w : Prop := {
  fo_offer : offers w !! to_offer ctx = Some o;
  fo_vector : exists v, OfferPricing.find_active_vector_at o (timestamp_u64 (clock w)) = Ok v /\
    OfferVector.apr v = 0 /\ 0 <= OfferVector.base_price v <= u64.MAX;
  fo_fee : (10000 | amount * Offer.fee_basis_points o);
  fo_in : ledger_mint (ledger w) (to_token_in_mint ctx) = Some mi;
  fo_out : ledger_mint (ledger w) (to_token_out_mint ctx) = Some mo;
  fo_not_burned : Mint.mint_authority mi <> Some mint_authority_key
}.

(** C29: the fuzzer's take oracle ([take_offer_invariant]) passes on the legacy [take_offer] of
    an offer with a flat price and a fee without remainder, whose token_in the
    program does not burn: the user pays and the boss receives exactly the
    amount, and the user receives the token_out the harness computes for
    itself. *)
Theorem take_offer_passes_oracle tx ctx boss boss_account sysvar amount msg u w w' o mi mo ui ui' uo' bi bi' :
  typed w -> amount <= u64.MAX -> flat_offer ctx amount o mi mo w ->
  NoDup [to_user_token_in_account ctx; to_user_token_out_account ctx; boss_account;
         to_vault_token_out_account ctx] ->
  ledger_account (ledger w) (to_user_token_in_account ctx) = Some ui ->
  ledger_account (ledger w') (to_user_token_in_account ctx) = Some ui' ->
  ledger_account (ledger w') (to_user_token_out_account ctx) = Some uo' ->
  ledger_account (ledger w) boss_account = Some bi ->
  ledger_account (ledger w') boss_account = Some bi' ->
  take_offer tx ctx boss boss_account sysvar amount msg w = Ok (u, w') ->
  take_offer_invariant o ui ui' (ledger_account (ledger w) (to_user_token_out_account ctx)) uo' bi bi'
    mi mo amount (Clock.unix_timestamp (clock w)) = Ok tt.
Proof using All.
  intros Hty Ha [Ho (v & Hv & Hapr & Hbp) Hd Hmi Hmo Hnb] Hnd Hui Hui' Huo' Hbi Hbi' H.
  apply take_offer_legacy in H as (o' & mi' & mo' & res & [_ [Ho' _] (Hfi & Eki & _ & Hfo & Eko & _) _ Hp [Ema _]]
    & _ & _ & _ & [_ Hb _ _ _]); [|done|done].
  rewrite Ho in Ho'. injection Ho' as <-. unfold fresh in Hfi, Hfo. rewrite Eki, Hmi in Hfi. rewrite Eko, Hmo in Hfo.
  assert (Ei : decimals mi' = Mint.decimals mi) by (unfold decimals; congruence).
  assert (Eo : decimals mo' = Mint.decimals mo) by (unfold decimals; congruence).
  assert (Hc : program_controls_mint mi' (to_mint_authority ctx) = false).
  { unfold program_controls_mint. injection Hfi as <-. rewrite Ema.
    destruct (Mint.mint_authority mi) as [a|]; [|done]. apply key_eqb_neq. congruence. }
  rewrite Ei, Eo in Hp. pose proof (typed_offer _ Hty _ _ Ho) as (_ & Hbps & _).
  pose proof (ledger_decimals_u8 _ _ _ Hmi). pose proof (ledger_decimals_u8 _ _ _ Hmo).
  pose proof (expected_flat o v (timestamp_u64 (clock w)) amount (Mint.decimals mi) (Mint.decimals mo) res
    Hp Hv Hapr Hbp ltac:(lia) ltac:(lia) Ha Hbps Hd) as He.
  destruct Hp as [_ [Hpos _] Hs Hn [_ Hfee] Hout _ _].
  pose proof (Hb (to_user_token_in_account ctx)) as B1. pose proof (Hb boss_account) as B2.
  pose proof (Hb (to_user_token_out_account ctx)) as B3. clear Hb.
  rewrite !NoDup_cons, !not_elem_of_cons in Hnd. destruct Hnd as ((N1 & N2 & N3 & _) & (N4 & N5 & _) & (N6 & _) & _).
  unfold in_balance_change, out_balance_change, controls_in in B1, B2, B3. cbn in B1, B2, B3.
  rewrite Hc in B1, B2, B3.
  assert (F : forall a b, a <> b -> key_eqb a b = false /\ key_eqb b a = false)
    by (intros; by rewrite !key_eqb_neq).
  destruct (F _ _ N1) as [F1 F1'], (F _ _ N2) as [F2 F2'], (F _ _ N3) as [F3 _],
    (F _ _ N4) as [F4 F4'], (F _ _ N5) as [F5 _], (F _ _ N6) as [F6 _].
  rewrite ?key_eqb_refl, ?F1, ?F1', ?F2, ?F2', ?F3, ?F4, ?F4', ?F5, ?F6 in *. cbn [delta] in *.
  assert (forall (b : bool), (if b then 0 else 0) = 0) as If0 by (by intros []).
  rewrite If0 in *.
  apply account_balance in Hui, Hui', Huo', Hbi, Hbi'.
  unfold take_offer_invariant. rewrite Hui, Hui', Huo', Hbi, Hbi'.
  assert (Eb : match ledger_account (ledger w) (to_user_token_out_account ctx) with
               | Some a => TokenAccount.amount a | None => 0 end
               = balance (ledger w) (to_user_token_out_account ctx)) by done.
  rewrite Eb. fold (timestamp_u64 (clock w)). rewrite He.
  rewrite (sub_ok (balance (ledger w) (to_user_token_in_account ctx))) by lia. run_res.
  rewrite assert_Ok by (apply Z.eqb_eq; lia). run_res.
  rewrite (sub_ok (balance (ledger w') boss_account)) by lia. run_res.
  rewrite assert_Ok by (apply Z.eqb_eq; lia). run_res.
  rewrite sub_ok by lia. run_res. apply assert_Ok, Z.eqb_eq. lia.
Qed.
End take.

(** ** Where the harness and the program differ *)

(** The harness grows prices linearly, the program compounds daily: with an APR they
    disagree on what the same user receives. *)
Lemma harness_price_differs :
  exists r x, process_offer_core_at Sample.offer 1000000000 Sample.usdc 6 Sample.onyc 9 1000100 500 = Ok r /\
    expected_token_out Sample.offer 6 9 1000000000 1000100 = Ok x /\ x <> opr_token_out_amount r.
Proof.
  destruct (process_offer_core_at Sample.offer 1000000000 Sample.usdc 6 Sample.onyc 9 1000100 500)
    as [r|] eqn:E1; [|by vm_compute in E1].
  destruct (expected_token_out Sample.offer 6 9 1000000000 1000100) as [x|] eqn:E2; [|by vm_compute in E2].
  exists r, x. split; [done|]. split; [done|]. vm_compute in E1, E2. by simplify_eq.
Qed.

(** After a failed removal of a key that is no admin, and after a failed acceptance by
    a key that is not proposed, the harness expects the first error of
    [errors.rs]; the program returns another one, so the harness panics. *)
Lemma error_oracles_fail s k e :
  (remove_admin_state k s = Err e -> remove_admin_error s k e = Err Panicked) /\
  (accept_boss_state k s = Err e -> State.proposed_boss s <> k -> accept_boss_error s k e = Err Panicked).
Proof.
  split.
  - unfold remove_admin_state, remove_admin_error. intros H.
    destruct (replace_admin k _ _) as [l|] eqn:E; cbn in H; simplify_eq.
    apply replace_admin_None in E. rewrite <- mem_key_elem in E. unfold mem_key in E.
    by destruct (existsb _ _).
  - unfold accept_boss_state, accept_boss_error. intros H Hn.
    rewrite (proj2 (key_eqb_neq _ _) Hn). destruct (key_eqb _ Pubkey_default); cbn in H; simplify_eq; [done|].
    destruct (key_eqb k _) eqn:E; cbn in H; by simplify_eq.
Qed.

(** A failed proposal is the wrong boss's, or proposes the default key. *)
Lemma propose_error_oracle boss k s e :
  (if key_eqb (State.boss s) boss then propose_boss_state k s else Err (Anchor ConstraintHasOne)) = Err e ->
  propose_boss_error s boss e = Ok tt.
Proof.
  unfold propose_boss_error, propose_boss_state. destruct (key_eqb (State.boss s) boss); cbn.
  - destruct (key_eqb k Pubkey_default); cbn; by intros [= <-].
  - by intros [= <-].
Qed.

(** ** Witnesses *)

Module Fuzzed.
(** The sample offer without an APR, at 1.0. *)
Definition offer : Offer.t :=
  Offer.with_vectors (OfferVector.mk 100 100 1000000000 0 86400 :: replicate 9 OfferVector.default)
    Sample.offer.
Definition world : World SampleLedger.t := set_offers {[Sample.offer_key := offer]} Sample.world.
Definition take : M SampleLedger.t unit :=
  take_offer Take.tx Take.base Sample.boss Legacy.boss_account instructions_sysvar_id Legacy.amount None.
Definition deposited : World SampleLedger.t :=
  Sample.after (offer_vault_deposit Deposit.ctx 1000) Sample.world.
Definition account (w : World SampleLedger.t) (k : Pubkey) : TokenAccount.t :=
  default (TokenAccount.mk 0%N 0%N 0 0%N) (ledger_account (ledger w) k).
Definition mint (k : Pubkey) : Mint.t :=
  default (Mint.mk 0 0 None 0%N None) (ledger_mint (ledger world) k).
End Fuzzed.

Example flat_take_runs : is_ok (Fuzzed.take Fuzzed.world) = true.
Proof. vm_compute. reflexivity. Qed.
Example add_admin_runs : is_ok (exec Governed.tx (AddAdmin Sample.boss Sample.worker) Sample.world) = true.
Proof. vm_compute. reflexivity. Qed.

Lemma governance_passes_oracles_witness :
  set_admin_invariant (state (Sample.after (exec Governed.tx (AddAdmin Sample.boss Sample.worker)) Sample.world))
    (state Sample.world) Sample.worker = Ok tt.
Proof. exact (governance_passes_oracles _ _ _ _ (after_Ok _ _ add_admin_runs)). Defined.

Lemma vaults_pass_oracles_witness :
  offer_vault_deposit_invariant
    (Fuzzed.account Sample.world (Sample.ata Sample.user Sample.usdc))
    (Fuzzed.account Fuzzed.deposited (Sample.ata Sample.user Sample.usdc))
    (ledger_account (ledger Sample.world) (Sample.ata Sample.offer_vault Sample.usdc))
    (Fuzzed.account Fuzzed.deposited (Sample.ata Sample.offer_vault Sample.usdc)) 1000 = Ok tt.
Proof.
  refine (proj1 (vaults_pass_oracles Deposit.ctx 1000 tt Sample.world Fuzzed.deposited _ _ _
    _ _ _ _ _) (after_Ok _ _ deposit_runs)); vm_compute; first [reflexivity|discriminate].
Defined.

Lemma fuzzed_typed : typed Fuzzed.world.
Proof.
  split.
  - intros b [= <-]. apply sample_buffer_ok.
  - intros k o H. cbn in H. apply lookup_singleton_Some in H as [_ <-]. split.
    + constructor; [cbn; lia|]. by apply Forall_replicate.
    + cbn. unfold MAX_BASIS_POINTS. lia.
  - intros k o H. cbn in H. apply lookup_singleton_Some in H as [_ <-]. cbn. unfold MAX_BASIS_POINTS. lia.
  - intros k s H. cbn in H. by apply lookup_empty_Some in H.
Qed.

Lemma take_offer_passes_oracle_witness :
  let w' := Sample.after Fuzzed.take Fuzzed.world in
  let user_in := Sample.ata Sample.user Sample.usdc in
  let user_out := Sample.ata Sample.user Sample.onyc in
  take_offer_invariant Fuzzed.offer (Fuzzed.account Fuzzed.world user_in) (Fuzzed.account w' user_in)
    (ledger_account (ledger Fuzzed.world) user_out) (Fuzzed.account w' user_out)
    (Fuzzed.account Fuzzed.world Legacy.boss_account) (Fuzzed.account w' Legacy.boss_account)
    (Fuzzed.mint Sample.usdc) (Fuzzed.mint Sample.onyc) 1000000000 1000100 = Ok tt.
Proof.
  refine (take_offer_passes_oracle Take.tx Take.base Sample.boss Legacy.boss_account
    instructions_sysvar_id Legacy.amount None tt Fuzzed.world _ Fuzzed.offer _ _ _ _ _ _ _
    fuzzed_typed _ _ _ _ _ _ _ _ (after_Ok _ _ flat_take_runs)).
  - vm_compute. discriminate.
  - split; [vm_compute; reflexivity| | |vm_compute; reflexivity|vm_compute; reflexivity|vm_compute; discriminate].
    + exists (OfferVector.mk 100 100 1000000000 0 86400). split; [vm_compute; reflexivity|].
      split; [reflexivity|]. split; vm_compute; discriminate.
    + exists 50000000. vm_compute. reflexivity.
  - apply (bool_decide_unpack (NoDup _)). vm_compute. exact I.
  - vm_compute. reflexivity.
  - vm_compute. reflexivity.
  - vm_compute. reflexivity.
  - vm_compute. reflexivity.
  - vm_compute. reflexivity.
Defined.

Lemma offers_pass_oracles_witness :
  exists o' ev, add_vector Fuzzed.offer 1000100 (new_offer_vector None 2000000 1000000000 0 86400 1000100)
    = Ok (o', ev) /\
  add_offer_vector_invariant o' Fuzzed.offer None 2000000 1000000000 0 86400 1000100 = Ok tt.
Proof.
  destruct (add_vector Fuzzed.offer 1000100 (new_offer_vector None 2000000 1000000000 0 86400 1000100))
    as [[o' ev]|] eqn:E; [|by vm_compute in E].
  exists o', ev. split; [done|].
  exact (proj2 (proj2 (offers_pass_oracles (mkMakeOffer 0%N 0%N 0%N 0%N 0%N 0%N) 0 false false tt
    Sample.world Sample.world Fuzzed.offer OfferVector.default 1000100 o' ev 1000100))
    eq_refl eq_refl None 2000000 1000000000 0 86400 eq_refl E).
Defined.
