(* ===== verification/FuzzFacts.v ===== *)
(** * What the fuzz tests decide

    On the model of the program: which governance flows of [FuzzTest] pass and which
    panic, for every state and every random choice; and runs of the pricing flow. *)

From S2P Require Import World OfferPricing Approval OfferHandlers TokenUtils Governance Program Lifecycle Harness Frames Samples MarketFacts BufferFacts AccountFacts ProgramFacts GovernanceFacts LifecycleFacts HarnessFacts FuzzTest.
Open Scope Z_scope.

Section governance_flows.
Context {R : Runtime} {P : Platform} {L : Type} {TL : TokenLedger L}.
Context (chain : Pubkey -> RawAccount) (tx : InstructionsSysvar) (boss : Pubkey).
Implicit Types (d : Deployment.t L) (s : State.t).

(** A computation on deployments lands on what one on states computes: it succeeds
    with that state account, or fails with the same error. *)
Definition lands (D : Result (Deployment.t L)) (v : Result State.t) : Prop :=
  match D, v with
  | Ok d, Ok s => Deployment.state_account d = Some s
  | Err e, Err e' => e = e'
  | _, _ => False
  end.

Lemma lands_bind D v f g :
  lands D v -> (forall d s, Deployment.state_account d = Some s -> lands (f d) (g s)) ->
  lands (D ≫= f) (v ≫= g).
Proof. destruct D, v; cbn; try done; auto. Qed.

(** An instruction the boss signs that updates the state account. *)
Lemma boss_update_eq who f name fs (w : World L) :
  (has_one_boss who;; _ ← update_state f; emit name fs) w
  = if key_eqb (State.boss (state w)) who then
      s ← f (state w);
      Ok (tt, set_events (events w ++ [mkEvent name fs]) (set_state s w))
    else Err (Anchor ConstraintHasOne).
Proof.
  unfold has_one_boss, update_state, emit, constraint, guard, lift, gets, modify.
  unfold mbind, M_bind, mret, M_ret. cbn.
  destruct (key_eqb _ _); cbn; [|done]. by destruct (f (state w)).
Qed.

Definition by_boss who s (r : Result State.t) : Result State.t :=
  if key_eqb (State.boss s) who then r else Err (Anchor ConstraintHasOne).

Lemma lands_boss_update i who f name fs d s :
  exec (L := L) tx i = (has_one_boss who;; _ ← update_state f; emit name fs) ->
  Deployment.state_account d = Some s ->
  lands (process_transaction chain tx i d) (by_boss who s (f s)).
Proof.
  intros Hi E. unfold process_transaction, by_boss. cbn [run]. rewrite E, Hi, boss_update_eq. cbn.
  destruct (key_eqb _ _); [|done]. by destruct (f s).
Qed.

Lemma lands_accept k d s :
  Deployment.state_account d = Some s ->
  lands (process_transaction chain tx (AcceptBoss k) d) (accept_boss_state k s).
Proof.
  intros E. unfold process_transaction. cbn [run exec]. rewrite E.
  unfold Governance.accept_boss, update_state, emit, lift, gets, modify.
  unfold mbind, M_bind, mret, M_ret. cbn.
  by destruct (accept_boss_state k s).
Qed.

(** A driver: the oracle [inv] on a success, [err] on a failure. *)
Definition judge s (r : Result State.t) (err : Error -> Result unit) : Result State.t :=
  match r with Ok s' => Ok s' | Err e => err e;; Ok s end.

Lemma lands_driver d s (D : Result (Deployment.t L)) r inv err :
  Deployment.state_account d = Some s -> lands D r ->
  (forall s', r = Ok s' -> inv s' s = Ok tt) ->
  lands (state_before ← get_state d;
         match D with
         | Ok d' => state_after ← get_state d'; (inv state_after state_before : Result unit);; Ok d'
         | Err e => (err state_before e : Result unit);; Ok d
         end) (judge s r (err s)).
Proof.
  intros E Hl Hinv. unfold get_state. rewrite E. cbn. destruct D as [d'|e], r as [s'|e']; cbn in *; try done.
  - rewrite Hl. cbn. by rewrite Hinv.
  - subst. by destruct (err s e').
Qed.

Lemma remove_admin_lands k d s :
  Deployment.state_account d = Some s ->
  lands (remove_admin chain tx boss k d)
    (judge s (by_boss boss s (remove_admin_state k s)) (remove_admin_error s k)).
Proof.
  intros E. apply (lands_driver _ _ _ _ (fun a b => remove_admin_invariant a b k)
    (fun b => remove_admin_error b k)); [done| |].
  - by eapply lands_boss_update.
  - intros s' H. unfold by_boss in H. destruct (key_eqb _ _); [|done]. by apply remove_admin_oracle.
Qed.

Lemma set_admin_lands k d s :
  Deployment.state_account d = Some s ->
  lands (set_admin chain tx boss k d)
    (judge s (by_boss boss s (add_admin_state k s)) (fun _ => Ok tt)).
Proof.
  intros E. apply (lands_driver _ _ _ _ (fun a b => set_admin_invariant a b k) (fun _ _ => Ok tt)); [done| |].
  - by eapply lands_boss_update.
  - intros s' H. unfold by_boss in H. destruct (key_eqb _ _); [|done]. by apply set_admin_oracle.
Qed.

Lemma propose_boss_lands old new d s :
  Deployment.state_account d = Some s ->
  lands (propose_boss chain tx old new d)
    (judge s (by_boss old s (propose_boss_state new s)) (propose_boss_error s old)).
Proof.
  intros E. apply (lands_driver _ _ _ _ (fun a b => propose_boss_invariant a b new old)
    (fun b => propose_boss_error b old)); [done| |].
  - by eapply lands_boss_update.
  - intros s' H. unfold by_boss in H. destruct (key_eqb _ _) eqn:Eb; [|done].
    apply key_eqb_eq in Eb as <-. by apply propose_boss_oracle.
Qed.

Lemma accept_boss_lands k d s :
  Deployment.state_account d = Some s ->
  lands (accept_boss chain tx k d) (judge s (accept_boss_state k s) (accept_boss_error s k)).
Proof.
  intros E. apply (lands_driver _ _ _ _ (fun a b => accept_boss_invariant a b k)
    (fun b => accept_boss_error b k)); [done| |].
  - by apply lands_accept.
  - intros s'. apply accept_boss_oracle.
Qed.
End governance_flows.

(** ** The verdicts on states *)

Section verdicts.
Implicit Types (s : State.t).

Lemma remove_admin_verdict boss k s :
  is_ok (judge s (by_boss boss s (remove_admin_state k s)) (remove_admin_error s k)) = true
  <-> k ∈ State.admins s.
Proof.
  rewrite <- mem_key_elem. unfold by_boss, remove_admin_error, remove_admin_state, judge.
  fold (mem_key k (State.admins s)).
  destruct (key_eqb _ _); cbn.
  - destruct (replace_admin k _ _) as [l|] eqn:E; cbn.
    + apply replace_admin_Some in E as (i & Hi & _). split; [|done]. intros _.
      apply mem_key_elem. by eapply list_elem_of_lookup_2.
    + apply replace_admin_None in E. rewrite <- mem_key_elem in E.
      by destruct (mem_key _ _).
  - by destruct (mem_key _ _).
Qed.

Lemma propose_boss_verdict old new s :
  new <> Pubkey_default ->
  judge s (by_boss old s (propose_boss_state new s)) (propose_boss_error s old)
  = Ok (if key_eqb (State.boss s) old then State.with_proposed_boss new s else s).
Proof.
  intros Hn. unfold by_boss, propose_boss_state, propose_boss_error, judge.
  rewrite (proj2 (key_eqb_neq _ _) Hn). by destruct (key_eqb _ _).
Qed.

Lemma accept_boss_verdict k s :
  k <> Pubkey_default ->
  judge s (accept_boss_state k s) (accept_boss_error s k)
  = if key_eqb (State.proposed_boss s) k
    then Ok (State.with_proposed_boss Pubkey_default (State.with_boss k s)) else Err Panicked.
Proof.
  intros Hk. destruct (key_eqb _ k) eqn:E.
  - apply key_eqb_eq in E. unfold accept_boss_state. rewrite E, key_eqb_refl.
    by rewrite (proj2 (key_eqb_neq _ _) Hk).
  - destruct (accept_boss_state k s) as [s'|e] eqn:Ea; cbn.
    + unfold accept_boss_state in Ea. inv_res.
      match goal with H : key_eqb k _ = true |- _ => apply key_eqb_eq in H end.
      subst. by rewrite key_eqb_refl in E.
    + apply key_eqb_neq in E. by rewrite (proj2 (error_oracles_fail s k e) Ea E).
Qed.

(** [flow2] on the state account. *)
Definition bosses_swapped (old new : Pubkey) s : Result State.t :=
  if key_eqb (State.boss s) old || key_eqb (State.proposed_boss s) new
  then Ok (State.with_proposed_boss Pubkey_default (State.with_boss old s)) else Err Panicked.
End verdicts.

Section flows.
Context {R : Runtime} {P : Platform} {L : Type} {TL : TokenLedger L}.
Implicit Types (d : Deployment.t L) (s : State.t).

Lemma flow2_lands chain tx old new d s :
  old <> Pubkey_default -> new <> Pubkey_default -> Deployment.state_account d = Some s ->
  lands (flow2 chain tx old new d) (bosses_swapped old new s).
Proof.
  intros Ho Hn E.
  cut (lands (flow2 chain tx old new d)
    (s ← judge s (by_boss old s (propose_boss_state new s)) (propose_boss_error s old);
     s ← judge s (accept_boss_state new s) (accept_boss_error s new);
     s ← judge s (by_boss new s (propose_boss_state old s)) (propose_boss_error s new);
     judge s (accept_boss_state old s) (accept_boss_error s old))).
  - rewrite propose_boss_verdict by done. cbn. rewrite accept_boss_verdict by done.
    unfold bosses_swapped.
    destruct (key_eqb (State.boss s) old); cbn; rewrite ?key_eqb_refl;
      [|destruct (key_eqb (State.proposed_boss s) new); [|done]]; cbn;
      rewrite propose_boss_verdict by done; cbn; rewrite key_eqb_refl;
      rewrite accept_boss_verdict by done; cbn; by rewrite key_eqb_refl.
  - apply lands_bind; [by apply propose_boss_lands|]. intros d1 s1 E1.
    apply lands_bind; [by apply accept_boss_lands|]. intros d2 s2 E2.
    apply lands_bind; [by apply propose_boss_lands|]. intros d3 s3 E3.
    by apply accept_boss_lands.
Qed.

Lemma lands_is_ok (D : Result (Deployment.t L)) v : lands D v -> is_ok D = is_ok v.
Proof. by destruct D, v. Qed.

(** C27: the fuzzer's governance flows, from any deployment with a state account.
    [flow3] (adding an admin) never panics.  [flow4] (removing a key) passes exactly
    when the key is an admin: for any other key it panics, as it expects error
    6000 and the program returns [AdminNotFound].  [flow2] (proposing and accepting
    a boss there and back) passes exactly when it proposes as the boss, or the new
    boss happens to be proposed already - in the other cases it panics on the
    refused acceptance - and when it passes the old boss is boss, nobody is
    proposed, and nothing else of the state account has changed. *)
Theorem governance_flows_verdict chain tx boss d s :
  Deployment.state_account d = Some s ->
  (forall k, is_ok (flow3 chain tx boss k d) = true) /\
  (forall k, is_ok (flow4 chain tx boss k d) = true <-> k ∈ State.admins s) /\
  (forall old new, old <> Pubkey_default -> new <> Pubkey_default ->
     (is_ok (flow2 chain tx old new d) = true
        <-> State.boss s = old \/ State.proposed_boss s = new) /\
     forall d', flow2 chain tx old new d = Ok d' ->
       Deployment.state_account d' = Some (State.with_proposed_boss Pubkey_default (State.with_boss old s))).
Proof.
  intros E. split; [|split].
  - intros k. unfold flow3. rewrite (lands_is_ok _ _ (set_admin_lands chain tx boss k d s E)).
    unfold judge. by destruct (by_boss _ _ _).
  - intros k. unfold flow4. rewrite (lands_is_ok _ _ (remove_admin_lands chain tx boss k d s E)).
    apply remove_admin_verdict.
  - intros old new Ho Hn. pose proof (flow2_lands chain tx old new d s Ho Hn E) as Hl.
    rewrite (lands_is_ok _ _ Hl). unfold bosses_swapped in *. rewrite <- !key_eqb_eq.
    split.
    + destruct (key_eqb (State.boss s) old), (key_eqb (State.proposed_boss s) new); cbn; naive_solver.
    + intros d' Hd. rewrite Hd in Hl. by destruct (_ || _).
Qed.
End flows.

(** ** The drivers of the set-up *)

Section set_up.
Context {R : Runtime} {P : Platform} {PL : PlatformLaws P} {L : Type} {TL : TokenLedger L}.
Context (chain : Pubkey -> RawAccount) (tx : InstructionsSysvar) (boss : Pubkey) (pair : TokenPairs).
Implicit Types d : Deployment.t L.

(** Initializing and making the offer: a driver passes as soon as its transaction
    succeeds. *)
Lemma set_up_drivers_pass d d' :
  (forall pd onyc, run chain tx (Initialize boss program_id (Some pd) onyc) d = Ok d' ->
     setup_initialize chain tx boss pd onyc d = Ok d') /\
  (forall name, run chain tx (InitializePermissionlessAuthority boss name) d = Ok d' ->
     setup_permissionless_authority chain tx boss name d = Ok d') /\
  (forall fee na ap s, Deployment.state_account d = Some s ->
     process_transaction chain tx (MakeOfferIx
       (mkMakeOffer (token_in pair) (token_program_in pair)
          (ata_in pair (pda [seeds.OFFER_VAULT_AUTHORITY])) (token_out pair) (offer_address pair) boss)
       fee na ap) d = Ok d' ->
     make_offer chain tx boss pair fee na ap d = Ok d').
Proof using All.
  split; [|split].
  - intros pd onyc H. unfold setup_initialize. rewrite H. cbn.
    apply initialization_passes_oracles in H. cbn in H. by rewrite H.
  - intros name H. unfold setup_permissionless_authority. rewrite H. cbn.
    apply initialization_passes_oracles in H. cbn in H. by rewrite H.
  - intros fee na ap s E H. unfold make_offer. cbv zeta. rewrite H. cbn [expect_success mbind result_bind].
    apply (run_handler chain tx) in H. rewrite E in H. destruct H as (w' & H & ->).
    apply make_offer_oracle in H as [H _]. cbn in H |- *. by rewrite H.
Qed.
End set_up.

(** ** Witness: the sample deployment *)

Import Life.

Module Flows.
Definition pair : TokenPairs := mkTokenPairs Sample.usdc Sample.onyc spl_token_id spl_token_id.
Definition deployment : Deployment.t SampleLedger.t :=
  Deployment.mk (Some Sample.state) true true None
    (set_offers {[Sample.offer_key := Offer.with_vectors (replicate 10 OfferVector.default) Sample.offer]}
       Sample.world).
(** Trident's clock: the timestamp moves on. *)
Definition forward (seconds : Z) (c : Clock.t) : Clock.t :=
  Clock.mk (Clock.unix_timestamp c + seconds) (Clock.slot c) (Clock.epoch c).
Definition flow1 (apr : Z) : Result (Deployment.t SampleLedger.t) :=
  FuzzTest.flow1 chain tx Sample.boss pair forward 1000000000 apr 86400 true Sample.user deployment.
End Flows.

Lemma governance_flows_verdict_witness :
  is_ok (flow4 Life.chain Life.tx Sample.boss Sample.admin Flows.deployment) = true.
Proof.
  apply (proj1 (proj2 (governance_flows_verdict Life.chain Life.tx Sample.boss Flows.deployment
    Sample.state eq_refl))). apply list_elem_of_here.
Defined.

(** The pricing flow passes on a flat price and panics on a growing one, where the
    harness's price is linear. *)
Example flow1_flat_passes : is_ok (Flows.flow1 0) = true.
Proof. vm_compute. reflexivity. Qed.
Example flow1_growing_panics : Flows.flow1 36500 = Err Panicked.
Proof. vm_compute. reflexivity. Qed.
