(* ===== verification/FuzzStart.v ===== *)
(** * The start of a fuzz run

    [start] of [src/trident-tests/fuzz_0/test_fuzz.rs], which sets up what the flows of
    [FuzzTest] work on, with the helpers only it uses; and what becomes of it.

    The keys Trident makes up and the random amounts are parameters, and so is what
    the token programs do with the set-up transactions.  Airdrops move lamports, which
    no account of the model holds.  *)

From S2P Require Import World Approval OfferHandlers TakeOffer Lifecycle Entrypoint Client ClientFacts Harness FuzzTest Samples LifecycleFacts.
Open Scope Z_scope.

(** The instructions of the token programs that Trident builds for [start]:
    [initialize_mint], [initialize_associated_token_account] and [mint_to], each of
    either program. *)
Inductive setup_transaction : Type :=
| InitializeMint (program payer address : Pubkey) (decimals : Z) (mint_authority : Pubkey)
| InitializeAssociatedTokenAccount (program payer token_mint owner : Pubkey)
| MintTokens (program token_account token_mint mint_authority : Pubkey) (amount : Z).

(** The keys and random values of a run. *)
Record StartInputs : Type := mkStartInputs {
  payer : Pubkey;
  random_token_authority : Pubkey;
  si_onyc_mint : Pubkey;
  program_data_address : Pubkey;
  random_name : list Z;
  token_mint_a : Pubkey;
  token_mint_2022_a : Pubkey;
  token_mint_b : Pubkey;
  token_mint_2022_b : Pubkey;
  user : Pubkey;
  deposit_amount : Z;
  withdraw_amount : Z;
  start_fee_basis_points : Z
}.

Section start.
Context {R : Runtime} {P : Platform} {I : Interface} {L : Type} {TL : TokenLedger L}.
Context (chain : Pubkey -> RawAccount) (tx : InstructionsSysvar) (boss : Pubkey)
(token_transaction : setup_transaction -> L -> option L).
Implicit Types d : Deployment.t L.

(** [assert!(res.is_success())] on a request to the program. *)
Definition process_request (rq : Request) d : Result (Deployment.t L) :=
  op ← panicking (decode rq);
  expect_success (run chain tx op d).

Definition process_setup (t : setup_transaction) d : Result (Deployment.t L) :=
  let w := Deployment.others d in
  l ← panicking (token_transaction t (ledger w));
  Ok (Deployment.with_others (set_ledger l w) d).

Definition mint_to_2022_ata (token_mint owner : Pubkey) (amount : Z) (mint_authority : Pubkey) d
  : Result (Deployment.t L) :=
  let token_account := associated_token_address owner token_mint token_2022_id in
  process_setup (MintTokens token_2022_id token_account token_mint mint_authority amount) d.

Definition mint_to_ata (token_mint owner : Pubkey) (amount : Z) (mint_authority : Pubkey) d
  : Result (Deployment.t L) :=
  let token_account := associated_token_address owner token_mint spl_token_id in
  process_setup (MintTokens spl_token_id token_account token_mint mint_authority amount) d.

Definition setup_associated_token_account_2022 (payer token_mint owner : Pubkey) d
  : Result (Deployment.t L) :=
  process_setup (InitializeAssociatedTokenAccount token_2022_id payer token_mint owner) d.

Definition setup_associated_token_account (payer token_mint owner : Pubkey) d
  : Result (Deployment.t L) :=
  process_setup (InitializeAssociatedTokenAccount spl_token_id payer token_mint owner) d.

Definition setup_mint_2022 (payer address : Pubkey) (decimals : Z) (mint_authority : Pubkey) d
  : Result (Deployment.t L) :=
  process_setup (InitializeMint token_2022_id payer address decimals mint_authority) d.

Definition setup_mint (payer address : Pubkey) (decimals : Z) (mint_authority : Pubkey) d
  : Result (Deployment.t L) :=
  process_setup (InitializeMint spl_token_id payer address decimals mint_authority) d.

Definition deposit_to_vault (deposit_amount : Z) (token_mint from token_program_id : Pubkey) d
  : Result (Deployment.t L) :=
  let offer_vault_authority := pda [seeds.OFFER_VAULT_AUTHORITY] in
  let boss_ata := associated_token_address from token_mint token_program_id in
  let vault_token_account :=
    associated_token_address offer_vault_authority token_mint token_program_id in
  boss_before_deposit ← get_token_account d boss_ata;
  let vault_before_deposit := ledger_account (ledger (Deployment.others d)) vault_token_account in
  d' ← process_request
         (OfferVaultDepositInstruction.instruction
            (OfferVaultDepositInstruction.mkAccounts offer_vault_authority token_mint boss_ata
               vault_token_account boss state_key token_program_id)
            (OfferVaultDepositInstruction.mkData deposit_amount) []) d;
  vault_after_deposit ← get_token_account d' vault_token_account;
  boss_after_deposit ← get_token_account d' boss_ata;
  offer_vault_deposit_invariant boss_before_deposit boss_after_deposit vault_before_deposit
    vault_after_deposit deposit_amount;;
  Ok d'.

Definition setup_onyc_mint_and_initialize (payer mint_authority program_data_address onyc_mint : Pubkey) d
  : Result (Deployment.t L) :=
  d ← process_setup (InitializeMint token_2022_id payer onyc_mint 8 mint_authority) d;
  setup_initialize chain tx boss program_data_address onyc_mint d.

(** [start] up to the deposits: the program's state, the mints, the accounts of the
    boss. *)
Definition start_setup (i : StartInputs) d : Result (Deployment.t L) :=
  let supply := 100000000000000 in
  let authority := random_token_authority i in
  d ← setup_onyc_mint_and_initialize (payer i) authority (program_data_address i)
        (si_onyc_mint i) d;
  d ← setup_permissionless_authority chain tx boss (random_name i) d;
  d ← setup_mint (payer i) (token_mint_a i) 4 authority d;
  d ← setup_mint_2022 (payer i) (token_mint_2022_a i) 4 authority d;
  d ← setup_mint (payer i) (token_mint_b i) 9 authority d;
  d ← setup_mint_2022 (payer i) (token_mint_2022_b i) 4 authority d;
  d ← setup_associated_token_account (payer i) (token_mint_a i) boss d;
  d ← setup_associated_token_account_2022 (payer i) (token_mint_2022_a i) boss d;
  d ← setup_associated_token_account (payer i) (token_mint_b i) boss d;
  d ← setup_associated_token_account_2022 (payer i) (token_mint_2022_b i) boss d;
  d ← mint_to_ata (token_mint_a i) boss supply authority d;
  d ← mint_to_2022_ata (token_mint_2022_a i) boss supply authority d;
  d ← mint_to_ata (token_mint_b i) boss supply authority d;
  mint_to_2022_ata (token_mint_2022_b i) boss supply authority d.

(** [start]: then the deposits and withdrawals, the accounts of the user, and the
    offer of the pair the flows trade. *)
Definition start (i : StartInputs) d : Result (Deployment.t L) :=
  let supply := 100000000000000 in
  let authority := random_token_authority i in
  let vault_authority := pda [seeds.OFFER_VAULT_AUTHORITY] in
  d ← start_setup i d;
  d ← deposit_to_vault (deposit_amount i) (token_mint_a i) boss spl_token_id d;
  d ← deposit_to_vault (deposit_amount i) (token_mint_2022_a i) boss token_2022_id d;
  d ← deposit_to_vault (deposit_amount i) (token_mint_b i) boss spl_token_id d;
  d ← deposit_to_vault (deposit_amount i) (token_mint_2022_b i) boss token_2022_id d;
  d ← withdraw_from_vault chain tx boss (withdraw_amount i) (token_mint_a i) boss spl_token_id d;
  d ← withdraw_from_vault chain tx boss (withdraw_amount i) (token_mint_2022_a i) boss token_2022_id d;
  d ← withdraw_from_vault chain tx boss (withdraw_amount i) (token_mint_b i) boss spl_token_id d;
  d ← withdraw_from_vault chain tx boss (withdraw_amount i) (token_mint_2022_b i) boss token_2022_id d;
  d ← mint_to_ata (token_mint_a i) vault_authority supply authority d;
  d ← mint_to_2022_ata (token_mint_2022_a i) vault_authority supply authority d;
  d ← mint_to_ata (token_mint_b i) vault_authority supply authority d;
  d ← mint_to_2022_ata (token_mint_2022_b i) vault_authority supply authority d;
  d ← setup_associated_token_account (payer i) (token_mint_a i) (user i) d;
  d ← setup_associated_token_account_2022 (payer i) (token_mint_2022_a i) (user i) d;
  d ← setup_associated_token_account (payer i) (token_mint_b i) (user i) d;
  d ← setup_associated_token_account_2022 (payer i) (token_mint_2022_b i) (user i) d;
  d ← mint_to_ata (token_mint_a i) (user i) supply authority d;
  d ← mint_to_2022_ata (token_mint_2022_a i) (user i) supply authority d;
  make_offer chain tx boss
    (mkTokenPairs (token_mint_2022_a i) (token_mint_b i) token_2022_id spl_token_id)
    (start_fee_basis_points i) false false d.
End start.

(** ** What becomes of it *)

Section verdict.
Context {R : Runtime} {RL : RuntimeLaws R} {P : Platform} {I : Interface} {L : Type} {TL : TokenLedger L}.
Context (chain : Pubkey -> RawAccount) (tx : InstructionsSysvar) (boss : Pubkey)
(token_transaction : setup_transaction -> L -> option L).
Implicit Types d : Deployment.t L.

(** [m] either succeeds or panics. *)
Definition ok_or_panic {A} (r : Result A) : Prop := forall e, r = Err e -> e = Panicked.

Lemma ok_or_panic_panicking {A} (o : option A) : ok_or_panic (panicking o).
Proof. by destruct o; intros ? [=]. Qed.

Lemma panics_after {A B} (r : Result A) (f : A -> Result B) :
  ok_or_panic r -> (forall a, f a = Err Panicked) -> (r ≫= f) = Err Panicked.
Proof. destruct r as [a|e]; cbn; intros Hr Hf; [apply Hf|]. by rewrite (Hr e). Qed.

Lemma ok_or_panic_bind {A B} (r : Result A) (f : A -> Result B) :
  ok_or_panic r -> (forall a, ok_or_panic (f a)) -> ok_or_panic (r ≫= f).
Proof. destruct r as [a|e]; cbn; intros Hr Hf; [apply Hf|]. intros e' [= <-]. by apply Hr. Qed.
Lemma ok_or_panic_assert b : ok_or_panic (assert_ b).
Proof. by destruct b; intros ? [=]. Qed.
Lemma ok_or_panic_expect {A} (r : Result A) : ok_or_panic (expect_success r).
Proof. by destruct r; intros ? [=]. Qed.
Lemma ok_or_panic_ok {A} (a : A) : ok_or_panic (Ok a).
Proof. by intros e [=]. Qed.

Ltac ok_or_panic :=
  repeat first
    [ apply ok_or_panic_expect | apply ok_or_panic_panicking | apply ok_or_panic_assert
    | apply ok_or_panic_ok | apply ok_or_panic_bind; [|intros ?] ].

Lemma ok_or_panic_setup t d : ok_or_panic (process_setup token_transaction t d).
Proof. unfold process_setup. ok_or_panic. Qed.
Lemma ok_or_panic_initialize k m d : ok_or_panic (setup_initialize chain tx boss k m d).
Proof. unfold setup_initialize, initialize_invariant. ok_or_panic. Qed.
Lemma ok_or_panic_permissionless name d :
  ok_or_panic (setup_permissionless_authority chain tx boss name d).
Proof.
  unfold setup_permissionless_authority, initialize_permissionless_authority_invariant. ok_or_panic.
Qed.

Lemma ok_or_panic_start_setup i d : ok_or_panic (start_setup chain tx boss token_transaction i d).
Proof.
  unfold start_setup, setup_onyc_mint_and_initialize.
  apply ok_or_panic_bind; [|intros ?].
  - apply ok_or_panic_bind; [apply ok_or_panic_setup|intros ?; apply ok_or_panic_initialize].
  - apply ok_or_panic_bind; [apply ok_or_panic_permissionless|intros ?].
    repeat first [apply ok_or_panic_setup | apply ok_or_panic_bind; [|intros ?]].
Qed.

Lemma deposit_panics amount mint from program d :
  deposit_to_vault chain tx boss amount mint from program d = Err Panicked.
Proof using RL.
  unfold deposit_to_vault. apply panics_after; [apply ok_or_panic_panicking|]. intros b.
  unfold process_request. by rewrite stale_deposit_refused.
Qed.

(** C28: the fuzzer never starts.  Whatever keys and amounts Trident chooses and
    whatever the token programs do, [start] panics, at its first deposit if not
    before: [deposit_to_vault] panics in any state, as the program refuses the request
    it sends, whose accounts come in an order the program has given up. *)
Theorem start_panics i d amount mint from program :
  start chain tx boss token_transaction i d = Err Panicked /\
  deposit_to_vault chain tx boss amount mint from program d = Err Panicked.
Proof using RL.
  split; [|apply deposit_panics].
  unfold start. apply panics_after; [apply ok_or_panic_start_setup|intros ?]. by rewrite deposit_panics.
Qed.
End verdict.

#[local] Existing Instance ClientSample.interface.
#[local] Existing Instance Life.sample_platform.
#[local] Existing Instance Life.sample_platform_laws.

(** The set-up does succeed, on the sample ledger: it is the deposit that fails. *)
Module FuzzSample.
Definition token_transaction (t : setup_transaction) (l : SampleLedger.t) : option SampleLedger.t :=
  match t with
  | InitializeMint program _ address decimals mint_authority =>
      Some (SampleLedger.mk
              (<[address := Mint.mk 0 decimals (Some mint_authority) program None]> (SampleLedger.mints l))
              (SampleLedger.accounts l))
  | InitializeAssociatedTokenAccount program _ mint owner => SampleLedger.create owner mint program l
  | MintTokens program account mint authority amount =>
      info ← SampleLedger.mint l mint;
      SampleLedger.mint_to program mint account authority amount (Mint.decimals info) l
  end.

Definition inputs : StartInputs :=
  mkStartInputs 901 902 903 Life.program_data [65; 66] 904 905 906 907 908 5000 1500 10.

Definition after_setup : Result (Deployment.t SampleLedger.t) :=
  start_setup Life.chain Life.tx Sample.boss token_transaction inputs Life.start.
End FuzzSample.

Example setup_succeeds : match FuzzSample.after_setup with Ok _ => True | Err _ => False end.
Proof. vm_compute. exact I. Qed.

(** The same deposit with the accounts in the program's order. *)
Definition reordered_deposit : Request :=
  let vault := pda [seeds.OFFER_VAULT_AUTHORITY] in
  let mint := token_mint_a FuzzSample.inputs in
  mkRequest program_id
    [AccountMeta.new_readonly state_key false; AccountMeta.new_readonly vault false;
     AccountMeta.new_readonly mint false;
     AccountMeta.new (associated_token_address Sample.boss mint spl_token_id) false;
     AccountMeta.new (associated_token_address vault mint spl_token_id) false;
     AccountMeta.new Sample.boss true; AccountMeta.new_readonly spl_token_id false;
     AccountMeta.new_readonly associated_token_program_id false;
     AccountMeta.new_readonly system_program_id false]
    (OfferVaultDepositInstruction.discriminator ++ to_le_bytes 8 5000).

Example reordered_deposit_succeeds :
  match d ← FuzzSample.after_setup; process_request Life.chain Life.tx reordered_deposit d with
  | Ok _ => True | Err _ => False
  end.
Proof. vm_compute. exact I. Qed.

Lemma start_panics_witness :
  start Life.chain Life.tx Sample.boss FuzzSample.token_transaction FuzzSample.inputs Life.start
  = Err Panicked.
Proof.
  exact (proj1 (start_panics Life.chain Life.tx Sample.boss FuzzSample.token_transaction
    FuzzSample.inputs Life.start 0 Sample.usdc Sample.boss spl_token_id)).
Defined.
